(* ===== verification/_CoqProject ===== *)
-Q . S2P
Prelude.v
JsString.v
JsNumber.v
JsValue.v
Json.v
Uri.v
TextDecoder.v
Prog.v
ProgEq.v
Http.v
Sdk.v
SdkSpec.v
SdkPaths.v
SdkRealtime.v
SdkDist.v
SdkTypes.v
Browser.v
Tasks.v
Session.v
ApiClient.v
AuthClientWeb.v
CodeEditor.v
Types.v
ConsoleUtils.v
Clipboard.v
Ui.v
UiKit.v
Nav.v
Activity.v
Shell.v
Concurrent.v
Page.v
Forms.v
KeysView.v
DataView.v
StorageView.v
FunctionsView.v
AuthView.v
PushView.v
OpsView.v
QueryCache.v
Witnesses.v
