(* ===== verification/Prelude.v ===== *)
(** * Peanut's client side: a verification library

    Peanut is a backend-as-a-service whose JavaScript and TypeScript parts are
    the SDK that applications use, the administration console, and a demo
    page.  This library models those parts and proves the properties that make
    them correct.  The server, the browser and the network are parameters: the
    theorems hold for every server, every storage quota and every answer of
    the platform.

    ** How the code is modelled

    Text is a list of UTF-16 code units ([JsString]), numbers are IEEE
    binary64 ([JsNumber], on the specification floats of the standard
    library), values are JSON-like trees with [undefined] ([JsValue]).  An
    expression that may throw is a [res]: [Ok] or [Err] with the thrown value.
    An async function is a [prog E A] ([Prog]): it returns, throws, or performs
    one operation of the effect signature [E] (a fetch, a storage access, a
    timer, a change of the page) and continues with the answer; [run]
    interprets the operations in a state that also logs what was done.
    Components of the console render to a [node] ([Ui]) whose controls carry
    the action they trigger; styling and icons are left out.  A mutation is a
    program for its request and a callback for its success.  Values whose
    declared type is a named interface have a record of [Types]; those typed
    as unknown records stay JSON.

    ** Files

    - [Prelude]: outcomes, notations, tactics, generic lemmas, hints.
    - [JsString], [JsNumber], [JsValue], [Json], [Uri]: the language's strings,
      numbers, values, [JSON.parse] and [JSON.stringify] (with their round
      trip and enough fuel for every text), percent encoding, UTF-8 and form
      encoding (with their round trips).
    - [TextDecoder]: the platform's streaming UTF-8 decoder, which keeps an
      unfinished character between chunks.
    - [Prog], [ProgEq], [Http], [Browser]: effectful programs and their
      observational equivalence (a congruence for sequencing and [catch], with
      [Proper] instances); headers, requests and responses; storage areas,
      window and network of the console.
    - [Tasks]: programs as concurrent tasks that are interrupted only where
      they wait for the network, the step relation of all interleavings, and a
      small program logic for shared invariants.
    - [Sdk]: [sdks/js/src/index.ts], every method of the client and of the
      auth, data, storage, push and functions clients.  [SdkSpec]: the retry
      loop refines an abstract policy; what is sent; outcomes; tokens.
      [SdkPaths]: paths and queries decode to what the caller gave.
      [SdkRealtime]: [subscribeTable] on the bytes of the stream, whose events
      do not depend on how the bytes are cut into chunks unless the handler
      closes the subscription.  [SdkTypes]: the declared interfaces, and what
      a well-typed login gives.
    - [SdkDist]: [sdks/js/dist/index.js], the committed build that the package
      publishes, translated on its own and compared with [Sdk].
    - [Session], [ApiClient]: [console/src/lib/api/session.ts], [client.ts] and
      [auth.ts]: stored sessions, authenticated requests with one refresh and
      one repetition, error objects, sign-in and sign-out.
    - [AuthClientWeb]: [examples/auth-client-web/app.js], the whole script.
    - [CodeEditor]: [shared/code-editor.tsx] as a state machine with its
      history, indentation and animation frames.
    - [Types], [ConsoleUtils], [Clipboard]: [lib/api/types.ts], [types.ts] and
      [utils/*.ts] of the console.
    - [Ui], [Nav], [Activity], [Shell], [Forms]: shared components, navigation
      and locale, activity labels, the application shell with its sign-in
      screen and error boundary, and what the views' forms share.
    - [UiKit]: every component of [console/src/components/ui] as a function of
      its props, and [lib/utils.ts].  [Page]: [app/page.tsx], [app/layout.tsx],
      [providers.tsx] and the tree of [i18n/provider.tsx].
    - [Concurrent]: the activities that touch the stored session (requests,
      downloads, the reaction to a rejected session, sign-in, sign-out) as
      tasks.
    - [KeysView] (with the projects view), [DataView], [StorageView],
      [FunctionsView], [AuthView], [PushView], [OpsView] (with the overview):
      the views, each with its state, queries, mutations, callbacks and
      rendering.
    - [QueryCache]: the key and the function of every [useQuery] of the
      console, and what every mutation requests and invalidates.
    - [Witnesses]: concrete runs at which the hypotheses of the theorems hold.

    ** What the theorems show

    - Requests: the retry loop performs exactly the abstract policy and never
      exceeds its budget; every request carries the credentials and cannot be
      redirected by the data in it; [apiFetch] sends its request, at most one
      refresh and at most one repetition, and terminates.
    - Sessions: at most one storage area holds a session, also when storing
      fails half-way; stored sessions are read back; signing out always
      succeeds; a rejected session is renewed or dropped; the token follows
      login, refresh and logout.
    - Concurrency: in every reachable state of every interleaving the stored
      session is in one area and other items are untouched; every fair
      schedule finishes every activity within three requests each; two races
      are stated as theorems (two renewals at once, a renewal that outlives a
      sign-out).
    - Caching: uses that share a query key fetch the same; a mutation
      invalidates the queries of the resource closest to the path it writes,
      and none of another project.
    - Outcomes: what [request] and [apiFetch] return or throw on every branch,
      with the requests that led to it.
    - The published build does what the source does, except for the sub-client
      and the methods it lacks, whose use is a [TypeError].
    - Types: a login of the declared type authenticates the following requests.
      (A lemma of [UiKit] shows that the components of the kit pass their
      caller's props through.)
    - Encodings: row and object paths and query strings give back what was put
      in; the JSON editors send what they were opened with, for a row what it
      had when its component was mounted.
    - State machines: the editor's history invariant, undo, and Tab against
      Shift+Tab; the functions page under every interleaving of selections and
      arriving drafts; every button of the demo page ends well.
    - Pages: the enabled controls are exactly those the data allows (revoked
      keys, the default project, active versions, inactive sessions, pending
      restores).
    - Flaws: theorems that state what the code does where it is not what it
      means to do (drafts that arrive late, unencoded object keys, the races),
      and lemmas for others (saving before a draft is loaded, a stale row).

    ** Fuel and bounds

    Recursion is structural except where fuel is named.  [Json.parse_value]:
    [json_fuel] (twice the length of the text, plus two) is proved to be enough
    ([json_parse_fuel]).  [Sdk.retry_loop]: the loop's own counter bounds it, and
    [fetchWithRetry_refines] gives the result for every non-negative
    [maxRetries].  [Api.api_fetch]: the recursion passes through the refresh
    request, which is not authenticated, so two levels are enough
    ([apiFetch_terminates]).  [Utils.scale]: three steps, one per larger unit
    ([formatBytes_scaled]).  Printing numbers: [digits_of] has fuel for every
    number ([digits_of_spec]); the search for the shortest decimal tries the 17
    digits a binary64 number can need, and values whose text must be read back
    are those that satisfy the check [num_ok].

    ** What is not modelled

    The query library itself (its storage, refetching, its retry): queries are
    programs, their results are inputs of the rendering, and the rule by which
    a filter selects keys is a hypothesis.  The widget primitives and class
    utilities below [components/ui] are tags and parameters; the views'
    rendering leaves out layout, styling and icons.  The message catalogues (a
    translator is a parameter) and [toLocaleString].  Aborting a fetch in flight
    by its timer is an answer of the network.  The console's minified bundles
    and the build's type declarations, which have no behaviour of their own to
    compare.  The server, in Rust: it is the parameter of every theorem.

    ** Plan

    Next: the timing of the query cache (stale time, refetch on focus) over
    [QueryCache], the views' mutations as further tasks of [Concurrent], an
    interface between the views and the request layer so that the views'
    theorems are stated for any transport, and the type declarations of the
    build. *)

From Stdlib Require Export ZArith NArith Lia.
From stdpp Require Export base gmap strings numbers option.
From stdpp Require Export list.

(** ** Outcomes of JavaScript evaluation

    A JavaScript expression either produces a value or throws; [res E A] is
    that outcome, with [E] the type of thrown values. *)
Inductive res (E A : Type) : Type :=
| Ok (a : A)
| Err (e : E).
Arguments Ok {E A} a.
Arguments Err {E A} e.

Definition res_bind {E A B} (x : res E A) (f : A -> res E B) : res E B :=
  match x with Ok a => f a | Err e => Err e end.

Definition res_map {E A B} (f : A -> B) (x : res E A) : res E B :=
  match x with Ok a => Ok (f a) | Err e => Err e end.

Definition is_ok {E A} (x : res E A) : bool :=
  match x with Ok _ => true | Err _ => false end.

(** Inversion of outcomes that leaves the values as they are written. *)
Lemma Ok_inj {E A} (a b : A) : @Ok E A a = Ok b -> a = b.
Proof. congruence. Qed.

Lemma Err_inj {E A} (a b : E) : @Err E A a = Err b -> a = b.
Proof. congruence. Qed.

Lemma Some_inj' {A} (a b : A) : Some a = Some b -> a = b.
Proof. congruence. Qed.

Declare Scope res_scope.
Delimit Scope res_scope with res.
Notation "'let!' x ':=' c 'in' k" := (res_bind c (fun x => k))
  (at level 10, x name, c at level 100, k at level 200) : res_scope.
Open Scope res_scope.

(** ** Tactics *)

(** Case analysis on the innermost scrutinee of the goal. *)
Ltac split_match :=
  match goal with
  | |- context [match ?x with _ => _ end] =>
      lazymatch x with
      | context [match _ with _ => _ end] => fail
      | _ => let E := fresh "E" in destruct x eqn:E
      end
  end.

(** The same on a hypothesis. *)
Ltac split_match_in H :=
  match type of H with
  | context [match ?x with _ => _ end] =>
      lazymatch x with
      | context [match _ with _ => _ end] => fail
      | _ => let E := fresh "E" in destruct x eqn:E
      end
  end.

(** Turn the boolean tests of the context into propositions. *)
Ltac reflect_bools :=
  repeat match goal with
  | H : (_ && _)%bool = true |- _ => apply andb_prop in H; destruct H
  | H : (_ || _)%bool = false |- _ => apply orb_false_elim in H; destruct H
  | H : negb _ = true |- _ => apply negb_true_iff in H
  | H : negb _ = false |- _ => apply negb_false_iff in H
  | H : N.eqb _ _ = true |- _ => apply N.eqb_eq in H
  | H : N.eqb _ _ = false |- _ => apply N.eqb_neq in H
  | H : N.leb _ _ = true |- _ => apply N.leb_le in H
  | H : N.leb _ _ = false |- _ => apply N.leb_gt in H
  | H : N.ltb _ _ = true |- _ => apply N.ltb_lt in H
  | H : N.ltb _ _ = false |- _ => apply N.ltb_ge in H
  | H : Z.eqb _ _ = true |- _ => apply Z.eqb_eq in H
  | H : Z.eqb _ _ = false |- _ => apply Z.eqb_neq in H
  | H : Z.leb _ _ = true |- _ => apply Z.leb_le in H
  | H : Z.leb _ _ = false |- _ => apply Z.leb_gt in H
  | H : Z.ltb _ _ = true |- _ => apply Z.ltb_lt in H
  | H : Z.ltb _ _ = false |- _ => apply Z.ltb_ge in H
  | H : Nat.eqb _ _ = true |- _ => apply Nat.eqb_eq in H
  | H : Nat.eqb _ _ = false |- _ => apply Nat.eqb_neq in H
  | H : Nat.leb _ _ = true |- _ => apply Nat.leb_le in H
  | H : Nat.leb _ _ = false |- _ => apply Nat.leb_gt in H
  | H : bool_decide _ = true |- _ => apply bool_decide_eq_true in H
  | H : bool_decide _ = false |- _ => apply bool_decide_eq_false in H
  end.

(** ** Lists *)
Section Lists.
Context {A B : Type}.

Lemma Forall_app_2 (P : A -> Prop) l k : Forall P l -> Forall P k -> Forall P (l ++ k).
Proof. intros; apply Forall_app; auto. Qed.

Lemma map_inj_on (P : A -> Prop) (f : A -> B) l k :
  (forall x y, P x -> P y -> f x = f y -> x = y) ->
  Forall P l -> Forall P k -> map f l = map f k -> l = k.
Proof.
  intros Hinj Hl. revert k. induction Hl as [|x l Hx Hl IH]; intros [|y k] Hk He;
    simplify_eq/=; auto.
  inversion Hk; subst. f_equal; auto.
Qed.
End Lists.

Create HintDb peanut.
#[export] Hint Resolve Forall_app_2 : peanut.
