(* ===== verification/JsString.v ===== *)
(** * JavaScript strings

    A JavaScript string is a sequence of 16-bit code units; [jsstring] is the
    list of their values.  This file holds the string operations the
    sources use ([split], [join], [slice], [trim], [startsWith], [includes],
    [lastIndexOf], [toLowerCase] on ASCII, the two trailing-slash regular
    expressions) and the lemmas the components share about them. *)

From S2P Require Import Prelude.

Definition jsstring := list N.

#[export] Instance jsstring_eq_dec : EqDecision jsstring := _.
#[export] Instance jsstring_countable : Countable jsstring := _.

(** A source literal. Every literal of the modelled sources is ASCII. *)
Definition js (s : string) : jsstring :=
  map Ascii.N_of_ascii (String.list_ascii_of_string s).
Arguments js : simpl never.

Definition jseq (a b : jsstring) : bool := bool_decide (a = b).

Lemma jseq_refl a : jseq a a = true.
Proof. unfold jseq. by apply bool_decide_eq_true. Qed.

Lemma jseq_eq a b : jseq a b = true <-> a = b.
Proof. apply bool_decide_eq_true. Qed.

Lemma jseq_neq a b : jseq a b = false <-> a <> b.
Proof. apply bool_decide_eq_false. Qed.

(** A string used as a condition: only the empty string is falsy. *)
Definition nonempty (s : jsstring) : bool :=
  match s with [] => false | _ => true end.

(** Code units named in the sources. *)
Abbreviation cu_tab := 9%N.
Abbreviation cu_nl := 10%N.
Abbreviation cu_space := 32%N.
Abbreviation cu_amp := 38%N.
Abbreviation cu_slash := 47%N.
Abbreviation cu_eq := 61%N.
Abbreviation cu_question := 63%N.
Abbreviation cu_percent := 37%N.
Abbreviation cu_plus := 43%N.
Abbreviation cu_hash := 35%N.
Abbreviation cu_comma := 44%N.

(** Well-formed code unit sequences: every element fits 16 bits. *)
Definition units (s : jsstring) : Prop := Forall (fun c => (c < 65536)%N) s.

(** ** Prefix and substring tests *)

Fixpoint starts_with (p s : jsstring) : bool :=
  match p, s with
  | [], _ => true
  | c :: p', d :: s' => N.eqb c d && starts_with p' s'
  | _ :: _, [] => false
  end.

Lemma starts_with_spec p s : starts_with p s = true <-> exists r, s = p ++ r.
Proof.
  revert s. induction p as [|c p IH]; intros s; simpl.
  { split; eauto. }
  destruct s as [|d s]; [split; [done|intros [r Hr]; done]|].
  rewrite andb_true_iff, N.eqb_eq, IH. split.
  - intros [-> [r ->]]. eauto.
  - intros [r Hr]. injection Hr as -> ->. eauto.
Qed.

Lemma starts_with_app p s : starts_with p (p ++ s) = true.
Proof. apply starts_with_spec. eauto. Qed.

Fixpoint includes (p s : jsstring) : bool :=
  starts_with p s || match s with [] => false | _ :: s' => includes p s' end.

Lemma includes_spec p s : includes p s = true <-> exists a b, s = a ++ p ++ b.
Proof.
  induction s as [|c s IH]; simpl; rewrite orb_true_iff, starts_with_spec.
  - split.
    + intros [[r Hr]|]; [|done]. exists [], r. done.
    + intros (a & b & H). left. destruct a; [eauto|done].
  - rewrite IH. split.
    + intros [[r Hr]|(a & b & ->)]; [exists [], r; done|exists (c :: a), b; done].
    + intros ([|x a] & b & H); simplify_eq/=; [left; eauto|right; eauto].
Qed.

(** ** [split] and [join] *)

(** [s.split(sep)] for a non-empty separator: leftmost, non-overlapping. *)
Fixpoint split_go (sep : jsstring) (skip : nat) (s : jsstring) : list jsstring :=
  match s with
  | [] => [[]]
  | c :: s' =>
      match skip with
      | S k => split_go sep k s'
      | O =>
          if starts_with sep (c :: s') then [] :: split_go sep (length sep - 1) s'
          else match split_go sep 0 s' with
               | h :: t => (c :: h) :: t
               | [] => [[c]]
               end
      end
  end.

Definition split (sep s : jsstring) : list jsstring := split_go sep 0 s.

Fixpoint join (sep : jsstring) (l : list jsstring) : jsstring :=
  match l with
  | [] => []
  | [x] => x
  | x :: l' => x ++ sep ++ join sep l'
  end.

Lemma join_cons sep x y l : join sep (x :: y :: l) = x ++ sep ++ join sep (y :: l).
Proof. done. Qed.

Lemma split_go_cons sep k s : exists h t, split_go sep k s = h :: t.
Proof.
  revert k. induction s as [|c s IH]; intros k; simpl; [eauto|].
  destruct k; [|apply IH].
  destruct (starts_with sep (c :: s)); [eauto|].
  destruct (IH 0) as (h & t & ->). eauto.
Qed.

Lemma join_split_go sep k s : join sep (split_go sep k s) = drop k s \/ sep = [].
Proof.
  destruct sep as [|x sep]; [by right|left].
  revert k. induction s as [|c s IH]; intros k; [by destruct k|].
  destruct k as [|k]; [|apply IH].
  cbn [split_go drop]. destruct (starts_with (x :: sep) (c :: s)) eqn:E.
  - apply starts_with_spec in E as [r E]. simpl in E. injection E as -> ->.
    specialize (IH (length (x :: sep) - 1)).
    destruct (split_go_cons (x :: sep) (length (x :: sep) - 1) (sep ++ r)) as (h & t & Ht).
    rewrite Ht in IH |- *. rewrite join_cons, IH. simpl.
    by rewrite Nat.sub_0_r, drop_app_length.
  - specialize (IH 0). destruct (split_go_cons (x :: sep) 0 s) as (h & t & Ht).
    rewrite Ht in IH |- *. rewrite drop_0 in IH.
    destruct t; [simpl in *; by subst|].
    rewrite join_cons in IH |- *. simpl. by rewrite <- IH.
Qed.

(** Splitting and joining on the same separator is the identity. *)
Lemma join_split sep s : sep <> [] -> join sep (split sep s) = s.
Proof.
  intros Hsep. destruct (join_split_go sep 0 s) as [H|H]; [|done].
  unfold split. by rewrite H, drop_0.
Qed.

Lemma split_char_none c s : c ∉ s -> split [c] s = [s].
Proof.
  unfold split. induction s as [|d s IH]; intros Hn; [done|].
  apply not_elem_of_cons in Hn as [Hd Hn]. simpl.
  destruct (N.eqb_spec c d); [done|]. simpl. by rewrite IH.
Qed.

Lemma split_char_app c p s : c ∉ p -> split [c] (p ++ c :: s) = p :: split [c] s.
Proof.
  unfold split. induction p as [|d p IH]; intros Hn; simpl.
  - by rewrite N.eqb_refl.
  - apply not_elem_of_cons in Hn as [Hd Hn].
    destruct (N.eqb_spec c d); [done|]. simpl. by rewrite IH.
Qed.

(** Joining separator-free parts and splitting again gives the parts back. *)
Lemma split_join_char c l :
  l <> [] -> Forall (fun p => c ∉ p) l -> split [c] (join [c] l) = l.
Proof.
  intros Hne Hl. induction Hl as [|p l Hp Hl IH]; [done|].
  destruct l as [|q l]; [by apply split_char_none|].
  rewrite join_cons. etransitivity; [by apply (split_char_app c p)|].
  f_equal. by apply IH.
Qed.

Lemma split_char_free c s : Forall (fun p => c ∉ p) (split [c] s).
Proof.
  unfold split. induction s as [|d s IH]; simpl.
  - constructor; [apply not_elem_of_nil|constructor].
  - destruct (N.eqb_spec c d) as [->|Hne]; simpl.
    + constructor; [apply not_elem_of_nil|done].
    + destruct (split_go_cons [c] 0 s) as (h & t & Ht). rewrite Ht in IH |- *.
      inversion IH; subst. constructor; [|done].
      apply not_elem_of_cons; done.
Qed.

(** The parts of a string have the properties of its characters. *)
Lemma split_go_forallb (f : N -> bool) sep k s :
  forallb f s = true -> Forall (fun p => forallb f p = true) (split_go sep k s).
Proof.
  revert k. induction s as [|c s IH]; intros k Hf; [by constructor|].
  cbn [forallb] in Hf. apply andb_prop in Hf as [Hc Hf]. cbn [split_go].
  destruct k as [|k]; [|by apply IH]. destruct (starts_with sep (c :: s)).
  - constructor; [done|]. by apply IH.
  - pose proof (IH 0 Hf) as H. destruct (split_go sep 0 s) as [|h t]; constructor.
    + cbn [forallb]. by rewrite Hc.
    + constructor.
    + apply Forall_cons in H as [H _]. cbn [forallb]. by rewrite Hc.
    + by apply Forall_cons in H as [_ H].
Qed.

(** ** [slice], [lastIndexOf], [trim], [toLowerCase] *)

(** [s.slice(i, j)] for [0 <= i] and [0 <= j]. *)
Definition slice (i j : nat) (s : jsstring) : jsstring := drop i (take j s).

(** [s.slice(i)] for [0 <= i]. *)
Definition slice_from (i : nat) (s : jsstring) : jsstring := drop i s.

(** [JS whitespace and line terminators], removed by [trim]. *)
Definition is_space (c : N) : bool :=
  (((9 <=? c) && (c <=? 13)) || (c =? 32) || (c =? 160) || (c =? 5760)
  || ((8192 <=? c) && (c <=? 8202)) || (c =? 8232) || (c =? 8233)
  || (c =? 8239) || (c =? 8287) || (c =? 12288) || (c =? 65279))%N.

Fixpoint drop_while (f : N -> bool) (s : jsstring) : jsstring :=
  match s with
  | [] => []
  | c :: s' => if f c then drop_while f s' else s
  end.

Definition trim_end (f : N -> bool) (s : jsstring) : jsstring :=
  reverse (drop_while f (reverse s)).

Definition trim (s : jsstring) : jsstring := trim_end is_space (drop_while is_space s).

(** [s.replace(/\/+$/, "")] removes every trailing slash. *)
Definition strip_slashes (s : jsstring) : jsstring := trim_end (N.eqb cu_slash) s.

(** [s.replace(/\/$/, "")] removes one trailing slash. *)
Definition strip_slash (s : jsstring) : jsstring :=
  match reverse s with
  | c :: r => if N.eqb c cu_slash then reverse r else s
  | [] => s
  end.

Definition lower_ascii (c : N) : N :=
  if ((65 <=? c) && (c <=? 90))%N then (c + 32)%N else c.

Definition to_lower (s : jsstring) : jsstring := map lower_ascii s.

Lemma drop_while_head f s c r : drop_while f s = c :: r -> f c = false.
Proof.
  induction s as [|d s IH]; simpl; [done|].
  destruct (f d) eqn:E; [done|]. intros H. by simplify_eq.
Qed.

Lemma drop_while_suffix f s : exists p, s = p ++ drop_while f s /\ Forall (fun c => f c = true) p.
Proof.
  induction s as [|d s [p [Hp Hf]]]; simpl; [exists []; auto|].
  destruct (f d) eqn:E; [|exists []; auto].
  exists (d :: p). simpl. rewrite <- Hp. auto.
Qed.

Lemma drop_while_all f p s : Forall (fun c => f c = true) p -> drop_while f (p ++ s) = drop_while f s.
Proof. induction 1 as [|c p Hc Hp IH]; simpl; [done|]. by rewrite Hc. Qed.

Lemma trim_end_prefix f s : exists q, s = trim_end f s ++ q /\ Forall (fun c => f c = true) q.
Proof.
  unfold trim_end. destruct (drop_while_suffix f (reverse s)) as (p & Hp & Hf).
  exists (reverse p). split.
  - rewrite <- reverse_app, <- Hp. by rewrite reverse_involutive.
  - by apply Forall_reverse.
Qed.

Lemma trim_end_last f s r c : trim_end f s = r ++ [c] -> f c = false.
Proof.
  unfold trim_end. intros H. apply (f_equal reverse) in H.
  rewrite reverse_involutive, reverse_app in H. simpl in H.
  by eapply drop_while_head.
Qed.

Lemma trim_end_app f s q : Forall (fun c => f c = true) q -> trim_end f (s ++ q) = trim_end f s.
Proof.
  intros Hq. unfold trim_end. rewrite reverse_app, drop_while_all; [done|].
  by apply Forall_reverse.
Qed.

Lemma trim_end_id f s : (forall r c, s = r ++ [c] -> f c = false) -> trim_end f s = s.
Proof.
  intros H. destruct (trim_end_prefix f s) as (q & Hs & Hq).
  destruct (reverse q) as [|c q'] eqn:E.
  - apply (f_equal reverse) in E. rewrite reverse_involutive in E. subst q.
    by rewrite app_nil_r in Hs.
  - apply (f_equal reverse) in E. rewrite reverse_involutive, reverse_cons in E. subst q.
    apply Forall_app in Hq as [_ Hc]. inversion Hc; subst.
    rewrite (app_assoc (trim_end f s)) in Hs.
    apply H in Hs. congruence.
Qed.

Lemma strip_slashes_idem s : strip_slashes (strip_slashes s) = strip_slashes s.
Proof. apply trim_end_id. intros r c Hc. by eapply trim_end_last. Qed.

(** [value.lastIndexOf(c, from)], as [Some i] for an index found at or before
    [from].  [None] stands for -1. *)
Fixpoint last_index_upto (c : N) (n : nat) (s : jsstring) : option nat :=
  match n with
  | O => None
  | S m =>
      match s !! m with
      | Some d => if N.eqb d c then Some m else last_index_upto c m s
      | None => last_index_upto c m s
      end
  end.

Lemma last_index_upto_Some c n s i :
  last_index_upto c n s = Some i ->
  i < n /\ s !! i = Some c /\ forall j, i < j -> j < n -> s !! j <> Some c.
Proof.
  induction n as [|m IH]; simpl; [done|].
  destruct (s !! m) as [d|] eqn:Ed.
  - destruct (N.eqb_spec d c) as [->|Hne].
    + intros [= <-]. split_and!; [lia|done|]. intros; lia.
    + intros H. destruct (IH H) as (Hi & Hc & Hj). split_and!; [lia|done|].
      intros j ??. destruct (decide (j = m)) as [->|]; [congruence|]. apply Hj; lia.
  - intros H. destruct (IH H) as (Hi & Hc & Hj). split_and!; [lia|done|].
    intros j ??. destruct (decide (j = m)) as [->|]; [congruence|]. apply Hj; lia.
Qed.

Lemma last_index_upto_None c n s :
  last_index_upto c n s = None -> forall j, j < n -> s !! j <> Some c.
Proof.
  induction n as [|m IH]; simpl; [intros; lia|].
  destruct (s !! m) as [d|] eqn:Ed.
  - destruct (N.eqb_spec d c); [done|]. intros H j Hj.
    destruct (decide (j = m)) as [->|]; [congruence|]. apply IH; [done|lia].
  - intros H j Hj. destruct (decide (j = m)) as [->|]; [congruence|]. apply IH; [done|lia].
Qed.

#[export] Hint Resolve starts_with_app jseq_refl split_char_free : peanut.
