(* ===== verification/JsNumber.v ===== *)
(** * JavaScript numbers

    A Number is an IEEE 754 binary64 value, here a [spec_float] with a 53-bit
    significand ([SpecFloat] holds the exact rounding operations).  This file
    holds the conversions the sources use: a decimal literal to the nearest
    double, and [Number::toString], which prints the shortest decimal that
    reads back as the same double. *)

From S2P Require Import Prelude JsString.
From Stdlib Require Import SpecFloat.

Definition num := spec_float.

#[export] Instance num_eq_dec : EqDecision num.
Proof. solve_decision. Defined.

Definition prec : Z := 53.
Definition emax : Z := 1024.

Definition num_of_Z (z : Z) : num := binary_normalize prec emax z 0 false.

(** The double nearest to [(-1)^neg * m * 10^e]. *)
Definition num_of_decimal (neg : bool) (m : N) (e : Z) : num :=
  match m with
  | N0 => S754_zero neg
  | Npos p =>
      if (0 <=? e)%Z then
        binary_normalize prec emax ((if neg then -1 else 1) * (Z.pos p * 10 ^ e)) 0 neg
      else
        match (10 ^ (- e))%Z with
        | Zpos q => SFdiv prec emax (S754_finite neg p 0) (S754_finite false q 0)
        | _ => S754_nan
        end
  end.

(** ** Decimal digits *)

Fixpoint digits_go (fuel : nat) (n : N) (acc : jsstring) : jsstring :=
  match fuel with
  | O => acc
  | S f =>
      let acc' := (48 + n mod 10)%N :: acc in
      if (n / 10 =? 0)%N then acc' else digits_go f (n / 10) acc'
  end.

(** The decimal digits of [n], most significant first. *)
Definition digits_of (n : N) : jsstring := digits_go (S (N.to_nat (N.log2 n))) n [].

Definition is_digit (c : N) : bool := ((48 <=? c) && (c <=? 57))%N.

(** The value of a digit sequence. *)
Definition digits_val (l : jsstring) : N := fold_left (fun a d => (a * 10 + (d - 48))%N) l 0%N.

Definition string_of_Z (z : Z) : jsstring :=
  match z with
  | Z0 => js "0"
  | Zpos p => digits_of (Npos p)
  | Zneg p => 45%N :: digits_of (Npos p)
  end.

(** ** [Number::toString] *)

(** The rational value of a positive finite double: numerator, denominator. *)
Definition num_ratio (m : positive) (e : Z) : Z * Z :=
  if (0 <=? e)%Z then (Z.pos m * 2 ^ e, 1)%Z else (Z.pos m, 2 ^ (- e))%Z.

(** [n] with [10^(n-1) <= p/q < 10^n], found by search from an estimate. *)
Fixpoint decimal_point (fuel : nat) (n p q : Z) : Z :=
  match fuel with
  | O => n
  | S f =>
      let lo := if (0 <=? n - 1)%Z then (q * 10 ^ (n - 1) <=? p)%Z
                else (q <=? p * 10 ^ (1 - n))%Z in
      let hi := if (0 <=? n)%Z then (p <? q * 10 ^ n)%Z else (p * 10 ^ (- n) <? q)%Z in
      if lo then (if hi then n else decimal_point f (n + 1) p q)
      else decimal_point f (n - 1) p q
  end.

(** Quotient and doubled remainder of [(p/q) / 10^t]. *)
Definition scaled_div (p q t : Z) : Z * Z * Z :=
  let '(a, b) := if (0 <=? t)%Z then (p, q * 10 ^ t)%Z else (p * 10 ^ (- t), q)%Z in
  let '(d, r) := Z.div_eucl a b in (d, 2 * r, b)%Z.

(** The shortest digits: the least [k <= 17] for which a [k]-digit decimal
    near [p/q] reads back as [x]; nearest candidate first. *)
Fixpoint shortest (fuel : nat) (k : Z) (m : positive) (e : Z) (n p q : Z) : Z * Z * Z :=
  match fuel with
  | O => (k, n, p)
  | S f =>
      let '(d, r2, b) := scaled_div p q (n - k) in
      let try (s : Z) :=
        bool_decide (num_of_decimal false (Z.to_N s) (n - k) = S754_finite false m e) in
      let near := if (r2 <? b)%Z then d else (d + 1)%Z in
      let far := if (r2 <? b)%Z then (d + 1)%Z else d in
      let emit (s : Z) := if (s =? 10 ^ k)%Z then (1, n + 1, 1)%Z else (k, n, s) in
      if try near then emit near
      else if try far then emit far
      else shortest f (k + 1) m e n p q
  end.

Definition zeros (k : Z) : jsstring := replicate (Z.to_nat k) 48%N.

(** The textual layout of [s * 10^(n-k)] with [k] digits. *)
Definition layout (k n s : Z) : jsstring :=
  let ds := digits_of (Z.to_N s) in
  if ((k <=? n) && (n <=? 21))%Z then ds ++ zeros (n - k)
  else if ((0 <? n) && (n <=? 21))%Z then take (Z.to_nat n) ds ++ js "." ++ drop (Z.to_nat n) ds
  else if ((-6 <? n) && (n <=? 0))%Z then js "0." ++ zeros (- n) ++ ds
  else
    let ex := (if (0 <=? n - 1)%Z then js "e+" else js "e-") ++ digits_of (Z.to_N (Z.abs (n - 1))) in
    if (k =? 1)%Z then ds ++ ex else take 1 ds ++ js "." ++ drop 1 ds ++ ex.

Definition num_to_string (x : num) : jsstring :=
  match x with
  | S754_nan => js "NaN"
  | S754_zero _ => js "0"
  | S754_infinity s => (if s then js "-" else []) ++ js "Infinity"
  | S754_finite s m e =>
      let '(p, q) := num_ratio m e in
      let est := ((Z.log2 (Z.pos m) + e) * 30103 / 100000)%Z in
      let n := decimal_point 10 est p q in
      let '(k, n', sd) := shortest 17 1 m e n p q in
      (if s then js "-" else []) ++ layout k n' sd
  end.

(** ** Reading a JSON number *)

Fixpoint take_digits (s : jsstring) : jsstring * jsstring :=
  match s with
  | c :: s' => if is_digit c then let '(d, r) := take_digits s' in (c :: d, r) else ([], s)
  | [] => ([], [])
  end.

Definition parse_int (s : jsstring) : option (jsstring * jsstring) :=
  match s with
  | c :: s' =>
      if (c =? 48)%N then Some ([c], s')
      else match take_digits s with
           | ([], _) => None
           | p => Some p
           end
  | [] => None
  end.

Definition parse_frac (s : jsstring) : option (jsstring * jsstring) :=
  match s with
  | c :: s' =>
      if (c =? 46)%N then
        match take_digits s' with
        | ([], _) => None
        | p => Some p
        end
      else Some ([], s)
  | [] => Some ([], s)
  end.

Definition parse_exp (s : jsstring) : option (Z * jsstring) :=
  match s with
  | c :: s' =>
      if ((c =? 101) || (c =? 69))%N then
        let '(neg, s2) := match s' with
                          | d :: r => if (d =? 45)%N then (true, r)
                                      else if (d =? 43)%N then (false, r) else (false, s')
                          | [] => (false, s')
                          end in
        match take_digits s2 with
        | ([], _) => None
        | (ds, r) => Some ((if neg then - Z.of_N (digits_val ds) else Z.of_N (digits_val ds))%Z, r)
        end
      else Some (0%Z, s)
  | [] => Some (0%Z, s)
  end.

Definition parse_unsigned (neg : bool) (s : jsstring) : option (num * jsstring) :=
  match parse_int s with
  | None => None
  | Some (ids, r1) =>
      match parse_frac r1 with
      | None => None
      | Some (fds, r2) =>
          match parse_exp r2 with
          | None => None
          | Some (ex, r3) =>
              Some (num_of_decimal neg (digits_val (ids ++ fds)) (ex - Z.of_nat (length fds)), r3)
          end
      end
  end.

Definition parse_number (s : jsstring) : option (num * jsstring) :=
  match s with
  | c :: s' => if (c =? 45)%N then parse_unsigned true s' else parse_unsigned false s
  | [] => None
  end.

(** Numbers whose text reads back as the same number; checked by evaluation. *)
Definition num_ok (x : num) : bool := bool_decide (parse_number (num_to_string x) = Some (x, [])).

(** What may follow a number without becoming part of it. *)
Definition num_end (s : jsstring) : bool :=
  match s with
  | [] => true
  | c :: _ => negb (is_digit c || (c =? 46)%N || (c =? 101)%N || (c =? 69)%N)
  end.

(** ** A number followed by other text *)

Lemma take_digits_app s d r t :
  take_digits s = (d, r) -> (r = [] -> num_end t = true) -> take_digits (s ++ t) = (d, r ++ t).
Proof.
  revert d. induction s as [|c s IH]; intros d; simpl.
  - intros [= <- <-] Ht. specialize (Ht eq_refl). destruct t as [|c t]; [done|].
    simpl in *. reflect_bools. by rewrite H.
  - destruct (is_digit c).
    + destruct (take_digits s) as [d' r'] eqn:E. intros [= <- <-] Ht. by rewrite (IH d').
    + intros [= <- <-] _. done.
Qed.

(** Follow a non-empty digit run, the hypothesis [H] giving the remainder. *)
Ltac follow_digits H t :=
  match type of H with context [take_digits ?q] =>
    let E := fresh "E" in
    destruct (take_digits q) as [[|? ?] ?] eqn:E; [done|];
    apply (take_digits_app _ _ _ t) in E; [|injection H as _ <-; done];
    cbn [app] in E; rewrite E; by simplify_eq
  end.

Lemma parse_int_app s t d r :
  parse_int s = Some (d, r) -> (r = [] -> num_end t = true) -> parse_int (s ++ t) = Some (d, r ++ t).
Proof.
  destruct s as [|c s]; [done|]. unfold parse_int. cbn [app].
  destruct (c =? 48)%N; [by intros [= <- <-]|].
  intros H Ht. follow_digits H t.
Qed.

Lemma parse_frac_app s t d r :
  parse_frac s = Some (d, r) -> (r = [] -> num_end t = true) -> parse_frac (s ++ t) = Some (d, r ++ t).
Proof.
  destruct s as [|c s]; unfold parse_frac; cbn [app].
  - intros [= <- <-] Ht. specialize (Ht eq_refl). destruct t as [|c t]; [done|].
    simpl in Ht. reflect_bools. by destruct (N.eqb_spec c 46).
  - destruct (c =? 46)%N; [|by intros [= <- <-]].
    intros H Ht. follow_digits H t.
Qed.

Lemma parse_exp_app s t x r :
  parse_exp s = Some (x, r) -> (r = [] -> num_end t = true) -> parse_exp (s ++ t) = Some (x, r ++ t).
Proof.
  destruct s as [|c s]; unfold parse_exp; cbn [app].
  - intros [= <- <-] Ht. specialize (Ht eq_refl). destruct t as [|c t]; [done|].
    simpl in Ht. reflect_bools. by destruct (N.eqb_spec c 101), (N.eqb_spec c 69).
  - destruct ((c =? 101)%N || (c =? 69)%N); [|by intros [= <- <-]].
    destruct s as [|d s]; cbn [app]; [done|].
    destruct (d =? 45)%N; [|destruct (d =? 43)%N];
      (intros H Ht; follow_digits H t).
Qed.

Lemma parse_unsigned_app neg s t x r :
  parse_unsigned neg s = Some (x, r) -> (r = [] -> num_end t = true) ->
  parse_unsigned neg (s ++ t) = Some (x, r ++ t).
Proof.
  unfold parse_unsigned. intros H Ht.
  destruct (parse_int s) as [[ids r1]|] eqn:E1; [|done].
  destruct (parse_frac r1) as [[fds r2]|] eqn:E2; [|done].
  destruct (parse_exp r2) as [[ex r3]|] eqn:E3; [|done]. injection H as <- <-.
  assert (r2 = [] -> r3 = []) as H2 by (intros ->; simpl in E3; by simplify_eq).
  assert (r1 = [] -> r2 = []) as H1 by (intros ->; simpl in E2; by simplify_eq).
  rewrite (parse_int_app _ t _ _ E1) by auto.
  rewrite (parse_frac_app _ t _ _ E2) by auto.
  by rewrite (parse_exp_app _ t _ _ E3).
Qed.

Lemma parse_number_app s t x :
  parse_number s = Some (x, []) -> num_end t = true -> parse_number (s ++ t) = Some (x, t).
Proof.
  destruct s as [|c s]; [done|]. unfold parse_number. cbn [app]. intros H Ht.
  destruct (c =? 45)%N; [by apply (parse_unsigned_app _ _ t) in H|].
  by apply (parse_unsigned_app _ (c :: s) t) in H.
Qed.

Lemma num_ok_parse x t :
  num_ok x = true -> num_end t = true -> parse_number (num_to_string x ++ t) = Some (x, t).
Proof. intros H. apply parse_number_app. by apply bool_decide_eq_true in H. Qed.

Arguments num_to_string : simpl never.
