(* ===== verification/JsValue.v ===== *)
(** * JavaScript values and thrown errors

    [jsval] is the part of the language's values the sources handle: what
    [JSON.parse] produces, plus [undefined].  An object is the list of its own
    enumerable properties in the language's property order (array-index keys
    ascending, then the others by insertion), which [obj_set] maintains.
    The conversions ([String], truthiness, [??], property reads) follow the
    language's abstract operations, with the exceptions they raise. *)

From S2P Require Import Prelude JsString JsNumber.
From Stdlib Require Import SpecFloat.

#[warnings="-register-all"]
Inductive jsval : Type :=
| JUndefined
| JNull
| JBool (b : bool)
| JNum (n : num)
| JStr (s : jsstring)
| JArr (l : list jsval)
| JObj (l : list (jsstring * jsval)).

(** Induction with the hypotheses on the elements of arrays and objects. *)
Section Induction.
Variable P : jsval -> Prop.
Hypothesis Hundef : P JUndefined.
Hypothesis Hnull : P JNull.
Hypothesis Hbool : forall b, P (JBool b).
Hypothesis Hnum : forall n, P (JNum n).
Hypothesis Hstr : forall s, P (JStr s).
Hypothesis Harr : forall l, Forall P l -> P (JArr l).
Hypothesis Hobj : forall l, Forall (fun kv => P kv.2) l -> P (JObj l).

Fixpoint jsval_rec' (v : jsval) : P v :=
  match v with
  | JUndefined => Hundef
  | JNull => Hnull
  | JBool b => Hbool b
  | JNum n => Hnum n
  | JStr s => Hstr s
  | JArr l =>
      Harr l ((fix go l : Forall P l :=
                 match l with
                 | [] => Forall_nil_2 _
                 | x :: l' => Forall_cons_2 _ _ _ (jsval_rec' x) (go l')
                 end) l)
  | JObj l =>
      Hobj l ((fix go l : Forall (fun kv => P kv.2) l :=
                 match l with
                 | [] => Forall_nil_2 _
                 | x :: l' => Forall_cons_2 _ _ _ (jsval_rec' x.2) (go l')
                 end) l)
  end.
End Induction.

(** ** Thrown values *)

(** The text of an error message: given by the program, or chosen by the
    engine or the platform (the language leaves those texts open). *)
Inductive message : Type :=
| Text (s : jsstring)
| EngineText (about : jsstring).

(** An [Error] object: [name], [message] and the properties the sources add
    ([status], and [body] or [payload]). *)
Record jserror : Type := {
  err_name : jsstring;
  err_message : message;
  err_status : option Z;
  err_payload : option jsval
}.

Inductive thrown : Type :=
| TError (e : jserror)
| TValue (v : jsval).

Definition mk_error (name : jsstring) (m : message) : thrown :=
  TError {| err_name := name; err_message := m; err_status := None; err_payload := None |}.

(** [new Error(text)] *)
Definition new_error (text : jsstring) : thrown := mk_error (js "Error") (Text text).

Definition type_error (about : jsstring) : thrown := mk_error (js "TypeError") (EngineText about).

Definition syntax_error (about : jsstring) : thrown := mk_error (js "SyntaxError") (EngineText about).

Definition uri_error : thrown := mk_error (js "URIError") (EngineText (js "URI malformed")).

Abbreviation outcome A := (res thrown A).

(** [list.map(f)] with a function that may throw. *)
Fixpoint map_outcome {A B} (f : A -> outcome B) (l : list A) : outcome (list B) :=
  match l with
  | [] => Ok []
  | x :: l' => let! y := f x in let! ys := map_outcome f l' in Ok (y :: ys)
  end.

(** ** Conditions *)

Definition truthy (v : jsval) : bool :=
  match v with
  | JUndefined | JNull => false
  | JBool b => b
  | JNum n => match n with S754_zero _ | S754_nan => false | _ => true end
  | JStr s => nonempty s
  | JArr _ | JObj _ => true
  end.

Definition nullish (v : jsval) : bool :=
  match v with JUndefined | JNull => true | _ => false end.

(** [v ?? d] *)
Definition coalesce (v d : jsval) : jsval := if nullish v then d else v.

(** [v || d] *)
Definition js_or (v d : jsval) : jsval := if truthy v then v else d.

(** ** Objects *)

Fixpoint assoc (k : jsstring) (l : list (jsstring * jsval)) : option jsval :=
  match l with
  | [] => None
  | (k', v) :: l' => if jseq k k' then Some v else assoc k l'
  end.

(** A canonical array index: decimal digits, no leading zero, below 2^32-1. *)
Definition key_index (k : jsstring) : option N :=
  match k with
  | [] => None
  | c :: r =>
      if forallb is_digit k && ((negb (c =? 48)%N) || match r with [] => true | _ => false end)
         && (digits_val k <? 4294967295)%N
      then Some (digits_val k) else None
  end.

Fixpoint obj_replace (k : jsstring) (v : jsval) (l : list (jsstring * jsval)) : list (jsstring * jsval) :=
  match l with
  | [] => []
  | (k', v') :: l' => if jseq k k' then (k', v) :: l' else (k', v') :: obj_replace k v l'
  end.

(** Insert an array-index key before the first larger index or plain key. *)
Fixpoint obj_insert_index (i : N) (k : jsstring) (v : jsval) (l : list (jsstring * jsval)) :=
  match l with
  | [] => [(k, v)]
  | (k', v') :: l' =>
      match key_index k' with
      | Some j => if (j <? i)%N then (k', v') :: obj_insert_index i k v l' else (k, v) :: l
      | None => (k, v) :: l
      end
  end.

(** Define or overwrite an own property. *)
Definition obj_set (l : list (jsstring * jsval)) (kv : jsstring * jsval) : list (jsstring * jsval) :=
  match assoc kv.1 l with
  | Some _ => obj_replace kv.1 kv.2 l
  | None =>
      match key_index kv.1 with
      | Some i => obj_insert_index i kv.1 kv.2 l
      | None => l ++ [kv]
      end
  end.

Definition obj_of_list (l : list (jsstring * jsval)) : list (jsstring * jsval) :=
  fold_left obj_set l [].

(** Read a property; [undefined] and [null] have none and throw.  The keys the
    sources read are not properties of any prototype. *)
Definition get (v : jsval) (k : jsstring) : outcome jsval :=
  match v with
  | JUndefined | JNull => Err (type_error (js "Cannot read properties"))
  | JObj l => Ok (default JUndefined (assoc k l))
  | _ => Ok JUndefined
  end.

(** [v?.k] *)
Definition get_opt (v : jsval) (k : jsstring) : jsval :=
  match v with
  | JObj l => default JUndefined (assoc k l)
  | _ => JUndefined
  end.

(** [Array.isArray(v)] *)
Definition is_array (v : jsval) : bool := match v with JArr _ => true | _ => false end.

(** ** [String(v)] and template literals *)

(** An object whose own [toString] is data (not callable) has no primitive
    value; any other plain object prints as [[object Object]]. *)
Fixpoint to_string (v : jsval) : outcome jsstring :=
  match v with
  | JUndefined => Ok (js "undefined")
  | JNull => Ok (js "null")
  | JBool b => Ok (if b then js "true" else js "false")
  | JNum n => Ok (num_to_string n)
  | JStr s => Ok s
  | JArr l =>
      (fix elems (l : list jsval) : outcome jsstring :=
         match l with
         | [] => Ok []
         | x :: l' =>
             let! a := (if nullish x then Ok [] else to_string x) in
             match l' with
             | [] => Ok a
             | _ => let! b := elems l' in Ok (a ++ js "," ++ b)
             end
         end) l
  | JObj l =>
      match assoc (js "toString") l with
      | Some _ => Err (type_error (js "Cannot convert object to primitive value"))
      | None => Ok (js "[object Object]")
      end
  end.

(** ** Lemmas on objects *)

Definition is_type_error (e : thrown) : Prop := exists i, e = TError i /\ err_name i = js "TypeError".

(** Only objects that are not convertible have no text. *)
Lemma to_string_type_error v e : to_string v = Err e -> is_type_error e.
Proof.
  revert e. induction v using jsval_rec'; simpl; try done.
  - induction H as [|x l Hx Hl IH]; [done|]. intros e.
    assert (forall e, (if nullish x then Ok [] else to_string x) = Err e -> is_type_error e) as Hx'
      by (destruct (nullish x); [done|exact Hx]).
    destruct (if nullish x then Ok [] else to_string x) as [a|e']; cbn [res_bind];
      [|intros <-%Err_inj; by apply Hx'].
    destruct l as [|y l]; [done|]. cbn [res_bind] in *.
    match goal with |- context [res_bind ?y _] => destruct y as [b|e2] eqn:E end; [done|].
    intros <-%Err_inj. by apply IH.
  - destruct (assoc _ l); [|done]. intros e <-%Err_inj. by eexists.
Qed.

Lemma map_outcome_Ok {A B} (f : A -> outcome B) l ys : map_outcome f l = Ok ys -> Forall2 (fun x y => f x = Ok y) l ys.
Proof.
  revert ys. induction l as [|x l IH]; intros ys; simpl; [by intros <-%Ok_inj|].
  destruct (f x) as [y|] eqn:E; [|done]. simpl. destruct (map_outcome f l) as [ys'|]; [|done].
  intros <-%Ok_inj. constructor; auto.
Qed.

Lemma get_get_opt v k x : get v k = Ok x -> get_opt v k = x.
Proof. by destruct v; intros [= <-]. Qed.

Lemma assoc_app k l m :
  assoc k (l ++ m) = match assoc k l with Some v => Some v | None => assoc k m end.
Proof. induction l as [|[k' v'] l IH]; simpl; [done|]. by destruct (jseq k k'). Qed.

Lemma assoc_None k l : assoc k l = None <-> k ∉ map fst l.
Proof.
  induction l as [|[k' v'] l IH]; simpl; [split; [intros _; apply not_elem_of_nil|done]|].
  rewrite not_elem_of_cons. destruct (jseq k k') eqn:E.
  - apply jseq_eq in E. subst. split; [done|]. intros [? _]. done.
  - apply jseq_neq in E. rewrite IH. tauto.
Qed.

(** Distinct keys none of which is an array index: already in property order. *)
Lemma obj_of_list_plain l :
  NoDup (map fst l) -> Forall (fun kv => key_index kv.1 = None) l -> obj_of_list l = l.
Proof.
  unfold obj_of_list.
  enough (forall acc, NoDup (map fst (acc ++ l)) -> Forall (fun kv => key_index kv.1 = None) l ->
          fold_left obj_set l acc = acc ++ l) as H by (intros; by apply (H [])).
  induction l as [|[k v] l IH]; intros acc Hnd Hidx; [by rewrite app_nil_r|].
  inversion Hidx as [|? ? Hk Hl]; subst. simpl in *.
  assert (assoc k acc = None) as Ha.
  { apply assoc_None. rewrite map_app in Hnd. simpl in Hnd.
    apply NoDup_app in Hnd as (_ & Hd & _). intros Hin. apply (Hd k Hin). left. }
  unfold obj_set at 2. simpl. rewrite Ha, Hk.
  rewrite (IH (acc ++ [(k, v)])); rewrite <- ?app_assoc; done.
Qed.
