(* ===== verification/Json.v ===== *)
(** * [JSON.parse] and [JSON.stringify]

    Both functions on code units, with the language's grammar and escapes:
    [parse_value] is a recursive-descent reader (fuel [2 * length + 2] is
    shown to be enough for every input by [parse_fuel]), [ser] the serializer
    with the [gap] argument of [JSON.stringify(v, null, 2)].  The main lemma,
    [parse_stringify], is the round trip on JSON values. *)

From S2P Require Import Prelude JsString JsNumber JsValue.
From Stdlib Require Import SpecFloat.

(** ** Strings *)

Definition hex_digit (n : N) : N := if (n <? 10)%N then (48 + n)%N else (87 + n)%N.

Definition hex_val (c : N) : option N :=
  if is_digit c then Some (c - 48)%N
  else if ((97 <=? c) && (c <=? 102))%N then Some (c - 87)%N
  else if ((65 <=? c) && (c <=? 70))%N then Some (c - 55)%N
  else None.

Definition hex4 (a b c d : N) : option N :=
  match hex_val a, hex_val b, hex_val c, hex_val d with
  | Some x, Some y, Some z, Some w => Some (((x * 16 + y) * 16 + z) * 16 + w)%N
  | _, _, _, _ => None
  end.

Definition unicode_escape (c : N) : jsstring :=
  [92; 117; hex_digit (c / 4096); hex_digit (c / 256 mod 16); hex_digit (c / 16 mod 16);
   hex_digit (c mod 16)]%N.

Definition high_surrogate (c : N) : bool := ((55296 <=? c) && (c <=? 56319))%N.
Definition low_surrogate (c : N) : bool := ((56320 <=? c) && (c <=? 57343))%N.

(** The two-character escapes. *)
Definition short_escape (c : N) : option N :=
  if (c =? 34)%N then Some 34%N else if (c =? 92)%N then Some 92%N
  else if (c =? 8)%N then Some 98%N else if (c =? 12)%N then Some 102%N
  else if (c =? 10)%N then Some 110%N else if (c =? 13)%N then Some 114%N
  else if (c =? 9)%N then Some 116%N else None.

Definition unescape (e : N) : option N :=
  if (e =? 34)%N then Some 34%N else if (e =? 92)%N then Some 92%N
  else if (e =? 47)%N then Some 47%N
  else if (e =? 98)%N then Some 8%N else if (e =? 102)%N then Some 12%N
  else if (e =? 110)%N then Some 10%N else if (e =? 114)%N then Some 13%N
  else if (e =? 116)%N then Some 9%N else None.

(** One code unit outside a surrogate pair. *)
Definition quote_unit (c : N) : jsstring :=
  match short_escape c with
  | Some e => [92; e]%N
  | None => if (c <? 32)%N || high_surrogate c || low_surrogate c then unicode_escape c else [c]
  end.

Fixpoint quote_go (s : jsstring) : jsstring :=
  match s with
  | [] => []
  | c :: s' =>
      if high_surrogate c then
        match s' with
        | d :: s'' => if low_surrogate d then c :: d :: quote_go s'' else quote_unit c ++ quote_go s'
        | [] => quote_unit c
        end
      else quote_unit c ++ quote_go s'
  end.

Definition quote (s : jsstring) : jsstring := 34%N :: quote_go s ++ [34%N].

Definition cons_fst (c : N) (x : option (jsstring * jsstring)) : option (jsstring * jsstring) :=
  match x with Some (s, r) => Some (c :: s, r) | None => None end.

(** The characters of a string literal after its opening quote. *)
Fixpoint parse_chars (s : jsstring) : option (jsstring * jsstring) :=
  match s with
  | [] => None
  | c :: s' =>
      if (c =? 34)%N then Some ([], s')
      else if (c =? 92)%N then
        match s' with
        | [] => None
        | e :: r =>
            if (e =? 117)%N then
              match r with
              | h1 :: h2 :: h3 :: h4 :: r' =>
                  match hex4 h1 h2 h3 h4 with
                  | Some n => cons_fst n (parse_chars r')
                  | None => None
                  end
              | _ => None
              end
            else match unescape e with
                 | Some u => cons_fst u (parse_chars r)
                 | None => None
                 end
        end
      else if (c <? 32)%N then None
      else cons_fst c (parse_chars s')
  end.

(** ** Values *)

Definition is_json_ws (c : N) : bool := ((c =? 32) || (c =? 9) || (c =? 10) || (c =? 13))%N.

Definition skip_ws (s : jsstring) : jsstring := drop_while is_json_ws s.

Definition parse_word (w : jsstring) (v : jsval) (s : jsstring) : option (jsval * jsstring) :=
  if starts_with w s then Some (v, drop (length w) s) else None.

Definition parse_scalar (s : jsstring) : option (jsval * jsstring) :=
  match s with
  | [] => None
  | c :: r =>
      if (c =? 34)%N then match parse_chars r with Some (x, r') => Some (JStr x, r') | None => None end
      else if (c =? 116)%N then parse_word (js "true") (JBool true) s
      else if (c =? 102)%N then parse_word (js "false") (JBool false) s
      else if (c =? 110)%N then parse_word (js "null") JNull s
      else match parse_number s with Some (x, r') => Some (JNum x, r') | None => None end
  end.

Fixpoint parse_value (f : nat) (s : jsstring) : option (jsval * jsstring) :=
  match f with
  | O => None
  | S f =>
      match skip_ws s with
      | [] => None
      | c :: r =>
          if (c =? 91)%N then
            match skip_ws r with
            | d :: r' =>
                if (d =? 93)%N then Some (JArr [], r')
                else match parse_elems f r with Some (l, r2) => Some (JArr l, r2) | None => None end
            | [] => None
            end
          else if (c =? 123)%N then
            match skip_ws r with
            | d :: r' =>
                if (d =? 125)%N then Some (JObj [], r')
                else match parse_members f r with
                     | Some (l, r2) => Some (JObj (obj_of_list l), r2)
                     | None => None
                     end
            | [] => None
            end
          else parse_scalar (c :: r)
      end
  end
with parse_elems (f : nat) (s : jsstring) : option (list jsval * jsstring) :=
  match f with
  | O => None
  | S f =>
      match parse_value f s with
      | None => None
      | Some (v, r) =>
          match skip_ws r with
          | d :: r' =>
              if (d =? 44)%N then
                match parse_elems f r' with Some (l, r2) => Some (v :: l, r2) | None => None end
              else if (d =? 93)%N then Some ([v], r') else None
          | [] => None
          end
      end
  end
with parse_members (f : nat) (s : jsstring) : option (list (jsstring * jsval) * jsstring) :=
  match f with
  | O => None
  | S f =>
      match skip_ws s with
      | q :: r0 =>
          if (q =? 34)%N then
            match parse_chars r0 with
            | None => None
            | Some (k, r1) =>
                match skip_ws r1 with
                | col :: r2 =>
                    if (col =? 58)%N then
                      match parse_value f r2 with
                      | None => None
                      | Some (v, r3) =>
                          match skip_ws r3 with
                          | d :: r4 =>
                              if (d =? 44)%N then
                                match parse_members f r4 with
                                | Some (l, r5) => Some ((k, v) :: l, r5)
                                | None => None
                                end
                              else if (d =? 125)%N then Some ([(k, v)], r4) else None
                          | [] => None
                          end
                      end
                    else None
                | [] => None
                end
            end
          else None
      | [] => None
      end
  end.

Definition json_fuel (s : jsstring) : nat := 2 * length s + 2.

(** [JSON.parse(s)] *)
Definition json_parse (s : jsstring) : outcome jsval :=
  match parse_value (json_fuel s) s with
  | Some (v, r) => match skip_ws r with [] => Ok v | _ => Err (syntax_error s) end
  | None => Err (syntax_error s)
  end.

(** ** [JSON.stringify] *)

Definition open_ws (gap ind : jsstring) : jsstring :=
  match gap with [] => [] | _ => 10%N :: ind ++ gap end.

Definition close_ws (gap ind : jsstring) : jsstring :=
  match gap with [] => [] | _ => 10%N :: ind end.

Definition colon (gap : jsstring) : jsstring :=
  match gap with [] => [58%N] | _ => [58; 32]%N end.

Definition wrap (o c : N) (gap ind : jsstring) (parts : list jsstring) : jsstring :=
  match parts with
  | [] => [o; c]
  | _ => o :: open_ws gap ind ++ join (44%N :: open_ws gap ind) parts ++ close_ws gap ind ++ [c]
  end.

Fixpoint ser (gap ind : jsstring) (v : jsval) : jsstring :=
  match v with
  | JUndefined | JNull => js "null"
  | JBool b => if b then js "true" else js "false"
  | JNum n =>
      match n with
      | S754_nan | S754_infinity _ => js "null"
      | _ => num_to_string n
      end
  | JStr s => quote s
  | JArr l => wrap 91 93 gap ind (map (ser gap (ind ++ gap)) l)
  | JObj l =>
      wrap 123 125 gap ind
        (flat_map (fun kv => match kv.2 with
                             | JUndefined => []
                             | _ => [quote kv.1 ++ colon gap ++ ser gap (ind ++ gap) kv.2]
                             end) l)
  end.

(** [JSON.stringify(v, null, gap)]; the serialization of [undefined] is [undefined]. *)
Definition json_stringify_gap (gap : jsstring) (v : jsval) : option jsstring :=
  match v with JUndefined => None | _ => Some (ser gap [] v) end.

(** [JSON.stringify(v)] *)
Definition json_stringify (v : jsval) : option jsstring := json_stringify_gap [] v.

(** Values a JSON text can carry without loss. *)
Definition unitsb (s : jsstring) : bool := forallb (fun c => (c <? 65536)%N) s.

Fixpoint json_ok (v : jsval) : Prop :=
  match v with
  | JUndefined => False
  | JNull | JBool _ => True
  | JNum n => num_ok n = true
  | JStr s => unitsb s = true
  | JArr l => (fix go l := match l with [] => True | x :: l' => json_ok x /\ go l' end) l
  | JObj l =>
      obj_of_list l = l /\
      (fix go l := match l with [] => True | kv :: l' => (unitsb kv.1 = true /\ json_ok kv.2) /\ go l' end) l
  end.

(** ** Round trip of strings *)

Lemma hex_val_digit n : (n < 16)%N -> hex_val (hex_digit n) = Some n.
Proof.
  intros H. unfold hex_val, hex_digit, is_digit.
  destruct (n <? 10)%N eqn:E; reflect_bools.
  - rewrite (proj2 (N.leb_le 48 _)), (proj2 (N.leb_le _ 57)) by lia. simpl. f_equal. lia.
  - rewrite (proj2 (N.leb_gt _ 57)) by lia. rewrite andb_false_r.
    rewrite (proj2 (N.leb_le 97 _)), (proj2 (N.leb_le _ 102)) by lia. simpl. f_equal. lia.
Qed.

Lemma hex4_escape c : (c < 65536)%N ->
  hex4 (hex_digit (c / 4096)) (hex_digit (c / 256 mod 16)) (hex_digit (c / 16 mod 16))
       (hex_digit (c mod 16)) = Some c.
Proof.
  intros H. unfold hex4.
  assert (c / 4096 < 16)%N by (apply N.Div0.div_lt_upper_bound; lia).
  rewrite !hex_val_digit by (try apply N.mod_upper_bound; lia || done).
  f_equal.
  zify. Z.to_euclidean_division_equations. lia.
Qed.

(** Reading one quoted unit in front of any text. *)
Lemma parse_chars_unit c t : (c < 65536)%N ->
  parse_chars (quote_unit c ++ t) = cons_fst c (parse_chars t).
Proof.
  intros H. unfold quote_unit, short_escape.
  repeat (match goal with |- context [(c =? ?k)%N] => destruct (N.eqb_spec c k) as [->|] end;
          [reflexivity|]).
  destruct ((c <? 32)%N || high_surrogate c || low_surrogate c) eqn:E.
  - unfold unicode_escape. cbn [app parse_chars N.eqb Pos.eqb]. by rewrite hex4_escape.
  - reflect_bools. cbn [app parse_chars].
    rewrite (proj2 (N.eqb_neq c 34)), (proj2 (N.eqb_neq c 92)), (proj2 (N.ltb_ge c 32)); done.
Qed.

Lemma parse_chars_plain c t : (32 <= c)%N -> c <> 34%N -> c <> 92%N ->
  parse_chars (c :: t) = cons_fst c (parse_chars t).
Proof.
  intros H1 H2 H3. cbn [parse_chars].
  by rewrite (proj2 (N.eqb_neq c 34)), (proj2 (N.eqb_neq c 92)), (proj2 (N.ltb_ge c 32)).
Qed.

Lemma surrogate_plain c : high_surrogate c = true \/ low_surrogate c = true ->
  (32 <= c)%N /\ c <> 34%N /\ c <> 92%N.
Proof. unfold high_surrogate, low_surrogate. intros [H|H]; reflect_bools; lia. Qed.

Lemma parse_chars_quote s t : unitsb s = true ->
  parse_chars (quote_go s ++ 34%N :: t) = Some (s, t).
Proof.
  unfold unitsb. remember (length s) as n eqn:Hn. revert s Hn.
  induction (lt_wf n) as [n _ IH]. intros [|c s] Hn Hu; [done|].
  cbn [forallb] in Hu. apply andb_prop in Hu as [Hc Hu]. apply N.ltb_lt in Hc. simpl in Hn.
  assert (parse_chars ((quote_unit c ++ quote_go s) ++ 34%N :: t) = Some (c :: s, t)) as Hunit.
  { rewrite <- app_assoc, parse_chars_unit by done. by rewrite (IH (length s)); [|lia..|]. }
  cbn [quote_go]. destruct (high_surrogate c) eqn:Eh; [|done].
  destruct s as [|d s]; [by rewrite app_nil_r in Hunit|].
  destruct (low_surrogate d) eqn:El; [|done].
  cbn [forallb] in Hu. apply andb_prop in Hu as [Hd Hu]. simpl in Hn. cbn [app].
  destruct (surrogate_plain c) as (? & ? & ?); [auto|].
  destruct (surrogate_plain d) as (? & ? & ?); [auto|].
  rewrite !parse_chars_plain by done. by rewrite (IH (length s)); [|lia..|].
Qed.

(** ** Round trip of values *)

Definition ws (s : jsstring) : Prop := Forall (fun c => is_json_ws c = true) s.

Lemma skip_ws_app w s : ws w -> skip_ws (w ++ s) = skip_ws s.
Proof. apply drop_while_all. Qed.

Lemma skip_ws_head c s : is_json_ws c = false -> skip_ws (c :: s) = c :: s.
Proof. intros H. unfold skip_ws. simpl. by rewrite H. Qed.

Lemma parse_value_ws f w s : ws w -> parse_value f (w ++ s) = parse_value f s.
Proof. intros Hw. destruct f; [done|]. cbn [parse_value]. by rewrite skip_ws_app. Qed.

Lemma parse_elems_ws f w s : ws w -> parse_elems f (w ++ s) = parse_elems f s.
Proof. intros Hw. destruct f; [done|]. cbn [parse_elems]. by rewrite parse_value_ws. Qed.

Lemma parse_members_ws f w s : ws w -> parse_members f (w ++ s) = parse_members f s.
Proof. intros Hw. destruct f; [done|]. cbn [parse_members]. by rewrite skip_ws_app. Qed.

Lemma open_ws_ws gap ind : ws gap -> ws ind -> ws (open_ws gap ind).
Proof.
  intros Hg Hi. unfold open_ws. destruct gap; [constructor|].
  constructor; [done|]. by apply Forall_app_2.
Qed.

Lemma close_ws_ws gap ind : ws gap -> ws ind -> ws (close_ws gap ind).
Proof. intros Hg Hi. unfold close_ws. destruct gap; by constructor. Qed.

Lemma colon_split gap : exists w, colon gap = 58%N :: w /\ ws w.
Proof.
  destruct gap; [exists []; by split; [|constructor]|].
  exists [32%N]. split; [done|]. by repeat constructor.
Qed.

Lemma num_end_ws w c t : ws w -> num_end [c] = true -> num_end (w ++ c :: t) = true.
Proof.
  intros Hw Hc. destruct Hw as [|d w Hd Hw]; [done|]. simpl.
  unfold is_json_ws in Hd. rewrite !orb_true_iff, !N.eqb_eq in Hd.
  by destruct Hd as [[[->| ->]| ->]| ->].
Qed.

(** The first character of a number text that reads back. *)
Lemma num_ok_head n : num_ok n = true ->
  exists c r, num_to_string n = c :: r /\ (c = 45%N \/ is_digit c = true).
Proof.
  unfold num_ok. rewrite bool_decide_eq_true. destruct (num_to_string n) as [|c r]; [done|].
  intros H. exists c, r. split; [done|]. unfold parse_number in H.
  destruct (N.eqb_spec c 45); [by left|right].
  unfold parse_unsigned, parse_int in H. destruct (N.eqb_spec c 48) as [->|]; [done|].
  cbn [take_digits] in H. by destruct (is_digit c).
Qed.

Definition value_head (c : N) : Prop := is_json_ws c = false /\ c <> 93%N /\ c <> 125%N.

Lemma digit_head c : c = 45%N \/ is_digit c = true ->
  value_head c /\ c <> 34%N /\ c <> 91%N /\ c <> 123%N /\ c <> 116%N /\ c <> 102%N /\ c <> 110%N.
Proof.
  unfold value_head, is_json_ws, is_digit. intros [->|H]; [by split_and!|]. reflect_bools.
  rewrite !(proj2 (N.eqb_neq _ _)) by lia. split_and!; done || lia.
Qed.

Lemma ser_num gap ind n : num_ok n = true -> ser gap ind (JNum n) = num_to_string n.
Proof. destruct n as [|[]| |]; intros H; try reflexivity; vm_compute in H; discriminate. Qed.

Lemma wrap_head o c gap ind parts : exists r, wrap o c gap ind parts = o :: r.
Proof. destruct parts; simpl; eauto. Qed.

Lemma ser_head gap ind v : json_ok v -> exists c r, ser gap ind v = c :: r /\ value_head c.
Proof.
  destruct v as [| |[]|n|s|l|l]; intros H; [done|..].
  all: try (eexists _, _; split; [reflexivity|done]).
  - rewrite ser_num by done. destruct (num_ok_head n H) as (c & r & -> & Hc).
    exists c, r. split; [done|]. by apply digit_head.
  - simpl. destruct (wrap_head 91 93 gap ind (map (ser gap (ind ++ gap)) l)) as [r ->]. eauto.
    exists 91%N, r. done.
  - simpl. match goal with |- context [wrap ?a ?b ?c ?d ?e] => destruct (wrap_head a b c d e) as [r ->] end.
    exists 123%N, r. done.
Qed.

Definition rt (v : jsval) : Prop :=
  forall gap ind t f, ws gap -> ws ind -> num_end t = true ->
  2 * length (ser gap ind v) + 1 <= f ->
  parse_value f (ser gap ind v ++ t) = Some (v, t).

Definition member (gap ind : jsstring) (kv : jsstring * jsval) : jsstring :=
  quote kv.1 ++ colon gap ++ ser gap (ind ++ gap) kv.2.

Lemma parse_elems_ser gap ind l t f : ws gap -> ws ind -> l <> [] -> Forall rt l ->
  2 * length (join (44%N :: open_ws gap ind) (map (ser gap (ind ++ gap)) l)) + 2 <= f ->
  parse_elems f (join (44%N :: open_ws gap ind) (map (ser gap (ind ++ gap)) l)
                 ++ close_ws gap ind ++ 93%N :: t) = Some (l, t).
Proof.
  intros Hg Hi Hne Hl. revert f. induction Hl as [|v l Hv Hl IH]; intros f Hf; [done|].
  assert (ws (ind ++ gap)) as Hig by by apply Forall_app_2.
  destruct f as [|f]; [lia|]. cbn [parse_elems].
  destruct l as [|v' l].
  - cbn [map join] in *. rewrite Hv; [|done..|by apply num_end_ws; [apply close_ws_ws|]|lia].
    by rewrite skip_ws_app by (by apply close_ws_ws).
  - cbn [map] in *. rewrite join_cons in Hf |- *. rewrite !length_app in Hf. cbn [length] in Hf.
    rewrite <- !app_assoc, Hv; [|done..|lia]. cbn [app].
    rewrite skip_ws_head by done. cbn [N.eqb Pos.eqb].
    rewrite parse_elems_ws by (by apply open_ws_ws). rewrite IH; [done|done|]. lia.
Qed.

Lemma parse_members_ser gap ind l t f : ws gap -> ws ind -> l <> [] ->
  Forall (fun kv => unitsb kv.1 = true /\ rt kv.2) l ->
  2 * length (join (44%N :: open_ws gap ind) (map (member gap ind) l)) + 2 <= f ->
  parse_members f (join (44%N :: open_ws gap ind) (map (member gap ind) l)
                   ++ close_ws gap ind ++ 125%N :: t) = Some (l, t).
Proof.
  intros Hg Hi Hne Hl. revert f. induction Hl as [|[k v] l [Hk Hv] Hl IH]; intros f Hf; [done|].
  simpl in Hk, Hv. assert (ws (ind ++ gap)) as Hig by by apply Forall_app_2.
  destruct (colon_split gap) as (w & Hcol & Hw).
  assert (forall T, skip_ws (member gap ind (k, v) ++ T)
            = 34%N :: quote_go k ++ 34%N :: 58%N :: w ++ ser gap (ind ++ gap) v ++ T) as Hhead.
  { intros T. unfold member, quote. simpl fst. simpl snd. rewrite Hcol. cbn [app].
    rewrite skip_ws_head by done. rewrite <- !app_assoc. cbn [app]. by rewrite <- app_assoc. }
  assert (length (ser gap (ind ++ gap) v) < length (member gap ind (k, v))) as Hlen.
  { unfold member, quote. simpl. rewrite !length_app. simpl. lia. }
  destruct f as [|f]; [lia|]. cbn [parse_members]. destruct l as [|kv l].
  - cbn [map join] in *. rewrite Hhead. cbn [N.eqb Pos.eqb].
    rewrite parse_chars_quote by done. rewrite skip_ws_head by done. cbn [N.eqb Pos.eqb].
    rewrite parse_value_ws, Hv; [|done..|by apply num_end_ws; [apply close_ws_ws|]|lia|done].
    by rewrite skip_ws_app by (by apply close_ws_ws).
  - cbn [map] in *. rewrite join_cons in Hf |- *. rewrite !length_app in Hf. cbn [length] in Hf.
    rewrite <- !app_assoc, Hhead. cbn [N.eqb Pos.eqb].
    rewrite parse_chars_quote by done. rewrite skip_ws_head by done. cbn [N.eqb Pos.eqb].
    rewrite parse_value_ws, Hv; [|done..|lia|done]. cbn [app].
    rewrite skip_ws_head by done. cbn [N.eqb Pos.eqb].
    rewrite parse_members_ws by (by apply open_ws_ws). rewrite IH; [done|done|]. lia.
Qed.

Lemma json_ok_arr l : json_ok (JArr l) <-> Forall json_ok l.
Proof. induction l as [|x l IH]; [by split|]. rewrite Forall_cons, <- IH. done. Qed.

Lemma json_ok_obj l : json_ok (JObj l) <->
  obj_of_list l = l /\ Forall (fun kv => unitsb kv.1 = true /\ json_ok kv.2) l.
Proof.
  simpl. enough (forall m, (fix go l := match l with [] => True
      | kv :: l' => (unitsb kv.1 = true /\ json_ok kv.2) /\ go l' end) m
      <-> Forall (fun kv => unitsb kv.1 = true /\ json_ok kv.2) m) as -> by done.
  intros m. induction m as [|x m IH]; [by split|]. rewrite Forall_cons, <- IH. done.
Qed.

Lemma join_head sep x l : exists r, join sep (x :: l) = x ++ r.
Proof. destruct l; [exists []; by rewrite app_nil_r|]. rewrite join_cons. eauto. Qed.

Lemma skip_ws_join w sep c (x s : jsstring) l T : ws w -> is_json_ws c = false -> x = c :: s ->
  exists r, skip_ws (w ++ join sep (x :: l) ++ T) = c :: r.
Proof.
  intros Hw Hc Hx. destruct (join_head sep x l) as [r ->]. subst x.
  rewrite skip_ws_app by done. cbn [app]. rewrite skip_ws_head by done. eauto.
Qed.

Lemma members_ser gap ind l : Forall (fun kv => unitsb kv.1 = true /\ json_ok kv.2) l ->
  flat_map (fun kv => match kv.2 with
                      | JUndefined => []
                      | _ => [quote kv.1 ++ colon gap ++ ser gap (ind ++ gap) kv.2]
                      end) l = map (member gap ind) l.
Proof.
  induction 1 as [|[k v] l [_ Hv] Hl IH]; [done|]. cbn [flat_map map]. rewrite IH.
  by destruct v.
Qed.

Lemma parse_value_arr gap ind l t f : ws gap -> ws ind -> Forall json_ok l -> Forall rt l ->
  2 * length (ser gap ind (JArr l)) + 1 <= f ->
  parse_value f (ser gap ind (JArr l) ++ t) = Some (JArr l, t).
Proof.
  intros Hg Hi Hok Hrt Hf. destruct f as [|f]; [lia|]. destruct l as [|v l]; [done|].
  cbn [ser map wrap] in *. cbn [app length] in *. cbn [parse_value].
  rewrite skip_ws_head by done. cbn [N.eqb Pos.eqb].
  rewrite <- !app_assoc. inversion Hok as [|? ? Hv _]; subst.
  destruct (ser_head gap (ind ++ gap) v Hv) as (c & r & Hc & Hw & H93 & _).
  destruct (skip_ws_join (open_ws gap ind) (44%N :: open_ws gap ind) c _ r
              (map (ser gap (ind ++ gap)) l) (close_ws gap ind ++ [93%N] ++ t)
              (open_ws_ws _ _ Hg Hi) Hw Hc) as [r' Hr].
  rewrite Hr. rewrite (proj2 (N.eqb_neq c 93)) by done.
  rewrite parse_elems_ws by (by apply open_ws_ws).
  rewrite !length_app in Hf. cbn [app length] in Hf |- *.
  rewrite (parse_elems_ser gap ind (v :: l)); [done..|]. cbn [map]. lia.
Qed.

Lemma parse_value_obj gap ind l t f : ws gap -> ws ind ->
  obj_of_list l = l -> Forall (fun kv => unitsb kv.1 = true /\ json_ok kv.2) l ->
  Forall (fun kv => unitsb kv.1 = true /\ rt kv.2) l ->
  2 * length (ser gap ind (JObj l)) + 1 <= f ->
  parse_value f (ser gap ind (JObj l) ++ t) = Some (JObj l, t).
Proof.
  intros Hg Hi Hcan Hok Hrt Hf. destruct f as [|f]; [lia|].
  cbn [ser] in *. rewrite members_ser in Hf |- * by done.
  destruct l as [|kv l]; [done|]. cbn [map wrap] in *. cbn [app length] in *. cbn [parse_value].
  rewrite skip_ws_head by done. cbn [N.eqb Pos.eqb]. rewrite <- !app_assoc.
  edestruct (skip_ws_join (open_ws gap ind) (44%N :: open_ws gap ind) 34 (member gap ind kv))
    with (l := map (member gap ind) l) (T := close_ws gap ind ++ [125%N] ++ t) as [r' Hr];
    [by apply open_ws_ws|done|reflexivity|].
  rewrite Hr. cbn [N.eqb Pos.eqb].
  rewrite parse_members_ws by (by apply open_ws_ws).
  rewrite !length_app in Hf. cbn [app length] in Hf |- *.
  rewrite (parse_members_ser gap ind (kv :: l)); [by rewrite Hcan|done..|]. cbn [map]. lia.
Qed.

Lemma parse_scalar_num n t : num_ok n = true -> num_end t = true ->
  parse_scalar (num_to_string n ++ t) = Some (JNum n, t).
Proof.
  intros H Ht. pose proof (num_ok_parse n t H Ht) as Hp.
  destruct (num_ok_head n H) as (c & r & Hc & Hd). rewrite Hc in *. cbn [app] in *.
  destruct (digit_head c Hd) as (_ & ? & ? & ? & ? & ? & ?). cbn [parse_scalar].
  by rewrite !(proj2 (N.eqb_neq c _)), Hp by done.
Qed.

(** A serialized value, followed by text that does not extend it, reads back. *)
Lemma parse_value_ser v : json_ok v -> rt v.
Proof.
  induction v using jsval_rec'; intros Hok gap ind t f Hg Hi Ht Hf; [done|..].
  - destruct f; [lia|done].
  - destruct f; [lia|]. by destruct b.
  - rewrite ser_num in Hf |- * by done. destruct f as [|f]; [lia|]. cbn [parse_value].
    destruct (num_ok_head n Hok) as (c & r & Hc & Hd).
    destruct (digit_head c Hd) as ([? _] & ? & ? & ? & _).
    assert (exists r', num_to_string n ++ t = c :: r') as [r' Hr] by (rewrite Hc; simpl; eauto).
    pose proof (parse_scalar_num n t Hok Ht) as Hs. rewrite Hr in Hs |- *.
    rewrite skip_ws_head by done. by rewrite !(proj2 (N.eqb_neq c _)) by done.
  - destruct f as [|f]; [lia|]. cbn [ser parse_value]. unfold quote. cbn [app].
    rewrite skip_ws_head by done. cbn [N.eqb Pos.eqb parse_scalar].
    rewrite <- app_assoc. cbn [app]. by rewrite parse_chars_quote.
  - apply json_ok_arr in Hok. apply parse_value_arr; try done.
    apply Forall_forall. intros x Hx. rewrite !Forall_forall in *. auto.
  - apply json_ok_obj in Hok as [Hcan Hok]. apply parse_value_obj; try done.
    apply Forall_forall. intros x Hx. rewrite !Forall_forall in *. split; [by apply Hok|].
    apply H; [done|by apply Hok].
Qed.

(** [JSON.parse(JSON.stringify(v, null, gap))] is [v] for every JSON value
    and every whitespace gap. *)
Lemma parse_stringify gap v : ws gap -> json_ok v ->
  exists s, json_stringify_gap gap v = Some s /\ json_parse s = Ok v.
Proof.
  intros Hg Hok. exists (ser gap [] v). split; [by destruct v|].
  unfold json_parse, json_fuel.
  pose proof (parse_value_ser v Hok gap [] [] (2 * length (ser gap [] v) + 2)) as H.
  rewrite app_nil_r in H. rewrite H; [done|done|by constructor|done|lia].
Qed.

(** ** The fuel of [json_parse] is enough for every text *)

Lemma skip_ws_length s : length (skip_ws s) <= length s.
Proof.
  destruct (drop_while_suffix is_json_ws s) as (p & Hp & _). unfold skip_ws.
  rewrite Hp at 2. rewrite length_app. lia.
Qed.

Lemma skip_ws_cons s c r : skip_ws s = c :: r -> length r < length s.
Proof. intros H. pose proof (skip_ws_length s) as L. rewrite H in L. simpl in L. lia. Qed.

Lemma parse_chars_length s x r : parse_chars s = Some (x, r) -> length r < length s.
Proof.
  remember (length s) as n eqn:Hn. revert s x r Hn.
  induction (lt_wf n) as [n _ IH]. intros s x r Hn H.
  assert (forall c t, cons_fst c (parse_chars t) = Some (x, r) -> length t < n -> length r < n) as Hgo.
  { intros c t Ht Hlt. destruct (parse_chars t) as [[x' r']|] eqn:E; [|done]. simpl in Ht.
    simplify_eq. specialize (IH _ Hlt t _ _ eq_refl E). lia. }
  destruct s as [|c s]; [done|]. simpl in Hn. cbn [parse_chars] in H.
  repeat (split_match_in H; simplify_eq; try lia); eapply Hgo; eauto; simpl; lia.
Qed.

Lemma take_digits_length s d r : take_digits s = (d, r) -> length d + length r = length s.
Proof.
  revert d. induction s as [|c s IH]; intros d; simpl; [by intros [= <- <-]|].
  destruct (is_digit c); [|by intros [= <- <-]].
  destruct (take_digits s) as [d' r'] eqn:E. intros [= <- <-]. simpl. by rewrite (IH d').
Qed.

Ltac number_lengths H :=
  repeat (split_match_in H; simplify_eq);
  repeat match goal with E : take_digits _ = _ |- _ => apply take_digits_length in E end;
  simpl in *; lia.

Lemma parse_int_length s d r : parse_int s = Some (d, r) -> length r < length s.
Proof. unfold parse_int. intros H. number_lengths H. Qed.

Lemma parse_frac_length s d r : parse_frac s = Some (d, r) -> length r <= length s.
Proof. unfold parse_frac. intros H. number_lengths H. Qed.

Lemma parse_exp_length s x r : parse_exp s = Some (x, r) -> length r <= length s.
Proof. unfold parse_exp. intros H. number_lengths H. Qed.

Lemma parse_number_length s x r : parse_number s = Some (x, r) -> length r < length s.
Proof.
  assert (forall neg s, parse_unsigned neg s = Some (x, r) -> length r < length s) as Hu.
  { clear s. intros neg s. unfold parse_unsigned.
    destruct (parse_int s) as [[ids r1]|] eqn:E1; [|done].
    destruct (parse_frac r1) as [[fds r2]|] eqn:E2; [|done].
    destruct (parse_exp r2) as [[ex r3]|] eqn:E3; [|done]. intros [= <- <-].
    apply parse_int_length in E1. apply parse_frac_length in E2. apply parse_exp_length in E3. lia. }
  destruct s as [|c s]; [done|]. cbn [parse_number].
  destruct (c =? 45)%N; intros H; apply Hu in H; simpl in *; lia.
Qed.

Lemma parse_scalar_length s v r : parse_scalar s = Some (v, r) -> length r < length s.
Proof.
  destruct s as [|c s]; [done|]. cbn [parse_scalar]. unfold parse_word.
  assert (forall w, length (drop (length (js w)) (c :: s)) <= length (c :: s)) as Hd
    by (intros; rewrite length_drop; lia).
  intros H. repeat (split_match_in H; simplify_eq).
  all: try (rewrite length_drop; simpl; lia).
  - match goal with E : parse_chars _ = _ |- _ => apply parse_chars_length in E end. simpl. lia.
  - match goal with E : parse_number _ = _ |- _ => apply parse_number_length in E end. done.
Qed.

Lemma parse_length f :
  (forall s v r, parse_value f s = Some (v, r) -> length r < length s) /\
  (forall s l r, parse_elems f s = Some (l, r) -> length r < length s) /\
  (forall s l r, parse_members f s = Some (l, r) -> length r < length s).
Proof.
  induction f as [|f (IHv & IHe & IHm)]; [done|].
  assert (forall s c r, skip_ws s = c :: r -> length (c :: r) <= length s) as Hsk
    by (intros s c r H; rewrite <- H; apply skip_ws_length).
  split_and!; intros s v r H; cbn [parse_value parse_elems parse_members] in H;
    repeat (split_match_in H; simplify_eq);
    repeat match goal with
    | H : parse_value f _ = Some _ |- _ => apply IHv in H
    | H : parse_elems f _ = Some _ |- _ => apply IHe in H
    | H : parse_members f _ = Some _ |- _ => apply IHm in H
    | H : parse_scalar _ = Some _ |- _ => apply parse_scalar_length in H
    | H : parse_chars _ = Some _ |- _ => apply parse_chars_length in H
    | H : skip_ws _ = _ :: _ |- _ => apply Hsk in H
    end; simpl in *; lia.
Qed.

(** More fuel than the bound never changes the result. *)
Lemma parse_fuel f : forall f' s, f <= f' ->
  (2 * length s + 1 <= f -> parse_value f' s = parse_value f s) /\
  (2 * length s + 2 <= f -> parse_elems f' s = parse_elems f s) /\
  (2 * length s + 2 <= f -> parse_members f' s = parse_members f s).
Proof.
  induction f as [|f IH]; intros [|f'] s Hle; try (split_and!; intros; lia).
  assert (forall t, 2 * length t + 1 <= f -> parse_value f' t = parse_value f t) as IHv
    by (intros; apply IH; lia).
  assert (forall t, 2 * length t + 2 <= f -> parse_elems f' t = parse_elems f t) as IHe
    by (intros; apply IH; lia).
  assert (forall t, 2 * length t + 2 <= f -> parse_members f' t = parse_members f t) as IHm
    by (intros; apply IH; lia).
  destruct (parse_length f) as (Lv & Le & Lm).
  split_and!; intros Hf; cbn [parse_value parse_elems parse_members].
  - destruct (skip_ws s) as [|c r] eqn:E; [done|]. apply skip_ws_cons in E.
    rewrite IHe, IHm by lia. done.
  - rewrite IHv by lia. destruct (parse_value f s) as [[v r]|] eqn:E; [|done].
    apply Lv in E. destruct (skip_ws r) as [|c r'] eqn:E'; [done|]. apply skip_ws_cons in E'.
    by rewrite IHe by lia.
  - destruct (skip_ws s) as [|c r] eqn:E; [done|]. apply skip_ws_cons in E.
    destruct (c =? 34)%N; [|done].
    destruct (parse_chars r) as [[k r1]|] eqn:E1; [|done]. apply parse_chars_length in E1.
    destruct (skip_ws r1) as [|d r2] eqn:E2; [done|]. apply skip_ws_cons in E2.
    destruct (d =? 58)%N; [|done]. rewrite IHv by lia.
    destruct (parse_value f r2) as [[v r3]|] eqn:E3; [|done]. apply Lv in E3.
    destruct (skip_ws r3) as [|e r4] eqn:E4; [done|]. apply skip_ws_cons in E4.
    by rewrite IHm by lia.
Qed.

(** [json_parse] fails only for want of a JSON text, never of fuel. *)
Lemma json_parse_fuel s f : json_fuel s <= f -> parse_value f s = parse_value (json_fuel s) s.
Proof. intros H. apply parse_fuel; [done|]. unfold json_fuel. lia. Qed.

#[export] Hint Resolve parse_value_ser : peanut.

Arguments json_parse : simpl never.
Arguments json_stringify : simpl never.
Arguments json_stringify_gap : simpl never.
