(* ===== verification/Uri.v ===== *)
(** * [encodeURIComponent] and [URLSearchParams]

    Percent-encoding of the UTF-8 bytes of a string, as the language's
    [encodeURIComponent] (which throws on an unpaired surrogate) and the form
    serializer of [URLSearchParams] (which replaces it by U+FFFD and writes a
    space as [+]).  [decode_component] is what a server does with a path
    segment or a form field; the lemmas show that it recovers the
    original string and that an encoded string carries no delimiter. *)

From S2P Require Import Prelude JsString JsNumber JsValue Json.

(** ** Code points *)

Definition surrogate (c : N) : bool := high_surrogate c || low_surrogate c.

Definition pair_value (h l : N) : N := (65536 + (h - 55296) * 1024 + (l - 56320))%N.

(** The code points of a well-formed string, [None] on an unpaired surrogate. *)
Fixpoint code_points (s : jsstring) : option (list N) :=
  match s with
  | [] => Some []
  | c :: s' =>
      if high_surrogate c then
        match s' with
        | d :: s'' => if low_surrogate d then cons (pair_value c d) <$> code_points s'' else None
        | [] => None
        end
      else if low_surrogate c then None
      else cons c <$> code_points s'
  end.

(** The scalar values of a string, unpaired surrogates replaced by U+FFFD. *)
Fixpoint scalar_values (s : jsstring) : list N :=
  match s with
  | [] => []
  | c :: s' =>
      if high_surrogate c then
        match s' with
        | d :: s'' =>
            if low_surrogate d then pair_value c d :: scalar_values s'' else 65533%N :: scalar_values s'
        | [] => [65533%N]
        end
      else if low_surrogate c then 65533%N :: scalar_values s'
      else c :: scalar_values s'
  end.

Definition utf16 (cp : N) : jsstring :=
  if (cp <? 65536)%N then [cp]
  else [55296 + (cp - 65536) / 1024; 56320 + (cp - 65536) mod 1024]%N.

(** ** UTF-8 *)

Definition utf8 (cp : N) : list N :=
  if (cp <? 128)%N then [cp]
  else if (cp <? 2048)%N then [192 + cp / 64; 128 + cp mod 64]%N
  else if (cp <? 65536)%N then [224 + cp / 4096; 128 + cp / 64 mod 64; 128 + cp mod 64]%N
  else [240 + cp / 262144; 128 + cp / 4096 mod 64; 128 + cp / 64 mod 64; 128 + cp mod 64]%N.

Fixpoint utf8_decode (b : list N) : option (list N) :=
  match b with
  | [] => Some []
  | x :: r =>
      if (x <? 128)%N then cons x <$> utf8_decode r
      else if (x <? 224)%N then
        match r with
        | y :: r' => cons ((x - 192) * 64 + (y - 128))%N <$> utf8_decode r'
        | _ => None
        end
      else if (x <? 240)%N then
        match r with
        | y :: z :: r' => cons ((x - 224) * 4096 + (y - 128) * 64 + (z - 128))%N <$> utf8_decode r'
        | _ => None
        end
      else
        match r with
        | y :: z :: w :: r' =>
            cons ((x - 240) * 262144 + (y - 128) * 4096 + (z - 128) * 64 + (w - 128))%N
              <$> utf8_decode r'
        | _ => None
        end
  end.

(** ** Percent-encoding *)

Definition hex_upper (n : N) : N := if (n <? 10)%N then (48 + n)%N else (55 + n)%N.

Definition percent (b : N) : jsstring := [cu_percent; hex_upper (b / 16); hex_upper (b mod 16)].

Definition is_alnum (c : N) : bool :=
  (is_digit c || ((65 <=? c) && (c <=? 90)) || ((97 <=? c) && (c <=? 122)))%N.

(** [A-Z a-z 0-9 - _ . ! ~ * ' ( )] *)
Definition uri_unreserved (c : N) : bool :=
  (is_alnum c || (c =? 45) || (c =? 95) || (c =? 46) || (c =? 33) || (c =? 126) || (c =? 42)
   || (c =? 39) || (c =? 40) || (c =? 41))%N.

(** [A-Z a-z 0-9 * - . _] *)
Definition form_unreserved (c : N) : bool :=
  (is_alnum c || (c =? 42) || (c =? 45) || (c =? 46) || (c =? 95))%N.

Definition enc_point (safe : N -> bool) (cp : N) : jsstring :=
  if safe cp then [cp] else flat_map percent (utf8 cp).

(** [encodeURIComponent(s)] *)
Definition encodeURIComponent (s : jsstring) : outcome jsstring :=
  match code_points s with
  | Some cps => Ok (flat_map (enc_point uri_unreserved) cps)
  | None => Err uri_error
  end.

Definition form_point (cp : N) : jsstring :=
  if (cp =? 32)%N then [cu_plus] else enc_point form_unreserved cp.

Definition form_encode (s : jsstring) : jsstring := flat_map form_point (scalar_values s).

(** [new URLSearchParams(pairs).toString()] *)
Definition form_serialize (pairs : list (jsstring * jsstring)) : jsstring :=
  join [cu_amp] (map (fun kv => form_encode kv.1 ++ [cu_eq] ++ form_encode kv.2) pairs).

(** What a server does with a percent-encoded text; [plus] reads [+] as a space. *)
Fixpoint percent_decode (plus : bool) (s : jsstring) : option (list N) :=
  match s with
  | [] => Some []
  | c :: r =>
      if (c =? cu_percent)%N then
        match r with
        | a :: b :: r' =>
            match hex_val a, hex_val b with
            | Some x, Some y => cons (x * 16 + y)%N <$> percent_decode plus r'
            | _, _ => None
            end
        | _ => None
        end
      else if plus && (c =? cu_plus)%N then cons 32%N <$> percent_decode plus r
      else cons c <$> percent_decode plus r
  end.

Definition decode_component (plus : bool) (s : jsstring) : option jsstring :=
  b ← percent_decode plus s; cps ← utf8_decode b; Some (flat_map utf16 cps).

(** A well-formed string: code units, no unpaired surrogate. *)
Definition well_formed (s : jsstring) : bool :=
  unitsb s && match code_points s with Some _ => true | None => false end.

(** ** Scalar values *)

Definition scalar (cp : N) : Prop := (cp < 1114112)%N /\ surrogate cp = false.

Lemma code_points_ind (P : jsstring -> option (list N) -> Prop) :
  P [] (Some []) ->
  (forall c s, surrogate c = false -> P s (code_points s) ->
     P (c :: s) (cons c <$> code_points s)) ->
  (forall c d s, high_surrogate c = true -> low_surrogate d = true -> P s (code_points s) ->
     P (c :: d :: s) (cons (pair_value c d) <$> code_points s)) ->
  (forall s, code_points s = None -> P s None) ->
  forall s, P s (code_points s).
Proof.
  intros Hnil Hone Hpair Hbad s. remember (length s) as n eqn:Hn. revert s Hn.
  induction (lt_wf n) as [n _ IH]. intros [|c s] Hn; [done|]. simpl in Hn.
  pose proof (Hbad (c :: s)) as B. cbn [code_points] in *. unfold surrogate in Hone.
  destruct (high_surrogate c) eqn:Eh.
  - destruct s as [|d s]; [by apply B|]. destruct (low_surrogate d) eqn:El; [|by apply B].
    apply Hpair; [done..|]. simpl in Hn. eapply IH; [|done]. lia.
  - destruct (low_surrogate c) eqn:El; [by apply B|].
    apply Hone; [by rewrite Eh, El|]. eapply IH; [|done]. lia.
Qed.

Lemma pair_value_scalar c d : high_surrogate c = true -> low_surrogate d = true ->
  scalar (pair_value c d) /\ utf16 (pair_value c d) = [c; d].
Proof.
  unfold scalar, surrogate, high_surrogate, low_surrogate, pair_value, utf16. intros Hc Hd.
  reflect_bools. split; [split; [lia|]|].
  - rewrite orb_false_iff, !andb_false_iff, !N.leb_gt. lia.
  - rewrite (proj2 (N.ltb_ge _ _)) by lia. f_equal; [|f_equal]; zify; Z.to_euclidean_division_equations; lia.
Qed.

Lemma utf16_bmp c : (c < 65536)%N -> utf16 c = [c].
Proof. intros H. unfold utf16. by rewrite (proj2 (N.ltb_lt _ _)). Qed.

Lemma code_points_scalar s cps : unitsb s = true -> code_points s = Some cps ->
  Forall scalar cps /\ flat_map utf16 cps = s /\ scalar_values s = cps.
Proof.
  revert cps. pattern s, (code_points s). apply code_points_ind.
  - by intros cps _ [= <-].
  - intros c t Hc IH cps Hu H. destruct (code_points t) as [cps'|]; [|done]. simplify_eq/=.
    apply andb_prop in Hu as [Hlt Hu]. destruct (IH cps' Hu eq_refl) as (Hf & Hs & Hv).
    apply N.ltb_lt in Hlt. unfold surrogate in Hc. apply orb_false_elim in Hc as [Hh Hl].
    rewrite Hh, Hl, Hv, utf16_bmp, Hs by done. split_and!; [|done..].
    constructor; [|done]. split; [lia|]. unfold surrogate. by rewrite Hh, Hl.
  - intros c d t Hc Hd IH cps Hu H. destruct (code_points t) as [cps'|]; [|done]. simplify_eq/=.
    apply andb_prop in Hu as [_ Hu]. apply andb_prop in Hu as [_ Hu].
    destruct (IH cps' Hu eq_refl) as (Hf & Hs & Hv).
    destruct (pair_value_scalar c d Hc Hd) as [Hsc H16].
    rewrite Hc, Hd, H16, Hs, Hv. split_and!; [by constructor|done..].
  - done.
Qed.

(** ** Encoding lemmas *)

Lemma utf8_bytes cp : (cp < 1114112)%N -> Forall (fun b => (b < 256)%N) (utf8 cp).
Proof.
  intros H. unfold utf8. repeat split_match; reflect_bools;
    repeat constructor; zify; Z.to_euclidean_division_equations; lia.
Qed.

Lemma utf8_decode_app cp r : scalar cp -> utf8_decode (utf8 cp ++ r) = cons cp <$> utf8_decode r.
Proof.
  intros [H _]. unfold utf8. repeat split_match; reflect_bools; cbn [app utf8_decode].
  - by rewrite (proj2 (N.ltb_lt cp 128)).
  - rewrite (proj2 (N.ltb_ge _ 128)), (proj2 (N.ltb_lt _ 224))
      by (zify; Z.to_euclidean_division_equations; lia).
    do 2 f_equal. zify; Z.to_euclidean_division_equations; lia.
  - rewrite (proj2 (N.ltb_ge _ 128)), (proj2 (N.ltb_ge _ 224)), (proj2 (N.ltb_lt _ 240))
      by (zify; Z.to_euclidean_division_equations; lia).
    do 2 f_equal. zify; Z.to_euclidean_division_equations; lia.
  - rewrite (proj2 (N.ltb_ge _ 128)), (proj2 (N.ltb_ge _ 224)), (proj2 (N.ltb_ge _ 240))
      by (zify; Z.to_euclidean_division_equations; lia).
    do 2 f_equal. zify; Z.to_euclidean_division_equations; lia.
Qed.

Lemma utf8_decode_points cps : Forall scalar cps -> utf8_decode (flat_map utf8 cps) = Some cps.
Proof.
  induction 1 as [|cp cps Hc _ IH]; [done|]. cbn [flat_map].
  by rewrite utf8_decode_app, IH.
Qed.

Lemma hex_val_upper n : (n < 16)%N -> hex_val (hex_upper n) = Some n.
Proof.
  intros H. unfold hex_val, hex_upper, is_digit.
  destruct (n <? 10)%N eqn:E; reflect_bools.
  - rewrite (proj2 (N.leb_le 48 _)), (proj2 (N.leb_le _ 57)) by lia. simpl. f_equal. lia.
  - rewrite (proj2 (N.leb_gt _ 57)), (proj2 (N.leb_gt 97 _)) by lia. rewrite andb_false_r. simpl.
    rewrite (proj2 (N.leb_le 65 _)), (proj2 (N.leb_le _ 70)) by lia. simpl. f_equal. lia.
Qed.

Lemma percent_decode_byte plus b s : (b < 256)%N ->
  percent_decode plus (percent b ++ s) = cons b <$> percent_decode plus s.
Proof.
  intros H. unfold percent. cbn [app percent_decode]. rewrite N.eqb_refl.
  rewrite !hex_val_upper by (zify; Z.to_euclidean_division_equations; lia).
  do 2 f_equal. pose proof (N.div_mod' b 16). lia.
Qed.

Lemma percent_decode_bytes plus bs s : Forall (fun b => (b < 256)%N) bs ->
  percent_decode plus (flat_map percent bs ++ s) = app bs <$> percent_decode plus s.
Proof.
  induction 1 as [|b bs Hb _ IH]; cbn [flat_map app].
  { by destruct (percent_decode plus s). }
  rewrite <- app_assoc, percent_decode_byte, IH by done. by destruct (percent_decode plus s).
Qed.

(** A class of characters that stand for themselves: ASCII, and none of them
    special to the decoder. *)
Definition transparent (plus : bool) (safe : N -> bool) : Prop :=
  forall c, safe c = true -> (c < 128)%N /\ c <> cu_percent /\ (plus = true -> c <> cu_plus).

Lemma percent_decode_point plus safe cp s : transparent plus safe -> scalar cp ->
  percent_decode plus (enc_point safe cp ++ s) = app (utf8 cp) <$> percent_decode plus s.
Proof.
  intros Hsafe [Hcp _]. unfold enc_point. destruct (safe cp) eqn:E.
  - destruct (Hsafe cp E) as (H1 & H2 & H3). cbn [app percent_decode].
    rewrite (proj2 (N.eqb_neq _ _)) by done. unfold utf8. rewrite (proj2 (N.ltb_lt _ _)) by done.
    destruct plus; simpl; [rewrite (proj2 (N.eqb_neq _ _)) by auto|]; by destruct (percent_decode _ s).
  - apply percent_decode_bytes, utf8_bytes, Hcp.
Qed.

Lemma percent_decode_points plus (enc : N -> jsstring) cps :
  (forall cp s, scalar cp -> percent_decode plus (enc cp ++ s) = app (utf8 cp) <$> percent_decode plus s) ->
  Forall scalar cps -> percent_decode plus (flat_map enc cps) = Some (flat_map utf8 cps).
Proof.
  intros He. induction 1 as [|cp cps Hc _ IH]; [done|]. cbn [flat_map]. by rewrite He, IH.
Qed.

Lemma uri_transparent : transparent false uri_unreserved.
Proof.
  intros c. unfold uri_unreserved, is_alnum, is_digit.
  rewrite !orb_true_iff, !andb_true_iff, !N.leb_le, !N.eqb_eq. intros H. split_and!; [lia|lia|done].
Qed.

Lemma form_transparent : transparent true form_unreserved.
Proof.
  intros c. unfold form_unreserved, is_alnum, is_digit.
  rewrite !orb_true_iff, !andb_true_iff, !N.leb_le, !N.eqb_eq. intros H. split_and!; [lia|lia|lia].
Qed.

Lemma form_point_decode cp s : scalar cp ->
  percent_decode true (form_point cp ++ s) = app (utf8 cp) <$> percent_decode true s.
Proof.
  intros Hc. unfold form_point. destruct (N.eqb_spec cp 32) as [->|].
  - cbn [app percent_decode]. simpl. by destruct (percent_decode true s).
  - by apply percent_decode_point; [apply form_transparent|].
Qed.

(** Decoding an encoded component gives the string back. *)
Lemma decode_encodeURIComponent s t : unitsb s = true -> encodeURIComponent s = Ok t ->
  decode_component false t = Some s.
Proof.
  unfold encodeURIComponent, decode_component. intros Hu H.
  destruct (code_points s) as [cps|] eqn:E; [|done]. injection H as <-.
  destruct (code_points_scalar s cps Hu E) as (Hs & H16 & _).
  rewrite percent_decode_points by
    (done || intros; by apply percent_decode_point; [apply uri_transparent|]).
  simpl. rewrite utf8_decode_points by done. simpl. by rewrite H16.
Qed.

Lemma decode_form_encode s : well_formed s = true -> decode_component true (form_encode s) = Some s.
Proof.
  unfold well_formed, form_encode, decode_component. intros H. apply andb_prop in H as [Hu H].
  destruct (code_points s) as [cps|] eqn:E; [|done].
  destruct (code_points_scalar s cps Hu E) as (Hs & H16 & ->).
  rewrite percent_decode_points by (done || intros; by apply form_point_decode).
  simpl. rewrite utf8_decode_points by done. simpl. by rewrite H16.
Qed.

(** ** Delimiters never appear in an encoded text *)

Lemma hex_upper_alnum n : (n < 16)%N -> is_alnum (hex_upper n) = true.
Proof.
  intros H. unfold is_alnum, is_digit, hex_upper. destruct (n <? 10)%N eqn:E; reflect_bools.
  - rewrite (proj2 (N.leb_le 48 _)), (proj2 (N.leb_le _ 57)) by lia. done.
  - rewrite (proj2 (N.leb_le 65 _)), (proj2 (N.leb_le _ 90)) by lia. by rewrite orb_true_r.
Qed.

Lemma enc_point_chars safe cp : (cp < 1114112)%N ->
  Forall (fun c => safe c = true \/ c = cu_percent \/ is_alnum c = true) (enc_point safe cp).
Proof.
  intros H. unfold enc_point. destruct (safe cp) eqn:E; [by constructor; auto|].
  pose proof (utf8_bytes cp H) as Hb. induction Hb as [|b bs Hb _ IH]; [constructor|].
  cbn [flat_map]. apply Forall_app_2; [|done]. unfold percent.
  constructor; [tauto|]. constructor; [|constructor; [|constructor]]; right; right;
    apply hex_upper_alnum; zify; Z.to_euclidean_division_equations; lia.
Qed.

(** The characters of an encoded component. *)
Definition component_char (c : N) : bool := uri_unreserved c || (c =? cu_percent)%N.

Lemma alnum_unreserved c : is_alnum c = true -> uri_unreserved c = true.
Proof. unfold uri_unreserved. by intros ->. Qed.

Lemma encodeURIComponent_chars s t : unitsb s = true -> encodeURIComponent s = Ok t ->
  Forall (fun c => component_char c = true) t.
Proof.
  unfold encodeURIComponent. intros Hu H. destruct (code_points s) as [cps|] eqn:E; [|done].
  injection H as <-. destruct (code_points_scalar s cps Hu E) as (Hs & _ & _).
  clear E. induction Hs as [|cp cps Hc _ IH]; [constructor|]. cbn [flat_map].
  apply Forall_app_2; [|done]. pose proof (enc_point_chars uri_unreserved cp (proj1 Hc)) as Hp.
  eapply Forall_impl; [exact Hp|]. unfold component_char. intros c [->|[->|Ha]]; [done|done|]. by rewrite alnum_unreserved.
Qed.

(** A delimiter of a URL path or query. *)
Definition url_delimiter (c : N) : Prop :=
  c = cu_slash \/ c = cu_question \/ c = cu_hash \/ c = cu_amp \/ c = cu_eq \/ c = cu_plus \/ c = cu_space.

Lemma encodeURIComponent_no_delimiter s t c : unitsb s = true -> encodeURIComponent s = Ok t ->
  url_delimiter c -> c ∉ t.
Proof.
  intros Hu H Hd Hin. pose proof (encodeURIComponent_chars s t Hu H) as Hf.
  rewrite Forall_forall in Hf. specialize (Hf c Hin).
  by destruct Hd as [->|[->|[->|[->|[->|[->| ->]]]]]].
Qed.

Lemma encodeURIComponent_inj s1 s2 t : unitsb s1 = true -> unitsb s2 = true ->
  encodeURIComponent s1 = Ok t -> encodeURIComponent s2 = Ok t -> s1 = s2.
Proof.
  intros H1 H2 E1 E2. apply decode_encodeURIComponent in E1, E2; [|done..]. congruence.
Qed.

Lemma form_encode_chars s c : unitsb s = true -> c ∈ form_encode s ->
  form_unreserved c = true \/ c = cu_percent \/ c = cu_plus.
Proof.
  intros Hu. unfold form_encode.
  assert (Forall (fun cp => (cp < 1114112)%N) (scalar_values s)) as Hs.
  { unfold unitsb in Hu. remember (length s) as n eqn:Hn. revert s Hu Hn.
    induction (lt_wf n) as [n _ IH]. intros [|d s] Hu Hn; [constructor|]. simpl in Hn.
    cbn [forallb] in Hu. apply andb_prop in Hu as [Hd Hu]. apply N.ltb_lt in Hd.
    assert (Forall (fun cp => (cp < 1114112)%N) (scalar_values s)) as Hrest
      by (eapply IH; [|done..]; lia).
    cbn [scalar_values]. destruct (high_surrogate d) eqn:Eh.
    - destruct s as [|e s]; [by constructor|]. destruct (low_surrogate e) eqn:El; [|by constructor].
      cbn [forallb] in Hu. apply andb_prop in Hu as [_ Hu]. simpl in Hn.
      constructor; [apply (pair_value_scalar d e Eh El)|]. eapply IH; [|done..]; lia.
    - destruct (low_surrogate d); constructor; try done; lia. }
  induction Hs as [|cp cps Hc _ IH]; [by intros ?%elem_of_nil|].
  cbn [flat_map]. rewrite elem_of_app. intros [Hin|]; [|auto].
  unfold form_point in Hin. destruct (cp =? 32)%N.
  - apply list_elem_of_singleton in Hin. auto.
  - pose proof (enc_point_chars form_unreserved cp Hc) as Hf. rewrite Forall_forall in Hf.
    destruct (Hf c Hin) as [?|[?|Ha]]; auto. left. unfold form_unreserved. by rewrite Ha.
Qed.

Lemma form_encode_free s c : unitsb s = true -> c = cu_amp \/ c = cu_eq -> c ∉ form_encode s.
Proof.
  intros Hu Hc Hin. destruct (form_encode_chars s c Hu Hin) as [H|[H|H]];
    by destruct Hc; subst.
Qed.

(** ** Form parsing, as a server reads a query string *)

Definition form_pair (part : jsstring) : option (jsstring * jsstring) :=
  match split [cu_eq] part with
  | [k; v] => k' ← decode_component true k; v' ← decode_component true v; Some (k', v')
  | _ => None
  end.

Definition form_parse (s : jsstring) : option (list (jsstring * jsstring)) :=
  match s with [] => Some [] | _ => mapM form_pair (split [cu_amp] s) end.

Lemma well_formed_units s : well_formed s = true -> unitsb s = true.
Proof. unfold well_formed. by intros [? _]%andb_prop. Qed.

Lemma form_pair_encode k v : well_formed k = true -> well_formed v = true ->
  form_pair (form_encode k ++ [cu_eq] ++ form_encode v) = Some (k, v).
Proof.
  intros Hk Hv. unfold form_pair. cbn [app].
  rewrite split_char_app, split_char_none by (apply form_encode_free; auto using well_formed_units).
  rewrite !decode_form_encode by done. done.
Qed.

Definition wf_pair (kv : jsstring * jsstring) : Prop :=
  well_formed kv.1 = true /\ well_formed kv.2 = true.

(** A server recovers exactly the serialized pairs, in order. *)
Lemma form_parse_serialize pairs : Forall wf_pair pairs -> form_parse (form_serialize pairs) = Some pairs.
Proof.
  intros H. unfold form_serialize.
  set (parts := map _ pairs).
  assert (mapM form_pair parts = Some pairs) as HM.
  { apply mapM_Some. subst parts. clear -H.
    induction H as [|[k v] pairs [Hk Hv] _ IH]; constructor; [|done].
    by apply form_pair_encode. }
  assert (pairs <> [] -> exists c r, join [cu_amp] parts = c :: r) as Hne.
  { intros Hp. destruct pairs as [|[k v] pairs]; [done|]. subst parts. cbn [map].
    destruct (form_encode k) as [|c r] eqn:E; destruct pairs; simpl; rewrite E; simpl; eauto. }
  assert (Forall (fun p => cu_amp ∉ p) parts) as Hfree.
  { subst parts. apply Forall_map. eapply Forall_impl; [exact H|]. intros [k v] [Hk Hv]. simpl.
    rewrite elem_of_app, elem_of_cons. intros [Hin|[Hin|Hin]].
    - revert Hin. apply form_encode_free; auto using well_formed_units.
    - done.
    - revert Hin. apply form_encode_free; auto using well_formed_units. }
  destruct pairs as [|p pairs]; [done|]. destruct Hne as (c & r & Hc); [done|].
  unfold form_parse. rewrite Hc. rewrite <- Hc, split_join_char; [done|by subst parts|done].
Qed.

#[export] Hint Resolve well_formed_units encodeURIComponent_no_delimiter : peanut.

Arguments encodeURIComponent : simpl never.
Arguments form_serialize : simpl never.
Arguments form_parse : simpl never.
Arguments decode_component : simpl never.
