(* ===== verification/TextDecoder.v ===== *)
(** * [TextDecoder]: UTF-8 decoding of a stream

    The decoder of the Encoding standard, byte by byte: it keeps the bytes of
    an unfinished character between two calls of [decode(value, {stream: true})],
    replaces malformed input by U+FFFD and drops a leading byte order mark. *)

From S2P Require Import Prelude JsString JsNumber JsValue Json Uri.

(** The state of a decoder: the continuation bytes still needed, the bits read
    so far, the range of the next continuation byte, and whether the start of
    the stream has been passed. *)
Record decoder : Type := mkDecoder {
  d_needed : nat;
  d_point : N;
  d_lower : N;
  d_upper : N;
  d_started : bool
}.

Definition idle (started : bool) : decoder := mkDecoder 0 0 128 191 started.

(** [new TextDecoder()] *)
Definition new_decoder : decoder := idle false.

Definition replacement : N := 65533.
Definition byte_order_mark : N := 65279.

(** A byte where a character starts. *)
Definition lead_byte (started : bool) (b : N) : decoder * list N :=
  (if b <=? 127 then (idle started, [b])
   else if (194 <=? b) && (b <=? 223) then (mkDecoder 1 (b - 192) 128 191 started, [])
   else if (224 <=? b) && (b <=? 239) then
     (mkDecoder 2 (b - 224) (if b =? 224 then 160 else 128) (if b =? 237 then 159 else 191) started, [])
   else if (240 <=? b) && (b <=? 244) then
     (mkDecoder 3 (b - 240) (if b =? 240 then 144 else 128) (if b =? 244 then 143 else 191) started, [])
   else (idle started, [replacement]))%N.

(** One byte: the next state and the code points it completes.  A byte that
    cannot continue the character is read again as the start of one. *)
Definition decode_byte (d : decoder) (b : N) : decoder * list N :=
  match d_needed d with
  | O => lead_byte (d_started d) b
  | S n =>
      if ((d_lower d <=? b) && (b <=? d_upper d))%N then
        let point := (d_point d * 64 + (b - 128))%N in
        match n with
        | O => (idle (d_started d), [point])
        | _ => (mkDecoder n point 128 191 (d_started d), [])
        end
      else let '(d', out) := lead_byte (d_started d) b in (d', replacement :: out)
  end.

(** The byte order mark is dropped where the stream starts. *)
Definition emit (started : bool) (points : list N) : bool * list N :=
  match points with
  | [] => (started, [])
  | p :: rest => (true, if negb started && (p =? byte_order_mark)%N then rest else points)
  end.

Definition with_started (s : bool) (d : decoder) : decoder :=
  mkDecoder (d_needed d) (d_point d) (d_lower d) (d_upper d) s.

(** [decoder.decode(bytes, { stream: true })] *)
Fixpoint decode_stream (d : decoder) (bytes : list N) : decoder * jsstring :=
  match bytes with
  | [] => (d, [])
  | b :: rest =>
      let '(d1, points) := decode_byte d b in
      let '(started, out) := emit (d_started d) points in
      let '(d2, text) := decode_stream (with_started started d1) rest in
      (d2, flat_map utf16 out ++ text)
  end.

(** ** Properties *)

(** A stream can be decoded piece by piece. *)
Lemma decode_stream_app d x y :
  decode_stream d (x ++ y) =
  let '(d1, s1) := decode_stream d x in
  let '(d2, s2) := decode_stream d1 y in (d2, s1 ++ s2).
Proof.
  revert d. induction x as [|b x IH]; intros d; cbn [app decode_stream].
  { by destruct (decode_stream d y). }
  destruct (decode_byte d b) as [d1 points]. destruct (emit (d_started d) points) as [started out].
  rewrite IH. destruct (decode_stream (with_started started d1) x) as [d2 s].
  destruct (decode_stream d2 y) as [d3 s']. by rewrite app_assoc.
Qed.

Ltac byte_arith := zify; Z.to_euclidean_division_equations; lia.

(** Decide the range tests of the decoder. *)
Ltac decide_ranges :=
  repeat match goal with
  | |- context [(?a <=? ?b)%N] =>
      first [rewrite (proj2 (N.leb_le a b)) by byte_arith | rewrite (proj2 (N.leb_gt a b)) by byte_arith]
  end; cbn [andb negb].

Lemma scalar_gap cp : scalar cp -> (cp < 55296 \/ 57343 < cp)%N.
Proof.
  intros [_ H]. unfold surrogate, high_surrogate, low_surrogate in H. apply orb_false_iff in H.
  rewrite !andb_false_iff, !N.leb_gt in H. lia.
Qed.

(** A byte in the middle of a stream. *)
Lemma decode_stream_cons d b rest : d_started d = true ->
  decode_stream d (b :: rest) =
  let '(d1, points) := decode_byte d b in
  let '(d2, text) := decode_stream (with_started true d1) rest in (d2, flat_map utf16 points ++ text).
Proof.
  intros H. cbn [decode_stream]. destruct (decode_byte d b) as [d1 points]. rewrite H. by destruct points.
Qed.

Lemma continue_byte n p l u b : (l <= b <= u)%N ->
  decode_byte (mkDecoder (S n) p l u true) b =
  match n with
  | O => (idle true, [(p * 64 + (b - 128))%N])
  | _ => (mkDecoder n (p * 64 + (b - 128)) 128 191 true, [])
  end.
Proof.
  intros [H1 H2]. unfold decode_byte. cbn [d_needed d_lower d_upper d_point d_started].
  by rewrite (proj2 (N.leb_le _ _) H1), (proj2 (N.leb_le _ _) H2).
Qed.

(** The first bytes of a character of two, three and four bytes. *)
Lemma lead_two x : (2 <= x < 32)%N -> lead_byte true (192 + x) = (mkDecoder 1 x 128 191 true, []).
Proof. intros H. unfold lead_byte. decide_ranges. repeat f_equal. lia. Qed.

Lemma lead_three x : (x < 16)%N ->
  lead_byte true (224 + x) =
  (mkDecoder 2 x (if x =? 0 then 160 else 128)%N (if x =? 13 then 159 else 191)%N true, []).
Proof.
  intros H. unfold lead_byte. decide_ranges.
  replace (224 + x =? 224)%N with (x =? 0)%N by (destruct (N.eqb_spec x 0), (N.eqb_spec (224 + x) 224); lia).
  replace (224 + x =? 237)%N with (x =? 13)%N by (destruct (N.eqb_spec x 13), (N.eqb_spec (224 + x) 237); lia).
  repeat f_equal. lia.
Qed.

Lemma lead_four x : (x < 5)%N ->
  lead_byte true (240 + x) =
  (mkDecoder 3 x (if x =? 0 then 144 else 128)%N (if x =? 4 then 143 else 191)%N true, []).
Proof.
  intros H. unfold lead_byte. decide_ranges.
  replace (240 + x =? 240)%N with (x =? 0)%N by (destruct (N.eqb_spec x 0), (N.eqb_spec (240 + x) 240); lia).
  replace (240 + x =? 244)%N with (x =? 4)%N by (destruct (N.eqb_spec x 4), (N.eqb_spec (240 + x) 244); lia).
  repeat f_equal. lia.
Qed.

(** Step through the bytes of one character. *)
Ltac settle := unfold with_started; cbn [flat_map app d_needed d_point d_lower d_upper d_started].

Ltac next_byte :=
  settle; rewrite decode_stream_cons by done;
  rewrite continue_byte by (repeat case_match; reflect_bools; byte_arith); settle.

(** The end of a character: its code point has been put together. *)
Ltac character_done rest :=
  unfold idle; settle; destruct (decode_stream (mkDecoder 0 0 128 191 true) rest) as [d s];
  rewrite app_nil_r; do 3 f_equal; byte_arith.

Lemma decode_char cp rest : scalar cp ->
  decode_stream (idle true) (utf8 cp ++ rest) =
  let '(d, s) := decode_stream (idle true) rest in (d, utf16 cp ++ s).
Proof.
  intros Hs. pose proof (scalar_gap cp Hs) as Hg. destruct Hs as [Hc _]. unfold utf8.
  destruct (N.ltb_spec cp 128); [|destruct (N.ltb_spec cp 2048); [|destruct (N.ltb_spec cp 65536)]]; cbn [app];
    rewrite decode_stream_cons by done; change (decode_byte (idle true)) with (lead_byte true).
  - unfold lead_byte. decide_ranges. settle. change (mkDecoder 0 0 128 191 true) with (idle true).
    by rewrite app_nil_r.
  - rewrite lead_two by byte_arith. next_byte. character_done rest.
  - rewrite lead_three by byte_arith. do 2 next_byte. character_done rest.
  - rewrite lead_four by byte_arith. do 3 next_byte. character_done rest.
Qed.

(** The decoder gives back what UTF-8 encodes. *)
Lemma decode_stream_utf8 cps : Forall scalar cps ->
  decode_stream (idle true) (flat_map utf8 cps) = (idle true, flat_map utf16 cps).
Proof.
  induction 1 as [|cp cps Hc _ IH]; [done|]. cbn [flat_map]. by rewrite decode_char, IH.
Qed.
