(* ===== verification/Prog.v ===== *)
(** * Programs with effects

    An async function of the sources is a [prog E A]: it returns, throws, or
    performs one operation of the effect signature [E] and continues with the
    answer.  [run] interprets the operations in a state; [catch] is
    [try]/[catch].  The laws below are the equations the components' proofs
    use. *)

From S2P Require Import Prelude JsString JsNumber JsValue.

Inductive prog (E : Type -> Type) (A : Type) : Type :=
| Ret (a : A)
| Throw (e : thrown)
| Op {X : Type} (op : E X) (k : X -> prog E A).
Arguments Ret {E A} a.
Arguments Throw {E A} e.
Arguments Op {E A X} op k.

Section Monad.
Context {E : Type -> Type}.

#[global] Instance prog_ret : MRet (prog E) := fun A a => Ret a.

#[global] Instance prog_bind : MBind (prog E) := fun A B f =>
  fix go (p : prog E A) : prog E B :=
    match p with
    | Ret a => f a
    | Throw e => Throw e
    | Op op k => Op op (fun x => go (k x))
    end.

(** [try { p } catch (e) { h(e) }] *)
Fixpoint catch {A} (p : prog E A) (h : thrown -> prog E A) : prog E A :=
  match p with
  | Ret a => Ret a
  | Throw e => h e
  | Op op k => Op op (fun x => catch (k x) h)
  end.

(** [p.then(a => f(a), e => h(e))]: the handler does not see errors of [f]. *)
Fixpoint then_else {A B} (p : prog E A) (f : A -> prog E B) (h : thrown -> prog E B) : prog E B :=
  match p with
  | Ret a => f a
  | Throw e => h e
  | Op op k => Op op (fun x => then_else (k x) f h)
  end.

(** One operation. *)
Definition trigger {X} (op : E X) : prog E X := Op op Ret.

(** A synchronous step that may throw. *)
Definition lift {A} (x : outcome A) : prog E A :=
  match x with Ok a => Ret a | Err e => Throw e end.

(** An operation whose answer may be a rejection. *)
Definition await {A} (op : E (outcome A)) : prog E A := Op op lift.
End Monad.

Section Run.
Context {E : Type -> Type} {S : Type} (h : forall X, E X -> S -> S * X).

Fixpoint run {A} (p : prog E A) (s : S) : S * outcome A :=
  match p with
  | Ret a => (s, Ok a)
  | Throw e => (s, Err e)
  | Op op k => let '(s', x) := h _ op s in run (k x) s'
  end.

Lemma run_bind {A B} (p : prog E A) (f : A -> prog E B) s :
  run (p ≫= f) s =
  match run p s with
  | (s', Ok a) => run (f a) s'
  | (s', Err e) => (s', Err e)
  end.
Proof.
  revert s. induction p as [a|e|X op k IH]; intros s; simpl; [done..|].
  destruct (h X op s) as [s' x]. apply IH.
Qed.

Lemma run_catch {A} (p : prog E A) (g : thrown -> prog E A) s :
  run (catch p g) s =
  match run p s with
  | (s', Ok a) => (s', Ok a)
  | (s', Err e) => run (g e) s'
  end.
Proof.
  revert s. induction p as [a|e|X op k IH]; intros s; simpl; [done..|].
  destruct (h X op s) as [s' x]. apply IH.
Qed.

Lemma run_then_else {A B} (p : prog E A) (f : A -> prog E B) (g : thrown -> prog E B) s :
  run (then_else p f g) s =
  match run p s with
  | (s', Ok a) => run (f a) s'
  | (s', Err e) => run (g e) s'
  end.
Proof.
  revert s. induction p as [a|e|X op k IH]; intros s; simpl; [done..|].
  destruct (h X op s) as [s' x]. apply IH.
Qed.

Lemma run_lift {A} (x : outcome A) s : run (lift x) s = (s, x).
Proof. by destruct x. Qed.

(** An invariant of the handler is an invariant of every program. *)
Lemma run_invariant (I : S -> Prop) :
  (forall X (op : E X) s, I s -> I (h X op s).1) ->
  forall A (p : prog E A) s, I s -> I (run p s).1.
Proof.
  intros Hh A p. induction p as [a|e|X op k IH]; intros s Hs; simpl; [done..|].
  specialize (Hh X op s Hs). destruct (h X op s) as [s' x]. by apply IH.
Qed.
End Run.
