(* ===== verification/ProgEq.v ===== *)
(** * Equivalence of programs

    Two programs are equivalent when every interpretation of their operations,
    from every state, gives the same state and the same outcome.  This is
    coarser than equality (continuations are compared pointwise, and only
    through what they do), so the monad laws hold and programs can be rewritten
    inside [bind], [catch] and [then_else]. *)

From S2P Require Import Prelude JsString JsNumber JsValue Prog.

#[global] Instance prog_equiv {E A} : Equiv (prog E A) := fun p q =>
  forall (S : Type) (h : forall X, E X -> S -> S * X) (s : S), run h p s = run h q s.

#[global] Instance prog_equivalence {E A} : Equivalence (≡@{prog E A}).
Proof.
  split.
  - by intros p S h s.
  - intros p q H S h s. by rewrite H.
  - intros p q r H1 H2 S h s. by rewrite H1.
Qed.

Section Congruence.
Context {E : Type -> Type}.

#[global] Instance bind_proper {A B} :
  Proper (pointwise_relation A (≡) ==> (≡) ==> (≡)) (@mbind (prog E) prog_bind A B).
Proof.
  intros f g Hf p q Hp S h s. rewrite !run_bind, (Hp S h s).
  destruct (run h q s) as [s' [a|e]]; [apply Hf|done].
Qed.

#[global] Instance catch_proper {A} :
  Proper ((≡) ==> pointwise_relation thrown (≡) ==> (≡)) (@catch E A).
Proof.
  intros p q Hp f g Hf S h s. rewrite !run_catch, (Hp S h s).
  destruct (run h q s) as [s' [a|e]]; [done|apply Hf].
Qed.

#[global] Instance then_else_proper {A B} :
  Proper ((≡) ==> pointwise_relation A (≡) ==> pointwise_relation thrown (≡) ==> (≡)) (@then_else E A B).
Proof.
  intros p q Hp f f' Hf g g' Hg S h s. rewrite !run_then_else, (Hp S h s).
  destruct (run h q s) as [s' [a|e]]; [apply Hf|apply Hg].
Qed.

Lemma op_equiv {A X} (op : E X) (k k' : X -> prog E A) :
  (forall x, k x ≡ k' x) -> Op op k ≡ Op op k'.
Proof. intros H S h s. simpl. destruct (h X op s) as [s' x]. apply H. Qed.

(** [p] and [q] perform the same operation and go on equivalently. *)
Lemma bind_equiv {A B} (p : prog E A) (f g : A -> prog E B) :
  (forall a, f a ≡ g a) -> p ≫= f ≡ p ≫= g.
Proof. intros H. by apply bind_proper. Qed.

(** ** The monad laws *)

Lemma bind_assoc {A B C} (p : prog E A) (f : A -> prog E B) (g : B -> prog E C) :
  (p ≫= f) ≫= g ≡ p ≫= (fun a => f a ≫= g).
Proof.
  intros S h s. rewrite !run_bind. destruct (run h p s) as [s' [a|e]]; [|done]. by rewrite run_bind.
Qed.

Lemma bind_ret_l {A B} (a : A) (f : A -> prog E B) : Ret a ≫= f ≡ f a.
Proof. by intros S h s. Qed.

Lemma bind_ret_r {A} (p : prog E A) : p ≫= Ret ≡ p.
Proof. intros S h s. rewrite run_bind. by destruct (run h p s) as [s' [a|e]]. Qed.

Lemma bind_throw {A B} (e : thrown) (f : A -> prog E B) : Throw e ≫= f ≡ Throw e.
Proof. by intros S h s. Qed.

(** A synchronous step in sequence. *)
Lemma bind_lift {A B} (x : outcome A) (f : A -> prog E B) :
  lift x ≫= f ≡ match x with Ok a => f a | Err e => Throw e end.
Proof. by destruct x. Qed.

Lemma lift_bind {A B} (x : outcome A) (f : A -> outcome B) :
  @lift E B (res_bind x f) ≡ lift x ≫= (fun a => lift (f a)).
Proof. by destruct x. Qed.

(** A rejection of an awaited operation goes to the handler. *)
Lemma catch_await {A B} (op : E (outcome A)) (f : A -> prog E B) (g : thrown -> prog E B) :
  catch (await op ≫= f) g ≡
  trigger op ≫= (fun o => match o with Ok a => catch (f a) g | Err e => g e end).
Proof.
  apply op_equiv. intros [a|e]; done.
Qed.

Lemma catch_ret {A} (a : A) (g : thrown -> prog E A) : catch (Ret a) g ≡ Ret a.
Proof. by intros S h s. Qed.

(** Operations that do not throw stay outside the handler. *)
Lemma catch_trigger {A X} (op : E X) (f : X -> prog E A) (g : thrown -> prog E A) :
  catch (trigger op ≫= f) g ≡ trigger op ≫= (fun x => catch (f x) g).
Proof. by apply op_equiv. Qed.
End Congruence.

(** Compare two programs step by step. *)
Ltac prog_steps :=
  repeat match goal with
  | |- ?p ≡ ?p => reflexivity
  | |- _ ≡ _ => rewrite !bind_assoc
  | |- mbind ?f ?p ≡ mbind ?g ?p => apply bind_equiv; intros ?
  | |- mbind ?f (lift (res_bind ?x ?y)) ≡ _ => rewrite (lift_bind x y)
  | |- _ ≡ mbind ?f (lift (res_bind ?x ?y)) => rewrite (lift_bind x y)
  | |- mbind _ (Ret _) ≡ _ => rewrite bind_ret_l
  | |- _ ≡ mbind _ (Ret _) => rewrite bind_ret_l
  end.
