(* ===== verification/Http.v ===== *)
(** * The Fetch platform interface

    Header lists, requests and responses as the sources build and read them.
    [Headers.set] and [Headers.append] normalize their value and reject a name
    or a value that is not one of a header; the network itself is a parameter of every component that uses it. *)

From S2P Require Import Prelude JsString JsNumber JsValue Json.

(** ** Headers: names are case-insensitive *)

Abbreviation headers := (gmap jsstring jsstring).

Definition http_ws (c : N) : bool := ((c =? 9) || (c =? 10) || (c =? 13) || (c =? 32))%N.

(** A header value is a byte string without NUL, CR or LF. *)
Definition header_byte (c : N) : bool :=
  ((c <=? 255) && negb (c =? 0) && negb (c =? 10) && negb (c =? 13))%N.

Definition header_value (v : jsstring) : outcome jsstring :=
  let n := trim_end http_ws (drop_while http_ws v) in
  if forallb header_byte n then Ok n else Err (type_error (js "Invalid header value")).

(** A header name is a token of HTTP. *)
Definition token_char (c : N) : bool :=
  (((48 <=? c) && (c <=? 57)) || ((65 <=? c) && (c <=? 90)) || ((97 <=? c) && (c <=? 122)) ||
   existsb (N.eqb c) [33; 35; 36; 37; 38; 39; 42; 43; 45; 46; 94; 95; 96; 124; 126])%N.

Definition header_name (name : jsstring) : bool := nonempty name && forallb token_char name.

(** The checks and the normalization of [set] and [append]. *)
Definition header_entry (name value : jsstring) : outcome jsstring :=
  if header_name name then header_value value else Err (type_error (js "Invalid header name")).

(** [headers.set(name, value)] *)
Definition headers_set (name value : jsstring) (hs : headers) : outcome headers :=
  let! v := header_entry name value in Ok (<[to_lower name := v]> hs).

(** [headers.append(name, value)]: values of the same name are combined. *)
Definition headers_append (name value : jsstring) (hs : headers) : outcome headers :=
  let! v := header_entry name value in
  Ok (<[to_lower name := match hs !! to_lower name with Some w => w ++ js ", " ++ v | None => v end]> hs).

(** [headers.get(name)] *)
Definition headers_get (name : jsstring) (hs : headers) : option jsstring := hs !! to_lower name.

(** [headers.has(name)] *)
Definition headers_has (name : jsstring) (hs : headers) : bool :=
  match headers_get name hs with Some _ => true | None => false end.

(** [new Headers(init)] of a record of headers: each of them is appended. *)
Fixpoint new_headers (init : list (jsstring * jsstring)) (hs : headers) : outcome headers :=
  match init with
  | [] => Ok hs
  | (k, v) :: rest => let! hs' := headers_append k v hs in new_headers rest hs'
  end.

(** ** Requests and responses *)

Inductive body_init : Type :=
| BText (s : jsstring)
| BBytes (b : list N).

Record request_init : Type := {
  ri_method : option jsstring;
  ri_headers : headers;
  ri_body : option body_init
}.

Record response : Type := {
  status : Z;
  resp_headers : headers;
  resp_body : outcome jsstring
}.

(** [response.ok] *)
Definition response_ok (r : response) : bool := ((200 <=? status r) && (status r <=? 299))%Z.

(** [await response.json()] *)
Definition response_json (r : response) : outcome jsval :=
  let! t := resp_body r in json_parse t.

(** [await response.text()] *)
Definition response_text (r : response) : outcome jsval := res_map JStr (resp_body r).

Arguments header_value : simpl never.
Arguments header_entry : simpl never.
Arguments headers_set : simpl never.
Arguments headers_append : simpl never.
Arguments headers_get : simpl never.
Arguments response_ok : simpl never.

(** ** Lemmas *)

Lemma header_value_safe v n : header_value v = Ok n -> (13%N ∉ n) /\ (10%N ∉ n).
Proof.
  unfold header_value. destruct (forallb _ _) eqn:E; [|done]. intros [= <-].
  rewrite forallb_forall in E.
  split; intros Hin; apply list_elem_of_In in Hin; by apply E in Hin.
Qed.

(** Values without surrounding whitespace are sent as they are. *)
Lemma header_value_plain v : forallb header_byte v = true ->
  (forall c r, v = c :: r -> http_ws c = false) -> (forall r c, v = r ++ [c] -> http_ws c = false) ->
  header_value v = Ok v.
Proof.
  intros Hv Hh Hl. unfold header_value.
  assert (drop_while http_ws v = v) as ->.
  { destruct v as [|c r]; [done|]. simpl. by rewrite (Hh c r). }
  rewrite trim_end_id by done. by rewrite Hv.
Qed.

Lemma header_entry_value name value v : header_entry name value = Ok v -> header_value value = Ok v.
Proof. unfold header_entry. by destruct (header_name name). Qed.

Lemma headers_set_get name value hs hs' : headers_set name value hs = Ok hs' ->
  exists v, header_value value = Ok v /\ headers_get name hs' = Some v.
Proof.
  unfold headers_set, headers_get. destruct (header_entry name value) as [v|e] eqn:E; [|done].
  intros [= <-]. exists v. split; [by eapply header_entry_value|]. apply lookup_insert_eq.
Qed.

Lemma headers_set_other name value k hs hs' : headers_set name value hs = Ok hs' ->
  to_lower k <> to_lower name -> headers_get k hs' = headers_get k hs.
Proof.
  unfold headers_set, headers_get. destruct (header_entry name value) as [v|e]; [|done].
  intros [= <-] Hne. by apply lookup_insert_ne.
Qed.
