(* ===== verification/Sdk.v ===== *)
(** * The JavaScript SDK: [sdks/js/src/index.ts]

    [PeanutClient] and its sub-clients as programs over the effects of the
    SDK: the fetch implementation, the mutable access token, timers and
    delays.  [Module Sdk] holds the translation, [Module Exec] an
    interpretation over an arbitrary server, with a log of what was done. *)

From S2P Require Import Prelude JsString JsNumber JsValue Json Uri Prog Http.
From Stdlib Require Import SpecFloat.

Module Sdk.

(** ** Options and client state *)

(** [PeanutRetryOptions]; option counts and delays are integers. *)
Record PeanutRetryOptions : Type := {
  maxRetries_opt : option Z;
  baseDelayMs_opt : option Z
}.

(** [PeanutClientOptions]; [fetch] is whether an implementation is given. *)
Record PeanutClientOptions : Type := {
  baseUrl_opt : jsstring;
  appId_opt : jsstring;
  apiKey_opt : jsstring;
  accessToken_opt : jsval;
  timeoutMs_opt : option Z;
  retry_opt : option PeanutRetryOptions;
  fetch_opt : bool
}.

(** The sub-clients a client may have. *)
Inductive subclient : Type := SubAuth | SubData | SubStorage | SubPush | SubFunctions | SubRealtime.

#[global] Instance subclient_eq_dec : EqDecision subclient.
Proof. solve_decision. Defined.

(** The fields of a [PeanutClient]; [accessToken] is the mutable one and
    lives in the state.  [subclients] are the fields [auth], [data] and so on
    that the constructor sets.  Counts and times are integers: fractions, [NaN]
    and infinities as options are not represented. *)
Record PeanutClient : Type := {
  baseUrl : jsstring;
  appId : jsstring;
  apiKey : jsstring;
  timeoutMs : Z;
  maxRetries : Z;
  baseDelayMs : Z;
  subclients : list subclient
}.

(** [new PeanutClient(options)]: the client and its initial access token. *)
Definition construct (options : PeanutClientOptions) (globalFetch : bool)
  : outcome (PeanutClient * jsval) :=
  let fetchImpl := fetch_opt options || globalFetch in
  let client :=
    {| baseUrl := strip_slashes (baseUrl_opt options);
       appId := appId_opt options;
       apiKey := apiKey_opt options;
       timeoutMs := default 30000%Z (timeoutMs_opt options);
       maxRetries := default 0%Z (retry_opt options ≫= maxRetries_opt);
       baseDelayMs := default 200%Z (retry_opt options ≫= baseDelayMs_opt);
       subclients := [SubAuth; SubData; SubStorage; SubPush; SubFunctions; SubRealtime] |} in
  if negb fetchImpl then Err (new_error (js "A fetch implementation is required"))
  else Ok (client, accessToken_opt options).

(** ** Effects *)

(** A fetch carries the abort signal of a timer, when there is one. *)
Inductive sdkE : Type -> Type :=
| Fetch (url : jsstring) (init : request_init) (signal : option nat) : sdkE (outcome response)
| GetAccessToken : sdkE jsval
| SetAccessToken (v : jsval) : sdkE unit
| SetTimeout (ms : Z) : sdkE nat
| ClearTimeout (timer : nat) : sdkE unit
| Delay (ms : Z) : sdkE unit.

Abbreviation sdk := (prog sdkE).

(** [new PeanutError(status, message, body)] *)
Definition PeanutError (st : Z) (message : jsstring) (body : jsval) : thrown :=
  TError {| err_name := js "PeanutError"; err_message := Text message;
            err_status := Some st; err_payload := Some body |}.

(** ** Helpers *)

Definition encodePath (value : jsstring) : outcome jsstring := encodeURIComponent value.

Definition encodeKey (value : jsstring) : outcome jsstring :=
  let! parts := map_outcome encodeURIComponent (split [cu_slash] value) in
  Ok (join [cu_slash] parts).

(** [search.set(key, value)] replaces the first pair of that name. *)
Fixpoint search_set (key value : jsstring) (l : list (jsstring * jsstring)) : list (jsstring * jsstring) :=
  match l with
  | [] => [(key, value)]
  | (k, v) :: l' =>
      if jseq k key then (key, value) :: filter (fun kv => negb (jseq kv.1 key)) l'
      else (k, v) :: search_set key value l'
  end.

Fixpoint toQuery_pairs (params : list (jsstring * jsval)) (search : list (jsstring * jsstring))
  : outcome (list (jsstring * jsstring)) :=
  match params with
  | [] => Ok search
  | (key, value) :: rest =>
      match value with
      | JUndefined => toQuery_pairs rest search
      | _ => let! s := to_string value in toQuery_pairs rest (search_set key s search)
      end
  end.

Definition toQuery (params : list (jsstring * jsval)) : outcome jsstring :=
  let! search := toQuery_pairs params [] in
  let query := form_serialize search in
  Ok (if nonempty query then js "?" ++ query else []).

Definition errorMessage (value : jsval) : outcome jsstring :=
  let fallback :=
    match value with
    | JStr s => if nonempty s then s else js "Peanut request failed"
    | _ => js "Peanut request failed"
    end in
  match value with
  | JObj l => match assoc (js "error") l with
              | Some e => to_string e
              | None => Ok fallback
              end
  | _ => Ok fallback
  end.

Definition isTransientStatus (st : Z) : bool :=
  ((st =? 408) || (st =? 429) || (500 <=? st))%Z.

(** ** [PeanutClient] *)
Section Client.
Variable c : PeanutClient.

Definition setAccessToken (accessToken : jsval) : sdk unit := trigger (SetAccessToken accessToken).

(** The [while] loop of [fetchWithRetry]; [fuel] bounds the iterations left
    ([maxRetries + 2] of them suffice, see [fetchWithRetry_refines]). *)
Fixpoint retry_loop (fuel : nat) (input : jsstring) (init : request_init)
    (attempt : Z) (lastError : thrown) : sdk response :=
  match fuel with
  | O => Throw lastError
  | S fuel' =>
      if negb (attempt <=? maxRetries c)%Z then Throw lastError
      else
        timeout ← trigger (SetTimeout (timeoutMs c));
        result ← trigger (Fetch input init (Some timeout));
        _ ← trigger (ClearTimeout timeout);
        match result with
        | Ok response =>
            if negb (isTransientStatus (status response)) || (attempt =? maxRetries c)%Z
            then Ret response
            else
              _ ← trigger (Delay (baseDelayMs c * Z.max 1 (attempt + 1))%Z);
              retry_loop fuel' input init (attempt + 1)%Z lastError
        | Err error =>
            if (attempt =? maxRetries c)%Z then Throw error
            else
              _ ← trigger (Delay (baseDelayMs c * Z.max 1 (attempt + 1))%Z);
              retry_loop fuel' input init (attempt + 1)%Z error
        end
  end.

Definition fetchWithRetry (input : jsstring) (init : request_init) : sdk response :=
  retry_loop (Z.to_nat (maxRetries c + 2)) input init 0 (TValue JUndefined).

Definition appPath (path : jsstring) : outcome jsstring :=
  let! app := encodeURIComponent (appId c) in Ok (js "/api/apps/" ++ app ++ path).

(** [headers.set("X-Peanut-Api-Key", ...)] and the bearer header. *)
Definition authHeaders (hs : headers) : sdk headers :=
  hs1 ← lift (headers_set (js "X-Peanut-Api-Key") (apiKey c) hs);
  token ← trigger GetAccessToken;
  if truthy token then
    t ← lift (to_string token);
    lift (headers_set (js "Authorization") (js "Bearer " ++ t) hs1)
  else Ret hs1.

(** The body of a response, by its content type. *)
Definition responseValue (r : response) : outcome jsval :=
  let contentType := default [] (headers_get (js "content-type") (resp_headers r)) in
  if includes (js "application/json") contentType then response_json r else response_text r.

(** [throw new PeanutError(response.status, errorMessage(value), value)] *)
Definition throwResponse {A} (r : response) (value : jsval) : sdk A :=
  m ← lift (errorMessage value);
  Throw (PeanutError (status r) m value).

(** [options] of [request]: [body] is [undefined] when absent. *)
Record request_options : Type := {
  opt_body : jsval;
  opt_headers : list (jsstring * jsstring);
  opt_rawBody : option body_init
}.

Definition no_options : request_options :=
  {| opt_body := JUndefined; opt_headers := []; opt_rawBody := None |}.

Definition with_body (b : jsval) : request_options :=
  {| opt_body := b; opt_headers := []; opt_rawBody := None |}.

Definition request (method path : jsstring) (options : request_options) : sdk jsval :=
  hs0 ← lift (new_headers (opt_headers options) ∅);
  hs ← authHeaders hs0;
  '(hs', body) ←
    (match opt_body options with
     | JUndefined => Ret (hs, opt_rawBody options)
     | b => hs1 ← lift (headers_set (js "Content-Type") (js "application/json") hs);
            Ret (hs1, BText <$> json_stringify b)
     end);
  response ← fetchWithRetry (baseUrl c ++ path)
               {| ri_method := Some method; ri_headers := hs'; ri_body := body |};
  if (status response =? 204)%Z then Ret JUndefined
  else
    value ← lift (responseValue response);
    if negb (response_ok response) then throwResponse response value else Ret value.

(** The common tail of the binary requests: a non-ok response throws. *)
Definition checkResponse (r : response) : sdk response :=
  if negb (response_ok r) then value ← lift (responseValue r); throwResponse r value
  else Ret r.

Definition requestBinary (method path : jsstring) : sdk response :=
  hs ← authHeaders ∅;
  r ← fetchWithRetry (baseUrl c ++ path)
        {| ri_method := Some method; ri_headers := hs; ri_body := None |};
  checkResponse r.

Definition requestBinaryWithBody (method path : jsstring) (body : body_init) (contentType : jsstring)
  : sdk response :=
  hs0 ← lift (new_headers [(js "Content-Type", contentType)] ∅);
  hs ← authHeaders hs0;
  r ← fetchWithRetry (baseUrl c ++ path)
        {| ri_method := Some method; ri_headers := hs; ri_body := Some body |};
  checkResponse r.

Definition streamRequest (path : jsstring) (signal : option nat) : sdk response :=
  hs0 ← lift (new_headers [(js "Accept", js "text/event-stream")] ∅);
  hs ← authHeaders hs0;
  r ← await (Fetch (baseUrl c ++ path)
               {| ri_method := None; ri_headers := hs; ri_body := None |} signal);
  checkResponse r.

(** [this.client.request(method, this.client.appPath(path), options)] *)
Definition appRequest (method : jsstring) (path : outcome jsstring) (options : request_options) : sdk jsval :=
  p ← lift path;
  full ← lift (appPath p);
  request method full options.

(** ** [PeanutAuthClient] *)

Definition credentials (email password : jsstring) : jsval :=
  JObj [(js "email", JStr email); (js "password", JStr password)].

Definition auth_register (email password : jsstring) : sdk jsval :=
  appRequest (js "POST") (Ok (js "/auth/register")) (with_body (credentials email password)).

(** [login] and [refresh] store the returned [access_token]. *)
Definition storeToken (response : jsval) : sdk jsval :=
  token ← lift (get response (js "access_token"));
  _ ← setAccessToken token;
  Ret response.

Definition auth_login (email password : jsstring) : sdk jsval :=
  response ← appRequest (js "POST") (Ok (js "/auth/login")) (with_body (credentials email password));
  storeToken response.

Definition refresh_body (refreshToken : jsstring) : jsval :=
  JObj [(js "refresh_token", JStr refreshToken)].

Definition auth_refresh (refreshToken : jsstring) : sdk jsval :=
  response ← appRequest (js "POST") (Ok (js "/auth/refresh")) (with_body (refresh_body refreshToken));
  storeToken response.

Definition auth_logout (refreshToken : jsstring) : sdk unit :=
  _ ← appRequest (js "POST") (Ok (js "/auth/logout")) (with_body (refresh_body refreshToken));
  setAccessToken JUndefined.

Definition auth_me : sdk jsval := appRequest (js "GET") (Ok (js "/auth/me")) no_options.

(** ** [PeanutDataClient] *)

Definition data_listTables : sdk jsval := appRequest (js "GET") (Ok (js "/data/tables")) no_options.

(** [`/data/tables/${encodePath(table)}`] *)
Definition tablePath (table : jsstring) : outcome jsstring :=
  let! t := encodePath table in Ok (js "/data/tables/" ++ t).

(** [`/data/tables/${encodePath(table)}/rows/${encodePath(rowId)}`] *)
Definition rowPath (table rowId : jsstring) : outcome jsstring :=
  let! t := tablePath table in
  let! r := encodePath rowId in
  Ok (t ++ js "/rows/" ++ r).

Definition data_getTable (table : jsstring) : sdk jsval :=
  appRequest (js "GET") (tablePath table) no_options.

Definition rowsPath (table query : jsstring) : outcome jsstring :=
  let! t := tablePath table in Ok (t ++ js "/rows" ++ query).

Definition data_listRows (table : jsstring) (params : list (jsstring * jsval)) : sdk jsval :=
  query ← lift (toQuery params);
  appRequest (js "GET") (rowsPath table query) no_options.

Definition data_body (data : jsval) : jsval := JObj [(js "data", data)].

Definition data_createRow (table : jsstring) (data : jsval) : sdk jsval :=
  appRequest (js "POST") (rowsPath table []) (with_body (data_body data)).

Definition data_getRow (table rowId : jsstring) : sdk jsval :=
  appRequest (js "GET") (rowPath table rowId) no_options.

Definition data_updateRow (table rowId : jsstring) (data : jsval) : sdk jsval :=
  appRequest (js "PATCH") (rowPath table rowId) (with_body (data_body data)).

Definition data_deleteRow (table rowId : jsstring) : sdk jsval :=
  appRequest (js "DELETE") (rowPath table rowId) no_options.

(** ** [PeanutStorageClient] *)

Definition objectsPath (bucket suffix : jsstring) : outcome jsstring :=
  let! b := encodePath bucket in Ok (js "/storage/buckets/" ++ b ++ js "/objects" ++ suffix).

Definition objectPath (bucket key : jsstring) : outcome jsstring :=
  let! b := encodePath bucket in
  let! k := encodeKey key in
  Ok (js "/storage/buckets/" ++ b ++ js "/objects/" ++ k).

Definition storage_listObjects (bucket : jsstring) (prefix : option jsstring) : sdk jsval :=
  query ← lift (match prefix with
                | Some p => if nonempty p then let! e := encodeURIComponent p in Ok (js "?prefix=" ++ e)
                            else Ok []
                | None => Ok []
                end);
  appRequest (js "GET") (objectsPath bucket query) no_options.

Definition storage_getObject (bucket key : jsstring) : sdk response :=
  p ← lift (objectPath bucket key);
  full ← lift (appPath p);
  requestBinary (js "GET") full.

Definition octet_stream : jsstring := js "application/octet-stream".

Definition storage_putObject (bucket key : jsstring) (body : body_init) (contentType : option jsstring)
  : sdk response :=
  p ← lift (objectPath bucket key);
  full ← lift (appPath p);
  requestBinaryWithBody (js "PUT") full body (default octet_stream contentType).

Definition storage_deleteObject (bucket key : jsstring) : sdk jsval :=
  appRequest (js "DELETE") (objectPath bucket key) no_options.

(** ** [PeanutPushClient] *)

Definition push_listSubscriptions : sdk jsval :=
  appRequest (js "GET") (Ok (js "/push/subscriptions")) no_options.

Definition push_createNtfySubscription (topic : jsstring) : sdk jsval :=
  appRequest (js "POST") (Ok (js "/push/subscriptions"))
    (with_body (JObj [(js "topic", JStr topic)])).

Definition push_createWebPushSubscription (endpoint p256dh auth : jsstring) : sdk jsval :=
  appRequest (js "POST") (Ok (js "/push/subscriptions"))
    (with_body (JObj [(js "endpoint", JStr endpoint);
                      (js "keys", JObj [(js "p256dh", JStr p256dh); (js "auth", JStr auth)])])).

Definition push_deleteSubscription (subscriptionId : num) : sdk jsval :=
  appRequest (js "DELETE") (Ok (js "/push/subscriptions/" ++ num_to_string subscriptionId)) no_options.

Definition push_getVapidPublicKey : sdk jsval :=
  appRequest (js "GET") (Ok (js "/push/vapid-public-key")) no_options.

(** The message is passed as given. *)
Definition push_enqueueMessage (payload : jsval) : sdk jsval :=
  appRequest (js "POST") (Ok (js "/push/messages")) (with_body payload).

Definition push_enqueueBatch (messages : list jsval) : sdk jsval :=
  appRequest (js "POST") (Ok (js "/push/messages/batch"))
    (with_body (JObj [(js "messages", JArr messages)])).

Definition push_getMessageStatus (messageId : num) : sdk jsval :=
  appRequest (js "GET") (Ok (js "/push/messages/" ++ num_to_string messageId)) no_options.

(** ** [PeanutFunctionsClient] *)

Definition functions_invoke (endpointSlug : jsstring) (input apiKey' async' : jsval) : sdk jsval :=
  appRequest (js "POST")
    (let! e := encodePath endpointSlug in Ok (js "/function-endpoints/" ++ e))
    (with_body (JObj [(js "input", match input with JUndefined => JNull | i => i end);
                      (js "api_key", apiKey'); (js "async_invoke", async')])).
End Client.

End Sdk.
