(* ===== verification/SdkSpec.v ===== *)
(** * Correctness of the JavaScript SDK client

    The programs of [Sdk] run against an arbitrary server [server]; the log of
    the world records every effect in order.  The theorems: the retry loop
    refines the abstract retry policy [attempts], every request carries the
    client's credentials, the token follows login, refresh and logout, and
    the paths keep their segments apart. *)

From S2P Require Import Prelude JsString JsNumber JsValue Json Uri Prog Http Sdk.
From Stdlib Require Import SpecFloat.
Import Sdk.

Inductive event : Type :=
| EvTimerSet (id : nat) (ms : Z)
| EvFetch (url : jsstring) (init : request_init)
| EvTimerCleared (id : nat)
| EvDelay (ms : Z)
| EvToken (v : jsval).

Record world (Σ : Type) : Type := mkWorld {
  w_srv : Σ;
  w_token : jsval;
  w_next : nat;
  w_log : list event
}.
Arguments mkWorld {Σ}.
Arguments w_srv {Σ}.
Arguments w_token {Σ}.
Arguments w_next {Σ}.
Arguments w_log {Σ}.

Section Exec.
Context {Σ : Type} (server : Σ -> jsstring -> request_init -> Σ * outcome response).

Definition log (e : event) (w : world Σ) : world Σ :=
  mkWorld (w_srv w) (w_token w) (w_next w) (w_log w ++ [e]).

Definition handle (X : Type) (op : sdkE X) : world Σ -> world Σ * X :=
  match op in sdkE X return world Σ -> world Σ * X with
  | Fetch url init _ => fun w =>
      let '(σ, o) := server (w_srv w) url init in
      (log (EvFetch url init) (mkWorld σ (w_token w) (w_next w) (w_log w)), o)
  | GetAccessToken => fun w => (w, w_token w)
  | SetAccessToken v => fun w =>
      (log (EvToken v) (mkWorld (w_srv w) v (w_next w) (w_log w)), tt)
  | SetTimeout ms => fun w =>
      (log (EvTimerSet (w_next w) ms) (mkWorld (w_srv w) (w_token w) (S (w_next w)) (w_log w)), w_next w)
  | ClearTimeout id => fun w => (log (EvTimerCleared id) w, tt)
  | Delay ms => fun w => (log (EvDelay ms) w, tt)
  end.

Definition exec {A} (p : sdk A) (w : world Σ) : world Σ * outcome A := run handle p w.

(** ** The abstract retry policy *)

(** A result that ends the retries whatever budget is left. *)
Definition final (o : outcome response) : bool :=
  match o with Ok r => negb (isTransientStatus (status r)) | Err _ => false end.

(** Ask the server up to [S n] times, stopping at the first final result:
    the server's state, the last result, the number of requests. *)
Fixpoint attempts (n : nat) (url : jsstring) (init : request_init) (σ : Σ)
  : Σ * outcome response * nat :=
  let '(σ', o) := server σ url init in
  match n with
  | O => (σ', o, 1)
  | S n' =>
      if final o then (σ', o, 1)
      else let '(σ2, o2, k) := attempts n' url init σ' in (σ2, o2, S k)
  end.

(** The effects of [k] attempts: a timer around each fetch, and a linearly
    growing delay between them. *)
Fixpoint retry_log (k : nat) (ms base : Z) (url : jsstring) (init : request_init) (id i : nat)
  : list event :=
  match k with
  | O => []
  | S k' =>
      [EvTimerSet id ms; EvFetch url init; EvTimerCleared id] ++
      match k' with
      | O => []
      | _ => EvDelay (base * Z.of_nat (S i)) :: retry_log k' ms base url init (S id) (S i)
      end
  end.

Lemma attempts_pos n url init σ σ' o k : attempts n url init σ = (σ', o, k) -> 1 <= k <= S n.
Proof.
  revert σ σ' o k. induction n as [|n IH]; intros σ σ' o k; simpl;
    destruct (server σ url init) as [σ1 o1]; [intros; simplify_eq; lia|].
  destruct (final o1); [intros; simplify_eq; lia|].
  destruct (attempts n url init σ1) as [[σ2 o2] k2] eqn:E.
  intros; simplify_eq. apply IH in E. lia.
Qed.

Lemma attempts_early n url init σ σ' o k :
  attempts n url init σ = (σ', o, k) -> k < S n -> final o = true.
Proof.
  revert σ σ' o k. induction n as [|n IH]; intros σ σ' o k H Hk.
  - apply attempts_pos in H. lia.
  - simpl in H. destruct (server σ url init) as [σ1 o1].
    destruct (final o1) eqn:Ef; [by simplify_eq|].
    destruct (attempts n url init σ1) as [[σ2 o2] k2] eqn:E. simplify_eq.
    apply (IH _ _ _ _ E). lia.
Qed.

Lemma retry_log_S k ms base url init id i : k <> 0 ->
  retry_log (S k) ms base url init id i =
  [EvTimerSet id ms; EvFetch url init; EvTimerCleared id;
   EvDelay (base * Z.of_nat (S i))] ++ retry_log k ms base url init (S id) (S i).
Proof. by destruct k. Qed.

Lemma retry_loop_refines c n fuel url init i last w :
  (Z.of_nat i + Z.of_nat n = maxRetries c)%Z -> n < fuel ->
  exec (retry_loop c fuel url init (Z.of_nat i) last) w =
  let '(σ, o, k) := attempts n url init (w_srv w) in
  (mkWorld σ (w_token w) (w_next w + k)
     (w_log w ++ retry_log k (timeoutMs c) (baseDelayMs c) url init (w_next w) i), o).
Proof.
  unfold exec. revert fuel i last w. induction n as [|n IH]; intros fuel i last w Hi Hf;
    (destruct fuel as [|fuel]; [lia|]); cbn [retry_loop attempts];
    rewrite (proj2 (Z.leb_le (Z.of_nat i) _)) by lia; simpl;
    destruct (server (w_srv w) url init) as [σ1 o1] eqn:Es; simpl.
  - rewrite (proj2 (Z.eqb_eq (Z.of_nat i) _)) by lia.
    destruct o1 as [r|e]; [rewrite orb_true_r|]; unfold log; simpl;
      by rewrite <- !app_assoc, Nat.add_1_r.
  - rewrite (proj2 (Z.eqb_neq (Z.of_nat i) _)) by lia.
    destruct (final o1) eqn:Ef.
    + destruct o1 as [r|e]; [|done]. simpl in Ef. rewrite Ef. unfold log. simpl.
      by rewrite <- !app_assoc, Nat.add_1_r.
    + destruct (attempts n url init σ1) as [[σ2 o2] k] eqn:E.
      pose proof (attempts_pos _ _ _ _ _ _ _ E) as Hk.
      assert (Z.max 1 (Z.of_nat i + 1) = Z.of_nat (S i)) as Hm by lia.
      assert (Z.of_nat i + 1 = Z.of_nat (S i))%Z as HS by lia.
      rewrite retry_log_S by lia.
      destruct o1 as [r|e]; simpl in Ef; [rewrite Ef|]; simpl; rewrite Hm, HS, IH by lia;
        unfold log; simpl; rewrite E, <- !app_assoc; simpl; f_equal; f_equal; lia.
Qed.

Lemma fetchWithRetry_exec c url init w : (0 <= maxRetries c)%Z ->
  exec (fetchWithRetry c url init) w =
  let '(σ, o, k) := attempts (Z.to_nat (maxRetries c)) url init (w_srv w) in
  (mkWorld σ (w_token w) (w_next w + k)
     (w_log w ++ retry_log k (timeoutMs c) (baseDelayMs c) url init (w_next w) 0), o).
Proof.
  intros H. unfold fetchWithRetry. apply (retry_loop_refines c _ _ url init 0); simpl; lia.
Qed.

(** ** What a world's log says *)

Definition fetched (l : list event) : list (jsstring * request_init) :=
  omap (fun e => match e with EvFetch u i => Some (u, i) | _ => None end) l.

(** Timers that are set and not yet cleared. *)
Fixpoint open_timers (l : list event) (acc : list nat) : list nat :=
  match l with
  | [] => acc
  | EvTimerSet id _ :: l' => open_timers l' (id :: acc)
  | EvTimerCleared id :: l' => open_timers l' (List.filter (fun i => negb (Nat.eqb i id)) acc)
  | _ :: l' => open_timers l' acc
  end.

Lemma fetched_app l k : fetched (l ++ k) = fetched l ++ fetched k.
Proof. apply omap_app. Qed.

Lemma fetched_retry_log k ms base url init id i :
  fetched (retry_log k ms base url init id i) = replicate k (url, init).
Proof.
  revert id i. induction k as [|k IH]; intros id i; [done|].
  destruct k as [|k]; [done|]. rewrite retry_log_S by done. rewrite fetched_app, IH. done.
Qed.

Lemma open_timers_retry_log k ms base url init id i :
  open_timers (retry_log k ms base url init id i) [] = [].
Proof.
  revert id i. induction k as [|k IH]; intros id i; [done|].
  destruct k as [|k].
  - simpl. by rewrite Nat.eqb_refl.
  - rewrite retry_log_S by done. cbn [app open_timers List.filter].
    rewrite Nat.eqb_refl. apply IH.
Qed.

(** ** The token is touched only by the session operations *)

Lemma retry_loop_token c fuel url init a last w :
  w_token (exec (retry_loop c fuel url init a last) w).1 = w_token w.
Proof.
  unfold exec. revert a last w. induction fuel as [|fuel IH]; intros a last w; [done|].
  cbn [retry_loop]. destruct (a <=? maxRetries c)%Z; [|done]. simpl.
  destruct (server (w_srv w) url init) as [σ1 o1]. simpl.
  destruct o1 as [r|e]; [destruct (_ || _)|destruct (_ =? _)%Z]; simpl; try done; by rewrite IH.
Qed.

Lemma authHeaders_pure c hs w : (exec (authHeaders c hs) w).1 = w.
Proof.
  unfold exec, authHeaders. rewrite run_bind, run_lift.
  destruct (headers_set _ (apiKey c) hs) as [hs1|e]; [|done]. simpl.
  destruct (truthy (w_token w)); [|done]. rewrite run_bind, run_lift.
  destruct (to_string _); [|done]. by rewrite run_lift.
Qed.

Lemma fetchWithRetry_token c url init w :
  w_token (exec (fetchWithRetry c url init) w).1 = w_token w.
Proof. apply retry_loop_token. Qed.

(** ** Theorems: the retry loop *)

(** C1: [fetchWithRetry] refines the abstract retry policy: for a
    non-negative retry budget it asks the server until the first
    non-transient response or the last permitted attempt, returns that
    attempt's result, arms one abort timer per attempt and clears it, and
    waits [baseDelayMs * i] after the [i]-th failed attempt. *)
Theorem fetchWithRetry_refines c url init w : (0 <= maxRetries c)%Z ->
  exec (fetchWithRetry c url init) w =
  let '(σ, o, k) := attempts (Z.to_nat (maxRetries c)) url init (w_srv w) in
  (mkWorld σ (w_token w) (w_next w + k)
     (w_log w ++ retry_log k (timeoutMs c) (baseDelayMs c) url init (w_next w) 0), o).
Proof. apply fetchWithRetry_exec. Qed.

(** C18: Retry budget: the loop sends between one and [maxRetries + 1] copies
    of the same request; it stops before the budget is used up only with a
    non-transient response; and no abort timer is left armed. *)
Theorem fetchWithRetry_budget c url init w w' o : (0 <= maxRetries c)%Z ->
  exec (fetchWithRetry c url init) w = (w', o) ->
  exists k evs, w_log w' = w_log w ++ evs /\ fetched evs = replicate k (url, init) /\
    (1 <= Z.of_nat k <= maxRetries c + 1)%Z /\
    ((Z.of_nat k < maxRetries c + 1)%Z -> exists r, o = Ok r /\ isTransientStatus (status r) = false) /\
    open_timers evs [] = [].
Proof.
  intros Hm. rewrite fetchWithRetry_exec by done.
  destruct (attempts _ url init (w_srv w)) as [[σ o'] k] eqn:E. intros; simplify_eq.
  exists k. eexists. split; [done|]. split; [apply fetched_retry_log|].
  pose proof (attempts_pos _ _ _ _ _ _ _ E). split; [lia|]. split; [|apply open_timers_retry_log].
  intros Hk. pose proof (attempts_early _ _ _ _ _ _ _ E) as Hf.
  specialize (Hf ltac:(lia)). destruct o as [r|e]; [|done]. exists r. split; [done|].
  by apply negb_true_iff.
Qed.

(** ** What [request] sends *)

Definition header_is (name value : jsstring) (hs : headers) : Prop :=
  exists v, header_value value = Ok v /\ headers_get name hs = Some v.

Lemma header_is_set name value hs hs' : headers_set name value hs = Ok hs' -> header_is name value hs'.
Proof. apply headers_set_get. Qed.

Lemma header_is_other name value k x hs hs' : headers_set k x hs = Ok hs' ->
  to_lower name <> to_lower k -> header_is name value hs -> header_is name value hs'.
Proof.
  intros Hs Hne (v & Hv & Hg). exists v. split; [done|].
  by rewrite (headers_set_other _ _ _ _ _ Hs).
Qed.

(** The credentials a client with token [token] must attach. *)
Definition credentialed (c : PeanutClient) (token : jsval) (hs : headers) : Prop :=
  header_is (js "X-Peanut-Api-Key") (apiKey c) hs /\
  (truthy token = true -> exists t, to_string token = Ok t /\ header_is (js "Authorization") (js "Bearer " ++ t) hs).

Lemma credentialed_other c token k x hs hs' : headers_set k x hs = Ok hs' ->
  to_lower (js "X-Peanut-Api-Key") <> to_lower k -> to_lower (js "Authorization") <> to_lower k ->
  credentialed c token hs -> credentialed c token hs'.
Proof.
  intros Hs H1 H2 [Ha Hb]. split; [by eapply header_is_other|].
  intros Ht. destruct (Hb Ht) as (t & E & H). exists t. split; [done|]. by eapply header_is_other.
Qed.

Lemma authHeaders_spec c hs w :
  match (exec (authHeaders c hs) w).2 with
  | Ok hs' => credentialed c (w_token w) hs'
  | Err _ => True
  end.
Proof.
  unfold exec, authHeaders. rewrite run_bind, run_lift.
  destruct (headers_set (js "X-Peanut-Api-Key") (apiKey c) hs) as [hs1|e] eqn:E1; [|done]. simpl.
  destruct (truthy (w_token w)) eqn:Et; simpl.
  - rewrite run_bind, run_lift. destruct (to_string (w_token w)) as [t|] eqn:Es; [|done].
    rewrite run_lift. simpl. destruct (headers_set (js "Authorization") _ hs1) as [hs2|] eqn:E2; [|done].
    split; [|intros _; exists t; split; [done|by eapply header_is_set]].
    eapply header_is_other; [exact E2|done|by eapply header_is_set].
  - split; [by eapply header_is_set|]. by rewrite Et.
Qed.

(** A sent request is the one the caller asked for, with the credentials. *)
Definition sent_ok (c : PeanutClient) (token : jsval) (method path : jsstring)
    (options : request_options) (f : jsstring * request_init) : Prop :=
  f.1 = baseUrl c ++ path /\ ri_method f.2 = Some method /\ credentialed c token (ri_headers f.2) /\
  match opt_body options with
  | JUndefined => ri_body f.2 = opt_rawBody options
  | b => header_is (js "Content-Type") (js "application/json") (ri_headers f.2) /\
         ri_body f.2 = BText <$> json_stringify b
  end.

(** The request whose response is [r] after the headers [hs]. *)
Definition finish_request (r : response) : sdk jsval :=
  if (status r =? 204)%Z then Ret JUndefined
  else value ← lift (responseValue r);
       if negb (response_ok r) then throwResponse r value else Ret value.

Lemma finish_request_pure r w : (exec (finish_request r) w).1 = w.
Proof.
  unfold exec, finish_request, throwResponse. destruct (_ =? 204)%Z; [done|].
  rewrite run_bind, run_lift. destruct (responseValue r) as [v|e]; [|done].
  destruct (negb (response_ok r)); [|done]. rewrite run_bind, run_lift. by destruct (errorMessage v).
Qed.

(** Whether a request with these headers and credentials can be built: header
    names and values are valid, and the token has a text. *)
Definition sendable (c : PeanutClient) (token : jsval) (options : request_options) : bool :=
  forallb (fun kv => is_ok (header_entry kv.1 kv.2)) (opt_headers options) &&
  is_ok (header_value (apiKey c)) &&
  (if truthy token then
     match to_string token with Ok t => is_ok (header_value (js "Bearer " ++ t)) | Err _ => false end
   else true).

Lemma header_entry_error name value e : header_entry name value = Err e -> is_type_error e.
Proof.
  unfold header_entry, header_value. destruct (header_name name); [destruct (forallb _ _)|];
    intros H; try done; apply Err_inj in H as <-; by eexists.
Qed.

Lemma new_headers_ok l hs :
  match new_headers l hs with
  | Ok _ => forallb (fun kv => is_ok (header_entry kv.1 kv.2)) l = true
  | Err e => forallb (fun kv => is_ok (header_entry kv.1 kv.2)) l = false /\ is_type_error e
  end.
Proof.
  revert hs. induction l as [|[k v] l IH]; intros hs; [done|]. cbn [new_headers forallb fst snd].
  unfold headers_append. destruct (header_entry k v) as [x|e] eqn:E; cbn [res_bind is_ok andb]; [apply IH|].
  split; [done|]. by eapply header_entry_error.
Qed.

Lemma literal_entry value : header_entry (js "X-Peanut-Api-Key") value = header_value value /\
  header_entry (js "Authorization") value = header_value value /\
  header_entry (js "Content-Type") value = header_value value.
Proof. done. Qed.

Lemma json_type_set hs : exists hs', headers_set (js "Content-Type") (js "application/json") hs = Ok hs'.
Proof.
  unfold headers_set. destruct (literal_entry (js "application/json")) as (_ & _ & ->).
  assert (header_value (js "application/json") = Ok (js "application/json")) as -> by (vm_compute; reflexivity).
  by eexists.
Qed.

(** The credentials can be put in the headers, or nothing happens. *)
Lemma authHeaders_cases c hs w :
  exists x, exec (authHeaders c hs) w = (w, x) /\
  match x with
  | Ok hs' => is_ok (header_value (apiKey c)) &&
      (if truthy (w_token w) then
         match to_string (w_token w) with Ok t => is_ok (header_value (js "Bearer " ++ t)) | Err _ => false end
       else true) = true /\ credentialed c (w_token w) hs'
  | Err e => is_ok (header_value (apiKey c)) &&
      (if truthy (w_token w) then
         match to_string (w_token w) with Ok t => is_ok (header_value (js "Bearer " ++ t)) | Err _ => false end
       else true) = false /\ is_type_error e
  end.
Proof.
  pose proof (authHeaders_pure c hs w) as Hp. pose proof (authHeaders_spec c hs w) as Hs.
  destruct (exec (authHeaders c hs) w) as [w1 x] eqn:E. cbn [fst snd] in *. subst w1. exists x. split; [done|].
  unfold exec, authHeaders in E. rewrite run_bind, run_lift in E.
  destruct (literal_entry (apiKey c)) as [Hk _]. unfold headers_set at 1 in E. rewrite Hk in E.
  destruct (header_value (apiKey c)) as [k|e] eqn:Ek; cbn [res_bind is_ok andb] in *.
  2: { simplify_eq. split; [done|]. by eapply header_entry_error, Hk. }
  cbn [trigger mbind prog_bind run handle] in E.
  destruct (truthy (w_token w)); [|cbn [run] in E; by simplify_eq].
  rewrite run_bind, run_lift in E. destruct (to_string (w_token w)) as [t|e] eqn:Et.
  2: { simplify_eq. split; [done|]. by eapply to_string_type_error. }
  rewrite run_lift in E. destruct (literal_entry (js "Bearer " ++ t)) as (_ & Ht & _).
  unfold headers_set in E. rewrite Ht in E. destruct (header_value (js "Bearer " ++ t)) as [v|e] eqn:Ev;
    cbn [res_bind is_ok] in *; simplify_eq; [done|]. split; [done|]. by eapply header_entry_error, Ht.
Qed.

(** [request] throws before any effect when it cannot be built; otherwise it
    prepares one request that satisfies [sent_ok], hands it to the retry loop
    and interprets the result. *)
Lemma request_cases c method path options w :
  if sendable c (w_token w) options then
    exists init, sent_ok c (w_token w) method path options (baseUrl c ++ path, init) /\
     exec (request c method path options) w =
     match exec (fetchWithRetry c (baseUrl c ++ path) init) w with
     | (w', Ok r) => exec (finish_request r) w'
     | (w', Err e) => (w', Err e)
     end
  else exists e, is_type_error e /\ exec (request c method path options) w = (w, Err e).
Proof.
  unfold request, sendable, exec. rewrite run_bind, run_lift.
  pose proof (new_headers_ok (opt_headers options) ∅) as H0.
  destruct (new_headers (opt_headers options) ∅) as [hs0|e]; [|destruct H0 as [-> H0]; simpl; eauto].
  rewrite H0. cbn [andb]. rewrite run_bind.
  destruct (authHeaders_cases c hs0 w) as (x & E & Hx). unfold exec in E. rewrite E.
  destruct x as [hs|e]; destruct Hx as [-> Hx]; [|eauto]. rewrite run_bind.
  destruct (opt_body options) eqn:Eb.
  { eexists. split; [|simpl; rewrite run_bind; reflexivity]. unfold sent_ok. rewrite Eb. done. }
  all: cbv beta match; rewrite run_bind, run_lift; destruct (json_type_set hs) as [hs1 E1]; rewrite E1;
    eexists; (split; [|cbn [run]; rewrite run_bind; reflexivity]);
    unfold sent_ok; rewrite Eb; cbn [fst snd ri_method ri_headers ri_body]; split_and!;
    [reflexivity..|by eapply credentialed_other|by eapply header_is_set|reflexivity].
Qed.

Lemma request_shape c method path options w :
  (exists e, exec (request c method path options) w = (w, Err e)) \/
  (exists init, sent_ok c (w_token w) method path options (baseUrl c ++ path, init) /\
     exec (request c method path options) w =
     match exec (fetchWithRetry c (baseUrl c ++ path) init) w with
     | (w', Ok r) => exec (finish_request r) w'
     | (w', Err e) => (w', Err e)
     end).
Proof.
  pose proof (request_cases c method path options w) as H. destruct (sendable _ _ _); [by right|left].
  destruct H as (e & _ & H). eauto.
Qed.

Lemma request_token c method path options w :
  w_token (exec (request c method path options) w).1 = w_token w.
Proof.
  destruct (request_shape c method path options w) as [[e ->]|(init & _ & ->)]; [done|].
  pose proof (fetchWithRetry_token c (baseUrl c ++ path) init w) as Ht.
  destruct (exec (fetchWithRetry c _ init) w) as [w1 [r|e]]; [|done].
  by rewrite finish_request_pure.
Qed.

Lemma appRequest_shape c method path options w :
  (exists e, exec (appRequest c method path options) w = (w, Err e)) \/
  (exists p full, path = Ok p /\ appPath c p = Ok full /\
     exec (appRequest c method path options) w = exec (request c method full options) w).
Proof.
  unfold appRequest, exec. rewrite run_bind, run_lift.
  destruct path as [p|e]; [|left; eauto]. rewrite run_bind, run_lift.
  destruct (appPath c p) as [full|e] eqn:E; [|left; eauto]. right. exists p, full. done.
Qed.

Lemma appRequest_token c method path options w :
  w_token (exec (appRequest c method path options) w).1 = w_token w.
Proof.
  destruct (appRequest_shape c method path options w) as [[e ->]|(p & full & _ & _ & ->)]; [done|].
  apply request_token.
Qed.

(** ** Theorems: requests and sessions *)

(** The requests of a run of [request], and the token after it. *)
Lemma request_logged c method path options w w' o : (0 <= maxRetries c)%Z ->
  exec (request c method path options) w = (w', o) ->
  exists evs, w_log w' = w_log w ++ evs /\ w_token w' = w_token w /\
    Forall (sent_ok c (w_token w) method path options) (fetched evs).
Proof.
  intros Hm H. pose proof (request_token c method path options w) as Ht. rewrite H in Ht.
  destruct (request_shape c method path options w) as [[e He]|(init & Hok & He)]; rewrite He in H.
  - simplify_eq. exists []. rewrite app_nil_r. done.
  - rewrite fetchWithRetry_exec in H by done.
    destruct (attempts _ _ init (w_srv w)) as [[σ o1] k].
    eexists. split; [|split; [done|]].
    + destruct o1 as [r|e]; [|by simplify_eq].
      apply (f_equal fst) in H. rewrite finish_request_pure in H. simpl in H. by rewrite <- H.
    + rewrite fetched_retry_log. by apply Forall_replicate.
Qed.

(** C14: Every request that [request] puts on the wire goes to the client's
    base URL with the caller's path and method, carries the client's API
    key and, when there is an access token, the bearer header for it
    (headers supplied by the caller cannot replace them), and has the JSON
    text of the body with its content type; the token is left alone. *)
Theorem request_sends c method path options w w' o : (0 <= maxRetries c)%Z ->
  exec (request c method path options) w = (w', o) ->
  exists evs, w_log w' = w_log w ++ evs /\ w_token w' = w_token w /\
    Forall (sent_ok c (w_token w) method path options) (fetched evs).
Proof. apply request_logged. Qed.

(** *** Outcomes *)

(** The body of [r] is read as [v]: parsed when the response declares JSON, as
    text otherwise. *)
Definition body_is (r : response) (v : jsval) : Prop :=
  exists text, resp_body r = Ok text /\
    if includes (js "application/json") (default [] (headers_get (js "content-type") (resp_headers r)))
    then json_parse text = Ok v else v = JStr text.

(** The server's text for a failure: its [error], or the body itself. *)
Inductive says (v : jsval) : jsstring -> Prop :=
| says_error l e m : v = JObj l -> assoc (js "error") l = Some e -> to_string e = Ok m -> says v m
| says_text m : v = JStr m -> nonempty m = true -> says v m
| says_nothing : (forall l, v = JObj l -> assoc (js "error") l = None) ->
    (forall m, v = JStr m -> nonempty m = false) -> says v (js "Peanut request failed").

(** What a response means to the caller of [request]. *)
Inductive means (r : response) : outcome jsval -> Prop :=
| means_nothing : status r = 204%Z -> means r (Ok JUndefined)
| means_value v : status r <> 204%Z -> response_ok r = true -> body_is r v -> means r (Ok v)
| means_failure v m : response_ok r = false -> body_is r v -> says v m ->
    means r (Err (PeanutError (status r) m v))
| means_lost e : status r <> 204%Z -> resp_body r = Err e -> means r (Err e)
| means_not_json text e : status r <> 204%Z ->
    includes (js "application/json") (default [] (headers_get (js "content-type") (resp_headers r))) = true ->
    resp_body r = Ok text -> json_parse text = Err e -> means r (Err e)
| means_no_text l x e : response_ok r = false -> body_is r (JObj l) -> assoc (js "error") l = Some x ->
    to_string x = Err e -> means r (Err e).


Lemma responseValue_cases r :
  match responseValue r with
  | Ok v => body_is r v
  | Err e => resp_body r = Err e \/
      exists text, includes (js "application/json") (default [] (headers_get (js "content-type") (resp_headers r))) = true /\
        resp_body r = Ok text /\ json_parse text = Err e
  end.
Proof.
  unfold responseValue, body_is, response_json, response_text.
  destruct (includes _ _); destruct (resp_body r) as [text|e]; cbn [res_bind res_map]; eauto.
  destruct (json_parse text) eqn:E; eauto.
Qed.

Lemma errorMessage_cases v :
  match errorMessage v with
  | Ok m => says v m
  | Err e => exists l x, v = JObj l /\ assoc (js "error") l = Some x /\ to_string x = Err e
  end.
Proof.
  unfold errorMessage. destruct v as [| | | |s| |l]; try (by apply says_nothing).
  - destruct (nonempty s) eqn:E; [by eapply says_text|]. apply says_nothing; [done|]. by intros m [= <-].
  - destruct (assoc (js "error") l) as [x|] eqn:E; [|apply says_nothing; [by intros l' [= <-]|done]].
    destruct (to_string x) as [m|e] eqn:Ex; [by eapply says_error|eauto].
Qed.

Lemma finish_means r w : exists rs, exec (finish_request r) w = (w, rs) /\ means r rs.
Proof.
  unfold exec, finish_request, throwResponse. destruct (Z.eqb_spec (status r) 204) as [E|E].
  { eexists. split; [done|]. by apply means_nothing. }
  rewrite run_bind, run_lift. pose proof (responseValue_cases r) as Hv.
  destruct (responseValue r) as [v|e].
  2: { eexists. split; [done|]. destruct Hv as [H|(text & H1 & H2 & H3)]; [by apply means_lost|by eapply means_not_json]. }
  destruct (response_ok r) eqn:Er; [eexists; split; [done|by apply means_value]|]. cbn [negb].
  rewrite run_bind, run_lift. pose proof (errorMessage_cases v) as Hm. destruct (errorMessage v) as [m|e].
  - eexists. split; [done|]. by apply means_failure.
  - destruct Hm as (l & x & -> & Hx & He). eexists. split; [done|]. by eapply means_no_text.
Qed.

(** C13: The outcome of [request] on every branch.  A request that cannot be
    built (an invalid header name or value, an API key or token that is no
    header value) throws a [TypeError] and leaves everything as it was.
    Otherwise one request is built, the retry policy is performed on it with
    exactly its effects on server, timers and log, and the caller gets the
    policy's network error, or what the final response means: [undefined] for
    204, the body of another 2xx response, a [PeanutError] with the status, the
    server's text and the body for any other status, and the error of reading
    a body that is lost or not the JSON it claims to be. *)
Theorem request_outcome c method path options w w' rs : (0 <= maxRetries c)%Z ->
  exec (request c method path options) w = (w', rs) ->
  if sendable c (w_token w) options then
    exists init σ o k, sent_ok c (w_token w) method path options (baseUrl c ++ path, init) /\
      attempts (Z.to_nat (maxRetries c)) (baseUrl c ++ path) init (w_srv w) = (σ, o, k) /\
      w' = mkWorld σ (w_token w) (w_next w + k)
             (w_log w ++ retry_log k (timeoutMs c) (baseDelayMs c) (baseUrl c ++ path) init (w_next w) 0) /\
      match o with Err e => rs = Err e | Ok r => means r rs end
  else w' = w /\ exists e, rs = Err e /\ is_type_error e.
Proof.
  intros Hm H. pose proof (request_cases c method path options w) as Hc. destruct (sendable _ _ _).
  2: { destruct Hc as (e & He & E). rewrite E in H. simplify_eq. eauto. }
  destruct Hc as (init & Hok & E). rewrite E, fetchWithRetry_exec in H by done.
  destruct (attempts _ _ init (w_srv w)) as [[σ o] k] eqn:Ha. exists init, σ, o, k.
  destruct o as [r|e]; [|simplify_eq; by split_and!].
  match type of H with exec (finish_request r) ?w1 = _ => destruct (finish_means r w1) as (x & Ex & Hx) end.
  rewrite Ex in H. simplify_eq. by split_and!.
Qed.

(** A request whose response's token is stored. *)
Lemma storeToken_exec c path b w w' o :
  exec (response ← appRequest c (js "POST") path b; storeToken response) w = (w', o) ->
  match o with
  | Ok r => Ok (w_token w') = get r (js "access_token")
  | Err _ => w_token w' = w_token w
  end.
Proof.
  unfold exec. rewrite run_bind.
  pose proof (appRequest_token c (js "POST") path b w) as Ht. unfold exec in Ht.
  destruct (run handle (appRequest c (js "POST") path b) w) as [w1 [r|e]]; [|by intros; simplify_eq].
  unfold storeToken. rewrite run_bind, run_lift.
  destruct (get r (js "access_token")) as [t|e] eqn:Eg; intros H; simpl in *; simplify_eq; done.
Qed.

(** C15: Session state: a successful [login] or [refresh] makes the returned
    [access_token] the client's token, a successful [logout] forgets it, and
    when any of the three fails the token is what it was before. *)
Theorem session_token c w :
  (forall email password w' o, exec (auth_login c email password) w = (w', o) ->
     match o with
     | Ok r => Ok (w_token w') = get r (js "access_token")
     | Err _ => w_token w' = w_token w
     end) /\
  (forall token w' o, exec (auth_refresh c token) w = (w', o) ->
     match o with
     | Ok r => Ok (w_token w') = get r (js "access_token")
     | Err _ => w_token w' = w_token w
     end) /\
  (forall token w' o, exec (auth_logout c token) w = (w', o) ->
     match o with Ok _ => w_token w' = JUndefined | Err _ => w_token w' = w_token w end).
Proof.
  split_and!; intros *; [apply storeToken_exec..|].
  unfold auth_logout, exec. rewrite run_bind.
  pose proof (appRequest_token c (js "POST") (Ok (js "/auth/logout")) (with_body (refresh_body token)) w) as Ht.
  unfold exec in Ht.
  destruct (run handle (appRequest c _ _ _) w) as [w1 [r|e]]; intros H; simpl in *; by simplify_eq.
Qed.
End Exec.
