(* ===== verification/SdkPaths.v ===== *)
(** * Paths and queries of the SDK keep their parts apart

    The SDK builds paths by joining percent-encoded segments.  The theorems
    say that a server which splits the path on [/] and decodes each segment
    sees exactly the caller's application id, table, row id, bucket and key,
    and that the query string of [listRows] decodes to the parameters. *)

From S2P Require Import Prelude JsString JsNumber JsValue Json Uri Prog Http Sdk.
Import Sdk.

(** ** Segments *)

(** A path segment that decodes to [s] and has no delimiter of its own. *)
Definition segment_of (s seg : jsstring) : Prop :=
  decode_component false seg = Some s /\ Forall (fun c => component_char c = true) seg.

Lemma encode_segment s t : unitsb s = true -> encodeURIComponent s = Ok t -> segment_of s t.
Proof.
  intros Hu H. split; [by apply decode_encodeURIComponent|by eapply encodeURIComponent_chars].
Qed.

Definition url_safe (s : jsstring) : Prop := (cu_question ∉ s) /\ (cu_hash ∉ s).

Lemma component_free c s : Forall (fun c => component_char c = true) s ->
  component_char c = false -> c ∉ s.
Proof. rewrite Forall_forall. intros Hf Hc Hin. rewrite Hf in Hc; done. Qed.

Lemma segment_slash s seg : segment_of s seg -> cu_slash ∉ seg.
Proof. intros [_ H]. by eapply component_free. Qed.

Lemma segment_safe s seg : segment_of s seg -> url_safe seg.
Proof. intros [_ H]. split; by eapply component_free. Qed.

Lemma url_safe_app a b : url_safe a -> url_safe b -> url_safe (a ++ b).
Proof. intros [? ?] [? ?]. split; apply not_elem_of_app; done. Qed.

Lemma url_safe_join l : Forall url_safe l -> url_safe (join [cu_slash] l).
Proof.
  induction 1 as [|x l Hx Hl IH]; [split; apply not_elem_of_nil|].
  destruct l as [|y l]; [done|]. rewrite join_cons.
  apply url_safe_app; [done|]. apply url_safe_app; [|done].
  split; by rewrite list_elem_of_singleton.
Qed.

(** Literal segments, checked by evaluation. *)
Definition literal_ok (s : jsstring) : bool :=
  forallb (fun c => negb ((c =? cu_slash) || (c =? cu_question) || (c =? cu_hash))%N) s.

Lemma literal_free s : literal_ok s = true -> (cu_slash ∉ s) /\ url_safe s.
Proof.
  unfold literal_ok, url_safe. rewrite forallb_forall. intros H.
  split_and!; intros Hin; apply list_elem_of_In in Hin; by apply H in Hin.
Qed.

#[export] Hint Resolve encode_segment segment_slash segment_safe url_safe_app : peanut.

(** The joined path of slash-free parts splits back into them. *)
Lemma split_path l : l <> [] -> Forall (fun s => (cu_slash ∉ s) /\ url_safe s) l ->
  split [cu_slash] (join [cu_slash] l) = l /\ url_safe (join [cu_slash] l).
Proof.
  intros Hne Hl. split.
  - apply split_join_char; [done|]. eapply Forall_impl; [exact Hl|]. by intros s [? _].
  - apply url_safe_join. eapply Forall_impl; [exact Hl|]. by intros s [_ ?].
Qed.

Lemma segment_part s seg : segment_of s seg -> (cu_slash ∉ seg) /\ url_safe seg.
Proof. eauto with peanut. Qed.

(** Discharge the parts of a path: literals by evaluation, segments by lemma. *)
Ltac path_parts :=
  repeat (apply Forall_cons; split;
          [first [by apply literal_free | by eapply segment_part]|]);
  try apply Forall_nil; try done.

(** ** Row paths *)

Definition path_of (l : list jsstring) : jsstring := join [cu_slash] l.

(** Encoding succeeds exactly on well-formed text. *)
Lemma encode_total s : unitsb s = true ->
  match encodeURIComponent s with
  | Ok t => well_formed s = true /\ segment_of s t
  | Err e => well_formed s = false /\ e = uri_error
  end.
Proof.
  intros Hu. pose proof (encode_segment s) as Hs. unfold encodeURIComponent, well_formed in *.
  rewrite Hu. destruct (code_points s); [|done]. split; [done|]. by apply Hs.
Qed.

(** C19: Row addressing: [getRow], [updateRow] and [deleteRow] have a path
    exactly when the application id, the table and the row id are well-formed
    text (otherwise they throw a [URIError]), and that path splits into nine
    segments, of which the fourth, seventh and ninth decode to the application
    id, the table and the row id; no [?] or [#] cuts it short. *)
Theorem rowPath_segments c table rowId :
  unitsb (appId c) = true -> unitsb table = true -> unitsb rowId = true ->
  match (let! p := rowPath table rowId in appPath c p) with
  | Err e => e = uri_error /\ forallb well_formed [appId c; table; rowId] = false
  | Ok full =>
      forallb well_formed [appId c; table; rowId] = true /\
      exists a t r, segment_of (appId c) a /\ segment_of table t /\ segment_of rowId r /\
        split [cu_slash] full = [[]; js "api"; js "apps"; a; js "data"; js "tables"; t; js "rows"; r] /\
        url_safe full
  end.
Proof.
  intros Ha%encode_total Ht%encode_total Hr%encode_total.
  unfold rowPath, tablePath, encodePath, appPath. cbn [forallb].
  destruct (encodeURIComponent table) as [t|]; destruct Ht as [-> Ht]; cbn [res_bind andb];
    [|by rewrite andb_false_r].
  destruct (encodeURIComponent rowId) as [r|]; destruct Hr as [-> Hr]; cbn [res_bind andb];
    [|by rewrite andb_false_r].
  destruct (encodeURIComponent (appId c)) as [a|]; destruct Ha as [-> Ha]; cbn [res_bind andb]; [|done].
  split; [done|]. exists a, t, r. split_and!; [done..| |].
  all: replace (js "/api/apps/" ++ a ++ (js "/data/tables/" ++ t) ++ js "/rows/" ++ r)
    with (path_of [[]; js "api"; js "apps"; a; js "data"; js "tables"; t; js "rows"; r])
    by (rewrite <- ?app_assoc; reflexivity).
  all: apply split_path; [done|path_parts].
Qed.

(** ** Object paths *)

Lemma encode_parts_total l : Forall (fun s => unitsb s = true) l ->
  match map_outcome encodeURIComponent l with
  | Ok ks => forallb well_formed l = true /\ Forall2 segment_of l ks
  | Err e => forallb well_formed l = false /\ e = uri_error
  end.
Proof.
  induction 1 as [|s l Hs%encode_total Hl IH]; simpl; [done|].
  destruct (encodeURIComponent s) as [t|]; destruct Hs as [-> Hs]; cbn [res_bind andb]; [|done].
  destruct (map_outcome encodeURIComponent l) as [ts|]; destruct IH as [-> IH]; cbn [res_bind]; [|done].
  split; [done|]. by constructor.
Qed.

(** A key has a part even when it is empty. *)
Lemma key_parts_nonempty key ks : Forall2 segment_of (split [cu_slash] key) ks -> ks <> [].
Proof.
  destruct (split_go_cons [cu_slash] 0 key) as (h & t & Ht). unfold split. rewrite Ht.
  by inversion 1.
Qed.

Lemma segments_parts l ks : Forall2 segment_of l ks -> Forall (fun s => (cu_slash ∉ s) /\ url_safe s) ks.
Proof. induction 1; constructor; eauto using segment_part. Qed.

(** C20: Object addressing: [getObject], [putObject] and [deleteObject] have a
    path exactly when the application id, the bucket and every
    slash-separated part of the key are well-formed text (otherwise they throw
    a [URIError]); the path has the bucket as its seventh segment and, after
    [objects], one segment per part of the key, each decoding to that part, so
    keys with slashes, spaces or [?] reach the server unchanged. *)
Theorem objectPath_segments c bucket key :
  unitsb (appId c) = true -> unitsb bucket = true -> unitsb key = true ->
  match (let! p := objectPath bucket key in appPath c p) with
  | Err e => e = uri_error /\ forallb well_formed (appId c :: bucket :: split [cu_slash] key) = false
  | Ok full =>
      forallb well_formed (appId c :: bucket :: split [cu_slash] key) = true /\
      exists a b ks, segment_of (appId c) a /\ segment_of bucket b /\
        Forall2 segment_of (split [cu_slash] key) ks /\
        split [cu_slash] full =
          [[]; js "api"; js "apps"; a; js "storage"; js "buckets"; b; js "objects"] ++ ks /\
        url_safe full
  end.
Proof.
  intros Ha%encode_total Hb%encode_total Hu.
  assert (Forall (fun s => unitsb s = true) (split [cu_slash] key)) as Hk by by apply split_go_forallb.
  apply encode_parts_total in Hk. unfold objectPath, encodePath, encodeKey, appPath. cbn [forallb].
  destruct (encodeURIComponent bucket) as [b|]; destruct Hb as [-> Hb]; cbn [res_bind andb];
    [|by rewrite andb_false_r].
  destruct (map_outcome encodeURIComponent (split [cu_slash] key)) as [ks|]; destruct Hk as [-> Hk];
    cbn [res_bind andb]; [|by rewrite andb_false_r].
  destruct (encodeURIComponent (appId c)) as [a|]; destruct Ha as [-> Ha]; cbn [res_bind andb]; [|done].
  split; [done|]. exists a, b, ks. split_and!; [done..| |].
  all: pose proof (key_parts_nonempty key ks Hk) as Hne; destruct ks as [|k0 ks]; [done|].
  all: replace (js "/api/apps/" ++ a ++ js "/storage/buckets/" ++ b ++ js "/objects/" ++ join [cu_slash] (k0 :: ks))
    with (path_of ([[]; js "api"; js "apps"; a; js "storage"; js "buckets"; b; js "objects"] ++ k0 :: ks))
    by (rewrite <- ?app_assoc; reflexivity).
  all: apply split_path; [done|]; apply Forall_app_2; [path_parts|by eapply segments_parts].
Qed.

(** ** Query strings *)

(** The values [listRows] accepts: string, number, boolean or [undefined]. *)
Definition is_param (v : jsval) : bool :=
  match v with JUndefined | JBool _ | JNum _ | JStr _ => true | _ => false end.

(** The parameters that are given, with their texts. *)
Definition param_pairs (params : list (jsstring * jsval)) : list (jsstring * jsstring) :=
  omap (fun kv => match kv.2 with
                  | JUndefined => None
                  | v => match to_string v with Ok s => Some (kv.1, s) | Err _ => None end
                  end) params.

Lemma search_set_fresh k v l : k ∉ map fst l -> search_set k v l = l ++ [(k, v)].
Proof.
  induction l as [|[k' v'] l IH]; [done|]. simpl. rewrite not_elem_of_cons. intros [Hne Hin].
  rewrite (proj2 (jseq_neq k' k)) by congruence. by rewrite IH.
Qed.

Lemma toQuery_pairs_spec params acc : NoDup (map fst acc ++ map fst params) ->
  Forall (fun kv => is_param kv.2 = true) params ->
  toQuery_pairs params acc = Ok (acc ++ param_pairs params).
Proof.
  intros Hnd Hp. revert acc Hnd. induction Hp as [|[k v] params Hv Hp IH]; intros acc Hnd.
  { simpl. by rewrite app_nil_r. }
  assert (forall s, toQuery_pairs params (acc ++ [(k, s)]) = Ok ((acc ++ [(k, s)]) ++ param_pairs params))
    as Hset.
  { intros s. apply IH. rewrite map_app, <- app_assoc. done. }
  assert (forall s, search_set k s acc = acc ++ [(k, s)]) as Hfresh.
  { intros s. apply search_set_fresh. simpl in Hnd. apply NoDup_app in Hnd as (_ & Hd & _).
    intros Hin. apply (Hd k Hin). left. }
  cbn [toQuery_pairs param_pairs]. simpl in Hv.
  destruct v; try done; simpl; rewrite ?Hfresh, ?Hset, <- ?app_assoc; try done.
  apply IH. simpl in Hnd. apply NoDup_app in Hnd as (? & Hd & Hnd).
  apply NoDup_cons in Hnd as [_ Hnd]. apply NoDup_app. split_and!; try done.
  intros x Hx Hin. apply (Hd x Hx). by right.
Qed.

Lemma form_serialize_nonempty p l : nonempty (form_serialize (p :: l)) = true.
Proof. unfold form_serialize. simpl. by destruct (form_encode p.1), l. Qed.

(** C21: Query strings: for parameters with distinct names, [toQuery] produces
    the empty string when every value is [undefined], and otherwise [?] and a
    text that a form parser reads back as exactly the given parameters, in
    order, with their printed values. *)
Theorem toQuery_decodes params : NoDup (map fst params) ->
  Forall (fun kv => is_param kv.2 = true) params -> Forall wf_pair (param_pairs params) ->
  exists q, toQuery params = Ok q /\
    match param_pairs params with
    | [] => q = []
    | _ => exists query, q = js "?" ++ query /\ form_parse query = Some (param_pairs params)
    end.
Proof.
  intros Hnd Hp Hwf. unfold toQuery. rewrite toQuery_pairs_spec by done. cbn [res_bind app].
  eexists. split; [reflexivity|]. destruct (param_pairs params) as [|p l]; [done|].
  rewrite form_serialize_nonempty. exists (form_serialize (p :: l)).
  split; [done|]. by apply form_parse_serialize.
Qed.
