(* ===== verification/SdkRealtime.v ===== *)
(** * Realtime subscriptions: [PeanutRealtimeClient.subscribeTable]

    The task started by [subscribeTable]: it reads bytes from the response
    stream, decodes them, cuts the text into events at blank lines, and hands
    the JSON payload of each event to the caller.  The stream is the list of
    what its reads produce; [Close] is a call of [close()] while the task waits.
    The caller's handler has a state of its own and may close the subscription
    itself.  Once it is closed, the next read rejects: aborting a fetch puts
    its body stream in the error state and drops what it has queued.

    The theorem: the calls made do not depend on how the network cut the bytes,
    also inside a character or a blank line, as long as the handler does not
    close; and a handler that closes gets a prefix of those calls. *)

From S2P Require Import Prelude JsString JsNumber JsValue Json Uri TextDecoder Prog Http Sdk.
Import Sdk.

Module Realtime.

(** What the reader yields, or what happens between two reads. *)
Inductive tick : Type :=
| Chunk (bytes : list N)
| Done
| Reject (e : thrown)
| Close.

(** Calls of the caller's handlers. *)
Inductive call : Type :=
| OnEvent (event : jsval)
| OnError (error : thrown).

Definition blank_line : jsstring := [cu_nl; cu_nl].

(** What a read of an aborted stream rejects with. *)
Definition abort_error : thrown := mk_error (js "AbortError") (EngineText (js "aborted")).

(** The payload of one event block: its first [data:] line, trimmed. *)
Definition part_payload (part : jsstring) : option jsstring :=
  match List.find (starts_with (js "data:")) (split [cu_nl] part) with
  | None => None
  | Some dataLine =>
      let payload := trim (slice_from (length (js "data:")) dataLine) in
      if nonempty payload then Some payload else None
  end.

(** [error instanceof Error ? error : new Error(String(error))] *)
Definition to_error (e : thrown) : outcome thrown :=
  match e with
  | TError _ => Ok e
  | TValue v => let! s := to_string v in Ok (new_error s)
  end.

Section Task.
(** The caller's [onEvent], from its state: its next state, whether it closes
    the subscription, and its outcome; and whether there is an [onError]. *)
Context {H : Type} (onEvent : H -> jsval -> H * bool * outcome unit) (hasOnError : bool).

(** The [catch] clause. *)
Definition on_catch (aborted : bool) (e : thrown) : list call :=
  if aborted then []
  else if hasOnError then match to_error e with Ok e' => [OnError e'] | Err _ => [] end
  else [].

(** The [for (const part of parts)] loop: the calls made, the handler's state,
    whether the subscription is now closed, and the exception that stopped it.
    The loop does not look at the signal: the parts of one chunk are all
    delivered. *)
Fixpoint deliver (parts : list jsstring) (h : H) (aborted : bool) : list call * H * bool * option thrown :=
  match parts with
  | [] => ([], h, aborted, None)
  | part :: rest =>
      match part_payload part with
      | None => deliver rest h aborted
      | Some payload =>
          match json_parse payload with
          | Err e => ([], h, aborted, Some e)
          | Ok v =>
              let '(h', closes, r) := onEvent h v in
              let aborted' := aborted || closes in
              match r with
              | Err e => ([OnEvent v], h', aborted', Some e)
              | Ok _ =>
                  let '(calls, h2, a, e) := deliver rest h' aborted' in (OnEvent v :: calls, h2, a, e)
              end
          end
      end
  end.

(** The [while (true)] loop: the calls made and the handler's last state. *)
Fixpoint read_loop (ticks : list tick) (decoder : decoder) (buffer : jsstring) (h : H) (aborted : bool)
  : list call * H :=
  match ticks with
  | [] => ([], h)
  | Done :: _ => ([], h)
  | Reject e :: _ => (on_catch aborted e, h)
  | Close :: rest => read_loop rest decoder buffer h true
  | Chunk value :: rest =>
      if aborted then (on_catch aborted abort_error, h)
      else
        let '(decoder', text) := decode_stream decoder value in
        let parts := split blank_line (buffer ++ text) in
        let buffer' := List.last parts [] in
        match deliver (removelast parts) h aborted with
        | (calls, h', aborted', Some e) => (calls ++ on_catch aborted' e, h')
        | (calls, h', aborted', None) =>
            let '(calls', h2) := read_loop rest decoder' buffer' h' aborted' in (calls ++ calls', h2)
        end
  end.

(** The async task, from the outcome of [streamRequest] on. *)
Definition subscribe_task (stream : outcome response) (has_body : bool) (ticks : list tick)
    (h : H) (aborted : bool) : list call * H :=
  match stream with
  | Err e => (on_catch aborted e, h)
  | Ok _ =>
      if has_body then read_loop ticks new_decoder [] h aborted
      else (on_catch aborted (new_error (js "Streaming response body unavailable")), h)
  end.
End Task.

(** The path a subscription streams. *)
Definition stream_path (c : PeanutClient) (table : jsstring) : outcome jsstring :=
  let! t := encodePath table in appPath c (js "/data/tables/" ++ t ++ js "/events/stream").

(** [subscribeTable(table, handlers)]: the path is put together before the task
    is started; the task's first step is the request, whose outcome goes to
    [subscribe_task].  The signal is the one of its own controller, which no
    timer aborts. *)
Definition subscribeTable (c : PeanutClient) (table : jsstring) : sdk (outcome response) :=
  path ← lift (stream_path c table);
  catch (r ← streamRequest c path None; Ret (Ok r)) (fun e => Ret (Err e)).

(** ** Splitting text that arrives in pieces *)

Lemma split_go_two sep k s h x t : sep <> [] ->
  split_go sep k s = h :: x :: t -> k + length sep <= length s.
Proof.
  intros Hsep. revert k h x t.
  induction s as [|c s IH]; intros k h x t; [done|]. cbn [split_go].
  destruct k as [|k'].
  - destruct (starts_with sep (c :: s)) eqn:E.
    + intros _. apply starts_with_spec in E as [r Hr]. rewrite Hr, length_app. lia.
    + destruct (split_go_cons sep 0 s) as (h' & t' & Ht). rewrite Ht.
      intros [_ Ht']%(f_equal (fun l => (hd [] l, tail l)))%pair_equal_spec. simpl in Ht'. subst t'.
      apply IH in Ht. simpl in *. lia.
  - intros Hg. apply IH in Hg. simpl in *. lia.
Qed.

Lemma starts_with_long sep s y : length sep <= length s ->
  starts_with sep (s ++ y) = starts_with sep s.
Proof.
  revert s. induction sep as [|c sep IH]; intros [|d s] H; simpl in *; try done; [lia|].
  f_equal. apply IH. lia.
Qed.

Lemma removelast_cons {A} (x : A) l : l <> [] -> removelast (x :: l) = x :: removelast l.
Proof. by destruct l. Qed.

Lemma last_cons' {A} (x : A) l d : l <> [] -> List.last (x :: l) d = List.last l d.
Proof. by destruct l. Qed.

Lemma split_go_ne sep k s : split_go sep k s <> [].
Proof. destruct (split_go_cons sep k s) as (h & t & ->). done. Qed.

Lemma split_go_one sep s h : sep <> [] -> split_go sep 0 s = [h] -> h = s.
Proof. intros Hs H. pose proof (join_split sep s Hs) as J. unfold split in J. by rewrite H in J. Qed.

Lemma split_go_app sep k x y : sep <> [] -> k <= length x ->
  split_go sep k (x ++ y) =
  removelast (split_go sep k x) ++ split_go sep 0 (List.last (split_go sep k x) [] ++ y).
Proof.
  intros Hsep. revert k. induction x as [|c x IH]; intros k Hk.
  { simpl in Hk. by replace k with 0 by lia. }
  destruct k as [|k]; [|apply IH; simpl in Hk; lia]. cbn [app split_go].
  destruct (starts_with sep (c :: x)) eqn:E.
  - pose proof E as E'. apply starts_with_spec in E' as [r Er].
    assert (length sep <= length (c :: x)) as Hlen by (rewrite Er, length_app; lia).
    replace (starts_with sep (c :: x ++ y)) with true
      by (change (c :: x ++ y) with ((c :: x) ++ y); by rewrite starts_with_long).
    rewrite removelast_cons, last_cons' by apply split_go_ne.
    simpl. f_equal. apply IH. simpl in Hlen. lia.
  - destruct (split_go_cons sep 0 x) as (h & t & Ht). specialize (IH 0 (Nat.le_0_l _)).
    destruct t as [|h2 t].
    + rewrite Ht. apply split_go_one in Ht as ->; [|done]. done.
    + pose proof (split_go_two sep 0 x h h2 t Hsep Ht) as Hlen.
      replace (starts_with sep (c :: x ++ y)) with false
        by (change (c :: x ++ y) with ((c :: x) ++ y); rewrite starts_with_long; [done|simpl; lia]).
      rewrite Ht in IH |- *. rewrite IH. simpl. by destruct t.
Qed.

(** Cutting a text into blocks can be done piece by piece. *)
Lemma split_app sep x y : sep <> [] ->
  split sep (x ++ y) = removelast (split sep x) ++ split sep (List.last (split sep x) [] ++ y).
Proof. intros H. apply split_go_app; [done|lia]. Qed.

Lemma removelast_app' {A} (l k : list A) : k <> [] -> removelast (l ++ k) = l ++ removelast k.
Proof. apply removelast_app. Qed.

Lemma last_app' {A} (l k : list A) d : k <> [] -> List.last (l ++ k) d = List.last k d.
Proof.
  intros Hk. induction l as [|x l IH]; [done|]. cbn [app]. rewrite last_cons'; [done|].
  by destruct l, k.
Qed.

Section Chunks.
Context {H : Type} (onEvent : H -> jsval -> H * bool * outcome unit) (hasOnError : bool).

Abbreviation deliver := (deliver onEvent).
Abbreviation read_loop := (read_loop onEvent hasOnError).

Lemma deliver_app l k h a :
  deliver (l ++ k) h a =
  match deliver l h a with
  | (calls, h', a', Some e) => (calls, h', a', Some e)
  | (calls, h', a', None) =>
      let '(calls', h2, a2, e) := deliver k h' a' in (calls ++ calls', h2, a2, e)
  end.
Proof.
  revert h a. induction l as [|p l IH]; intros h a; cbn [app Realtime.deliver].
  { by destruct (deliver k h a) as [[[calls h'] a'] e]. }
  destruct (part_payload p) as [payload|]; [|apply IH].
  destruct (json_parse payload) as [v|e]; [|done].
  destruct (onEvent h v) as [[h' closes] [[]|e]]; [|done]. rewrite IH.
  destruct (deliver l h' (a || closes)) as [[[calls h2] a'] [e|]]; [done|].
  by destruct (deliver k h2 a') as [[[calls' h3] a2] e].
Qed.

(** Nothing is delivered after the subscription was closed. *)
Lemma closed_silent ticks d buffer h : read_loop ticks d buffer h true = ([], h).
Proof. by induction ticks as [|[bytes| |e|] ticks IH]. Qed.

Section Open.
(** The handler does not close the subscription. *)
Hypothesis stays_open : forall h v, (onEvent h v).1.2 = false.

Lemma deliver_open parts h a : (deliver parts h a).1.2 = a.
Proof.
  revert h a. induction parts as [|p parts IH]; intros h a; [done|]. cbn [Realtime.deliver].
  destruct (part_payload p) as [payload|]; [|apply IH]. destruct (json_parse payload) as [v|e]; [|done].
  pose proof (stays_open h v) as Ho. destruct (onEvent h v) as [[h' closes] [[]|e]]; cbn [fst snd] in Ho; subst closes;
    rewrite orb_false_r; [|done].
  specialize (IH h' a). destruct (deliver parts h' a) as [[[calls h2] a'] e]. exact IH.
Qed.

(** Two chunks are as good as their concatenation. *)
Lemma read_loop_merge x y rest d buffer h aborted :
  read_loop (Chunk x :: Chunk y :: rest) d buffer h aborted =
  read_loop (Chunk (x ++ y) :: rest) d buffer h aborted.
Proof.
  destruct aborted; [by rewrite !closed_silent|]. cbn [Realtime.read_loop].
  rewrite decode_stream_app. destruct (decode_stream d x) as [d1 s1]. destruct (decode_stream d1 y) as [d2 s2].
  rewrite app_assoc, (split_app blank_line (buffer ++ s1) s2) by done.
  set (P := split blank_line (buffer ++ s1)). set (Q := split blank_line (List.last P [] ++ s2)).
  assert (Q <> []) as HQ by apply split_go_ne.
  rewrite removelast_app', last_app', deliver_app by done.
  pose proof (deliver_open (removelast P) h false) as Hd.
  destruct (deliver (removelast P) h false) as [[[calls h1] a1] [e|]]; [done|]. cbn [fst snd] in Hd. subst a1.
  destruct (deliver (removelast Q) h1 false) as [[[calls' h2] a2] [e|]]; [by rewrite app_assoc|].
  destruct (read_loop rest d2 (List.last Q []) h2 a2) as [calls2 h3]. by rewrite app_assoc.
Qed.

Lemma read_loop_concat chunks x rest d buffer h aborted :
  read_loop (Chunk x :: map Chunk chunks ++ rest) d buffer h aborted =
  read_loop (Chunk (x ++ concat chunks) :: rest) d buffer h aborted.
Proof.
  revert x. induction chunks as [|y chunks IH]; intros x; cbn [map app concat].
  - by rewrite app_nil_r.
  - rewrite read_loop_merge, IH. by rewrite <- app_assoc.
Qed.

(** An empty read changes nothing. *)
Lemma read_loop_empty rest d h aborted :
  read_loop (Chunk [] :: rest) d [] h aborted = read_loop rest d [] h aborted.
Proof.
  destruct aborted; [by rewrite !closed_silent|]. cbn [Realtime.read_loop decode_stream]. cbn.
  by destruct (read_loop rest d [] h false).
Qed.

Lemma open_chunks stream has_body chunks1 chunks2 rest h aborted :
  concat chunks1 = concat chunks2 ->
  subscribe_task onEvent hasOnError stream has_body (map Chunk chunks1 ++ rest) h aborted =
  subscribe_task onEvent hasOnError stream has_body (map Chunk chunks2 ++ rest) h aborted.
Proof.
  intros E. unfold subscribe_task. destruct stream; [|done]. destruct has_body; [|done].
  rewrite <- (read_loop_empty (map Chunk chunks1 ++ rest)).
  rewrite <- (read_loop_empty (map Chunk chunks2 ++ rest)).
  by rewrite !read_loop_concat, E.
Qed.
End Open.
End Chunks.

(** The same handler, whose calls of [close()] do nothing. *)
Definition ignoring_close {H} (onEvent : H -> jsval -> H * bool * outcome unit) (h : H) (v : jsval)
  : H * bool * outcome unit :=
  let '(h', _, r) := onEvent h v in (h', false, r).

Section Closing.
Context {H : Type} (onEvent : H -> jsval -> H * bool * outcome unit) (hasOnError : bool).

Lemma ignoring_open h v : (ignoring_close onEvent h v).1.2 = false.
Proof. unfold ignoring_close. by destruct (onEvent h v) as [[h' closes] r]. Qed.

(** Within a chunk, closing changes nothing but the signal. *)
Lemma deliver_ignoring parts h a :
  deliver (ignoring_close onEvent) parts h false =
  let '(calls, h', _, e) := deliver onEvent parts h a in (calls, h', false, e).
Proof.
  revert h a. induction parts as [|p parts IH]; intros h a; [done|]. cbn [deliver].
  destruct (part_payload p) as [payload|]; [|apply IH]. destruct (json_parse payload) as [v|e]; [|done].
  unfold ignoring_close at 1. destruct (onEvent h v) as [[h' closes] [[]|e]]; cbn [orb]; [|done].
  rewrite (IH h' (a || closes)). by destruct (deliver onEvent parts h' (a || closes)) as [[[calls h2] a'] e].
Qed.

Lemma read_loop_prefix ticks d buffer h :
  (read_loop onEvent hasOnError ticks d buffer h false).1 `prefix_of`
  (read_loop (ignoring_close onEvent) hasOnError ticks d buffer h false).1.
Proof.
  revert d buffer h. induction ticks as [|[bytes| |e|] ticks IH]; intros d buffer h; cbn [read_loop]; try done.
  - destruct (decode_stream d bytes) as [d' text]. set (parts := split blank_line (buffer ++ text)).
    rewrite (deliver_ignoring _ h false).
    destruct (deliver onEvent (removelast parts) h false) as [[[calls h'] a] [e|]].
    + apply prefix_app. destruct a; [apply prefix_nil|done].
    + specialize (IH d' (List.last parts []) h').
      destruct (read_loop (ignoring_close onEvent) hasOnError ticks d' _ h' false) as [c2 h2]. cbn [fst] in IH.
      destruct a; [rewrite closed_silent; cbn [fst]; apply prefix_app, prefix_nil|].
      destruct (read_loop onEvent hasOnError ticks d' _ h' false) as [c1 h1]. by apply prefix_app.
  - rewrite !closed_silent. done.
Qed.

(** C7: Chunking independence: a subscription that receives the same bytes
    makes the same calls, in the same order, and leaves its handler in the
    same state, however the network splits the bytes into chunks (also in the
    middle of a character, of a blank line or of an event), and whatever
    follows them, as long as the handler does not close the subscription; a
    handler that may close it gets a prefix of the calls made to the same
    handler with its closing ignored, so it sees no event twice, none out of
    order and none that the stream does not have. *)
Theorem chunking_irrelevant stream has_body chunks1 chunks2 rest h aborted :
  concat chunks1 = concat chunks2 ->
  ((forall h v, (onEvent h v).1.2 = false) ->
   subscribe_task onEvent hasOnError stream has_body (map Chunk chunks1 ++ rest) h aborted =
   subscribe_task onEvent hasOnError stream has_body (map Chunk chunks2 ++ rest) h aborted) /\
  (subscribe_task onEvent hasOnError stream has_body (map Chunk chunks1 ++ rest) h aborted).1 `prefix_of`
  (subscribe_task (ignoring_close onEvent) hasOnError stream has_body (map Chunk chunks2 ++ rest) h aborted).1.
Proof.
  intros E. split; [intros Ho; by apply open_chunks|].
  rewrite <- (open_chunks (ignoring_close onEvent) hasOnError ignoring_open _ _ chunks1 chunks2) by done.
  unfold subscribe_task. destruct stream; [|done]. destruct has_body; [|done].
  destruct aborted; [rewrite !closed_silent; done|apply read_loop_prefix].
Qed.
End Closing.

End Realtime.
