(* ===== verification/SdkDist.v ===== *)
(** * The published SDK: [sdks/js/dist/index.js]

    The package's entry point is the committed build [dist/index.js], not the
    TypeScript source.  [Module Dist] translates the build, statement by
    statement; the theorem compares it with the model of the source ([Sdk] and
    [SdkRealtime]), for every public method of the source.  A call first reads
    the sub-client from the client and then the method from its class, as
    JavaScript does, so what the build lacks shows up as a [TypeError]. *)

From S2P Require Import Prelude JsString JsNumber JsValue Json Uri Prog ProgEq Http Sdk SdkRealtime.
Import Sdk.

Module Dist.

(** ** Helpers at the end of the file *)

Definition encodePath (value : jsstring) : outcome jsstring := encodeURIComponent value.

Definition encodeKey (value : jsstring) : outcome jsstring :=
  let! parts := map_outcome encodeURIComponent (split (js "/") value) in
  Ok (join (js "/") parts).

(** One iteration of the loop over [Object.entries(params)]. *)
Definition query_step (search : outcome (list (jsstring * jsstring))) (entry : jsstring * jsval)
  : outcome (list (jsstring * jsstring)) :=
  let! s := search in
  match entry.2 with
  | JUndefined => Ok s
  | value => let! text := to_string value in Ok (search_set entry.1 text s)
  end.

Definition toQuery (params : list (jsstring * jsval)) : outcome jsstring :=
  let! search := foldl query_step (Ok []) params in
  let query := form_serialize search in
  if nonempty query then Ok (js "?" ++ query) else Ok [].

Definition errorMessage (value : jsval) : outcome jsstring :=
  let rest :=
    match value with
    | JStr s => if nonempty s then Ok s else Ok (js "Peanut request failed")
    | _ => Ok (js "Peanut request failed")
    end in
  match value with
  | JObj l => match assoc (js "error") l with Some e => to_string e | None => rest end
  | _ => rest
  end.

Definition isTransientStatus (st : Z) : bool :=
  ((st =? 408) || ((st =? 429) || (st >=? 500)))%Z.

Definition delay (ms : Z) : sdk unit := trigger (Delay ms).

(** ** [PeanutError] and [PeanutClient] *)

Definition PeanutError (st : Z) (message : jsstring) (body : jsval) : thrown :=
  TError {| err_name := js "PeanutError"; err_message := Text message;
            err_status := Some st; err_payload := Some body |}.

Definition construct (options : PeanutClientOptions) (globalFetch : bool)
  : outcome (PeanutClient * jsval) :=
  let retry := retry_opt options in
  let client :=
    {| baseUrl := strip_slashes (baseUrl_opt options);
       appId := appId_opt options;
       apiKey := apiKey_opt options;
       timeoutMs := match timeoutMs_opt options with Some ms => ms | None => 30000%Z end;
       maxRetries := match retry with
                     | Some r => match maxRetries_opt r with Some n => n | None => 0%Z end
                     | None => 0%Z
                     end;
       baseDelayMs := match retry with
                      | Some r => match baseDelayMs_opt r with Some ms => ms | None => 200%Z end
                      | None => 200%Z
                      end;
       subclients := [SubAuth; SubData; SubStorage; SubPush; SubFunctions] |} in
  if fetch_opt options then Ok (client, accessToken_opt options)
  else if globalFetch then Ok (client, accessToken_opt options)
  else Err (new_error (js "A fetch implementation is required")).

Section Client.
Variable c : PeanutClient.

Definition setAccessToken (accessToken : jsval) : sdk unit := trigger (SetAccessToken accessToken).

(** How one iteration of the loop of [fetchWithRetry] ends: with the response
    returned, or with the next attempt and the last error. *)
Inductive iteration : Type :=
| Return (r : response)
| Again (lastError : thrown).

(** The [try] statement of an iteration. *)
Definition attempt_once (input : jsstring) (init : request_init) (attempt : Z) (lastError : thrown)
    (timeout : nat) : sdk iteration :=
  catch
    (response ← await (Fetch input init (Some timeout));
     _ ← trigger (ClearTimeout timeout);
     if negb (isTransientStatus (status response)) || (attempt =? maxRetries c)%Z
     then Ret (Return response) else Ret (Again lastError))
    (fun error =>
       _ ← trigger (ClearTimeout timeout);
       if (attempt =? maxRetries c)%Z then Throw error else Ret (Again error)).

Fixpoint retry_loop (fuel : nat) (input : jsstring) (init : request_init)
    (attempt : Z) (lastError : thrown) : sdk response :=
  match fuel with
  | O => Throw lastError
  | S fuel' =>
      if (attempt <=? maxRetries c)%Z then
        timeout ← trigger (SetTimeout (timeoutMs c));
        it ← attempt_once input init attempt lastError timeout;
        match it with
        | Return response => Ret response
        | Again lastError' =>
            _ ← delay (baseDelayMs c * Z.max 1 (attempt + 1))%Z;
            retry_loop fuel' input init (attempt + 1)%Z lastError'
        end
      else Throw lastError
  end.

Definition fetchWithRetry (input : jsstring) (init : request_init) : sdk response :=
  retry_loop (Z.to_nat (maxRetries c + 2)) input init 0 (TValue JUndefined).

Definition appPath (path : jsstring) : outcome jsstring :=
  let! app := encodeURIComponent (appId c) in Ok (js "/api/apps/" ++ app ++ path).

(** [if (this.accessToken) { headers.set("Authorization", ...) }] *)
Definition set_bearer (hs : headers) : sdk headers :=
  accessToken ← trigger GetAccessToken;
  if truthy accessToken then
    t ← lift (to_string accessToken);
    lift (headers_set (js "Authorization") (js "Bearer " ++ t) hs)
  else Ret hs.

(** [contentType.includes("application/json") ? await response.json() : await response.text()] *)
Definition response_value (r : response) : outcome jsval :=
  let contentType := match headers_get (js "content-type") (resp_headers r) with
                     | Some v => v
                     | None => []
                     end in
  if includes (js "application/json") contentType then response_json r else response_text r.

Definition request (method path : jsstring) (options : request_options) : sdk jsval :=
  headers ← lift (new_headers (opt_headers options) ∅);
  headers ← lift (headers_set (js "X-Peanut-Api-Key") (apiKey c) headers);
  headers ← set_bearer headers;
  '(headers, body) ←
    (match opt_body options with
     | JUndefined => Ret (headers, opt_rawBody options)
     | b => headers ← lift (headers_set (js "Content-Type") (js "application/json") headers);
            Ret (headers, BText <$> json_stringify b)
     end);
  response ← fetchWithRetry (baseUrl c ++ path)
               {| ri_method := Some method; ri_headers := headers; ri_body := body |};
  if (status response =? 204)%Z then Ret JUndefined
  else
    value ← lift (response_value response);
    if response_ok response then Ret value
    else
      message ← lift (errorMessage value);
      Throw (PeanutError (status response) message value).

Definition requestBinary (method path : jsstring) : sdk response :=
  headers ← lift (headers_set (js "X-Peanut-Api-Key") (apiKey c) ∅);
  headers ← set_bearer headers;
  response ← fetchWithRetry (baseUrl c ++ path)
               {| ri_method := Some method; ri_headers := headers; ri_body := None |};
  if response_ok response then Ret response
  else
    value ← lift (response_value response);
    message ← lift (errorMessage value);
    Throw (PeanutError (status response) message value).

Definition requestBinaryWithBody (method path : jsstring) (body : body_init) (contentType : option jsstring)
  : sdk response :=
  headers ← lift (new_headers [(js "Content-Type", default (js "application/octet-stream") contentType)] ∅);
  headers ← lift (headers_set (js "X-Peanut-Api-Key") (apiKey c) headers);
  headers ← set_bearer headers;
  response ← fetchWithRetry (baseUrl c ++ path)
               {| ri_method := Some method; ri_headers := headers; ri_body := Some body |};
  if response_ok response then Ret response
  else
    value ← lift (response_value response);
    message ← lift (errorMessage value);
    Throw (PeanutError (status response) message value).

(** ** [PeanutAuthClient] *)

Definition auth_register (email password : jsstring) : sdk jsval :=
  path ← lift (appPath (js "/auth/register"));
  request (js "POST") path (with_body (JObj [(js "email", JStr email); (js "password", JStr password)])).

Definition auth_login (email password : jsstring) : sdk jsval :=
  path ← lift (appPath (js "/auth/login"));
  response ← request (js "POST") path
               (with_body (JObj [(js "email", JStr email); (js "password", JStr password)]));
  access_token ← lift (get response (js "access_token"));
  _ ← setAccessToken access_token;
  Ret response.

Definition auth_refresh (refreshToken : jsstring) : sdk jsval :=
  path ← lift (appPath (js "/auth/refresh"));
  response ← request (js "POST") path (with_body (JObj [(js "refresh_token", JStr refreshToken)]));
  access_token ← lift (get response (js "access_token"));
  _ ← setAccessToken access_token;
  Ret response.

Definition auth_logout (refreshToken : jsstring) : sdk unit :=
  path ← lift (appPath (js "/auth/logout"));
  _ ← request (js "POST") path (with_body (JObj [(js "refresh_token", JStr refreshToken)]));
  setAccessToken JUndefined.

Definition auth_me : sdk jsval :=
  path ← lift (appPath (js "/auth/me"));
  request (js "GET") path no_options.

(** ** [PeanutDataClient] *)

Definition data_listTables : sdk jsval :=
  path ← lift (appPath (js "/data/tables"));
  request (js "GET") path no_options.

Definition data_getTable (table : jsstring) : sdk jsval :=
  t ← lift (encodePath table);
  path ← lift (appPath (js "/data/tables/" ++ t));
  request (js "GET") path no_options.

Definition data_listRows (table : jsstring) (params : list (jsstring * jsval)) : sdk jsval :=
  query ← lift (toQuery params);
  t ← lift (encodePath table);
  path ← lift (appPath (js "/data/tables/" ++ t ++ js "/rows" ++ query));
  request (js "GET") path no_options.

Definition data_createRow (table : jsstring) (data : jsval) : sdk jsval :=
  t ← lift (encodePath table);
  path ← lift (appPath (js "/data/tables/" ++ t ++ js "/rows"));
  request (js "POST") path (with_body (JObj [(js "data", data)])).

Definition data_getRow (table rowId : jsstring) : sdk jsval :=
  t ← lift (encodePath table);
  r ← lift (encodePath rowId);
  path ← lift (appPath (js "/data/tables/" ++ t ++ js "/rows/" ++ r));
  request (js "GET") path no_options.

Definition data_updateRow (table rowId : jsstring) (data : jsval) : sdk jsval :=
  t ← lift (encodePath table);
  r ← lift (encodePath rowId);
  path ← lift (appPath (js "/data/tables/" ++ t ++ js "/rows/" ++ r));
  request (js "PATCH") path (with_body (JObj [(js "data", data)])).

Definition data_deleteRow (table rowId : jsstring) : sdk jsval :=
  t ← lift (encodePath table);
  r ← lift (encodePath rowId);
  path ← lift (appPath (js "/data/tables/" ++ t ++ js "/rows/" ++ r));
  request (js "DELETE") path no_options.

(** ** [PeanutStorageClient] *)

Definition storage_listObjects (bucket : jsstring) (prefix : option jsstring) : sdk jsval :=
  query ← (match prefix with
           | Some p => if nonempty p then e ← lift (encodeURIComponent p); Ret (js "?prefix=" ++ e) else Ret []
           | None => Ret []
           end);
  b ← lift (encodePath bucket);
  path ← lift (appPath (js "/storage/buckets/" ++ b ++ js "/objects" ++ query));
  request (js "GET") path no_options.

Definition storage_getObject (bucket key : jsstring) : sdk response :=
  b ← lift (encodePath bucket);
  k ← lift (encodeKey key);
  path ← lift (appPath (js "/storage/buckets/" ++ b ++ js "/objects/" ++ k));
  requestBinary (js "GET") path.

Definition storage_putObject (bucket key : jsstring) (body : body_init) (contentType : option jsstring)
  : sdk response :=
  b ← lift (encodePath bucket);
  k ← lift (encodeKey key);
  path ← lift (appPath (js "/storage/buckets/" ++ b ++ js "/objects/" ++ k));
  requestBinaryWithBody (js "PUT") path body (Some (default (js "application/octet-stream") contentType)).

Definition storage_deleteObject (bucket key : jsstring) : sdk jsval :=
  b ← lift (encodePath bucket);
  k ← lift (encodeKey key);
  path ← lift (appPath (js "/storage/buckets/" ++ b ++ js "/objects/" ++ k));
  request (js "DELETE") path no_options.

(** ** [PeanutPushClient] *)

Definition push_listSubscriptions : sdk jsval :=
  path ← lift (appPath (js "/push/subscriptions"));
  request (js "GET") path no_options.

Definition push_createNtfySubscription (topic : jsstring) : sdk jsval :=
  path ← lift (appPath (js "/push/subscriptions"));
  request (js "POST") path (with_body (JObj [(js "topic", JStr topic)])).

Definition push_createWebPushSubscription (endpoint p256dh auth : jsstring) : sdk jsval :=
  path ← lift (appPath (js "/push/subscriptions"));
  request (js "POST") path
    (with_body (JObj [(js "endpoint", JStr endpoint);
                      (js "keys", JObj [(js "p256dh", JStr p256dh); (js "auth", JStr auth)])])).

Definition push_deleteSubscription (subscriptionId : num) : sdk jsval :=
  path ← lift (appPath (js "/push/subscriptions/" ++ num_to_string subscriptionId));
  request (js "DELETE") path no_options.

Definition push_getVapidPublicKey : sdk jsval :=
  path ← lift (appPath (js "/push/vapid-public-key"));
  request (js "GET") path no_options.

Definition push_enqueueMessage (payload : jsval) : sdk jsval :=
  path ← lift (appPath (js "/push/messages"));
  request (js "POST") path (with_body payload).

(** ** [PeanutFunctionsClient] *)

Definition functions_invoke (endpointSlug : jsstring) (input apiKey' async' : jsval) : sdk jsval :=
  e ← lift (encodePath endpointSlug);
  path ← lift (appPath (js "/function-endpoints/" ++ e));
  request (js "POST") path
    (with_body (JObj [(js "input", match input with JUndefined => JNull | i => i end);
                      (js "api_key", apiKey'); (js "async_invoke", async')])).
End Client.

(** ** The methods of an SDK client, called from outside *)

Inductive sdk_call : Type :=
| CSetAccessToken (token : jsval)
| CAppPath (path : jsstring)
| CRequest (method path : jsstring) (options : request_options)
| CRequestBinary (method path : jsstring)
| CRequestBinaryWithBody (method path : jsstring) (body : body_init) (contentType : option jsstring)
| CStreamRequest (path : jsstring) (signal : option nat)
| CRegister (email password : jsstring)
| CLogin (email password : jsstring)
| CRefresh (refreshToken : jsstring)
| CLogout (refreshToken : jsstring)
| CMe
| CListTables
| CGetTable (table : jsstring)
| CListRows (table : jsstring) (params : list (jsstring * jsval))
| CCreateRow (table : jsstring) (data : jsval)
| CGetRow (table rowId : jsstring)
| CUpdateRow (table rowId : jsstring) (data : jsval)
| CDeleteRow (table rowId : jsstring)
| CListObjects (bucket : jsstring) (prefix : option jsstring)
| CGetObject (bucket key : jsstring)
| CPutObject (bucket key : jsstring) (body : body_init) (contentType : option jsstring)
| CDeleteObject (bucket key : jsstring)
| CListSubscriptions
| CCreateNtfySubscription (topic : jsstring)
| CCreateWebPushSubscription (endpoint p256dh auth : jsstring)
| CDeleteSubscription (subscriptionId : num)
| CGetVapidPublicKey
| CEnqueueMessage (payload : jsval)
| CEnqueueBatch (messages : list jsval)
| CGetMessageStatus (messageId : num)
| CInvoke (endpointSlug : jsstring) (input apiKey' async' : jsval)
| CSubscribeTable (table : jsstring).

(** Where the method of a call is looked up: in a sub-client, or in the client
    itself, under its name. *)
Definition member (m : sdk_call) : option subclient * string :=
  match m with
  | CSetAccessToken _ => (None, "setAccessToken"%string)
  | CAppPath _ => (None, "appPath"%string)
  | CRequest _ _ _ => (None, "request"%string)
  | CRequestBinary _ _ => (None, "requestBinary"%string)
  | CRequestBinaryWithBody _ _ _ _ => (None, "requestBinaryWithBody"%string)
  | CStreamRequest _ _ => (None, "streamRequest"%string)
  | CRegister _ _ => (Some SubAuth, "register"%string)
  | CLogin _ _ => (Some SubAuth, "login"%string)
  | CRefresh _ => (Some SubAuth, "refresh"%string)
  | CLogout _ => (Some SubAuth, "logout"%string)
  | CMe => (Some SubAuth, "me"%string)
  | CListTables => (Some SubData, "listTables"%string)
  | CGetTable _ => (Some SubData, "getTable"%string)
  | CListRows _ _ => (Some SubData, "listRows"%string)
  | CCreateRow _ _ => (Some SubData, "createRow"%string)
  | CGetRow _ _ => (Some SubData, "getRow"%string)
  | CUpdateRow _ _ _ => (Some SubData, "updateRow"%string)
  | CDeleteRow _ _ => (Some SubData, "deleteRow"%string)
  | CListObjects _ _ => (Some SubStorage, "listObjects"%string)
  | CGetObject _ _ => (Some SubStorage, "getObject"%string)
  | CPutObject _ _ _ _ => (Some SubStorage, "putObject"%string)
  | CDeleteObject _ _ => (Some SubStorage, "deleteObject"%string)
  | CListSubscriptions => (Some SubPush, "listSubscriptions"%string)
  | CCreateNtfySubscription _ => (Some SubPush, "createNtfySubscription"%string)
  | CCreateWebPushSubscription _ _ _ => (Some SubPush, "createWebPushSubscription"%string)
  | CDeleteSubscription _ => (Some SubPush, "deleteSubscription"%string)
  | CGetVapidPublicKey => (Some SubPush, "getVapidPublicKey"%string)
  | CEnqueueMessage _ => (Some SubPush, "enqueueMessage"%string)
  | CEnqueueBatch _ => (Some SubPush, "enqueueBatch"%string)
  | CGetMessageStatus _ => (Some SubPush, "getMessageStatus"%string)
  | CInvoke _ _ _ _ => (Some SubFunctions, "invoke"%string)
  | CSubscribeTable _ => (Some SubRealtime, "subscribeTable"%string)
  end.

(** What a call resolves to. *)
Inductive sdk_result : Type :=
| RValue (v : jsval)
| RResponse (r : response)
| RSubscription (stream : outcome response)
| RVoid.

Definition value (p : sdk jsval) : sdk sdk_result := v ← p; Ret (RValue v).
Definition resp (p : sdk response) : sdk sdk_result := r ← p; Ret (RResponse r).
Definition void (p : sdk unit) : sdk sdk_result := _ ← p; Ret RVoid.
Definition subscription (p : sdk (outcome response)) : sdk sdk_result := o ← p; Ret (RSubscription o).
Definition text (x : outcome jsstring) : sdk sdk_result := s ← lift x; Ret (RValue (JStr s)).

(** [client.sub.method(...)]: reading a method of a missing sub-client throws,
    and so does calling a method the class does not have. *)
Definition call_member (c : PeanutClient) (m : sdk_call) (method : option (sdk sdk_result)) : sdk sdk_result :=
  match (member m).1 with
  | Some f => if bool_decide (f ∈ subclients c)
              then default (Throw (type_error (js "is not a function"))) method
              else Throw (type_error (js "Cannot read properties of undefined"))
  | None => default (Throw (type_error (js "is not a function"))) method
  end.

(** The methods of the source's classes. *)
Definition src_method (c : PeanutClient) (m : sdk_call) : sdk sdk_result :=
  match m with
  | CAppPath path => text (Sdk.appPath c path)
  | CSubscribeTable table => subscription (Realtime.subscribeTable c table)
  | CSetAccessToken t => void (Sdk.setAccessToken t)
  | CRequest method path o => value (Sdk.request c method path o)
  | CRequestBinary method path => resp (Sdk.requestBinary c method path)
  | CRequestBinaryWithBody method path b ct =>
      resp (Sdk.requestBinaryWithBody c method path b (default octet_stream ct))
  | CStreamRequest path signal => resp (streamRequest c path signal)
  | CRegister e p => value (Sdk.auth_register c e p)
  | CLogin e p => value (Sdk.auth_login c e p)
  | CRefresh t => value (Sdk.auth_refresh c t)
  | CLogout t => void (Sdk.auth_logout c t)
  | CMe => value (Sdk.auth_me c)
  | CListTables => value (Sdk.data_listTables c)
  | CGetTable t => value (Sdk.data_getTable c t)
  | CListRows t ps => value (Sdk.data_listRows c t ps)
  | CCreateRow t d => value (Sdk.data_createRow c t d)
  | CGetRow t r => value (Sdk.data_getRow c t r)
  | CUpdateRow t r d => value (Sdk.data_updateRow c t r d)
  | CDeleteRow t r => value (Sdk.data_deleteRow c t r)
  | CListObjects b p => value (Sdk.storage_listObjects c b p)
  | CGetObject b k => resp (Sdk.storage_getObject c b k)
  | CPutObject b k body ct => resp (Sdk.storage_putObject c b k body ct)
  | CDeleteObject b k => value (Sdk.storage_deleteObject c b k)
  | CListSubscriptions => value (Sdk.push_listSubscriptions c)
  | CCreateNtfySubscription t => value (Sdk.push_createNtfySubscription c t)
  | CCreateWebPushSubscription e p a => value (Sdk.push_createWebPushSubscription c e p a)
  | CDeleteSubscription i => value (Sdk.push_deleteSubscription c i)
  | CGetVapidPublicKey => value (Sdk.push_getVapidPublicKey c)
  | CEnqueueMessage p => value (Sdk.push_enqueueMessage c p)
  | CEnqueueBatch l => value (push_enqueueBatch c l)
  | CGetMessageStatus i => value (push_getMessageStatus c i)
  | CInvoke e i k a => value (Sdk.functions_invoke c e i k a)
  end.

(** The call on a client of the source. *)
Definition src_call (c : PeanutClient) (m : sdk_call) : sdk sdk_result := call_member c m (Some (src_method c m)).

(** The methods of the build's classes: those the file defines. *)
Definition dist_method (c : PeanutClient) (m : sdk_call) : option (sdk sdk_result) :=
  match m with
  | CSetAccessToken t => Some (void (setAccessToken t))
  | CAppPath path => Some (text (appPath c path))
  | CRequest method path o => Some (value (request c method path o))
  | CRequestBinary method path => Some (resp (requestBinary c method path))
  | CRequestBinaryWithBody method path b ct => Some (resp (requestBinaryWithBody c method path b ct))
  | CRegister e p => Some (value (auth_register c e p))
  | CLogin e p => Some (value (auth_login c e p))
  | CRefresh t => Some (value (auth_refresh c t))
  | CLogout t => Some (void (auth_logout c t))
  | CMe => Some (value (auth_me c))
  | CListTables => Some (value (data_listTables c))
  | CGetTable t => Some (value (data_getTable c t))
  | CListRows t ps => Some (value (data_listRows c t ps))
  | CCreateRow t d => Some (value (data_createRow c t d))
  | CGetRow t r => Some (value (data_getRow c t r))
  | CUpdateRow t r d => Some (value (data_updateRow c t r d))
  | CDeleteRow t r => Some (value (data_deleteRow c t r))
  | CListObjects b p => Some (value (storage_listObjects c b p))
  | CGetObject b k => Some (resp (storage_getObject c b k))
  | CPutObject b k body ct => Some (resp (storage_putObject c b k body ct))
  | CDeleteObject b k => Some (value (storage_deleteObject c b k))
  | CListSubscriptions => Some (value (push_listSubscriptions c))
  | CCreateNtfySubscription t => Some (value (push_createNtfySubscription c t))
  | CCreateWebPushSubscription e p a => Some (value (push_createWebPushSubscription c e p a))
  | CDeleteSubscription i => Some (value (push_deleteSubscription c i))
  | CGetVapidPublicKey => Some (value (push_getVapidPublicKey c))
  | CEnqueueMessage p => Some (value (push_enqueueMessage c p))
  | CInvoke e i k a => Some (value (functions_invoke c e i k a))
  | _ => None
  end.

(** The call on a client of the build. *)
Definition dist_call (c : PeanutClient) (m : sdk_call) : sdk sdk_result := call_member c m (dist_method c m).

(** ** The build behaves as the source *)

Lemma transient_same st : isTransientStatus st = Sdk.isTransientStatus st.
Proof.
  unfold isTransientStatus, Sdk.isTransientStatus. rewrite Z.geb_leb. by rewrite orb_assoc.
Qed.

Lemma key_same k : encodeKey k = Sdk.encodeKey k.
Proof. done. Qed.

Lemma message_same v : errorMessage v = Sdk.errorMessage v.
Proof. destruct v; try done. simpl. by case_match. Qed.

Lemma query_pairs_same params search :
  foldl query_step (Ok search) params = toQuery_pairs params search.
Proof.
  revert search. induction params as [|[k v] params IH]; intros search; [done|]. cbn [foldl toQuery_pairs].
  destruct v; cbn [query_step res_bind snd fst]; try (apply IH).
  all: destruct (to_string _) as [t|e]; cbn [res_bind]; [apply IH|].
  all: clear IH; by induction params as [|p params IH].
Qed.

Lemma query_same params : toQuery params = Sdk.toQuery params.
Proof.
  unfold toQuery, Sdk.toQuery. rewrite query_pairs_same.
  destruct (toQuery_pairs params []); [|done]. cbn [res_bind]. by case_match.
Qed.

(** A client with other sub-clients. *)
Definition with_subclients (l : list subclient) (c : PeanutClient) : PeanutClient :=
  {| baseUrl := baseUrl c; appId := appId c; apiKey := apiKey c; timeoutMs := timeoutMs c;
     maxRetries := maxRetries c; baseDelayMs := baseDelayMs c; subclients := l |}.

(** The build's constructor leaves one sub-client out. *)
Lemma construct_same options g :
  construct options g =
  let! p := Sdk.construct options g in
  Ok (with_subclients [SubAuth; SubData; SubStorage; SubPush; SubFunctions] p.1, p.2).
Proof.
  unfold construct, Sdk.construct. destruct options as [? ? ? ? ms retry f]; simpl.
  destruct ms, retry as [[[] []]|], f, g; done.
Qed.

Lemma bearer_same c hs :
  (hs1 ← lift (headers_set (js "X-Peanut-Api-Key") (apiKey c) hs); set_bearer hs1) ≡ authHeaders c hs.
Proof. done. Qed.

(** The outcome of one attempt, without [try]. *)
Lemma attempt_once_equiv c input init attempt lastError timeout :
  attempt_once c input init attempt lastError timeout ≡
  (result ← trigger (Fetch input init (Some timeout));
  _ ← trigger (ClearTimeout timeout);
  match result with
  | Ok response =>
      if negb (Sdk.isTransientStatus (status response)) || (attempt =? maxRetries c)%Z
      then Ret (Return response) else Ret (Again lastError)
  | Err error => if (attempt =? maxRetries c)%Z then Throw error else Ret (Again error)
  end).
Proof.
  unfold attempt_once. rewrite catch_await. apply bind_equiv. intros [r|e]; [|done].
  rewrite catch_trigger. apply bind_equiv. intros []. rewrite transient_same. by case_match.
Qed.

Lemma retry_loop_equiv c fuel input init attempt lastError :
  retry_loop c fuel input init attempt lastError ≡ Sdk.retry_loop c fuel input init attempt lastError.
Proof.
  revert attempt lastError. induction fuel as [|fuel IH]; intros attempt lastError; [done|].
  cbn [retry_loop Sdk.retry_loop]. destruct (attempt <=? maxRetries c)%Z; [|done]. cbn [negb].
  apply bind_equiv. intros timeout. rewrite attempt_once_equiv, bind_assoc.
  apply bind_equiv. intros result. rewrite bind_assoc. apply bind_equiv. intros [].
  destruct result as [r|e]; case_match; rewrite ?bind_ret_l, ?bind_throw; try done;
    apply bind_equiv; intros []; apply IH.
Qed.

Lemma fetch_equiv c input init : fetchWithRetry c input init ≡ Sdk.fetchWithRetry c input init.
Proof. apply retry_loop_equiv. Qed.

(** The end of a request: an error response throws. *)
Lemma fail_equiv r :
  (if response_ok r then Ret r
   else value ← lift (response_value r);
        message ← lift (errorMessage value);
        Throw (PeanutError (status r) message value)) ≡ checkResponse r.
Proof.
  unfold checkResponse. destruct (response_ok r); [done|]. cbn [negb].
  apply bind_equiv. intros v. by rewrite message_same.
Qed.

Lemma request_equiv c method path o : request c method path o ≡ Sdk.request c method path o.
Proof.
  unfold request, Sdk.request. apply bind_equiv. intros hs.
  rewrite <- bearer_same, bind_assoc. do 2 (apply bind_equiv; intros ?).
  apply bind_equiv. intros [hs' body]. rewrite fetch_equiv. apply bind_equiv. intros r.
  case_match; [done|]. apply bind_equiv. intros v. destruct (response_ok r); [done|]. cbn [negb].
  unfold throwResponse. by rewrite message_same.
Qed.

Lemma requestBinary_equiv c method path : requestBinary c method path ≡ Sdk.requestBinary c method path.
Proof.
  unfold requestBinary, Sdk.requestBinary. rewrite <- bearer_same, bind_assoc.
  do 2 (apply bind_equiv; intros ?). rewrite fetch_equiv. apply bind_equiv. intros r. apply fail_equiv.
Qed.

Lemma requestBinaryWithBody_equiv c method path b ct :
  requestBinaryWithBody c method path b ct ≡
  Sdk.requestBinaryWithBody c method path b (default octet_stream ct).
Proof.
  unfold requestBinaryWithBody, Sdk.requestBinaryWithBody. apply bind_equiv. intros hs.
  rewrite <- bearer_same, bind_assoc. do 2 (apply bind_equiv; intros ?).
  rewrite fetch_equiv. apply bind_equiv. intros r. apply fail_equiv.
Qed.

(** Both sides put the same path together: compare them on every outcome of
    the encodings, then use the equivalence of the request. *)
Ltac path_call :=
  intros; unfold appRequest, rowPath, rowsPath, tablePath, objectsPath, objectPath, Sdk.appPath, appPath,
    Sdk.encodePath, encodePath;
  rewrite ?key_same;
  repeat match goal with
  | |- context [encodeURIComponent ?x] => destruct (encodeURIComponent x)
  | |- context [Sdk.encodeKey ?x] => destruct (Sdk.encodeKey x)
  end;
  cbn [res_bind lift mbind prog_bind]; rewrite <- ?app_assoc, ?app_nil_r, ?request_equiv, ?requestBinary_equiv,
    ?requestBinaryWithBody_equiv; try reflexivity.

(** One lemma per method, collected in [dist]. *)
Create HintDb dist discriminated.
#[export] Hint Constants Opaque : dist.

Lemma auth_register_equiv c email password : auth_register c email password ≡ Sdk.auth_register c email password.
Proof. unfold auth_register, Sdk.auth_register. path_call. Qed.
Lemma auth_login_equiv c email password : auth_login c email password ≡ Sdk.auth_login c email password.
Proof. unfold auth_login, Sdk.auth_login. path_call. Qed.
Lemma auth_refresh_equiv c t : auth_refresh c t ≡ Sdk.auth_refresh c t.
Proof. unfold auth_refresh, Sdk.auth_refresh. path_call. Qed.
Lemma auth_logout_equiv c t : auth_logout c t ≡ Sdk.auth_logout c t.
Proof. unfold auth_logout, Sdk.auth_logout. path_call. Qed.
Lemma auth_me_equiv c : auth_me c ≡ Sdk.auth_me c.
Proof. unfold auth_me, Sdk.auth_me. path_call. Qed.
Lemma data_listTables_equiv c : data_listTables c ≡ Sdk.data_listTables c.
Proof. unfold data_listTables, Sdk.data_listTables. path_call. Qed.
Lemma data_getTable_equiv c t : data_getTable c t ≡ Sdk.data_getTable c t.
Proof. unfold data_getTable, Sdk.data_getTable. path_call. Qed.
Lemma data_listRows_equiv c t ps : data_listRows c t ps ≡ Sdk.data_listRows c t ps.
Proof. unfold data_listRows, Sdk.data_listRows. rewrite query_same. apply bind_equiv. intros q. path_call. Qed.
Lemma data_createRow_equiv c t d : data_createRow c t d ≡ Sdk.data_createRow c t d.
Proof. unfold data_createRow, Sdk.data_createRow. path_call. Qed.
Lemma data_getRow_equiv c t r : data_getRow c t r ≡ Sdk.data_getRow c t r.
Proof. unfold data_getRow, Sdk.data_getRow. path_call. Qed.
Lemma data_updateRow_equiv c t r d : data_updateRow c t r d ≡ Sdk.data_updateRow c t r d.
Proof. unfold data_updateRow, Sdk.data_updateRow. path_call. Qed.
Lemma data_deleteRow_equiv c t r : data_deleteRow c t r ≡ Sdk.data_deleteRow c t r.
Proof. unfold data_deleteRow, Sdk.data_deleteRow. path_call. Qed.
Lemma storage_listObjects_equiv c b prefix : storage_listObjects c b prefix ≡ Sdk.storage_listObjects c b prefix.
Proof. unfold storage_listObjects, Sdk.storage_listObjects. destruct prefix as [p|]; [destruct (nonempty p)|]; path_call. Qed.
Lemma storage_getObject_equiv c b k : storage_getObject c b k ≡ Sdk.storage_getObject c b k.
Proof. unfold storage_getObject, Sdk.storage_getObject. path_call. Qed.
Lemma storage_putObject_equiv c b k body ct : storage_putObject c b k body ct ≡ Sdk.storage_putObject c b k body ct.
Proof. unfold storage_putObject, Sdk.storage_putObject. path_call. Qed.
Lemma storage_deleteObject_equiv c b k : storage_deleteObject c b k ≡ Sdk.storage_deleteObject c b k.
Proof. unfold storage_deleteObject, Sdk.storage_deleteObject. path_call. Qed.
Lemma push_listSubscriptions_equiv c : push_listSubscriptions c ≡ Sdk.push_listSubscriptions c.
Proof. unfold push_listSubscriptions, Sdk.push_listSubscriptions. path_call. Qed.
Lemma push_createNtfySubscription_equiv c topic : push_createNtfySubscription c topic ≡ Sdk.push_createNtfySubscription c topic.
Proof. unfold push_createNtfySubscription, Sdk.push_createNtfySubscription. path_call. Qed.
Lemma push_createWebPushSubscription_equiv c e p a : push_createWebPushSubscription c e p a ≡ Sdk.push_createWebPushSubscription c e p a.
Proof. unfold push_createWebPushSubscription, Sdk.push_createWebPushSubscription. path_call. Qed.
Lemma push_deleteSubscription_equiv c i : push_deleteSubscription c i ≡ Sdk.push_deleteSubscription c i.
Proof. unfold push_deleteSubscription, Sdk.push_deleteSubscription. path_call. Qed.
Lemma push_getVapidPublicKey_equiv c : push_getVapidPublicKey c ≡ Sdk.push_getVapidPublicKey c.
Proof. unfold push_getVapidPublicKey, Sdk.push_getVapidPublicKey. path_call. Qed.
Lemma push_enqueueMessage_equiv c m : push_enqueueMessage c m ≡ Sdk.push_enqueueMessage c m.
Proof. unfold push_enqueueMessage, Sdk.push_enqueueMessage. path_call. Qed.
Lemma functions_invoke_equiv c e i k a : functions_invoke c e i k a ≡ Sdk.functions_invoke c e i k a.
Proof. unfold functions_invoke, Sdk.functions_invoke. path_call. Qed.

Lemma value_proper p q : p ≡ q -> value p ≡ value q.
Proof. intros H. unfold value. by rewrite H. Qed.

Lemma resp_proper p q : p ≡ q -> resp p ≡ resp q.
Proof. intros H. unfold resp. by rewrite H. Qed.

Lemma void_proper p q : p ≡ q -> void p ≡ void q.
Proof. intros H. unfold void. by rewrite H. Qed.

#[export] Hint Resolve request_equiv requestBinary_equiv requestBinaryWithBody_equiv
  auth_register_equiv auth_login_equiv auth_refresh_equiv auth_logout_equiv auth_me_equiv
  data_listTables_equiv data_getTable_equiv data_listRows_equiv data_createRow_equiv
  data_getRow_equiv data_updateRow_equiv data_deleteRow_equiv storage_listObjects_equiv
  storage_getObject_equiv storage_putObject_equiv storage_deleteObject_equiv
  push_listSubscriptions_equiv push_createNtfySubscription_equiv
  push_createWebPushSubscription_equiv push_deleteSubscription_equiv push_getVapidPublicKey_equiv
  push_enqueueMessage_equiv functions_invoke_equiv value_proper resp_proper void_proper : dist.

(** The methods do not look at the sub-clients. *)
Lemma src_method_subclients l c m : src_method (with_subclients l c) m = src_method c m.
Proof. by destruct m. Qed.

Lemma dist_method_equiv c m p : dist_method c m = Some p -> p ≡ src_method c m.
Proof.
  destruct m; cbn [dist_method src_method]; try done; intros [= <-]; by auto with dist.
Qed.

(** The members of the source's API that the build does not have. *)
Definition missing : list (option subclient * string) :=
  [(None, "streamRequest"%string); (Some SubPush, "enqueueBatch"%string);
   (Some SubPush, "getMessageStatus"%string); (Some SubRealtime, "subscribeTable"%string)].

(** C5: The published build: options that the source rejects are rejected with
    the same error; otherwise both construct a client with the same settings
    and token, the build's without the realtime sub-client.  On these clients
    every public method of the source performs, against every server and from
    every state, exactly the same effects with the same outcome in the build,
    except [streamRequest], [push.enqueueBatch], [push.getMessageStatus] and
    [realtime.subscribeTable]: calling one of these on the build's client
    throws a [TypeError] without any effect, while the source's client has
    them. *)
Theorem dist_matches_source options g :
  match Sdk.construct options g with
  | Err e => construct options g = Err e
  | Ok (c, token) =>
      exists c', construct options g = Ok (c', token) /\
        c' = with_subclients (List.filter (fun f => negb (bool_decide (f = SubRealtime))) (subclients c)) c /\
        forall m, src_call c m = src_method c m /\
          if bool_decide (member m ∈ missing) then exists e, is_type_error e /\ dist_call c' m = Throw e
          else dist_call c' m ≡ src_call c m
  end.
Proof.
  rewrite construct_same. destruct (Sdk.construct options g) as [[c token]|e] eqn:E; [|done].
  assert (subclients c = [SubAuth; SubData; SubStorage; SubPush; SubFunctions; SubRealtime]) as Hc.
  { unfold Sdk.construct in E. destruct (negb _); [done|]. apply Ok_inj in E. by simplify_eq. }
  cbn [res_bind fst snd]. set (c' := with_subclients _ c). exists c'. split; [done|].
  split; [by rewrite Hc|]. intros m.
  assert (src_call c m = src_method c m) as Hsrc
    by (unfold src_call, call_member; rewrite Hc; by destruct m).
  split; [done|]. rewrite Hsrc. destruct (bool_decide (member m ∈ missing)) eqn:Em.
  - apply bool_decide_eq_true in Em. unfold dist_call, call_member.
    destruct m; vm_compute in Em; try (by repeat (apply elem_of_cons in Em as [Em|Em]; [done|]); apply not_elem_of_nil in Em).
    all: eexists; split; [|reflexivity]; by eexists.
  - destruct (dist_method c' m) as [p|] eqn:Ep.
    + assert (dist_call c' m = p) as -> by (unfold dist_call, call_member; rewrite Ep; by destruct m).
      rewrite (dist_method_equiv c' m p Ep). unfold c'. by rewrite src_method_subclients.
    + exfalso. by destruct m.
Qed.
End Dist.
