(* ===== verification/SdkTypes.v ===== *)
(** * The SDK's declared types: the interfaces of [sdks/js/src/index.ts]

    TypeScript's interfaces describe what the server is expected to answer;
    nothing checks them when the SDK runs.  Here they are values of [ty], and
    [has_type] is the check the SDK leaves out.  Property names are given with
    whether they are optional. *)

From S2P Require Import Prelude JsString JsNumber JsValue Json Uri Prog Http Sdk SdkSpec SdkDist.
Import Sdk.

Module Ts.

#[warnings="-register-all"]
Inductive ty : Type :=
| TUnknown
| TNull
| TBoolean
| TNumber
| TString
| TJsonValue
| TVoid
| TArray (t : ty)
| TOr (t u : ty)
| TObject (fields : list (jsstring * bool * ty)).

(** [JsonValue] *)
Fixpoint is_json (v : jsval) : bool :=
  match v with
  | JUndefined => false
  | JArr l => forallb is_json l
  | JObj l => forallb (fun kv => is_json kv.2) l
  | _ => true
  end.

Fixpoint has_type (t : ty) (v : jsval) : bool :=
  match t with
  | TUnknown => true
  | TNull => match v with JNull => true | _ => false end
  | TBoolean => match v with JBool _ => true | _ => false end
  | TNumber => match v with JNum _ => true | _ => false end
  | TString => match v with JStr _ => true | _ => false end
  | TJsonValue => is_json v
  | TVoid => match v with JUndefined => true | _ => false end
  | TArray t => match v with JArr l => forallb (has_type t) l | _ => false end
  | TOr t u => has_type t v || has_type u v
  | TObject fields =>
      match v with
      | JObj l =>
          forallb (fun f => match assoc f.1.1 l with
                            | None | Some JUndefined => f.1.2
                            | Some x => has_type f.2 x
                            end) fields
      | _ => false
      end
  end.

(** [name: t] and [name?: t] *)
Definition req (name : string) (t : ty) : jsstring * bool * ty := (js name, false, t).
Definition opt (name : string) (t : ty) : jsstring * bool * ty := (js name, true, t).

(** ** The interfaces *)

Definition PeanutUser : ty :=
  TObject [req "id" TString; req "email" TString; req "is_active" TBoolean; req "is_admin" TBoolean].

Definition PeanutLoginResponse : ty :=
  TObject [req "access_token" TString; req "refresh_token" TString; req "token_type" TString;
           req "expires_at" TString; req "user" PeanutUser].

Definition PeanutObjectSummary : ty :=
  TObject [req "key" TString; req "size" TNumber; opt "content_type" (TOr TString TNull); req "etag" TString;
           req "updated_at" TString].

Definition PeanutPushPayload : ty :=
  TObject [opt "data" TJsonValue; opt "url" TString; opt "icon" TString; opt "badge" TString; opt "priority" TString].

Definition PeanutEnqueuePushResponse_fields : list (jsstring * bool * ty) := [req "id" TNumber; req "status" TString].
Definition PeanutEnqueuePushResponse : ty := TObject PeanutEnqueuePushResponse_fields.

(** [extends PeanutEnqueuePushResponse] *)
Definition PeanutPushMessageStatus : ty :=
  TObject (PeanutEnqueuePushResponse_fields ++
    [req "user_id" TString; req "title" TString; req "body" TString; req "retry_count" TNumber;
     opt "last_error" (TOr TString TNull); req "partial_failure_count" TNumber;
     req "failed_destinations" (TArray (TObject [req "endpoint" TString; req "error" TString]));
     opt "next_retry_at" (TOr TString TNull); req "created_at" TString; opt "processed_at" (TOr TString TNull)]).

Definition PeanutDataRowRealtimeEvent : ty :=
  TObject [req "id" TNumber; req "app_id" TString; req "event" TString; req "table_name" TString;
           req "row_id" TString; opt "owner_user_id" (TOr TString TNull); req "actor_user_id" TString;
           req "action" TString; opt "diff" TJsonValue].

(** The declared result of the methods that resolve to a value. *)
Definition result_type (m : Dist.sdk_call) : option ty :=
  match m with
  | Dist.CRegister _ _ => Some (TObject [req "message" TString; req "user" PeanutUser])
  | Dist.CLogin _ _ | Dist.CRefresh _ => Some PeanutLoginResponse
  | Dist.CAppPath _ => Some TString
  | Dist.CMe => Some (TObject [req "user" PeanutUser])
  | Dist.CListTables => Some (TObject [req "tables" (TArray TUnknown)])
  | Dist.CGetTable _ => Some (TObject [req "table" TUnknown])
  | Dist.CListRows _ _ => Some (TObject [req "rows" (TArray TUnknown)])
  | Dist.CDeleteRow _ _ | Dist.CDeleteObject _ _ | Dist.CDeleteSubscription _ => Some TVoid
  | Dist.CListObjects _ _ => Some (TObject [req "objects" (TArray PeanutObjectSummary)])
  | Dist.CListSubscriptions => Some (TObject [req "subscriptions" (TArray TUnknown)])
  | Dist.CGetVapidPublicKey => Some (TObject [req "public_key" TString])
  | Dist.CEnqueueMessage _ => Some PeanutEnqueuePushResponse
  | Dist.CEnqueueBatch _ => Some (TObject [req "messages" (TArray PeanutEnqueuePushResponse)])
  | Dist.CGetMessageStatus _ => Some PeanutPushMessageStatus
  | Dist.CCreateRow _ _ | Dist.CGetRow _ _ | Dist.CUpdateRow _ _ _ | Dist.CCreateNtfySubscription _
  | Dist.CCreateWebPushSubscription _ _ _ | Dist.CInvoke _ _ _ _ => Some TUnknown
  | _ => None
  end.

(** ** Properties *)

(** A required property of a value of an object type is there. *)
Lemma has_field fields v name t : has_type (TObject fields) v = true -> (name, false, t) ∈ fields ->
  exists x, get v name = Ok x /\ has_type t x = true.
Proof.
  simpl. destruct v as [| | | | | |l]; try done. intros H Hin. apply list_elem_of_In in Hin.
  rewrite forallb_forall in H. specialize (H _ Hin). cbn [fst snd] in H. cbn [get].
  destruct (assoc name l) as [x|]; [|done]. exists x. split; [done|]. by destruct x.
Qed.

Lemma string_value v : has_type TString v = true -> exists s, v = JStr s.
Proof. destruct v; try done. eauto. Qed.

Section Exec.
Context {Σ : Type} (server : Σ -> jsstring -> request_init -> Σ * outcome response).
Abbreviation exec := (exec server).

Lemma exec_value (p : sdk jsval) w w1 v :
  exec (x ← p; Ret (Dist.RValue x)) w = (w1, Ok (Dist.RValue v)) -> exec p w = (w1, Ok v).
Proof.
  unfold SdkSpec.exec. rewrite run_bind. destruct (run _ p w) as [w' [a|e]]; [|done]. simpl. congruence.
Qed.

(** C16: A well-typed login authenticates: when [login] or [refresh] resolves to
    a value of its declared type, the client's token is from then on a string,
    the response's [access_token], and every request the client sends next
    carries exactly [Bearer] and that string, whatever headers its caller
    gives, unless the string is empty. *)
Theorem typed_login_authenticates c m w w1 v method path options w2 o :
  (0 <= maxRetries c)%Z ->
  (exists email password, m = Dist.CLogin email password) \/ (exists t, m = Dist.CRefresh t) ->
  exec (Dist.src_call c m) w = (w1, Ok (Dist.RValue v)) ->
  (forall T, result_type m = Some T -> has_type T v = true) ->
  exec (request c method path options) w1 = (w2, o) ->
  exists t evs, get v (js "access_token") = Ok (JStr t) /\ w_token w2 = JStr t /\ w_log w2 = w_log w1 ++ evs /\
    Forall (fun q => nonempty t = true -> header_is (js "Authorization") (js "Bearer " ++ t) (ri_headers q.2))
      (fetched evs).
Proof.
  intros Hm Hcall Hrun Hty Hreq.
  assert (exists path' b, exec (response ← appRequest c (js "POST") path' b; storeToken response) w = (w1, Ok v))
    as (path' & b & Hlogin).
  { destruct Hcall as [(email & password & ->)|(t & ->)];
      unfold Dist.src_call, Dist.call_member in Hrun; cbn [Dist.member fst default Dist.src_method] in Hrun;
      (destruct (bool_decide _); [|done]); apply exec_value in Hrun; eauto. }
  pose proof (storeToken_exec server c path' b w w1 (Ok v) Hlogin) as Htok. cbn beta iota in Htok.
  assert (has_type PeanutLoginResponse v = true) as Hv.
  { apply Hty. by destruct Hcall as [(email & password & ->)|(t & ->)]. }
  destruct (has_field _ v (js "access_token") TString Hv) as (x & Hx & Hs); [left|].
  destruct (string_value x Hs) as [t ->].
  assert (w_token w1 = JStr t) as Hw1 by congruence.
  destruct (request_logged server c method path options w1 w2 o Hm Hreq) as (evs & Hlog & Ht2 & Hsent).
  exists t, evs. split_and!; [done|congruence|done|]. eapply Forall_impl; [exact Hsent|].
  intros q (_ & _ & [_ Hb] & _) Hne. rewrite Hw1 in Hb. destruct (Hb Hne) as (t' & [= <-] & Hh). exact Hh.
Qed.
End Exec.

End Ts.
