(* ===== verification/Browser.v ===== *)
(** * The browser the console runs in

    The platform the console's code calls: the two storage areas, whether
    there is a window at all, and the network.  [webE] is the signature of
    those operations, [handle] their meaning over an arbitrary server and an
    arbitrary storage quota, with a log of the requests sent. *)

From S2P Require Import Prelude JsString JsNumber JsValue Json Prog Http.

Module Web.

Inductive area : Type := LocalStorage | SessionStorage.

#[global] Instance area_eq_dec : EqDecision area.
Proof. solve_decision. Defined.

Inductive webE : Type -> Type :=
| HasWindow : webE bool
| GetItem (a : area) (key : jsstring) : webE (outcome (option jsstring))
| SetItem (a : area) (key value : jsstring) : webE (outcome unit)
| RemoveItem (a : area) (key : jsstring) : webE (outcome unit)
| Fetch (url : jsstring) (init : request_init) : webE (outcome response).

Abbreviation web := (prog webE).
Abbreviation items := (gmap jsstring jsstring).

Record browser (Σ : Type) : Type := mkBrowser {
  b_window : bool;
  b_local : items;
  b_session : items;
  b_srv : Σ;
  b_sent : list (jsstring * request_init)
}.
Arguments mkBrowser {Σ}.
Arguments b_window {Σ}.
Arguments b_local {Σ}.
Arguments b_session {Σ}.
Arguments b_srv {Σ}.
Arguments b_sent {Σ}.

(** Reading [localStorage] where there is no window. *)
Definition reference_error : thrown :=
  mk_error (js "ReferenceError") (EngineText (js "storage is not defined")).

Definition quota_error : thrown :=
  mk_error (js "QuotaExceededError") (EngineText (js "quota exceeded")).

Section Handler.
Context {Σ : Type} (server : Σ -> jsstring -> request_init -> Σ * outcome response).
(** Whether an area may hold these items. *)
Variable fits : area -> items -> bool.

Definition b_items (b : browser Σ) (a : area) : items :=
  match a with LocalStorage => b_local b | SessionStorage => b_session b end.

Definition set_items (a : area) (m : items) (b : browser Σ) : browser Σ :=
  match a with
  | LocalStorage => mkBrowser (b_window b) m (b_session b) (b_srv b) (b_sent b)
  | SessionStorage => mkBrowser (b_window b) (b_local b) m (b_srv b) (b_sent b)
  end.

Definition handle (X : Type) (op : webE X) : browser Σ -> browser Σ * X :=
  match op in webE X return browser Σ -> browser Σ * X with
  | HasWindow => fun b => (b, b_window b)
  | GetItem a k => fun b =>
      (b, if b_window b then Ok (b_items b a !! k) else Err reference_error)
  | SetItem a k v => fun b =>
      if b_window b then
        let m := <[k := v]> (b_items b a) in
        if fits a m then (set_items a m b, Ok tt) else (b, Err quota_error)
      else (b, Err reference_error)
  | RemoveItem a k => fun b =>
      if b_window b then (set_items a (delete k (b_items b a)) b, Ok tt)
      else (b, Err reference_error)
  | Fetch url init => fun b =>
      let '(σ, o) := server (b_srv b) url init in
      (mkBrowser (b_window b) (b_local b) (b_session b) σ (b_sent b ++ [(url, init)]), o)
  end.

Definition exec {A} (p : web A) (b : browser Σ) : browser Σ * outcome A := run handle p b.

(** ** Lemmas *)

Lemma b_items_set a m b : b_items (set_items a m b) a = m.
Proof. by destruct a. Qed.

Lemma b_items_set_ne a a' m b : a <> a' -> b_items (set_items a m b) a' = b_items b a'.
Proof. by destruct a, a'. Qed.

Lemma b_window_set a m b : b_window (set_items a m b) = b_window b.
Proof. by destruct a. Qed.

Lemma b_srv_set a m b : b_srv (set_items a m b) = b_srv b.
Proof. by destruct a. Qed.

Lemma b_sent_set a m b : b_sent (set_items a m b) = b_sent b.
Proof. by destruct a. Qed.

Lemma handle_window X (op : webE X) b : b_window (handle X op b).1 = b_window b.
Proof.
  destruct op; simpl; try done; repeat split_match; simpl; try rewrite b_window_set; congruence.
Qed.

Lemma exec_window {A} (p : web A) b : b_window (exec p b).1 = b_window b.
Proof.
  unfold exec. apply (run_invariant handle (fun b' => b_window b' = b_window b)); [|done].
  intros X op s <-. apply handle_window.
Qed.
End Handler.

Create Rewrite HintDb web.
#[export] Hint Rewrite @b_items_set @b_window_set @b_srv_set @b_sent_set : web.

End Web.
