(* ===== verification/Tasks.v ===== *)
(** * Concurrent tasks of the console

    The console keeps several requests in flight: queries of the open view,
    mutations, the renewal of the session, sign-in and sign-out.  JavaScript
    runs one of them at a time and switches only where a task waits for the
    network; between two answers a task runs to its next request without being
    interrupted.  A [task] is such an activity; [pick] lets the server handle
    one request or resumes one task, and [step] is the relation of all choices.
    (Reading the body of an arrived response is taken together with its
    arrival: nothing is read from or written to the storage in between.)

    [wp] is a logic for one task among others: at every request the shared
    invariant has to hold, and after the answer nothing but the invariant is
    known of the browser. *)

From S2P Require Import Prelude JsString JsNumber JsValue Json Uri Prog Http Browser.
From stdpp Require Import relations.
Import Web.

Module Tasks.

(** A request operation, with the way back to its answer type. *)
Definition as_fetch {X} (op : webE X) : option (jsstring * request_init * (outcome response -> X)) :=
  match op in webE X return option (jsstring * request_init * (outcome response -> X)) with
  | Fetch url init => Some (url, init, fun o => o)
  | _ => None
  end.

Inductive task (A : Type) : Type :=
| Ready (p : web A)
| Waiting (url : jsstring) (init : request_init) (k : outcome response -> web A)
| Arrived (o : outcome response) (k : outcome response -> web A)
| Finished (o : outcome A).
Arguments Ready {A} p.
Arguments Waiting {A} url init k.
Arguments Arrived {A} o k.
Arguments Finished {A} o.

Section Pool.
Context {Σ : Type} (server : Σ -> jsstring -> request_init -> Σ * outcome response).
Context (fits : area -> items -> bool).

Abbreviation exec := (exec server fits).

(** A request leaves the browser. *)
Definition send (q : jsstring * request_init) (b : browser Σ) : browser Σ :=
  mkBrowser (b_window b) (b_local b) (b_session b) (b_srv b) (b_sent b ++ [q]).

Definition with_srv (σ : Σ) (b : browser Σ) : browser Σ :=
  mkBrowser (b_window b) (b_local b) (b_session b) σ (b_sent b).

(** Run to the next request, or to the end. *)
Fixpoint advance {A} (p : web A) (b : browser Σ) : browser Σ * task A :=
  match p with
  | Ret a => (b, Finished (Ok a))
  | Throw e => (b, Finished (Err e))
  | Op op k =>
      match as_fetch op with
      | Some (url, init, inj) => (send (url, init) b, Waiting url init (fun o => k (inj o)))
      | None => let '(b', x) := handle server fits _ op b in advance (k x) b'
      end
  end.

Definition pool (A : Type) : Type := browser Σ * list (task A).

(** The next event of task [i]. *)
Definition pick {A} (i : nat) (s : pool A) : pool A :=
  let '(b, ts) := s in
  match ts !! i with
  | Some (Ready p) => let '(b', t) := advance p b in (b', <[i := t]> ts)
  | Some (Waiting url init k) =>
      let '(σ, o) := server (b_srv b) url init in (with_srv σ b, <[i := Arrived o k]> ts)
  | Some (Arrived o k) => let '(b', t) := advance (k o) b in (b', <[i := t]> ts)
  | Some (Finished _) | None => s
  end.

(** A schedule names the task of each event. *)
Definition run_schedule {A} (sch : list nat) (s : pool A) : pool A := foldl (fun s i => pick i s) s sch.

(** The step relation: a task starts, a request is handled, an answer arrives. *)
Inductive step {A} : pool A -> pool A -> Prop :=
| step_start b b' ts i p t : ts !! i = Some (Ready p) -> advance p b = (b', t) ->
    step (b, ts) (b', <[i := t]> ts)
| step_serve b ts i url init k σ o : ts !! i = Some (Waiting url init k) ->
    server (b_srv b) url init = (σ, o) -> step (b, ts) (with_srv σ b, <[i := Arrived o k]> ts)
| step_deliver b b' ts i o k t : ts !! i = Some (Arrived o k) -> advance (k o) b = (b', t) ->
    step (b, ts) (b', <[i := t]> ts).

Definition finished {A} (t : task A) : Prop := match t with Finished _ => True | _ => False end.

(** Schedules reach exactly the states the steps reach. *)
Lemma pick_step {A} i (s : pool A) : pick i s = s \/ step s (pick i s).
Proof.
  destruct s as [b ts]. unfold pick. destruct (ts !! i) as [[p|url init k|o k|o]|] eqn:E; auto; right.
  - destruct (advance p b) as [b' t] eqn:Ea. by eapply step_start.
  - destruct (server (b_srv b) url init) as [σ o] eqn:Es. by eapply step_serve.
  - destruct (advance (k o) b) as [b' t] eqn:Ea. by eapply step_deliver.
Qed.

Lemma step_pick {A} (s s' : pool A) : step s s' -> exists i, s' = pick i s.
Proof.
  intros H. destruct H as [b b' ts i p t Hi Ha|b ts i url init k σ o Hi Hs|b b' ts i o k t Hi Ha];
    exists i; unfold pick; rewrite Hi; by rewrite ?Ha, ?Hs.
Qed.

Lemma schedules_reach {A} (s s' : pool A) : rtc step s s' <-> exists sch, s' = run_schedule sch s.
Proof.
  split.
  - intros H. induction H as [s|s1 s2 s3 H _ [sch ->]]; [by exists []|].
    apply step_pick in H as [i ->]. by exists (i :: sch).
  - intros [sch ->]. revert s. induction sch as [|i sch IH]; intros s; [done|]. cbn [run_schedule foldl].
    destruct (pick_step i s) as [H|H]; [rewrite H; apply IH|]. eapply rtc_l; [exact H|apply IH].
Qed.

(** ** Running to the next request *)

Definition then_task {A B} (f : A -> web B) (s : browser Σ * task A) : browser Σ * task B :=
  match s with
  | (b, Finished (Ok a)) => advance (f a) b
  | (b, Finished (Err e)) => (b, Finished (Err e))
  | (b, Waiting url init k) => (b, Waiting url init (fun o => k o ≫= f))
  | (b, Arrived o k) => (b, Arrived o (fun o => k o ≫= f))
  | (b, Ready p) => (b, Ready (p ≫= f))
  end.

Lemma advance_bind {A B} (p : web A) (f : A -> web B) b : advance (p ≫= f) b = then_task f (advance p b).
Proof.
  revert b. induction p as [a|e|X op k IH]; intros b; [done..|]. simpl.
  destruct (as_fetch op) as [[[url init] inj]|]; [done|].
  destruct (handle server fits X op b) as [b' x]. apply IH.
Qed.

Definition catch_task {A} (g : thrown -> web A) (s : browser Σ * task A) : browser Σ * task A :=
  match s with
  | (b, Finished (Ok a)) => (b, Finished (Ok a))
  | (b, Finished (Err e)) => advance (g e) b
  | (b, Waiting url init k) => (b, Waiting url init (fun o => catch (k o) g))
  | (b, Arrived o k) => (b, Arrived o (fun o => catch (k o) g))
  | (b, Ready p) => (b, Ready (catch p g))
  end.

Lemma advance_catch {A} (p : web A) (g : thrown -> web A) b : advance (catch p g) b = catch_task g (advance p b).
Proof.
  revert b. induction p as [a|e|X op k IH]; intros b; [done..|]. simpl.
  destruct (as_fetch op) as [[[url init] inj]|]; [done|].
  destruct (handle server fits X op b) as [b' x]. apply IH.
Qed.

Lemma advance_lift {A} (x : outcome A) b : advance (lift x) b = (b, Finished x).
Proof. by destruct x. Qed.

(** Programs that send nothing. *)
Fixpoint no_fetch {A} (p : web A) : Prop :=
  match p with
  | Ret _ | Throw _ => True
  | Op op k => as_fetch op = None /\ forall x, no_fetch (k x)
  end.

Lemma no_fetch_bind {A B} (p : web A) (f : A -> web B) :
  no_fetch p -> (forall a, no_fetch (f a)) -> no_fetch (p ≫= f).
Proof.
  intros Hp Hf. induction p as [a|e|X op k IH]; [apply Hf|done|]. destruct Hp as [Ho Hk].
  split; [done|]. intros x. by apply IH.
Qed.

Lemma no_fetch_catch {A} (p : web A) (g : thrown -> web A) :
  no_fetch p -> (forall e, no_fetch (g e)) -> no_fetch (catch p g).
Proof.
  intros Hp Hg. induction p as [a|e|X op k IH]; [done|apply Hg|]. destruct Hp as [Ho Hk].
  split; [done|]. intros x. by apply IH.
Qed.

Lemma no_fetch_lift {A} (x : outcome A) : no_fetch (lift x).
Proof. by destruct x. Qed.

(** They run to the end, as they do alone. *)
Lemma advance_no_fetch {A} (p : web A) b : no_fetch p ->
  advance p b = ((exec p b).1, Finished (exec p b).2).
Proof.
  revert b. induction p as [a|e|X op k IH]; intros b Hp; [done..|]. destruct Hp as [Ho Hk].
  simpl. rewrite Ho. unfold Web.exec. simpl. destruct (handle server fits X op b) as [b' x]. by apply IH.
Qed.

(** ** One task at a time: schedules contain the sequential runs *)

Lemma pick_lookup {A} i (b : browser Σ) (ts : list (task A)) t : ts !! i = Some t ->
  pick i (b, ts) =
  match t with
  | Ready p => let '(b', t') := advance p b in (b', <[i := t']> ts)
  | Waiting url init k => let '(σ, o) := server (b_srv b) url init in (with_srv σ b, <[i := Arrived o k]> ts)
  | Arrived o k => let '(b', t') := advance (k o) b in (b', <[i := t']> ts)
  | Finished _ => (b, ts)
  end.
Proof. intros H. unfold pick. rewrite H. by destruct t. Qed.

Lemma lookup_set {A} (ts : list (task A)) i t t' : ts !! i = Some t -> <[i := t']> ts !! i = Some t'.
Proof. intros H. apply list_lookup_insert_eq. by eapply lookup_lt_Some. Qed.

(** The rest of a task that has advanced to [t], run alone. *)
Lemma alone_from {A} (p : web A) i b ts : i < length ts ->
  exists n, let '(b1, t1) := advance p b in
    run_schedule (replicate n i) (b1, <[i := t1]> ts) =
    ((exec p b).1, <[i := Finished (exec p b).2]> ts).
Proof.
  intros Hi. revert b. induction p as [a|e|X op k IH]; intros b; [by exists 0..|].
  destruct (as_fetch op) eqn:Eo.
  2: { simpl. rewrite Eo. unfold Web.exec. simpl. destruct (handle server fits X op b) as [b' x]. apply IH. }
  destruct op as [| | | |url init]; try done. clear Eo. simpl.
  destruct (server (b_srv b) url init) as [σ o] eqn:Es.
  set (b2 := mkBrowser (b_window b) (b_local b) (b_session b) σ (b_sent b ++ [(url, init)])).
  destruct (IH o b2) as [n Hn]. exists (S (S n)). cbn [replicate run_schedule foldl].
  assert (<[i := Waiting url init (fun o => k o)]> ts !! i = Some (Waiting url init (fun o => k o))) as E1
    by (by apply list_lookup_insert_eq).
  rewrite (pick_lookup _ _ _ _ E1). cbn [send b_srv]. rewrite Es, list_insert_insert_eq.
  assert (<[i := Arrived o (fun o => k o)]> ts !! i = Some (Arrived o (fun o => k o))) as E2
    by (by apply list_lookup_insert_eq).
  rewrite (pick_lookup _ _ _ _ E2). change (with_srv _ _) with b2. cbv beta.
  destruct (advance (k o) b2) as [b' t']. rewrite list_insert_insert_eq.
  exact Hn.
Qed.

Lemma alone {A} (p : web A) i b ts : ts !! i = Some (Ready p) ->
  exists n, run_schedule (replicate n i) (b, ts) = ((exec p b).1, <[i := Finished (exec p b).2]> ts).
Proof.
  intros Hi. destruct (alone_from p i b ts) as [n Hn]; [by eapply lookup_lt_Some|].
  exists (S n). cbn [replicate run_schedule foldl]. rewrite (pick_lookup _ _ _ _ Hi).
  by destruct (advance p b) as [b1 t1].
Qed.

(** The programs one after the other. *)
Fixpoint serial {A} (ps : list (web A)) (b : browser Σ) : browser Σ * list (outcome A) :=
  match ps with
  | [] => (b, [])
  | p :: ps' =>
      let '(b1, o) := exec p b in
      let '(b2, os) := serial ps' b1 in (b2, o :: os)
  end.

Lemma run_schedule_app {A} s1 s2 (s : pool A) : run_schedule (s1 ++ s2) s = run_schedule s2 (run_schedule s1 s).
Proof. apply foldl_app. Qed.

Lemma serial_from {A} (ps : list (web A)) b (done : list (task A)) :
  exists sch, run_schedule sch (b, done ++ map Ready ps) =
    ((serial ps b).1, done ++ map Finished (serial ps b).2).
Proof.
  revert b done. induction ps as [|p ps IH]; intros b done; [by exists []|].
  destruct (alone p (length done) b (done ++ map Ready (p :: ps))) as [n Hn].
  { by rewrite lookup_app_r, Nat.sub_diag by lia. }
  rewrite insert_app_r_alt, Nat.sub_diag in Hn by lia. cbn [map] in Hn.
  change (<[0 := ?x]> (?y :: ?l)) with (x :: l) in Hn.
  destruct (IH (exec p b).1 (done ++ [Finished (exec p b).2])) as [sch Hs].
  exists (replicate n (length done) ++ sch). rewrite run_schedule_app. cbn [map].
  rewrite Hn. rewrite <- app_assoc in Hs. cbn [Datatypes.app] in Hs. rewrite Hs. simpl.
  destruct (exec p b) as [b1 o]. cbn [fst snd]. destruct (serial ps b1) as [b2 os]. cbn [fst snd map].
  by rewrite <- app_assoc.
Qed.

(** ** The logic of one task among others *)

(** The interface between the scheduler and the components: an invariant of
    the shared browser is one that sending a request and the server's own
    steps cannot break. *)
Class SharedInvariant (I : browser Σ -> Prop) : Prop := {
  inv_send : forall q b, I b -> I (send q b);
  inv_srv : forall σ b, I b -> I (with_srv σ b)
}.

(** What concerns the window and the storage areas only. *)
#[global] Instance storage_invariant (P : bool -> items -> items -> Prop) :
  SharedInvariant (fun b => P (b_window b) (b_local b) (b_session b)).
Proof. by split. Qed.

#[global] Instance invariant_and (I J : browser Σ -> Prop) :
  SharedInvariant I -> SharedInvariant J -> SharedInvariant (fun b => I b /\ J b).
Proof. intros [? ?] [? ?]. split; intros x b [? ?]; auto. Qed.

Section Logic.
Context (I : browser Σ -> Prop).

Fixpoint wp {A} (p : web A) (Q : outcome A -> browser Σ -> Prop) (b : browser Σ) : Prop :=
  match p with
  | Ret a => Q (Ok a) b
  | Throw e => Q (Err e) b
  | Op op k =>
      match as_fetch op with
      | Some (url, init, inj) => I (send (url, init) b) /\ forall o b', I b' -> wp (k (inj o)) Q b'
      | None => let '(b', x) := handle server fits _ op b in wp (k x) Q b'
      end
  end.

Lemma wp_mono {A} (p : web A) (Q R : outcome A -> browser Σ -> Prop) b :
  (forall o b', Q o b' -> R o b') -> wp p Q b -> wp p R b.
Proof.
  intros H. revert b. induction p as [a|e|X op k IH]; intros b; simpl; auto.
  destruct (as_fetch op) as [[[url init] inj]|].
  - intros [HI Hk]. split; [done|]. intros o b' Hb. by apply IH, Hk.
  - destruct (handle server fits X op b) as [b' x]. apply IH.
Qed.

Lemma wp_bind {A B} (p : web A) (f : A -> web B) Q b :
  wp (p ≫= f) Q b <-> wp p (fun o b' => match o with Ok a => wp (f a) Q b' | Err e => Q (Err e) b' end) b.
Proof.
  revert b. induction p as [a|e|X op k IH]; intros b; simpl; [done..|].
  destruct (as_fetch op) as [[[url init] inj]|].
  - split; intros [HI Hk]; (split; [done|]); intros o b' Hb; by apply IH, Hk.
  - destruct (handle server fits X op b) as [b' x]. apply IH.
Qed.

Lemma wp_catch {A} (p : web A) (g : thrown -> web A) Q b :
  wp (catch p g) Q b <-> wp p (fun o b' => match o with Ok a => Q (Ok a) b' | Err e => wp (g e) Q b' end) b.
Proof.
  revert b. induction p as [a|e|X op k IH]; intros b; simpl; [done..|].
  destruct (as_fetch op) as [[[url init] inj]|].
  - split; intros [HI Hk]; (split; [done|]); intros o b' Hb; by apply IH, Hk.
  - destruct (handle server fits X op b) as [b' x]. apply IH.
Qed.

Lemma wp_no_fetch {A} (p : web A) Q b : no_fetch p -> Q (exec p b).2 (exec p b).1 -> wp p Q b.
Proof.
  revert b. induction p as [a|e|X op k IH]; intros b; [done..|]. intros [Ho Hk]. simpl. rewrite Ho.
  unfold Web.exec. simpl. destruct (handle server fits X op b) as [b' x]. by apply IH.
Qed.

Lemma wp_lift {A} (x : outcome A) Q b : Q x b -> wp (lift x) Q b.
Proof. by destruct x. Qed.

(** A task whose every stretch keeps the invariant. *)
Definition keeps {A} (p : web A) : Prop := forall b, I b -> wp p (fun _ b' => I b') b.

Definition task_ok {A} (t : task A) : Prop :=
  match t with
  | Ready p => keeps p
  | Waiting _ _ k => forall o, keeps (k o)
  | Arrived o k => keeps (k o)
  | Finished _ => True
  end.

Lemma advance_ok {A} (p : web A) b : wp p (fun _ b' => I b') b ->
  I (advance p b).1 /\ task_ok (advance p b).2.
Proof.
  revert b. induction p as [a|e|X op k IH]; intros b; simpl; [done..|].
  destruct (as_fetch op) as [[[url init] inj]|].
  - intros [HI Hk]. split; [done|]. intros o b' Hb. by apply Hk.
  - destruct (handle server fits X op b) as [b' x]. apply IH.
Qed.

Lemma keeps_bind {A B} (p : web A) (f : A -> web B) :
  keeps p -> (forall a, keeps (f a)) -> keeps (p ≫= f).
Proof.
  intros Hp Hf b Hb. apply wp_bind. eapply wp_mono; [|by apply Hp].
  intros [a|e] b' H'; [by apply Hf|done].
Qed.

Lemma keeps_catch {A} (p : web A) (g : thrown -> web A) :
  keeps p -> (forall e, keeps (g e)) -> keeps (catch p g).
Proof.
  intros Hp Hg b Hb. apply wp_catch. eapply wp_mono; [|by apply Hp].
  intros [a|e] b' H'; [done|by apply Hg].
Qed.

Lemma keeps_lift {A} (x : outcome A) : keeps (lift x).
Proof. intros b Hb. by apply wp_lift. Qed.

Lemma keeps_ret {A} (a : A) : keeps (Ret a).
Proof. by intros b Hb. Qed.

Lemma keeps_throw {A} (e : thrown) : keeps (@Throw webE A e).
Proof. by intros b Hb. Qed.

Lemma keeps_no_fetch {A} (p : web A) : no_fetch p -> (forall b, I b -> I (exec p b).1) -> keeps p.
Proof. intros Hn HI b Hb. apply wp_no_fetch; auto. Qed.

Context `{!SharedInvariant I}.

Lemma keeps_fetch url init : keeps (await (Fetch url init)).
Proof. intros b Hb. simpl. split; [by apply inv_send|]. intros o b' H'. by apply wp_lift. Qed.

Lemma task_step_ok {A} (s s' : pool A) : step s s' ->
  I s.1 -> Forall task_ok s.2 -> I s'.1 /\ Forall task_ok s'.2.
Proof.
  intros H HI Hts.
  destruct H as [b b' ts i p t Hi Ha|b ts i url init k σ o Hi Hs|b b' ts i o k t Hi Ha]; cbn [fst snd] in *;
    pose proof (Forall_lookup_1 _ _ _ _ Hts Hi) as Ht.
  - destruct (advance_ok p b) as [H1 H2]; [by apply Ht|]. rewrite Ha in *.
    split; [done|]. by apply Forall_insert.
  - split; [by apply inv_srv|]. apply Forall_insert; [done|]. apply Ht.
  - destruct (advance_ok (k o) b) as [H1 H2]; [by apply Ht|]. rewrite Ha in *.
    split; [done|]. by apply Forall_insert.
Qed.

Lemma reachable_ok {A} (s s' : pool A) : rtc step s s' ->
  I s.1 -> Forall task_ok s.2 -> I s'.1 /\ Forall task_ok s'.2.
Proof.
  induction 1 as [s|s1 s2 s3 H _ IH]; [done|]. intros HI Hts.
  destruct (task_step_ok s1 s2 H HI Hts). by apply IH.
Qed.
End Logic.

(** ** Counting requests *)

(** The program sends at most [n] requests, whatever is answered. *)
Fixpoint fetches_le {A} (n : nat) (p : web A) : Prop :=
  match p with
  | Ret _ | Throw _ => True
  | Op op k =>
      match as_fetch op with
      | Some (_, _, inj) => match n with O => False | S n' => forall o, fetches_le n' (k (inj o)) end
      | None => forall x, fetches_le n (k x)
      end
  end.

Lemma fetches_mono {A} (p : web A) n m : n <= m -> fetches_le n p -> fetches_le m p.
Proof.
  revert n m. induction p as [a|e|X op k IH]; intros n m Hnm; [done..|]. simpl.
  destruct (as_fetch op) as [[[url init] inj]|].
  - destruct n as [|n]; [done|]. destruct m as [|m]; [lia|]. intros H o. apply (IH _ n m); [lia|apply H].
  - intros H x. by apply (IH x n m).
Qed.

Lemma fetches_bind {A B} (p : web A) (f : A -> web B) n m :
  fetches_le n p -> (forall a, fetches_le m (f a)) -> fetches_le (n + m) (p ≫= f).
Proof.
  intros Hp Hf. revert n Hp. induction p as [a|e|X op k IH]; intros n Hp; [|done|].
  - apply (fetches_mono _ m); [lia|apply Hf].
  - simpl in *. destruct (as_fetch op) as [[[url init] inj]|].
    + destruct n as [|n]; [done|]. intros o. by apply IH.
    + intros x. by apply IH.
Qed.

Lemma fetches_catch {A} (p : web A) (g : thrown -> web A) n m :
  fetches_le n p -> (forall e, fetches_le m (g e)) -> fetches_le (n + m) (catch p g).
Proof.
  intros Hp Hg. revert n Hp. induction p as [a|e|X op k IH]; intros n Hp; [done| |].
  - apply (fetches_mono _ m); [lia|apply Hg].
  - simpl in *. destruct (as_fetch op) as [[[url init] inj]|].
    + destruct n as [|n]; [done|]. intros o. by apply IH.
    + intros x. by apply IH.
Qed.

Lemma fetches_none {A} (p : web A) n : no_fetch p -> fetches_le n p.
Proof.
  induction p as [a|e|X op k IH]; [done..|]. intros [Ho Hk]. simpl. rewrite Ho. intros x. by apply IH.
Qed.

(** The requests a task may still send, and the events it still needs. *)
Definition credit {A} (t : task A) (m : nat) : Prop :=
  match t with
  | Ready p => fetches_le m p
  | Waiting _ _ k => forall o, fetches_le m (k o)
  | Arrived o k => fetches_le m (k o)
  | Finished _ => True
  end.

Definition work {A} (t : task A) (m : nat) : nat :=
  match t with
  | Ready _ | Arrived _ _ => S (2 * m)
  | Waiting _ _ _ => S (S (2 * m))
  | Finished _ => 0
  end.

Lemma handle_sent X (op : webE X) b : as_fetch op = None -> b_sent (handle server fits X op b).1 = b_sent b.
Proof. destruct op; intros H; try done; simpl; repeat case_match; try done; apply b_sent_set. Qed.

Lemma advance_credit {A} (p : web A) b m : fetches_le m p ->
  exists m', credit (advance p b).2 m' /\ work (advance p b).2 m' <= 2 * m /\
    length (b_sent (advance p b).1) + m' <= length (b_sent b) + m.
Proof.
  revert b m. induction p as [a|e|X op k IH]; intros b m Hp.
  1-2: exists m; simpl; split_and!; [done|lia|done].
  simpl in *. destruct (as_fetch op) as [[[url init] inj]|] eqn:Eo.
  - destruct m as [|m]; [done|]. exists m. simpl. rewrite length_app. simpl. split_and!; [done|lia..].
  - pose proof (handle_sent X op b Eo) as Hs. destruct (handle server fits X op b) as [b' x]. cbn [fst] in Hs.
    rewrite <- Hs. by apply IH.
Qed.

Lemma pick_credit {A} i b (ts : list (task A)) t m : ts !! i = Some t -> credit t m ->
  exists b' t' m', pick i (b, ts) = (b', <[i := t']> ts) /\ credit t' m' /\ work t' m' <= pred (work t m) /\
    length (b_sent b') + m' <= length (b_sent b) + m.
Proof.
  intros Hi Hc. rewrite (pick_lookup _ _ _ _ Hi). destruct t as [p|url init k|o k|o].
  - destruct (advance_credit p b m Hc) as (m' & H1 & H2 & H3).
    destruct (advance p b) as [b' t']. exists b', t', m'. split_and!; try done.
  - destruct (server (b_srv b) url init) as [σ o]. exists (with_srv σ b), (Arrived o k), m.
    split_and!; try done. apply Hc.
  - destruct (advance_credit (k o) b m Hc) as (m' & H1 & H2 & H3).
    destruct (advance (k o) b) as [b' t']. exists b', t', m'. split_and!; try done.
  - exists b, (Finished o), m. split_and!; try done. by rewrite list_insert_id.
Qed.

Lemma sum_list_insert' ms i m m' : ms !! i = Some m -> sum_list (<[i := m']> ms) + m = sum_list ms + m'.
Proof.
  revert i. induction ms as [|x ms IH]; intros [|i] H; simplify_eq/=; [lia|]. apply IH in H. lia.
Qed.

(** Every schedule with enough events for every task finishes them all. *)
Lemma finishes {A} sch b (ts : list (task A)) ms : Forall2 credit ts ms ->
  (forall i t m, ts !! i = Some t -> ms !! i = Some m -> work t m <= count_occ Nat.eq_dec sch i) ->
  Forall finished (run_schedule sch (b, ts)).2 /\
  length (b_sent (run_schedule sch (b, ts)).1) <= length (b_sent b) + sum_list ms.
Proof.
  revert b ts ms. induction sch as [|i sch IH]; intros b ts ms Hc Hw.
  - split; [|simpl; lia]. apply Forall_lookup. intros i t Hi.
    destruct (Forall2_lookup_l _ _ _ _ _ Hc Hi) as (m & Hm & _). specialize (Hw i t m Hi Hm).
    destruct t; simpl in *; [lia..|done].
  - cbn [run_schedule foldl]. destruct (ts !! i) as [t|] eqn:Hi.
    + destruct (Forall2_lookup_l _ _ _ _ _ Hc Hi) as (m & Hm & Ht).
      destruct (pick_credit i b ts t m Hi Ht) as (b' & t' & m' & -> & Hc' & Hw' & Hs).
      destruct (IH b' (<[i := t']> ts) (<[i := m']> ms)) as [H1 H2].
      * by apply Forall2_insert.
      * intros j tj mj Hj Hmj. destruct (decide (j = i)) as [->|Hne].
        -- rewrite list_lookup_insert_eq in Hj by (by eapply lookup_lt_Some).
           rewrite list_lookup_insert_eq in Hmj by (by eapply lookup_lt_Some). simplify_eq.
           specialize (Hw i t m Hi Hm). rewrite count_occ_cons_eq in Hw by done. lia.
        -- rewrite list_lookup_insert_ne in Hj by done. rewrite list_lookup_insert_ne in Hmj by done.
           specialize (Hw j tj mj Hj Hmj).
           rewrite count_occ_cons_neq in Hw by done. lia.
      * split; [done|]. pose proof (sum_list_insert' ms i m m' Hm). unfold run_schedule in H2. lia.
    + unfold pick at 2 4. rewrite Hi. apply IH; [done|]. intros j tj mj Hj Hmj.
      specialize (Hw j tj mj Hj Hmj). rewrite count_occ_cons_neq in Hw by congruence. done.
Qed.

End Pool.

#[export] Hint Resolve fetches_none : peanut.
#[export] Hint Resolve no_fetch_bind no_fetch_catch no_fetch_lift : peanut.
#[export] Hint Resolve keeps_bind keeps_catch keeps_lift keeps_ret keeps_throw : peanut.

End Tasks.
