(* ===== verification/Session.v ===== *)
(** * The console's stored session: [console/src/lib/api/session.ts]

    The access token, the refresh token and the user record of the signed-in
    administrator, kept in [localStorage] ("remember me") or in
    [sessionStorage].  A login response is whatever JSON the server sent, so
    the operations take a [jsval] and coerce as [setItem] does. *)

From S2P Require Import Prelude JsString JsNumber JsValue Json Prog Http Browser.
Import Web.

Module Session.

Definition accessKey : jsstring := js "peanut.accessToken".
Definition refreshKey : jsstring := js "peanut.refreshToken".
Definition userKey : jsstring := js "peanut.user".
Definition session_keys : list jsstring := [accessKey; refreshKey; userKey].

(** [storage.setItem(key, value)] converts the value to a string. *)
Definition set_item (a : area) (key : jsstring) (value : jsval) : web unit :=
  s ← lift (to_string value);
  await (SetItem a key s).

(** [JSON.stringify(v)] as a value: [undefined] when there is no text. *)
Definition stringify_val (v : jsval) : jsval :=
  match json_stringify v with Some s => JStr s | None => JUndefined end.

(** [Boolean(s)] of what [getItem] returns, [null] being [None]. *)
Definition truthy_item (o : option jsstring) : bool :=
  match o with Some s => nonempty s | None => false end.

Definition storeSession (session : jsval) (remember : option bool) : web unit :=
  shouldRemember ←
    (match remember with
     | Some r => Ret r
     | None => t ← await (GetItem LocalStorage refreshKey); Ret (truthy_item t)
     end : web bool);
  let storage := if shouldRemember : bool then LocalStorage else SessionStorage in
  let otherStorage := if shouldRemember then SessionStorage else LocalStorage in
  _ ← await (RemoveItem otherStorage accessKey);
  _ ← await (RemoveItem otherStorage refreshKey);
  _ ← await (RemoveItem otherStorage userKey);
  access_token ← lift (get session (js "access_token"));
  _ ← set_item storage accessKey access_token;
  refresh_token ← lift (get session (js "refresh_token"));
  _ ← set_item storage refreshKey refresh_token;
  user ← lift (get session (js "user"));
  set_item storage userKey (stringify_val user).

Definition clearSession : web unit :=
  _ ← await (RemoveItem SessionStorage accessKey);
  _ ← await (RemoveItem SessionStorage refreshKey);
  _ ← await (RemoveItem SessionStorage userKey);
  _ ← await (RemoveItem LocalStorage accessKey);
  _ ← await (RemoveItem LocalStorage refreshKey);
  await (RemoveItem LocalStorage userKey).

(** [sessionStorage.getItem(key) ?? localStorage.getItem(key)] *)
Definition read_item (key : jsstring) : web (option jsstring) :=
  s ← await (GetItem SessionStorage key);
  match s with
  | Some v => Ret (Some v)
  | None => await (GetItem LocalStorage key)
  end.

Definition storedUser : web jsval :=
  w ← trigger HasWindow;
  if negb w then Ret JNull
  else
    raw ← read_item userKey;
    match raw with
    | None => Ret JNull
    | Some s => if nonempty s then catch (lift (json_parse s)) (fun _ => Ret JNull) else Ret JNull
    end.

Definition readAccessToken : web (option jsstring) :=
  w ← trigger HasWindow;
  if negb w then Ret None else read_item accessKey.

Definition readRefreshToken : web (option jsstring) :=
  w ← trigger HasWindow;
  if negb w then Ret None else read_item refreshKey.

(** ** Specification *)
Section Spec.
Context {Σ : Type} (server : Σ -> jsstring -> request_init -> Σ * outcome response).
Context (fits : area -> items -> bool).

Abbreviation exec := (exec server fits).

(** The stored value of a key, as the readers see it. *)
Definition stored (b : browser Σ) (k : jsstring) : option jsstring :=
  match b_session b !! k with Some v => Some v | None => b_local b !! k end.

(** No session item in an area. *)
Definition no_session (m : items) : Prop := forall k, k ∈ session_keys -> m !! k = None.

Definition other (a : area) : area :=
  match a with LocalStorage => SessionStorage | SessionStorage => LocalStorage end.

(** The invariant: at most one area holds session items. *)
Definition one_area (b : browser Σ) : Prop := no_session (b_local b) \/ no_session (b_session b).

(** The area [storeSession] writes. *)
Definition target (b : browser Σ) (remember : option bool) : area :=
  if default (truthy_item (b_local b !! refreshKey)) remember then LocalStorage else SessionStorage.

(** Remove the session items of an area. *)
Definition wipe (m : items) : items := delete userKey (delete refreshKey (delete accessKey m)).

Lemma wipe_no_session m : no_session (wipe m).
Proof.
  intros k Hk. unfold wipe, session_keys in *. rewrite !elem_of_cons in Hk.
  destruct Hk as [->|[->|[->|Hk]]]; [..|by apply not_elem_of_nil in Hk];
    repeat (rewrite lookup_delete_eq || rewrite lookup_delete_ne by done); done.
Qed.

Lemma wipe_other m k : k ∉ session_keys -> wipe m !! k = m !! k.
Proof.
  unfold session_keys. rewrite !not_elem_of_cons. intros (H1 & H2 & H3 & _). unfold wipe.
  by rewrite !lookup_delete_ne by congruence.
Qed.

Lemma exec_await_remove {A} a k (p : web A) b : b_window b = true ->
  exec (_ ← await (RemoveItem a k); p) b = exec p (set_items a (delete k (b_items b a)) b).
Proof. intros Hw. unfold Web.exec. simpl. by rewrite Hw. Qed.

Lemma exec_set_item {A} a k v (p : web A) b : b_window b = true ->
  exec (_ ← set_item a k v; p) b =
  match to_string v with
  | Err e => (b, Err e)
  | Ok s => let m := <[k := s]> (b_items b a) in
            if fits a m then exec p (set_items a m b) else (b, Err quota_error)
  end.
Proof.
  intros Hw. unfold Web.exec, set_item. rewrite run_bind, run_bind, run_lift.
  destruct (to_string v) as [s|e]; [|done]. simpl. rewrite Hw. by destruct (fits a _).
Qed.

(** The three writes, from a state whose other area is wiped. *)
Definition store_items (a : area) (session : jsval) : web unit :=
  access_token ← lift (get session (js "access_token"));
  _ ← set_item a accessKey access_token;
  refresh_token ← lift (get session (js "refresh_token"));
  _ ← set_item a refreshKey refresh_token;
  user ← lift (get session (js "user"));
  set_item a userKey (stringify_val user).

Lemma storeSession_exec session remember b : b_window b = true ->
  let a := target b remember in
  exec (storeSession session remember) b =
  exec (store_items a session) (set_items (other a) (wipe (b_items b (other a))) b).
Proof.
  intros Hw. unfold storeSession, store_items, target, wipe.
  destruct remember as [r|]; [destruct r|]; unfold Web.exec; simpl; rewrite ?Hw; simpl; rewrite ?Hw; simpl;
    try done.
  destruct (truthy_item _); simpl; rewrite Hw; done.
Qed.

(** What a state looks like after writing to area [a] only session items. *)
Definition writes_to (a : area) (b b' : browser Σ) : Prop :=
  b_items b' (other a) = b_items b (other a) /\ b_srv b' = b_srv b /\ b_sent b' = b_sent b /\
  b_window b' = b_window b /\ (forall k, k ∉ session_keys -> b_items b' a !! k = b_items b a !! k).

Lemma writes_to_refl a b : writes_to a b b.
Proof. by split_and!. Qed.

Lemma writes_to_insert a b b' k v : writes_to a b b' -> k ∈ session_keys ->
  writes_to a b (set_items a (<[k := v]> (b_items b' a)) b').
Proof.
  intros (Ho & Hs & Hl & Hw & Hk) Hin. unfold writes_to.
  rewrite b_items_set_ne by (by destruct a). autorewrite with web.
  split_and!; try done. intros k' Hk'. rewrite lookup_insert_ne; [by apply Hk|]. congruence.
Qed.

Lemma in_keys_access : accessKey ∈ session_keys.
Proof. left. Qed.
Lemma in_keys_refresh : refreshKey ∈ session_keys.
Proof. right; left. Qed.
Lemma in_keys_user : userKey ∈ session_keys.
Proof. right; right; left. Qed.

Lemma set_item_writes {A} a k v (p : web A) b0 b (Q : browser Σ -> Prop) :
  b_window b0 = true -> k ∈ session_keys -> writes_to a b0 b ->
  Q b -> (forall b', writes_to a b0 b' -> Q (exec p b').1) ->
  Q (exec (_ ← set_item a k v; p) b).1.
Proof.
  intros Hw Hk Hb HQ Hp. rewrite exec_set_item by (destruct Hb as (_ & _ & _ & -> & _); done).
  destruct (to_string v) as [s|e]; [|done]. cbv zeta.
  destruct (fits a _); [|done]. by apply Hp, writes_to_insert.
Qed.

Lemma store_items_writes a session b : b_window b = true ->
  writes_to a b (exec (store_items a session) b).1.
Proof.
  intros Hw. unfold store_items.
  assert (forall (x : outcome jsval) (f : jsval -> web unit) b', writes_to a b b' ->
    (forall v, writes_to a b (exec (f v) b').1) -> writes_to a b (exec (v ← lift x; f v) b').1) as Hl.
  { intros x f b' Hb Hf. unfold Web.exec. rewrite run_bind, run_lift. destruct x; [apply Hf|done]. }
  apply Hl; [apply writes_to_refl|]. intros v1.
  apply (set_item_writes a _ _ _ b); auto using in_keys_access, writes_to_refl.
  intros b1 H1. apply Hl; [done|]. intros v2.
  apply (set_item_writes a _ _ _ b); auto using in_keys_refresh.
  intros b2 H2. apply Hl; [done|]. intros v3.
  unfold Web.exec, set_item. rewrite run_bind, run_lift.
  destruct (to_string (stringify_val v3)) as [s|e]; [|done]. simpl.
  destruct H2 as (? & ? & ? & Hw2 & ?). rewrite Hw2, Hw.
  destruct (fits a _); [|done]. apply writes_to_insert; [done|]. apply in_keys_user.
Qed.

Lemma storeSession_areas session remember b : b_window b = true ->
  let b' := (exec (storeSession session remember) b).1 in
  let a := target b remember in
  no_session (b_items b' (other a)) /\ one_area b' /\ b_sent b' = b_sent b /\
  (forall a' k, k ∉ session_keys -> b_items b' a' !! k = b_items b a' !! k).
Proof.
  intros Hw b' a. unfold b'. rewrite storeSession_exec by done. fold a.
  set (b1 := set_items (other a) (wipe (b_items b (other a))) b).
  assert (b_window b1 = true) as Hw1 by (unfold b1; by rewrite b_window_set).
  destruct (store_items_writes a session b1 Hw1) as (Ho & _ & Hl & _ & Hk).
  assert (b_items b1 (other a) = wipe (b_items b (other a))) as E1 by apply b_items_set.
  assert (b_items b1 a = b_items b a) as E2 by (apply b_items_set_ne; by destruct a).
  assert (no_session (b_items (exec (store_items a session) b1).1 (other a))) as Hns.
  { rewrite Ho, E1. apply wipe_no_session. }
  split_and!; [done| | |].
  - unfold one_area. destruct a; [right|left]; exact Hns.
  - rewrite Hl. unfold b1. by rewrite b_sent_set.
  - intros a' k Hin. destruct (decide (a' = a)) as [->|Hne].
    + by rewrite Hk, E2.
    + assert (a' = other a) as -> by (destruct a, a'; done).
      rewrite Ho, E1. by apply wipe_other.
Qed.

(** C10: At most one area holds a session: whatever the login response is,
    whatever the areas held before, and also when a write exceeds the
    quota or the response is not an object, [storeSession] leaves no
    session item in the area it does not write, so a stale token of an
    earlier session can never shadow the new one; items of other features
    and the network are untouched. *)
Theorem storeSession_one_area session remember b : b_window b = true ->
  let b' := (exec (storeSession session remember) b).1 in
  let a := target b remember in
  no_session (b_items b' (other a)) /\ one_area b' /\ b_sent b' = b_sent b /\
  (forall a' k, k ∉ session_keys -> b_items b' a' !! k = b_items b a' !! k).
Proof. apply storeSession_areas. Qed.

(** ** Reading back *)

Lemma exec_lift_bind {A B} (x : A) (f : A -> web B) b : exec (v ← lift (Ok x); f v) b = exec (f x) b.
Proof. done. Qed.

Lemma read_item_exec k b : b_window b = true -> exec (read_item k) b = (b, Ok (stored b k)).
Proof.
  intros Hw. unfold Web.exec, read_item, stored. simpl. rewrite Hw. simpl.
  destruct (b_session b !! k); simpl; [done|]. by rewrite Hw.
Qed.

Lemma exec_HasWindow {A} (f : bool -> web A) b :
  exec (w ← trigger HasWindow; f w) b = exec (f (b_window b)) b.
Proof. done. Qed.

Lemma readAccessToken_exec b :
  exec readAccessToken b = (b, Ok (if b_window b then stored b accessKey else None)).
Proof.
  unfold readAccessToken. rewrite exec_HasWindow. destruct (b_window b) eqn:Hw; [|done].
  by apply read_item_exec.
Qed.

Lemma readRefreshToken_exec b :
  exec readRefreshToken b = (b, Ok (if b_window b then stored b refreshKey else None)).
Proof.
  unfold readRefreshToken. rewrite exec_HasWindow. destruct (b_window b) eqn:Hw; [|done].
  by apply read_item_exec.
Qed.

(** The user record read back: what the stored text parses to, or [null]. *)
Definition parse_user (raw : option jsstring) : jsval :=
  match raw with
  | None => JNull
  | Some s => if nonempty s then match json_parse s with Ok v => v | Err _ => JNull end else JNull
  end.

Lemma storedUser_exec b :
  exec storedUser b = (b, Ok (if b_window b then parse_user (stored b userKey) else JNull)).
Proof.
  unfold storedUser. rewrite exec_HasWindow. destruct (b_window b) eqn:Hw; [|done].
  cbn [negb]. unfold Web.exec. rewrite run_bind. pose proof (read_item_exec userKey b Hw) as E. unfold Web.exec in E. rewrite E.
  destruct (stored b userKey) as [s|]; [|done]. simpl. destruct (nonempty s); [|done].
  rewrite run_catch, run_lift. by destruct (json_parse s).
Qed.

(** The items of the written area after a complete store. *)
Definition session_items (acc ref user : jsstring) (m : items) : items :=
  <[userKey := user]> (<[refreshKey := ref]> (<[accessKey := acc]> m)).

Lemma store_items_exec a session b acc ref user u :
  b_window b = true -> (forall m, fits a m = true) ->
  get session (js "access_token") = Ok (JStr acc) -> get session (js "refresh_token") = Ok (JStr ref) ->
  get session (js "user") = Ok user -> to_string (stringify_val user) = Ok u ->
  exec (store_items a session) b = (set_items a (session_items acc ref u (b_items b a)) b, Ok tt).
Proof.
  intros Hw Hf Ha Hr Hu Hs. unfold store_items. rewrite Ha, exec_lift_bind.
  rewrite exec_set_item by done. cbn [to_string]. rewrite Hf. cbv zeta.
  rewrite Hr, exec_lift_bind, exec_set_item by (by rewrite b_window_set). cbn [to_string]. rewrite Hf. cbv zeta.
  rewrite Hu, exec_lift_bind. unfold Web.exec, set_item. rewrite run_bind, Hs, run_lift. simpl.
  rewrite !b_window_set, Hw, Hf. autorewrite with web. unfold session_items. by destruct a.
Qed.

Lemma stored_target a m b k v : no_session (b_items b (other a)) -> k ∈ session_keys ->
  m !! k = Some v -> stored (set_items a m b) k = Some v.
Proof.
  intros Hn Hk Hm. unfold stored. destruct a; simpl in *; rewrite Hm; [|done]. by rewrite (Hn k Hk).
Qed.

Lemma session_items_lookup acc ref u m :
  session_items acc ref u m !! accessKey = Some acc /\
  session_items acc ref u m !! refreshKey = Some ref /\
  session_items acc ref u m !! userKey = Some u.
Proof.
  unfold session_items. split_and!; repeat (rewrite lookup_insert_eq || rewrite lookup_insert_ne by done); done.
Qed.

Lemma storeSession_stores session remember b acc ref user u :
  b_window b = true -> (forall m, fits (target b remember) m = true) ->
  get session (js "access_token") = Ok (JStr acc) -> get session (js "refresh_token") = Ok (JStr ref) ->
  get session (js "user") = Ok user -> to_string (stringify_val user) = Ok u ->
  exists b', exec (storeSession session remember) b = (b', Ok tt) /\ b_window b' = true /\
    b_srv b' = b_srv b /\ b_sent b' = b_sent b /\
    stored b' accessKey = Some acc /\ stored b' refreshKey = Some ref /\ stored b' userKey = Some u.
Proof.
  intros Hw Hf Ha Hr Hu Hs. rewrite storeSession_exec by done. cbv zeta.
  set (a := target b remember) in *.
  set (b1 := set_items (other a) (wipe (b_items b (other a))) b).
  assert (b_window b1 = true) as Hw1 by (unfold b1; by rewrite b_window_set).
  rewrite (store_items_exec a session b1 acc ref user u) by done.
  assert (no_session (b_items b1 (other a))) as Hn
    by (unfold b1; rewrite b_items_set; apply wipe_no_session).
  destruct (session_items_lookup acc ref u (b_items b1 a)) as (H1 & H2 & H3).
  eexists. split; [done|]. unfold b1. autorewrite with web. fold b1. split_and!; try done;
    apply stored_target; auto using in_keys_access, in_keys_refresh, in_keys_user.
Qed.

(** C22: Session round trip: after storing a login response with string
    tokens and a JSON user (and room in the chosen area), [storeSession]
    returns and the readers give back exactly that access token, refresh
    token and user record, whatever either area held before. *)
Theorem storeSession_roundtrip session remember b acc ref user :
  b_window b = true -> (forall m, fits (target b remember) m = true) ->
  get session (js "access_token") = Ok (JStr acc) -> get session (js "refresh_token") = Ok (JStr ref) ->
  get session (js "user") = Ok user -> json_ok user ->
  exists b', exec (storeSession session remember) b = (b', Ok tt) /\
    exec readAccessToken b' = (b', Ok (Some acc)) /\
    exec readRefreshToken b' = (b', Ok (Some ref)) /\
    exec storedUser b' = (b', Ok user).
Proof.
  intros Hw Hf Ha Hr Hu Hok. destruct (parse_stringify [] user) as (u & Es & Ep); [by constructor|done|].
  destruct (storeSession_stores session remember b acc ref user u) as (b' & E & Hw' & _ & _ & H1 & H2 & H3);
    try done.
  { unfold stringify_val, json_stringify. by rewrite Es. }
  exists b'. split; [done|].
  rewrite readAccessToken_exec, readRefreshToken_exec, storedUser_exec, Hw', H1, H2, H3.
  split_and!; [done..|]. simpl. rewrite Ep. by destruct u as [|c u]; [done|].
Qed.

Lemma clearSession_exec b : b_window b = true ->
  exec clearSession b =
  (mkBrowser true (wipe (b_local b)) (wipe (b_session b)) (b_srv b) (b_sent b), Ok tt).
Proof. intros Hw. unfold Web.exec, clearSession. simpl. rewrite Hw. simpl. done. Qed.

(** A completed store has written the user's text. *)
Lemma storeSession_user session remember b b' : b_window b = true ->
  exec (storeSession session remember) b = (b', Ok tt) ->
  exists user u, get session (js "user") = Ok user /\ to_string (stringify_val user) = Ok u /\
    stored b' userKey = Some u.
Proof.
  intros Hw. rewrite storeSession_exec by done. cbv zeta. generalize (target b remember) as a. intros a.
  set (b1 := set_items (other a) (wipe (b_items b (other a))) b).
  assert (b_window b1 = true) as Hw1 by (unfold b1; by rewrite b_window_set).
  assert (no_session (b_items b1 (other a))) as Hn
    by (unfold b1; rewrite b_items_set; apply wipe_no_session).
  unfold store_items. clearbody b1. clear b Hw. rename b1 into b, Hw1 into Hw.
  unfold Web.exec at 1. rewrite run_bind, run_lift. destruct (get session (js "access_token")) as [acc|]; [|done].
  change (run (handle server fits) ?p b) with (exec p b). rewrite exec_set_item by done.
  destruct (to_string acc) as [s1|]; [|done]. cbv zeta. destruct (fits a _); [|done].
  unfold Web.exec at 1. rewrite run_bind, run_lift. destruct (get session (js "refresh_token")) as [rf|]; [|done].
  match goal with |- run _ ?p ?b0 = _ -> _ => change (run (handle server fits) p b0) with (exec p b0) end.
  rewrite exec_set_item by (by rewrite b_window_set).
  destruct (to_string rf) as [s2|]; [|done]. cbv zeta. destruct (fits a _); [|done].
  unfold Web.exec at 1. rewrite run_bind, run_lift. destruct (get session (js "user")) as [user|]; [|done].
  unfold set_item. rewrite run_bind, run_lift. destruct (to_string (stringify_val user)) as [u|] eqn:Eu; [|done].
  simpl. rewrite !b_window_set, Hw. destruct (fits a _); [|done]. intros [= <-].
  exists user, u. split_and!; try done. apply stored_target; [|apply in_keys_user|apply lookup_insert_eq].
  rewrite !b_items_set_ne by (by destruct a). done.
Qed.

(** Sign-out is complete: [clearSession] removes every session item
    from both areas, so that every reader then answers [null], and keeps
    the items of other features. *)
Lemma clearSession_clears b : b_window b = true ->
  exists b', exec clearSession b = (b', Ok tt) /\
    exec readAccessToken b' = (b', Ok None) /\ exec readRefreshToken b' = (b', Ok None) /\
    exec storedUser b' = (b', Ok JNull) /\
    (forall a k, k ∉ session_keys -> b_items b' a !! k = b_items b a !! k).
Proof.
  intros Hw.
  exists (mkBrowser true (wipe (b_local b)) (wipe (b_session b)) (b_srv b) (b_sent b)).
  split; [by apply clearSession_exec|].
  rewrite readAccessToken_exec, readRefreshToken_exec, storedUser_exec. simpl.
  unfold stored. simpl. rewrite !wipe_no_session by
    auto using in_keys_access, in_keys_refresh, in_keys_user.
  split_and!; [done..|]. intros [|] k Hk; by apply wipe_other.
Qed.
End Spec.
End Session.
