(* ===== verification/ApiClient.v ===== *)
(** * The console's API client: [console/src/lib/api/client.ts] and [auth.ts]

    [apiFetch] sends a request with the stored access token; when the server
    answers 401 it exchanges the refresh token once and repeats the request.
    [apiFetch] and [refreshStoredSession] call each other: the model recurses
    on fuel, and [apiFetch_terminates] shows that two levels are all there are. *)

From S2P Require Import Prelude JsString JsNumber JsValue Json Uri Prog Http Browser Session.
Import Web Session.

Module Api.

(** [RequestInit & { auth?: boolean }], the fields the console uses. *)
Record ApiInit : Type := {
  i_method : option jsstring;
  i_headers : list (jsstring * jsstring);
  i_body : option body_init;
  i_auth : option bool
}.

Definition init_default : ApiInit :=
  {| i_method := None; i_headers := []; i_body := None; i_auth := None |}.

(** [init.auth !== false] *)
Definition auth_on (init : ApiInit) : bool :=
  match i_auth init with Some false => false | _ => true end.

(** Truthiness of [init.body]. *)
Definition has_body (init : ApiInit) : bool :=
  match i_body init with
  | None => false
  | Some (BText s) => nonempty s
  | Some (BBytes _) => true
  end.

Definition parsePayload (text : jsstring) : jsval :=
  if negb (nonempty text) then JNull
  else match json_parse text with
       | Ok v => v
       | Err _ => JObj [(js "message", JStr text)]
       end.

Definition parseResponse (r : response) : outcome jsval :=
  let! text := resp_body r in Ok (parsePayload text).

(** [typeof payload === "object"] *)
Definition is_object (v : jsval) : bool :=
  match v with JNull | JArr _ | JObj _ => true | _ => false end.

Definition request_failed (st : Z) : jsstring := js "Request failed with " ++ string_of_Z st.

(** The error object made for a failed response. *)
Definition apiErrorFromResponse (r : response) : outcome thrown :=
  let! text := resp_body r in
  let payload := parsePayload text in
  let errorPayload := if truthy payload && is_object payload then payload else JObj [] in
  let message := coalesce (get_opt errorPayload (js "error"))
                   (coalesce (get_opt errorPayload (js "message")) (JStr (request_failed (status r)))) in
  let! m := to_string message in
  Ok (TError {| err_name := js "Error"; err_message := Text m;
                err_status := Some (status r); err_payload := Some payload |}).

(** [API_BASE], from the build-time environment. *)
Definition api_base (env : option jsstring) : jsstring :=
  match env with Some url => strip_slash url | None => [] end.

Section Client.
Variable API_BASE : jsstring.

(** The headers before the token: the caller's, and a default content type. *)
Definition base_headers (init : ApiInit) : outcome headers :=
  let! hs := new_headers (i_headers init) ∅ in
  if negb (headers_has (js "Content-Type") hs) && has_body init
  then headers_set (js "Content-Type") (js "application/json") hs else Ok hs.

(** [if (token) headers.set("Authorization", `Bearer ${token}`)] *)
Definition bearer (token : option jsstring) (hs : headers) : outcome headers :=
  match token with
  | Some t => if nonempty t then headers_set (js "Authorization") (js "Bearer " ++ t) hs else Ok hs
  | None => Ok hs
  end.

Definition fetchWithAuth (path : jsstring) (init : ApiInit) : web response :=
  hs0 ← lift (base_headers init);
  token ← (if auth_on init then readAccessToken else Ret None);
  hs ← lift (bearer token hs0);
  await (Fetch (API_BASE ++ path)
           {| ri_method := i_method init; ri_headers := hs; ri_body := i_body init |}).

(** [body: JSON.stringify({ refresh_token })] *)
Definition json_body (v : jsval) : option body_init := BText <$> json_stringify v.

Definition refresh_init (refresh_token : jsstring) : ApiInit :=
  {| i_method := Some (js "POST"); i_headers := [];
     i_body := json_body (JObj [(js "refresh_token", JStr refresh_token)]); i_auth := Some false |}.

Definition refresh_path : jsstring := js "/api/admin/auth/refresh".

Section Refresh.
(** The recursive call. *)
Variable apiFetch' : jsstring -> ApiInit -> web jsval.

Definition refreshStoredSession : web bool :=
  refresh_token ← readRefreshToken;
  match refresh_token with
  | None => Ret false
  | Some t =>
      if negb (nonempty t) then Ret false
      else catch (session ← apiFetch' refresh_path (refresh_init t);
                  _ ← storeSession session None;
                  Ret true)
                 (fun _ => Ret false)
  end.
End Refresh.

(** [throw await apiErrorFromResponse(response)] *)
Definition throw_response {A} (r : response) : web A :=
  e ← lift (apiErrorFromResponse r); Throw e.

Fixpoint api_fetch (fuel : nat) (path : jsstring) (init : ApiInit) : web jsval :=
  match fuel with
  | O => Throw (new_error (js "recursion"))
  | S fuel' =>
      response ← fetchWithAuth path init;
      if response_ok response then lift (parseResponse response)
      else
        refreshed ← (if auth_on init && (status response =? 401)%Z
                     then refreshStoredSession (api_fetch fuel') else Ret false);
        if refreshed : bool then
          retryResponse ← fetchWithAuth path init;
          if response_ok retryResponse then lift (parseResponse retryResponse)
          else throw_response retryResponse
        else throw_response response
  end.

Definition apiFetch (path : jsstring) (init : ApiInit) : web jsval := api_fetch 2 path init.

(** [downloadBackup]; the blob is represented by the response carrying it. *)
Definition downloadBackup (name : jsstring) : web response :=
  token ← readAccessToken;
  n ← lift (encodeURIComponent name);
  hs ← lift (match token with
             | Some t => if nonempty t then new_headers [(js "Authorization", js "Bearer " ++ t)] ∅
                         else Ok ∅
             | None => Ok ∅
             end);
  r ← await (Fetch (API_BASE ++ js "/api/admin/backups/" ++ n ++ js "/download")
               {| ri_method := None; ri_headers := hs; ri_body := None |});
  if negb (response_ok r)
  then Throw (new_error (js "Backup download failed with " ++ string_of_Z (status r)))
  else Ret r.

(** ** [auth.ts] *)

Definition admin_credentials (email password : jsstring) : jsval :=
  JObj [(js "email", JStr email); (js "password", JStr password)].

(** A POST with [auth: false] and a JSON body. *)
Definition public_post (body : jsval) : ApiInit :=
  {| i_method := Some (js "POST"); i_headers := []; i_body := json_body body; i_auth := Some false |}.

Definition bootstrapAdmin (email password : jsstring) : web jsval :=
  apiFetch (js "/api/bootstrap/admin") (public_post (admin_credentials email password)).

Definition loginAdmin (email password : jsstring) : web jsval :=
  apiFetch (js "/api/admin/auth/login") (public_post (admin_credentials email password)).

(** [typeof window === "undefined" ? null : sessionStorage... ?? localStorage...] *)
Definition inline_refresh_token : web (option jsstring) :=
  w ← trigger HasWindow;
  if negb w then Ret None else read_item refreshKey.

Definition refreshAdminSession : web jsval :=
  refresh_token ← inline_refresh_token;
  match refresh_token with
  | Some t =>
      if nonempty t
      then apiFetch refresh_path (public_post (JObj [(js "refresh_token", JStr t)]))
      else Throw (new_error (js "No refresh token"))
  | None => Throw (new_error (js "No refresh token"))
  end.

Definition logoutAdmin : web unit :=
  refresh_token ← inline_refresh_token;
  match refresh_token with
  | Some t =>
      if nonempty t
      then _ ← apiFetch (js "/api/admin/auth/logout") (public_post (JObj [(js "refresh_token", JStr t)]));
           Ret tt
      else Ret tt
  | None => Ret tt
  end.
End Client.

(** ** Correctness *)
Section Spec.
Context {Σ : Type} (server : Σ -> jsstring -> request_init -> Σ * outcome response).
Context (fits : area -> items -> bool) (API_BASE : jsstring).

Abbreviation exec := (exec server fits).

(** The token a request of [b] uses. *)
Definition token_of (init : ApiInit) (b : browser Σ) : option jsstring :=
  if auth_on init && b_window b then stored b accessKey else None.

(** The request [fetchWithAuth] makes in state [b]. *)
Definition prepared (path : jsstring) (init : ApiInit) (b : browser Σ) : outcome (jsstring * request_init) :=
  let! hs0 := base_headers init in
  let! hs := bearer (token_of init b) hs0 in
  Ok (API_BASE ++ path, {| ri_method := i_method init; ri_headers := hs; ri_body := i_body init |}).

(** One exchange with the server. *)
Definition exchange (q : jsstring * request_init) (b : browser Σ) : browser Σ * outcome response :=
  let '(σ, o) := server (b_srv b) q.1 q.2 in
  (mkBrowser (b_window b) (b_local b) (b_session b) σ (b_sent b ++ [q]), o).

Lemma exec_bind {A B} (p : web A) (f : A -> web B) b :
  exec (p ≫= f) b =
  match exec p b with (b', Ok a) => exec (f a) b' | (b', Err e) => (b', Err e) end.
Proof. apply run_bind. Qed.

Lemma exec_lifted {A} (x : outcome A) b : exec (lift x) b = (b, x).
Proof. apply run_lift. Qed.

Lemma exec_await_fetch url init b : exec (await (Fetch url init)) b = exchange (url, init) b.
Proof.
  unfold Web.exec, exchange. simpl. destruct (server (b_srv b) url init) as [σ [r|e]]; done.
Qed.

Lemma fetchWithAuth_exec path init b :
  exec (fetchWithAuth API_BASE path init) b =
  match prepared path init b with
  | Err e => (b, Err e)
  | Ok q => exchange q b
  end.
Proof.
  unfold fetchWithAuth, prepared, token_of. rewrite exec_bind, exec_lifted.
  destruct (base_headers init) as [hs0|e]; [|done]. cbn [res_bind]. rewrite exec_bind.
  assert (exec (if auth_on init then readAccessToken else Ret None) b =
          (b, Ok (if auth_on init && b_window b then stored b accessKey else None))) as ->.
  { destruct (auth_on init); [|done]. rewrite readAccessToken_exec. by destruct (b_window b). }
  rewrite exec_bind, exec_lifted.
  destruct (bearer _ hs0) as [hs|e]; [|done]. cbn [res_bind]. by rewrite exec_await_fetch.
Qed.

(** The last step of [apiFetch] on a response. *)
Definition conclude (r : response) : outcome jsval :=
  if response_ok r then parseResponse r
  else let! e := apiErrorFromResponse r in Err e.

Lemma conclude_exec r b :
  exec (if response_ok r then lift (parseResponse r) else throw_response r) b = (b, conclude r).
Proof.
  unfold conclude, throw_response. destruct (response_ok r); [apply exec_lifted|].
  rewrite exec_bind, exec_lifted. by destruct (apiErrorFromResponse r).
Qed.

(** Without authentication [apiFetch] is one exchange. *)
Lemma api_fetch_public n path init b : auth_on init = false ->
  exec (api_fetch API_BASE (S n) path init) b =
  match prepared path init b with
  | Err e => (b, Err e)
  | Ok q => match exchange q b with
            | (b', Ok r) => (b', conclude r)
            | (b', Err e) => (b', Err e)
            end
  end.
Proof.
  intros Ha. cbn [api_fetch]. rewrite exec_bind, fetchWithAuth_exec.
  destruct (prepared path init b) as [q|e]; [|done].
  destruct (exchange q b) as [b' [r|e]]; [|done]. rewrite Ha. cbn [andb].
  rewrite <- conclude_exec. by destruct (response_ok r).
Qed.

(** The usable refresh token of [b]. *)
Definition refresh_token_of (b : browser Σ) : option jsstring :=
  if b_window b then
    match stored b refreshKey with Some t => if nonempty t then Some t else None | None => None end
  else None.

(** One unauthenticated exchange and its conclusion. *)
Definition ask (path : jsstring) (init : ApiInit) (b : browser Σ) : browser Σ * outcome jsval :=
  match prepared path init b with
  | Err e => (b, Err e)
  | Ok q => match exchange q b with
            | (b', Ok r) => (b', conclude r)
            | (b', Err e) => (b', Err e)
            end
  end.

(** The refresh: ask for a session and store it. *)
Definition refresh_spec (b : browser Σ) : browser Σ * bool :=
  match refresh_token_of b with
  | None => (b, false)
  | Some t =>
      match ask refresh_path (refresh_init t) b with
      | (b1, Err _) => (b1, false)
      | (b1, Ok session) =>
          let '(b2, o) := exec (storeSession session None) b1 in (b2, is_ok o)
      end
  end.

Lemma refresh_exec n b :
  exec (refreshStoredSession (api_fetch API_BASE (S n))) b =
  ((refresh_spec b).1, Ok (refresh_spec b).2).
Proof.
  unfold refreshStoredSession, refresh_spec, refresh_token_of.
  rewrite exec_bind, readRefreshToken_exec. destruct (b_window b); [|done].
  destruct (stored b refreshKey) as [t|]; [|done]. destruct (nonempty t); [|done]. cbn [negb].
  unfold Web.exec at 1. rewrite run_catch, run_bind.
  pose proof (api_fetch_public n refresh_path (refresh_init t) b eq_refl) as E.
  unfold Web.exec in E. rewrite E. clear E. unfold ask.
  destruct (prepared _ _ b) as [q|e]; [|done].
  destruct (exchange q b) as [b1 [r|e]]; [|done].
  destruct (conclude r) as [session|e]; [|done]. rewrite run_bind. unfold Web.exec.
  destruct (run _ (storeSession session None) b1) as [b2 [[]|e]]; done.
Qed.

(** [apiFetch] as exchanges: the request, and on a 401 that a refresh
    cures, the request again. *)
Definition api_spec (path : jsstring) (init : ApiInit) (b : browser Σ) : browser Σ * outcome jsval :=
  match prepared path init b with
  | Err e => (b, Err e)
  | Ok q =>
      match exchange q b with
      | (b1, Err e) => (b1, Err e)
      | (b1, Ok r) =>
          if negb (response_ok r) && auth_on init && (status r =? 401)%Z then
            match refresh_spec b1 with
            | (b2, true) => ask path init b2
            | (b2, false) => (b2, conclude r)
            end
          else (b1, conclude r)
      end
  end.

Lemma api_fetch_exec n path init b :
  exec (api_fetch API_BASE (S (S n)) path init) b = api_spec path init b.
Proof.
  cbn [api_fetch]. rewrite exec_bind, fetchWithAuth_exec. unfold api_spec.
  destruct (prepared path init b) as [q|e]; [|done].
  destruct (exchange q b) as [b1 [r|e]]; [|done].
  pose proof (conclude_exec r) as Hc.
  destruct (response_ok r) eqn:Er; [apply Hc|]. cbn [negb andb].
  destruct (auth_on init && (status r =? 401)%Z); rewrite exec_bind; [|apply Hc].
  pose proof (refresh_exec n b1) as Hr. cbn [api_fetch] in Hr. rewrite Hr.
  destruct (refresh_spec b1) as [b2 [|]]; cbn [fst snd]; [|apply Hc].
  rewrite exec_bind, fetchWithAuth_exec. unfold ask.
  destruct (prepared path init b2) as [q2|e]; [|done].
  destruct (exchange q2 b2) as [b3 [r2|e]]; [|done]. apply conclude_exec.
Qed.

Lemma exchange_facts q b b' o : exchange q b = (b', o) ->
  b_sent b' = b_sent b ++ [q] /\ b_local b' = b_local b /\ b_session b' = b_session b /\
  b_window b' = b_window b.
Proof.
  unfold exchange. destruct (server (b_srv b) q.1 q.2) as [σ o']. intros [= <- <-]. done.
Qed.

Lemma exchange_stored q b b' o : exchange q b = (b', o) -> stored b' = stored b.
Proof. intros (_ & Hl & Hs & _)%exchange_facts. unfold stored. by rewrite Hl, Hs. Qed.

Lemma exchange_refresh_token q b b' o : exchange q b = (b', o) -> refresh_token_of b' = refresh_token_of b.
Proof.
  intros H. unfold refresh_token_of. rewrite (exchange_stored _ _ _ _ H).
  apply exchange_facts in H as (_ & _ & _ & ->). done.
Qed.

(** The headers of a JSON request without a token. *)
Definition json_headers : headers := {[js "content-type" := js "application/json"]}.

Lemma json_headers_set : headers_set (js "Content-Type") (js "application/json") ∅ = Ok json_headers.
Proof. vm_compute. reflexivity. Qed.

(** The refresh request: the refresh token in the body, no bearer token. *)
Definition refresh_request (t : jsstring) : jsstring * request_init :=
  (API_BASE ++ refresh_path,
   {| ri_method := Some (js "POST"); ri_headers := json_headers;
      ri_body := json_body (JObj [(js "refresh_token", JStr t)]) |}).

Lemma prepared_refresh t b : prepared refresh_path (refresh_init t) b = Ok (refresh_request t).
Proof.
  unfold prepared. assert (base_headers (refresh_init t) = Ok json_headers) as ->; [|done].
  unfold base_headers. cbn [i_headers refresh_init new_headers res_bind].
  rewrite <- json_headers_set. done.
Qed.

(** Two requests that differ at most in the bearer token. *)
Definition same_but_token (q q' : jsstring * request_init) : Prop :=
  q.1 = q'.1 /\ ri_method q.2 = ri_method q'.2 /\ ri_body q.2 = ri_body q'.2 /\
  forall k, to_lower k <> js "authorization" ->
    headers_get k (ri_headers q.2) = headers_get k (ri_headers q'.2).

Lemma bearer_other token hs hs' k : bearer token hs = Ok hs' -> to_lower k <> js "authorization" ->
  headers_get k hs' = headers_get k hs.
Proof.
  intros H Hk. unfold bearer in H. destruct token as [t|]; [|by apply Ok_inj in H as ->].
  destruct (nonempty t); [|by apply Ok_inj in H as ->]. by eapply headers_set_other.
Qed.

Lemma prepared_same path init b b' q q' :
  prepared path init b = Ok q -> prepared path init b' = Ok q' -> same_but_token q q'.
Proof.
  unfold prepared. destruct (base_headers init) as [hs|e]; [|done]. cbn [res_bind].
  destruct (bearer (token_of init b) hs) as [h1|] eqn:E1; [|done].
  destruct (bearer (token_of init b') hs) as [h2|] eqn:E2; [|done]. cbn [res_bind].
  intros <-%Ok_inj <-%Ok_inj. split_and!; try done. intros k Hk. cbn [fst snd ri_headers].
  by rewrite (bearer_other _ _ _ _ E1), (bearer_other _ _ _ _ E2).
Qed.

Lemma storeSession_sent session remember b :
  b_sent (exec (storeSession session remember) b).1 = b_sent b.
Proof.
  destruct (b_window b) eqn:Hw.
  - rewrite storeSession_exec by done. cbv zeta.
    match goal with |- context [exec (store_items ?a _) ?b1] =>
      destruct (store_items_writes server fits a session b1) as (_ & _ & -> & _);
        [by rewrite b_window_set|by rewrite b_sent_set] end.
  - unfold Web.exec, storeSession. destruct remember as [[|]|]; simpl; by rewrite Hw.
Qed.

Lemma ask_sent path init b b' o : ask path init b = (b', o) ->
  (exists e, prepared path init b = Err e /\ b' = b) \/
  (exists q, prepared path init b = Ok q /\ b_sent b' = b_sent b ++ [q]).
Proof.
  unfold ask. destruct (prepared path init b) as [q|e]; [|intros [= <- <-]; left; eauto].
  right. exists q. split; [done|]. destruct (exchange q b) as [b1 [r|e]] eqn:E;
    apply exchange_facts in E as (E & _); by simplify_eq.
Qed.

Lemma refresh_sent b b' x : refresh_spec b = (b', x) ->
  (x = false /\ b_sent b' = b_sent b) \/
  (exists t, refresh_token_of b = Some t /\ b_sent b' = b_sent b ++ [refresh_request t]).
Proof.
  unfold refresh_spec. destruct (refresh_token_of b) as [t|]; [|intros [= <- <-]; by left].
  destruct (ask refresh_path (refresh_init t) b) as [b1 o] eqn:E. intros H. right. exists t.
  split; [done|]. apply ask_sent in E as [(e & E & _)|(q & E & Hs)]; rewrite prepared_refresh in E; [done|].
  apply Ok_inj in E as ->. rewrite <- Hs. destruct o as [session|e]; [|by simplify_eq].
  rewrite <- (storeSession_sent session None b1).
  destruct (exec (storeSession session None) b1) as [b2 o2]. by simplify_eq.
Qed.

(** C23: Termination of the mutual recursion: [apiFetch] calls itself through
    [refreshStoredSession] at most once; any larger recursion budget gives
    the same run, so no request can start a chain of refreshes. *)
Theorem apiFetch_terminates n path init b :
  exec (api_fetch API_BASE (S (S n)) path init) b = exec (apiFetch API_BASE path init) b.
Proof. unfold apiFetch. by rewrite !api_fetch_exec. Qed.

Lemma apiFetch_sent path init b b' o :
  exec (apiFetch API_BASE path init) b = (b', o) ->
  (exists e, prepared path init b = Err e /\ o = Err e /\ b' = b) \/
  exists q, prepared path init b = Ok q /\
    (b_sent b' = b_sent b ++ [q] \/
     exists t, auth_on init = true /\ refresh_token_of b = Some t /\
       (b_sent b' = b_sent b ++ [q; refresh_request t] \/
        exists q', same_but_token q q' /\ b_sent b' = b_sent b ++ [q; refresh_request t; q'])).
Proof.
  unfold apiFetch. rewrite api_fetch_exec. unfold api_spec.
  destruct (prepared path init b) as [q|e] eqn:Eq; [|intros [= <- <-]; left; eauto].
  intros H. right. exists q. split; [done|].
  destruct (exchange q b) as [b1 o1] eqn:E1.
  pose proof (exchange_refresh_token _ _ _ _ E1) as Ht.
  apply exchange_facts in E1 as (E1 & _). destruct o1 as [r|e]; [|left; by simplify_eq].
  destruct (_ && _ && _) eqn:Hc; [|left; by simplify_eq]. reflect_bools.
  destruct (refresh_spec b1) as [b2 x] eqn:E2. apply refresh_sent in E2 as [[-> E2]|(t & Hr & E2)].
  { left. simplify_eq. congruence. }
  right. exists t. split; [done|]. split; [congruence|].
  rewrite E1, <- app_assoc in E2. destruct x; [|left; by simplify_eq].
  apply ask_sent in H as [(e & _ & ->)|(q' & Hq & H)]; [by left|right].
  exists q'. split; [by eapply prepared_same|]. by rewrite H, E2, <- app_assoc.
Qed.

Lemma prepared_url path init b q : prepared path init b = Ok q ->
  q.1 = API_BASE ++ path /\ ri_method q.2 = i_method init.
Proof.
  unfold prepared. destruct (base_headers init); [|done]. cbn [res_bind].
  destruct (bearer _ _); [|done]. by intros <-%Ok_inj.
Qed.

(** The first request of a run is the one asked for. *)
Lemma apiFetch_first path init b b' o q : prepared path init b = Ok q ->
  exec (apiFetch API_BASE path init) b = (b', o) -> exists rest, b_sent b' = b_sent b ++ q :: rest.
Proof.
  intros Hp [(e & He & _)|(q' & Hq & H)]%apiFetch_sent; [congruence|]. rewrite Hp in Hq. apply Ok_inj in Hq as <-.
  destruct H as [H|(t & _ & _ & [H|(q' & _ & H)])]; eauto.
Qed.

(** The path of a request does not matter to its method, headers and body. *)
Lemma prepared_other path path' init b q : prepared path init b = Ok q ->
  prepared path' init b = Ok (API_BASE ++ path', q.2).
Proof.
  unfold prepared. destruct (base_headers init); cbn [res_bind]; [|done].
  destruct (bearer _ _); cbn [res_bind]; [|done]. by intros <-%Ok_inj.
Qed.

(** C2: The request protocol of [apiFetch]: it sends nothing when its own
    headers are invalid; otherwise the prepared request first, then at most
    one refresh, only for an authenticated call with a stored refresh
    token, carrying that token in its body and no bearer token, and after
    it at most one repetition of the request, which differs from the
    first only in the bearer token. *)
Theorem apiFetch_protocol path init b b' o :
  exec (apiFetch API_BASE path init) b = (b', o) ->
  (exists e, prepared path init b = Err e /\ o = Err e /\ b' = b) \/
  exists q, prepared path init b = Ok q /\
    (b_sent b' = b_sent b ++ [q] \/
     exists t, auth_on init = true /\ refresh_token_of b = Some t /\
       (b_sent b' = b_sent b ++ [q; refresh_request t] \/
        exists q', same_but_token q q' /\ b_sent b' = b_sent b ++ [q; refresh_request t; q'])).
Proof. apply apiFetch_sent. Qed.

Lemma stringify_val_text v : exists s, to_string (stringify_val v) = Ok s.
Proof. unfold stringify_val. destruct (json_stringify v); eauto. Qed.

Lemma exchange_eq q b σ o : server (b_srv b) q.1 q.2 = (σ, o) ->
  exchange q b = (mkBrowser (b_window b) (b_local b) (b_session b) σ (b_sent b ++ [q]), o).
Proof. unfold exchange. by intros ->. Qed.

(** A successful refresh stores the new session. *)
Lemma refresh_stores b t σ r text acc ref user :
  b_window b = true -> (forall a m, fits a m = true) ->
  stored b refreshKey = Some t -> nonempty t = true ->
  server (b_srv b) (refresh_request t).1 (refresh_request t).2 = (σ, Ok r) ->
  response_ok r = true -> resp_body r = Ok text ->
  get (parsePayload text) (js "access_token") = Ok (JStr acc) ->
  get (parsePayload text) (js "refresh_token") = Ok (JStr ref) ->
  get (parsePayload text) (js "user") = Ok user ->
  exists b', refresh_spec b = (b', true) /\ b_window b' = true /\ b_srv b' = σ /\
    b_sent b' = b_sent b ++ [refresh_request t] /\
    stored b' accessKey = Some acc /\ stored b' refreshKey = Some ref.
Proof.
  intros Hw Hf Ht Hn Hs Hr Hb Ha Hrf Hu. unfold refresh_spec, refresh_token_of.
  rewrite Hw, Ht, Hn. unfold ask. rewrite prepared_refresh, (exchange_eq _ _ _ _ Hs).
  unfold conclude, parseResponse. rewrite Hr, Hb. cbn [res_bind].
  destruct (stringify_val_text user) as [u Eu].
  match goal with |- context [exec (storeSession _ None) ?b1] =>
    destruct (storeSession_stores server fits (parsePayload text) None b1 acc ref user u)
      as (b' & E & Hw' & Hs' & Hl & H1 & H2 & _); try done end.
  exists b'. rewrite E. by split_and!.
Qed.

(** C4: Transparent renewal: when the server rejects an authenticated
    request with 401, accepts the stored refresh token and returns a new
    session, the caller sees exactly the result of the repeated request,
    sent with the new access token, and the new tokens are stored. *)
Theorem apiFetch_renews path init b q t hs0 hs σ1 r1 σ2 r2 text acc ref user σ3 o3 :
  b_window b = true -> (forall a m, fits a m = true) -> auth_on init = true ->
  prepared path init b = Ok q ->
  server (b_srv b) q.1 q.2 = (σ1, Ok r1) -> status r1 = 401%Z ->
  stored b refreshKey = Some t -> nonempty t = true ->
  server σ1 (refresh_request t).1 (refresh_request t).2 = (σ2, Ok r2) ->
  response_ok r2 = true -> resp_body r2 = Ok text ->
  get (parsePayload text) (js "access_token") = Ok (JStr acc) -> nonempty acc = true ->
  get (parsePayload text) (js "refresh_token") = Ok (JStr ref) ->
  get (parsePayload text) (js "user") = Ok user ->
  base_headers init = Ok hs0 -> headers_set (js "Authorization") (js "Bearer " ++ acc) hs0 = Ok hs ->
  let q' := (API_BASE ++ path, {| ri_method := i_method init; ri_headers := hs; ri_body := i_body init |}) in
  server σ2 q'.1 q'.2 = (σ3, o3) ->
  exists b', exec (apiFetch API_BASE path init) b =
      (b', match o3 with Ok r3 => conclude r3 | Err e => Err e end) /\
    b_sent b' = b_sent b ++ [q; refresh_request t; q'] /\
    stored b' accessKey = Some acc /\ stored b' refreshKey = Some ref.
Proof.
  intros Hw Hf Hau Hq Hs1 H401 Ht Hn Hs2 Hr2 Hb2 Ha Hacc Hrf Hu Hh0 Hh q' Hs3.
  unfold apiFetch. rewrite api_fetch_exec. unfold api_spec. rewrite Hq, (exchange_eq _ _ _ _ Hs1), Hau, H401.
  unfold response_ok at 1. rewrite H401. cbn [andb negb Z.leb Z.eqb Z.compare Pos.compare Pos.compare_cont Pos.eqb].
  edestruct (refresh_stores (mkBrowser (b_window b) (b_local b) (b_session b) σ1 (b_sent b ++ [q])) t σ2 r2)
    as (b2 & -> & Hw2 & Hsv & Hsent & H1 & H2); try done; try exact Ha; try exact Hrf; try exact Hu; try done.
  unfold ask. assert (prepared path init b2 = Ok q') as ->.
  { unfold prepared, token_of. rewrite Hh0, Hau, Hw2, H1. cbn [res_bind andb bearer]. by rewrite Hacc, Hh. }
  rewrite (exchange_eq q' b2 σ3 o3) by (by rewrite Hsv). simpl in Hsent.
  eexists. split; [by destruct o3|]. cbn [b_sent]. rewrite Hsent, <- !app_assoc. done.
Qed.

(** *** Answers *)

(** What the caller's own request is finally answered with: the first answer,
    or after a 401 that a refresh cures, the answer to the repetition. *)
Definition final_answer (path : jsstring) (init : ApiInit) (b : browser Σ) : browser Σ * outcome response :=
  let own b := match prepared path init b with Err e => (b, Err e) | Ok q => exchange q b end in
  match own b with
  | (b1, Err e) => (b1, Err e)
  | (b1, Ok r) =>
      if auth_on init && (status r =? 401)%Z then
        match refresh_spec b1 with (b2, true) => own b2 | (b2, false) => (b2, Ok r) end
      else (b1, Ok r)
  end.

(** The text of a failure with payload [p]: its [error], else its [message],
    else a text with the status. *)
Inductive failure_value (p : jsval) (st : Z) : jsval -> Prop :=
| fails_error v : get_opt p (js "error") = v -> nullish v = false -> failure_value p st v
| fails_message v : nullish (get_opt p (js "error")) = true -> get_opt p (js "message") = v -> nullish v = false ->
    failure_value p st v
| fails_status : nullish (get_opt p (js "error")) = true -> nullish (get_opt p (js "message")) = true ->
    failure_value p st (JStr (js "Request failed with " ++ string_of_Z st)).

(** What the caller gets for the final response. *)
Inductive replies (r : response) : outcome jsval -> Prop :=
| replies_value text : response_ok r = true -> resp_body r = Ok text -> replies r (Ok (parsePayload text))
| replies_error text v m : response_ok r = false -> resp_body r = Ok text ->
    failure_value (parsePayload text) (status r) v -> to_string v = Ok m ->
    replies r (Err (TError {| err_name := js "Error"; err_message := Text m;
                              err_status := Some (status r); err_payload := Some (parsePayload text) |}))
| replies_no_text text v e : response_ok r = false -> resp_body r = Ok text ->
    failure_value (parsePayload text) (status r) v -> to_string v = Err e -> replies r (Err e)
| replies_lost e : resp_body r = Err e -> replies r (Err e).

Lemma conclude_replies r : replies r (conclude r).
Proof.
  unfold conclude, parseResponse, apiErrorFromResponse. destruct (resp_body r) as [text|e] eqn:Eb.
  2: { by destruct (response_ok r); apply replies_lost. }
  destruct (response_ok r) eqn:Er; cbn [res_bind]; [by apply replies_value|]. set (p := parsePayload text).
  assert (forall k, get_opt (if truthy p && is_object p then p else JObj []) k = get_opt p k) as He.
  { intros k. clearbody p. destruct p; cbn [is_object]; by rewrite ?andb_false_r. }
  rewrite !He. set (v := coalesce _ _).
  assert (failure_value p (status r) v) as Hv.
  { unfold v, coalesce. destruct (nullish (get_opt p (js "error"))) eqn:E1; [|by apply fails_error].
    destruct (nullish (get_opt p (js "message"))) eqn:E2; [by apply fails_status|by apply fails_message]. }
  clearbody v. destruct (to_string v) as [m|e] eqn:Ev; cbn [res_bind]; [by eapply replies_error|by eapply replies_no_text].
Qed.

Lemma not_401_ok r : (status r =? 401)%Z = true -> response_ok r = false.
Proof. intros H%Z.eqb_eq. unfold response_ok. by rewrite H. Qed.

Lemma api_spec_answer path init b :
  api_spec path init b =
  match final_answer path init b with (b', Ok r) => (b', conclude r) | (b', Err e) => (b', Err e) end.
Proof.
  unfold api_spec, final_answer, ask. destruct (prepared path init b) as [q|e]; [|done].
  destruct (exchange q b) as [b1 [r|e]]; [|done].
  destruct (status r =? 401)%Z eqn:E; rewrite ?andb_false_r; [|done]. rewrite (not_401_ok r E), andb_true_r.
  cbn [negb andb]. destruct (auth_on init); [|done]. destruct (refresh_spec b1) as [b2 [|]]; [|done].
  by destruct (prepared path init b2).
Qed.

(** C24: Outcomes of [apiFetch] for every call, authenticated or not: the
    caller gets what its own request was finally answered with (after a 401
    that a refresh cured, the answer to the repetition).  An error of building
    or sending it is passed on; an ok response gives its payload; any other
    response throws an error with its status, its payload and, as its message,
    the text of the payload's [error], else of its [message] (a text that is
    not JSON is its own message), else a text with the status; the error of a
    body that cannot be read, or of a message that has no text, is passed on. *)
Theorem apiFetch_error path init b b' o : exec (apiFetch API_BASE path init) b = (b', o) ->
  exists x, final_answer path init b = (b', x) /\
    match x with Err e => o = Err e | Ok r => replies r o end.
Proof.
  unfold apiFetch. rewrite api_fetch_exec, api_spec_answer. destruct (final_answer path init b) as [b1 [r|e]];
    intros [= <- <-]; eexists; (split; [done|]); [apply conclude_replies|done].
Qed.

(** The state [b'] keeps the session invariant and the other items of [b]. *)
Definition area_safe (b b' : browser Σ) : Prop :=
  (one_area b -> one_area b') /\
  (forall a k, k ∉ session_keys -> b_items b' a !! k = b_items b a !! k).

Lemma area_safe_trans b1 b2 b3 : area_safe b1 b2 -> area_safe b2 b3 -> area_safe b1 b3.
Proof. intros [H1 K1] [H2 K2]. split; [auto|]. intros a k Hk. by rewrite K2, K1. Qed.

Lemma area_safe_same b b' : b_local b' = b_local b -> b_session b' = b_session b -> area_safe b b'.
Proof.
  intros Hl Hs. split; [unfold one_area; by rewrite Hl, Hs|].
  intros [|] k _; simpl; by rewrite ?Hl, ?Hs.
Qed.

Lemma exchange_safe q b b' o : exchange q b = (b', o) -> area_safe b b'.
Proof. intros (_ & Hl & Hs & _)%exchange_facts. by apply area_safe_same. Qed.

Lemma ask_safe path init b b' o : ask path init b = (b', o) -> area_safe b b'.
Proof.
  unfold ask. destruct (prepared path init b) as [q|e]; [|intros [= <- <-]; by apply area_safe_same].
  destruct (exchange q b) as [b1 [r|e]] eqn:E; apply exchange_safe in E; by intros [= <- <-].
Qed.

Lemma refresh_safe b b' x : refresh_spec b = (b', x) -> area_safe b b'.
Proof.
  unfold refresh_spec. destruct (refresh_token_of b) as [t|] eqn:Et; [|intros [= <- <-]; by apply area_safe_same].
  destruct (ask refresh_path (refresh_init t) b) as [b1 [session|e]] eqn:E;
    pose proof (ask_safe _ _ _ _ _ E) as Hs; [|by intros [= <- <-]].
  assert (b_window b1 = true) as Hw.
  { unfold refresh_token_of in Et. unfold ask in E. rewrite prepared_refresh in E.
    destruct (exchange (refresh_request t) b) as [b2 o2] eqn:E2. apply exchange_facts in E2 as (_ & _ & _ & E2).
    destruct (b_window b); [|done]. destruct o2; simplify_eq; done. }
  destruct (storeSession_areas server fits session None b1 Hw) as (_ & H1 & _ & H2).
  intros Hx. eapply area_safe_trans; [exact Hs|].
  destruct (exec (storeSession session None) b1) as [b2 o2]. cbn [fst] in *. simplify_eq.
  split; [by intros _|exact H2].
Qed.

(** Requests keep the stored session consistent: whatever the server
    answers and however storing fails, a run of [apiFetch] keeps the
    one-area invariant and every item of other features; a call with
    [auth: false] leaves both areas as they are. *)
Lemma apiFetch_session_safe path init b :
  let b' := (exec (apiFetch API_BASE path init) b).1 in
  (one_area b -> one_area b') /\
  (forall a k, k ∉ session_keys -> b_items b' a !! k = b_items b a !! k) /\
  (auth_on init = false -> b_local b' = b_local b /\ b_session b' = b_session b).
Proof.
  cbv zeta. enough (area_safe b (exec (apiFetch API_BASE path init) b).1 /\
    (auth_on init = false -> b_local (exec (apiFetch API_BASE path init) b).1 = b_local b /\
       b_session (exec (apiFetch API_BASE path init) b).1 = b_session b)) as [[? ?] ?] by done.
  split.
  - unfold apiFetch. rewrite api_fetch_exec.
    unfold api_spec. destruct (prepared path init b) as [q|e]; [|by apply area_safe_same].
    destruct (exchange q b) as [b1 o1] eqn:E1. pose proof (exchange_safe _ _ _ _ E1) as H1.
    destruct o1 as [r|e]; [|done]. destruct (_ && _ && _); [|done].
    destruct (refresh_spec b1) as [b2 x] eqn:E2. pose proof (refresh_safe _ _ _ E2) as H2.
    destruct x; [|by eapply area_safe_trans].
    destruct (ask path init b2) as [b3 o3] eqn:E3. apply ask_safe in E3.
    eapply area_safe_trans; [exact H1|]. by eapply area_safe_trans.
  - intros Ha. unfold apiFetch. rewrite (api_fetch_public 1) by done.
    destruct (prepared path init b) as [q|e]; [|done].
    destruct (exchange q b) as [b1 o1] eqn:E1. apply exchange_facts in E1 as (_ & ? & ? & _).
    by destruct o1.
Qed.
End Spec.


End Api.
