(* ===== verification/AuthClientWeb.v ===== *)
(** * The browser example: [examples/auth-client-web/app.js]

    A page with one module-level state: the tokens kept in memory, the
    connection settings, the form fields and the output elements.  Every
    button runs one operation through [run_action].  The operations are
    programs over the page state and the network. *)

From S2P Require Import Prelude JsString JsNumber JsValue Json Uri Prog Http.
From Stdlib Require Import SpecFloat.

Module Demo.

(** ** State *)

(** [authState] *)
Record AuthState : Type := {
  accessToken : jsval;
  refreshToken : jsval;
  user : jsval;
  sessions : list jsval
}.

Definition authState0 : AuthState :=
  {| accessToken := JNull; refreshToken := JNull; user := JNull; sessions := [] |}.

(** The module variables [baseUrl], [appId], [apiKey], [clientId]. *)
Record Settings : Type := {
  baseUrl : jsstring;
  appId : jsstring;
  apiKey : jsstring;
  clientId : jsstring
}.

Definition settings0 : Settings :=
  {| baseUrl := js "http://127.0.0.1:3000"; appId := js "default"; apiKey := [];
     clientId := js "peanut-web-dev" |}.

(** The values of the input elements. *)
Record Fields : Type := {
  f_baseUrl : jsstring;
  f_appId : jsstring;
  f_apiKey : jsstring;
  f_clientId : jsstring;
  f_email : jsstring;
  f_password : jsstring;
  f_currentPassword : jsstring;
  f_newPassword : jsstring;
  f_resetToken : jsstring
}.

(** The text contents of the output elements. *)
Record Screen : Type := {
  output : jsstring;
  stateOutput : jsstring;
  accessState : jsstring;
  refreshState : jsstring;
  clientIdState : jsstring;
  appIdState : jsstring
}.

Record page : Type := mkPage {
  auth : AuthState;
  settings : Settings;
  fields : Fields;
  screen : Screen
}.

Definition set_auth (a : AuthState) (p : page) : page := mkPage a (settings p) (fields p) (screen p).
Definition set_settings (s : Settings) (p : page) : page := mkPage (auth p) s (fields p) (screen p).
Definition set_fields (f : Fields) (p : page) : page := mkPage (auth p) (settings p) f (screen p).
Definition set_screen (s : Screen) (p : page) : page := mkPage (auth p) (settings p) (fields p) s.

(** ** Effects *)

Inductive pageE : Type -> Type :=
| GetPage : pageE page
| PutPage (p : page) : pageE unit
| Fetch (url : jsstring) (init : request_init) : pageE (outcome response).

Abbreviation app := (prog pageE).

Definition modify (f : page -> page) : app unit := p ← trigger GetPage; trigger (PutPage (f p)).

(** ** Rendering *)

(** [textContent = JSON.stringify(value, null, 2)]; assigning [undefined]
    shows nothing. *)
Definition pretty (v : jsval) : jsstring := default [] (json_stringify_gap (js "  ") v).

Definition with_output (text : jsstring) (s : Screen) : Screen :=
  {| output := text; stateOutput := stateOutput s; accessState := accessState s;
     refreshState := refreshState s; clientIdState := clientIdState s; appIdState := appIdState s |}.

Definition setOutput (value : jsval) : app unit :=
  let text := match value with JStr s => s | v => pretty v end in
  modify (fun p => set_screen (with_output text (screen p)) p).

Definition presence (v : jsval) : jsstring := if truthy v then js "present" else js "empty".

(** [x || null] for a string. *)
Definition or_null (s : jsstring) : jsval := if nonempty s then JStr s else JNull.

(** [token ? `${token.slice(0, 24)}...` : null]; only strings and arrays have [slice]. *)
Definition preview (n : nat) (v : jsval) : outcome jsval :=
  if truthy v then
    match v with
    | JStr s => Ok (JStr (slice 0 n s ++ js "..."))
    | JArr l => let! s := to_string (JArr (firstn n l)) in Ok (JStr (s ++ js "..."))
    | _ => Err (type_error (js "slice is not a function"))
    end
  else Ok JNull.

(** The object [renderState] prints. *)
Definition state_view (a : AuthState) (c : Settings) : outcome jsval :=
  let! k := preview 12 (JStr (apiKey c)) in
  let! at' := preview 24 (accessToken a) in
  let! rt := preview 24 (refreshToken a) in
  Ok (JObj [(js "baseUrl", JStr (baseUrl c)); (js "appId", JStr (appId c)); (js "apiKeyPreview", k);
            (js "clientId", or_null (clientId c)); (js "user", user a); (js "sessions", JArr (sessions a));
            (js "accessTokenPreview", at'); (js "refreshTokenPreview", rt)]).

(** The four badges are written before the state is printed. *)
Definition badges (a : AuthState) (c : Settings) (s : Screen) : Screen :=
  {| output := output s; stateOutput := stateOutput s;
     accessState := presence (accessToken a); refreshState := presence (refreshToken a);
     clientIdState := if nonempty (clientId c) then clientId c else js "empty";
     appIdState := if nonempty (appId c) then appId c else js "empty" |}.

Definition with_state (text : jsstring) (s : Screen) : Screen :=
  {| output := output s; stateOutput := text; accessState := accessState s;
     refreshState := refreshState s; clientIdState := clientIdState s; appIdState := appIdState s |}.

Definition renderState : app unit :=
  p ← trigger GetPage;
  _ ← trigger (PutPage (set_screen (badges (auth p) (settings p) (screen p)) p));
  v ← lift (state_view (auth p) (settings p));
  modify (fun p => set_screen (with_state (pretty v) (screen p)) p).

(** ** Session state *)

Definition set_token_fields (payload : jsval) (a : AuthState) : outcome AuthState :=
  let! at' := get payload (js "access_token") in
  let! rt := get payload (js "refresh_token") in
  let! u := get payload (js "user") in
  Ok {| accessToken := coalesce at' JNull; refreshToken := coalesce rt JNull;
        user := coalesce u (user a); sessions := sessions a |}.

Definition setTokens (payload : jsval) : app unit :=
  p ← trigger GetPage;
  a ← lift (set_token_fields payload (auth p));
  _ ← modify (set_auth a);
  renderState.

Definition clearAuthState : app unit :=
  _ ← modify (set_auth authState0);
  renderState.

(** ** Requests *)

Definition readJson (r : response) : outcome jsval :=
  let! text := resp_body r in
  if nonempty text then
    match json_parse text with
    | Ok v => Ok v
    | Err _ => Ok (JObj [(js "raw", JStr text)])
    end
  else Ok JNull.

(** The caller's [init]: the method and the body, when there are any. *)
Record Init : Type := { r_method : option jsstring; r_body : option jsstring }.

Definition no_init : Init := {| r_method := None; r_body := None |}.

Definition post (body : jsval) : Init :=
  {| r_method := Some (js "POST"); r_body := json_stringify body |}.

Definition set_if (c : bool) (name value : jsstring) (hs : headers) : outcome headers :=
  if c then headers_set name value hs else Ok hs.

(** The headers of a request made in state [p]. *)
Definition request_headers (p : page) (init : Init) : outcome headers :=
  let! h1 := set_if (match r_body init with Some b => nonempty b | None => false end)
               (js "Content-Type") (js "application/json") ∅ in
  let! h2 := set_if (nonempty (clientId (settings p))) (js "x-peanut-client-id") (clientId (settings p)) h1 in
  let! h3 := set_if (nonempty (apiKey (settings p))) (js "x-peanut-api-key") (apiKey (settings p)) h2 in
  if truthy (accessToken (auth p)) then
    let! t := to_string (accessToken (auth p)) in
    headers_set (js "Authorization") (js "Bearer " ++ t) h3
  else Ok h3.

(** [{ response, data }]: the response and its decoded body. *)
Definition result : Type := response * jsval.

Definition rawRequest (path : jsstring) (init : Init) : app result :=
  p ← trigger GetPage;
  hs ← lift (request_headers p init);
  r ← await (Fetch (baseUrl (settings p) ++ path)
               {| ri_method := r_method init; ri_headers := hs; ri_body := BText <$> r_body init |});
  data ← lift (readJson r);
  Ret (r, data).

Definition appPath (path : jsstring) : app jsstring :=
  p ← trigger GetPage;
  a ← lift (encodeURIComponent (appId (settings p)));
  Ret (js "/api/apps/" ++ a ++ path).

(** [throw new Error(data?.error || fallback)] *)
Definition fail {A} (data : jsval) (fallback : jsstring) : app A :=
  m ← lift (to_string (js_or (get_opt data (js "error")) (JStr fallback)));
  Throw (new_error m).

Definition noRefreshToken : thrown := new_error (js "No refresh token available").

Definition refreshSession : app jsval :=
  p ← trigger GetPage;
  if negb (truthy (refreshToken (auth p))) then Throw noRefreshToken
  else
    path ← appPath (js "/auth/refresh");
    '(response, data) ← rawRequest path (post (JObj [(js "refresh_token", refreshToken (auth p))]));
    if negb (response_ok response) then
      _ ← clearAuthState;
      fail data (js "refresh failed")
    else
      _ ← setTokens data;
      Ret data.

Definition api (path : jsstring) (init : Init) (retry : bool) : app result :=
  res ← rawRequest path init;
  p ← trigger GetPage;
  if (status res.1 =? 401)%Z && retry && truthy (refreshToken (auth p)) then
    _ ← refreshSession;
    rawRequest path init
  else Ret res.

(** [error.message], with the engine's own texts given by [engine]. *)
Definition error_message (engine : jsstring -> jsstring) (e : thrown) : outcome jsval :=
  match e with
  | TError e => Ok (JStr match err_message e with Text m => m | EngineText m => engine m end)
  | TValue v => get v (js "message")
  end.

(** [run(label, fn)]: shows the result or the error of an operation. *)
Definition run_action (engine : jsstring -> jsstring) (label : jsstring) (fn : app jsval) : app unit :=
  _ ← catch (result ← fn;
             setOutput (JObj [(js "label", JStr label); (js "ok", JBool true); (js "result", result)]))
            (fun error =>
               m ← lift (error_message engine error);
               setOutput (JObj [(js "label", JStr label); (js "ok", JBool false); (js "error", m)]));
  renderState.

(** ** The operations of the buttons *)

(** [if (!response.ok) throw ...; return data] *)
Definition ok_or_fail (res : result) (fallback : jsstring) : app jsval :=
  if negb (response_ok res.1) then fail res.2 fallback else Ret res.2.

Definition email_password (p : page) : jsval :=
  JObj [(js "email", JStr (f_email (fields p))); (js "password", JStr (f_password (fields p)))].

Definition register : app jsval :=
  path ← appPath (js "/auth/register");
  p ← trigger GetPage;
  res ← rawRequest path (post (email_password p));
  ok_or_fail res (js "register failed").

Definition login : app jsval :=
  path ← appPath (js "/auth/login");
  p ← trigger GetPage;
  res ← rawRequest path (post (email_password p));
  data ← ok_or_fail res (js "login failed");
  _ ← setTokens data;
  Ret data.

Definition update_auth (f : AuthState -> AuthState) : app unit := modify (fun p => set_auth (f (auth p)) p).

Definition loadMe : app jsval :=
  path ← appPath (js "/auth/me");
  res ← api path no_init true;
  data ← ok_or_fail res (js "load me failed");
  _ ← update_auth (fun a => {| accessToken := accessToken a; refreshToken := refreshToken a;
                               user := coalesce (get_opt data (js "user")) JNull; sessions := sessions a |});
  Ret data.

Definition logout : app jsval :=
  p ← trigger GetPage;
  if negb (truthy (refreshToken (auth p))) then Throw noRefreshToken
  else
    path ← appPath (js "/auth/logout");
    res ← rawRequest path (post (JObj [(js "refresh_token", refreshToken (auth p))]));
    _ ← clearAuthState;
    ok_or_fail res (js "logout failed").

Definition set_sessions (l : list jsval) (a : AuthState) : AuthState :=
  {| accessToken := accessToken a; refreshToken := refreshToken a; user := user a; sessions := l |}.

Definition listSessions : app jsval :=
  path ← appPath (js "/auth/sessions");
  res ← api path no_init true;
  data ← ok_or_fail res (js "list sessions failed");
  _ ← update_auth (set_sessions match get_opt data (js "sessions") with JArr l => l | _ => [] end);
  Ret data.

Definition revokeFirstSession : app jsval :=
  p ← trigger GetPage;
  match sessions (auth p) with
  | [] => Throw (new_error (js "Load sessions first"))
  | first :: _ =>
      session_id ← lift (get first (js "session_id"));
      text ← lift (to_string session_id);
      enc ← lift (encodeURIComponent text);
      path ← appPath (js "/auth/sessions/" ++ enc);
      res ← api path {| r_method := Some (js "DELETE"); r_body := None |} true;
      data ← ok_or_fail res (js "revoke session failed");
      _ ← listSessions;
      Ret (JObj [(js "revoked_session_id", session_id); (js "response", data)])
  end.

Definition revokeAllSessions : app jsval :=
  path ← appPath (js "/auth/sessions/revoke-all");
  res ← api path {| r_method := Some (js "POST"); r_body := None |} true;
  data ← ok_or_fail res (js "revoke all sessions failed");
  _ ← update_auth (set_sessions []);
  Ret data.

(** The own enumerable properties [...v] copies. *)
Definition spread (v : jsval) : list (jsstring * jsval) :=
  match v with
  | JObj l => l
  | JArr l => imap (fun i x => (string_of_Z (Z.of_nat i), x)) l
  | JStr s => imap (fun i c => (string_of_Z (Z.of_nat i), JStr [c])) s
  | _ => []
  end.

Definition changePassword : app jsval :=
  path ← appPath (js "/auth/change-password");
  p ← trigger GetPage;
  res ← api path (post (JObj [(js "current_password", JStr (f_currentPassword (fields p)));
                              (js "new_password", JStr (f_newPassword (fields p)))])) true;
  data ← ok_or_fail res (js "change password failed");
  _ ← clearAuthState;
  Ret (JObj (obj_set (spread data)
    (js "note", JStr (js "Existing refresh sessions are revoked, so the demo clears in-memory auth state.")))).

Definition with_resetToken (t : jsstring) (f : Fields) : Fields :=
  {| f_baseUrl := f_baseUrl f; f_appId := f_appId f; f_apiKey := f_apiKey f; f_clientId := f_clientId f;
     f_email := f_email f; f_password := f_password f; f_currentPassword := f_currentPassword f;
     f_newPassword := f_newPassword f; f_resetToken := t |}.

Definition forgotPassword : app jsval :=
  path ← appPath (js "/auth/forgot-password");
  p ← trigger GetPage;
  res ← rawRequest path (post (JObj [(js "email", JStr (f_email (fields p)))]));
  data ← ok_or_fail res (js "forgot password failed");
  let token := get_opt data (js "reset_token") in
  _ ← (if truthy token then
         t ← lift (to_string token);
         modify (fun p => set_fields (with_resetToken t (fields p)) p)
       else Ret tt);
  Ret data.

Definition resetPassword : app jsval :=
  path ← appPath (js "/auth/reset-password");
  p ← trigger GetPage;
  res ← rawRequest path (post (JObj [(js "reset_token", JStr (f_resetToken (fields p)));
                                     (js "new_password", JStr (f_newPassword (fields p)))]));
  _ ← clearAuthState;
  ok_or_fail res (js "reset password failed").

(** The settings [saveBaseUrl] reads from the form. *)
Definition form_settings (f : Fields) : Settings :=
  {| baseUrl := strip_slash (trim (f_baseUrl f));
     appId := trim (if nonempty (f_appId f) then f_appId f else js "default");
     apiKey := trim (f_apiKey f);
     clientId := trim (f_clientId f) |}.

Definition saveBaseUrl : app jsval :=
  _ ← modify (fun p => set_settings (form_settings (fields p)) p);
  _ ← renderState;
  p ← trigger GetPage;
  let c := settings p in
  _ ← setOutput (JObj [(js "ok", JBool true); (js "baseUrl", JStr (baseUrl c)); (js "appId", JStr (appId c));
                       (js "apiKeyPresent", JBool (nonempty (apiKey c))); (js "clientId", or_null (clientId c))]);
  Ret JUndefined.

(** The click handlers the page installs. *)
Inductive button : Type :=
| SaveBaseUrl | Register | Login | LoadMe | RefreshSession | Logout | ListSessions
| RevokeFirstSession | RevokeAllSessions | ChangePassword | ForgotPassword | ResetPassword.

Definition button_action (b : button) : jsstring * app jsval :=
  match b with
  | SaveBaseUrl => (js "saveBaseUrl", saveBaseUrl)
  | Register => (js "register", register)
  | Login => (js "login", login)
  | LoadMe => (js "loadMe", loadMe)
  | RefreshSession => (js "refreshSession", refreshSession)
  | Logout => (js "logout", logout)
  | ListSessions => (js "listSessions", listSessions)
  | RevokeFirstSession => (js "revokeFirstSession", revokeFirstSession)
  | RevokeAllSessions => (js "revokeAllSessions", revokeAllSessions)
  | ChangePassword => (js "changePassword", changePassword)
  | ForgotPassword => (js "forgotPassword", forgotPassword)
  | ResetPassword => (js "resetPassword", resetPassword)
  end.

Definition click (engine : jsstring -> jsstring) (b : button) : app unit :=
  run_action engine (button_action b).1 (button_action b).2.

(** The end of the script: the first rendering and the welcome message. *)
Definition start : app unit :=
  _ ← renderState;
  setOutput (JObj
    [(js "message", JStr (js "Ready. Set the Peanut base URL, app id, and a client/server app key, then register or login."));
     (js "auth_client_policy_hint", JStr (js "If AUTH_ALLOWED_CLIENT_IDS is enabled on the server, keep the client id field filled so the example sends x-peanut-client-id."));
     (js "production_note", JStr (js "This example stores tokens in memory only. Prefer a BFF or secure cookie strategy for production refresh tokens."))]).

(** ** Execution *)

Record world (Σ : Type) : Type := mkWorld {
  w_page : page;
  w_srv : Σ;
  w_sent : list (jsstring * request_init)
}.
Arguments mkWorld {Σ}.
Arguments w_page {Σ}.
Arguments w_srv {Σ}.
Arguments w_sent {Σ}.

Section Spec.
Context {Σ : Type} (server : Σ -> jsstring -> request_init -> Σ * outcome response).

Definition handle (X : Type) (op : pageE X) : world Σ -> world Σ * X :=
  match op in pageE X return world Σ -> world Σ * X with
  | GetPage => fun w => (w, w_page w)
  | PutPage p => fun w => (mkWorld p (w_srv w) (w_sent w), tt)
  | Fetch url init => fun w =>
      let '(σ, o) := server (w_srv w) url init in
      (mkWorld (w_page w) σ (w_sent w ++ [(url, init)]), o)
  end.

Definition exec {A} (p : app A) (w : world Σ) : world Σ * outcome A := run handle p w.

Lemma page_bind {A B} (p : app A) (f : A -> app B) w :
  exec (p ≫= f) w =
  match exec p w with (w', Ok a) => exec (f a) w' | (w', Err e) => (w', Err e) end.
Proof. apply run_bind. Qed.

Lemma page_lift {A} (x : outcome A) w : exec (lift x) w = (w, x).
Proof. apply run_lift. Qed.

Lemma exec_get {A} (f : page -> app A) w : exec (p ← trigger GetPage; f p) w = exec (f (w_page w)) w.
Proof. done. Qed.

Lemma exec_modify f w : exec (modify f) w = (mkWorld (f (w_page w)) (w_srv w) (w_sent w), Ok tt).
Proof. done. Qed.

(** ** Error containment *)

(** A token as the API defines it: absent, null or a string. *)
Definition token_ok (v : jsval) : Prop :=
  match v with JUndefined | JNull | JStr _ => True | _ => False end.

(** A response body whose tokens, if any, are strings. *)
Definition typed (v : jsval) : Prop :=
  token_ok (get_opt v (js "access_token")) /\ token_ok (get_opt v (js "refresh_token")).

Definition is_error (e : thrown) : Prop := match e with TError _ => True | TValue _ => False end.

(** What is assumed of the server and the platform: token fields are
    strings, and a rejected fetch or body read rejects with an [Error]. *)
Definition server_typed : Prop :=
  forall σ url init σ' o, server σ url init = (σ', o) ->
    match o with
    | Err e => is_error e
    | Ok r => match readJson r with Ok v => typed v | Err e => is_error e end
    end.

(** The page invariant: the stored tokens are null or strings. *)
Definition page_ok (w : world Σ) : Prop :=
  token_ok (accessToken (auth (w_page w))) /\ token_ok (refreshToken (auth (w_page w))).

(** Every run from a good page ends in a good page, with a result in [Q]
    or with an [Error]. *)
Definition safe {A} (p : app A) (Q : A -> Prop) : Prop :=
  forall w, page_ok w ->
    page_ok (exec p w).1 /\ match (exec p w).2 with Ok a => Q a | Err e => is_error e end.

Hypothesis Hserver : server_typed.

Lemma safe_bind {A B} (p : app A) (f : A -> app B) P Q :
  safe p P -> (forall a, P a -> safe (f a) Q) -> safe (p ≫= f) Q.
Proof.
  intros Hp Hf w Hw. rewrite page_bind. destruct (Hp w Hw) as [H1 H2].
  destruct (exec p w) as [w' [a|e]]; cbn [fst snd] in *; [by apply Hf|done].
Qed.

Lemma safe_ret {A} (a : A) (Q : A -> Prop) : Q a -> safe (Ret a) Q.
Proof. intros H w Hw. done. Qed.

Lemma safe_throw {A} e (Q : A -> Prop) : is_error e -> safe (Throw e) Q.
Proof. intros H w Hw. done. Qed.

Lemma safe_lift {A} (x : outcome A) (Q : A -> Prop) :
  match x with Ok a => Q a | Err e => is_error e end -> safe (lift x) Q.
Proof. intros H w Hw. by rewrite page_lift. Qed.

(** Reading the page: its tokens are good. *)
Definition good (p : page) : Prop := token_ok (accessToken (auth p)) /\ token_ok (refreshToken (auth p)).

Lemma safe_get {A} (f : page -> app A) Q : (forall p, good p -> safe (f p) Q) ->
  safe (p ← trigger GetPage; f p) Q.
Proof. intros H w Hw. rewrite exec_get. by apply H. Qed.

Lemma safe_modify f : (forall p, good p -> good (f p)) -> safe (modify f) (fun _ => True).
Proof. intros H w Hw. rewrite exec_modify. split; [|done]. by apply H. Qed.

Lemma safe_put p : good p -> safe (trigger (PutPage p)) (fun _ => True).
Proof. intros H w Hw. done. Qed.

Lemma safe_weaken {A} (p : app A) (P Q : A -> Prop) : safe p P -> (forall a, P a -> Q a) -> safe p Q.
Proof.
  intros Hp HPQ w Hw. destruct (Hp w Hw) as [H1 H2]. split; [done|].
  destruct (exec p w).2; auto.
Qed.

Lemma to_string_error v : match to_string v with Ok _ => True | Err e => is_error e end.
Proof.
  destruct (to_string v) as [s|e] eqn:E; [done|]. by apply to_string_type_error in E as (i & -> & _).
Qed.

Lemma get_error v k : match get v k with Ok x => x = get_opt v k | Err e => is_error e end.
Proof. by destruct v. Qed.

Lemma encode_error s : match encodeURIComponent s with Ok _ => True | Err e => is_error e end.
Proof. unfold encodeURIComponent. by destruct (code_points s). Qed.

Lemma headers_set_error n v hs : match headers_set n v hs with Ok _ => True | Err e => is_error e end.
Proof. unfold headers_set, header_entry, header_value. destruct (header_name n); [|done]. by destruct (forallb _ _). Qed.

Lemma set_if_error c n v hs : match set_if c n v hs with Ok _ => True | Err e => is_error e end.
Proof. unfold set_if. destruct c; [apply headers_set_error|done]. Qed.

(** Sequencing of pure steps that fail only with errors. *)
Lemma bind_error {A B} (x : outcome A) (f : A -> outcome B) :
  match x with Ok _ => True | Err e => is_error e end ->
  (forall a, match f a with Ok _ => True | Err e => is_error e end) ->
  match res_bind x f with Ok _ => True | Err e => is_error e end.
Proof. intros Hx Hf. destruct x; [apply Hf|done]. Qed.

Lemma request_headers_error p init :
  match request_headers p init with Ok _ => True | Err e => is_error e end.
Proof.
  unfold request_headers. do 3 (apply bind_error; [apply set_if_error|intros ?]).
  destruct (truthy _); [|done]. apply bind_error; [apply to_string_error|intros; apply headers_set_error].
Qed.

Lemma preview_ok n v : token_ok v -> exists x, preview n v = Ok x.
Proof. unfold preview. destruct v; try done; cbn [truthy]; eauto. destruct (nonempty s); eauto. Qed.

Lemma state_view_ok p : good p -> exists v, state_view (auth p) (settings p) = Ok v.
Proof.
  intros [Ha Hr]. unfold state_view.
  destruct (preview_ok 12 (JStr (apiKey (settings p))) I) as [k ->].
  destruct (preview_ok 24 _ Ha) as [x ->], (preview_ok 24 _ Hr) as [y ->]. cbn [res_bind]. eauto.
Qed.

Lemma renderState_exec w v : state_view (auth (w_page w)) (settings (w_page w)) = Ok v ->
  exec renderState w =
  (mkWorld (set_screen (with_state (pretty v)
              (badges (auth (w_page w)) (settings (w_page w)) (screen (w_page w)))) (w_page w))
     (w_srv w) (w_sent w), Ok tt).
Proof.
  intros Hv. unfold renderState. rewrite exec_get.
  change (exec (trigger (PutPage ?p) ≫= ?f) w) with (exec (f tt) (mkWorld p (w_srv w) (w_sent w))).
  by rewrite Hv.
Qed.

Lemma renderState_runs w : page_ok w ->
  exists s, exec renderState w = (mkWorld (set_screen s (w_page w)) (w_srv w) (w_sent w), Ok tt) /\
    output s = output (screen (w_page w)).
Proof.
  intros Hw. destruct (state_view_ok (w_page w) Hw) as [v Hv].
  rewrite (renderState_exec w v Hv). eexists. by split.
Qed.

Lemma safe_renderState : safe renderState (fun _ => True).
Proof. intros w Hw. destruct (renderState_runs w Hw) as (x & E & _). by rewrite E. Qed.

Lemma safe_setOutput v : safe (setOutput v) (fun _ => True).
Proof. apply safe_modify. done. Qed.

Lemma safe_clearAuthState : safe clearAuthState (fun _ => True).
Proof.
  apply (safe_bind _ _ (fun _ => True)); [by apply safe_modify|].
  intros _ _. apply safe_renderState.
Qed.

Lemma coalesce_token v : token_ok v -> token_ok (coalesce v JNull).
Proof. by destruct v. Qed.

Lemma safe_setTokens v : typed v -> safe (setTokens v) (fun _ => True).
Proof.
  intros [Ha Hr]. apply safe_get. intros p Hp.
  apply (safe_bind _ _ (fun a => token_ok (accessToken a) /\ token_ok (refreshToken a))).
  - apply safe_lift. unfold set_token_fields.
    destruct v; try done; cbn [get res_bind];
      (split; apply coalesce_token; [apply Ha|apply Hr]).
  - intros a Hg. apply (safe_bind _ _ (fun _ => True)); [by apply safe_modify|].
    intros _ _. apply safe_renderState.
Qed.

Lemma safe_await_fetch url init :
  safe (await (Fetch url init)) (fun r => match readJson r with Ok v => typed v | Err e => is_error e end).
Proof.
  intros w Hw. unfold exec. simpl. destruct (server (w_srv w) url init) as [σ o] eqn:E.
  specialize (Hserver _ _ _ _ _ E). rewrite run_lift. split; [done|]. by destruct o.
Qed.

Lemma safe_rawRequest path init : safe (rawRequest path init) (fun res => typed res.2).
Proof.
  apply safe_get. intros p Hp.
  apply (safe_bind _ _ (fun _ => True)); [apply safe_lift, request_headers_error|].
  intros hs _. eapply safe_bind; [apply safe_await_fetch|].
  intros r Hr. apply (safe_bind _ _ typed); [by apply safe_lift|].
  intros v Hv. by apply safe_ret.
Qed.

Lemma safe_appPath path : safe (appPath path) (fun _ => True).
Proof.
  apply safe_get. intros p Hp. apply (safe_bind _ _ (fun _ => True)).
  - apply safe_lift, encode_error.
  - intros a _. by apply safe_ret.
Qed.

Lemma safe_fail {A} data fb (Q : A -> Prop) : safe (fail data fb) Q.
Proof.
  apply (safe_bind _ _ (fun _ => True)); [apply safe_lift, to_string_error|].
  intros m _. by apply safe_throw.
Qed.

Lemma safe_ok_or_fail res fb : typed res.2 -> safe (ok_or_fail res fb) typed.
Proof.
  intros H. unfold ok_or_fail. destruct (negb _); [apply safe_fail|by apply safe_ret].
Qed.

Lemma safe_refreshSession : safe refreshSession typed.
Proof.
  apply safe_get. intros p Hp. destruct (negb _); [by apply safe_throw|].
  eapply safe_bind; [apply safe_appPath|]. intros path _.
  eapply safe_bind; [apply safe_rawRequest|]. intros [r data] Hd. cbn [snd] in Hd.
  destruct (negb (response_ok r)).
  - eapply safe_bind; [apply safe_clearAuthState|]. intros _ _. apply safe_fail.
  - eapply safe_bind; [by apply safe_setTokens|]. intros _ _. by apply safe_ret.
Qed.

Lemma safe_api path init retry : safe (api path init retry) (fun res => typed res.2).
Proof.
  eapply safe_bind; [apply safe_rawRequest|]. intros res Hr. apply safe_get. intros p Hp.
  destruct (_ && _ && _); [|by apply safe_ret].
  eapply safe_bind; [apply safe_refreshSession|]. intros _ _. apply safe_rawRequest.
Qed.

Lemma safe_update_auth f :
  (forall a, accessToken (f a) = accessToken a /\ refreshToken (f a) = refreshToken a) ->
  safe (update_auth f) (fun _ => True).
Proof.
  intros H. apply safe_modify. intros p [Ha Hr]. destruct (H (auth p)) as [E1 E2].
  split; simpl; congruence.
Qed.

Lemma safe_listSessions : safe listSessions (fun _ => True).
Proof.
  eapply safe_bind; [apply safe_appPath|]. intros path _.
  eapply safe_bind; [apply safe_api|]. intros res Hr.
  eapply safe_bind; [by apply safe_ok_or_fail|]. intros data _.
  eapply safe_bind; [by apply safe_update_auth|]. intros _ _. by apply safe_ret.
Qed.
End Spec.

(** One step of a [safe] proof, by the shape of the program. *)
Ltac safe_step Hs :=
  lazymatch goal with
  | |- safe _ (trigger GetPage ≫= _) _ => apply safe_get; intros ? ?
  | |- safe _ (lift (to_string _) ≫= _) _ =>
      apply (safe_bind _ _ _ (fun _ => True)); [apply safe_lift, to_string_error|intros ? _]
  | |- safe _ (lift (encodeURIComponent _) ≫= _) _ =>
      apply (safe_bind _ _ _ (fun _ => True)); [apply safe_lift, encode_error|intros ? _]
  | |- safe _ (appPath _ ≫= _) _ => eapply safe_bind; [apply safe_appPath|intros ? _]
  | |- safe _ (rawRequest _ _ ≫= _) _ => eapply safe_bind; [apply (safe_rawRequest _ Hs)|intros ? ?]
  | |- safe _ (api _ _ _ ≫= _) _ => eapply safe_bind; [apply (safe_api _ Hs)|intros ? ?]
  | |- safe _ (ok_or_fail _ _ ≫= _) _ => eapply safe_bind; [apply safe_ok_or_fail; assumption|intros ? ?]
  | |- safe _ (clearAuthState ≫= _) _ => eapply safe_bind; [apply safe_clearAuthState|intros _ _]
  | |- safe _ (renderState ≫= _) _ => eapply safe_bind; [apply safe_renderState|intros _ _]
  | |- safe _ (setOutput _ ≫= _) _ => eapply safe_bind; [apply safe_setOutput|intros _ _]
  | |- safe _ (listSessions ≫= _) _ => eapply safe_bind; [apply (safe_listSessions _ Hs)|intros _ _]
  | |- safe _ (setTokens _ ≫= _) _ => eapply safe_bind; [apply safe_setTokens; assumption|intros _ _]
  | |- safe _ (update_auth _ ≫= _) _ => eapply safe_bind; [apply safe_update_auth; done|intros _ _]
  | |- safe _ (modify _ ≫= _) _ => eapply safe_bind; [apply safe_modify; done|intros _ _]
  | |- safe _ (Ret _) _ => apply safe_ret; exact I
  | |- safe _ (ok_or_fail _ _) _ => eapply safe_weaken; [apply safe_ok_or_fail; assumption|done]
  end.

Section Clicks.
Context {Σ : Type} (server : Σ -> jsstring -> request_init -> Σ * outcome response).
Hypothesis Hs : server_typed server.

Lemma safe_revokeFirstSession : safe server revokeFirstSession (fun _ => True).
Proof.
  apply safe_get. intros p Hp. destruct (sessions (auth p)) as [|first rest]; [by apply safe_throw|].
  apply (safe_bind _ _ _ (fun _ => True)).
  { apply safe_lift. pose proof (get_error first (js "session_id")) as H. by destruct (get first _). }
  intros id _. repeat safe_step Hs.
Qed.

Lemma safe_forgotPassword : safe server forgotPassword (fun _ => True).
Proof.
  unfold forgotPassword. do 4 safe_step Hs. cbv zeta.
  apply (safe_bind _ _ _ (fun _ => True)); [|intros _ _; by apply safe_ret].
  destruct (truthy _); [|by apply safe_ret]. safe_step Hs. by apply safe_modify.
Qed.

Lemma safe_logout : safe server logout (fun _ => True).
Proof.
  apply safe_get. intros p Hp. destruct (negb _); [by apply safe_throw|]. repeat safe_step Hs.
Qed.

Lemma safe_action b : safe server (button_action b).2 (fun _ => True).
Proof.
  destruct b; cbn [button_action snd].
  - unfold saveBaseUrl. repeat safe_step Hs.
  - unfold register. repeat safe_step Hs.
  - unfold login. repeat safe_step Hs.
  - unfold loadMe. repeat safe_step Hs.
  - eapply safe_weaken; [by apply safe_refreshSession|done].
  - apply safe_logout.
  - by apply safe_listSessions.
  - apply safe_revokeFirstSession.
  - unfold revokeAllSessions. repeat safe_step Hs.
  - unfold changePassword. repeat safe_step Hs.
  - apply safe_forgotPassword.
  - unfold resetPassword. repeat safe_step Hs.
Qed.

(** The object a finished operation shows. *)
Definition report (engine : jsstring -> jsstring) (label : jsstring) (o : outcome jsval) : jsval :=
  match o with
  | Ok v => JObj [(js "label", JStr label); (js "ok", JBool true); (js "result", v)]
  | Err e =>
      JObj [(js "label", JStr label); (js "ok", JBool false);
            (js "error", match error_message engine e with Ok m => m | Err _ => JUndefined end)]
  end.

Lemma run_action_exec engine label fn w : safe server fn (fun _ => True) -> page_ok w ->
  exec server (run_action engine label fn) w =
  exec server (_ ← setOutput (report engine label (exec server fn w).2); renderState)
    (exec server fn w).1.
Proof.
  intros Hf Hw. unfold run_action. rewrite page_bind. unfold exec at 1. rewrite run_catch.
  change (run (handle server) ?p w) with (exec server p w). rewrite page_bind.
  destruct (Hf w Hw) as [_ He]. destruct (exec server fn w) as [w1 [v|e]]; [done|].
  cbn [fst snd] in *. destruct e as [e|]; [|done]. rewrite run_bind. done.
Qed.

Lemma report_runs v w : page_ok w ->
  exists s, exec server (_ ← setOutput v; renderState) w =
    (mkWorld (set_screen s (w_page w)) (w_srv w) (w_sent w), Ok tt) /\
    output s = match v with JStr t => t | _ => pretty v end.
Proof.
  intros Hw. rewrite page_bind. unfold setOutput. rewrite exec_modify.
  match goal with |- context [exec server renderState ?w1] =>
    destruct (renderState_runs server w1) as (s & E & Ho); [done|] end.
  exists s. rewrite E, Ho. done.
Qed.

(** C11: Error containment: as long as the server's token fields are strings
    and the platform rejects with [Error] objects, every click of every
    button returns without an unhandled rejection, shows a report that
    carries the button's label and whether the operation succeeded, and
    leaves a page on which this holds again. *)
Theorem click_contained engine b w : page_ok w ->
  exists w', exec server (click engine b) w = (w', Ok tt) /\ page_ok w' /\
    auth (w_page w') = auth (w_page (exec server (button_action b).2 w).1) /\
    output (screen (w_page w')) =
      pretty (report engine (button_action b).1 (exec server (button_action b).2 w).2).
Proof.
  intros Hw. unfold click. rewrite run_action_exec by (done || apply safe_action).
  destruct (safe_action b w Hw) as [Hp _].
  destruct (report_runs (report engine (button_action b).1 (exec server (button_action b).2 w).2) _ Hp)
    as (s & E & Ho).
  eexists. split; [exact E|]. split_and!; [done..|]. cbn [w_page set_screen screen]. rewrite Ho.
  by destruct (exec server (button_action b).2 w).2.
Qed.
End Clicks.
(** ** What the operations do *)
Section Behaviour.
Context {Σ : Type} (server : Σ -> jsstring -> request_init -> Σ * outcome response).

(** The request [rawRequest] makes on page [p]. *)
Definition prepared (path : jsstring) (init : Init) (p : page) : outcome (jsstring * request_init) :=
  let! hs := request_headers p init in
  Ok (baseUrl (settings p) ++ path,
      {| ri_method := r_method init; ri_headers := hs; ri_body := BText <$> r_body init |}).

(** One exchange: the state after it and the decoded answer. *)
Definition exchange (q : jsstring * request_init) (w : world Σ) : world Σ * outcome result :=
  let '(σ, o) := server (w_srv w) q.1 q.2 in
  (mkWorld (w_page w) σ (w_sent w ++ [q]),
   let! r := o in let! data := readJson r in Ok (r, data)).

Lemma rawRequest_exec path init w :
  exec server (rawRequest path init) w =
  match prepared path init (w_page w) with
  | Err e => (w, Err e)
  | Ok q => exchange q w
  end.
Proof.
  unfold rawRequest, prepared, exchange. rewrite exec_get, page_bind, page_lift.
  destruct (request_headers (w_page w) init) as [hs|e]; [|done]. cbn [res_bind fst snd].
  unfold exec. simpl. destruct (server (w_srv w) _ _) as [σ [r|e]]; [|done]. simpl.
  rewrite run_bind, run_lift. by destruct (readJson r).
Qed.

Lemma page_exchange_facts q w w' o : exchange q w = (w', o) ->
  w_page w' = w_page w /\ w_sent w' = w_sent w ++ [q].
Proof. unfold exchange. destruct (server _ _ _) as [σ r]. by intros [= <- <-]. Qed.

Lemma appPath_exec path w : exists o, exec server (appPath path) w = (w, o).
Proof.
  unfold appPath. rewrite exec_get, page_bind, page_lift. destruct (encodeURIComponent _); eexists; done.
Qed.

Lemma clearAuthState_exec w : exists w', exec server clearAuthState w = (w', Ok tt) /\
  auth (w_page w') = authState0 /\ settings (w_page w') = settings (w_page w) /\ w_sent w' = w_sent w /\
  w_srv w' = w_srv w.
Proof.
  unfold clearAuthState. rewrite page_bind, exec_modify.
  match goal with |- context [exec server renderState ?w1] =>
    destruct (renderState_runs server w1) as (s & E & _); [done|] end.
  eexists. rewrite E. done.
Qed.

Lemma ok_or_fail_exec res fb w : exists o, exec server (ok_or_fail res fb) w = (w, o).
Proof.
  unfold ok_or_fail, fail. destruct (negb _); [|by eexists]. rewrite page_bind, page_lift.
  destruct (to_string _); by eexists.
Qed.

(** A request whose answer, whatever it is, ends the session. *)
Definition closing (path : jsstring) (init : Init) (fb : jsstring) : app jsval :=
  res ← rawRequest path init;
  _ ← clearAuthState;
  ok_or_fail res fb.

(** After sending [evs]: signed out if an answer was read, else unchanged. *)
Definition closed (w w' : world Σ) : Prop :=
  (w_sent w' = w_sent w /\ auth (w_page w') = auth (w_page w)) \/
  exists q σ o, w_sent w' = w_sent w ++ [q] /\ server (w_srv w) q.1 q.2 = (σ, o) /\
    match (let! r := o in readJson r) with
    | Ok _ => auth (w_page w') = authState0
    | Err _ => auth (w_page w') = auth (w_page w)
    end.

Lemma closing_exec path init fb w w' o : exec server (closing path init fb) w = (w', o) -> closed w w'.
Proof.
  unfold closing. rewrite page_bind, rawRequest_exec.
  destruct (prepared path init (w_page w)) as [q|e]; [|intros [= <- <-]; by left].
  unfold exchange. destruct (server (w_srv w) q.1 q.2) as [σ ro] eqn:Es. intros H.
  right. exists q, σ, ro. destruct ro as [r|e]; cbn [res_bind] in H |- *; [|by simplify_eq].
  destruct (readJson r) as [v|e]; cbn [res_bind] in H |- *; [|by simplify_eq].
  rewrite page_bind in H.
  destruct (clearAuthState_exec (mkWorld (w_page w) σ (w_sent w ++ [q]))) as (w1 & E & Ha & _ & Hl & _).
  rewrite E in H. destruct (ok_or_fail_exec (r, v) fb w1) as [o1 E1]. rewrite E1 in H. by simplify_eq.
Qed.

Lemma closed_appPath path (f : jsstring -> app jsval) w w' o :
  (forall p, exec server (f p) w = (w', o) -> closed w w') ->
  exec server (p ← appPath path; f p) w = (w', o) -> closed w w'.
Proof.
  intros Hf. rewrite page_bind. destruct (appPath_exec path w) as [x ->].
  destruct x as [p|e]; [apply Hf|]. intros [= <- <-]. by left.
Qed.

(** Signing out and resetting the password always drop the credentials:
    once the server's answer has been read, [logout] and [resetPassword]
    leave the page without tokens, user and sessions, also when the answer
    is an error; if nothing was sent or no answer came, the state is kept. *)
Lemma logout_reset_close w :
  closed w (exec server logout w).1 /\ closed w (exec server resetPassword w).1.
Proof.
  split.
  - destruct (exec server logout w) as [w' o] eqn:E. revert E. unfold logout. rewrite exec_get.
    destruct (negb _); [intros [= <- <-]; by left|]. apply closed_appPath. intros p. apply closing_exec.
  - destruct (exec server resetPassword w) as [w' o] eqn:E. revert E. unfold resetPassword.
    apply closed_appPath. intros p. rewrite exec_get. apply closing_exec.
Qed.
End Behaviour.

(** ** Previews *)

(** Two secrets that show alike: the same first [n] code units, and both
    empty or both not. *)
Definition alike (n : nat) (s t : jsstring) : Prop := slice 0 n s = slice 0 n t /\ nonempty s = nonempty t.

(** C35: The state panel abbreviates secrets: what [renderState] writes (the
    state dump and the four badges) depends on the access token, the refresh
    token and the API key only through whether they are empty and their first
    24 (12) code units, so it is the same for two pages that differ beyond
    that, whatever their result elements show; the result element, into which
    [run] prints complete answers, is left as it is. *)
Theorem renderState_private {Σ} server (w1 w2 : world Σ) a1 a2 r1 r2 :
  accessToken (auth (w_page w1)) = JStr a1 -> accessToken (auth (w_page w2)) = JStr a2 -> alike 24 a1 a2 ->
  refreshToken (auth (w_page w1)) = JStr r1 -> refreshToken (auth (w_page w2)) = JStr r2 -> alike 24 r1 r2 ->
  user (auth (w_page w1)) = user (auth (w_page w2)) -> sessions (auth (w_page w1)) = sessions (auth (w_page w2)) ->
  baseUrl (settings (w_page w1)) = baseUrl (settings (w_page w2)) ->
  appId (settings (w_page w1)) = appId (settings (w_page w2)) ->
  clientId (settings (w_page w1)) = clientId (settings (w_page w2)) ->
  alike 12 (apiKey (settings (w_page w1))) (apiKey (settings (w_page w2))) ->
  let s1 := screen (w_page (exec server renderState w1).1) in
  let s2 := screen (w_page (exec server renderState w2).1) in
  (forall text, with_output text s1 = with_output text s2) /\
  output s1 = output (screen (w_page w1)) /\ output s2 = output (screen (w_page w2)).
Proof.
  intros Ha1 Ha2 [Hpa Hna] Hr1 Hr2 [Hpr Hnr] Hu Hss Hb Hi Hc [Hpk Hnk].
  assert (state_view (auth (w_page w1)) (settings (w_page w1)) =
          state_view (auth (w_page w2)) (settings (w_page w2))) as Hv.
  { unfold state_view, preview. rewrite Ha1, Ha2, Hr1, Hr2, Hb, Hi, Hc, Hu, Hss. cbn [truthy].
    by rewrite Hpa, Hna, Hpr, Hnr, Hpk, Hnk. }
  destruct (state_view_ok (w_page w2)) as [v Ev]; [unfold good; by rewrite Ha2, Hr2|].
  rewrite Ev in Hv. rewrite (renderState_exec _ _ _ Hv), (renderState_exec _ _ _ Ev).
  cbn [fst w_page set_screen screen]. split; [|done]. intros text. unfold with_output, with_state, badges, presence.
  cbn [output stateOutput accessState refreshState clientIdState appIdState].
  rewrite Ha1, Ha2, Hr1, Hr2, Hc, Hi. cbn [truthy]. by rewrite Hna, Hnr.
Qed.

(** ** The settings form *)

Lemma saveBaseUrl_exec {Σ} server (w : world Σ) : page_ok w ->
  exists s, exec server saveBaseUrl w =
    (mkWorld (mkPage (auth (w_page w)) (form_settings (fields (w_page w))) (fields (w_page w)) s)
       (w_srv w) (w_sent w), Ok JUndefined).
Proof.
  intros Hw. unfold saveBaseUrl. rewrite page_bind, exec_modify, page_bind.
  match goal with |- context [exec server renderState ?w1] =>
    destruct (renderState_runs server w1) as (s & E & _); [done|] end.
  rewrite E. rewrite exec_get. by eexists.
Qed.

(** Saving the settings stores the trimmed form values, but the summary
    [saveBaseUrl] writes to the output element never stays there: the button
    handler overwrites it with a report that has no result. *)
Lemma saveBaseUrl_summary_lost {Σ} server engine (w : world Σ) : page_ok w ->
  exists w', exec server (click engine SaveBaseUrl) w = (w', Ok tt) /\
    settings (w_page w') = form_settings (fields (w_page w)) /\
    output (screen (w_page w')) = pretty (JObj [(js "label", JStr (js "saveBaseUrl")); (js "ok", JBool true)]).
Proof.
  intros Hw. destruct (saveBaseUrl_exec server w Hw) as [s E].
  unfold click, run_action, button_action. cbn [fst snd]. rewrite page_bind. unfold exec at 1. rewrite run_catch, run_bind.
  unfold exec in E. rewrite E. clear E.
  match goal with |- context [run (handle server) (setOutput ?v) ?w1] =>
    pose proof (report_runs server v w1 Hw) as (s' & E & Ho) end.
  eexists. split; [exact E|]. split; [done|]. cbn [w_page set_screen screen]. rewrite Ho. done.
Qed.

End Demo.
