(* ===== verification/CodeEditor.v ===== *)
(** * The code editor: [console/src/components/console/shared/code-editor.tsx]

    [CodeEditor] is a controlled text area with its own undo history (at most
    100 snapshots), Tab indentation and Shift+Tab unindentation.  The state
    holds the component's refs and state, the [value] prop and the text
    area's selection; the parent passes a changed value back as the prop
    (every caller in the console does), and the effect on [value] runs after
    each change.  Selections are offsets of UTF-16 code units. *)

From S2P Require Import Prelude JsString JsNumber JsValue Json.

Module Editor.

(** An entry of [historyRef]. *)
Record snapshot : Type := mkSnap {
  s_value : jsstring;
  s_start : nat;
  s_end : nat
}.

#[global] Instance snapshot_eq_dec : EqDecision snapshot.
Proof. solve_decision. Defined.

(** [onChange] given?, [readOnly] *)
Record props : Type := { hasOnChange : bool; readOnly : bool }.

Record editor : Type := mkEditor {
  value : jsstring;
  history : list snapshot;
  historyIndex : nat;
  currentLine : nat;
  scrollTop : Z;
  gutterTop : Z;
  selStart : nat;
  selEnd : nat;
  frames : list snapshot
}.

(** The first render. *)
Definition mount (v : jsstring) : editor :=
  mkEditor v [mkSnap v 0 0] 0 1 0%Z 0%Z 0 0 [].

Definition with_history (h : list snapshot) (i : nat) (e : editor) : editor :=
  mkEditor (value e) h i (currentLine e) (scrollTop e) (gutterTop e) (selStart e) (selEnd e) (frames e).

Definition with_line (l : nat) (e : editor) : editor :=
  mkEditor (value e) (history e) (historyIndex e) l (scrollTop e) (gutterTop e) (selStart e) (selEnd e) (frames e).

(** [Math.max(1, value.split("\n").length)] *)
Definition lines (v : jsstring) : nat := Nat.max 1 (length (split [cu_nl] v)).

(** [v.slice(0, i).split("\n").length] *)
Definition line_of (v : jsstring) (i : nat) : nat := length (split [cu_nl] (slice 0 i v)).

(** [useEffect(..., [value])] *)
Definition valueEffect (e : editor) : editor :=
  match history e !! historyIndex e with
  | Some cur => if jseq (s_value cur) (value e) then e else with_history [mkSnap (value e) 0 0] 0 e
  | None => e
  end.

(** The parent's [onChange(v)]: the prop becomes [v] and the effect runs if it changed. *)
Definition changeValue (v : jsstring) (e : editor) : editor :=
  let e' := mkEditor v (history e) (historyIndex e) (currentLine e) (scrollTop e) (gutterTop e)
              (selStart e) (selEnd e) (frames e) in
  if jseq v (value e) then e' else valueEffect e'.

Definition syncCursorLine (e : editor) : editor := with_line (line_of (value e) (selStart e)) e.

Definition pushHistory (nextValue : jsstring) (nextStart nextEnd : nat) (e : editor) : editor :=
  let next := mkSnap nextValue nextStart nextEnd in
  if bool_decide (history e !! historyIndex e = Some next) then e
  else
    let nextHistory := take (historyIndex e + 1) (history e) ++ [next] in
    let nextHistory := if 100 <? length nextHistory then tail nextHistory else nextHistory in
    with_history nextHistory (length nextHistory - 1) e.

(** [requestAnimationFrame(() => ...)]: the callback is queued. *)
Definition requestFrame (s : snapshot) (e : editor) : editor :=
  mkEditor (value e) (history e) (historyIndex e) (currentLine e) (scrollTop e) (gutterTop e)
    (selStart e) (selEnd e) (frames e ++ [s]).

Section Component.
Variable p : props.

(** [!onChange || readOnly] *)
Definition frozen : bool := negb (hasOnChange p) || readOnly p.

Definition updateValueAndSelection (nextValue : jsstring) (nextStart nextEnd : nat) (e : editor) : editor :=
  if frozen then e
  else requestFrame (mkSnap nextValue nextStart nextEnd)
         (changeValue nextValue (pushHistory nextValue nextStart nextEnd e)).

Definition applyHistorySnapshot (s : snapshot) (e : editor) : editor :=
  if frozen then e else requestFrame s (changeValue (s_value s) e).

(** The queued callback: restore the selection and the current line. *)
Definition runFrame (e : editor) : editor :=
  match frames e with
  | [] => e
  | s :: rest =>
      mkEditor (value e) (history e) (historyIndex e) (line_of (s_value s) (s_start s))
        (scrollTop e) (gutterTop e) (s_start s) (s_end s) rest
  end.

Definition undo (e : editor) : editor :=
  if historyIndex e <=? 0 then e
  else
    let e' := with_history (history e) (historyIndex e - 1) e in
    match history e' !! historyIndex e' with
    | Some s => applyHistorySnapshot s e'
    | None => e'
    end.

Definition redo (e : editor) : editor :=
  if length (history e) - 1 <=? historyIndex e then e
  else
    let e' := with_history (history e) (historyIndex e + 1) e in
    match history e' !! historyIndex e' with
    | Some s => applyHistorySnapshot s e'
    | None => e'
    end.

(** ** Indentation *)

(** Where [^] matches in multiline mode: after these units. *)
Definition line_terminator (c : N) : bool := ((c =? 10) || (c =? 13) || (c =? 8232) || (c =? 8233))%N.

(** [value.lastIndexOf("\n", start - 1) + 1]; a negative position counts as 0. *)
Definition lineStart (v : jsstring) (start : nat) : nat :=
  match last_index_upto cu_nl (Nat.max 1 start) v with
  | Some i => i + 1
  | None => 0
  end.

(** [block.replace(/^( {1,2}|\t)/gm, ...)]: the text, [removedTotal] and
    [removedBeforeStart] for matches at offsets below [limit]. *)
Fixpoint unindent (limit : nat) (bol : bool) (offset : nat) (s : jsstring) : jsstring * nat * nat :=
  let skip n s' :=
    let '(t, total, before) := unindent limit false (offset + n) s' in
    (t, total + n, if offset <? limit then before + n else before) in
  match s with
  | [] => ([], 0, 0)
  | c :: s1 =>
      if bol && (c =? 32)%N then
        match s1 with
        | d :: s2 => if (d =? 32)%N then skip 2 s2 else skip 1 s1
        | [] => skip 1 s1
        end
      else if bol && (c =? 9)%N then skip 1 s1
      else
        let '(t, total, before) := unindent limit (line_terminator c) (offset + 1) s1 in
        (c :: t, total, before)
  end.

(** [block.replace(/^/gm, "  ")] *)
Fixpoint indent (bol : bool) (s : jsstring) : jsstring :=
  (if bol then [32; 32]%N else []) ++
  match s with [] => [] | c :: s' => c :: indent (line_terminator c) s' end.

Record key_event : Type := { metaKey : bool; ctrlKey : bool; shiftKey : bool; key : jsstring }.

(** Shift+Tab. *)
Definition unindentSelection (e : editor) : editor :=
  let start := selStart e in
  let end' := selEnd e in
  let ls := lineStart (value e) start in
  let selectedBlock := slice ls end' (value e) in
  let '(unindented, removedTotal, removedBeforeStart) := unindent (start - ls) true 0 selectedBlock in
  updateValueAndSelection (slice 0 ls (value e) ++ unindented ++ slice_from end' (value e))
    (Nat.max ls (start - removedBeforeStart)) (Nat.max ls (end' - removedTotal)) e.

(** Tab: indent the selected lines, or insert two spaces. *)
Definition indentSelection (e : editor) : editor :=
  let start := selStart e in
  let end' := selEnd e in
  let ls := lineStart (value e) start in
  if negb (start =? end') && includes [cu_nl] (slice start end' (value e)) then
    let selectedBlock := slice ls end' (value e) in
    let addedLines := length (split [cu_nl] selectedBlock) in
    updateValueAndSelection (slice 0 ls (value e) ++ indent true selectedBlock ++ slice_from end' (value e))
      (start + 2) (end' + addedLines * 2) e
  else
    updateValueAndSelection (slice 0 start (value e) ++ js "  " ++ slice_from end' (value e))
      (start + 2) (start + 2) e.

Definition handleTab (ev : key_event) (e : editor) : editor :=
  if readOnly p then e
  else
    let isModifierPressed := metaKey ev || ctrlKey ev in
    let k := to_lower (key ev) in
    if isModifierPressed && jseq k (js "z") then (if shiftKey ev then redo e else undo e)
    else if isModifierPressed && jseq k (js "y") then redo e
    else if negb (jseq (key ev) (js "Tab")) then e
    else if shiftKey ev then unindentSelection e
    else indentSelection e.

(** The text area's [onChange]: the browser has changed text and selection. *)
Definition onTextChange (nextValue : jsstring) (nextStart nextEnd : nat) (e : editor) : editor :=
  if frozen then e
  else with_line (line_of nextValue nextStart)
         (changeValue nextValue (pushHistory nextValue nextStart nextEnd e)).

Definition onScroll (nextScrollTop : Z) (e : editor) : editor :=
  mkEditor (value e) (history e) (historyIndex e) (currentLine e) nextScrollTop nextScrollTop
    (selStart e) (selEnd e) (frames e).

(** The user moves the selection. *)
Definition select (start end' : nat) (e : editor) : editor :=
  mkEditor (value e) (history e) (historyIndex e) (currentLine e) (scrollTop e) (gutterTop e)
    start end' (frames e).

(** ** The component as a state machine *)
Inductive step : editor -> editor -> Prop :=
| StepType v i j e : step e (onTextChange v i j (select i j e))
| StepKey ev e : step e (handleTab ev e)
| StepFrame e : step e (runFrame e)
| StepSelect i j e : step e (syncCursorLine (select i j e))
| StepScroll z e : step e (onScroll z e)
| StepParent v e : step e (changeValue v e).

Inductive reachable (v : jsstring) : editor -> Prop :=
| reach_mount : reachable v (mount v)
| reach_step e e' : reachable v e -> step e e' -> reachable v e'.
End Component.

(** The line numbers of the gutter, and whether each is highlighted. *)
Definition gutter (e : editor) : list (nat * bool) :=
  map (fun i => (i, currentLine e =? i)) (seq 1 (lines (value e))).

(** The position of the highlight bar. *)
Definition highlight_top (e : editor) : Z := ((Z.of_nat (currentLine e) - 1) * 20 + 12 - scrollTop e)%Z.

(** [JsonBlock]: a read-only editor on the pretty-printed value ([undefined]
    has no text). *)
Definition JsonBlock (v : jsval) : option (editor * props) :=
  match json_stringify_gap (js "  ") v with
  | Some t => Some (mount t, {| hasOnChange := false; readOnly := true |})
  | None => None
  end.

(** ** The history invariant *)
Section History.
Variable p : props.

(** The current snapshot holds the value shown, there are between 1 and 100
    snapshots, and an editor that cannot change keeps only one. *)
Definition editor_ok (e : editor) : Prop :=
  (exists s, history e !! historyIndex e = Some s /\ s_value s = value e) /\
  length (history e) <= 100 /\
  (frozen p = true -> length (history e) = 1).

Lemma ok_index e : editor_ok e -> historyIndex e < length (history e).
Proof. intros ((s & Hs & _) & _). by apply lookup_lt_Some in Hs. Qed.

Lemma valueEffect_ok e : historyIndex e < length (history e) -> length (history e) <= 100 ->
  (frozen p = true -> length (history e) = 1) -> editor_ok (valueEffect e).
Proof.
  intros Hi Hl Hf. unfold valueEffect.
  destruct (lookup_lt_is_Some_2 _ _ Hi) as [s Hs]. rewrite Hs.
  destruct (jseq (s_value s) (value e)) eqn:E.
  - apply jseq_eq in E. split_and!; try done. by exists s.
  - split_and!; simpl; try done; try lia. by eexists.
Qed.

Lemma changeValue_ok v e : editor_ok e -> editor_ok (changeValue v e).
Proof.
  intros Hok. unfold changeValue. destruct (jseq v (value e)) eqn:E.
  - apply jseq_eq in E. subst v. exact Hok.
  - pose proof (ok_index e Hok). destruct Hok as (_ & ? & ?). by apply valueEffect_ok.
Qed.

(** What [pushHistory] makes of the history. *)
Definition pushed (h : list snapshot) (i : nat) (s : snapshot) : list snapshot :=
  let h' := take (i + 1) h ++ [s] in if 100 <? length h' then tail h' else h'.

Lemma pushed_last h i s : i < length h -> length h <= 100 ->
  pushed h i s !! (length (pushed h i s) - 1) = Some s /\ length (pushed h i s) <= 100.
Proof.
  intros Hi Hl. unfold pushed. cbv zeta.
  assert (length (take (i + 1) h) = i + 1) as Ht by (rewrite length_take; lia).
  assert (forall l : list snapshot, (l ++ [s]) !! (length (l ++ [s]) - 1) = Some s) as Hlast.
  { intros l. rewrite length_app. simpl. rewrite Nat.add_sub. rewrite lookup_app_r by done.
    by rewrite Nat.sub_diag. }
  destruct (Nat.ltb_spec 100 (length (take (i + 1) h ++ [s]))) as [Hlt|Hge].
  - destruct (take (i + 1) h) as [|x l]; cbn [app tail]; [simpl in Ht; lia|].
    split; [apply Hlast|]. rewrite length_app. simpl in *. lia.
  - split; [apply Hlast|done].
Qed.

(** After a push the current snapshot is the pushed one. *)
Lemma pushHistory_current v i j e : editor_ok e ->
  let e' := pushHistory v i j e in
  history e' !! historyIndex e' = Some (mkSnap v i j) /\ length (history e') <= 100.
Proof.
  intros Hok. pose proof (ok_index e Hok) as Hi. destruct Hok as (_ & Hl & _). cbv zeta.
  unfold pushHistory. destruct (bool_decide _) eqn:E; [by apply bool_decide_eq_true in E|].
  by apply pushed_last.
Qed.

Lemma valueEffect_synced e s : history e !! historyIndex e = Some s -> s_value s = value e ->
  valueEffect e = e.
Proof. intros Hs Hv. unfold valueEffect. by rewrite Hs, (proj2 (jseq_eq _ _) Hv). Qed.

Definition with_value (v : jsstring) (e : editor) : editor :=
  mkEditor v (history e) (historyIndex e) (currentLine e) (scrollTop e) (gutterTop e)
    (selStart e) (selEnd e) (frames e).

(** A value change that the current snapshot anticipates keeps the history. *)
Lemma changeValue_synced v e s : history e !! historyIndex e = Some s -> s_value s = v ->
  changeValue v e = with_value v e.
Proof.
  intros Hs Hv. unfold changeValue, with_value. destruct (jseq v (value e)); [done|].
  by eapply valueEffect_synced.
Qed.

(** Typing and the Tab commands record an edit. *)
Definition edited (v : jsstring) (i j : nat) (e : editor) : editor :=
  changeValue v (pushHistory v i j e).

Lemma edited_eq v i j e : editor_ok e -> edited v i j e = with_value v (pushHistory v i j e).
Proof.
  intros Hok. destruct (pushHistory_current v i j e Hok) as [Hc _].
  unfold edited. by eapply changeValue_synced.
Qed.

Lemma edited_ok v i j e : frozen p = false -> editor_ok e -> editor_ok (edited v i j e).
Proof.
  intros Hf Hok. destruct (pushHistory_current v i j e Hok) as [Hc Hl].
  rewrite edited_eq by done. split_and!; [by eexists|done|]. by rewrite Hf.
Qed.

(** The invariant ignores the selection, the lines and the frames. *)
Lemma editor_ok_frame e e' : value e' = value e -> history e' = history e ->
  historyIndex e' = historyIndex e -> editor_ok e -> editor_ok e'.
Proof. unfold editor_ok. by intros -> -> ->. Qed.

Lemma update_ok v i j e : editor_ok e -> editor_ok (updateValueAndSelection p v i j e).
Proof.
  intros Hok. unfold updateValueAndSelection. destruct (frozen p) eqn:Hf; [done|].
  by eapply editor_ok_frame, edited_ok.
Qed.

(** Moving to another snapshot of the history. *)
Lemma goto_eq i s e : frozen p = false -> history e !! i = Some s ->
  applyHistorySnapshot p s (with_history (history e) i e) =
  requestFrame s (with_value (s_value s) (with_history (history e) i e)).
Proof.
  intros Hf Hs. unfold applyHistorySnapshot. rewrite Hf.
  by rewrite (changeValue_synced _ (with_history (history e) i e) s).
Qed.

Lemma goto_ok i s e : editor_ok e -> frozen p = false -> history e !! i = Some s ->
  editor_ok (applyHistorySnapshot p s (with_history (history e) i e)).
Proof.
  intros (_ & Hl & Hf') Hf Hs. rewrite goto_eq by done. split_and!; [by exists s|done|done].
Qed.

Lemma undo_ok e : editor_ok e -> editor_ok (undo p e).
Proof.
  intros Hok. unfold undo. destruct (Nat.leb_spec (historyIndex e) 0) as [H0|H0]; [done|].
  pose proof (ok_index e Hok) as Hi. cbn [history historyIndex with_history].
  destruct (lookup_lt_is_Some_2 (history e) (historyIndex e - 1)) as [s Hs]; [lia|]. rewrite Hs.
  apply goto_ok; try done. destruct (frozen p) eqn:Hf; [|done]. destruct Hok as (_ & _ & H1).
  rewrite H1 in Hi by done. lia.
Qed.

Lemma redo_ok e : editor_ok e -> editor_ok (redo p e).
Proof.
  intros Hok. unfold redo. destruct (Nat.leb_spec (length (history e) - 1) (historyIndex e)) as [H0|H0]; [done|].
  cbn [history historyIndex with_history].
  destruct (lookup_lt_is_Some_2 (history e) (historyIndex e + 1)) as [s Hs]; [lia|]. rewrite Hs.
  apply goto_ok; try done. destruct (frozen p) eqn:Hf; [|done]. destruct Hok as (_ & _ & H1).
  rewrite H1 in H0 by done. lia.
Qed.

Lemma handleTab_ok ev e : editor_ok e -> editor_ok (handleTab p ev e).
Proof.
  intros Hok. unfold handleTab. destruct (readOnly p); [done|]. cbv zeta.
  destruct (_ && _); [destruct (shiftKey ev); auto using undo_ok, redo_ok|].
  destruct (_ && _); [auto using redo_ok|]. destruct (negb _); [done|].
  destruct (shiftKey ev); unfold unindentSelection, indentSelection; cbv zeta.
  - destruct (unindent _ _ _ _) as [[t a] b]. by apply update_ok.
  - destruct (_ && _); by apply update_ok.
Qed.

Lemma step_ok e e' : step p e e' -> editor_ok e -> editor_ok e'.
Proof.
  destruct 1; intros Hok.
  - unfold onTextChange. destruct (frozen p) eqn:Hf; [done|].
    eapply editor_ok_frame; [..|apply (edited_ok v i j (select i j e)); [done|]]; done.
  - by apply handleTab_ok.
  - unfold runFrame. by destruct (frames e).
  - done.
  - done.
  - by apply changeValue_ok.
Qed.

Lemma mount_ok v : editor_ok (mount v).
Proof. split_and!; simpl; [by eexists|lia|done]. Qed.

(** C6: The undo history of every reachable editor, read-only or not, after
    any sequence of typing, key presses, selections, animation frames and
    prop changes, has between 1 and 100 snapshots, its index is in range,
    and the snapshot at the index holds exactly the text shown. *)
Theorem history_invariant v e : reachable p v e ->
  1 <= length (history e) <= 100 /\ historyIndex e < length (history e) /\
  exists s, history e !! historyIndex e = Some s /\ s_value s = value e.
Proof.
  intros Hr. assert (editor_ok e) as Hok.
  { induction Hr as [|e e' _ IH Hs]; [apply mount_ok|by eapply step_ok]. }
  pose proof (ok_index e Hok). destruct Hok as (H1 & H2 & _). split_and!; try done. lia.
Qed.
End History.

(** ** Undo and redo *)
Section Undo.
Variable p : props.
Hypothesis Hp : frozen p = false.

Lemma undo_eq e s : history e !! (historyIndex e - 1) = Some s -> 0 < historyIndex e ->
  undo p e = requestFrame s (with_value (s_value s) (with_history (history e) (historyIndex e - 1) e)).
Proof.
  intros Hs H0. unfold undo. destruct (Nat.leb_spec (historyIndex e) 0); [lia|]. cbv zeta.
  cbn [history historyIndex with_history]. rewrite Hs. by apply goto_eq.
Qed.

Lemma redo_eq e s : history e !! (historyIndex e + 1) = Some s ->
  redo p e = requestFrame s (with_value (s_value s) (with_history (history e) (historyIndex e + 1) e)).
Proof.
  intros Hs. pose proof (lookup_lt_Some _ _ _ Hs). unfold redo.
  destruct (Nat.leb_spec (length (history e) - 1) (historyIndex e)); [lia|]. cbv zeta.
  cbn [history historyIndex with_history]. rewrite Hs. by apply goto_eq.
Qed.

(** Redo inverts undo: on an editor with something to undo, undo moves
    exactly one snapshot back, keeps the whole history, and redo then
    restores the text and the position in the history. *)
Lemma undo_redo e : editor_ok p e -> 0 < historyIndex e ->
  let e1 := undo p e in
  let e2 := redo p e1 in
  history e1 = history e /\ historyIndex e1 = historyIndex e - 1 /\ editor_ok p e1 /\
  value e2 = value e /\ history e2 = history e /\ historyIndex e2 = historyIndex e.
Proof.
  intros Hok H0. cbv zeta. pose proof (ok_index p e Hok) as Hi.
  pose proof (undo_ok p e Hok) as Hok1.
  destruct (lookup_lt_is_Some_2 (history e) (historyIndex e - 1)) as [s Hs]; [lia|].
  destruct Hok as ((c & Hc & Hv) & _). rewrite (undo_eq e s) in * by done.
  set (e1 := requestFrame s _) in *.
  assert (history e1 = history e) as Hh by done.
  assert (historyIndex e1 = historyIndex e - 1) as Hx by done.
  rewrite (redo_eq e1 c) by (rewrite Hh, Hx; by replace (historyIndex e - 1 + 1) with (historyIndex e) by lia).
  cbn [value history historyIndex requestFrame with_value with_history]. rewrite Hh, Hx.
  split_and!; try done. lia.
Qed.

(** Typing a sequence of edits. *)
Definition type_all (l : list snapshot) (e : editor) : editor :=
  fold_left (fun e s => onTextChange p (s_value s) (s_start s) (s_end s) e) l e.

(** No edit repeats the snapshot before it. *)
Fixpoint distinct_from (c : snapshot) (l : list snapshot) : Prop :=
  match l with [] => True | s :: l' => s <> c /\ distinct_from s l' end.

(** An editor at the end of the history [h ++ [c]]. *)
Definition at_end (h : list snapshot) (c : snapshot) (e : editor) : Prop :=
  history e = h ++ [c] /\ historyIndex e = length h /\ value e = s_value c.

Lemma at_end_current h c e : at_end h c e -> history e !! historyIndex e = Some c.
Proof. intros (-> & -> & _). rewrite lookup_app_r by done. by rewrite Nat.sub_diag. Qed.

Lemma type_at_end h c s e : at_end h c e -> s <> c -> length h + 2 <= 100 ->
  at_end (h ++ [c]) s (onTextChange p (s_value s) (s_start s) (s_end s) e).
Proof.
  intros He Hne Hl. pose proof (at_end_current h c e He) as Hc. destruct He as (Hh & Hi & Hv).
  assert (editor_ok p e) as Hok.
  { split_and!; [by exists c|rewrite Hh, length_app; simpl; lia|by rewrite Hp]. }
  unfold onTextChange. rewrite Hp.
  change (changeValue (s_value s) (pushHistory (s_value s) (s_start s) (s_end s) e))
    with (edited (s_value s) (s_start s) (s_end s) e).
  rewrite (edited_eq p) by done.
  assert (mkSnap (s_value s) (s_start s) (s_end s) = s) as Es by (by destruct s).
  assert (pushHistory (s_value s) (s_start s) (s_end s) e =
          with_history ((h ++ [c]) ++ [s]) (length (h ++ [c])) e) as Hpush.
  { unfold pushHistory. rewrite Es, bool_decide_eq_false_2 by (rewrite Hc; congruence). cbv zeta.
    rewrite Hh, Hi. rewrite take_ge by (rewrite length_app; simpl; lia).
    destruct (Nat.ltb_spec 100 (length ((h ++ [c]) ++ [s]))) as [Hlt|_].
    { rewrite !length_app in Hlt. simpl in Hlt. lia. }
    f_equal. rewrite (length_app (h ++ [c])). simpl. lia. }
  rewrite Hpush. done.
Qed.

Lemma type_all_at_end l h c e : at_end h c e -> distinct_from c l -> length h + 1 + length l <= 100 ->
  exists h' c', at_end h' c' (type_all l e) /\ h' ++ [c'] = h ++ c :: l.
Proof.
  revert h c e. induction l as [|s l IH]; intros h c e He Hd Hl; simpl in *.
  { by exists h, c. }
  destruct Hd as [Hne Hd].
  destruct (IH (h ++ [c]) s _ (type_at_end h c s e He Hne ltac:(lia)) Hd) as (h' & c' & H1 & H2).
  { rewrite length_app. simpl. lia. }
  exists h', c'. split; [done|]. by rewrite H2, <- app_assoc.
Qed.

(** [k] undos in a row. *)
Lemma undo_iter k e s : historyIndex e < length (history e) -> k < historyIndex e ->
  history e !! (historyIndex e - S k) = Some s ->
  let e' := Nat.iter (S k) (undo p) e in
  value e' = s_value s /\ history e' = history e /\ historyIndex e' = historyIndex e - S k.
Proof.
  intros Hlt. cbv zeta. revert s. induction k as [|k IH]; intros s Hk Hs.
  - simpl. by rewrite (undo_eq e s) by (done || lia).
  - destruct (lookup_lt_is_Some_2 (history e) (historyIndex e - S k)) as [s' Hs']; [lia|].
    destruct (IH s' ltac:(lia) Hs') as (_ & Hh & Hi).
    change (Nat.iter (S (S k)) (undo p) e) with (undo p (Nat.iter (S k) (undo p) e)).
    rewrite (undo_eq _ s); rewrite ?Hh, ?Hi; [|by replace (historyIndex e - S k - 1) with (historyIndex e - S (S k)) by lia|lia].
    cbn [value history historyIndex requestFrame with_value with_history]. split_and!; try done. lia.
Qed.

(** C32: Undo reaches back 99 edits: after typing at most 99 edits, none
    repeating the one before, into a freshly mounted editor, [k] undos show
    exactly the text before the last [k] edits, for every [k] up to the
    number of edits; undoing all of them shows the initial text. *)
Theorem undo_reaches v l k : distinct_from (mkSnap v 0 0) l -> length l <= 99 -> k <= length l ->
  exists s, (mkSnap v 0 0 :: l) !! (length l - k) = Some s /\
    value (Nat.iter k (undo p) (type_all l (mount v))) = s_value s.
Proof.
  intros Hd Hl Hk.
  destruct (type_all_at_end l [] (mkSnap v 0 0) (mount v)) as (h & c & He & Happ); [done..|simpl; lia|].
  assert (length h = length l) as Hlen.
  { pose proof (f_equal length Happ) as E. rewrite length_app in E. simpl in E. lia. }
  pose proof (at_end_current _ _ _ He) as Hc. destruct He as (Hh & Hi & Hv).
  simpl in Happ. rewrite Happ in Hh. rewrite Hlen in Hi.
  destruct (lookup_lt_is_Some_2 (mkSnap v 0 0 :: l) (length l - k)) as [s Hs]; [simpl; lia|].
  exists s. split; [done|]. destruct k as [|k].
  - rewrite Nat.sub_0_r in Hs. simpl. rewrite Hh, Hi, Hs in Hc. simplify_eq. done.
  - apply undo_iter; rewrite ?Hh, ?Hi; simpl length; try lia. done.
Qed.
End Undo.

(** ** Indentation *)

(** How many times a unit test holds. *)
Definition count (f : N -> bool) (s : jsstring) : nat := length (List.filter f s).

Lemma count_app f s t : count f (s ++ t) = count f s + count f t.
Proof. unfold count. by rewrite List.filter_app, length_app. Qed.

Lemma count_none f s : Forall (fun c => f c = false) s -> count f s = 0.
Proof. induction 1 as [|c s Hc _ IH]; [done|]. unfold count in *. simpl. by rewrite Hc. Qed.

Lemma length_split_char c s : length (split [c] s) = S (count (N.eqb c) s).
Proof.
  unfold split. induction s as [|d s IH]; [done|]. cbn [split_go starts_with]. rewrite andb_true_r.
  unfold count in *. simpl. destruct (N.eqb_spec c d) as [->|Hne].
  - simpl. by rewrite IH.
  - destruct (split_go_cons [c] 0 s) as (h & t & Ht). rewrite Ht in *. simpl in *. done.
Qed.

Lemma indent_app seg b bol : Forall (fun c => line_terminator c = false) seg ->
  indent bol (seg ++ b) = (if bol then [32; 32]%N else []) ++ seg ++ indent false b.
Proof.
  intros H. revert bol. induction H as [|c seg Hc Hs IH]; intros bol; [by destruct b|].
  simpl. by rewrite Hc, (IH false).
Qed.

Lemma indent_length bol s :
  length (indent bol s) = length s + 2 * ((if bol then 1 else 0) + count line_terminator s).
Proof.
  revert bol. induction s as [|c s IH]; intros bol; [by destruct bol|]. simpl.
  rewrite length_app. simpl. rewrite IH. unfold count. simpl.
  destruct bol, (line_terminator c); simpl; lia.
Qed.

(** Unindenting what was indented restores the text, from any offset at or
    after [limit]. *)
Lemma unindent_indent limit bol off s : limit <= off ->
  unindent limit bol off (indent bol s) =
  (s, 2 * ((if bol then 1 else 0) + count line_terminator s), 0).
Proof.
  revert bol off. induction s as [|c s IH]; intros bol off Hoff.
  { destruct bol; [|done]. simpl. by rewrite (proj2 (Nat.ltb_ge off limit)). }
  destruct bol; simpl.
  - destruct (c =? 32)%N, (c =? 9)%N; simpl;
      rewrite IH by lia; rewrite (proj2 (Nat.ltb_ge off limit)) by lia;
      f_equal; f_equal; unfold count; simpl; destruct (line_terminator c); simpl; lia.
  - rewrite IH by lia. unfold count. simpl. destruct (line_terminator c); simpl; repeat f_equal; lia.
Qed.

Lemma unindent_plain limit off seg s : Forall (fun c => line_terminator c = false) seg ->
  unindent limit false off (seg ++ s) =
  let '(t, total, before) := unindent limit false (off + length seg) s in (seg ++ t, total, before).
Proof.
  intros H. revert off. induction H as [|c seg Hc Hs IH]; intros off; simpl.
  - rewrite Nat.add_0_r. by destruct (unindent _ _ _ s) as [[t a] b].
  - rewrite Hc, IH. replace (off + 1 + length seg) with (off + S (length seg)) by lia.
    by destruct (unindent _ _ _ s) as [[t a] b].
Qed.

(** The start of a line: the beginning of the text or after a newline. *)
Definition line_head (pre : jsstring) : Prop := pre = [] \/ exists q, pre = q ++ [cu_nl].

Lemma lineStart_char pre seg rest : cu_nl ∉ seg -> line_head pre -> 1 <= length (pre ++ seg) ->
  lineStart (pre ++ seg ++ rest) (length (pre ++ seg)) = length pre.
Proof.
  intros Hseg Hpre Hlen. unfold lineStart. rewrite Nat.max_r by lia.
  assert (forall j, length pre <= j -> j < length (pre ++ seg) -> (pre ++ seg ++ rest) !! j <> Some cu_nl) as Hno.
  { intros j H1 H2 Hj. rewrite length_app in H2.
    rewrite lookup_app_r, lookup_app_l in Hj by lia. apply list_elem_of_lookup_2 in Hj. done. }
  destruct (last_index_upto _ _ _) as [i|] eqn:E.
  - apply last_index_upto_Some in E as (Hi & Hc & Hj).
    assert (i < length pre) as Hlt.
    { destruct (decide (i < length pre)); [done|]. destruct (Hno i); [lia|done|done]. }
    destruct Hpre as [->|[q ->]]; [simpl in Hlt; lia|]. rewrite length_app in *. simpl in *.
    destruct (decide (i = length q)) as [->|Hne]; [lia|].
    destruct (Hj (length q)); [lia|rewrite length_app in *; simpl in *; lia|].
    rewrite <- app_assoc. by apply list_lookup_middle.
  - pose proof (last_index_upto_None _ _ _ E) as Hj. destruct Hpre as [->|[q ->]]; [done|].
    destruct (Hj (length q)); [rewrite !length_app; simpl; lia|].
    rewrite <- app_assoc. by apply list_lookup_middle.
Qed.

Lemma lineStart_split v start : start <= length v -> (1 <= start \/ v !! 0 <> Some cu_nl) ->
  exists pre seg, v = pre ++ seg ++ drop start v /\ length pre = lineStart v start /\
    length (pre ++ seg) = start /\ (cu_nl ∉ seg) /\ line_head pre.
Proof.
  intros Hs H0. unfold lineStart. destruct (last_index_upto _ _ _) as [i|] eqn:E.
  - apply last_index_upto_Some in E as (Hi & Hc & Hj).
    assert (i < start) as Hlt.
    { destruct start as [|n]; [|lia]. assert (i = 0) as -> by lia. destruct H0; [lia|done]. }
    exists (take (i + 1) v), (drop (i + 1) (take start v)).
    assert (take (i + 1) v = take (i + 1) (take start v)) as Et by (rewrite take_take; f_equal; lia).
    assert (take (i + 1) v ++ drop (i + 1) (take start v) = take start v) as Ej
      by (rewrite Et; apply take_drop).
    split_and!.
    + rewrite app_assoc, Ej. symmetry. apply take_drop.
    + rewrite length_take. lia.
    + rewrite Ej, length_take. lia.
    + intros Hin. apply list_elem_of_lookup in Hin as [j Hin]. rewrite lookup_drop in Hin.
      apply lookup_take_Some in Hin as [Hin Hlt']. apply (Hj (i + 1 + j)); [lia|lia|done].
    + right. exists (take i v). rewrite Nat.add_1_r. by apply take_S_r.
  - pose proof (last_index_upto_None _ _ _ E) as Hj. exists [], (take start v). simpl. split_and!; try done.
    + symmetry. apply take_drop.
    + rewrite length_take. lia.
    + intros Hin. apply list_elem_of_lookup in Hin as [j Hin].
      apply lookup_take_Some in Hin as [Hin Hlt']. apply (Hj j); [lia|done].
    + by left.
Qed.

(** ** Tab and Shift+Tab *)
Section Tab.
Variable p : props.
Hypothesis Hp : frozen p = false.

Lemma valueEffect_frame e : value (valueEffect e) = value e /\ frames (valueEffect e) = frames e.
Proof. unfold valueEffect. by repeat split_match. Qed.

Lemma changeValue_frame v e : value (changeValue v e) = v /\ frames (changeValue v e) = frames e.
Proof.
  unfold changeValue. destruct (jseq v (value e)); [done|].
  match goal with |- context [valueEffect ?e'] => destruct (valueEffect_frame e') as [-> ->] end. done.
Qed.

Lemma pushHistory_frames v i j e : frames (pushHistory v i j e) = frames e.
Proof. unfold pushHistory. by destruct (bool_decide _). Qed.

(** An edit and its animation frame: the text and the selection asked for. *)
Lemma update_frame v i j e : frames e = [] ->
  let e' := runFrame (updateValueAndSelection p v i j e) in
  value e' = v /\ selStart e' = i /\ selEnd e' = j /\ frames e' = [].
Proof.
  intros Hf. cbv zeta. unfold updateValueAndSelection. rewrite Hp.
  destruct (changeValue_frame v (pushHistory v i j e)) as [Hv Hfr].
  rewrite pushHistory_frames, Hf in Hfr. unfold requestFrame, runFrame. cbn [frames].
  rewrite Hfr. done.
Qed.

(** Text whose only line terminators are newlines. *)
Definition plain_lines (v : jsstring) : Prop := Forall (fun c => line_terminator c = N.eqb cu_nl c) v.

Lemma plain_count v : plain_lines v -> count line_terminator v = count (N.eqb cu_nl) v.
Proof.
  induction 1 as [|c v Hc _ IH]; [done|]. unfold count in *. cbn [List.filter]. rewrite Hc.
  destruct (N.eqb cu_nl c); cbn [length]; by rewrite IH.
Qed.

Lemma plain_segment seg : plain_lines seg -> cu_nl ∉ seg -> Forall (fun c => line_terminator c = false) seg.
Proof.
  intros Hp' Hn. rewrite Forall_forall. unfold plain_lines in Hp'. rewrite Forall_forall in Hp'.
  intros c Hc. rewrite Hp' by done. apply N.eqb_neq. by intros <-.
Qed.

Lemma slice_mid (a b c : jsstring) : slice (length a) (length (a ++ b)) (a ++ b ++ c) = b.
Proof.
  unfold slice. rewrite app_assoc, take_app_le, firstn_all by lia. by rewrite drop_app_length.
Qed.

Lemma slice_front (a b : jsstring) : slice 0 (length a) (a ++ b) = a.
Proof. unfold slice. rewrite drop_0. apply take_app_length. Qed.

Lemma slice_from_app (a b : jsstring) : slice_from (length a) (a ++ b) = b.
Proof. apply drop_app_length. Qed.

(** The two commands on a text cut at the line start and the selection:
    [pre | seg ^ blk ^ post], with the caret at the first [^]. *)
Lemma indent_cut e pre seg blk post : frames e = [] ->
  value e = pre ++ (seg ++ blk) ++ post -> selStart e = length (pre ++ seg) ->
  selEnd e = length (pre ++ seg ++ blk) -> line_head pre -> cu_nl ∉ seg ->
  lineStart (value e) (selStart e) = length pre -> includes [cu_nl] blk = true -> plain_lines (seg ++ blk) ->
  let e' := runFrame (indentSelection p e) in
  let n := S (count (N.eqb cu_nl) (seg ++ blk)) in
  value e' = pre ++ ([32; 32]%N ++ seg ++ indent false blk) ++ post /\
  selStart e' = length (pre ++ seg) + 2 /\ selEnd e' = length (pre ++ seg ++ blk) + n * 2 /\ frames e' = [].
Proof.
  intros Hf Hv Hs He Hh Hn Hls Hinc Hpl. unfold indentSelection. rewrite Hls, Hs, He, Hv.
  assert (slice (length pre) (length (pre ++ seg ++ blk)) (pre ++ (seg ++ blk) ++ post) = seg ++ blk) as ->
    by apply slice_mid.
  assert (slice (length (pre ++ seg)) (length (pre ++ seg ++ blk)) (pre ++ (seg ++ blk) ++ post) = blk) as ->.
  { rewrite <- app_assoc, (app_assoc pre seg (blk ++ post)), (app_assoc pre seg blk). apply slice_mid. }
  rewrite Hinc, andb_true_r.
  rewrite (proj2 (Nat.eqb_neq _ _)).
  2:{ rewrite !length_app. destruct blk; [done|]. simpl. lia. }
  cbn [negb]. rewrite slice_front.
  assert (slice_from (length (pre ++ seg ++ blk)) (pre ++ (seg ++ blk) ++ post) = post) as ->.
  { rewrite (app_assoc pre (seg ++ blk) post). apply slice_from_app. }
  rewrite length_split_char, indent_app.
  - by apply update_frame.
  - apply plain_segment; [|done]. by apply Forall_app in Hpl as [? _].
Qed.

Lemma unindent_cut e pre seg blk post : frames e = [] ->
  value e = pre ++ ([32; 32]%N ++ seg ++ indent false blk) ++ post ->
  let n := S (count (N.eqb cu_nl) (seg ++ blk)) in
  selStart e = length (pre ++ seg) + 2 -> selEnd e = length (pre ++ seg ++ blk) + n * 2 ->
  line_head pre -> cu_nl ∉ seg -> plain_lines (seg ++ blk) ->
  let e' := runFrame (unindentSelection p e) in
  value e' = pre ++ (seg ++ blk) ++ post /\
  selStart e' = length (pre ++ seg) /\ selEnd e' = length (pre ++ seg ++ blk).
Proof.
  intros Hf Hv n Hs He Hh Hn Hpl. cbv zeta.
  assert (Forall (fun c => line_terminator c = false) seg) as Hseg.
  { apply plain_segment; [|done]. by apply Forall_app in Hpl as [? _]. }
  assert (n = S (count line_terminator blk)) as Hcount.
  { unfold n. rewrite <- plain_count, count_app, (count_none _ seg) by done. done. }
  assert (lineStart (value e) (selStart e) = length pre) as Hls.
  { rewrite Hv, Hs. replace (length (pre ++ seg) + 2) with (length (pre ++ [32; 32]%N ++ seg))
      by (rewrite !length_app; simpl; lia).
    rewrite (app_assoc [32; 32]%N seg (indent false blk)), <- (app_assoc ([32; 32]%N ++ seg)).
    apply lineStart_char; [|done|rewrite !length_app; simpl; lia].
    rewrite not_elem_of_app. split; [|done].
    intros [Hc|[Hc|[]%not_elem_of_nil]%elem_of_cons]%elem_of_cons; done. }
  assert (selEnd e = length (pre ++ [32; 32]%N ++ seg ++ indent false blk)) as He'.
  { rewrite He, Hcount, !length_app, indent_length. simpl. lia. }
  unfold unindentSelection. rewrite Hls, Hs, He', Hv, slice_mid, slice_front.
  rewrite (app_assoc pre _ post), slice_from_app.
  replace (length (pre ++ seg) + 2 - length pre) with (length seg + 2) by (rewrite length_app; lia).
  simpl (unindent _ true 0 _). rewrite unindent_plain by done. rewrite unindent_indent by lia. simpl.
  assert ((0 <? length seg + 2) = true) as -> by (apply Nat.ltb_lt; lia).
  match goal with |- context [updateValueAndSelection p ?v ?i ?j e] =>
    destruct (update_frame v i j e Hf) as (H1 & H2 & H3 & _) end.
  rewrite H1, H2, H3. split_and!; [done| |].
  - rewrite !length_app. simpl. lia.
  - rewrite !length_app. cbn [length]. rewrite !length_app, indent_length. lia.
Qed.

(** C33: Shift+Tab undoes Tab: indenting a selection that spans several
    lines and then unindenting the selection it leaves restores the text
    and both ends of the selection, wherever the selection starts in its
    line (but for a selection from the very beginning of a text whose
    first line is empty). *)
Theorem tab_shift_tab e : frames e = [] -> selStart e <= selEnd e -> selEnd e <= length (value e) ->
  includes [cu_nl] (slice (selStart e) (selEnd e) (value e)) = true -> plain_lines (value e) ->
  (1 <= selStart e \/ value e !! 0 <> Some cu_nl) ->
  let e' := runFrame (unindentSelection p (runFrame (indentSelection p e))) in
  value e' = value e /\ selStart e' = selStart e /\ selEnd e' = selEnd e.
Proof.
  intros Hf Hle Hlen Hinc Hpl H0. cbv zeta.
  destruct (lineStart_split (value e) (selStart e)) as (pre & seg & Hv & Hls & Hst & Hn & Hh); [lia|done|].
  set (blk := slice (selStart e) (selEnd e) (value e)) in *. set (post := drop (selEnd e) (value e)).
  assert (drop (selStart e) (value e) = blk ++ post) as Hd.
  { unfold blk, post, slice. rewrite skipn_firstn_comm. symmetry.
    replace (drop (selEnd e) (value e)) with (drop (selEnd e - selStart e) (drop (selStart e) (value e)))
      by (rewrite drop_drop; f_equal; lia). apply take_drop. }
  assert (length blk = selEnd e - selStart e) as Hb.
  { unfold blk, slice. rewrite length_drop, length_take. lia. }
  assert (value e = pre ++ (seg ++ blk) ++ post) as Hv' by (rewrite Hv at 1; rewrite Hd, <- app_assoc; done).
  assert (selEnd e = length (pre ++ seg ++ blk)) as He.
  { rewrite app_assoc, length_app, Hst, Hb. lia. }
  assert (plain_lines (seg ++ blk)) as Hpl'.
  { rewrite Hv' in Hpl. unfold plain_lines in *. rewrite !Forall_app in *. tauto. }
  destruct (indent_cut e pre seg blk post) as (E1 & E2 & E3 & E4); try done.
  destruct (unindent_cut (runFrame (indentSelection p e)) pre seg blk post) as (F1 & F2 & F3); try done.
  split_and!; congruence.
Qed.

(** Shift+Tab with the caret at the very beginning of a text that starts
    with a newline does not leave the text alone: [lastIndexOf] reads
    position 0 for a negative index, the line is taken to start after the
    caret, and the first newline is duplicated. *)
Lemma unindent_duplicates_newline e rest : frames e = [] ->
  value e = cu_nl :: rest -> selStart e = 0 -> selEnd e = 0 ->
  value (runFrame (unindentSelection p e)) = cu_nl :: cu_nl :: rest.
Proof.
  intros Hf Hv Hs He. unfold unindentSelection. rewrite Hv, Hs, He.
  cbn -[updateValueAndSelection runFrame value].
  match goal with |- context [updateValueAndSelection p ?v ?i ?j e] =>
    destruct (update_frame v i j e Hf) as (H1 & _) end.
  exact H1.
Qed.
End Tab.

End Editor.
