(* ===== verification/Types.v ===== *)
(** * The console's data types: [lib/api/types.ts] and [components/console/types.ts]

    One record per type of the sources, a field per field, prefixed by the
    record (field names repeat across the sources' types).  An optional or
    nullable field is an [option]; counts, sizes and row ids are integers. *)

From S2P Require Import Prelude JsString JsNumber JsValue.

(** The signed-in administrator. *)
Record PeanutUser : Type := {
  u_id : jsstring;
  u_app_id : jsstring;
  u_email : jsstring;
  u_is_active : bool;
  u_is_admin : bool;
  u_admin_role : jsstring
}.

Record LoginResponse : Type := {
  l_access_token : jsstring;
  l_refresh_token : jsstring;
  l_token_type : jsstring;
  l_expires_at : jsstring;
  l_user : PeanutUser
}.

Record AppSummary : Type := {
  app_id : jsstring;
  app_workspace_id : jsstring;
  app_name : jsstring;
  app_display_name : jsstring;
  app_created_by : option jsstring;
  app_created_at : jsstring;
  app_updated_at : jsstring;
  app_deleted_at : option jsstring;
  app_disabled_at : option jsstring;
  app_disabled_reason : option jsstring
}.

Record WorkspaceSummary : Type := {
  ws_id : jsstring;
  ws_name : jsstring;
  ws_display_name : jsstring;
  ws_created_by : option jsstring;
  ws_created_at : jsstring;
  ws_updated_at : jsstring;
  ws_disabled_at : option jsstring;
  ws_disabled_reason : option jsstring
}.

(** ["count" | "counter"] *)
Inductive limit_source : Type := SourceCount | SourceCounter.

Record ResourceLimitSummary : Type := {
  rl_resource_key : jsstring;
  rl_used : Z;
  rl_limit : Z;
  rl_period_start : jsstring;
  rl_reset_at : option jsstring;
  rl_source : limit_source
}.

Record UsageSummary : Type := {
  us_workspace_id : jsstring;
  us_limit_profile_id : jsstring;
  us_resource_limits : list ResourceLimitSummary
}.

Record AppKey : Type := {
  ak_id : jsstring;
  ak_app_id : jsstring;
  ak_key_type : jsstring;
  ak_scopes : list jsstring;
  ak_created_at : jsstring;
  ak_expires_at : option jsstring;
  ak_revoked_at : option jsstring;
  ak_last_used_at : option jsstring
}.

Record DataTable : Type := {
  dt_id : jsstring;
  dt_app_id : jsstring;
  dt_name : jsstring;
  dt_schema_json : option jsstring;
  dt_created_at : jsstring;
  dt_updated_at : jsstring
}.

Record DataRow : Type := {
  dr_id : jsstring;
  dr_owner_user_id : option jsstring;
  dr_data : list (jsstring * jsval);
  dr_created_at : jsstring;
  dr_updated_at : jsstring
}.

Record DataRowsResponse : Type := {
  drs_rows : list DataRow;
  drs_total : Z;
  drs_limit : Z;
  drs_offset : Z;
  drs_has_more : bool
}.

Record StorageBucket : Type := {
  sb_id : jsstring;
  sb_app_id : jsstring;
  sb_name : jsstring;
  sb_public_read : bool;
  sb_allow_client_uploads : option bool;
  sb_max_object_bytes : option Z;
  sb_allowed_mime_types : option (list jsstring);
  sb_allowed_mime_types_json : option jsstring;
  sb_created_at : jsstring;
  sb_updated_at : jsstring
}.

Record SdkStorageObjectSummary : Type := {
  so_key : jsstring;
  so_size : Z;
  so_content_type : option jsstring;
  so_etag : jsstring;
  so_updated_at : jsstring
}.

Record FunctionSummary : Type := {
  fs_id : jsstring;
  fs_app_id : jsstring;
  fs_name : jsstring;
  fs_display_name : jsstring;
  fs_endpoint_slug : jsstring;
  fs_runtime : jsstring;
  fs_invoke_policy : jsstring;
  fs_rate_limit_per_minute : Z;
  fs_api_key_present : bool;
  fs_timeout_ms : Z;
  fs_enabled : bool;
  fs_active_version_number : Z;
  fs_secret_key_count : Z;
  fs_updated_at : jsstring
}.

(** [FunctionSummary & {...}]: the summary's fields are in [fd_summary]. *)
Record FunctionDetail : Type := {
  fd_summary : FunctionSummary;
  fd_source_code : jsstring;
  fd_env_json : jsstring;
  fd_allowed_origins_json : jsstring;
  fd_active_version_id : jsstring;
  fd_created_by : jsstring;
  fd_updated_by : jsstring;
  fd_created_at : jsstring
}.

Record FunctionVersionSummary : Type := {
  fv_id : jsstring;
  fv_app_id : jsstring;
  fv_function_id : jsstring;
  fv_version_number : Z;
  fv_runtime : jsstring;
  fv_invoke_policy : jsstring;
  fv_timeout_ms : Z;
  fv_created_by : jsstring;
  fv_created_at : jsstring;
  fv_secret_key_count : Z;
  fv_is_active : bool
}.

Record FunctionInvocation : Type := {
  fi_id : jsstring;
  fi_app_id : jsstring;
  fi_function_id : jsstring;
  fi_status : jsstring;
  fi_request_json : option jsstring;
  fi_response_json : option jsstring;
  fi_error : option jsstring;
  fi_duration_ms : option Z;
  fi_invoke_mode : jsstring;
  fi_function_version_id : option jsstring;
  fi_retry_count : Z;
  fi_parent_invocation_id : option jsstring;
  fi_created_at : jsstring;
  fi_finished_at : option jsstring
}.

Record BackupSummary : Type := {
  bk_name : jsstring;
  bk_size_bytes : Z;
  bk_modified_at : jsstring
}.

Record RestorePendingSummary : Type := {
  rp_backup_name : jsstring;
  rp_exists : bool;
  rp_size_bytes : option Z;
  rp_modified_at : option jsstring
}.

Record BackupsResponse : Type := {
  br_backups : list BackupSummary;
  br_restore_pending : option RestorePendingSummary
}.

(** The [database] part of the metrics. *)
Record DatabaseMetrics : Type := {
  md_size_bytes : Z;
  md_page_count : Z;
  md_page_size : Z;
  md_freelist_count : Z;
  md_backup_count : Z;
  md_last_backup_at : option jsstring;
  md_restore_pending : bool
}.

(** The [storage] part. *)
Record StorageMetrics : Type := {
  ms_ok : bool;
  ms_error : option jsstring;
  ms_root : jsstring;
  ms_object_count : Z;
  ms_total_bytes : Z;
  ms_multipart_stale_count : Z
}.

(** The [push] part. *)
Record PushMetrics : Type := {
  mp_queued : Z;
  mp_retry_scheduled : Z;
  mp_retry_overdue : Z;
  mp_failed_recent : Z
}.

(** The [functions] part. *)
Record FunctionMetrics : Type := {
  mf_enabled : bool;
  mf_network_allowed : bool;
  mf_work_dir : jsstring;
  mf_running_limit : Z;
  mf_memory_limit_mb : Z;
  mf_source_limit_bytes : Z;
  mf_output_limit_bytes : Z;
  mf_invocations_24h : Z;
  mf_failures_24h : Z;
  mf_timeouts_24h : Z
}.

(** The [system] part. *)
Record SystemMetrics : Type := {
  my_version : jsstring;
  my_uptime_seconds : Z
}.

Record OpsMetrics : Type := {
  om_database : DatabaseMetrics;
  om_storage : StorageMetrics;
  om_push : PushMetrics;
  om_functions : FunctionMetrics;
  om_system : SystemMetrics
}.

Record ActivityEvent : Type := {
  ae_id : jsstring;
  ae_app_id : option jsstring;
  ae_actor_role : option jsstring;
  ae_action : jsstring;
  ae_resource_type : option jsstring;
  ae_resource_id : option jsstring;
  ae_target_type : option jsstring;
  ae_target_id : option jsstring;
  ae_actor_user_id : option jsstring;
  ae_metadata : jsval;
  ae_metadata_json : option jsstring;
  ae_request_id : option jsstring;
  ae_created_at : jsstring
}.

(** ** [components/console/types.ts] *)

(** The union of view names. *)
Inductive View : Type :=
| Voverview | Vapps | Vkeys | Vauth | Vdata | Vstorage | Vfunctions | Vpush | Vactivity | Vops.

#[global] Instance View_eq_dec : EqDecision View.
Proof. solve_decision. Defined.

Record DiagnosticCheck : Type := {
  dc_name : jsstring;
  dc_ok : bool;
  dc_message : option jsstring;
  dc_severity : option jsstring
}.

Record DiagnosticGroup : Type := {
  dg_id : jsstring;
  dg_label : jsstring;
  dg_description : jsstring;
  dg_ok : bool;
  dg_severity : option jsstring
}.

(** An entry of [failed_destinations]. *)
Record FailedDestination : Type := {
  fdn_endpoint : jsstring;
  fdn_error : jsstring
}.

Record PushQueueEntry : Type := {
  pq_id : Z;
  pq_user_id : jsstring;
  pq_title : jsstring;
  pq_body : jsstring;
  pq_status : jsstring;
  pq_retry_count : Z;
  pq_last_error : option jsstring;
  pq_partial_failure_count : Z;
  pq_failed_destinations : (option (list FailedDestination));
  pq_next_retry_at : option jsstring;
  pq_created_at : jsstring;
  pq_processed_at : option jsstring
}.

(** An entry of the failure reasons. *)
Record ReasonCount : Type := {
  rc_reason : jsstring;
  rc_count : Z
}.

Record PushQueueStatsResponse : Type := {
  pst_window_hours : Z;
  pst_limit : Z;
  pst_retry_scheduled : Z;
  pst_retry_overdue : Z;
  pst_terminal_failure_reasons : list ReasonCount;
  pst_destination_failure_reasons : list ReasonCount
}.

Record PushQueueSummary : Type := {
  psm_total : Z;
  psm_pending : Z;
  psm_processing : Z;
  psm_sent : Z;
  psm_failed : Z;
  psm_partial_success : Z;
  psm_retry_scheduled : Z;
  psm_retry_overdue : Z;
  psm_ntfy_subscriptions : Z;
  psm_web_push_subscriptions : Z
}.

Record PushQueueResponse : Type := {
  pr_items : list PushQueueEntry;
  pr_summary : PushQueueSummary
}.

