(* ===== verification/ConsoleUtils.v ===== *)
(** * The console's helpers: [utils/display.ts], [utils/json.ts], [utils/diagnostics.ts]

    Names and sizes shown to the user, JSON typed into forms, query strings
    built from them, and the grouping of diagnostic checks. *)

From S2P Require Import Prelude JsString JsNumber JsValue Json Uri Types.
From Stdlib Require Import SpecFloat.

Module Utils.

(** ** [display.ts] *)

(** [\w] *)
Definition word_char (c : N) : bool :=
  (((48 <=? c) && (c <=? 57)) || ((65 <=? c) && (c <=? 90)) || ((97 <=? c) && (c <=? 122)) || (c =? 95))%N.

(** Whether a word starts at the head of a text. *)
Definition head_word (s : jsstring) : bool := match s with c :: _ => word_char c | [] => false end.

(** [s.replace(/\bw\b/g, r)] for a word [w]: [prev] tells whether the unit
    before is a word character, [skip] units belong to a match already made. *)
Fixpoint replace_word (w r : jsstring) (prev : bool) (skip : nat) (s : jsstring) : jsstring :=
  match s with
  | [] => []
  | c :: s' =>
      match skip with
      | S k => replace_word w r true k s'
      | O =>
          if negb prev && starts_with w s && negb (head_word (slice_from (length w) s))
          then r ++ replace_word w r true (length w - 1) s'
          else c :: replace_word w r (word_char c) 0 s'
      end
  end.

Definition displayProjectName (app : AppSummary) : jsstring :=
  let displayName := if nonempty (app_display_name app) then app_display_name app else app_name app in
  replace_word (js "Apps") (js "Projects") false 0
    (replace_word (js "App") (js "Project") false 0 displayName).

(** [typeof window === "undefined" ? "" : window.location.origin] *)
Definition browserSafeOrigin (origin : option jsstring) : jsstring := default [] origin.

(** [array.map(String)] *)
Fixpoint map_string (l : list jsval) : outcome (list jsstring) :=
  match l with
  | [] => Ok []
  | v :: l' => let! s := to_string v in let! r := map_string l' in Ok (s :: r)
  end.

Definition storageMimeTypes (bucket : StorageBucket) : list jsstring :=
  match sb_allowed_mime_types bucket with
  | Some types => types
  | None =>
      match sb_allowed_mime_types_json bucket with
      | None => []
      | Some text =>
          if nonempty text then
            match (let! parsed := json_parse text in
                   match parsed with JArr l => map_string l | _ => Ok [] end) with
            | Ok types => types
            | Err _ => []
            end
          else []
      end
  end.

(** [(n / d).toFixed(f)] for a non-negative fraction: the nearest multiple of
    [10^-f], the larger one on a tie. *)
Definition fixed_units (n d : Z) (f : nat) : Z := ((2 * n * 10 ^ Z.of_nat f + d) / (2 * d))%Z.

Definition pad_left (k : nat) (s : jsstring) : jsstring := replicate (k - length s) 48%N ++ s.

(** [u / 10^f] in decimal, with [f] digits after the point. *)
Definition decimal (u : Z) (f : nat) : jsstring :=
  match f with
  | O => string_of_Z u
  | _ => string_of_Z (u / 10 ^ Z.of_nat f)%Z ++ [46%N] ++ pad_left f (string_of_Z (u mod 10 ^ Z.of_nat f)%Z)
  end.

Definition to_fixed (n d : Z) (f : nat) : jsstring := decimal (fixed_units n d f) f.

Definition units : list jsstring := [js "KB"; js "MB"; js "GB"; js "TB"].

(** The [while] loop: [size] is [value / den]; three iterations at most. *)
Fixpoint scale (fuel : nat) (value den : Z) (unit : nat) : Z * nat :=
  match fuel with
  | O => (den, unit)
  | S fuel' =>
      if (1024 * den <=? value)%Z && (unit <? length units - 1)
      then scale fuel' value (den * 1024) (S unit)
      else (den, unit)
  end.

(** Byte counts are integers that binary64 represents exactly (below 2^53);
    their quotients by powers of 1024 are exact floating-point numbers, kept
    here as fractions.  Larger numbers, and those from 10^21 units where
    [toFixed] changes its notation, are outside the range of this model. *)
Definition formatBytes (value : Z) : jsstring :=
  if (value <? 1024)%Z then string_of_Z value ++ js " B"
  else
    let '(den, unit) := scale 3 value 1024 0 in
    to_fixed value den (if (10 * den <=? value)%Z then 0 else 1) ++ js " " ++ nth unit units [].

(** [Math.round] on a finite float: the nearest integer, up on a tie; a
    negative value that rounds to zero gives the negative zero. *)
Definition round_num (x : num) : num :=
  match x with
  | S754_finite s m e =>
      let v := if s then Z.neg m else Z.pos m in
      if (0 <=? e)%Z then x
      else binary_normalize prec emax ((2 * v + 2 ^ (- e)) / (2 * 2 ^ (- e)))%Z 0 s
  | _ => x
  end.

(** [Math.min(100, x)] *)
Definition min_100 (x : num) : num :=
  match x with
  | S754_nan => S754_nan
  | _ => if SFltb x (num_of_Z 100) then x else num_of_Z 100
  end.

(** The resource counters are integers; the quotient is a float. *)
Definition usagePercent (used limit : Z) : num :=
  if (limit <=? 0)%Z then num_of_Z (if (0 <? used)%Z then 100 else 0)
  else min_100 (round_num (SFmul prec emax (SFdiv prec emax (num_of_Z used) (num_of_Z limit)) (num_of_Z 100))).

(** ** [json.ts] *)

Definition parseJsonInput (value invalidMessage : jsstring) : outcome jsval :=
  match json_parse value with
  | Ok v => Ok v
  | Err _ => Err (new_error invalidMessage)
  end.

Definition isRecord (v : jsval) : bool := match v with JObj _ => true | _ => false end.

(** [{ requestBody, input }] *)
Record TestPayload : Type := { requestBody : jsval; tp_input : jsval }.

Definition parseFunctionTestPayload (value invalidMessage : jsstring) : outcome TestPayload :=
  let! parsed := parseJsonInput value invalidMessage in
  let wrapped := {| requestBody := JObj [(js "input", parsed)]; tp_input := parsed |} in
  match parsed with
  | JObj l =>
      match assoc (js "input") l with
      | Some i => Ok {| requestBody := parsed; tp_input := i |}
      | None => Ok wrapped
      end
  | _ => Ok wrapped
  end.

(** The pairs of one entry of the object. *)
Definition entry_pairs (key : jsstring) (entry : jsval) : outcome (list (jsstring * jsstring)) :=
  match entry with
  | JNull | JUndefined => Ok []
  | JArr items => let! l := map_string items in Ok (map (fun s => (key, s)) l)
  | _ => let! s := to_string entry in Ok [(key, s)]
  end.

Fixpoint query_pairs (entries : list (jsstring * jsval)) : outcome (list (jsstring * jsstring)) :=
  match entries with
  | [] => Ok []
  | (key, entry) :: rest =>
      let! a := entry_pairs key entry in let! b := query_pairs rest in Ok (a ++ b)
  end.

Definition buildQueryString (value invalidMessage : jsstring) : outcome jsstring :=
  let! parsed := parseJsonInput value invalidMessage in
  match parsed with
  | JObj l => let! pairs := query_pairs l in Ok (form_serialize pairs)
  | _ => if nonempty invalidMessage then Err (new_error invalidMessage) else Ok []
  end.

Definition safeBuildQueryString (value : jsstring) : jsstring :=
  match buildQueryString value [] with Ok q => q | Err _ => [] end.

(** ** [diagnostics.ts] *)

Definition diagnosticBucket (name : jsstring) : jsstring :=
  if jseq name (js "db_schema_version") then js "schema"
  else if jseq name (js "default_app") then js "defaultProject"
  else if jseq name (js "default_workspace") || jseq name (js "workspace_schema")
          || jseq name (js "orphan_workspace_members") then js "workspace"
  else if jseq name (js "orphan_apps_without_workspace") then js "projectLinks"
  else if jseq name (js "app_id_column") then js "projectIsolation"
  else if jseq name (js "app_scoped_unique_index") then js "uniqueConstraints"
  else if jseq name (js "duplicate_workspace_names") || jseq name (js "duplicate_app_names") then js "duplicates"
  else if jseq name (js "password_reset_delivery") then js "passwordReset"
  else if jseq name (js "cors_origin_policy") then js "cors"
  else js "other".

(** [buckets.set(bucket, [...(buckets.get(bucket) ?? []), check])] on an
    insertion-ordered map. *)
Fixpoint bucket_add (b : jsstring) (c : DiagnosticCheck) (m : list (jsstring * list DiagnosticCheck))
  : list (jsstring * list DiagnosticCheck) :=
  match m with
  | [] => [(b, [c])]
  | (b', cs) :: m' => if jseq b b' then (b', cs ++ [c]) :: m' else (b', cs) :: bucket_add b c m'
  end.

Definition buckets (checks : list DiagnosticCheck) : list (jsstring * list DiagnosticCheck) :=
  fold_left (fun m c => bucket_add (diagnosticBucket (dc_name c)) c m) checks [].

Section Groups.
(** The translator of the page. *)
Variable t : jsstring -> list (jsstring * jsval) -> jsstring.

Definition group_of (entry : jsstring * list DiagnosticCheck) : DiagnosticGroup :=
  let '(bucket, bucketChecks) := entry in
  let failed := List.filter (fun c => negb (dc_ok c)) bucketChecks in
  let warnings := List.filter (fun c => dc_ok c && bool_decide (dc_severity c = Some (js "warning"))) bucketChecks in
  let bad := 0 <? length failed in
  {| dg_id := bucket;
     dg_label := t (js "diagnostic." ++ bucket ++ js ".label") [];
     dg_description :=
       t (js "diagnostic." ++ bucket ++ js ".description")
         [(js "count", JNum (num_of_Z (Z.of_nat (length bucketChecks))));
          (js "detail", JStr (if bad then t (js "diagnostic.needsAttentionDetail") []
                              else t (js "diagnostic.okDetail") []))];
     dg_ok := length failed =? 0;
     dg_severity := if bad then head failed ≫= dc_severity else head warnings ≫= dc_severity |}.

Definition groupDiagnosticChecks (checks : list DiagnosticCheck) : list DiagnosticGroup :=
  map group_of (buckets checks).
End Groups.

(** ** Sizes *)

Lemma fixed_units_near n d f : (0 < d)%Z ->
  (2 * Z.abs (fixed_units n d f * d - n * 10 ^ Z.of_nat f) <= d)%Z.
Proof.
  intros Hd. unfold fixed_units. set (p := (10 ^ Z.of_nat f)%Z). replace (2 * n * p)%Z with (2 * (n * p))%Z by ring.
  generalize (n * p)%Z as x. intros x. zify; Z.to_euclidean_division_equations; nia.
Qed.

Lemma scale_spec fuel value den unit :
  (0 < den)%Z -> (den <= value)%Z -> unit <= 3 -> 3 - unit <= fuel ->
  let '(den', unit') := scale fuel value den unit in
  unit <= unit' <= 3 /\ den' = (den * 1024 ^ Z.of_nat (unit' - unit))%Z /\ (den' <= value)%Z /\
  (unit' < 3 -> (value < 1024 * den')%Z).
Proof.
  revert den unit. induction fuel as [|fuel IH]; intros den unit Hd Hv Hu Hf; simpl.
  - assert (unit = 3) as -> by lia. split_and!; try lia. rewrite Z.pow_0_r. lia.
  - destruct (Z.leb_spec (1024 * den) value) as [Hle|Hgt]; cbn [andb].
    + destruct (Nat.ltb_spec unit 3) as [Hlt|Hge].
      * specialize (IH (den * 1024)%Z (S unit) ltac:(lia) ltac:(lia) ltac:(lia) ltac:(lia)).
        destruct (scale fuel value (den * 1024) (S unit)) as [den' unit'].
        destruct IH as (H1 & H2 & H3 & H4). split_and!; try lia.
        rewrite H2. replace (Z.of_nat (unit' - unit)) with (Z.succ (Z.of_nat (unit' - S unit))) by lia.
        rewrite Z.pow_succ_r by lia. ring.
      * assert (unit = 3) as -> by lia. split_and!; try lia. rewrite Z.pow_0_r. lia.
    + rewrite Nat.sub_diag, Z.pow_0_r. split_and!; lia.
Qed.

(** C36: Sizes are shown in the right unit: a size of at least 1 KB is shown
    with the largest unit not above it (TB at most), as a decimal within half
    of its last digit of the exact quotient, with one decimal below 10 units
    and none from there; the loop ends after at most three iterations. *)
Theorem formatBytes_scaled value : (1024 <= value)%Z ->
  exists k f u, k <= 3 /\ (f = 0 \/ f = 1) /\
    formatBytes value = decimal u f ++ js " " ++ nth k units [] /\
    (1024 ^ Z.of_nat (S k) <= value)%Z /\ (k < 3 -> (value < 1024 ^ Z.of_nat (S (S k)))%Z) /\
    (f = 0 <-> (10 * 1024 ^ Z.of_nat (S k) <= value)%Z) /\
    (2 * Z.abs (u * 1024 ^ Z.of_nat (S k) - value * 10 ^ Z.of_nat f) <= 1024 ^ Z.of_nat (S k))%Z.
Proof.
  intros Hv. unfold formatBytes. destruct (Z.ltb_spec value 1024); [lia|].
  pose proof (scale_spec 3 value 1024 0 ltac:(lia) ltac:(lia) ltac:(lia) ltac:(lia)) as Hs.
  destruct (scale 3 value 1024 0) as [den k]. destruct Hs as (Hk & Hd & H1 & H2).
  assert (den = 1024 ^ Z.of_nat (S k))%Z as Hden.
  { rewrite Hd, Nat.sub_0_r, Nat2Z.inj_succ, Z.pow_succ_r by lia. done. }
  assert (1024 * den = 1024 ^ Z.of_nat (S (S k)))%Z as Hden2.
  { rewrite Hden, (Nat2Z.inj_succ (S k)), Z.pow_succ_r by lia. done. }
  assert (0 < den)%Z as Hpos by (rewrite Hden; apply Z.pow_pos_nonneg; lia).
  exists k, (if (10 * den <=? value)%Z then 0 else 1), (fixed_units value den (if (10 * den <=? value)%Z then 0 else 1)).
  rewrite <- Hden, <- Hden2.
  split_and!; try done; try lia.
  - destruct (_ <=? _)%Z; auto.
  - destruct (Z.leb_spec (10 * den) value); split; intros; try done; lia.
  - apply fixed_units_near. lia.
Qed.

(** ** Percentages *)

(** A float that is not below zero and is a number. *)
Definition nonneg (x : num) : Prop :=
  match x with
  | S754_nan => False
  | S754_zero s | S754_infinity s | S754_finite s _ _ => s = false
  end.

Lemma shr_1_nonneg r : (0 <= shr_m r)%Z -> (0 <= shr_m (shr_1 r))%Z.
Proof. destruct r as [m b1 b2]. simpl. destruct m as [|[]|]; simpl; lia. Qed.

Lemma iter_shr_nonneg n r : (0 <= shr_m r)%Z -> (0 <= shr_m (iter_pos shr_1 n r))%Z.
Proof. revert r. induction n; intros r Hr; simpl; auto using shr_1_nonneg. Qed.

Lemma shr_fexp_nonneg m e l : (0 <= m)%Z -> (0 <= shr_m (shr_fexp prec emax m e l).1)%Z.
Proof.
  intros Hm. unfold shr_fexp, shr.
  assert (0 <= shr_m (shr_record_of_loc m l))%Z as Hr by (destruct l as [|[]]; done).
  destruct (_ - e)%Z; simpl; auto using iter_shr_nonneg.
Qed.

Lemma binary_round_aux_nonneg m e l : (0 <= m)%Z -> nonneg (binary_round_aux prec emax false m e l).
Proof.
  intros Hm. unfold binary_round_aux. pose proof (shr_fexp_nonneg m e l Hm) as H1.
  destruct (shr_fexp prec emax m e l) as [r1 e1]. cbn [fst] in H1.
  assert (0 <= round_nearest_even (shr_m r1) (loc_of_shr_record r1))%Z as H2.
  { unfold round_nearest_even. destruct (loc_of_shr_record r1) as [|[]]; try lia. destruct (Z.even _); lia. }
  pose proof (shr_fexp_nonneg _ e1 loc_Exact H2) as H3.
  destruct (shr_fexp prec emax _ e1 loc_Exact) as [r2 e2]. cbn [fst] in H3.
  destruct (shr_m r2); [done| |lia]. by destruct (_ <=? _)%Z.
Qed.

Lemma num_of_Z_nonneg z : (0 <= z)%Z -> nonneg (num_of_Z z).
Proof.
  intros Hz. unfold num_of_Z. destruct z as [|p|p]; [done| |lia]. unfold binary_normalize, binary_round.
  destruct (shl_align _ _ _) as [m e]. by apply binary_round_aux_nonneg.
Qed.

Lemma SFdiv_nonneg x m e : nonneg x -> nonneg (SFdiv prec emax x (S754_finite false m e)).
Proof.
  destruct x as [s|s| |s mx ex]; simpl; try (by intros ->); try done. intros ->.
  destruct (SFdiv_core_binary prec emax (Z.pos mx) ex (Z.pos m) e) as [[q e'] l] eqn:E.
  apply binary_round_aux_nonneg. unfold SFdiv_core_binary in E.
  match type of E with (let '(q, r) := Z.div_eucl ?a ?b in _) = _ =>
    pose proof (Z_div_mod a b ltac:(lia)) as Hdm; assert (0 <= a)%Z as Ha end.
  { destruct (_ - _)%Z; try lia. apply Z.shiftl_nonneg. lia. }
  destruct (Z.div_eucl _ _) as [q' r]. simplify_eq. destruct Hdm as [Hq Hr]. nia.
Qed.

Lemma SFmul_nonneg x m e : nonneg x -> nonneg (SFmul prec emax x (S754_finite false m e)).
Proof.
  destruct x as [s|s| |s mx ex]; simpl; try (by intros ->); try done. intros ->.
  by apply binary_round_aux_nonneg.
Qed.

Lemma round_num_nonneg x : nonneg x -> nonneg (round_num x).
Proof.
  destruct x as [s|s| |s m e]; simpl; try done. intros ->. destruct (Z.leb_spec 0 e); [done|].
  apply num_of_Z_nonneg. apply Z.div_pos; [|lia]. assert (0 < 2 ^ (- e))%Z by (apply Z.pow_pos_nonneg; lia). lia.
Qed.

Lemma nonneg_leb x : nonneg x -> SFleb (num_of_Z 0) x = true.
Proof. destruct x as [s|s| |s m e]; simpl; try (by intros ->); done. Qed.

Lemma num_100 : num_of_Z 100 = S754_finite false 7036874417766400 (-46).
Proof. vm_compute. reflexivity. Qed.

Lemma SFltb_leb x y : SFltb x y = true -> SFleb x y = true.
Proof. unfold SFltb, SFleb. by destruct (SFcompare x y) as [[]|]. Qed.

Lemma min_100_bounds x : nonneg x -> nonneg (min_100 x) /\ SFleb (min_100 x) (num_of_Z 100) = true.
Proof.
  intros Hx. assert (SFleb (num_of_Z 100) (num_of_Z 100) = true) as H100 by (vm_compute; reflexivity).
  assert (nonneg (num_of_Z 100)) as Hn by (rewrite num_100; done).
  assert (min_100 x = if SFltb x (num_of_Z 100) then x else num_of_Z 100) as -> by (by destruct x).
  destruct (SFltb x (num_of_Z 100)) eqn:E; [|done]. split; [done|by apply SFltb_leb].
Qed.

(** C37: A usage bar never leaves its track: for non-negative counters whose
    limit is a floating-point number, and for a missing limit, the percentage
    computed in floating point is a number between 0 and 100. *)
Theorem usagePercent_bounds used limit : (0 <= used)%Z ->
  ((limit <= 0)%Z \/ exists m e, num_of_Z limit = S754_finite false m e) ->
  SFleb (num_of_Z 0) (usagePercent used limit) = true /\ SFleb (usagePercent used limit) (num_of_Z 100) = true.
Proof.
  intros Hu Hl. unfold usagePercent. destruct (Z.leb_spec limit 0).
  - by destruct (0 <? used)%Z.
  - destruct Hl as [|(m & e & E)]; [lia|]. rewrite E.
    match goal with |- context [min_100 ?x] => destruct (min_100_bounds x) as [Hn Hle] end.
    { rewrite num_100. by apply round_num_nonneg, SFmul_nonneg, SFdiv_nonneg, num_of_Z_nonneg. }
    split; [by apply nonneg_leb|done].
Qed.

(** ** JSON forms *)

(** [params.getAll(key)] *)
Definition get_all (key : jsstring) (pairs : list (jsstring * jsstring)) : list jsstring :=
  map snd (List.filter (fun kv => jseq kv.1 key) pairs).

(** The values a query is meant to carry for a member [v] of the object. *)
Definition query_values (v : jsval) : list jsval :=
  match v with JNull | JUndefined => [] | JArr items => items | _ => [v] end.

Definition has_text (v : jsval) (s : jsstring) : Prop := to_string v = Ok s.

Lemma entry_pairs_spec key v : Forall (fun x => exists s, has_text x s /\ well_formed s = true) (query_values v) ->
  exists texts, entry_pairs key v = Ok (map (pair key) texts) /\ Forall2 has_text (query_values v) texts /\
    Forall (fun s => well_formed s = true) texts.
Proof.
  assert (forall x s, has_text x s -> well_formed s = true -> query_values x = [x] ->
    exists texts, (let! t := to_string x in Ok [(key, t)]) = Ok (map (pair key) texts) /\
      Forall2 has_text (query_values x) texts /\ Forall (fun s => well_formed s = true) texts) as Hone.
  { intros x s Hx Hs Hq. exists [s]. rewrite Hq. unfold has_text in Hx. rewrite Hx. by repeat constructor. }
  destruct v as [| | | | |items|]; intros H; cbn [entry_pairs];
    try (by exists []); try (apply Forall_singleton in H as (t & Hx & Ht); by eapply Hone).
  cbn [query_values] in *. induction H as [|x items (t & Hx & Ht) _ IH]; [by exists []|].
  destruct IH as (texts & E & Hf & Hw). exists (t :: texts). cbn [map_string].
  unfold has_text in Hx. rewrite Hx. cbn [res_bind].
  destruct (map_string items) as [l|]; [|done]. cbn [res_bind map] in *. apply Ok_inj in E.
  split_and!; [by rewrite <- E|by constructor|by constructor].
Qed.

(** The pairs of the whole object: a group per member. *)
Lemma query_pairs_spec l :
  Forall (fun kv => Forall (fun x => exists s, has_text x s /\ well_formed s = true) (query_values kv.2)) l ->
  exists groups, query_pairs l = Ok (concat (zip_with (fun kv texts => map (pair kv.1) texts) l groups)) /\
    Forall2 (fun kv texts => Forall2 has_text (query_values kv.2) texts /\
      Forall (fun s => well_formed s = true) texts) l groups.
Proof.
  induction 1 as [|[k v] l Hv _ (groups & E & Hg)]; [by exists []|].
  destruct (entry_pairs_spec k v Hv) as (texts & Et & Hf & Hw). exists (texts :: groups).
  cbn [query_pairs zip_with concat fst]. rewrite Et, E. cbn [res_bind]. split; [done|]. by constructor.
Qed.

Lemma get_all_app k l m : get_all k (l ++ m) = get_all k l ++ get_all k m.
Proof. unfold get_all. by rewrite List.filter_app, map_app. Qed.

Lemma get_all_same k texts : get_all k (map (pair k) texts) = texts.
Proof.
  unfold get_all. induction texts as [|s texts IH]; [done|]. cbn [map List.filter fst]. rewrite jseq_refl.
  cbn [map snd]. by rewrite IH.
Qed.

Lemma get_all_other k k' texts : k' <> k -> get_all k (map (pair k') texts) = [].
Proof.
  intros Hne. unfold get_all. induction texts as [|s texts IH]; [done|]. cbn [map List.filter fst].
  by rewrite (proj2 (jseq_neq k' k) Hne).
Qed.

Abbreviation grouped l groups := (concat (zip_with (fun (kv : jsstring * jsval) texts => map (pair kv.1) texts) l groups)).

(** Keys that are not in the object have no group. *)
Lemma get_all_absent k l groups : k ∉ map fst l -> get_all k (grouped l groups) = [].
Proof.
  revert groups. induction l as [|[k' v] l IH]; intros groups Hk; [done|]. destruct groups as [|texts groups]; [done|].
  cbn [map fst] in Hk. apply not_elem_of_cons in Hk as [Hne Hk]. cbn [zip_with concat fst].
  rewrite get_all_app, get_all_other, IH by done. done.
Qed.

Lemma get_all_member k v l groups : NoDup (map fst l) -> (k, v) ∈ l ->
  Forall2 (fun kv texts => Forall2 has_text (query_values kv.2) texts) l groups ->
  Forall2 has_text (query_values v) (get_all k (grouped l groups)).
Proof.
  intros Hnd Hin Hg. revert Hnd Hin. induction Hg as [|[k' v'] texts l groups Ht _ IH]; [by intros _ []%not_elem_of_nil|].
  cbn [map fst zip_with concat]. intros [Hk Hnd]%NoDup_cons [Heq|Hin]%elem_of_cons.
  - simplify_eq. rewrite get_all_app, get_all_same, get_all_absent, app_nil_r by done. done.
  - rewrite get_all_app, get_all_other, app_nil_l; [by apply IH|]. intros ->. apply Hk.
    change k with (k, v).1. by apply list_elem_of_fmap_2.
Qed.

(** C38: Query strings typed as JSON: for an object whose members have
    well-formed texts, [buildQueryString] succeeds, and a form parser reads
    from its result, for each member, no value if it is [null], one value per
    element if it is an array, in order, and else exactly its text; for other
    names it reads nothing, the names come in the order of the object, and the
    lenient variant gives the same text. *)
Theorem buildQueryString_decodes value msg l :
  json_parse value = Ok (JObj l) -> NoDup (map fst l) -> Forall (fun kv => well_formed kv.1 = true) l ->
  Forall (fun kv => Forall (fun x => exists s, has_text x s /\ well_formed s = true) (query_values kv.2)) l ->
  exists q pairs, buildQueryString value msg = Ok q /\ safeBuildQueryString value = q /\
    form_parse q = Some pairs /\
    (forall k v, (k, v) ∈ l -> Forall2 has_text (query_values v) (get_all k pairs)) /\
    (forall k, k ∉ map fst l -> get_all k pairs = []) /\
    exists counts, map fst pairs = concat (zip_with replicate counts (map fst l)).
Proof.
  intros Hp Hnd Hk Hv. destruct (query_pairs_spec l Hv) as (groups & E & Hg).
  exists (form_serialize (grouped l groups)), (grouped l groups).
  unfold safeBuildQueryString, buildQueryString, parseJsonInput. rewrite Hp. cbn [res_bind]. rewrite E.
  split_and!; [done|done|..].
  - apply form_parse_serialize. clear Hp Hnd E Hv. induction Hg as [|[k v] texts l groups [_ Hw] _ IH]; [done|].
    apply Forall_cons in Hk as [Hk1 Hk]. cbn [zip_with concat fst]. apply Forall_app. split; [|by apply IH].
    apply Forall_map. eapply Forall_impl; [exact Hw|]. by intros s Hs.
  - intros k v Hin. apply get_all_member; [done|done|]. eapply Forall2_impl; [exact Hg|]. by intros kv ts [].
  - intros k Hin. by apply get_all_absent.
  - exists (map length groups). clear -Hg. induction Hg as [|[k v] texts l groups _ _ IH]; [done|].
    cbn [zip_with concat map fst]. rewrite map_app, IH. f_equal. clear. induction texts; [done|]. cbn. by f_equal.
Qed.

(** Test payloads: a text that is not JSON is rejected with the given
    message; any other text yields a request body that is an object whose
    own [input] is the reported input, the text's value being used as the
    body when it has an [input] and as the input otherwise. *)
Lemma parseFunctionTestPayload_input value msg :
  match json_parse value with
  | Err _ => parseFunctionTestPayload value msg = Err (new_error msg)
  | Ok v => exists p l, parseFunctionTestPayload value msg = Ok p /\ requestBody p = JObj l /\
      assoc (js "input") l = Some (tp_input p) /\
      (if isRecord v && match v with JObj m => match assoc (js "input") m with Some _ => true | None => false end
                        | _ => false end
       then requestBody p = v else tp_input p = v)
  end.
Proof.
  unfold parseFunctionTestPayload, parseJsonInput. destruct (json_parse value) as [v|e]; [|done].
  cbn [res_bind]. destruct v as [| | | | | |m];
    try (by eexists _, _; split_and!).
  cbn [isRecord andb]. destruct (assoc (js "input") m) as [i|] eqn:E; by eexists _, _; split_and!.
Qed.

(** ** Diagnostic groups *)

Fixpoint bucket_get (b : jsstring) (m : list (jsstring * list DiagnosticCheck)) : list DiagnosticCheck :=
  match m with
  | [] => []
  | (b', cs) :: m' => if jseq b b' then cs else bucket_get b m'
  end.

Lemma bucket_get_add b c m b' :
  bucket_get b' (bucket_add b c m) = bucket_get b' m ++ if jseq b' b then [c] else [].
Proof.
  induction m as [|[b1 cs] m IH]; simpl; [by destruct (jseq b' b)|].
  destruct (jseq b b1) eqn:E1; simpl; destruct (jseq b' b1) eqn:E2; try done.
  - apply jseq_eq in E1, E2. subst. by rewrite jseq_refl.
  - apply jseq_eq in E1. subst. by rewrite E2, app_nil_r.
  - apply jseq_eq in E2. subst. destruct (jseq b1 b) eqn:E3; [|by rewrite app_nil_r].
    apply jseq_eq in E3. subst. by rewrite jseq_refl in E1.
Qed.

Lemma bucket_add_ids b c m : map fst (bucket_add b c m) =
  if bool_decide (b ∈ map fst m) then map fst m else map fst m ++ [b].
Proof.
  induction m as [|[b1 cs] m IH]; simpl; [done|]. destruct (jseq b b1) eqn:E1.
  - apply jseq_eq in E1. subst. rewrite bool_decide_eq_true_2 by left. done.
  - apply jseq_neq in E1. simpl. rewrite IH.
    destruct (bool_decide (b ∈ map fst m)) eqn:E2; reflect_bools.
    + by rewrite bool_decide_eq_true_2 by (by right).
    + rewrite bool_decide_eq_false_2; [done|]. by intros [|]%elem_of_cons.
Qed.

Lemma bucket_get_in b cs m : NoDup (map fst m) -> (b, cs) ∈ m -> bucket_get b m = cs.
Proof.
  induction m as [|[b1 cs1] m IH]; simpl; intros Hn Hin; [by apply not_elem_of_nil in Hin|].
  apply NoDup_cons in Hn as [Hni Hn]. apply elem_of_cons in Hin as [Heq|Hin].
  - simplify_eq. by rewrite jseq_refl.
  - destruct (jseq b b1) eqn:E; [|by apply IH]. apply jseq_eq in E. subst. exfalso. apply Hni.
    apply list_elem_of_In, in_map_iff. exists (b1, cs). by rewrite <- list_elem_of_In.
Qed.

(** The checks of one bucket, in order. *)
Definition of_bucket (b : jsstring) (checks : list DiagnosticCheck) : list DiagnosticCheck :=
  List.filter (fun c => jseq b (diagnosticBucket (dc_name c))) checks.

Lemma buckets_snoc checks c :
  buckets (checks ++ [c]) = bucket_add (diagnosticBucket (dc_name c)) c (buckets checks).
Proof. unfold buckets. by rewrite fold_left_app. Qed.

Lemma buckets_spec checks :
  NoDup (map fst (buckets checks)) /\
  (forall b, bucket_get b (buckets checks) = of_bucket b checks) /\
  (forall b, b ∈ map fst (buckets checks) <-> exists c, c ∈ checks /\ diagnosticBucket (dc_name c) = b).
Proof.
  induction checks as [|c checks (IH1 & IH2 & IH3)] using rev_ind.
  { split_and!; [constructor|done|]. intros b. split; [by intros ?%not_elem_of_nil|].
    by intros (c & ?%not_elem_of_nil & _). }
  rewrite buckets_snoc, bucket_add_ids. set (b0 := diagnosticBucket (dc_name c)) in *.
  assert (forall b, (exists c', c' ∈ checks ++ [c] /\ diagnosticBucket (dc_name c') = b) <->
    (exists c', c' ∈ checks /\ diagnosticBucket (dc_name c') = b) \/ b0 = b) as Hex.
  { intros b. setoid_rewrite elem_of_app. setoid_rewrite list_elem_of_singleton. split.
    - intros (c' & [H| ->] & E); [left; eauto|by right].
    - intros [(c' & H & E)|E]; [eauto|exists c; auto]. }
  split_and!.
  - destruct (bool_decide _) eqn:E; [done|]. reflect_bools. apply NoDup_app. split_and!; [done| |].
    + intros x Hx ->%list_elem_of_singleton. done.
    + apply NoDup_cons. split; [apply not_elem_of_nil|constructor].
  - intros b. rewrite bucket_get_add, IH2. unfold of_bucket. rewrite List.filter_app. simpl.
    fold b0. by destruct (jseq b b0).
  - intros b. rewrite Hex, <- IH3. destruct (bool_decide _) eqn:E; reflect_bools.
    + split; [by left|]. intros [|<-]; done.
    + rewrite elem_of_app, list_elem_of_singleton. split; (intros [?|?]; [by left|by right]).
Qed.

Lemma filter_none_length {A} (f : A -> bool) l : (length (List.filter f l) =? 0) = true <-> forall x, x ∈ l -> f x = false.
Proof.
  rewrite Nat.eqb_eq. split.
  - intros H x Hx. destruct (f x) eqn:E; [|done]. apply list_elem_of_In in Hx.
    assert (In x (List.filter f l)) as Hin by (by apply filter_In). by destruct (List.filter f l).
  - intros H. induction l as [|x l IH]; [done|]. simpl. rewrite (H x) by left. apply IH.
    intros y Hy. apply H. by right.
Qed.

Lemma group_ids t checks : map dg_id (groupDiagnosticChecks t checks) = map fst (buckets checks).
Proof. unfold groupDiagnosticChecks. rewrite map_map. apply map_ext. by intros [b cs]. Qed.

(** A group shows its bucket: it has a check, and is ok when all of them passed. *)
Lemma group_ok_iff t checks g : g ∈ groupDiagnosticChecks t checks ->
  (exists c, c ∈ checks /\ diagnosticBucket (dc_name c) = dg_id g) /\
  (dg_ok g = true <-> forall c, c ∈ checks -> diagnosticBucket (dc_name c) = dg_id g -> dc_ok c = true).
Proof.
  unfold groupDiagnosticChecks. destruct (buckets_spec checks) as (H1 & H2 & H3).
  intros Hg. apply list_elem_of_In, in_map_iff in Hg as ([b cs] & <- & Hin). apply list_elem_of_In in Hin.
  pose proof (bucket_get_in b cs _ H1 Hin) as Hcs. rewrite H2 in Hcs. cbn [dg_id group_of dg_ok].
  split; [apply H3, list_elem_of_In; by apply list_elem_of_In, (in_map fst) in Hin|].
  rewrite filter_none_length. subst cs. unfold of_bucket. split.
  - intros H c Hc Hb. apply negb_false_iff, H. apply list_elem_of_In, filter_In.
    split; [by apply list_elem_of_In|by apply jseq_eq].
  - intros H c Hc. apply list_elem_of_In, filter_In in Hc as [Hc Hb]. apply jseq_eq in Hb.
    apply negb_false_iff, H; [by apply list_elem_of_In|done].
Qed.

(** Diagnostic groups partition the checks: the groups have distinct ids,
    every check's bucket is one of them, every group has a check, and a group
    is shown as ok exactly when all checks of its bucket passed. *)
Lemma groups_partition t checks :
  let groups := groupDiagnosticChecks t checks in
  NoDup (map dg_id groups) /\
  (forall c, c ∈ checks -> diagnosticBucket (dc_name c) ∈ map dg_id groups) /\
  (forall g, g ∈ groups ->
     (exists c, c ∈ checks /\ diagnosticBucket (dc_name c) = dg_id g) /\
     (dg_ok g = true <-> forall c, c ∈ checks -> diagnosticBucket (dc_name c) = dg_id g -> dc_ok c = true)).
Proof.
  cbv zeta. rewrite group_ids. destruct (buckets_spec checks) as (H1 & _ & H3).
  split_and!; [done|intros c Hc; apply H3; eauto|]. intros g. apply group_ok_iff.
Qed.

End Utils.
