(* ===== verification/Clipboard.v ===== *)
(** * Copying to the clipboard: [utils/clipboard.ts]

    The text is copied through a temporary text area and [execCommand], or
    else through the clipboard API.  The document's part that matters is the
    state: the attached text areas, the selection and the clipboard.  Whether
    [execCommand] and [writeText] succeed is the platform's choice. *)

From S2P Require Import Prelude JsString JsNumber JsValue Prog.

Module Clipboard.

(** A text range of the page, by identity. *)
Definition range := nat.

(** What is selected: nothing, a range of the page, or a text area's content. *)
Inductive selection : Type := NoSelection | PageRange (r : range) | AreaText (id : nat).

Record dom : Type := mkDom {
  d_areas : list (nat * jsstring);
  d_next : nat;
  d_selection : selection;
  d_clipboard : jsstring
}.

Inductive domE : Type -> Type :=
| HasBody : domE bool
| GetRange : domE (option range)
| AppendArea (text : jsstring) : domE nat
| SelectArea (id : nat) : domE unit
| ExecCopy : domE (outcome bool)
| RemoveArea (id : nat) : domE unit
| RestoreRange (r : range) : domE unit
| HasClipboard : domE bool
| WriteText (text : jsstring) : domE (outcome unit).

Abbreviation page := (prog domE).

Definition normalizeCopyError (e : thrown) : thrown :=
  match e with
  | TError _ => e
  | TValue _ => new_error (js "Clipboard copy failed.")
  end.

(** [try { return p } finally { f }] *)
Definition finally {A} (p : page A) (f : page unit) : page A :=
  then_else p (fun a => _ ← f; Ret a) (fun e => _ ← f; Throw e).

Definition copyTextWithTextArea (text : jsstring) : page bool :=
  body ← trigger HasBody;
  if negb body then Ret false
  else
    previousRange ← trigger GetRange;
    textArea ← trigger (AppendArea text);
    _ ← trigger (SelectArea textArea);
    finally (await ExecCopy)
      (_ ← trigger (RemoveArea textArea);
       match previousRange with
       | Some r => trigger (RestoreRange r)
       | None => Ret tt
       end).

Definition copyTextToClipboard (text : jsstring) : page unit :=
  copied ← copyTextWithTextArea text;
  if copied : bool then Ret tt
  else
    clipboard ← trigger HasClipboard;
    if clipboard : bool then
      catch (await (WriteText text)) (fun error => Throw (normalizeCopyError error))
    else Throw (new_error (js "Clipboard copy is not available in this browser.")).

(** ** Semantics *)
Section Spec.
Variable body : bool.
Variable execCopy : dom -> outcome bool.
Variable writeText : option (dom -> jsstring -> outcome unit).

Definition area_text (d : dom) (id : nat) : jsstring :=
  match List.find (fun a => Nat.eqb a.1 id) (d_areas d) with Some a => a.2 | None => [] end.

(** The text a copy command takes. *)
Definition copied_text (d : dom) : jsstring :=
  match d_selection d with AreaText id => area_text d id | _ => d_clipboard d end.

Definition handle (X : Type) (op : domE X) : dom -> dom * X :=
  match op in domE X return dom -> dom * X with
  | HasBody => fun d => (d, body)
  | GetRange => fun d => (d, match d_selection d with PageRange r => Some r | _ => None end)
  | AppendArea text => fun d =>
      (mkDom ((d_next d, text) :: d_areas d) (S (d_next d)) (d_selection d) (d_clipboard d), d_next d)
  | SelectArea id => fun d => (mkDom (d_areas d) (d_next d) (AreaText id) (d_clipboard d), tt)
  | ExecCopy => fun d =>
      match execCopy d with
      | Ok true => (mkDom (d_areas d) (d_next d) (d_selection d) (copied_text d), Ok true)
      | o => (d, o)
      end
  | RemoveArea id => fun d =>
      (mkDom (List.filter (fun a => negb (Nat.eqb a.1 id)) (d_areas d)) (d_next d)
         (match d_selection d with
          | AreaText id' => if Nat.eqb id id' then NoSelection else AreaText id'
          | s => s
          end) (d_clipboard d), tt)
  | RestoreRange r => fun d => (mkDom (d_areas d) (d_next d) (PageRange r) (d_clipboard d), tt)
  | HasClipboard => fun d => (d, match writeText with Some _ => true | None => false end)
  | WriteText text => fun d =>
      match writeText with
      | Some f => match f d text with
                  | Ok tt => (mkDom (d_areas d) (d_next d) (d_selection d) text, Ok tt)
                  | Err e => (d, Err e)
                  end
      | None => (d, Err (type_error (js "clipboard is undefined")))
      end
  end.

Definition exec {A} (p : page A) (d : dom) : dom * outcome A := run handle p d.

(** Text areas are numbered below [d_next]. *)
Definition dom_ok (d : dom) : Prop := Forall (fun a => a.1 < d_next d) (d_areas d).

Lemma filter_fresh n (l : list (nat * jsstring)) : Forall (fun a => a.1 < n) l ->
  List.filter (fun a => negb (Nat.eqb a.1 n)) l = l.
Proof.
  induction 1 as [|a l Ha _ IH]; [done|]. simpl. rewrite (proj2 (Nat.eqb_neq _ _)) by lia. simpl. by rewrite IH.
Qed.

(** The selection a copy leaves: the page's range again, or none. *)
Definition after_copy (s : selection) : selection :=
  match s with PageRange r => PageRange r | _ => NoSelection end.

Lemma finally_exec {A} (p : page A) f d :
  exec (finally p f) d =
  match exec p d with
  | (d', Ok a) => match exec f d' with (d2, Ok _) => (d2, Ok a) | (d2, Err e) => (d2, Err e) end
  | (d', Err e) => match exec f d' with (d2, Ok _) => (d2, Err e) | (d2, Err e') => (d2, Err e') end
  end.
Proof.
  unfold exec, finally. rewrite run_then_else. destruct (run handle p d) as [d' [a|e]];
    rewrite run_bind; by destruct (run handle f d') as [d2 [[]|e']].
Qed.

(** What the temporary area does: the copy's outcome, and a clean document. *)
Lemma textArea_exec text d : body = true -> dom_ok d ->
  let d1 := mkDom ((d_next d, text) :: d_areas d) (S (d_next d)) (AreaText (d_next d)) (d_clipboard d) in
  exec (copyTextWithTextArea text) d =
  (mkDom (d_areas d) (S (d_next d)) (after_copy (d_selection d))
     (match execCopy d1 with Ok true => text | _ => d_clipboard d end), execCopy d1).
Proof.
  intros Hb Hok d1. unfold copyTextWithTextArea.
  set (f := (finally (A := bool))).
  assert (forall r, exec (f (await ExecCopy) (_ ← trigger (RemoveArea (d_next d));
      match r with Some r => trigger (RestoreRange r) | None => Ret tt end)) d1 =
    (mkDom (d_areas d) (S (d_next d)) (match r with Some r => PageRange r | None => NoSelection end)
       (match execCopy d1 with Ok true => text | _ => d_clipboard d end), execCopy d1)) as Hf.
  { intros r. unfold f. rewrite finally_exec.
    assert (exec (await ExecCopy) d1 =
      (mkDom (d_areas d1) (d_next d1) (d_selection d1)
        (match execCopy d1 with Ok true => text | _ => d_clipboard d end), execCopy d1)) as ->.
    { unfold exec. simpl. unfold copied_text, area_text. simpl. rewrite Nat.eqb_refl. simpl.
      by destruct (execCopy d1) as [[|]|e]. }
    unfold exec. destruct (execCopy d1) as [x|e], r as [r|]; simpl; rewrite Nat.eqb_refl; simpl;
      by rewrite filter_fresh. }
  unfold exec. cbn [run trigger]. simpl. rewrite Hb. simpl.
  pose proof (Hf (match d_selection d with PageRange r => Some r | _ => None end)) as E.
  unfold exec, f in E. etransitivity; [exact E|]. by destruct (d_selection d).
Qed.

(** C34: Copying is clean: whatever the platform answers, also when
    [execCommand] throws, [copyTextToClipboard] leaves no temporary text
    area behind and restores a selection of the page (a selection inside a
    text field is not a range and ends as none); if it returns, the
    clipboard holds exactly the text, and if it throws after the fallback,
    it throws an [Error]. *)
Theorem copy_clean text d : dom_ok d ->
  (forall d', match execCopy d' with Err (TValue _) => False | _ => True end) ->
  let '(d', o) := exec (copyTextToClipboard text) d in
  d_areas d' = d_areas d /\
  d_selection d' = (if body then after_copy (d_selection d) else d_selection d) /\
  match o with
  | Ok _ => d_clipboard d' = text
  | Err e => match e with TError _ => True | TValue _ => False end
  end.
Proof.
  intros Hok Hex. unfold copyTextToClipboard. unfold exec at 1. rewrite run_bind.
  assert (forall d1, let '(d', o) := run handle
    (clipboard ← trigger HasClipboard;
     if clipboard : bool then catch (await (WriteText text)) (fun error => Throw (normalizeCopyError error))
     else Throw (new_error (js "Clipboard copy is not available in this browser."))) d1 in
    d_areas d' = d_areas d1 /\ d_selection d' = d_selection d1 /\
    match o with Ok _ => d_clipboard d' = text
    | Err e => match e with TError _ => True | TValue _ => False end end) as Hfb.
  { intros d1. simpl. destruct writeText as [f|] eqn:Ew; simpl; [|done]. rewrite Ew.
    destruct (f d1 text) as [[]|e]; simpl; [done|]. by destruct e. }
  destruct body eqn:Hb.
  - pose proof (textArea_exec text d Hb Hok) as E. unfold exec in E. rewrite E. clear E.
    set (d1 := mkDom (_ :: _) _ _ _). pose proof (Hex d1) as He.
    destruct (execCopy d1) as [[|]|e]; [done| |by destruct e].
    specialize (Hfb (mkDom (d_areas d) (S (d_next d)) (after_copy (d_selection d)) (d_clipboard d))).
    destruct (run handle _ _) as [d2 o]. done.
  - cbn [copyTextWithTextArea]. simpl. rewrite Hb. simpl. specialize (Hfb d).
    simpl in Hfb. exact Hfb.
Qed.
End Spec.

End Clipboard.
