(* ===== verification/Ui.v ===== *)
(** * Rendered trees and the console's shared components

    A component renders to a [node]: the elements it shows, with the action
    each control triggers ([A] is the component's type of actions; styling and
    icons are left out).  The shared components of [components/console/shared],
    [brand.tsx] and the read functions on trees the theorems use are here.
    Translated texts come from the translator [t], a parameter. *)

From S2P Require Import Prelude JsString JsNumber JsValue Json.

#[warnings="-register-all"]
Inductive node (A : Type) : Type :=
| TextNode (s : jsstring)
| El (tag : jsstring) (children : list (node A))
| Button (label : list (node A)) (disabled : bool) (onClick : A)
| Field (kind : jsstring) (value : jsstring) (disabled : bool) (onChange : jsstring -> A)
| Check (checked : bool) (onChange : bool -> A)
| Choice (value : jsstring) (options : list (jsstring * jsstring)) (onChange : jsstring -> A)
| Form (onSubmit : A) (children : list (node A))
| Skeleton.
Arguments TextNode {A} s.
Arguments El {A} tag children.
Arguments Button {A} label disabled onClick.
Arguments Field {A} kind value disabled onChange.
Arguments Check {A} checked onChange.
Arguments Choice {A} value options onChange.
Arguments Form {A} onSubmit children.
Arguments Skeleton {A}.

(** A translator: namespace, key and arguments to text. *)
Definition translator : Type := jsstring -> jsstring -> list (jsstring * jsval) -> jsstring.

(** What a handler does besides setting its component's state. *)
Inductive effect : Type :=
| ToastSuccess (text : jsstring)
| ToastError (m : message)
| Invalidate (queryKey : list jsstring)
| InvalidateAll
| ClearQueries
| ReplaceState (path : jsstring)
| Copy (text : jsstring)
| Confirm (text : jsstring)
| Reload
| Download (content name : jsstring).

(** [error.message] of a rejected mutation. *)
Definition error_text (e : thrown) : message :=
  match e with
  | TError e => err_message e
  | TValue _ => EngineText (js "message")
  end.

(** A mutation's callback: the new state and the effects, or an exception. *)
Definition callback (S : Type) : Type := S -> outcome (S * list effect).

(** ** Reading trees *)
Section Read.
Context {A : Type}.

(** The texts shown. *)
Fixpoint texts (n : node A) : list jsstring :=
  match n with
  | TextNode s => [s]
  | El _ l | Form _ l => flat_map texts l
  | Button l _ _ => flat_map texts l
  | Field _ v _ _ => [v]
  | Choice v options _ => v :: map snd options
  | Check _ _ | Skeleton => []
  end.

(** The actions of the enabled buttons and forms.  Text fields, check boxes and
    selectors are not among them: they stay usable on every page. *)
Fixpoint enabled (n : node A) : list A :=
  match n with
  | El _ l => flat_map enabled l
  | Form a l => a :: flat_map enabled l
  | Button _ d a => if d then [] else [a]
  | _ => []
  end.
End Read.

Section Shared.
Context {A : Type} (t : translator).

Definition div (l : list (node A)) : node A := El (js "div") l.
Definition text_div (s : jsstring) : node A := div [TextNode s].
Definition opt_node (o : option (node A)) : list (node A) := match o with Some n => [n] | None => [] end.

(** ** [shared/layout-primitives.tsx] *)

Definition Section_ (title description : jsstring) (action : option (node A)) (children : list (node A)) : node A :=
  El (js "section")
    (div (div [El (js "h1") [TextNode title]; El (js "p") [TextNode description]] :: opt_node action) :: children).

Definition Panel (title : jsstring) (children : list (node A)) : node A :=
  El (js "Card") [El (js "CardHeader") [El (js "CardTitle") [TextNode title]]; El (js "CardContent") children].

Definition Metric (label : jsstring) (value : list (node A)) : node A :=
  Panel label [div [div value; El (js "Icon") []]].

Definition ActionCard (title description action : jsstring) (onClick : A) : node A :=
  Button [div [El (js "Icon") []]; text_div title; text_div description; text_div action] false onClick.

(** The badge's [variant] is its tag's second word. *)
Definition HealthRow (label : jsstring) (value : list (node A)) (ok muted : bool) : node A :=
  div [div [text_div label; div value];
       El (js "Badge " ++ if ok then (if muted then js "secondary" else js "default") else js "destructive")
         [TextNode (if ok then t (js "common") (js "ok") [] else t (js "common") (js "needsAttention") [])]].

Definition StatusBadge (ok : bool) : node A :=
  El (js "Badge " ++ if ok then js "default" else js "secondary")
    [El (if ok then js "CheckCircle2" else js "CircleAlert") [];
     TextNode (if ok then t (js "common") (js "ready") [] else t (js "common") (js "checking") [])].

(** ** [shared/empty-state.tsx] *)

Definition EmptyState (title description : jsstring) (action : option (node A)) : node A :=
  div ([El (js "Icon") []; El (js "h2") [TextNode title]; El (js "p") [TextNode description]] ++
       match action with Some a => [div [a]] | None => [] end).

(** ** [shared/data-table-view.tsx] *)

(** The cell's class: text cells are truncated. *)
Definition cell_class (n : node A) : jsstring :=
  match n with TextNode _ => js "truncate font-mono" | _ => js "font-sans" end.

Definition DataTableView (columns : list jsstring) (rows : list (list (node A))) (loading : bool)
    (emptyTitle emptyDescription : option jsstring) (emptyAction : option (node A)) : node A :=
  if loading then Skeleton
  else
    div [El (js "Table")
      [El (js "TableHeader") [El (js "TableRow") (map (fun c => El (js "TableHead") [TextNode c]) columns)];
       El (js "TableBody")
         match rows with
         | [] =>
             [El (js "TableRow") [El (js "TableCell") [div
               (text_div (default (t (js "common") (js "noRecords") []) emptyTitle) ::
                match emptyDescription with
                | Some d => if nonempty d then [text_div d] else [TextNode d]
                | None => []
                end ++
                match emptyAction with Some a => [div [a]] | None => [] end)]]]
         | _ => map (fun row => El (js "TableRow")
                                  (map (fun cell => El (js "TableCell " ++ cell_class cell) [cell]) row)) rows
         end]].

(** ** [shared/auth-marketing.tsx] and [brand.tsx] *)

Definition FeatureSignal (title description : jsstring) : node A :=
  div [div [El (js "Icon") []]; text_div title; text_div description].

Definition Signal (label : jsstring) : node A := div [El (js "Icon") []; TextNode label].

Definition PeanutMark : node A := El (js "Image /peanut-logo.png") [].

Definition PeanutLogo : node A :=
  div [PeanutMark; div [text_div (js "Peanut"); text_div (t (js "common") (js "adminConsole") [])]].

(** ** The frames of [shared/code-editor.tsx] *)

Definition FunctionField (label help : jsstring) (children : list (node A)) : node A :=
  div (El (js "span") [TextNode label] :: children ++ [El (js "span") [TextNode help]]).

Definition CodeWorkbenchPane (title description : jsstring) (children : list (node A)) : node A :=
  div (div [text_div title; text_div description] :: children).

(** [<JsonBlock value={v} />]: the pretty-printed value, read-only. *)
Definition json_block (v : jsval) : node A :=
  El (js "CodeEditor readOnly") [TextNode (default [] (json_stringify_gap (js "  ") v))].
End Shared.

(** A value used as a React child: strings and numbers are shown, [null],
    [undefined] and booleans show nothing, a plain object is refused. *)
Definition child_node {A} (v : jsval) : node A :=
  match v with
  | JStr s => TextNode s
  | JNum n => TextNode (num_to_string n)
  | JUndefined | JNull | JBool _ => El (js "nothing") []
  | JArr _ => El (js "fragment") []
  | JObj _ => El (js "invalid child") []
  end.

(** ** Locales: [i18n/provider.tsx] and [shared/locale-select.tsx] *)

Inductive ConsoleLocale : Type := En | Ko.

#[global] Instance ConsoleLocale_eq_dec : EqDecision ConsoleLocale.
Proof. solve_decision. Defined.

Definition locale_string (l : ConsoleLocale) : jsstring := match l with En => js "en" | Ko => js "ko" end.

Definition parseLocale (value : jsstring) : ConsoleLocale := if jseq value (js "ko") then Ko else En.

Definition LocaleSelect {A} (locale : ConsoleLocale) (onChange : ConsoleLocale -> A)
    (label english korean : jsstring) : node A :=
  El (js "LocaleSelect " ++ label)
    [Choice (locale_string locale) [(js "en", english); (js "ko", korean)] (fun v => onChange (parseLocale v))].

(** ** Lemmas *)

Lemma elem_of_flat_map {X Y} (f : X -> list Y) l y : y ∈ flat_map f l <-> exists x, x ∈ l /\ y ∈ f x.
Proof.
  rewrite list_elem_of_In, in_flat_map. setoid_rewrite list_elem_of_In. done.
Qed.

Lemma flat_map_enabled_texts {A} (l : list jsstring) (f : jsstring -> node A) :
  (forall s, enabled (f s) = []) -> flat_map enabled (map f l) = [].
Proof. intros H. induction l as [|s l IH]; [done|]. simpl. by rewrite H. Qed.

Lemma section_enabled {A} title description (children : list (node A)) :
  enabled (Section_ title description None children) = flat_map enabled children.
Proof. done. Qed.

(** A table enables what its cells enable. *)
Lemma table_enabled {A} (t : translator) columns (rows : list (list (node A))) loading et ed a :
  a ∈ enabled (DataTableView t columns rows loading et ed None) ->
  loading = false /\ a ∈ flat_map (flat_map enabled) rows.
Proof.
  unfold DataTableView. destruct loading; [by intros ?%not_elem_of_nil|]. cbn [div enabled flat_map].
  rewrite flat_map_enabled_texts by done. cbn [app]. rewrite !app_nil_r. intros H. split; [done|].
  destruct rows as [|r rows].
  - cbn in H. destruct ed as [d|]; [destruct (nonempty d)|]; cbn in H; by apply not_elem_of_nil in H.
  - revert H. generalize (r :: rows) as l. intros l. rewrite !elem_of_flat_map.
    intros (n & Hn & Ha). apply list_elem_of_In, in_map_iff in Hn as (row & <- & Hin).
    exists row. split; [by apply list_elem_of_In|]. cbn [enabled] in Ha.
    apply elem_of_flat_map in Ha as (c & Hc & Ha). apply list_elem_of_In, in_map_iff in Hc as (cell & <- & Hcell).
    cbn [enabled flat_map] in Ha. rewrite app_nil_r in Ha. apply elem_of_flat_map.
    exists cell. split; [by apply list_elem_of_In|done].
Qed.

(** Rows rendered one by one enable what one of them enables. *)
Lemma map_outcome_enabled {X A} (f : X -> outcome (list (node A))) l rows a :
  map_outcome f l = Ok rows -> a ∈ flat_map (flat_map enabled) rows ->
  exists x row, x ∈ l /\ f x = Ok row /\ a ∈ flat_map enabled row.
Proof.
  intros H%map_outcome_Ok (row & Hr & Ha)%elem_of_flat_map.
  apply list_elem_of_lookup in Hr as [i Hi].
  destruct (Forall2_lookup_r _ _ _ _ _ H Hi) as (x & Hx & Hf). exists x, row.
  split_and!; [by eapply list_elem_of_lookup_2|done..].
Qed.

(** Refute or decide membership in an explicit list of actions. *)
Ltac in_actions H :=
  repeat (apply elem_of_cons in H as [H|H]);
  try (by apply not_elem_of_nil in H); try discriminate H.
