(* ===== verification/UiKit.v ===== *)
(** * The UI kit: [components/ui/*.tsx] and [lib/utils.ts]

    Every component of the kit is a function from the caller's props and
    children to an element.  An element has a tag (a host element, or a
    primitive of the widget libraries), attributes and children.  JSX spreads
    are right-biased: [{...props}] after an attribute replaces it; destructured
    props are taken out of the rest.

    The class utilities ([clsx], [tailwind-merge], [class-variance-authority])
    and the theme hook are not part of the repository: they are parameters.

    The lemma [kit_transparent] says what the pages rely on when they put [disabled],
    [onClick], [value] and the like on a component of the kit: it reaches the
    element that implements it, unchanged, and nothing the kit takes for itself
    leaks into the page.  Its table [kit] lists, for each component, the props
    it takes; it is read off the components' signatures. *)

From S2P Require Import Prelude.

Module Kit.

(** Values of props. *)
#[warnings="-register-all"]
Inductive pval : Type :=
| PUndef
| PBool (b : bool)
| PNum (n : Z)
| PStr (s : string)
| PDate (time : Z)
| PFun (name : string)
| PIcon (tag className : string)
| PObj (fields : list (string * pval)).

Definition props : Type := gmap string pval.

#[warnings="-register-all"]
Inductive elem : Type :=
| Elem (tag : string) (attributes : gmap string pval) (children : list elem)
| Text (s : string).

(** [value ?? d] of a destructured prop: defaults apply to [undefined]. *)
Definition if_undef (v d : pval) : pval := match v with PUndef => d | _ => v end.

(** [{ k = d }] *)
Definition take (p : gmap string pval) (k : string) (d : pval) : pval :=
  match p !! k with Some v => if_undef v d | None => d end.

(** [{ k1, ..., kn, ...props }]: what is left for [props]. *)
Definition rest (taken : list string) (p : gmap string pval) : gmap string pval := foldr delete p taken.

(** [k1={v1} ... kn={vn}] *)
Definition attrs (own : list (string * pval)) : gmap string pval := list_to_map own.

(** [k1={v1} ... kn={vn} {...props}] *)
Definition spread (own : list (string * pval)) (p : gmap string pval) : gmap string pval := p ∪ attrs own.

Definition truthy (v : pval) : bool :=
  match v with
  | PUndef => false
  | PBool b => b
  | PNum n => negb (n =? 0)%Z
  | PStr s => match s with EmptyString => false | _ => true end
  | _ => true
  end.

(** [v === s] *)
Definition is_str (v : pval) (s : string) : bool := match v with PStr s' => String.eqb s' s | _ => false end.

(** [b && v] *)
Definition pand (b : bool) (v : pval) : pval := if b then v else PBool false.

(** A string prop as text. *)
Definition show (v : pval) : elem := Text (match v with PStr s => s | _ => EmptyString end).

(** The argument of [cva]. *)
Record cva_config : Type := {
  base : string;
  variants : list (string * list (string * string));
  defaults : list (string * string)
}.

Section Components.
(** The class utilities and the theme hook. *)
Context (twMerge : pval -> pval) (clsx : list pval -> pval).
Context (cva : cva_config -> list (string * pval) -> pval).
Context (useTheme : pval).

Local Open Scope string_scope.

(** [lib/utils.ts] *)
Definition cn (inputs : list pval) : pval := twMerge (clsx inputs).

(** ** [components/ui/button.tsx] *)

Definition buttonVariants : cva_config :=
  {| base := "group/button inline-flex shrink-0 items-center justify-center rounded-lg border border-transparent bg-clip-padding text-sm font-medium whitespace-nowrap transition-all outline-none select-none focus-visible:border-ring focus-visible:ring-3 focus-visible:ring-ring/50 active:not-aria-[haspopup]:translate-y-px disabled:pointer-events-none disabled:opacity-50 aria-invalid:border-destructive aria-invalid:ring-3 aria-invalid:ring-destructive/20 dark:aria-invalid:border-destructive/50 dark:aria-invalid:ring-destructive/40 [&_svg]:pointer-events-none [&_svg]:shrink-0 [&_svg:not([class*='size-'])]:size-4";
     variants :=
      [("variant",
       [("default", "bg-primary text-primary-foreground [a]:hover:bg-primary/80");
        ("outline", "border-border bg-background hover:bg-muted hover:text-foreground aria-expanded:bg-muted aria-expanded:text-foreground dark:border-input dark:bg-input/30 dark:hover:bg-input/50");
        ("secondary", "bg-secondary text-secondary-foreground hover:bg-secondary/80 aria-expanded:bg-secondary aria-expanded:text-secondary-foreground");
        ("ghost", "hover:bg-muted hover:text-foreground aria-expanded:bg-muted aria-expanded:text-foreground dark:hover:bg-muted/50");
        ("destructive", "bg-destructive/10 text-destructive hover:bg-destructive/20 focus-visible:border-destructive/40 focus-visible:ring-destructive/20 dark:bg-destructive/20 dark:hover:bg-destructive/30 dark:focus-visible:ring-destructive/40");
        ("link", "text-primary underline-offset-4 hover:underline")]);
       ("size",
       [("default", "h-8 gap-1.5 px-2.5 has-data-[icon=inline-end]:pr-2 has-data-[icon=inline-start]:pl-2");
        ("xs", "h-6 gap-1 rounded-[min(var(--radius-md),10px)] px-2 text-xs in-data-[slot=button-group]:rounded-lg has-data-[icon=inline-end]:pr-1.5 has-data-[icon=inline-start]:pl-1.5 [&_svg:not([class*='size-'])]:size-3");
        ("sm", "h-7 gap-1 rounded-[min(var(--radius-md),12px)] px-2.5 text-[0.8rem] in-data-[slot=button-group]:rounded-lg has-data-[icon=inline-end]:pr-1.5 has-data-[icon=inline-start]:pl-1.5 [&_svg:not([class*='size-'])]:size-3.5");
        ("lg", "h-9 gap-1.5 px-2.5 has-data-[icon=inline-end]:pr-2 has-data-[icon=inline-start]:pl-2");
        ("icon", "size-8");
        ("icon-xs", "size-6 rounded-[min(var(--radius-md),10px)] in-data-[slot=button-group]:rounded-lg [&_svg:not([class*='size-'])]:size-3");
        ("icon-sm", "size-7 rounded-[min(var(--radius-md),12px)] in-data-[slot=button-group]:rounded-lg");
        ("icon-lg", "size-9")])];
     defaults := [("variant", "default"); ("size", "default")] |}.

Definition Button (p : props) (ch : list elem) : elem :=
  let className := take p "className" PUndef in
  let variant := take p "variant" (PStr "default") in
  let size := take p "size" (PStr "default") in
  let asChild := take p "asChild" (PBool false) in
  let comp := if truthy asChild then "Slot.Root" else "button" in
  Elem comp (spread [("data-slot", PStr "button");
      ("data-variant", variant);
      ("data-size", size);
      ("className", cn [cva buttonVariants [("variant", variant); ("size", size); ("className", className)]])]
      (rest ["className"; "variant"; "size"; "asChild"] p))
    ch.


(** ** [components/ui/input.tsx] *)

Definition Input (p : props) (ch : list elem) : elem :=
  let className := take p "className" PUndef in
  let type := take p "type" PUndef in
  Elem "input" (spread [("type", type);
      ("data-slot", PStr "input");
      ("className", cn [PStr "h-8 w-full min-w-0 rounded-lg border border-input bg-transparent px-2.5 py-1 text-base transition-colors outline-none file:inline-flex file:h-6 file:border-0 file:bg-transparent file:text-sm file:font-medium file:text-foreground placeholder:text-muted-foreground focus-visible:border-ring focus-visible:ring-3 focus-visible:ring-ring/50 disabled:pointer-events-none disabled:cursor-not-allowed disabled:bg-input/50 disabled:opacity-50 aria-invalid:border-destructive aria-invalid:ring-3 aria-invalid:ring-destructive/20 md:text-sm dark:bg-input/30 dark:disabled:bg-input/80 dark:aria-invalid:border-destructive/50 dark:aria-invalid:ring-destructive/40"; className])]
      (rest ["className"; "type"] p))
    ch.


(** ** [components/ui/textarea.tsx] *)

Definition Textarea (p : props) (ch : list elem) : elem :=
  let className := take p "className" PUndef in
  Elem "textarea" (spread [("data-slot", PStr "textarea");
      ("className", cn [PStr "flex field-sizing-content min-h-16 w-full rounded-lg border border-input bg-transparent px-2.5 py-2 text-base transition-colors outline-none placeholder:text-muted-foreground focus-visible:border-ring focus-visible:ring-3 focus-visible:ring-ring/50 disabled:cursor-not-allowed disabled:bg-input/50 disabled:opacity-50 aria-invalid:border-destructive aria-invalid:ring-3 aria-invalid:ring-destructive/20 md:text-sm dark:bg-input/30 dark:disabled:bg-input/80 dark:aria-invalid:border-destructive/50 dark:aria-invalid:ring-destructive/40"; className])]
      (rest ["className"] p))
    ch.


(** ** [components/ui/badge.tsx] *)

Definition badgeVariants : cva_config :=
  {| base := "group/badge inline-flex h-5 w-fit shrink-0 items-center justify-center gap-1 overflow-hidden rounded-4xl border border-transparent px-2 py-0.5 text-xs font-medium whitespace-nowrap transition-all focus-visible:border-ring focus-visible:ring-[3px] focus-visible:ring-ring/50 has-data-[icon=inline-end]:pr-1.5 has-data-[icon=inline-start]:pl-1.5 aria-invalid:border-destructive aria-invalid:ring-destructive/20 dark:aria-invalid:ring-destructive/40 [&>svg]:pointer-events-none [&>svg]:size-3!";
     variants :=
      [("variant",
       [("default", "bg-primary text-primary-foreground [a]:hover:bg-primary/80");
        ("secondary", "bg-secondary text-secondary-foreground [a]:hover:bg-secondary/80");
        ("destructive", "bg-destructive/10 text-destructive focus-visible:ring-destructive/20 dark:bg-destructive/20 dark:focus-visible:ring-destructive/40 [a]:hover:bg-destructive/20");
        ("outline", "border-border text-foreground [a]:hover:bg-muted [a]:hover:text-muted-foreground");
        ("ghost", "hover:bg-muted hover:text-muted-foreground dark:hover:bg-muted/50");
        ("link", "text-primary underline-offset-4 hover:underline")])];
     defaults := [("variant", "default")] |}.

Definition Badge (p : props) (ch : list elem) : elem :=
  let className := take p "className" PUndef in
  let variant := take p "variant" (PStr "default") in
  let asChild := take p "asChild" (PBool false) in
  let comp := if truthy asChild then "Slot.Root" else "span" in
  Elem comp (spread [("data-slot", PStr "badge");
      ("data-variant", variant);
      ("className", cn [cva badgeVariants [("variant", variant)]; className])]
      (rest ["className"; "variant"; "asChild"] p))
    ch.


(** ** [components/ui/card.tsx] *)

Definition Card (p : props) (ch : list elem) : elem :=
  let className := take p "className" PUndef in
  let size := take p "size" (PStr "default") in
  Elem "div" (spread [("data-slot", PStr "card");
      ("data-size", size);
      ("className", cn [PStr "group/card flex flex-col gap-4 overflow-hidden rounded-xl bg-card py-4 text-sm text-card-foreground ring-1 ring-foreground/10 has-data-[slot=card-footer]:pb-0 has-[>img:first-child]:pt-0 data-[size=sm]:gap-3 data-[size=sm]:py-3 data-[size=sm]:has-data-[slot=card-footer]:pb-0 *:[img:first-child]:rounded-t-xl *:[img:last-child]:rounded-b-xl"; className])]
      (rest ["className"; "size"] p))
    ch.

Definition CardHeader (p : props) (ch : list elem) : elem :=
  let className := take p "className" PUndef in
  Elem "div" (spread [("data-slot", PStr "card-header");
      ("className", cn [PStr "group/card-header @container/card-header grid auto-rows-min items-start gap-1 rounded-t-xl px-4 group-data-[size=sm]/card:px-3 has-data-[slot=card-action]:grid-cols-[1fr_auto] has-data-[slot=card-description]:grid-rows-[auto_auto] [.border-b]:pb-4 group-data-[size=sm]/card:[.border-b]:pb-3"; className])]
      (rest ["className"] p))
    ch.

Definition CardTitle (p : props) (ch : list elem) : elem :=
  let className := take p "className" PUndef in
  Elem "div" (spread [("data-slot", PStr "card-title");
      ("className", cn [PStr "font-heading text-base leading-snug font-medium group-data-[size=sm]/card:text-sm"; className])]
      (rest ["className"] p))
    ch.

Definition CardDescription (p : props) (ch : list elem) : elem :=
  let className := take p "className" PUndef in
  Elem "div" (spread [("data-slot", PStr "card-description");
      ("className", cn [PStr "text-sm text-muted-foreground"; className])]
      (rest ["className"] p))
    ch.

Definition CardAction (p : props) (ch : list elem) : elem :=
  let className := take p "className" PUndef in
  Elem "div" (spread [("data-slot", PStr "card-action");
      ("className", cn [PStr "col-start-2 row-span-2 row-start-1 self-start justify-self-end"; className])]
      (rest ["className"] p))
    ch.

Definition CardContent (p : props) (ch : list elem) : elem :=
  let className := take p "className" PUndef in
  Elem "div" (spread [("data-slot", PStr "card-content");
      ("className", cn [PStr "px-4 group-data-[size=sm]/card:px-3"; className])]
      (rest ["className"] p))
    ch.

Definition CardFooter (p : props) (ch : list elem) : elem :=
  let className := take p "className" PUndef in
  Elem "div" (spread [("data-slot", PStr "card-footer");
      ("className", cn [PStr "flex items-center rounded-b-xl border-t bg-muted/50 p-4 group-data-[size=sm]/card:p-3"; className])]
      (rest ["className"] p))
    ch.


(** ** [components/ui/alert.tsx] *)

Definition alertVariants : cva_config :=
  {| base := "group/alert relative grid w-full gap-0.5 rounded-lg border px-2.5 py-2 text-left text-sm has-data-[slot=alert-action]:relative has-data-[slot=alert-action]:pr-18 has-[>svg]:grid-cols-[auto_1fr] has-[>svg]:gap-x-2 *:[svg]:row-span-2 *:[svg]:translate-y-0.5 *:[svg]:text-current *:[svg:not([class*='size-'])]:size-4";
     variants :=
      [("variant",
       [("default", "bg-card text-card-foreground");
        ("destructive", "bg-card text-destructive *:data-[slot=alert-description]:text-destructive/90 *:[svg]:text-current")])];
     defaults := [("variant", "default")] |}.

Definition Alert (p : props) (ch : list elem) : elem :=
  let className := take p "className" PUndef in
  let variant := take p "variant" PUndef in
  Elem "div" (spread [("data-slot", PStr "alert");
      ("role", PStr "alert");
      ("className", cn [cva alertVariants [("variant", variant)]; className])]
      (rest ["className"; "variant"] p))
    ch.

Definition AlertTitle (p : props) (ch : list elem) : elem :=
  let className := take p "className" PUndef in
  Elem "div" (spread [("data-slot", PStr "alert-title");
      ("className", cn [PStr "font-medium group-has-[>svg]/alert:col-start-2 [&_a]:underline [&_a]:underline-offset-3 [&_a]:hover:text-foreground"; className])]
      (rest ["className"] p))
    ch.

Definition AlertDescription (p : props) (ch : list elem) : elem :=
  let className := take p "className" PUndef in
  Elem "div" (spread [("data-slot", PStr "alert-description");
      ("className", cn [PStr "text-sm text-balance text-muted-foreground md:text-pretty [&_a]:underline [&_a]:underline-offset-3 [&_a]:hover:text-foreground [&_p:not(:last-child)]:mb-4"; className])]
      (rest ["className"] p))
    ch.

Definition AlertAction (p : props) (ch : list elem) : elem :=
  let className := take p "className" PUndef in
  Elem "div" (spread [("data-slot", PStr "alert-action");
      ("className", cn [PStr "absolute top-2 right-2"; className])]
      (rest ["className"] p))
    ch.


(** ** [components/ui/separator.tsx] *)

Definition Separator (p : props) (ch : list elem) : elem :=
  let className := take p "className" PUndef in
  let orientation := take p "orientation" (PStr "horizontal") in
  let decorative := take p "decorative" (PBool true) in
  Elem "SeparatorPrimitive.Root" (spread [("data-slot", PStr "separator");
      ("decorative", decorative);
      ("orientation", orientation);
      ("className", cn [PStr "shrink-0 bg-border data-horizontal:h-px data-horizontal:w-full data-vertical:w-px data-vertical:self-stretch"; className])]
      (rest ["className"; "orientation"; "decorative"] p))
    ch.


(** ** [components/ui/skeleton.tsx] *)

Definition Skeleton (p : props) (ch : list elem) : elem :=
  let className := take p "className" PUndef in
  Elem "div" (spread [("data-slot", PStr "skeleton");
      ("className", cn [PStr "animate-pulse rounded-md bg-muted"; className])]
      (rest ["className"] p))
    ch.


(** ** [components/ui/table.tsx] *)

Definition Table (p : props) (ch : list elem) : elem :=
  let className := take p "className" PUndef in
  Elem "div" (attrs [("data-slot", PStr "table-container");
      ("className", PStr "relative w-full overflow-x-auto")])
    [Elem "table" (spread [("data-slot", PStr "table");
          ("className", cn [PStr "w-full caption-bottom text-sm"; className])]
          (rest ["className"] p))
        ch].

Definition TableHeader (p : props) (ch : list elem) : elem :=
  let className := take p "className" PUndef in
  Elem "thead" (spread [("data-slot", PStr "table-header");
      ("className", cn [PStr "[&_tr]:border-b"; className])]
      (rest ["className"] p))
    ch.

Definition TableBody (p : props) (ch : list elem) : elem :=
  let className := take p "className" PUndef in
  Elem "tbody" (spread [("data-slot", PStr "table-body");
      ("className", cn [PStr "[&_tr:last-child]:border-0"; className])]
      (rest ["className"] p))
    ch.

Definition TableFooter (p : props) (ch : list elem) : elem :=
  let className := take p "className" PUndef in
  Elem "tfoot" (spread [("data-slot", PStr "table-footer");
      ("className", cn [PStr "border-t bg-muted/50 font-medium [&>tr]:last:border-b-0"; className])]
      (rest ["className"] p))
    ch.

Definition TableRow (p : props) (ch : list elem) : elem :=
  let className := take p "className" PUndef in
  Elem "tr" (spread [("data-slot", PStr "table-row");
      ("className", cn [PStr "border-b transition-colors hover:bg-muted/50 has-aria-expanded:bg-muted/50 data-[state=selected]:bg-muted"; className])]
      (rest ["className"] p))
    ch.

Definition TableHead (p : props) (ch : list elem) : elem :=
  let className := take p "className" PUndef in
  Elem "th" (spread [("data-slot", PStr "table-head");
      ("className", cn [PStr "h-10 px-2 text-left align-middle font-medium whitespace-nowrap text-foreground [&:has([role=checkbox])]:pr-0"; className])]
      (rest ["className"] p))
    ch.

Definition TableCell (p : props) (ch : list elem) : elem :=
  let className := take p "className" PUndef in
  Elem "td" (spread [("data-slot", PStr "table-cell");
      ("className", cn [PStr "p-2 align-middle whitespace-nowrap [&:has([role=checkbox])]:pr-0"; className])]
      (rest ["className"] p))
    ch.

Definition TableCaption (p : props) (ch : list elem) : elem :=
  let className := take p "className" PUndef in
  Elem "caption" (spread [("data-slot", PStr "table-caption");
      ("className", cn [PStr "mt-4 text-sm text-muted-foreground"; className])]
      (rest ["className"] p))
    ch.


(** ** [components/ui/tabs.tsx] *)

Definition tabsListVariants : cva_config :=
  {| base := "group/tabs-list inline-flex w-fit items-center justify-center rounded-lg p-[3px] text-muted-foreground group-data-horizontal/tabs:h-8 group-data-vertical/tabs:h-fit group-data-vertical/tabs:flex-col data-[variant=line]:rounded-none";
     variants :=
      [("variant",
       [("default", "bg-muted");
        ("line", "gap-1 bg-transparent")])];
     defaults := [("variant", "default")] |}.

Definition Tabs (p : props) (ch : list elem) : elem :=
  let className := take p "className" PUndef in
  let orientation := take p "orientation" (PStr "horizontal") in
  Elem "TabsPrimitive.Root" (spread [("data-slot", PStr "tabs");
      ("data-orientation", orientation);
      ("className", cn [PStr "group/tabs flex gap-2 data-horizontal:flex-col"; className])]
      (rest ["className"; "orientation"] p))
    ch.

Definition TabsList (p : props) (ch : list elem) : elem :=
  let className := take p "className" PUndef in
  let variant := take p "variant" (PStr "default") in
  Elem "TabsPrimitive.List" (spread [("data-slot", PStr "tabs-list");
      ("data-variant", variant);
      ("className", cn [cva tabsListVariants [("variant", variant)]; className])]
      (rest ["className"; "variant"] p))
    ch.

Definition TabsTrigger (p : props) (ch : list elem) : elem :=
  let className := take p "className" PUndef in
  Elem "TabsPrimitive.Trigger" (spread [("data-slot", PStr "tabs-trigger");
      ("className", cn [PStr "relative inline-flex h-[calc(100%-1px)] flex-1 items-center justify-center gap-1.5 rounded-md border border-transparent px-1.5 py-0.5 text-sm font-medium whitespace-nowrap text-foreground/60 transition-all group-data-vertical/tabs:w-full group-data-vertical/tabs:justify-start hover:text-foreground focus-visible:border-ring focus-visible:ring-[3px] focus-visible:ring-ring/50 focus-visible:outline-1 focus-visible:outline-ring disabled:pointer-events-none disabled:opacity-50 has-data-[icon=inline-end]:pr-1 has-data-[icon=inline-start]:pl-1 dark:text-muted-foreground dark:hover:text-foreground group-data-[variant=default]/tabs-list:data-active:shadow-sm group-data-[variant=line]/tabs-list:data-active:shadow-none [&_svg]:pointer-events-none [&_svg]:shrink-0 [&_svg:not([class*='size-'])]:size-4"; PStr "group-data-[variant=line]/tabs-list:bg-transparent group-data-[variant=line]/tabs-list:data-active:bg-transparent dark:group-data-[variant=line]/tabs-list:data-active:border-transparent dark:group-data-[variant=line]/tabs-list:data-active:bg-transparent"; PStr "data-active:bg-background data-active:text-foreground data-[state=active]:bg-background data-[state=active]:text-foreground dark:data-active:border-input dark:data-active:bg-input/30 dark:data-active:text-foreground dark:data-[state=active]:border-input dark:data-[state=active]:bg-input/30 dark:data-[state=active]:text-foreground"; PStr "after:absolute after:bg-foreground after:opacity-0 after:transition-opacity group-data-horizontal/tabs:after:inset-x-0 group-data-horizontal/tabs:after:bottom-[-5px] group-data-horizontal/tabs:after:h-0.5 group-data-vertical/tabs:after:inset-y-0 group-data-vertical/tabs:after:-right-1 group-data-vertical/tabs:after:w-0.5 group-data-[variant=line]/tabs-list:data-active:after:opacity-100 group-data-[variant=line]/tabs-list:data-[state=active]:after:opacity-100"; className])]
      (rest ["className"] p))
    ch.

Definition TabsContent (p : props) (ch : list elem) : elem :=
  let className := take p "className" PUndef in
  Elem "TabsPrimitive.Content" (spread [("data-slot", PStr "tabs-content");
      ("className", cn [PStr "flex-1 text-sm outline-none"; className])]
      (rest ["className"] p))
    ch.


(** ** [components/ui/tooltip.tsx] *)

Definition TooltipProvider (p : props) (ch : list elem) : elem :=
  let delayDuration := take p "delayDuration" (PNum 0) in
  Elem "TooltipPrimitive.Provider" (spread [("data-slot", PStr "tooltip-provider");
      ("delayDuration", delayDuration)]
      (rest ["delayDuration"] p))
    ch.

Definition Tooltip (p : props) (ch : list elem) : elem :=
  Elem "TooltipPrimitive.Root" (spread [("data-slot", PStr "tooltip")]
      (rest [] p))
    ch.

Definition TooltipTrigger (p : props) (ch : list elem) : elem :=
  Elem "TooltipPrimitive.Trigger" (spread [("data-slot", PStr "tooltip-trigger")]
      (rest [] p))
    ch.

Definition TooltipContent (p : props) (ch : list elem) : elem :=
  let className := take p "className" PUndef in
  let sideOffset := take p "sideOffset" (PNum 0) in
  Elem "TooltipPrimitive.Portal" (attrs [])
    [Elem "TooltipPrimitive.Content" (spread [("data-slot", PStr "tooltip-content");
          ("sideOffset", sideOffset);
          ("className", cn [PStr "z-50 inline-flex w-fit max-w-xs origin-(--radix-tooltip-content-transform-origin) items-center gap-1.5 rounded-md bg-foreground px-3 py-1.5 text-xs text-background has-data-[slot=kbd]:pr-1.5 data-[side=bottom]:slide-in-from-top-2 data-[side=left]:slide-in-from-right-2 data-[side=right]:slide-in-from-left-2 data-[side=top]:slide-in-from-bottom-2 **:data-[slot=kbd]:relative **:data-[slot=kbd]:isolate **:data-[slot=kbd]:z-50 **:data-[slot=kbd]:rounded-sm data-[state=delayed-open]:animate-in data-[state=delayed-open]:fade-in-0 data-[state=delayed-open]:zoom-in-95 data-open:animate-in data-open:fade-in-0 data-open:zoom-in-95 data-closed:animate-out data-closed:fade-out-0 data-closed:zoom-out-95"; className])]
          (rest ["className"; "sideOffset"; "children"] p))
        (ch
         ++ [Elem "TooltipPrimitive.Arrow" (attrs [("className", PStr "z-50 size-2.5 translate-y-[calc(-50%_-_2px)] rotate-45 rounded-[2px] bg-foreground fill-foreground")])
            []])].


(** ** [components/ui/dialog.tsx] *)

Definition Dialog (p : props) (ch : list elem) : elem :=
  Elem "DialogPrimitive.Root" (spread [("data-slot", PStr "dialog")]
      (rest [] p))
    ch.

Definition DialogTrigger (p : props) (ch : list elem) : elem :=
  Elem "DialogPrimitive.Trigger" (spread [("data-slot", PStr "dialog-trigger")]
      (rest [] p))
    ch.

Definition DialogPortal (p : props) (ch : list elem) : elem :=
  Elem "DialogPrimitive.Portal" (spread [("data-slot", PStr "dialog-portal")]
      (rest [] p))
    ch.

Definition DialogClose (p : props) (ch : list elem) : elem :=
  Elem "DialogPrimitive.Close" (spread [("data-slot", PStr "dialog-close")]
      (rest [] p))
    ch.

Definition DialogOverlay (p : props) (ch : list elem) : elem :=
  let className := take p "className" PUndef in
  Elem "DialogPrimitive.Overlay" (spread [("data-slot", PStr "dialog-overlay");
      ("className", cn [PStr "fixed inset-0 isolate z-50 bg-black/10 duration-100 supports-backdrop-filter:backdrop-blur-xs data-open:animate-in data-open:fade-in-0 data-closed:animate-out data-closed:fade-out-0"; className])]
      (rest ["className"] p))
    ch.

Definition DialogContent (p : props) (ch : list elem) : elem :=
  let className := take p "className" PUndef in
  let showCloseButton := take p "showCloseButton" (PBool true) in
  DialogPortal (attrs [])
    ([DialogOverlay (attrs [])
        []]
     ++ [Elem "DialogPrimitive.Content" (spread [("data-slot", PStr "dialog-content");
          ("className", cn [PStr "fixed top-1/2 left-1/2 z-50 grid w-full max-w-[calc(100%-2rem)] -translate-x-1/2 -translate-y-1/2 gap-4 rounded-xl bg-popover p-4 text-sm text-popover-foreground ring-1 ring-foreground/10 duration-100 outline-none sm:max-w-sm data-open:animate-in data-open:fade-in-0 data-open:zoom-in-95 data-closed:animate-out data-closed:fade-out-0 data-closed:zoom-out-95"; className])]
          (rest ["className"; "children"; "showCloseButton"] p))
        (ch
         ++ (if truthy showCloseButton then [Elem "DialogPrimitive.Close" (attrs [("data-slot", PStr "dialog-close");
              ("asChild", PBool true)])
            [Button (attrs [("variant", PStr "ghost");
                  ("className", PStr "absolute top-2 right-2");
                  ("size", PStr "icon-sm")])
                ([Elem "XIcon" (attrs [])
                    []]
                 ++ [Elem "span" (attrs [("className", PStr "sr-only")])
                    [Text "Close"]])]] else []))]).

Definition DialogHeader (p : props) (ch : list elem) : elem :=
  let className := take p "className" PUndef in
  Elem "div" (spread [("data-slot", PStr "dialog-header");
      ("className", cn [PStr "flex flex-col gap-2"; className])]
      (rest ["className"] p))
    ch.

Definition DialogFooter (p : props) (ch : list elem) : elem :=
  let className := take p "className" PUndef in
  let showCloseButton := take p "showCloseButton" (PBool false) in
  Elem "div" (spread [("data-slot", PStr "dialog-footer");
      ("className", cn [PStr "-mx-4 -mb-4 flex flex-col-reverse gap-2 rounded-b-xl border-t bg-muted/50 p-4 sm:flex-row sm:justify-end"; className])]
      (rest ["className"; "showCloseButton"; "children"] p))
    (ch
     ++ (if truthy showCloseButton then [Elem "DialogPrimitive.Close" (attrs [("asChild", PBool true)])
        [Button (attrs [("variant", PStr "outline")])
            [Text "Close"]]] else [])).

Definition DialogTitle (p : props) (ch : list elem) : elem :=
  let className := take p "className" PUndef in
  Elem "DialogPrimitive.Title" (spread [("data-slot", PStr "dialog-title");
      ("className", cn [PStr "font-heading text-base leading-none font-medium"; className])]
      (rest ["className"] p))
    ch.

Definition DialogDescription (p : props) (ch : list elem) : elem :=
  let className := take p "className" PUndef in
  Elem "DialogPrimitive.Description" (spread [("data-slot", PStr "dialog-description");
      ("className", cn [PStr "text-sm text-muted-foreground *:[a]:underline *:[a]:underline-offset-3 *:[a]:hover:text-foreground"; className])]
      (rest ["className"] p))
    ch.


(** ** [components/ui/sheet.tsx] *)

Definition Sheet (p : props) (ch : list elem) : elem :=
  Elem "SheetPrimitive.Root" (spread [("data-slot", PStr "sheet")]
      (rest [] p))
    ch.

Definition SheetTrigger (p : props) (ch : list elem) : elem :=
  Elem "SheetPrimitive.Trigger" (spread [("data-slot", PStr "sheet-trigger")]
      (rest [] p))
    ch.

Definition SheetClose (p : props) (ch : list elem) : elem :=
  Elem "SheetPrimitive.Close" (spread [("data-slot", PStr "sheet-close")]
      (rest [] p))
    ch.

Definition SheetPortal (p : props) (ch : list elem) : elem :=
  Elem "SheetPrimitive.Portal" (spread [("data-slot", PStr "sheet-portal")]
      (rest [] p))
    ch.

Definition SheetOverlay (p : props) (ch : list elem) : elem :=
  let className := take p "className" PUndef in
  Elem "SheetPrimitive.Overlay" (spread [("data-slot", PStr "sheet-overlay");
      ("className", cn [PStr "fixed inset-0 z-50 bg-black/10 duration-100 supports-backdrop-filter:backdrop-blur-xs data-open:animate-in data-open:fade-in-0 data-closed:animate-out data-closed:fade-out-0"; className])]
      (rest ["className"] p))
    ch.

Definition SheetContent (p : props) (ch : list elem) : elem :=
  let className := take p "className" PUndef in
  let side := take p "side" (PStr "right") in
  let showCloseButton := take p "showCloseButton" (PBool true) in
  SheetPortal (attrs [])
    ([SheetOverlay (attrs [])
        []]
     ++ [Elem "SheetPrimitive.Content" (spread [("data-slot", PStr "sheet-content");
          ("data-side", side);
          ("className", cn [PStr "fixed z-50 flex flex-col gap-4 bg-popover bg-clip-padding text-sm text-popover-foreground shadow-lg transition duration-200 ease-in-out data-[side=bottom]:inset-x-0 data-[side=bottom]:bottom-0 data-[side=bottom]:h-auto data-[side=bottom]:border-t data-[side=left]:inset-y-0 data-[side=left]:left-0 data-[side=left]:h-full data-[side=left]:w-3/4 data-[side=left]:border-r data-[side=right]:inset-y-0 data-[side=right]:right-0 data-[side=right]:h-full data-[side=right]:w-3/4 data-[side=right]:border-l data-[side=top]:inset-x-0 data-[side=top]:top-0 data-[side=top]:h-auto data-[side=top]:border-b data-[side=left]:sm:max-w-sm data-[side=right]:sm:max-w-sm data-open:animate-in data-open:fade-in-0 data-[side=bottom]:data-open:slide-in-from-bottom-10 data-[side=left]:data-open:slide-in-from-left-10 data-[side=right]:data-open:slide-in-from-right-10 data-[side=top]:data-open:slide-in-from-top-10 data-closed:animate-out data-closed:fade-out-0 data-[side=bottom]:data-closed:slide-out-to-bottom-10 data-[side=left]:data-closed:slide-out-to-left-10 data-[side=right]:data-closed:slide-out-to-right-10 data-[side=top]:data-closed:slide-out-to-top-10"; className])]
          (rest ["className"; "children"; "side"; "showCloseButton"] p))
        (ch
         ++ (if truthy showCloseButton then [Elem "SheetPrimitive.Close" (attrs [("data-slot", PStr "sheet-close"); ("asChild", PBool true)])
            [Button (attrs [("variant", PStr "ghost");
                  ("className", PStr "absolute top-3 right-3");
                  ("size", PStr "icon-sm")])
                ([Elem "XIcon" (attrs [])
                    []]
                 ++ [Elem "span" (attrs [("className", PStr "sr-only")])
                    [Text "Close"]])]] else []))]).

Definition SheetHeader (p : props) (ch : list elem) : elem :=
  let className := take p "className" PUndef in
  Elem "div" (spread [("data-slot", PStr "sheet-header");
      ("className", cn [PStr "flex flex-col gap-0.5 p-4"; className])]
      (rest ["className"] p))
    ch.

Definition SheetFooter (p : props) (ch : list elem) : elem :=
  let className := take p "className" PUndef in
  Elem "div" (spread [("data-slot", PStr "sheet-footer");
      ("className", cn [PStr "mt-auto flex flex-col gap-2 p-4"; className])]
      (rest ["className"] p))
    ch.

Definition SheetTitle (p : props) (ch : list elem) : elem :=
  let className := take p "className" PUndef in
  Elem "SheetPrimitive.Title" (spread [("data-slot", PStr "sheet-title");
      ("className", cn [PStr "font-heading text-base font-medium text-foreground"; className])]
      (rest ["className"] p))
    ch.

Definition SheetDescription (p : props) (ch : list elem) : elem :=
  let className := take p "className" PUndef in
  Elem "SheetPrimitive.Description" (spread [("data-slot", PStr "sheet-description");
      ("className", cn [PStr "text-sm text-muted-foreground"; className])]
      (rest ["className"] p))
    ch.


(** ** [components/ui/select.tsx] *)

Definition SelectScrollUpButton (p : props) (ch : list elem) : elem :=
  let className := take p "className" PUndef in
  Elem "SelectPrimitive.ScrollUpButton" (spread [("data-slot", PStr "select-scroll-up-button");
      ("className", cn [PStr "z-10 flex cursor-default items-center justify-center bg-popover py-1 [&_svg:not([class*='size-'])]:size-4"; className])]
      (rest ["className"] p))
    [Elem "ChevronUpIcon" (attrs [])
        []].

Definition SelectScrollDownButton (p : props) (ch : list elem) : elem :=
  let className := take p "className" PUndef in
  Elem "SelectPrimitive.ScrollDownButton" (spread [("data-slot", PStr "select-scroll-down-button");
      ("className", cn [PStr "z-10 flex cursor-default items-center justify-center bg-popover py-1 [&_svg:not([class*='size-'])]:size-4"; className])]
      (rest ["className"] p))
    [Elem "ChevronDownIcon" (attrs [])
        []].

Definition Select (p : props) (ch : list elem) : elem :=
  Elem "SelectPrimitive.Root" (spread [("data-slot", PStr "select")]
      (rest [] p))
    ch.

Definition SelectGroup (p : props) (ch : list elem) : elem :=
  let className := take p "className" PUndef in
  Elem "SelectPrimitive.Group" (spread [("data-slot", PStr "select-group");
      ("className", cn [PStr "scroll-my-1 p-1"; className])]
      (rest ["className"] p))
    ch.

Definition SelectValue (p : props) (ch : list elem) : elem :=
  Elem "SelectPrimitive.Value" (spread [("data-slot", PStr "select-value")]
      (rest [] p))
    ch.

Definition SelectTrigger (p : props) (ch : list elem) : elem :=
  let className := take p "className" PUndef in
  let size := take p "size" (PStr "default") in
  Elem "SelectPrimitive.Trigger" (spread [("data-slot", PStr "select-trigger");
      ("data-size", size);
      ("className", cn [PStr "flex w-fit items-center justify-between gap-1.5 rounded-lg border border-input bg-transparent py-2 pr-2 pl-2.5 text-sm whitespace-nowrap transition-colors outline-none select-none focus-visible:border-ring focus-visible:ring-3 focus-visible:ring-ring/50 disabled:cursor-not-allowed disabled:opacity-50 aria-invalid:border-destructive aria-invalid:ring-3 aria-invalid:ring-destructive/20 data-placeholder:text-muted-foreground data-[size=default]:h-8 data-[size=sm]:h-7 data-[size=sm]:rounded-[min(var(--radius-md),10px)] *:data-[slot=select-value]:line-clamp-1 *:data-[slot=select-value]:flex *:data-[slot=select-value]:items-center *:data-[slot=select-value]:gap-1.5 dark:bg-input/30 dark:hover:bg-input/50 dark:aria-invalid:border-destructive/50 dark:aria-invalid:ring-destructive/40 [&_svg]:pointer-events-none [&_svg]:shrink-0 [&_svg:not([class*='size-'])]:size-4"; className])]
      (rest ["className"; "size"; "children"] p))
    (ch
     ++ [Elem "SelectPrimitive.Icon" (attrs [("asChild", PBool true)])
        [Elem "ChevronDownIcon" (attrs [("className", PStr "pointer-events-none size-4 text-muted-foreground")])
            []]]).

Definition SelectContent (p : props) (ch : list elem) : elem :=
  let className := take p "className" PUndef in
  let position := take p "position" (PStr "item-aligned") in
  let align := take p "align" (PStr "center") in
  Elem "SelectPrimitive.Portal" (attrs [])
    [Elem "SelectPrimitive.Content" (spread [("data-slot", PStr "select-content");
          ("data-align-trigger", PBool (is_str position "item-aligned"));
          ("className", cn [PStr "relative z-50 max-h-(--radix-select-content-available-height) min-w-36 origin-(--radix-select-content-transform-origin) overflow-x-hidden overflow-y-auto rounded-lg bg-popover text-popover-foreground shadow-md ring-1 ring-foreground/10 duration-100 data-[align-trigger=true]:animate-none data-[side=bottom]:slide-in-from-top-2 data-[side=left]:slide-in-from-right-2 data-[side=right]:slide-in-from-left-2 data-[side=top]:slide-in-from-bottom-2 data-open:animate-in data-open:fade-in-0 data-open:zoom-in-95 data-closed:animate-out data-closed:fade-out-0 data-closed:zoom-out-95"; pand (is_str position "popper") (PStr "data-[side=bottom]:translate-y-1 data-[side=left]:-translate-x-1 data-[side=right]:translate-x-1 data-[side=top]:-translate-y-1"); className]);
          ("position", position);
          ("align", align)]
          (rest ["className"; "children"; "position"; "align"] p))
        ([SelectScrollUpButton (attrs [])
            []]
         ++ [Elem "SelectPrimitive.Viewport" (attrs [("data-position", position);
              ("className", cn [PStr "data-[position=popper]:h-(--radix-select-trigger-height) data-[position=popper]:w-full data-[position=popper]:min-w-(--radix-select-trigger-width)"; pand (is_str position "popper") (PStr "")])])
            ch]
         ++ [SelectScrollDownButton (attrs [])
            []])].

Definition SelectLabel (p : props) (ch : list elem) : elem :=
  let className := take p "className" PUndef in
  Elem "SelectPrimitive.Label" (spread [("data-slot", PStr "select-label");
      ("className", cn [PStr "px-1.5 py-1 text-xs text-muted-foreground"; className])]
      (rest ["className"] p))
    ch.

Definition SelectItem (p : props) (ch : list elem) : elem :=
  let className := take p "className" PUndef in
  Elem "SelectPrimitive.Item" (spread [("data-slot", PStr "select-item");
      ("className", cn [PStr "relative flex w-full cursor-default items-center gap-1.5 rounded-md py-1 pr-8 pl-1.5 text-sm outline-hidden select-none focus:bg-accent focus:text-accent-foreground not-data-[variant=destructive]:focus:**:text-accent-foreground data-disabled:pointer-events-none data-disabled:opacity-50 [&_svg]:pointer-events-none [&_svg]:shrink-0 [&_svg:not([class*='size-'])]:size-4 *:[span]:last:flex *:[span]:last:items-center *:[span]:last:gap-2"; className])]
      (rest ["className"; "children"] p))
    ([Elem "span" (attrs [("className", PStr "pointer-events-none absolute right-2 flex size-4 items-center justify-center")])
        [Elem "SelectPrimitive.ItemIndicator" (attrs [])
            [Elem "CheckIcon" (attrs [("className", PStr "pointer-events-none")])
                []]]]
     ++ [Elem "SelectPrimitive.ItemText" (attrs [])
        ch]).

Definition SelectSeparator (p : props) (ch : list elem) : elem :=
  let className := take p "className" PUndef in
  Elem "SelectPrimitive.Separator" (spread [("data-slot", PStr "select-separator");
      ("className", cn [PStr "pointer-events-none -mx-1 my-1 h-px bg-border"; className])]
      (rest ["className"] p))
    ch.


(** ** [components/ui/dropdown-menu.tsx] *)

Definition DropdownMenu (p : props) (ch : list elem) : elem :=
  Elem "DropdownMenuPrimitive.Root" (spread [("data-slot", PStr "dropdown-menu")]
      (rest [] p))
    ch.

Definition DropdownMenuPortal (p : props) (ch : list elem) : elem :=
  Elem "DropdownMenuPrimitive.Portal" (spread [("data-slot", PStr "dropdown-menu-portal")]
      (rest [] p))
    ch.

Definition DropdownMenuTrigger (p : props) (ch : list elem) : elem :=
  Elem "DropdownMenuPrimitive.Trigger" (spread [("data-slot", PStr "dropdown-menu-trigger")]
      (rest [] p))
    ch.

Definition DropdownMenuContent (p : props) (ch : list elem) : elem :=
  let className := take p "className" PUndef in
  let align := take p "align" (PStr "start") in
  let sideOffset := take p "sideOffset" (PNum 4) in
  Elem "DropdownMenuPrimitive.Portal" (attrs [])
    [Elem "DropdownMenuPrimitive.Content" (spread [("data-slot", PStr "dropdown-menu-content");
          ("sideOffset", sideOffset);
          ("align", align);
          ("className", cn [PStr "z-50 max-h-(--radix-dropdown-menu-content-available-height) w-(--radix-dropdown-menu-trigger-width) min-w-32 origin-(--radix-dropdown-menu-content-transform-origin) overflow-x-hidden overflow-y-auto rounded-lg bg-popover p-1 text-popover-foreground shadow-md ring-1 ring-foreground/10 duration-100 data-[side=bottom]:slide-in-from-top-2 data-[side=left]:slide-in-from-right-2 data-[side=right]:slide-in-from-left-2 data-[side=top]:slide-in-from-bottom-2 data-[state=closed]:overflow-hidden data-open:animate-in data-open:fade-in-0 data-open:zoom-in-95 data-closed:animate-out data-closed:fade-out-0 data-closed:zoom-out-95"; className])]
          (rest ["className"; "align"; "sideOffset"] p))
        ch].

Definition DropdownMenuGroup (p : props) (ch : list elem) : elem :=
  Elem "DropdownMenuPrimitive.Group" (spread [("data-slot", PStr "dropdown-menu-group")]
      (rest [] p))
    ch.

Definition DropdownMenuItem (p : props) (ch : list elem) : elem :=
  let className := take p "className" PUndef in
  let inset := take p "inset" PUndef in
  let variant := take p "variant" (PStr "default") in
  Elem "DropdownMenuPrimitive.Item" (spread [("data-slot", PStr "dropdown-menu-item");
      ("data-inset", inset);
      ("data-variant", variant);
      ("className", cn [PStr "group/dropdown-menu-item relative flex cursor-default items-center gap-1.5 rounded-md px-1.5 py-1 text-sm outline-hidden select-none focus:bg-accent focus:text-accent-foreground not-data-[variant=destructive]:focus:**:text-accent-foreground data-inset:pl-7 data-[variant=destructive]:text-destructive data-[variant=destructive]:focus:bg-destructive/10 data-[variant=destructive]:focus:text-destructive dark:data-[variant=destructive]:focus:bg-destructive/20 data-disabled:pointer-events-none data-disabled:opacity-50 [&_svg]:pointer-events-none [&_svg]:shrink-0 [&_svg:not([class*='size-'])]:size-4 data-[variant=destructive]:*:[svg]:text-destructive"; className])]
      (rest ["className"; "inset"; "variant"] p))
    ch.

Definition DropdownMenuCheckboxItem (p : props) (ch : list elem) : elem :=
  let className := take p "className" PUndef in
  let checked := take p "checked" PUndef in
  let inset := take p "inset" PUndef in
  Elem "DropdownMenuPrimitive.CheckboxItem" (spread [("data-slot", PStr "dropdown-menu-checkbox-item");
      ("data-inset", inset);
      ("className", cn [PStr "relative flex cursor-default items-center gap-1.5 rounded-md py-1 pr-8 pl-1.5 text-sm outline-hidden select-none focus:bg-accent focus:text-accent-foreground focus:**:text-accent-foreground data-inset:pl-7 data-disabled:pointer-events-none data-disabled:opacity-50 [&_svg]:pointer-events-none [&_svg]:shrink-0 [&_svg:not([class*='size-'])]:size-4"; className]);
      ("checked", checked)]
      (rest ["className"; "children"; "checked"; "inset"] p))
    ([Elem "span" (attrs [("className", PStr "pointer-events-none absolute right-2 flex items-center justify-center");
          ("data-slot", PStr "dropdown-menu-checkbox-item-indicator")])
        [Elem "DropdownMenuPrimitive.ItemIndicator" (attrs [])
            [Elem "CheckIcon" (attrs [])
                []]]]
     ++ ch).

Definition DropdownMenuRadioGroup (p : props) (ch : list elem) : elem :=
  Elem "DropdownMenuPrimitive.RadioGroup" (spread [("data-slot", PStr "dropdown-menu-radio-group")]
      (rest [] p))
    ch.

Definition DropdownMenuRadioItem (p : props) (ch : list elem) : elem :=
  let className := take p "className" PUndef in
  let inset := take p "inset" PUndef in
  Elem "DropdownMenuPrimitive.RadioItem" (spread [("data-slot", PStr "dropdown-menu-radio-item");
      ("data-inset", inset);
      ("className", cn [PStr "relative flex cursor-default items-center gap-1.5 rounded-md py-1 pr-8 pl-1.5 text-sm outline-hidden select-none focus:bg-accent focus:text-accent-foreground focus:**:text-accent-foreground data-inset:pl-7 data-disabled:pointer-events-none data-disabled:opacity-50 [&_svg]:pointer-events-none [&_svg]:shrink-0 [&_svg:not([class*='size-'])]:size-4"; className])]
      (rest ["className"; "children"; "inset"] p))
    ([Elem "span" (attrs [("className", PStr "pointer-events-none absolute right-2 flex items-center justify-center");
          ("data-slot", PStr "dropdown-menu-radio-item-indicator")])
        [Elem "DropdownMenuPrimitive.ItemIndicator" (attrs [])
            [Elem "CheckIcon" (attrs [])
                []]]]
     ++ ch).

Definition DropdownMenuLabel (p : props) (ch : list elem) : elem :=
  let className := take p "className" PUndef in
  let inset := take p "inset" PUndef in
  Elem "DropdownMenuPrimitive.Label" (spread [("data-slot", PStr "dropdown-menu-label");
      ("data-inset", inset);
      ("className", cn [PStr "px-1.5 py-1 text-xs font-medium text-muted-foreground data-inset:pl-7"; className])]
      (rest ["className"; "inset"] p))
    ch.

Definition DropdownMenuSeparator (p : props) (ch : list elem) : elem :=
  let className := take p "className" PUndef in
  Elem "DropdownMenuPrimitive.Separator" (spread [("data-slot", PStr "dropdown-menu-separator");
      ("className", cn [PStr "-mx-1 my-1 h-px bg-border"; className])]
      (rest ["className"] p))
    ch.

Definition DropdownMenuShortcut (p : props) (ch : list elem) : elem :=
  let className := take p "className" PUndef in
  Elem "span" (spread [("data-slot", PStr "dropdown-menu-shortcut");
      ("className", cn [PStr "ml-auto text-xs tracking-widest text-muted-foreground group-focus/dropdown-menu-item:text-accent-foreground"; className])]
      (rest ["className"] p))
    ch.

Definition DropdownMenuSub (p : props) (ch : list elem) : elem :=
  Elem "DropdownMenuPrimitive.Sub" (spread [("data-slot", PStr "dropdown-menu-sub")]
      (rest [] p))
    ch.

Definition DropdownMenuSubTrigger (p : props) (ch : list elem) : elem :=
  let className := take p "className" PUndef in
  let inset := take p "inset" PUndef in
  Elem "DropdownMenuPrimitive.SubTrigger" (spread [("data-slot", PStr "dropdown-menu-sub-trigger");
      ("data-inset", inset);
      ("className", cn [PStr "flex cursor-default items-center gap-1.5 rounded-md px-1.5 py-1 text-sm outline-hidden select-none focus:bg-accent focus:text-accent-foreground not-data-[variant=destructive]:focus:**:text-accent-foreground data-inset:pl-7 data-open:bg-accent data-open:text-accent-foreground [&_svg]:pointer-events-none [&_svg]:shrink-0 [&_svg:not([class*='size-'])]:size-4"; className])]
      (rest ["className"; "inset"; "children"] p))
    (ch
     ++ [Elem "ChevronRightIcon" (attrs [("className", PStr "ml-auto")])
        []]).

Definition DropdownMenuSubContent (p : props) (ch : list elem) : elem :=
  let className := take p "className" PUndef in
  Elem "DropdownMenuPrimitive.SubContent" (spread [("data-slot", PStr "dropdown-menu-sub-content");
      ("className", cn [PStr "z-50 min-w-[96px] origin-(--radix-dropdown-menu-content-transform-origin) overflow-hidden rounded-lg bg-popover p-1 text-popover-foreground shadow-lg ring-1 ring-foreground/10 duration-100 data-[side=bottom]:slide-in-from-top-2 data-[side=left]:slide-in-from-right-2 data-[side=right]:slide-in-from-left-2 data-[side=top]:slide-in-from-bottom-2 data-open:animate-in data-open:fade-in-0 data-open:zoom-in-95 data-closed:animate-out data-closed:fade-out-0 data-closed:zoom-out-95"; className])]
      (rest ["className"] p))
    ch.


(** ** [components/ui/input-group.tsx] *)

Definition inputGroupAddonVariants : cva_config :=
  {| base := "flex h-auto cursor-text items-center justify-center gap-2 py-1.5 text-sm font-medium text-muted-foreground select-none group-data-[disabled=true]/input-group:opacity-50 [&>kbd]:rounded-[calc(var(--radius)-5px)] [&>svg:not([class*='size-'])]:size-4";
     variants :=
      [("align",
       [("inline-start", "order-first pl-2 has-[>button]:ml-[-0.3rem] has-[>kbd]:ml-[-0.15rem]");
        ("inline-end", "order-last pr-2 has-[>button]:mr-[-0.3rem] has-[>kbd]:mr-[-0.15rem]");
        ("block-start", "order-first w-full justify-start px-2.5 pt-2 group-has-[>input]/input-group:pt-2 [.border-b]:pb-2");
        ("block-end", "order-last w-full justify-start px-2.5 pb-2 group-has-[>input]/input-group:pb-2 [.border-t]:pt-2")])];
     defaults := [("align", "inline-start")] |}.

Definition inputGroupButtonVariants : cva_config :=
  {| base := "flex items-center gap-2 text-sm shadow-none";
     variants :=
      [("size",
       [("xs", "h-6 gap-1 rounded-[calc(var(--radius)-3px)] px-1.5 [&>svg:not([class*='size-'])]:size-3.5");
        ("sm", "");
        ("icon-xs", "size-6 rounded-[calc(var(--radius)-3px)] p-0 has-[>svg]:p-0");
        ("icon-sm", "size-8 p-0 has-[>svg]:p-0")])];
     defaults := [("size", "xs")] |}.

Definition InputGroup (p : props) (ch : list elem) : elem :=
  let className := take p "className" PUndef in
  Elem "div" (spread [("data-slot", PStr "input-group");
      ("role", PStr "group");
      ("className", cn [PStr "group/input-group relative flex h-8 w-full min-w-0 items-center rounded-lg border border-input transition-colors outline-none in-data-[slot=combobox-content]:focus-within:border-inherit in-data-[slot=combobox-content]:focus-within:ring-0 has-disabled:bg-input/50 has-disabled:opacity-50 has-[[data-slot=input-group-control]:focus-visible]:border-ring has-[[data-slot=input-group-control]:focus-visible]:ring-3 has-[[data-slot=input-group-control]:focus-visible]:ring-ring/50 has-[[data-slot][aria-invalid=true]]:border-destructive has-[[data-slot][aria-invalid=true]]:ring-3 has-[[data-slot][aria-invalid=true]]:ring-destructive/20 has-[>[data-align=block-end]]:h-auto has-[>[data-align=block-end]]:flex-col has-[>[data-align=block-start]]:h-auto has-[>[data-align=block-start]]:flex-col has-[>textarea]:h-auto dark:bg-input/30 dark:has-disabled:bg-input/80 dark:has-[[data-slot][aria-invalid=true]]:ring-destructive/40 has-[>[data-align=block-end]]:[&>input]:pt-3 has-[>[data-align=block-start]]:[&>input]:pb-3 has-[>[data-align=inline-end]]:[&>input]:pr-1.5 has-[>[data-align=inline-start]]:[&>input]:pl-1.5"; className])]
      (rest ["className"] p))
    ch.

(** The default [onClick] of [InputGroupAddon]: whether the input of the
    group is focused, from the click being inside a button, the addon having a
    parent, and the parent containing an input. *)
Definition addon_click (inButton hasParent hasInput : bool) : bool :=
  if inButton then false else hasParent && hasInput.

Definition InputGroupAddon (p : props) (ch : list elem) : elem :=
  let className := take p "className" PUndef in
  let align := take p "align" (PStr "inline-start") in
  Elem "div" (spread [("role", PStr "group");
      ("data-slot", PStr "input-group-addon");
      ("data-align", align);
      ("className", cn [cva inputGroupAddonVariants [("align", align)]; className]);
      ("onClick", PFun "focusInput")]
      (rest ["className"; "align"] p))
    ch.

Definition InputGroupButton (p : props) (ch : list elem) : elem :=
  let className := take p "className" PUndef in
  let type := take p "type" (PStr "button") in
  let variant := take p "variant" (PStr "ghost") in
  let size := take p "size" (PStr "xs") in
  Button (spread [("type", type);
      ("data-size", size);
      ("variant", variant);
      ("className", cn [cva inputGroupButtonVariants [("size", size)]; className])]
      (rest ["className"; "type"; "variant"; "size"] p))
    ch.

Definition InputGroupText (p : props) (ch : list elem) : elem :=
  let className := take p "className" PUndef in
  Elem "span" (spread [("className", cn [PStr "flex items-center gap-2 text-sm text-muted-foreground [&_svg]:pointer-events-none [&_svg:not([class*='size-'])]:size-4"; className])]
      (rest ["className"] p))
    ch.

Definition InputGroupInput (p : props) (ch : list elem) : elem :=
  let className := take p "className" PUndef in
  Input (spread [("data-slot", PStr "input-group-control");
      ("className", cn [PStr "flex-1 rounded-none border-0 bg-transparent shadow-none ring-0 focus-visible:ring-0 disabled:bg-transparent aria-invalid:ring-0 dark:bg-transparent dark:disabled:bg-transparent"; className])]
      (rest ["className"] p))
    ch.

Definition InputGroupTextarea (p : props) (ch : list elem) : elem :=
  let className := take p "className" PUndef in
  Textarea (spread [("data-slot", PStr "input-group-control");
      ("className", cn [PStr "flex-1 resize-none rounded-none border-0 bg-transparent py-2 shadow-none ring-0 focus-visible:ring-0 disabled:bg-transparent aria-invalid:ring-0 dark:bg-transparent dark:disabled:bg-transparent"; className])]
      (rest ["className"] p))
    ch.


(** ** [components/ui/command.tsx] *)

Definition Command (p : props) (ch : list elem) : elem :=
  let className := take p "className" PUndef in
  Elem "CommandPrimitive" (spread [("data-slot", PStr "command");
      ("className", cn [PStr "flex size-full flex-col overflow-hidden rounded-xl! bg-popover p-1 text-popover-foreground"; className])]
      (rest ["className"] p))
    ch.

Definition CommandDialog (p : props) (ch : list elem) : elem :=
  let title := take p "title" (PStr "Command Palette") in
  let description := take p "description" (PStr "Search for a command to run...") in
  let className := take p "className" PUndef in
  let showCloseButton := take p "showCloseButton" (PBool false) in
  Dialog (spread []
      (rest ["title"; "description"; "children"; "className"; "showCloseButton"] p))
    ([DialogHeader (attrs [("className", PStr "sr-only")])
        ([DialogTitle (attrs [])
            [show title]]
         ++ [DialogDescription (attrs [])
            [show description]])]
     ++ [DialogContent (attrs [("className", cn [PStr "top-1/3 translate-y-0 overflow-hidden rounded-xl! p-0"; className]);
          ("showCloseButton", showCloseButton)])
        ch]).

Definition CommandInput (p : props) (ch : list elem) : elem :=
  let className := take p "className" PUndef in
  Elem "div" (attrs [("data-slot", PStr "command-input-wrapper");
      ("className", PStr "p-1 pb-0")])
    [InputGroup (attrs [("className", PStr "h-8! rounded-lg! border-input/30 bg-input/30 shadow-none! *:data-[slot=input-group-addon]:pl-2!")])
        ([Elem "CommandPrimitive.Input" (spread [("data-slot", PStr "command-input");
              ("className", cn [PStr "w-full text-sm outline-hidden disabled:cursor-not-allowed disabled:opacity-50"; className])]
              (rest ["className"] p))
            ch]
         ++ [InputGroupAddon (attrs [])
            [Elem "SearchIcon" (attrs [("className", PStr "size-4 shrink-0 opacity-50")])
                []]])].

Definition CommandList (p : props) (ch : list elem) : elem :=
  let className := take p "className" PUndef in
  Elem "CommandPrimitive.List" (spread [("data-slot", PStr "command-list");
      ("className", cn [PStr "no-scrollbar max-h-72 scroll-py-1 overflow-x-hidden overflow-y-auto outline-none"; className])]
      (rest ["className"] p))
    ch.

Definition CommandEmpty (p : props) (ch : list elem) : elem :=
  let className := take p "className" PUndef in
  Elem "CommandPrimitive.Empty" (spread [("data-slot", PStr "command-empty");
      ("className", cn [PStr "py-6 text-center text-sm"; className])]
      (rest ["className"] p))
    ch.

Definition CommandGroup (p : props) (ch : list elem) : elem :=
  let className := take p "className" PUndef in
  Elem "CommandPrimitive.Group" (spread [("data-slot", PStr "command-group");
      ("className", cn [PStr "overflow-hidden p-1 text-foreground **:[[cmdk-group-heading]]:px-2 **:[[cmdk-group-heading]]:py-1.5 **:[[cmdk-group-heading]]:text-xs **:[[cmdk-group-heading]]:font-medium **:[[cmdk-group-heading]]:text-muted-foreground"; className])]
      (rest ["className"] p))
    ch.

Definition CommandSeparator (p : props) (ch : list elem) : elem :=
  let className := take p "className" PUndef in
  Elem "CommandPrimitive.Separator" (spread [("data-slot", PStr "command-separator");
      ("className", cn [PStr "-mx-1 h-px bg-border"; className])]
      (rest ["className"] p))
    ch.

Definition CommandItem (p : props) (ch : list elem) : elem :=
  let className := take p "className" PUndef in
  Elem "CommandPrimitive.Item" (spread [("data-slot", PStr "command-item");
      ("className", cn [PStr "group/command-item relative flex cursor-default items-center gap-2 rounded-sm px-2 py-1.5 text-sm outline-hidden select-none in-data-[slot=dialog-content]:rounded-lg! data-[disabled=true]:pointer-events-none data-[disabled=true]:opacity-50 data-selected:bg-muted data-selected:text-foreground [&_svg]:pointer-events-none [&_svg]:shrink-0 [&_svg:not([class*='size-'])]:size-4 data-selected:*:[svg]:text-foreground"; className])]
      (rest ["className"; "children"] p))
    (ch
     ++ [Elem "CheckIcon" (attrs [("className", PStr "ml-auto opacity-0 group-has-data-[slot=command-shortcut]/command-item:hidden group-data-[checked=true]/command-item:opacity-100")])
        []]).

Definition CommandShortcut (p : props) (ch : list elem) : elem :=
  let className := take p "className" PUndef in
  Elem "span" (spread [("data-slot", PStr "command-shortcut");
      ("className", cn [PStr "ml-auto text-xs tracking-widest text-muted-foreground group-data-selected/command-item:text-foreground"; className])]
      (rest ["className"] p))
    ch.


(** ** [components/ui/sonner.tsx] *)

Definition Toaster (p : props) (ch : list elem) : elem :=
  let theme := if_undef useTheme (PStr "system") in
  Elem "Sonner" (spread [("theme", theme); ("className", PStr "toaster group");
       ("icons", PObj [("success", PIcon "CircleCheckIcon" "size-4"); ("info", PIcon "InfoIcon" "size-4"); ("warning", PIcon "TriangleAlertIcon" "size-4"); ("error", PIcon "OctagonXIcon" "size-4"); ("loading", PIcon "Loader2Icon" "size-4 animate-spin")]);
       ("style", PObj [("--normal-bg", PStr "var(--popover)"); ("--normal-text", PStr "var(--popover-foreground)"); ("--normal-border", PStr "var(--border)"); ("--border-radius", PStr "var(--radius)")]);
       ("toastOptions", PObj [("classNames", PObj [("toast", PStr "cn-toast")])])]
      (rest [] p))
    ch.

(** ** The kit as a whole *)

(** A component, where in its tree the caller's props go, the props it takes
    for itself, those of them that must not reach the page, and its slot. *)
Record kit_entry : Type := mkKit {
  k_name : string;
  k_component : props -> list elem -> elem;
  k_path : list nat;
  k_taken : list string;
  k_hidden : list string;
  k_slot : option string
}.

Definition kit : list kit_entry :=
  [mkKit "Button" Button [] ["className"; "variant"; "size"; "asChild"] ["variant"; "size"; "asChild"] (Some "button");
   mkKit "Input" Input [] ["className"; "type"] [] (Some "input");
   mkKit "Textarea" Textarea [] ["className"] [] (Some "textarea");
   mkKit "Badge" Badge [] ["className"; "variant"; "asChild"] ["variant"; "asChild"] (Some "badge");
   mkKit "Card" Card [] ["className"; "size"] ["size"] (Some "card");
   mkKit "CardHeader" CardHeader [] ["className"] [] (Some "card-header");
   mkKit "CardTitle" CardTitle [] ["className"] [] (Some "card-title");
   mkKit "CardDescription" CardDescription [] ["className"] [] (Some "card-description");
   mkKit "CardAction" CardAction [] ["className"] [] (Some "card-action");
   mkKit "CardContent" CardContent [] ["className"] [] (Some "card-content");
   mkKit "CardFooter" CardFooter [] ["className"] [] (Some "card-footer");
   mkKit "Alert" Alert [] ["className"; "variant"] ["variant"] (Some "alert");
   mkKit "AlertTitle" AlertTitle [] ["className"] [] (Some "alert-title");
   mkKit "AlertDescription" AlertDescription [] ["className"] [] (Some "alert-description");
   mkKit "AlertAction" AlertAction [] ["className"] [] (Some "alert-action");
   mkKit "Separator" Separator [] ["className"; "orientation"; "decorative"] [] (Some "separator");
   mkKit "Skeleton" Skeleton [] ["className"] [] (Some "skeleton");
   mkKit "Table" Table [0] ["className"] [] (Some "table");
   mkKit "TableHeader" TableHeader [] ["className"] [] (Some "table-header");
   mkKit "TableBody" TableBody [] ["className"] [] (Some "table-body");
   mkKit "TableFooter" TableFooter [] ["className"] [] (Some "table-footer");
   mkKit "TableRow" TableRow [] ["className"] [] (Some "table-row");
   mkKit "TableHead" TableHead [] ["className"] [] (Some "table-head");
   mkKit "TableCell" TableCell [] ["className"] [] (Some "table-cell");
   mkKit "TableCaption" TableCaption [] ["className"] [] (Some "table-caption");
   mkKit "Tabs" Tabs [] ["className"; "orientation"] ["orientation"] (Some "tabs");
   mkKit "TabsList" TabsList [] ["className"; "variant"] ["variant"] (Some "tabs-list");
   mkKit "TabsTrigger" TabsTrigger [] ["className"] [] (Some "tabs-trigger");
   mkKit "TabsContent" TabsContent [] ["className"] [] (Some "tabs-content");
   mkKit "TooltipProvider" TooltipProvider [] ["delayDuration"] [] (Some "tooltip-provider");
   mkKit "Tooltip" Tooltip [] [] [] (Some "tooltip");
   mkKit "TooltipTrigger" TooltipTrigger [] [] [] (Some "tooltip-trigger");
   mkKit "TooltipContent" TooltipContent [0] ["className"; "sideOffset"; "children"] [] (Some "tooltip-content");
   mkKit "Dialog" Dialog [] [] [] (Some "dialog");
   mkKit "DialogTrigger" DialogTrigger [] [] [] (Some "dialog-trigger");
   mkKit "DialogPortal" DialogPortal [] [] [] (Some "dialog-portal");
   mkKit "DialogClose" DialogClose [] [] [] (Some "dialog-close");
   mkKit "DialogOverlay" DialogOverlay [] ["className"] [] (Some "dialog-overlay");
   mkKit "DialogContent" DialogContent [1] ["className"; "children"; "showCloseButton"] ["showCloseButton"] (Some "dialog-content");
   mkKit "DialogHeader" DialogHeader [] ["className"] [] (Some "dialog-header");
   mkKit "DialogFooter" DialogFooter [] ["className"; "showCloseButton"; "children"] ["showCloseButton"] (Some "dialog-footer");
   mkKit "DialogTitle" DialogTitle [] ["className"] [] (Some "dialog-title");
   mkKit "DialogDescription" DialogDescription [] ["className"] [] (Some "dialog-description");
   mkKit "Sheet" Sheet [] [] [] (Some "sheet");
   mkKit "SheetTrigger" SheetTrigger [] [] [] (Some "sheet-trigger");
   mkKit "SheetClose" SheetClose [] [] [] (Some "sheet-close");
   mkKit "SheetPortal" SheetPortal [] [] [] (Some "sheet-portal");
   mkKit "SheetOverlay" SheetOverlay [] ["className"] [] (Some "sheet-overlay");
   mkKit "SheetContent" SheetContent [1] ["className"; "children"; "side"; "showCloseButton"] ["side"; "showCloseButton"] (Some "sheet-content");
   mkKit "SheetHeader" SheetHeader [] ["className"] [] (Some "sheet-header");
   mkKit "SheetFooter" SheetFooter [] ["className"] [] (Some "sheet-footer");
   mkKit "SheetTitle" SheetTitle [] ["className"] [] (Some "sheet-title");
   mkKit "SheetDescription" SheetDescription [] ["className"] [] (Some "sheet-description");
   mkKit "SelectScrollUpButton" SelectScrollUpButton [] ["className"] [] (Some "select-scroll-up-button");
   mkKit "SelectScrollDownButton" SelectScrollDownButton [] ["className"] [] (Some "select-scroll-down-button");
   mkKit "Select" Select [] [] [] (Some "select");
   mkKit "SelectGroup" SelectGroup [] ["className"] [] (Some "select-group");
   mkKit "SelectValue" SelectValue [] [] [] (Some "select-value");
   mkKit "SelectTrigger" SelectTrigger [] ["className"; "size"; "children"] ["size"] (Some "select-trigger");
   mkKit "SelectContent" SelectContent [0] ["className"; "children"; "position"; "align"] [] (Some "select-content");
   mkKit "SelectLabel" SelectLabel [] ["className"] [] (Some "select-label");
   mkKit "SelectItem" SelectItem [] ["className"; "children"] [] (Some "select-item");
   mkKit "SelectSeparator" SelectSeparator [] ["className"] [] (Some "select-separator");
   mkKit "DropdownMenu" DropdownMenu [] [] [] (Some "dropdown-menu");
   mkKit "DropdownMenuPortal" DropdownMenuPortal [] [] [] (Some "dropdown-menu-portal");
   mkKit "DropdownMenuTrigger" DropdownMenuTrigger [] [] [] (Some "dropdown-menu-trigger");
   mkKit "DropdownMenuContent" DropdownMenuContent [0] ["className"; "align"; "sideOffset"] [] (Some "dropdown-menu-content");
   mkKit "DropdownMenuGroup" DropdownMenuGroup [] [] [] (Some "dropdown-menu-group");
   mkKit "DropdownMenuItem" DropdownMenuItem [] ["className"; "inset"; "variant"] ["inset"; "variant"] (Some "dropdown-menu-item");
   mkKit "DropdownMenuCheckboxItem" DropdownMenuCheckboxItem [] ["className"; "children"; "checked"; "inset"] ["inset"] (Some "dropdown-menu-checkbox-item");
   mkKit "DropdownMenuRadioGroup" DropdownMenuRadioGroup [] [] [] (Some "dropdown-menu-radio-group");
   mkKit "DropdownMenuRadioItem" DropdownMenuRadioItem [] ["className"; "children"; "inset"] ["inset"] (Some "dropdown-menu-radio-item");
   mkKit "DropdownMenuLabel" DropdownMenuLabel [] ["className"; "inset"] ["inset"] (Some "dropdown-menu-label");
   mkKit "DropdownMenuSeparator" DropdownMenuSeparator [] ["className"] [] (Some "dropdown-menu-separator");
   mkKit "DropdownMenuShortcut" DropdownMenuShortcut [] ["className"] [] (Some "dropdown-menu-shortcut");
   mkKit "DropdownMenuSub" DropdownMenuSub [] [] [] (Some "dropdown-menu-sub");
   mkKit "DropdownMenuSubTrigger" DropdownMenuSubTrigger [] ["className"; "inset"; "children"] ["inset"] (Some "dropdown-menu-sub-trigger");
   mkKit "DropdownMenuSubContent" DropdownMenuSubContent [] ["className"] [] (Some "dropdown-menu-sub-content");
   mkKit "InputGroup" InputGroup [] ["className"] [] (Some "input-group");
   mkKit "InputGroupAddon" InputGroupAddon [] ["className"; "align"] ["align"] (Some "input-group-addon");
   mkKit "InputGroupButton" InputGroupButton [] ["className"; "type"; "variant"; "size"; "asChild"] ["variant"; "size"; "asChild"] (Some "button");
   mkKit "InputGroupText" InputGroupText [] ["className"] [] (None);
   mkKit "InputGroupInput" InputGroupInput [] ["className"; "type"] [] (Some "input-group-control");
   mkKit "InputGroupTextarea" InputGroupTextarea [] ["className"] [] (Some "input-group-control");
   mkKit "Command" Command [] ["className"] [] (Some "command");
   mkKit "CommandDialog" CommandDialog [] ["title"; "description"; "children"; "className"; "showCloseButton"] ["title"; "description"; "showCloseButton"] (Some "dialog");
   mkKit "CommandInput" CommandInput [0; 0] ["className"] [] (Some "command-input");
   mkKit "CommandList" CommandList [] ["className"] [] (Some "command-list");
   mkKit "CommandEmpty" CommandEmpty [] ["className"] [] (Some "command-empty");
   mkKit "CommandGroup" CommandGroup [] ["className"] [] (Some "command-group");
   mkKit "CommandSeparator" CommandSeparator [] ["className"] [] (Some "command-separator");
   mkKit "CommandItem" CommandItem [] ["className"; "children"] [] (Some "command-item");
   mkKit "CommandShortcut" CommandShortcut [] ["className"] [] (Some "command-shortcut");
   mkKit "Toaster" Toaster [] [] [] (None)].

(** The element at a path of child positions. *)
Fixpoint at_path (path : list nat) (e : elem) : option elem :=
  match path with
  | [] => Some e
  | i :: path' =>
      match e with
      | Elem _ _ ch => match ch !! i with Some c => at_path path' c | None => None end
      | Text _ => None
      end
  end.

(** What a page may rely on. *)
Definition transparent (e : kit_entry) : Prop :=
  forall p ch, exists tag a l, at_path (k_path e) (k_component e p ch) = Some (Elem tag a l) /\
    (forall k v, k ∉ k_taken e -> p !! k = Some v -> a !! k = Some v) /\
    (forall k, k ∈ k_hidden e -> a !! k = None) /\
    (forall s, k_slot e = Some s -> p !! "data-slot" = None -> a !! "data-slot" = Some (PStr s)).

(** *** Spreads *)

Lemma rest_lookup taken p k : k ∉ taken -> rest taken p !! k = p !! k.
Proof.
  induction taken as [|x taken IH]; [done|]. rewrite not_elem_of_cons. intros [Hne Hk]. simpl.
  rewrite lookup_delete_ne by done. by apply IH.
Qed.

Lemma rest_taken taken p k : k ∈ taken -> rest taken p !! k = None.
Proof.
  induction taken as [|x taken IH]; [by intros []%not_elem_of_nil|]. rewrite elem_of_cons. simpl.
  rewrite lookup_delete. case_decide; [done|]. intros [->|Hk]; [done|]. by apply IH.
Qed.

Lemma rest_none taken p k : p !! k = None -> rest taken p !! k = None.
Proof.
  intros Hp. destruct (decide (k ∈ taken)) as [H|H]; [by apply rest_taken|]. by rewrite rest_lookup.
Qed.

(** The caller's prop wins over the component's own attribute. *)
Lemma spread_pass own taken p k v : k ∉ taken -> p !! k = Some v -> spread own (rest taken p) !! k = Some v.
Proof. intros Hk Hp. unfold spread. apply lookup_union_Some_l. by rewrite rest_lookup. Qed.

Lemma attrs_cons k v own k' : attrs ((k, v) :: own) !! k' = if String.eqb k k' then Some v else attrs own !! k'.
Proof.
  unfold attrs. cbn [list_to_map foldr fst snd]. destruct (String.eqb_spec k k') as [->|Hne].
  - apply lookup_insert_eq.
  - by apply lookup_insert_ne.
Qed.

Lemma spread_own own q k : q !! k = None -> spread own q !! k = attrs own !! k.
Proof. intros Hq. unfold spread. by apply lookup_union_r. Qed.

Lemma spread_rest_own own taken p k : p !! k = None -> spread own (rest taken p) !! k = attrs own !! k.
Proof. intros Hp. by apply spread_own, rest_none. Qed.

Lemma spread_taken own taken p k : k ∈ taken -> spread own (rest taken p) !! k = attrs own !! k.
Proof. intros Hk. by apply spread_own, rest_taken. Qed.

(** Membership in a list of prop names. *)
Ltac member :=
  rewrite ?not_elem_of_cons, ?elem_of_cons; first [tauto | split_and!; first [done | apply not_elem_of_nil]].

Ltac own_lookup := repeat (rewrite attrs_cons; cbn [String.eqb Ascii.eqb Bool.eqb]); first [done | apply lookup_empty].

Ltac kit_entry_tac :=
  intros p ch; eexists _, _, _; split; [reflexivity|]; cbn [k_taken k_hidden k_slot]; split_and!;
  [ intros k v Hk Hp; rewrite ?not_elem_of_cons in Hk; repeat (apply spread_pass; [member|]); exact Hp
  | intros k Hk; repeat (apply elem_of_cons in Hk as [->|Hk]); try (by apply not_elem_of_nil in Hk);
    first [ rewrite spread_taken by member; own_lookup
          | rewrite spread_rest_own by (rewrite spread_taken by member; own_lookup); own_lookup ]
  | intros s Hs Hp; try discriminate Hs; injection Hs as <-;
    first [ rewrite spread_rest_own by exact Hp; own_lookup
          | apply spread_pass; [member|];
            rewrite spread_rest_own by exact Hp; own_lookup
          | rewrite spread_rest_own by (rewrite spread_rest_own by exact Hp; own_lookup); own_lookup ] ].

Lemma kit_all : Forall transparent kit.
Proof.
  unfold kit. repeat (apply Forall_cons; split); [..|apply Forall_nil; exact I]; kit_entry_tac.
Qed.

(** The kit is transparent: every component of the kit puts each prop of
    its caller that it does not take for itself, whatever it is ([disabled],
    [onClick], [value], aria attributes), unchanged on the element that
    implements it, also over an attribute of its own; the props it takes
    (variants, sizes, [asChild]) do not reach the page; and unless the caller
    names another, the element carries the component's own [data-slot]. *)
Lemma kit_transparent e : e ∈ kit -> transparent e.
Proof. intros He. exact (proj1 (Forall_forall _ _) kit_all e He). Qed.

(** A dialog has its close button exactly when asked for. *)
Lemma dialog_close p ch :
  exists tag a l, at_path [1] (DialogContent p ch) = Some (Elem tag a (ch ++ l)) /\
    (l = [] <-> truthy (take p "showCloseButton" (PBool true)) = false).
Proof.
  eexists _, _, _. split; [reflexivity|]. by destruct (truthy _).
Qed.
End Components.
End Kit.
