(* ===== verification/Nav.v ===== *)
(** * Navigation and locale: [nav-config.ts], [layout/console-nav.tsx], [i18n/provider.tsx]

    The console's views and the browser paths they are shown under, and the
    locale kept in [localStorage]. *)

From S2P Require Import Prelude JsString JsNumber JsValue Json Prog Http Browser Session Types Ui.
Import Web.

Module Nav.

Definition view_string (v : View) : jsstring :=
  match v with
  | Voverview => js "overview" | Vapps => js "apps" | Vkeys => js "keys" | Vauth => js "auth"
  | Vdata => js "data" | Vstorage => js "storage" | Vfunctions => js "functions" | Vpush => js "push"
  | Vactivity => js "activity" | Vops => js "ops"
  end.

(** The [view] and [labelKey] of every item; the icons are not modelled. *)
Definition navItems : list (View * jsstring) :=
  map (fun v => (v, view_string v))
    [Voverview; Vapps; Vkeys; Vauth; Vdata; Vstorage; Vfunctions; Vpush; Vactivity; Vops].

Definition viewFromPath (pathname : jsstring) : View :=
  match last (List.filter nonempty (split [cu_slash] pathname)) with
  | Some segment =>
      match List.find (fun item => jseq (view_string item.1) segment) navItems with
      | Some item => item.1
      | None => Voverview
      end
  | None => Voverview
  end.

Definition pathForView (v : View) : jsstring :=
  if decide (v = Voverview) then js "/" else js "/" ++ view_string v.

(** [ConsoleNav]: a button per item; the current one is highlighted. *)
Definition ConsoleNav {A} (t : translator) (view : View) (go : View -> A) : node A :=
  El (js "nav")
    (map (fun item =>
            El (if decide (view = item.1) then js "active" else js "item")
              [Button [El (js "Icon") []; TextNode (t (js "nav") item.2 [])] false (go item.1)]) navItems).

(** The button's handler: change the view and the address. *)
Definition nav_click (v : View) : View * list effect := (v, [ReplaceState (pathForView v)]).

(** ** The locale *)

Definition LOCALE_STORAGE_KEY : jsstring := js "peanut.locale".

Definition detectLocale : web ConsoleLocale :=
  w ← trigger HasWindow;
  if negb w then Ret En
  else
    stored ← await (GetItem LocalStorage LOCALE_STORAGE_KEY);
    match stored with
    | Some s => if jseq s (js "en") then Ret En else if jseq s (js "ko") then Ret Ko else Ret En
    | None => Ret En
    end.

(** The provider's state: the locale and the document's language. *)
Record LocaleState : Type := { ls_locale : ConsoleLocale; ls_lang : jsstring }.

(** The first render and its effect. *)
Definition provider_mount : web LocaleState :=
  locale ← detectLocale;
  Ret {| ls_locale := locale; ls_lang := locale_string locale |}.

(** [setLocale(nextLocale)]: a failing write leaves the document's language to
    the effect on [locale], which then sets it. *)
Definition setLocale (next : ConsoleLocale) : web LocaleState :=
  _ ← await (SetItem LocalStorage LOCALE_STORAGE_KEY (locale_string next));
  Ret {| ls_locale := next; ls_lang := locale_string next |}.

(** ** Properties *)

Lemma split_char_mid c p s : split [c] (p ++ c :: s) = split [c] p ++ split [c] s.
Proof.
  unfold split. induction p as [|d p IH]; [cbn; by rewrite N.eqb_refl|].
  cbn [app split_go starts_with length Nat.sub]. rewrite !andb_true_r, !IH. destruct (c =? d)%N; [done|].
  destruct (split_go_cons [c] 0 p) as (h & t & ->). done.
Qed.

Lemma view_name_free v : (cu_slash ∉ view_string v) /\ nonempty (view_string v) = true.
Proof. split; [|by destruct v]. apply (bool_decide_eq_true_1 _). by destruct v. Qed.

Lemma find_view v : List.find (fun item => jseq (view_string item.1) (view_string v)) navItems = Some (v, view_string v).
Proof. by destruct v; vm_compute. Qed.

Lemma viewFromPath_last prefix v :
  viewFromPath (prefix ++ js "/" ++ view_string v) = v /\
  viewFromPath (prefix ++ (js "/" ++ view_string v) ++ js "/") = v.
Proof.
  destruct (view_name_free v) as [Hf Hn]. change (js "/") with [cu_slash]. unfold viewFromPath.
  rewrite <- app_assoc. cbn [app]. rewrite !split_char_mid, !List.filter_app, (split_char_none cu_slash (view_string v)) by done.
  cbn [split split_go List.filter]. rewrite Hn. cbn [nonempty]. rewrite app_nil_r.
  rewrite !last_snoc, find_view. done.
Qed.

(** Navigation round trip: the path a view is shown under leads back to
    that view, with or without a trailing slash, and for every view but the
    overview also when the console is served under a base path. *)
Lemma view_path_roundtrip v prefix : v <> Voverview \/ prefix = [] ->
  viewFromPath (prefix ++ pathForView v) = v /\ viewFromPath (prefix ++ pathForView v ++ js "/") = v.
Proof.
  intros H. unfold pathForView. destruct (decide (v = Voverview)) as [->|Hne].
  - destruct H as [H| ->]; [done|]. by vm_compute.
  - apply viewFromPath_last.
Qed.

Section Locale.
Context {Σ : Type} (server : Σ -> jsstring -> request_init -> Σ * outcome response).
Context (fits : area -> items -> bool).

(** Locale round trip: a locale that was set (and fitted the storage) is
    the one detected at the next start, and setting it touches neither the
    stored session nor any other item. *)
Lemma locale_roundtrip l (b : browser Σ) : b_window b = true -> (forall m, fits LocalStorage m = true) ->
  exists b', exec server fits (setLocale l) b =
      (b', Ok {| ls_locale := l; ls_lang := locale_string l |}) /\
    exec server fits provider_mount b' = (b', Ok {| ls_locale := l; ls_lang := locale_string l |}) /\
    b_session b' = b_session b /\
    (forall k, k <> LOCALE_STORAGE_KEY -> b_local b' !! k = b_local b !! k).
Proof.
  intros Hw Hf. exists (set_items LocalStorage (<[LOCALE_STORAGE_KEY := locale_string l]> (b_local b)) b).
  unfold exec. split_and!.
  - simpl. by rewrite Hw, Hf.
  - simpl. rewrite Hw. simpl. rewrite lookup_insert_eq. by destruct l.
  - done.
  - intros k Hk. simpl. by apply lookup_insert_ne.
Qed.
End Locale.

End Nav.
