(* ===== verification/Activity.v ===== *)
(** * Activity: [shared/activity-list.tsx] and [views/activity-view.tsx]

    The activity feed of a project and the labels of its events.  The label
    tables are object literals read by a computed key, so a key that
    [Object.prototype] has is found there when the table lacks it. *)

From S2P Require Import Prelude JsString JsNumber JsValue Json Uri Prog Http Browser Session ApiClient Types Ui.
Import Web Api.

Module Activity.

(** [labels] of [activityActionLabel]: the key and the translation key. *)
Definition action_labels : list (jsstring * jsstring) :=
  [(js "project_key_created", js "actions.keyCreated");
   (js "project_key_rotated", js "actions.keyRotated");
   (js "project_key_revoked", js "actions.keyRevoked");
   (js "auth_user_created", js "actions.userCreated");
   (js "auth_user_deleted", js "actions.userDeleted");
   (js "auth_user_activated", js "actions.userActivated");
   (js "auth_user_deactivated", js "actions.userDeactivated");
   (js "auth_provider_updated", js "actions.providerUpdated");
   (js "data_table_created", js "actions.tableCreated");
   (js "data_table_updated", js "actions.tableUpdated");
   (js "data_table_deleted", js "actions.tableDeleted");
   (js "data_row_created", js "actions.rowCreated");
   (js "data_row_updated", js "actions.rowUpdated");
   (js "data_row_deleted", js "actions.rowDeleted");
   (js "storage_bucket_created", js "actions.bucketCreated");
   (js "storage_bucket_updated", js "actions.bucketUpdated");
   (js "storage_bucket_deleted", js "actions.bucketDeleted");
   (js "storage_object_put", js "actions.objectUploaded");
   (js "storage_object_deleted", js "actions.objectDeleted");
   (js "function_created", js "actions.functionCreated");
   (js "function_updated", js "actions.functionUpdated");
   (js "function_deleted", js "actions.functionDeleted");
   (js "function_rolled_back", js "actions.functionRolledBack");
   (js "push_message_queued", js "actions.pushQueued");
   (js "push_message_enqueued", js "actions.pushQueued");
   (js "backup_restore_scheduled", js "actions.restoreScheduled");
   (js "workspace_setup_invite_created", js "actions.workspaceInviteCreated");
   (js "workspace_disabled", js "actions.workspaceDisabled");
   (js "workspace_enabled", js "actions.workspaceEnabled");
   (js "project_created", js "actions.projectCreated");
   (js "project_updated", js "actions.projectUpdated");
   (js "project_deleted", js "actions.projectDeleted");
   (js "project_disabled", js "actions.projectDisabled");
   (js "project_enabled", js "actions.projectEnabled");
   (js "admin_role_updated", js "actions.adminRoleUpdated")].

(** [labels] of [activityResourceLabel]. *)
Definition resource_labels : list (jsstring * jsstring) :=
  [(js "project_key", js "resource.apiKey");
   (js "auth_user", js "resource.user");
   (js "auth_provider", js "resource.provider");
   (js "data_table", js "resource.table");
   (js "data_row", js "resource.row");
   (js "storage_bucket", js "resource.bucket");
   (js "storage_object", js "resource.object");
   (js "function", js "resource.function");
   (js "push_message", js "resource.pushMessage");
   (js "backup", js "resource.backup");
   (js "workspace", js "resource.workspace");
   (js "workspace_setup_invite", js "resource.workspaceInvite");
   (js "project", js "resource.project");
   (js "admin_role", js "resource.adminRole")].

(** The properties every object literal inherits. *)
Definition inherited : list jsstring :=
  [js "constructor"; js "toString"; js "toLocaleString"; js "valueOf"; js "hasOwnProperty"; js "isPrototypeOf";
   js "propertyIsEnumerable"; js "__proto__"; js "__defineGetter__"; js "__defineSetter__";
   js "__lookupGetter__"; js "__lookupSetter__"].

(** What is shown: a text, or a value of [Object.prototype]. *)
Inductive label : Type := LText (s : jsstring) | LInherited (key : jsstring).

Fixpoint label_key (k : jsstring) (l : list (jsstring * jsstring)) : option jsstring :=
  match l with
  | [] => None
  | (k', tk) :: l' => if jseq k k' then Some tk else label_key k l'
  end.

(** [s.replace(/^app_/, "project_")] *)
Definition rename_app (s : jsstring) : jsstring :=
  if starts_with (js "app_") s then js "project_" ++ slice_from 4 s else s.

(** [s.replace(/\./g, "_")] *)
Definition undot (s : jsstring) : jsstring := map (fun c => if (c =? 46)%N then 95%N else c) s.

Section Labels.
(** The translator of the [activityView] namespace. *)
Variable t : jsstring -> jsstring.

(** [labels[normalized] ?? fallback] *)
Definition lookup_label (table : list (jsstring * jsstring)) (normalized fallback : jsstring) : label :=
  match label_key normalized table with
  | Some tk => LText (t tk)
  | None => if bool_decide (normalized ∈ inherited) then LInherited normalized else LText (t fallback)
  end.

Definition activityActionLabel (action : jsstring) : label :=
  lookup_label action_labels (undot (rename_app action)) (js "actions.projectEvent").

Definition activityResourceLabel (resourceType : option jsstring) : label :=
  match resourceType with
  | None => LText (t (js "resource.projectEvent"))
  | Some r =>
      if nonempty r
      then lookup_label resource_labels (rename_app r) (js "resource.projectEvent")
      else LText (t (js "resource.projectEvent"))
  end.
End Labels.

(** React shows a string, nothing for an inherited function, and refuses the
    object [__proto__] gives. *)
Definition label_node {A} (l : label) : node A :=
  match l with
  | LText s => TextNode s
  | LInherited k => if jseq k (js "__proto__") then El (js "invalid child") [] else El (js "nothing") []
  end.

Definition ActivityList {A} (tr : translator) (events : list ActivityEvent) (loading : bool) : node A :=
  let t k := tr (js "activityView") k [] in
  if loading then Skeleton
  else match events with
       | [] => EmptyState (t (js "emptyTitle")) (t (js "emptyDescription")) None
       | _ =>
           div (map (fun event =>
             div [div [div [label_node (activityActionLabel t (ae_action event))];
                       div [label_node (activityResourceLabel t
                              (match ae_resource_type event with Some r => Some r | None => ae_target_type event end))]];
                  text_div (ae_created_at event)]) (firstn 12 events))
       end.

(** ** [ActivityView] *)

(** The query's function: the [events] of the answer, or its [activity]. *)
Definition activityQuery (API_BASE : jsstring) (app : AppSummary) : web jsval :=
  response ← apiFetch API_BASE (js "/api/apps/" ++ app_id app ++ js "/activity") init_default;
  events ← lift (get response (js "events"));
  activity ← lift (get response (js "activity"));
  Ret (coalesce events (coalesce activity (JArr []))).

Definition ActivityView {A} (tr : translator) (data : option (list ActivityEvent)) (isLoading : bool) : node A :=
  Section_ (tr (js "activityView") (js "title") []) (tr (js "activityView") (js "description") []) None
    [ActivityList tr (default [] data) isLoading].

(** ** Properties *)

Lemma undot_app s t : undot (s ++ t) = undot s ++ undot t.
Proof. apply map_app. Qed.

Lemma label_key_none p k table : starts_with p k = true ->
  forallb (fun e => negb (starts_with p e.1)) table = true -> label_key k table = None.
Proof.
  intros Hk. induction table as [|[k' tk] table IH]; [done|]. cbn [forallb label_key]. intros [H1 H2]%andb_prop.
  destruct (jseq k k') eqn:E; [|by apply IH]. apply jseq_eq in E. subst. cbn [fst] in H1. by rewrite Hk in H1.
Qed.

(** Project events are shown without their name: the server reports them as
    [app.created], [app.updated], [app.deleted], [app.disabled] and
    [app.enabled], but the prefix is renamed before the dots are replaced, so
    no action of the form [app.x] is ever found in the label table and every
    one is shown as the generic project event. *)
Lemma project_actions_generic t suffix :
  activityActionLabel t (js "app." ++ suffix) = LText (t (js "actions.projectEvent")).
Proof.
  unfold activityActionLabel. change (rename_app (js "app." ++ suffix)) with (js "app." ++ suffix).
  rewrite undot_app. change (undot (js "app.")) with (js "app_"). unfold lookup_label.
  rewrite (label_key_none (js "app_")); [|apply starts_with_app|by vm_compute].
  rewrite bool_decide_eq_false_2; [done|]. intros Hin. apply list_elem_of_In in Hin.
  assert (forallb (fun k => negb (starts_with (js "app_") k)) inherited = true) as Hf by (by vm_compute).
  rewrite forallb_forall in Hf. apply Hf in Hin. by rewrite starts_with_app in Hin.
Qed.

(** Key events are named: the server's [app_key.*] actions and the dotted
    actions of users, tables, rows, buckets, objects, functions, push messages,
    backups and workspaces all find their own label. *)
Lemma known_actions_labelled t :
  Forall (fun p => activityActionLabel t (js p.1) = LText (t (js p.2)))
    [("app_key.created", "actions.keyCreated"); ("app_key.rotated", "actions.keyRotated");
     ("app_key.revoked", "actions.keyRevoked"); ("auth.user.created", "actions.userCreated");
     ("auth.user.deleted", "actions.userDeleted"); ("auth.user.activated", "actions.userActivated");
     ("auth.user.deactivated", "actions.userDeactivated"); ("auth.provider.updated", "actions.providerUpdated");
     ("data.table.created", "actions.tableCreated"); ("data.table.updated", "actions.tableUpdated");
     ("data.table.deleted", "actions.tableDeleted"); ("data.row.created", "actions.rowCreated");
     ("data.row.updated", "actions.rowUpdated"); ("data.row.deleted", "actions.rowDeleted");
     ("storage.bucket.created", "actions.bucketCreated"); ("storage.bucket.updated", "actions.bucketUpdated");
     ("storage.bucket.deleted", "actions.bucketDeleted"); ("storage.object.put", "actions.objectUploaded");
     ("storage.object.deleted", "actions.objectDeleted"); ("function.created", "actions.functionCreated");
     ("function.updated", "actions.functionUpdated"); ("function.deleted", "actions.functionDeleted");
     ("function.rolled_back", "actions.functionRolledBack"); ("push.message.enqueued", "actions.pushQueued");
     ("backup.restore_scheduled", "actions.restoreScheduled"); ("workspace.disabled", "actions.workspaceDisabled");
     ("workspace.enabled", "actions.workspaceEnabled"); ("admin.role.updated", "actions.adminRoleUpdated");
     ("workspace_setup_invite.created", "actions.workspaceInviteCreated")].
Proof. repeat (apply Forall_cons; split; [reflexivity|]). apply Forall_nil. done. Qed.

End Activity.
