(* ===== verification/Shell.v ===== *)
(** * The console shell: [console-app.tsx], [layout/*.tsx], [error-boundary.tsx]

    [ConsoleApp] holds the signed-in user, the view and the selected project;
    it restores the session on start, refreshes it when the server rejects
    it, and signs out.  [AuthScreen] signs in or bootstraps the first
    administrator.  Query results are inputs: the data and the error the
    query library last reported. *)

From S2P Require Import Prelude JsString JsNumber JsValue Json Uri Prog Http Browser Session ApiClient.
From S2P Require Import Types ConsoleUtils Ui Nav.
Import Web Session Api Utils Nav.

Module Shell.

(** ** [ConsoleApp] *)

(** The component's state; [user] is a [PeanutUser] as JSON, or null. *)
Record AppState : Type := mkApp {
  user : jsval;
  bootstrapping : bool;
  view : View;
  selectedAppId : jsstring
}.

Definition with_user (u : jsval) (s : AppState) : AppState :=
  mkApp u (bootstrapping s) (view s) (selectedAppId s).

(** What [useQuery] reports. *)
Record query (A : Type) : Type := mkQuery { q_data : option A; q_error : bool; q_loading : bool }.
Arguments mkQuery {A}.
Arguments q_data {A}.
Arguments q_error {A}.
Arguments q_loading {A}.

(** The first render: the stored user, and the view of the address. *)
Definition app_mount (pathname : jsstring) : web AppState :=
  u ← storedUser;
  w ← trigger HasWindow;
  Ret (mkApp u false (if w : bool then viewFromPath pathname else Voverview) []).

Section App.
Variable API_BASE : jsstring.

Definition meQuery : web jsval :=
  response ← apiFetch API_BASE (js "/api/admin/auth/me") init_default;
  lift (get response (js "user")).

Definition appsQuery : web jsval :=
  response ← apiFetch API_BASE (js "/api/apps") init_default;
  lift (get response (js "apps")).

(** [enabled: Boolean(user)] of both queries. *)
Definition queries_enabled (s : AppState) : bool := truthy (user s).

(** The effect on [meQuery.error]: refresh the session, or sign out. *)
Definition meErrorEffect (s : AppState) : web (AppState * list effect) :=
  catch
    (session ← refreshAdminSession API_BASE;
     _ ← storeSession session None;
     u ← lift (get session (js "user"));
     Ret (with_user u s, [InvalidateAll]))
    (fun _ =>
       _ ← clearSession;
       Ret (with_user JNull s, [])).

(** [onLogout] *)
Definition onLogout (s : AppState) : web (AppState * list effect) :=
  _ ← catch (logoutAdmin API_BASE) (fun _ => Ret tt);
  _ ← clearSession;
  Ret (with_user JNull s, [ClearQueries]).
End App.

(** [onAuthenticated] *)
Definition onAuthenticated (session : jsval) (s : AppState) : outcome (AppState * list effect) :=
  let! u := get session (js "user") in Ok (with_user u s, [InvalidateAll]).

(** [apps.find((app) => app.id === selectedAppId) ?? apps[0]] *)
Definition selectedApp (apps : list AppSummary) (id : jsstring) : option AppSummary :=
  match List.find (fun a => jseq (app_id a) id) apps with
  | Some a => Some a
  | None => head apps
  end.

(** [meQuery.data ?? user] *)
Definition activeUser (me : option jsval) (s : AppState) : jsval :=
  match me with Some d => coalesce d (user s) | None => user s end.

(** ** [ViewContent] *)

(** What the content area shows; [app] arguments are the values passed for
    [selectedApp!]. *)
Inductive content : Type :=
| ContentLoading
| ContentEmpty
| ContentApps (apps : list AppSummary)
| ContentOverview (apps : list AppSummary) (app : option AppSummary)
| ContentOf (v : View) (app : option AppSummary)
| ContentOps.

Definition ViewContent (v : View) (apps : list AppSummary) (appsLoading : bool) (selected : option AppSummary)
  : content :=
  if appsLoading then ContentLoading
  else if (match selected with None => true | Some _ => false end) && negb (bool_decide (v = Vapps)) then ContentEmpty
  else match v with
       | Vapps => ContentApps apps
       | Vkeys => ContentOf Vkeys selected
       | Vauth => ContentOf Vauth selected
       | Vdata => ContentOf Vdata selected
       | Vstorage => ContentOf Vstorage selected
       | Vfunctions => ContentOf Vfunctions selected
       | Vpush => ContentOf Vpush selected
       | Vactivity => ContentOf Vactivity selected
       | Vops => ContentOps
       | Voverview => ContentOverview apps selected
       end.

(** The screen [ConsoleApp] renders. *)
Inductive app_screen : Type :=
| ScreenAuth (bootstrapping : bool)
| ScreenConsole (selectedId : jsstring) (u : jsval) (v : View) (c : content).

Definition ConsoleApp (s : AppState) (me : query jsval) (apps : query (list AppSummary)) : app_screen :=
  let appList := default [] (q_data apps) in
  let selected := selectedApp appList (selectedAppId s) in
  let u := activeUser (q_data me) s in
  if negb (truthy u) then ScreenAuth (bootstrapping s)
  else ScreenConsole (match selected with Some a => app_id a | None => [] end) u (view s)
         (ViewContent (view s) appList (q_loading apps) selected).

(** ** [ConsoleHeader] *)

Inductive header_action : Type :=
| HView (v : View)
| HApp (id : jsstring)
| HLocale (l : ConsoleLocale)
| HLogout.

Definition ConsoleHeader (tr : translator) (apps : list AppSummary) (selectedId : jsstring) (u : PeanutUser)
    (v : View) (locale : ConsoleLocale) : node header_action :=
  let t k := tr (js "common") k [] in
  El (js "header") [div [
    div [El (js "Sheet") [PeanutLogo tr; El (js "Separator") []; ConsoleNav tr v HView];
         Choice selectedId (map (fun a => (app_id a, displayProjectName a)) apps) HApp];
    div [LocaleSelect locale HLocale (t (js "language")) (t (js "english")) (t (js "korean"));
         div [text_div (u_email u);
              text_div (tr (js "common") (js "platformRole") [(js "role", JStr (u_admin_role u))])];
         Button [El (js "LogOut") []] false HLogout]]].

(** ** [AuthScreen] *)

Record AuthForm : Type := mkForm {
  email : jsstring;
  password : jsstring;
  rememberMe : bool;
  initializedAuthLocale : bool
}.

Definition auth_mount : AuthForm := mkForm (js "admin@peanut.local") [] true false.

(** The mount effect: the sign-in screen starts in English. *)
Definition auth_locale_effect (locale : ConsoleLocale) (f : AuthForm) : AuthForm * option ConsoleLocale :=
  if initializedAuthLocale f then (f, None)
  else (mkForm (email f) (password f) (rememberMe f) true,
        if decide (locale = En) then None else Some En).

Section Auth.
Variable API_BASE : jsstring.
Variable tr : translator.
Variable boot : bool.

Definition auth_mutation (f : AuthForm) : web jsval :=
  if boot then bootstrapAdmin API_BASE (email f) (password f) else loginAdmin API_BASE (email f) (password f).

(** [onSuccess]: the toast comes first, whatever follows; then the session is
    stored and the parent's callback runs on the parent's state. *)
Definition auth_success (session : jsval) (f : AuthForm) (s : AppState)
  : effect * web (AppState * list effect) :=
  (ToastSuccess (tr (js "auth") (if boot then js "adminCreated" else js "signedIn") []),
   _ ← storeSession session (Some (rememberMe f));
   lift (onAuthenticated session s)).

Definition thrown_status (e : thrown) : option Z :=
  match e with TError e => err_status e | TValue _ => None end.

(** [onError] *)
Definition auth_error (e : thrown) (s : AppState) : AppState * list effect :=
  if negb boot && bool_decide (thrown_status e = Some 401%Z)
  then (s, [ToastError (Text (tr (js "auth") (js "invalidCredentials") []))])
  else if boot && bool_decide (thrown_status e = Some 409%Z)
  then (mkApp (user s) false (view s) (selectedAppId s),
        [ToastError (Text (tr (js "auth") (js "adminExists") []))])
  else (s, [ToastError (error_text e)]).
End Auth.

Inductive auth_action : Type :=
| ALocale (l : ConsoleLocale)
| AEmail (s : jsstring)
| APassword (s : jsstring)
| ARemember (b : bool)
| ASubmit
| AMode (b : bool).

Definition AuthScreen (tr : translator) (boot : bool) (f : AuthForm) (locale : ConsoleLocale) (isPending : bool)
  : node auth_action :=
  let t k := tr (js "auth") k [] in
  let common k := tr (js "common") k [] in
  let feature a b := FeatureSignal (t a) (t b) in
  div [div [
    div [PeanutLogo tr;
         LocaleSelect locale ALocale (common (js "language")) (common (js "english")) (common (js "korean"))];
    div [
      El (js "section") [
        div [El (js "Badge") [TextNode (t (js "badge"))]; El (js "h1") [TextNode (t (js "headline"))];
             El (js "p") [TextNode (t (js "description"))]];
        div [Signal (t (js "signalIsolation")); Signal (t (js "signalData")); Signal (t (js "signalOps"))];
        div [feature (js "featureAuth") (js "featureAuthDescription");
             feature (js "featureData") (js "featureDataDescription");
             feature (js "featureStorage") (js "featureStorageDescription");
             feature (js "featureFunctions") (js "featureFunctionsDescription");
             feature (js "featurePush") (js "featurePushDescription");
             feature (js "featureOps") (js "featureOpsDescription")]];
      El (js "section") [
        div [div [El (js "h2") [TextNode (if boot then t (js "createFirstAdmin") else t (js "adminSignIn"))];
                  El (js "p") [TextNode (if boot then t (js "freshInstallHelp") else t (js "signInHelp"))]];
             PeanutMark];
        Form ASubmit
          ([Field (js "email") (email f) false AEmail; Field (js "password") (password f) false APassword] ++
           (if boot then []
            else [El (js "label") [El (js "span") [TextNode (t (js "rememberMe")); TextNode (t (js "rememberMeHelp"))];
                                   Check (rememberMe f) ARemember]]) ++
           [Button [TextNode (if isPending then t (js "working")
                              else if boot then t (js "createAdmin") else t (js "signIn"))] isPending ASubmit]);
        Button [TextNode (if boot then t (js "alreadyHaveAdmin") else t (js "setUpFresh"))] false (AMode (negb boot))]]]].

(** ** [ConsoleErrorBoundary] *)

(** [getDerivedStateFromError] keeps the error; [None] is no error. *)
Definition boundary_error (e : thrown) : option thrown := Some e.

(** The two Korean texts and the button's label, in UTF-16. *)
Definition boundary_title : jsstring := [53080; 49556; 51012; 32; 48520; 47084; 50724; 51648; 32; 47803; 54664; 49845; 45768; 45796]%N.
Definition boundary_fallback : jsstring := [50696; 44592; 52824; 32; 50506; 51008; 32; 50724; 47448; 44032; 32; 48156; 49373; 54664; 49845; 45768; 45796; 46]%N.
Definition boundary_reload : jsstring := [49352; 47196; 44256; 52840]%N.

Definition ConsoleErrorBoundary {A} (engine : jsstring -> jsstring) (error : option thrown) (reload : A)
    (children : node A) : node A :=
  match error with
  | None => children
  | Some e =>
      let m := match error_text e with Text m => m | EngineText m => engine m end in
      div [El (js "h1") [TextNode boundary_title];
           El (js "p") [TextNode (if nonempty m then m else boundary_fallback)];
           Button [TextNode boundary_reload] false reload]
  end.

(** ** Properties *)
Section Spec.
Context {Σ : Type} (server : Σ -> jsstring -> request_init -> Σ * outcome response).
Context (fits : area -> items -> bool) (API_BASE : jsstring).

Abbreviation exec := (exec server fits).

(** Neither area holds a session item. *)
Definition signed_out (b : browser Σ) : Prop := no_session (b_local b) /\ no_session (b_session b).

Lemma clear_signed_out {A} (x : A) b : b_window b = true ->
  exists b', exec (_ ← clearSession; Ret x) b = (b', Ok x) /\ signed_out b' /\ b_sent b' = b_sent b.
Proof.
  intros Hw. rewrite exec_bind, clearSession_exec by done. eexists. split; [done|].
  split; [split; apply wipe_no_session|done].
Qed.

(** C25: Signing out cannot fail: whatever the server answers to the logout
    request, also when the request itself fails, the console's [onLogout] returns,
    removes every session item from both storage areas, forgets the user
    and clears the cached queries. *)
Theorem onLogout_signs_out s b : b_window b = true ->
  exists b', exec (onLogout API_BASE s) b = (b', Ok (with_user JNull s, [ClearQueries])) /\ signed_out b'.
Proof.
  intros Hw. unfold onLogout. rewrite exec_bind. unfold Web.exec at 1. rewrite run_catch.
  pose proof (exec_window server fits (logoutAdmin API_BASE) b) as Hw1. unfold Web.exec in Hw1.
  destruct (run (handle server fits) (logoutAdmin API_BASE) b) as [b1 [x|e]]; cbn [fst] in Hw1;
    edestruct (clear_signed_out (with_user JNull s, [ClearQueries]) b1) as (b' & E & Hs & _);
    try (exists b'; split; [exact E|done]); congruence.
Qed.

(** C26: A rejected session is renewed or dropped, never kept half: when the
    current user can no longer be loaded, the effect ends either with the
    user of a new stored session, whose stored record is that user's JSON,
    or with no user and no session item in either area. *)
Theorem meErrorEffect_renews_or_drops s b : b_window b = true ->
  exists b' s' es, exec (meErrorEffect API_BASE s) b = (b', Ok (s', es)) /\
    ((s' = with_user JNull s /\ es = [] /\ signed_out b') \/
     (exists u text, s' = with_user u s /\ es = [InvalidateAll] /\
        to_string (stringify_val u) = Ok text /\ stored b' userKey = Some text)).
Proof.
  intros Hw. unfold meErrorEffect. unfold Web.exec. rewrite run_catch.
  set (p := _ ≫= _). pose proof (exec_window server fits p b) as Hw1.
  destruct (run (handle server fits) p b) as [b1 [[s1 es]|e]] eqn:E.
  - exists b1, s1, es. split; [done|]. right. subst p. rewrite run_bind in E.
    pose proof (exec_window server fits (refreshAdminSession API_BASE) b) as Hw2. unfold Web.exec in Hw2.
    destruct (run (handle server fits) (refreshAdminSession API_BASE) b) as [b2 [session|e]]; [|done].
    cbn [fst] in Hw2. rewrite run_bind in E.
    destruct (run (handle server fits) (storeSession session None) b2) as [b3 [[]|e]] eqn:E3; [|done].
    destruct (storeSession_user server fits session None b2 b3) as (u & text & Hg & Ht & Hst); [congruence|exact E3|].
    rewrite run_bind, Hg in E. simpl in E. simplify_eq. by exists u, text.
  - unfold Web.exec in Hw1. rewrite E in Hw1. cbn [fst] in Hw1.
    destruct (clear_signed_out (with_user JNull s, @nil effect) b1) as (b' & E' & Hs & _); [congruence|].
    exists b', (with_user JNull s), []. split; [exact E'|]. by left.
Qed.
End Spec.

(** A dropped session is not shown as signed out: the query library keeps the
    data of the last success of [meQuery] next to its error, and [ConsoleApp]
    prefers it to the user the effect has set to [null], so the console stays
    on screen without a session until the page is reloaded. *)
Lemma dropped_session_shown s u me apps : q_data me = Some u -> truthy u = true ->
  exists id v c, ConsoleApp (with_user JNull s) me apps = ScreenConsole id u v c.
Proof.
  intros Hm Hu. unfold ConsoleApp, activeUser. rewrite Hm.
  assert (coalesce u (user (with_user JNull s)) = u) as ->
    by (unfold coalesce; by destruct u). rewrite Hu. cbn [negb]. eauto.
Qed.

(** The project of the page: whenever there is a project, one is selected;
    it is one of the list, and the one asked for if that exists; a view that
    needs a project is only shown with one, so the non-null assertions of
    [ViewContent] hold, and without any project every view but the project
    list shows the empty state. *)
Lemma content_has_app apps id v loading :
  let sel := selectedApp apps id in
  (forall a, sel = Some a -> a ∈ apps) /\
  (forall a, a ∈ apps -> app_id a = id -> exists a', sel = Some a' /\ app_id a' = id) /\
  (sel = None <-> apps = []) /\
  match ViewContent v apps loading sel with
  | ContentOf v' app => v' = v /\ is_Some app
  | ContentOverview _ app => is_Some app
  | ContentApps l => l = apps /\ v = Vapps
  | ContentEmpty => apps = [] /\ v <> Vapps
  | ContentOps => v = Vops
  | ContentLoading => loading = true
  end.
Proof.
  cbv zeta. unfold selectedApp.
  assert (forall a, List.find (fun a => jseq (app_id a) id) apps = Some a -> a ∈ apps /\ app_id a = id) as Hf.
  { intros a [H1 H2]%find_some. apply list_elem_of_In in H1. by apply jseq_eq in H2. }
  set (sel := match List.find _ apps with Some a => Some a | None => head apps end).
  assert (sel = None <-> apps = []) as Hnone.
  { unfold sel. destruct (List.find _ apps) as [a|] eqn:E.
    - split; [done|]. intros ->. done.
    - destruct apps; done. }
  split_and!; try done.
  - intros a. unfold sel. destruct (List.find _ apps) as [a'|] eqn:E.
    + intros [= ->]. by apply Hf.
    + destruct apps; [done|]. intros [= ->]. left.
  - intros a Hin Hid. unfold sel. destruct (List.find _ apps) as [a'|] eqn:E.
    + exists a'. split; [done|]. by apply Hf.
    + apply list_elem_of_In in Hin. pose proof (find_none _ _ E a Hin) as Hn. cbv beta in Hn.
      by rewrite (proj2 (jseq_eq _ _) Hid) in Hn.
  - unfold ViewContent. destruct loading; [done|]. destruct sel as [a|].
    + destruct v; cbn; by eauto.
    + destruct (bool_decide (v = Vapps)) eqn:Ev; reflect_bools; cbn [andb negb]; [by subst|].
      split; [by apply Hnone|done].
Qed.

End Shell.
