(* ===== verification/Concurrent.v ===== *)
(** * The console's activities, interleaved

    The activities that touch the stored session, as tasks that run
    concurrently: authenticated requests of queries and mutations, backup
    downloads, the reaction to a rejected session, sign-in and sign-out.
    The theorems hold for every server, every quota, every number of tasks
    and every interleaving. *)

From S2P Require Import Prelude JsString JsNumber JsValue Json Uri Prog Http Browser Session ApiClient.
From S2P Require Import Types ConsoleUtils Ui Nav Shell Tasks.
From stdpp Require Import relations.
Import Web Session Api Shell Tasks.

Module Concurrent.

(** One activity, with the component state it starts from. *)
Inductive job : Type :=
| JobFetch (path : jsstring) (init : ApiInit)
| JobDownload (name : jsstring)
| JobMeError (s : AppState)
| JobLogout (s : AppState)
| JobSignIn (boot : bool) (f : AuthForm) (s : AppState).

(** What it ends with. *)
Inductive job_result : Type :=
| GotValue (v : jsval)
| GotFile (r : response)
| GotState (s : AppState) (es : list effect).

Section Jobs.
Variable API_BASE : jsstring.
Variable tr : translator.

(** The mutation of the sign-in form: the request, then [onSuccess]. *)
Definition sign_in (boot : bool) (f : AuthForm) (s : AppState) : web (AppState * list effect) :=
  session ← auth_mutation API_BASE boot f;
  let '(toast, rest) := auth_success tr boot session f s in
  '(s', es) ← rest;
  Ret (s', toast :: es).

Definition job_program (j : job) : web job_result :=
  match j with
  | JobFetch path init => v ← apiFetch API_BASE path init; Ret (GotValue v)
  | JobDownload name => r ← downloadBackup API_BASE name; Ret (GotFile r)
  | JobMeError s => '(s', es) ← meErrorEffect API_BASE s; Ret (GotState s' es)
  | JobLogout s => '(s', es) ← onLogout API_BASE s; Ret (GotState s' es)
  | JobSignIn boot f s => '(s', es) ← sign_in boot f s; Ret (GotState s' es)
  end.
End Jobs.

(** ** Programs of the session *)

Lemma set_item_no_fetch a k v : no_fetch (set_item a k v).
Proof. unfold set_item. apply no_fetch_bind; [apply no_fetch_lift|]. intros s. simpl. eauto using no_fetch_lift. Qed.

Lemma await_no_fetch {A} (op : webE (outcome A)) : as_fetch op = None -> no_fetch (await op).
Proof. intros H. split; [done|]. apply no_fetch_lift. Qed.

Lemma read_item_no_fetch k : no_fetch (read_item k).
Proof.
  unfold read_item. apply no_fetch_bind; [by apply await_no_fetch|]. intros [v|]; [done|]. by apply await_no_fetch.
Qed.

#[local] Hint Resolve set_item_no_fetch read_item_no_fetch : peanut.
#[local] Hint Extern 1 (no_fetch (await _)) => (apply await_no_fetch; reflexivity) : peanut.
#[local] Hint Extern 1 (no_fetch (Ret _)) => exact I : peanut.

Lemma storeSession_no_fetch session remember : no_fetch (storeSession session remember).
Proof. unfold storeSession. apply no_fetch_bind; [destruct remember; auto with peanut|auto 20 with peanut]. Qed.

Lemma clearSession_no_fetch : no_fetch clearSession.
Proof. unfold clearSession. auto 20 with peanut. Qed.

Lemma window_no_fetch {A} (f : bool -> web A) : (forall w, no_fetch (f w)) -> no_fetch (w ← trigger HasWindow; f w).
Proof. intros H. by split. Qed.

Lemma readAccessToken_no_fetch : no_fetch readAccessToken.
Proof. apply window_no_fetch. intros [|]; cbn [negb]; auto with peanut. Qed.

Lemma readRefreshToken_no_fetch : no_fetch readRefreshToken.
Proof. apply window_no_fetch. intros [|]; cbn [negb]; auto with peanut. Qed.

Lemma inline_refresh_token_no_fetch : no_fetch inline_refresh_token.
Proof. apply window_no_fetch. intros [|]; cbn [negb]; auto with peanut. Qed.

#[local] Hint Resolve storeSession_no_fetch clearSession_no_fetch readAccessToken_no_fetch
  readRefreshToken_no_fetch inline_refresh_token_no_fetch : peanut.

(** ** Requests of each activity *)
Section Count.
Variable API_BASE : jsstring.
Variable tr : translator.

(** Sequencing with a part that sends nothing. *)
Lemma fetches_quiet {A B} (p : web A) (f : A -> web B) n :
  no_fetch p -> (forall a, fetches_le n (f a)) -> fetches_le n (p ≫= f).
Proof. intros Hp Hf. apply (fetches_bind p f 0 n); [by apply fetches_none|done]. Qed.

Lemma fetches_then_quiet {A B} (p : web A) (f : A -> web B) n :
  fetches_le n p -> (forall a, no_fetch (f a)) -> fetches_le n (p ≫= f).
Proof.
  intros Hp Hf. rewrite <- (Nat.add_0_r n). apply fetches_bind; [done|]. intros a. by apply fetches_none.
Qed.

Lemma fetchWithAuth_one path init : fetches_le 1 (fetchWithAuth API_BASE path init).
Proof.
  unfold fetchWithAuth. apply fetches_quiet; [auto with peanut|]. intros hs.
  apply fetches_quiet; [destruct (auth_on init); auto with peanut|]. intros t.
  apply fetches_quiet; [auto with peanut|]. intros hs'. simpl. intros o. apply fetches_none. auto with peanut.
Qed.

Lemma conclude_no_fetch r : no_fetch (if response_ok r then lift (parseResponse r) else throw_response r).
Proof.
  destruct (response_ok r); [auto with peanut|]. unfold throw_response.
  apply no_fetch_bind; [auto with peanut|done].
Qed.

Lemma api_fetch_public_one n path init : auth_on init = false ->
  fetches_le 1 (api_fetch API_BASE (S n) path init).
Proof.
  intros Ha. cbn [api_fetch]. rewrite Ha. apply fetches_then_quiet; [apply fetchWithAuth_one|].
  intros r. cbn [andb]. pose proof (conclude_no_fetch r) as Hc. by destruct (response_ok r).
Qed.

Lemma refresh_one : fetches_le 1 (refreshStoredSession (api_fetch API_BASE 1)).
Proof.
  unfold refreshStoredSession. apply fetches_quiet; [auto with peanut|]. intros [t|]; [|done].
  destruct (negb (nonempty t)); [done|]. apply (fetches_catch _ _ 1 0); [|done].
  apply fetches_then_quiet; [by apply api_fetch_public_one|]. auto with peanut.
Qed.

Lemma apiFetch_three path init : fetches_le 3 (apiFetch API_BASE path init).
Proof.
  unfold apiFetch. cbn [api_fetch]. apply (fetches_bind _ _ 1 2); [apply fetchWithAuth_one|]. intros r.
  pose proof (conclude_no_fetch r) as Hc. destruct (response_ok r); [by apply fetches_none|].
  apply (fetches_bind _ _ 1 1).
  - destruct (auth_on init && _); [apply refresh_one|done].
  - intros [|]; [|by apply fetches_none]. apply fetches_then_quiet; [apply fetchWithAuth_one|].
    intros r'. apply conclude_no_fetch.
Qed.

Lemma apiFetch_public path init : auth_on init = false -> fetches_le 1 (apiFetch API_BASE path init).
Proof. apply api_fetch_public_one. Qed.

Lemma meErrorEffect_one s : fetches_le 1 (meErrorEffect API_BASE s).
Proof.
  unfold meErrorEffect. apply (fetches_catch _ _ 1 0).
  - apply fetches_then_quiet; [|auto 20 with peanut]. unfold refreshAdminSession.
    apply fetches_quiet; [auto with peanut|]. intros [t|]; [|done].
    destruct (nonempty t); [by apply apiFetch_public|done].
  - intros _. apply fetches_none. auto with peanut.
Qed.

Lemma onLogout_one s : fetches_le 1 (onLogout API_BASE s).
Proof.
  unfold onLogout. apply fetches_then_quiet; [|auto with peanut]. apply (fetches_catch _ _ 1 0); [|done].
  unfold logoutAdmin. apply fetches_quiet; [auto with peanut|]. intros [t|]; [|done].
  destruct (nonempty t); [|done]. apply fetches_then_quiet; [by apply apiFetch_public|done].
Qed.

Lemma sign_in_one boot f s : fetches_le 1 (sign_in API_BASE tr boot f s).
Proof.
  unfold sign_in. apply fetches_then_quiet.
  - unfold auth_mutation. by destruct boot; apply apiFetch_public.
  - intros session. unfold auth_success. apply no_fetch_bind; [auto with peanut|]. by intros [].
Qed.

Lemma download_one name : fetches_le 1 (downloadBackup API_BASE name).
Proof.
  unfold downloadBackup. apply fetches_quiet; [auto with peanut|]. intros t.
  apply fetches_quiet; [auto with peanut|]. intros n. apply fetches_quiet; [auto with peanut|]. intros hs.
  apply fetches_then_quiet; [intros o; apply fetches_none; auto with peanut|].
  intros r. by destruct (negb (response_ok r)).
Qed.

Lemma job_three j : fetches_le 3 (job_program API_BASE tr j).
Proof.
  destruct j as [path init|name|s|s|boot f s]; cbn [job_program]; apply fetches_then_quiet;
    try done; try (by intros []); try apply apiFetch_three.
  all: eapply fetches_mono; [|first [apply download_one|apply meErrorEffect_one|apply onLogout_one|apply sign_in_one]]; lia.
Qed.
End Count.

Section Spec.
Context {Σ : Type} (server : Σ -> jsstring -> request_init -> Σ * outcome response).
Context (fits : area -> items -> bool) (API_BASE : jsstring) (tr : translator).

Abbreviation exec := (exec server fits).
Abbreviation run_schedule := (run_schedule server fits).
Abbreviation step := (step server fits).

(** The tasks of these jobs, not started. *)
Definition start (jobs : list job) : list (task job_result) := map (fun j => Ready (job_program API_BASE tr j)) jobs.

(** C12: Nothing starves: however the activities of the console are
    interleaved, whatever the server answers, a schedule that gives each of
    them at least seven events finishes them all, and together they send at
    most three requests each. *)
Theorem jobs_finish jobs sch b :
  (forall i, i < length jobs -> 7 <= count_occ Nat.eq_dec sch i) ->
  Forall finished (run_schedule sch (b, start jobs)).2 /\
  length (b_sent (run_schedule sch (b, start jobs)).1) <= length (b_sent b) + 3 * length jobs.
Proof.
  intros Hsch. destruct (finishes server fits sch b (start jobs) (replicate (length jobs) 3)) as [H1 H2].
  - unfold start. clear Hsch. induction jobs as [|j jobs IH]; constructor; [apply job_three|done].
  - intros i t m Hi Hm. apply lookup_replicate in Hm as [-> Hlt].
    unfold start in Hi. rewrite list_lookup_fmap in Hi. destruct (jobs !! i); [|done]. simplify_eq/=. by apply Hsch.
  - split; [done|]. rewrite sum_list_replicate in H2. lia.
Qed.

(** The sequential runs are among the interleavings: for every list of
    activities there is a schedule that ends exactly as running them one
    after the other. *)
Lemma serial_schedule jobs b :
  exists sch, run_schedule sch (b, start jobs) =
    ((serial server fits (map (job_program API_BASE tr) jobs) b).1,
     map Finished (serial server fits (map (job_program API_BASE tr) jobs) b).2).
Proof.
  destruct (serial_from server fits (map (job_program API_BASE tr) jobs) b []) as [sch H]. exists sch.
  unfold start. rewrite map_map in H. exact H.
Qed.

(** ** The stored session under interleaving *)

(** The items of other features are those of [b0]. *)
Definition others_kept (b0 b : browser Σ) : Prop :=
  forall a k, k ∉ session_keys -> b_items b a !! k = b_items b0 a !! k.

(** The invariant, relative to the state [b0] at the start. *)
Definition session_inv (b0 b : browser Σ) : Prop :=
  b_window b = true /\ one_area b /\ others_kept b0 b.

#[local] Instance one_area_invariant : SharedInvariant (one_area (Σ := Σ)).
Proof. by split. Qed.

#[local] Instance others_invariant b0 : SharedInvariant (others_kept b0).
Proof. split; intros x b H a k Hk; rewrite <- H by done; by destruct a. Qed.

#[local] Instance session_invariant b0 : SharedInvariant (session_inv b0).
Proof. apply invariant_and; [apply (storage_invariant (fun w _ _ => w = true))|apply _]. Qed.

Abbreviation keeps b0 := (keeps server fits (session_inv b0)).

Lemma keeps_store b0 session remember : keeps b0 (storeSession session remember).
Proof.
  apply keeps_no_fetch; [apply storeSession_no_fetch|]. intros b (Hw & _ & Hk).
  destruct (storeSession_areas server fits session remember b Hw) as (_ & H1 & _ & H2).
  split_and!; [by rewrite exec_window|done|]. intros a k Hin. by rewrite H2, Hk.
Qed.

Lemma keeps_clear b0 : keeps b0 clearSession.
Proof.
  apply keeps_no_fetch; [apply clearSession_no_fetch|]. intros b (Hw & _ & Hk).
  rewrite clearSession_exec by done. split_and!; [done|left; apply wipe_no_session|].
  intros a k Hin. rewrite <- Hk by done. destruct a; by apply wipe_other.
Qed.

(** Programs that only read. *)
Lemma keeps_read b0 {A} (p : web A) : no_fetch p -> (forall b, (exec p b).1 = b) -> keeps b0 p.
Proof. intros Hn Hr. apply keeps_no_fetch; [done|]. intros b Hb. by rewrite Hr. Qed.

Lemma keeps_access b0 : keeps b0 readAccessToken.
Proof. apply keeps_read; [apply readAccessToken_no_fetch|]. intros b. by rewrite readAccessToken_exec. Qed.

Lemma keeps_refresh b0 : keeps b0 readRefreshToken.
Proof. apply keeps_read; [apply readRefreshToken_no_fetch|]. intros b. by rewrite readRefreshToken_exec. Qed.

Lemma keeps_inline b0 : keeps b0 inline_refresh_token.
Proof. apply keeps_refresh. Qed.

Lemma keeps_await_fetch b0 url init : keeps b0 (await (Fetch url init)).
Proof. apply keeps_fetch, _. Qed.

#[local] Hint Resolve keeps_store keeps_clear keeps_access keeps_refresh keeps_inline keeps_await_fetch : peanut.

Lemma keeps_fetchWithAuth b0 path init : keeps b0 (fetchWithAuth API_BASE path init).
Proof.
  unfold fetchWithAuth. apply keeps_bind; [apply keeps_lift|]. intros hs.
  apply keeps_bind; [destruct (auth_on init); auto with peanut|]. auto with peanut.
Qed.

Lemma keeps_throw_response b0 {A} r : keeps b0 (@throw_response A r).
Proof. unfold throw_response. auto with peanut. Qed.

#[local] Hint Resolve keeps_fetchWithAuth keeps_throw_response : peanut.

Lemma keeps_refreshStored b0 f : (forall path init, keeps b0 (f path init)) -> keeps b0 (refreshStoredSession f).
Proof.
  intros Hf. unfold refreshStoredSession. apply keeps_bind; [auto with peanut|]. intros [t|]; [|auto with peanut].
  destruct (negb (nonempty t)); auto with peanut.
Qed.

Lemma keeps_api_fetch b0 n path init : keeps b0 (api_fetch API_BASE n path init).
Proof.
  revert path init. induction n as [|n IH]; intros path init; [apply keeps_throw|]. cbn [api_fetch].
  apply keeps_bind; [auto with peanut|]. intros r. destruct (response_ok r); [auto with peanut|].
  apply keeps_bind; [destruct (auth_on init && _); [by apply keeps_refreshStored|auto with peanut]|].
  intros [|]; [|auto with peanut]. apply keeps_bind; [auto with peanut|].
  intros r'. destruct (response_ok r'); auto with peanut.
Qed.

Lemma keeps_job b0 j : keeps b0 (job_program API_BASE tr j).
Proof.
  assert (forall path init, keeps b0 (apiFetch API_BASE path init)) as Hf by (intros; apply keeps_api_fetch).
  destruct j as [path init|name|s|s|boot f s]; cbn [job_program]; (apply keeps_bind; [|try (intros []); auto with peanut]).
  - done.
  - unfold downloadBackup. apply keeps_bind; [auto with peanut|]. intros t.
    do 3 (apply keeps_bind; [auto with peanut|]; intros ?). destruct (negb _); auto with peanut.
  - unfold meErrorEffect, refreshAdminSession. apply keeps_catch; [|auto with peanut].
    apply keeps_bind; [|auto with peanut]. apply keeps_bind; [auto with peanut|].
    intros [t|]; [|auto with peanut]. destruct (nonempty t); auto with peanut.
  - unfold onLogout, logoutAdmin. apply keeps_bind; [|auto with peanut]. apply keeps_catch; [|auto with peanut].
    apply keeps_bind; [auto with peanut|]. intros [t|]; [|auto with peanut]. destruct (nonempty t); auto with peanut.
  - unfold sign_in, auth_mutation. apply keeps_bind; [by destruct boot; apply Hf|]. intros session.
    unfold auth_success. apply keeps_bind; [auto with peanut|]. intros []. auto with peanut.
Qed.

(** C3: The stored session is consistent under every interleaving: in every
    state that any number of concurrent requests, renewals, sign-ins and
    sign-outs can reach, at most one storage area holds session items, and
    no item of another feature has changed. *)
Theorem interleaving_safe jobs b s : b_window b = true -> one_area b ->
  rtc step (b, start jobs) s ->
  one_area s.1 /\ forall a k, k ∉ session_keys -> b_items s.1 a !! k = b_items b a !! k.
Proof.
  intros Hw Ho H.
  destruct (reachable_ok server fits (session_inv b) _ _ H)
    as [(_ & H1 & H2) _]; [done| |done].
  unfold start. apply Forall_forall. intros t Ht. apply list_elem_of_In, in_map_iff in Ht as (j & <- & _).
  apply keeps_job.
Qed.
(** ** Races *)

Abbreviation advance := (advance server fits).
Abbreviation prepared := (prepared API_BASE).
Abbreviation refresh_request := (refresh_request API_BASE).

Lemma advance_fetchWithAuth path init b q : prepared path init b = Ok q ->
  advance (fetchWithAuth API_BASE path init) b = (send q b, Waiting q.1 q.2 lift).
Proof.
  unfold Api.prepared, fetchWithAuth. destruct (base_headers init) as [hs|e] eqn:Eb; [|done]. cbn [res_bind].
  destruct (bearer (token_of init b) hs) as [hs'|e] eqn:Eh; [|done]. intros <-%Ok_inj.
  rewrite advance_bind, advance_lift. cbn [then_task]. rewrite advance_bind.
  assert (advance (if auth_on init then readAccessToken else Ret None) b =
          (b, Finished (Ok (token_of init b)))) as ->.
  { unfold token_of. destruct (auth_on init); [|done].
    rewrite advance_no_fetch by apply readAccessToken_no_fetch. rewrite readAccessToken_exec. by destruct (b_window b). }
  cbn [then_task]. rewrite advance_bind, advance_lift, Eh. done.
Qed.

(** One level of the recursion. *)
Lemma api_fetch_S n path init :
  api_fetch API_BASE (S n) path init =
  (response ← fetchWithAuth API_BASE path init;
   if response_ok response then lift (parseResponse response)
   else
     refreshed ← (if auth_on init && (status response =? 401)%Z
                  then refreshStoredSession (api_fetch API_BASE n) else Ret false);
     if refreshed : bool then
       retryResponse ← fetchWithAuth API_BASE path init;
       if response_ok retryResponse then lift (parseResponse retryResponse)
       else throw_response retryResponse
     else throw_response response).
Proof. done. Qed.

(** A public request: one exchange. *)
Lemma advance_public n path init b q : auth_on init = false -> prepared path init b = Ok q ->
  exists k, advance (api_fetch API_BASE (S n) path init) b = (send q b, Waiting q.1 q.2 k) /\
    forall o b', advance (k o) b' = (b', Finished (let! r := o in conclude r)).
Proof.
  intros Ha Hq. cbn [api_fetch]. rewrite advance_bind, (advance_fetchWithAuth path init b q Hq), Ha.
  cbn [then_task andb]. eexists. split; [done|]. intros [r|e] b'; [|done]. cbn [lift mbind prog_bind res_bind].
  pose proof (advance_no_fetch server fits _ b' (conclude_no_fetch r)) as H.
  rewrite conclude_exec in H. cbn [fst snd] in H. rewrite <- H. by destruct (response_ok r).
Qed.

(** What follows a 401: the refresh request, and then the repetition of the
    request, or the error of its first answer [r]. *)
Definition after_refresh (path : jsstring) (init : ApiInit) (r : response)
    (k : outcome response -> web job_result) : Prop :=
  (forall rr session b b2 q2, conclude rr = Ok session -> exec (storeSession session None) b = (b2, Ok tt) ->
     prepared path init b2 = Ok q2 ->
     exists k3, advance (k (Ok rr)) b = (send q2 b2, Waiting q2.1 q2.2 k3)) /\
  (forall rr e b, conclude rr = Err e -> advance (k (Ok rr)) b = (b, Finished (res_map GotValue (conclude r)))).

Lemma advance_job path init b q : auth_on init = true -> prepared path init b = Ok q ->
  exists k, advance (job_program API_BASE tr (JobFetch path init)) b = (send q b, Waiting q.1 q.2 k) /\
    forall r b' t, status r = 401%Z -> refresh_token_of b' = Some t ->
      exists k2, advance (k (Ok r)) b' =
        (send (refresh_request t) b', Waiting (refresh_request t).1 (refresh_request t).2 k2) /\
        after_refresh path init r k2.
Proof.
  intros Ha Hq. cbn [job_program]. unfold apiFetch. rewrite api_fetch_S.
  rewrite !advance_bind, (advance_fetchWithAuth path init b q Hq). cbn [then_task]. eexists. split; [done|].
  intros r b' t Hr Ht. cbn [lift mbind prog_bind].
  assert (response_ok r = false) as Hok by (unfold response_ok; rewrite Hr; done).
  rewrite Hok, Ha, Hr. change (true && (401 =? 401)%Z) with true. cbv iota.
  unfold refresh_token_of in Ht. destruct (b_window b') eqn:Hw; [|done].
  destruct (stored b' refreshKey) as [t'|] eqn:Es; [|done]. destruct (nonempty t') eqn:En; [|done]. simplify_eq.
  destruct (advance_public 0 refresh_path (refresh_init t) b' _ eq_refl (prepared_refresh API_BASE t b')) as (kp & Ep & Hp).
  rewrite !advance_bind. unfold refreshStoredSession. rewrite advance_bind.
  rewrite (advance_no_fetch server fits readRefreshToken) by apply readRefreshToken_no_fetch.
  rewrite readRefreshToken_exec, Hw, Es. cbn [fst snd then_task]. rewrite En. cbn [negb].
  rewrite advance_catch, advance_bind, Ep. cbn [then_task catch_task]. eexists. split; [done|]. split.
  - intros rr session b1 b2 q2 Hc Hst Hq2. rewrite !advance_bind, advance_catch, advance_bind, Hp. cbn [res_bind].
    rewrite Hc. cbn [then_task]. rewrite advance_bind.
    rewrite (advance_no_fetch server fits (storeSession session None)) by apply storeSession_no_fetch.
    rewrite Hst. cbn [fst snd then_task catch_task Tasks.advance].
    rewrite advance_bind, (advance_fetchWithAuth path init b2 q2 Hq2). cbn [then_task]. by eexists.
  - intros rr e b1 Hc. rewrite !advance_bind, advance_catch, advance_bind, Hp. cbn [res_bind]. rewrite Hc.
    cbn [then_task catch_task Tasks.advance].
    pose proof (advance_no_fetch server fits _ b1 (conclude_no_fetch r)) as H.
    rewrite conclude_exec, Hok in H. cbn [fst snd] in H. rewrite H. cbn [then_task].
    by destruct (conclude r).
Qed.

(** A login response with string tokens and a printable user. *)
Definition login_body (session : jsval) (acc ref : jsstring) : Prop :=
  get session (js "access_token") = Ok (JStr acc) /\ get session (js "refresh_token") = Ok (JStr ref) /\
  exists user u, get session (js "user") = Ok user /\ to_string (stringify_val user) = Ok u.

Lemma store_login session acc ref b : b_window b = true -> (forall a m, fits a m = true) ->
  login_body session acc ref ->
  exists b', exec (storeSession session None) b = (b', Ok tt) /\ b_window b' = true /\
    b_srv b' = b_srv b /\ b_sent b' = b_sent b /\
    stored b' accessKey = Some acc /\ stored b' refreshKey = Some ref.
Proof.
  intros Hw Hf (Ha & Hr & user & u & Hu & Hs).
  destruct (storeSession_stores server fits session None b acc ref user u) as (b' & ? & ? & ? & ? & ? & ? & ?);
    try done. by exists b'.
Qed.

(** A request that could be built can be built with another token. *)
Lemma prepared_token path init (b b' : browser Σ) q acc v : prepared path init b = Ok q ->
  stored b' accessKey = Some acc -> header_value (js "Bearer " ++ acc) = Ok v ->
  exists q', prepared path init b' = Ok q'.
Proof.
  unfold Api.prepared, token_of. destruct (base_headers init) as [hs|]; [|done]. cbn [res_bind]. intros _ Hs Hv.
  destruct (auth_on init && b_window b'); [rewrite Hs|by eexists]. cbn [bearer]. unfold headers_set.
  change (header_entry (js "Authorization") ?x) with (header_value x). rewrite Hv. destruct (nonempty acc); by eexists.
Qed.

Lemma not_ok_conclude r : status r = 401%Z -> is_ok (conclude r) = false.
Proof.
  intros H. unfold conclude, response_ok. rewrite H. cbn [Z.leb Z.compare andb].
  by destruct (apiErrorFromResponse r).
Qed.

(** Events of a pool of two tasks. *)
Lemma pick_0 b (t0 t1 : task job_result) :
  pick server fits 0 (b, [t0; t1]) =
  match t0 with
  | Ready p => let '(b', t') := advance p b in (b', [t'; t1])
  | Waiting url init k => let '(σ, o) := server (b_srv b) url init in (with_srv σ b, [Arrived o k; t1])
  | Arrived o k => let '(b', t') := advance (k o) b in (b', [t'; t1])
  | Finished _ => (b, [t0; t1])
  end.
Proof. by destruct t0. Qed.

Lemma pick_1 b (t0 t1 : task job_result) :
  pick server fits 1 (b, [t0; t1]) =
  match t1 with
  | Ready p => let '(b', t') := advance p b in (b', [t0; t'])
  | Waiting url init k => let '(σ, o) := server (b_srv b) url init in (with_srv σ b, [t0; Arrived o k])
  | Arrived o k => let '(b', t') := advance (k o) b in (b', [t0; t'])
  | Finished _ => (b, [t0; t1])
  end.
Proof. by destruct t1. Qed.

Lemma run_cons i sch (st : pool job_result) : run_schedule (i :: sch) st = run_schedule sch (pick server fits i st).
Proof. done. Qed.

(** C27: Two requests rejected together renew the session twice with the same
    refresh token: when the server accepts a refresh token once (it rotates
    them), the second request is reported as failed with its 401 and is not
    repeated, although valid tokens have just been stored; one after the
    other, the second request would have used them. *)
Theorem refresh_race p1 i1 p2 i2 b t q1 q2 σ1 σ2 σ3 σ4 r1 r2 s s' session acc ref v e :
  b_window b = true -> (forall a m, fits a m = true) ->
  auth_on i1 = true -> auth_on i2 = true -> refresh_token_of b = Some t ->
  prepared p1 i1 b = Ok q1 -> prepared p2 i2 b = Ok q2 ->
  server (b_srv b) q1.1 q1.2 = (σ1, Ok r1) -> status r1 = 401%Z ->
  server σ1 q2.1 q2.2 = (σ2, Ok r2) -> status r2 = 401%Z ->
  server σ2 (refresh_request t).1 (refresh_request t).2 = (σ3, Ok s) -> conclude s = Ok session ->
  login_body session acc ref -> header_value (js "Bearer " ++ acc) = Ok v ->
  server σ3 (refresh_request t).1 (refresh_request t).2 = (σ4, Ok s') -> conclude s' = Err e ->
  let '(b', ts) := run_schedule [0; 1; 0; 1; 0; 1; 0; 1; 0; 1] (b, start [JobFetch p1 i1; JobFetch p2 i2]) in
  ts !! 1 = Some (Finished (res_map GotValue (conclude r2))) /\ is_ok (conclude r2) = false /\
  stored b' accessKey = Some acc /\ stored b' refreshKey = Some ref /\
  exists q1', b_sent b' = b_sent b ++ [q1; q2; refresh_request t; refresh_request t; q1'].
Proof.
  intros Hw Hf Ha1 Ha2 Ht Hq1 Hq2 Hs1 Hr1 Hs2 Hr2 Hs3 Hc Hl Hv Hs4 Hc'.
  destruct (advance_job p1 i1 b q1 Ha1 Hq1) as (k1 & E1 & K1).
  assert (prepared p2 i2 (send q1 b) = Ok q2) as Hq2' by done.
  destruct (advance_job p2 i2 (send q1 b) q2 Ha2 Hq2') as (k2 & E2 & K2).
  set (b2 := with_srv σ2 (with_srv σ1 (send q2 (send q1 b)))).
  destruct (K1 r1 b2 t Hr1 Ht) as (k1' & E1' & [K1' _]).
  destruct (K2 r2 (send (refresh_request t) b2) t Hr2 Ht) as (k2' & E2' & [_ K2']).
  set (b4 := with_srv σ4 (with_srv σ3 (send (refresh_request t) (send (refresh_request t) b2)))).
  destruct (store_login session acc ref b4) as (b5 & Est & Hw5 & _ & Hsent & Hacc & Href); [done..|].
  destruct (prepared_token p1 i1 b b5 q1 acc v Hq1 Hacc Hv) as [q1' Hq1'].
  destruct (K1' s session b4 b5 q1' Hc Est Hq1') as [k3 E3].
  unfold start. cbn [map]. rewrite !run_cons.
  rewrite pick_0, E1. cbn [fst snd]. rewrite pick_1, E2. rewrite pick_0. cbn [send b_srv]. rewrite Hs1.
  rewrite pick_1. cbn [with_srv b_srv]. rewrite Hs2.
  match goal with |- context [pick server fits 0 (?b0, _)] => change b0 with b2 end.
  rewrite pick_0, E1', pick_1, E2'. rewrite pick_0. cbn [send b_srv b2 with_srv]. rewrite Hs3.
  rewrite pick_1. cbn [with_srv b_srv]. rewrite Hs4.
  match goal with |- context [pick server fits 0 (?b0, _)] => change b0 with b4 end.
  rewrite pick_0, E3, pick_1, (K2' s' e) by done. cbn [Tasks.run_schedule foldl]. split_and!; try done.
  - by apply not_ok_conclude.
  - exists q1'. cbn [send b_sent]. rewrite Hsent. unfold b4, b2. cbn [with_srv send b_sent].
    by rewrite <- !app_assoc.
Qed.

(** *** Signing out *)

Definition logout_init (t : jsstring) : ApiInit := public_post (JObj [(js "refresh_token", JStr t)]).

Lemma advance_logout s b t : b_window b = true -> refresh_token_of b = Some t ->
  exists q k, advance (job_program API_BASE tr (JobLogout s)) b = (send q b, Waiting q.1 q.2 k) /\
    forall o b', b_window b' = true ->
      advance (k o) b' =
      (mkBrowser true (wipe (b_local b')) (wipe (b_session b')) (b_srv b') (b_sent b'),
       Finished (Ok (GotState (with_user JNull s) [ClearQueries]))).
Proof.
  intros Hw Ht. unfold refresh_token_of in Ht. rewrite Hw in Ht.
  destruct (stored b refreshKey) as [t'|] eqn:Es; [|done]. destruct (nonempty t') eqn:En; [|done]. simplify_eq.
  set (q := (API_BASE ++ js "/api/admin/auth/logout", (refresh_request t).2)).
  assert (prepared (js "/api/admin/auth/logout") (logout_init t) b = Ok q) as Hq.
  { pose proof (prepared_refresh API_BASE t b) as H. unfold Api.prepared in *.
    change (base_headers (logout_init t)) with (base_headers (refresh_init t)).
    destruct (base_headers (refresh_init t)); [|done]. cbn [res_bind] in *.
    change (token_of (logout_init t) b) with (token_of (refresh_init t) b).
    destruct (bearer _ _); [|done]. cbn [res_bind] in *. apply Ok_inj in H. unfold q. by rewrite <- H. }
  destruct (advance_public 1 _ (logout_init t) b q eq_refl Hq) as (k & Ek & Hk).
  exists q. cbn [job_program]. unfold onLogout, logoutAdmin. rewrite !advance_bind, advance_catch, !advance_bind.
  rewrite (advance_no_fetch server fits inline_refresh_token) by apply inline_refresh_token_no_fetch.
  change inline_refresh_token with readRefreshToken. rewrite readRefreshToken_exec, Hw, Es.
  cbn [fst snd then_task]. rewrite En, advance_bind. unfold apiFetch. fold (logout_init t). rewrite Ek.
  cbn [then_task catch_task]. eexists. split; [done|]. intros o b' Hw'.
  cbv beta. rewrite !advance_bind, advance_catch, advance_bind, Hk.
  assert (forall x, advance (_ ← clearSession; Ret x) b' =
    (mkBrowser true (wipe (b_local b')) (wipe (b_session b')) (b_srv b') (b_sent b'),
     Finished (Ok (x : AppState * list effect)))) as Hcl.
  { intros x. rewrite advance_bind, advance_no_fetch by apply clearSession_no_fetch.
    by rewrite clearSession_exec by done. }
  destruct (let! r := o in conclude r) as [x|e]; cbn [then_task catch_task Tasks.advance]; by rewrite Hcl.
Qed.

(** C28: Signing out while a request renews the session: when the answer to the
    renewal arrives after the sign-out has finished, [refreshStoredSession]
    stores the new tokens again, so a session is left in the storage although
    the user was signed out, whatever the server answered to the sign-out. *)
Theorem logout_race path init s b t q σ1 σ2 r rr session acc ref v :
  b_window b = true -> (forall a m, fits a m = true) -> auth_on init = true ->
  refresh_token_of b = Some t -> prepared path init b = Ok q ->
  server (b_srv b) q.1 q.2 = (σ1, Ok r) -> status r = 401%Z ->
  server σ1 (refresh_request t).1 (refresh_request t).2 = (σ2, Ok rr) -> conclude rr = Ok session ->
  login_body session acc ref -> header_value (js "Bearer " ++ acc) = Ok v ->
  let '(b', ts) := run_schedule [0; 0; 0; 0; 1; 1; 1; 0] (b, start [JobFetch path init; JobLogout s]) in
  ts !! 1 = Some (Finished (Ok (GotState (with_user JNull s) [ClearQueries]))) /\
  stored b' accessKey = Some acc /\ stored b' refreshKey = Some ref.
Proof.
  intros Hw Hf Ha Ht Hq Hs1 Hr Hs2 Hc Hl Hv.
  destruct (advance_job path init b q Ha Hq) as (k1 & E1 & K1).
  set (b1 := with_srv σ1 (send q b)).
  destruct (K1 r b1 t Hr Ht) as (k2 & E2 & [K2 _]).
  set (b2 := with_srv σ2 (send (refresh_request t) b1)).
  destruct (advance_logout s b2 t Hw Ht) as (ql & kl & El & Kl).
  unfold start. cbn [map]. rewrite !run_cons. rewrite pick_0, E1, pick_0. cbn [send b_srv]. rewrite Hs1.
  match goal with |- context [pick server fits 0 (?b0, _)] => change b0 with b1 end.
  rewrite pick_0, E2, pick_0. cbn [send b_srv b1 with_srv]. rewrite Hs2.
  match goal with |- context [pick server fits 1 (?b0, _)] => change b0 with b2 end.
  rewrite pick_1, El, pick_1. cbn [send b_srv b2 with_srv].
  destruct (server σ2 ql.1 ql.2) as [σ o]. rewrite pick_1, Kl by done.
  match goal with |- context [pick server fits 0 (?b0, _)] => set (b3 := b0) end.
  destruct (store_login session acc ref b3) as (b4 & Est & _ & _ & _ & Hacc & Href); [done..|].
  destruct (prepared_token path init b b4 q acc v Hq Hacc Hv) as [q' Hq'].
  destruct (K2 rr session b3 b4 q' Hc Est Hq') as [k3 E3]. rewrite pick_0, E3. by cbn.
Qed.
End Spec.
End Concurrent.
