(* ===== verification/Page.v ===== *)
(** * The page: [app/page.tsx], [app/layout.tsx], [providers.tsx], [i18n/provider.tsx]

    The tree in which the console is mounted, as elements of [UiKit]: the
    document, the providers (locale, messages, query client), the error
    boundary and the toaster.  Fonts are the names the font loader gives. *)

From S2P Require Import Prelude JsString Ui UiKit.
Import Kit.

Module Page.

(** What [new QueryClient(options)] is called with in [ConsoleProviders]. *)
Record query_defaults : Type := { staleTime : Z; query_retry : Z }.

Definition console_query_defaults : query_defaults := {| staleTime := 20000; query_retry := 1 |}.

(** The value of [LocaleContext] where no provider is mounted, and the locale
    the provider gives. *)
Definition default_locale : ConsoleLocale := En.

Definition locale_text (l : ConsoleLocale) : string :=
  match l with En => "en" | Ko => "ko" end.

Local Open Scope string_scope.

(** [<ConsoleI18nProvider>] in locale [l]; the message catalogue is named by its
    locale. *)
Definition ConsoleI18nProvider (l : ConsoleLocale) (children : list elem) : elem :=
  Elem "LocaleContext.Provider" (attrs [("value", PObj [("locale", PStr (locale_text l)); ("setLocale", PFun "setLocale")])])
    [Elem "NextIntlClientProvider"
       (attrs [("locale", PStr (locale_text l)); ("messages", PStr (locale_text l));
               ("now", PDate 0); ("timeZone", PStr "UTC")])
       children].

Definition query_client (d : query_defaults) : pval :=
  PObj [("defaultOptions", PObj [("queries", PObj [("staleTime", PNum (staleTime d)); ("retry", PNum (query_retry d))])])].

Definition ConsoleProviders (l : ConsoleLocale) (children : list elem) : elem :=
  ConsoleI18nProvider l
    [Elem "QueryClientProvider" (attrs [("client", query_client console_query_defaults)]) children].

(** [Home] *)
Definition Home (l : ConsoleLocale) : elem :=
  ConsoleProviders l [Elem "ConsoleErrorBoundary" (attrs []) [Elem "ConsoleApp" (attrs []) []]].

(** [metadata] *)
Definition metadata : pval :=
  PObj [("title", PStr "Peanut Console"); ("description", PStr "Admin console for the Peanut backend platform")].

Section Layout.
Context (useTheme : pval).
Context (geistSans geistMono : string).

Definition RootLayout (children : list elem) : elem :=
  Elem "html" (attrs [("lang", PStr "en");
                      ("className", PStr (geistSans ++ " " ++ geistMono ++ " h-full antialiased"))])
    [Elem "body" (attrs [("className", PStr "min-h-full flex flex-col")])
       [TooltipProvider ∅ children;
        Toaster useTheme (attrs [("richColors", PBool true); ("position", PStr "top-right")]) []]].

(** The document of the console. *)
Definition document (l : ConsoleLocale) : elem := RootLayout [Home l].
End Layout.

(** ** Reading the tree *)

(** The chains of tags from the root to the elements with tag [t]. *)
Fixpoint chains (t : string) (e : elem) : list (list string) :=
  match e with
  | Text _ => []
  | Elem tag _ ch =>
      (if String.eqb tag t then [[tag]] else []) ++ map (cons tag) (flat_map (chains t) ch)
  end.

(** The console runs once, inside its contexts: in either locale, the
    document contains exactly one [ConsoleApp], below the locale and message
    providers of that locale, below the query client and below the error
    boundary, so [useConsoleLocale], [useTranslations] and [useQueryClient]
    find their providers and a rendering error is caught; toasts are shown
    outside of all of them. *)
Lemma app_in_context useTheme sans mono l :
  chains "ConsoleApp" (document useTheme sans mono l) =
    [["html"; "body"; "TooltipPrimitive.Provider"; "LocaleContext.Provider"; "NextIntlClientProvider";
      "QueryClientProvider"; "ConsoleErrorBoundary"; "ConsoleApp"]] /\
  chains "Sonner" (document useTheme sans mono l) = [["html"; "body"; "Sonner"]].
Proof. by destruct l. Qed.

End Page.
