(* ===== verification/Forms.v ===== *)
(** * Form inputs and requests of the console's views

    [Number(text)] as the forms use it, the request shapes the views send,
    and the error callback all their mutations share. *)

From S2P Require Import Prelude JsString JsNumber JsValue Json Uri Prog Http Browser Session ApiClient Types Ui.
From Stdlib Require Import SpecFloat.
Import Web Api.

Module Forms.

(** ** [Number(text)] *)

Definition radix_digit (radix c : N) : option N :=
  let v := (if is_digit c then c - 48
            else if (97 <=? c) && (c <=? 102) then c - 87
            else if (65 <=? c) && (c <=? 70) then c - 55 else 99)%N in
  if (v <? radix)%N then Some v else None.

Fixpoint radix_val (radix : N) (s : jsstring) (acc : N) : option N :=
  match s with
  | [] => Some acc
  | c :: s' => match radix_digit radix c with Some d => radix_val radix s' (acc * radix + d)%N | None => None end
  end.

(** A [0x], [0o] or [0b] literal. *)
Definition radix_literal (s : jsstring) : option num :=
  match s with
  | z :: p :: ds =>
      let radix := (if (p =? 120) || (p =? 88) then 16 else if (p =? 111) || (p =? 79) then 8
                    else if (p =? 98) || (p =? 66) then 2 else 0)%N in
      if ((z =? 48)%N && negb (radix =? 0)%N) then
        Some match ds with
             | [] => S754_nan
             | _ => match radix_val radix ds 0 with Some n => num_of_Z (Z.of_N n) | None => S754_nan end
             end
      else None
  | _ => None
  end.

(** An unsigned decimal literal: digits, a fraction and an exponent. *)
Definition decimal_literal (neg : bool) (s : jsstring) : num :=
  if jseq s (js "Infinity") then S754_infinity neg
  else
    let '(ids, r1) := take_digits s in
    let '(fds, r2) := match r1 with
                      | c :: r => if (c =? 46)%N then take_digits r else ([], r1)
                      | [] => ([], [])
                      end in
    if nonempty (ids ++ fds) then
      match parse_exp r2 with
      | Some (ex, []) => num_of_decimal neg (digits_val (ids ++ fds)) (ex - Z.of_nat (length fds))
      | _ => S754_nan
      end
    else S754_nan.

Definition to_number (text : jsstring) : num :=
  let s := trim text in
  match s with
  | [] => S754_zero false
  | c :: s' =>
      match radix_literal s with
      | Some x => x
      | None =>
          if (c =? 45)%N then decimal_literal true s'
          else if (c =? 43)%N then decimal_literal false s'
          else decimal_literal false s
      end
  end.

(** ** Requests and callbacks *)

(** [{ method }] *)
Definition method_init (method : jsstring) : ApiInit :=
  {| i_method := Some method; i_headers := []; i_body := None; i_auth := None |}.

(** [{ method, body: JSON.stringify(body) }] *)
Definition json_init (method : jsstring) (body : jsval) : ApiInit :=
  {| i_method := Some method; i_headers := []; i_body := json_body body; i_auth := None |}.

(** [onError: (error) => toast.error(error.message)] *)
Definition toast_error (e : thrown) : list effect := [ToastError (error_text e)].

(** [`/api/apps/${id}${rest}`]: the console does not encode path segments. *)
Definition app_path (id rest : jsstring) : jsstring := js "/api/apps/" ++ id ++ rest.

(** [(await apiFetch(path)).field] *)
Definition fetch_field (API_BASE path field : jsstring) : web jsval :=
  response ← apiFetch API_BASE path init_default;
  lift (get response field).

(** [String(v ?? d)] *)
Definition text_or (v : jsval) (d : jsstring) : outcome jsstring := to_string (coalesce v (JStr d)).

(** [if (window.confirm(text)) m.mutate()]: the question, and whether the
    mutation starts. *)
Definition confirm_click (text : jsstring) (answer : bool) : list effect * bool := ([Confirm text], answer).

(** ** Digits *)

Lemma digits_val_app l d : digits_val (l ++ [d]) = (digits_val l * 10 + (d - 48))%N.
Proof. unfold digits_val. by rewrite fold_left_app. Qed.

Lemma digits_go_spec fuel n acc : (n < 10 ^ N.of_nat fuel)%N -> fuel <> 0 ->
  exists ds, digits_go fuel n acc = ds ++ acc /\ forallb is_digit ds = true /\ digits_val ds = n /\ ds <> [].
Proof.
  revert n acc. induction fuel as [|f IH]; intros n acc Hn Hf; [done|]. cbn [digits_go].
  assert (n = 10 * (n / 10) + n mod 10)%N as Hdm by (apply N.div_mod; lia).
  assert (n mod 10 < 10)%N as Hm by (apply N.mod_lt; lia).
  generalize dependent (n mod 10)%N. intros r Hdm Hm. generalize dependent (n / 10)%N. intros q Hdm.
  assert (is_digit (48 + r)%N = true) as Hd.
  { unfold is_digit. apply andb_true_iff. rewrite !N.leb_le. lia. }
  destruct (N.eqb_spec q 0) as [E|E].
  - exists [(48 + r)%N]. split_and!; [done|cbn [forallb]; by rewrite Hd| |done].
    unfold digits_val. cbn [fold_left]. lia.
  - rewrite Nat2N.inj_succ, N.pow_succ_r' in Hn.
    destruct (IH q ((48 + r)%N :: acc)) as (ds & H1 & H2 & H3 & H4); [lia| |].
    + intros ->. cbn in Hn. lia.
    + exists (ds ++ [(48 + r)%N]). split_and!.
      * rewrite H1, <- app_assoc. done.
      * rewrite forallb_app, H2. cbn [forallb]. by rewrite Hd.
      * rewrite digits_val_app, H3. lia.
      * by destruct ds.
Qed.

Lemma digits_of_spec n : forallb is_digit (digits_of n) = true /\ digits_val (digits_of n) = n /\ digits_of n <> [].
Proof.
  unfold digits_of.
  destruct (digits_go_spec (S (N.to_nat (N.log2 n))) n []) as (ds & H1 & H2 & H3 & H4); [|done|].
  - destruct (N.eq_dec n 0%N) as [->|Hn]; [done|].
    apply N.lt_le_trans with (2 ^ N.succ (N.log2 n))%N; [apply N.log2_spec; lia|].
    rewrite Nat2N.inj_succ, N2Nat.id. apply N.pow_le_mono_l. lia.
  - rewrite app_nil_r in H1. rewrite H1. done.
Qed.

Lemma take_digits_all s : forallb is_digit s = true -> take_digits s = (s, []).
Proof. induction s as [|c s IH]; [done|]. simpl. intros [-> H]%andb_prop. by rewrite IH. Qed.

Lemma digit_not_space c : is_digit c = true -> is_space c = false.
Proof.
  unfold is_digit, is_space. rewrite andb_true_iff, !N.leb_le. intros [H1 H2].
  repeat match goal with |- context [(?a <=? ?b)%N] => destruct (N.leb_spec a b); try lia
    | |- context [(?a =? ?b)%N] => destruct (N.eqb_spec a b); try lia end; done.
Qed.

Lemma trim_digits s : forallb is_digit s = true -> trim s = s.
Proof.
  intros H. unfold trim. assert (drop_while is_space s = s) as ->.
  { destruct s as [|c s]; [done|]. simpl in *. apply andb_prop in H as [H _]. by rewrite digit_not_space. }
  apply trim_end_id. intros r c ->. rewrite forallb_app in H. apply andb_prop in H as [_ H]. simpl in H.
  apply andb_prop in H as [H _]. by apply digit_not_space.
Qed.

(** [Number(String(n))] is [n]. *)
Lemma to_number_string n : (0 < n)%Z -> to_number (string_of_Z n) = num_of_Z n.
Proof.
  intros Hn. destruct n as [|p|p]; [lia| |lia]. cbn [string_of_Z].
  destruct (digits_of_spec (N.pos p)) as (Hd & Hv & Hne). set (s := digits_of (N.pos p)) in *.
  unfold to_number. rewrite trim_digits by done. destruct s as [|c s']; [done|].
  assert (is_digit c = true) as Hc by (simpl in Hd; by apply andb_prop in Hd as [? _]).
  assert (radix_literal (c :: s') = None) as ->.
  { destruct s' as [|d s2]; [done|]. unfold radix_literal. simpl in Hd.
    apply andb_prop in Hd as [_ Hd]. apply andb_prop in Hd as [Hd _]. unfold is_digit in Hd.
    rewrite andb_true_iff, !N.leb_le in Hd.
    repeat match goal with |- context [(d =? ?b)%N] => destruct (N.eqb_spec d b); [lia|] end.
    cbn [orb negb N.eqb]. by rewrite andb_false_r. }
  unfold is_digit in Hc. rewrite andb_true_iff, !N.leb_le in Hc.
  destruct (N.eqb_spec c 45); [lia|]. destruct (N.eqb_spec c 43); [lia|].
  unfold decimal_literal. destruct (jseq (c :: s') (js "Infinity")) eqn:Ei.
  { apply jseq_eq in Ei. vm_compute in Ei. injection Ei as -> _. lia. }
  rewrite take_digits_all by done. cbn [app]. rewrite app_nil_r. cbn [nonempty parse_exp length].
  rewrite Hv. unfold num_of_decimal, num_of_Z. cbn [Z.sub Z.of_nat Z.opp Z.add Z.leb Z.compare]. f_equal; try done.
  rewrite Z.pow_0_r. lia.
Qed.

End Forms.
