(* ===== verification/KeysView.v ===== *)
(** * API keys and projects: [views/keys-view.tsx] and [views/apps-view.tsx]

    The two views that manage credentials and projects: their state, their
    mutations with the callbacks, and what they render.  A row's data is the
    JSON the server sent; reading it may throw, as in the source. *)

From S2P Require Import Prelude JsString JsNumber JsValue Json Uri Prog Http Browser Session ApiClient.
From S2P Require Import Types ConsoleUtils Ui Forms.
Import Web Api Utils Forms.

(** ** [KeysView] *)
Module Keys.

(** [visibleKey] is the name and the secret of the key just created. *)
Record KeysState : Type := mkKeys {
  keyType : jsstring;
  name : jsstring;
  visibleKey : option (jsstring * jsval)
}.

Definition keys_mount (tr : translator) : KeysState := mkKeys (js "server") (tr (js "keys") (js "serverKey") []) None.

Section View.
Variable API_BASE : jsstring.
Variable tr : translator.
Variable app : AppSummary.

Definition keysPath : jsstring := app_path (app_id app) (js "/keys").

Definition keysQuery : web jsval := fetch_field API_BASE keysPath (js "app_keys").

Definition createKey (s : KeysState) : web jsval :=
  apiFetch API_BASE keysPath
    (json_init (js "POST") (JObj [(js "name", JStr (name s)); (js "key_type", JStr (keyType s))])).

Definition keysInvalidate : effect := Invalidate [js "keys"; app_id app].

Definition createKey_success (response : jsval) : callback KeysState := fun s =>
  let! key := get response (js "key") in
  Ok (mkKeys (keyType s) (name s) (Some (name s, key)),
      [ToastSuccess (tr (js "keys") (js "created") []); keysInvalidate]).

(** *** [KeyRowActions] *)

Definition keyPath (keyId suffix : jsstring) : jsstring := keysPath ++ js "/" ++ keyId ++ suffix.

Definition revokeKey (keyId : jsstring) : web jsval :=
  apiFetch API_BASE (keyPath keyId []) (method_init (js "DELETE")).

Definition revokeKey_success : callback KeysState := fun s =>
  Ok (s, [ToastSuccess (tr (js "keys") (js "revoked") []); keysInvalidate]).

Definition rotateKey (keyId : jsstring) : web jsval :=
  apiFetch API_BASE (keyPath keyId (js "/rotate")) (method_init (js "POST")).

(** [onKeyRotated] shows the new secret under the row's name. *)
Definition rotateKey_success (rowName : jsstring) (response : jsval) : callback KeysState := fun s =>
  let! key := get response (js "key") in
  Ok (mkKeys (keyType s) (name s) (Some (rowName, key)),
      [ToastSuccess (tr (js "keys") (js "rotated") []); keysInvalidate]).

Inductive keys_action : Type :=
| KName (s : jsstring)
| KType (s : jsstring)
| KCreate
| KCopy
| KRotate (keyId rowName : jsstring)
| KRevoke (keyId rowName : jsstring).

(** [pending id] are the pending states of a row's rotation and revocation. *)
Variable pending : jsstring -> bool * bool.

Definition KeyRowActions (keyId rowName : jsstring) (revoked : bool) : node keys_action :=
  let common k := tr (js "common") k [] in
  div [Button [TextNode (common (js "rotate"))] (revoked || (pending keyId).1) (KRotate keyId rowName);
       Button [TextNode (common (js "revoke"))] (revoked || (pending keyId).2) (KRevoke keyId rowName)].

(** The questions asked before rotating and revoking. *)
Definition rotate_click (rowName : jsstring) (answer : bool) : list effect * bool :=
  confirm_click (tr (js "keys") (js "confirmRotate") [(js "name", JStr rowName)]) answer.

Definition revoke_click (rowName : jsstring) (answer : bool) : list effect * bool :=
  confirm_click (tr (js "keys") (js "confirmRevoke") [(js "name", JStr rowName)]) answer.

(** The copy button of the new key. *)
Definition copy_click (s : KeysState) : outcome (list effect) :=
  match visibleKey s with
  | Some (_, key) => let! text := to_string key in Ok [Copy text]
  | None => Ok []
  end.

(** One row of the table. *)
Definition key_row (key : jsval) : outcome (list (node keys_action)) :=
  let common k := tr (js "common") k [] in
  let field k := get key k in
  let! vname := field (js "name") in
  let! c1 := text_or vname [] in
  let! vtype := field (js "key_type") in
  let! c2 := text_or vtype [] in
  let! vprefix := field (js "key_prefix") in
  let! c3 := text_or vprefix [] in
  let! vused := field (js "last_used_at") in
  let! c4 := text_or vused (common (js "never")) in
  let! vrevoked := field (js "revoked_at") in
  let! vid := field (js "id") in
  let! id := to_string vid in
  let! rowName := to_string (coalesce vname (coalesce vprefix (JStr []))) in
  Ok [TextNode c1; TextNode c2; TextNode c3; TextNode c4;
      TextNode (if truthy vrevoked then common (js "revoked") else common (js "active"));
      KeyRowActions id rowName (truthy vrevoked)].

(** The panel of the new key: its name and a mask. *)
Definition newKeyPanel (visible : jsstring * jsval) : node keys_action :=
  let t k := tr (js "keys") k [] in
  Panel (t (js "newKeyTitle"))
    [div [text_div visible.1; El (js "p") [TextNode (t (js "newKeyHelp"))];
          div [div [El (js "span sr-only") [TextNode (t (js "fullKey"))];
                    El (js "span") [TextNode (js "********************")]];
               Button [TextNode (tr (js "common") (js "copy") [])] false KCopy]]].

Definition KeysView (s : KeysState) (data : option (list jsval)) (isLoading createPending : bool)
  : outcome (node keys_action) :=
  let t k := tr (js "keys") k [] in
  let! rows := map_outcome key_row (default [] data) in
  Ok (Section_ (t (js "title")) (t (js "description")) None
        ([Panel (t (js "create"))
            [div [Field (js "text") (name s) false KName;
                  Choice (keyType s) [(js "client", t (js "client")); (js "server", t (js "server"));
                                      (js "admin", t (js "admin"))] KType;
                  Button [TextNode (tr (js "common") (js "create") [])] createPending KCreate]]] ++
         match visibleKey s with Some v => [newKeyPanel v] | None => [] end ++
         [DataTableView tr [t (js "columnsName"); t (js "columnsType"); t (js "columnsPrefix");
                            t (js "columnsLastUsed"); t (js "columnsStatus"); t (js "columnsActions")]
            rows isLoading (Some (t (js "emptyTitle"))) (Some (t (js "emptyDescription"))) None])).

(** *** Properties *)

(** A new secret is never displayed: what [KeysView] renders does not
    depend on the secret of the visible key at all, only on its name; the
    secret reaches the user through the clipboard alone. *)
Lemma secret_not_rendered kt n n' k1 k2 data isLoading createPending :
  KeysView (mkKeys kt n (Some (n', k1))) data isLoading createPending =
  KeysView (mkKeys kt n (Some (n', k2))) data isLoading createPending.
Proof. reflexivity. Qed.

Lemma flat_map_nil {X Y} (f : X -> list Y) l : Forall (fun x => f x = []) l -> flat_map f l = [].
Proof. induction 1 as [|x l Hx _ IH]; [done|]. simpl. by rewrite Hx. Qed.

(** The actions a row enables. *)
Lemma key_row_enabled key cells a : key_row key = Ok cells -> a ∈ flat_map enabled cells ->
  exists id rowName, (a = KRotate id rowName \/ a = KRevoke id rowName) /\
    to_string (get_opt key (js "id")) = Ok id /\ truthy (get_opt key (js "revoked_at")) = false.
Proof.
  unfold key_row, text_or. intros H.
  destruct key as [| | | | | |l]; try done.
  all: cbn [get res_bind get_opt] in *.
  all: repeat match type of H with res_bind ?x _ = _ => destruct x eqn:?; cbn [res_bind] in H; [|done] end.
  all: apply Ok_inj in H; subst cells; cbn [flat_map enabled Datatypes.app KeyRowActions div].
  all: match goal with |- context [truthy ?v] => destruct (truthy v) eqn:Et end; cbn [orb Datatypes.app];
    [intros []%not_elem_of_nil|].
  all: intros Hin; repeat (case_match; cbn [Datatypes.app] in Hin);
    repeat (apply elem_of_cons in Hin as [Hin|Hin]); try (by apply not_elem_of_nil in Hin); subst a; eauto 10.
Qed.

Lemma key_rows_enabled keys rows a : map_outcome key_row keys = Ok rows -> a ∈ flat_map (flat_map enabled) rows ->
  exists key id rowName, key ∈ keys /\ (a = KRotate id rowName \/ a = KRevoke id rowName) /\
    to_string (get_opt key (js "id")) = Ok id /\ truthy (get_opt key (js "revoked_at")) = false.
Proof.
  intros H Ha. destruct (map_outcome_enabled _ _ _ _ H Ha) as (k & r & Hk & Er & Hin).
  destruct (key_row_enabled k r a Er Hin) as (id & rn & ?). by exists k, id, rn.
Qed.

(** Revoked keys are inert: whatever the server lists, every enabled
    rotate or revoke button of the rendered view belongs to a listed key
    with that id that is not revoked. *)
Lemma revoked_keys_inert s data isLoading createPending n a :
  KeysView s data isLoading createPending = Ok n -> a ∈ enabled n ->
  match a with
  | KRotate id _ | KRevoke id _ =>
      exists keys key, data = Some keys /\ key ∈ keys /\
        to_string (get_opt key (js "id")) = Ok id /\ truthy (get_opt key (js "revoked_at")) = false
  | _ => True
  end.
Proof.
  unfold KeysView. destruct (map_outcome key_row (default [] data)) as [rows|] eqn:Er; [|done]. cbn [res_bind].
  intros <-%Ok_inj Ha.
  assert (match a with KRotate _ _ | KRevoke _ _ => a ∈ flat_map (flat_map enabled) rows | _ => True end) as Hr.
  { destruct a; try done.
    all: rewrite section_enabled, !flat_map_app in Ha.
    all: apply elem_of_app in Ha as [Ha|Ha]; [destruct createPending; cbn in Ha; in_actions Ha|].
    all: apply elem_of_app in Ha as [Ha|Ha]; [destruct (visibleKey s); cbn in Ha; in_actions Ha|].
    all: cbn [flat_map] in Ha; rewrite app_nil_r in Ha; by apply table_enabled in Ha as [_ Ha]. }
  destruct a as [| | | |id rn|id rn]; try done;
    destruct (key_rows_enabled _ _ _ Er Hr) as (key & id' & rn' & Hk & Heq & Hid & Hrev);
    (destruct data as [keys|]; [|by apply not_elem_of_nil in Hk]);
    exists keys, key; destruct Heq as [[= -> ->]|[= -> ->]]; done.
Qed.
End View.

End Keys.

(** ** [AppsView] *)
Module Apps.

Record AppsState : Type := mkApps { a_open : bool; a_name : jsstring; a_displayName : jsstring }.

Definition apps_mount : AppsState := mkApps false [] [].

(** The state of one row's editor. *)
Record RowState : Type := mkRow { r_open : bool; r_displayName : jsstring }.

Definition row_mount (app : AppSummary) : RowState := mkRow false (app_display_name app).

Section View.
Variable API_BASE : jsstring.
Variable tr : translator.

Definition createApp (s : AppsState) : web jsval :=
  apiFetch API_BASE (js "/api/apps")
    (json_init (js "POST") (JObj [(js "name", JStr (a_name s)); (js "display_name", JStr (a_displayName s))])).

Definition createApp_success : callback AppsState := fun _ =>
  Ok (mkApps false [] [], [ToastSuccess (tr (js "apps") (js "created") []); Invalidate [js "apps"]]).

(** *** [AppRowActions] *)

Definition updateApp (app : AppSummary) (s : RowState) : web jsval :=
  apiFetch API_BASE (app_path (app_id app) [])
    (json_init (js "PATCH") (JObj [(js "display_name", JStr (r_displayName s))])).

Definition updateApp_success : callback RowState := fun s =>
  Ok (mkRow false (r_displayName s), [ToastSuccess (tr (js "apps") (js "updated") []); Invalidate [js "apps"]]).

Definition deleteApp (app : AppSummary) : web jsval :=
  apiFetch API_BASE (app_path (app_id app) []) (method_init (js "DELETE")).

Definition deleteApp_success : callback RowState := fun s =>
  Ok (s, [ToastSuccess (tr (js "apps") (js "deleted") []); Invalidate [js "apps"]]).

Definition delete_click (app : AppSummary) (answer : bool) : list effect * bool :=
  confirm_click (tr (js "apps") (js "confirmDelete") [(js "name", JStr (app_display_name app))]) answer.

Inductive apps_action : Type :=
| AOpen (b : bool)
| AName (s : jsstring)
| ADisplayName (s : jsstring)
| ACreate
| ARowOpen (id : jsstring) (b : bool)
| ARowName (id s : jsstring)
| AUpdate (id : jsstring)
| ADelete (id : jsstring).

(** The rows' states and the pending states of their mutations. *)
Variable rows : jsstring -> RowState.
Variable pending : jsstring -> bool * bool.

Definition AppRowActions (app : AppSummary) : node apps_action :=
  let t k := tr (js "apps") k [] in
  let common k := tr (js "common") k [] in
  let id := app_id app in
  let s := rows id in
  div ([Button [TextNode (common (js "edit"))] false (ARowOpen id true)] ++
       (if r_open s then
          [El (js "Dialog")
            [El (js "h2") [TextNode (t (js "editTitle"))]; El (js "p") [TextNode (t (js "editDescription"))];
             div [Field (js "text") (app_name app) true (ARowName id);
                  Field (js "text") (r_displayName s) false (ARowName id)];
             Button [TextNode (common (js "cancel"))] false (ARowOpen id false);
             Button [TextNode (common (js "save"))] (pending id).1 (AUpdate id)]]
        else []) ++
       [Button [TextNode (common (js "delete"))]
          (jseq id (js "default") || (pending id).2) (ADelete id)]).

Definition app_row (app : AppSummary) : list (node apps_action) :=
  [TextNode (displayProjectName app); TextNode (app_name app); TextNode (app_id app);
   TextNode (app_updated_at app); AppRowActions app].

Definition AppsView (s : AppsState) (apps : list AppSummary) (createPending : bool) : node apps_action :=
  let t k := tr (js "apps") k [] in
  let common k := tr (js "common") k [] in
  Section_ (t (js "title")) (t (js "description"))
    (Some (div ([Button [TextNode (common (js "newApp"))] false (AOpen true)] ++
                if a_open s then
                  [El (js "Dialog")
                    [El (js "h2") [TextNode (t (js "createTitle"))];
                     Field (js "text") (a_name s) false AName;
                     Field (js "text") (a_displayName s) false ADisplayName;
                     Button [TextNode (common (js "create"))] createPending ACreate]]
                else [])))
    [DataTableView tr [t (js "columnsDisplay"); t (js "columnsName"); t (js "columnsId"); t (js "columnsUpdated");
                       t (js "columnsActions")]
       (map app_row apps) false (Some (t (js "emptyTitle"))) (Some (t (js "emptyDescription"))) None].

Lemma app_row_enabled app a : a ∈ flat_map enabled (app_row app) ->
  match a with
  | ADelete id => id = app_id app /\ id <> js "default" /\ (pending id).2 = false
  | AUpdate id => id = app_id app /\ r_open (rows id) = true /\ (pending id).1 = false
  | _ => True
  end.
Proof.
  cbn [app_row flat_map enabled Datatypes.app]. rewrite app_nil_r. unfold AppRowActions. cbv zeta.
  cbn [div enabled]. rewrite !flat_map_app. intros Ha. destruct a as [| | | | | |id|id]; try done.
  all: apply elem_of_app in Ha as [Ha|Ha]; [cbn in Ha; in_actions Ha|].
  all: apply elem_of_app in Ha as [Ha|Ha].
  - destruct (r_open (rows (app_id app))) eqn:Eo; [|by apply not_elem_of_nil in Ha].
    destruct (pending (app_id app)).1 eqn:Ep; cbn in Ha; rewrite ?Ep in Ha; cbn in Ha; in_actions Ha.
    injection Ha as ->. done.
  - cbn in Ha. destruct (_ || _); in_actions Ha.
  - destruct (r_open (rows (app_id app))); [|by apply not_elem_of_nil in Ha].
    destruct (pending (app_id app)).1; cbn in Ha; in_actions Ha.
  - cbn [flat_map enabled] in Ha. destruct (_ || _) eqn:E; cbn in Ha; in_actions Ha.
    injection Ha as ->. apply orb_false_elim in E as [E1 E2]. by apply jseq_neq in E1.
Qed.

(** The default project cannot be deleted from the console: every enabled
    delete button of the rendered list belongs to a listed project other
    than [default] whose deletion is not already running, and every enabled
    save button to a project whose editor is open. *)
Lemma default_app_kept s apps createPending a : a ∈ enabled (AppsView s apps createPending) ->
  match a with
  | ADelete id => id <> js "default" /\ (pending id).2 = false /\ exists app, app ∈ apps /\ app_id app = id
  | AUpdate id => r_open (rows id) = true /\ exists app, app ∈ apps /\ app_id app = id
  | _ => True
  end.
Proof.
  unfold AppsView. cbv zeta. intros Ha.
  assert (match a with ADelete _ | AUpdate _ => a ∈ flat_map (flat_map enabled) (map app_row apps) | _ => True end)
    as Hr.
  { cbn [Section_ enabled flat_map opt_node div Datatypes.app] in Ha. rewrite !app_nil_r in Ha.
    destruct a; try done.
    all: apply elem_of_cons in Ha as [Ha|Ha]; [discriminate Ha|].
    all: apply elem_of_app in Ha as [Ha|Ha]; [destruct (a_open s), createPending; cbn in Ha; in_actions Ha|].
    all: by apply table_enabled in Ha as [_ Ha]. }
  destruct a as [| | | | | |id|id]; try done;
    apply elem_of_flat_map in Hr as (row & Hrow & Ha');
    apply list_elem_of_In, in_map_iff in Hrow as (app & <- & Hin); apply list_elem_of_In in Hin;
    apply app_row_enabled in Ha' as (Hid & H1 & H2); split_and!; try done; exists app; done.
Qed.
End View.

End Apps.
