(* ===== verification/DataView.v ===== *)
(** * Data tables and rows: [views/data-view.tsx]

    The table list with its schema editor, and the row list with its JSON
    editor.  Tables and rows are the JSON the server sent. *)

From S2P Require Import Prelude JsString JsNumber JsValue Json Uri Prog Http Browser Session ApiClient.
From S2P Require Import Types ConsoleUtils Ui Forms.
Import Web Api Utils Forms.

Module Data.

Record DataState : Type := mkData { selectedTable : jsstring; tableName : jsstring; newRowJson : jsstring }.

Definition data_mount : DataState :=
  mkData [] (js "notes") (js "{" ++ [10%N] ++ js "  " ++ [34%N] ++ js "title" ++ [34%N] ++ js ": " ++ [34%N] ++
    js "Hello Peanut" ++ [34%N; 10%N] ++ js "}").

(** The state of a table's editor. *)
Record TableEditor : Type := mkEditor {
  te_open : bool;
  loadingDraft : bool;
  te_displayName : jsstring;
  schemaJson : jsstring;
  policyMode : jsval
}.

Definition table_editor_mount (table : jsstring) : TableEditor := mkEditor false false table [] (JStr (js "admin_only")).

(** The state of a row's editor. *)
Record RowEditor : Type := mkRowEditor { re_open : bool; rowJson : jsstring }.

(** [JSON.stringify(v, null, 2)], shown; [undefined] has no text. *)
Definition pretty_json (v : jsval) : jsstring := default [] (json_stringify_gap (js "  ") v).

Definition row_editor_mount (data : jsval) : RowEditor := mkRowEditor false (pretty_json data).

Inductive data_action : Type :=
| DName (s : jsstring)
| DCreateTable
| DSelect (s : jsstring)
| DRowJson (s : jsstring)
| DCreateRow
| DTableOpen (t : jsstring) (b : bool)
| DTableEdit (t : jsstring)
| DTableDisplay (t s : jsstring)
| DTablePolicy (t s : jsstring)
| DTableSchema (t s : jsstring)
| DTableSave (t : jsstring)
| DTableExport (t : jsstring)
| DTableDelete (t : jsstring)
| DRowOpen (id : jsstring) (b : bool)
| DRowEdit (id s : jsstring)
| DRowSave (id : jsstring)
| DRowDelete (id : jsstring).

Section View.
Variable API_BASE : jsstring.
Variable tr : translator.
Variable app : AppSummary.

Definition t (k : jsstring) : jsstring := tr (js "dataView") k [].
Definition common (k : jsstring) : jsstring := tr (js "common") k [].

Definition tablesPath (suffix : jsstring) : jsstring := app_path (app_id app) (js "/data/tables" ++ suffix).
Definition rowsPath (table suffix : jsstring) : jsstring := tablesPath (js "/" ++ table ++ js "/rows" ++ suffix).

Definition tablesQuery : web jsval := fetch_field API_BASE (tablesPath []) (js "tables").

(** [selectedTable || String(tables.data?.[0]?.name ?? "")] *)
Definition activeTable (s : DataState) (tables : option (list jsval)) : outcome jsstring :=
  if nonempty (selectedTable s) then Ok (selectedTable s)
  else match tables with
       | Some (first :: _) => text_or (get_opt first (js "name")) []
       | _ => Ok []
       end.

Definition rowsQuery (active : jsstring) : web jsval := fetch_field API_BASE (rowsPath active []) (js "rows").

Definition tablesInvalidate : effect := Invalidate [js "data"; js "tables"; app_id app].
Definition rowsInvalidate (table : jsstring) : effect := Invalidate [js "data"; js "rows"; app_id app; table].

Definition createTable (s : DataState) : web jsval :=
  apiFetch API_BASE (tablesPath [])
    (json_init (js "POST")
      (JObj [(js "name", JStr (tableName s)); (js "display_name", JStr (tableName s));
             (js "schema", JObj [(js "fields", JObj [(js "title",
                JObj [(js "type", JStr (js "string")); (js "required", JBool true)])])]);
             (js "access_policy", JObj [(js "mode", JStr (js "admin_only"))])])).

Definition createTable_success : callback DataState := fun s =>
  Ok (s, [ToastSuccess (t (js "tableCreated")); tablesInvalidate]).

(** [JSON.parse] runs while the request is built. *)
Definition createRow (active : jsstring) (s : DataState) : web jsval :=
  data ← lift (json_parse (newRowJson s));
  apiFetch API_BASE (rowsPath active []) (json_init (js "POST") (JObj [(js "data", data)])).

Definition createRow_success (active : jsstring) : callback DataState := fun s =>
  Ok (s, [ToastSuccess (t (js "rowCreated")); rowsInvalidate active]).

(** *** [DataTableActions] *)

Definition tablePath (table suffix : jsstring) : jsstring := tablesPath (js "/" ++ table ++ suffix).

(** The editor's fields from the server's answer. *)
Definition table_draft (table : jsstring) (response : jsval) : outcome TableEditor :=
  let! tbl := get response (js "table") in
  let! dn := get tbl (js "display_name") in
  let! displayName := text_or dn table in
  let! schema := get tbl (js "schema") in
  let! policy := get tbl (js "access_policy") in
  Ok (mkEditor true false displayName
        (pretty_json (coalesce schema (JObj [(js "fields", JObj [])])))
        (coalesce (get_opt policy (js "mode")) (JStr (js "admin_only")))).

Definition openEditor (table : jsstring) (s : TableEditor) : web (TableEditor * list effect) :=
  then_else
    (response ← apiFetch API_BASE (tablePath table []) init_default;
     lift (table_draft table response))
    (fun s' => Ret (s', []))
    (fun e => Ret (mkEditor true false (te_displayName s) (schemaJson s) (policyMode s), toast_error e)).

Definition updateTable (table : jsstring) (s : TableEditor) : web jsval :=
  schema ← lift (parseJsonInput (schemaJson s) (common (js "inputJsonInvalid")));
  apiFetch API_BASE (tablePath table [])
    (json_init (js "PATCH")
      (JObj [(js "display_name", JStr (te_displayName s)); (js "schema", schema);
             (js "access_policy", JObj [(js "mode", policyMode s)])])).

Definition updateTable_success : callback TableEditor := fun s =>
  Ok (mkEditor false (loadingDraft s) (te_displayName s) (schemaJson s) (policyMode s),
      [ToastSuccess (t (js "tableUpdated")); tablesInvalidate]).

Definition deleteTable (table : jsstring) : web jsval :=
  apiFetch API_BASE (tablePath table []) (method_init (js "DELETE")).

Definition deleteTable_success : callback TableEditor := fun s =>
  Ok (s, [ToastSuccess (t (js "tableDeleted")); tablesInvalidate]).

Definition exportTable (table : jsstring) : web jsval :=
  apiFetch API_BASE (tablePath table (js "/export")) init_default.

(** The export is downloaded as pretty-printed JSON. *)
Definition exportTable_success (table : jsstring) (payload : jsval) : callback TableEditor := fun s =>
  Ok (s, [Download (pretty_json payload) (table ++ js ".json")]).

Definition delete_table_click (table : jsstring) (answer : bool) : list effect * bool :=
  confirm_click (tr (js "dataView") (js "confirmDeleteTable") [(js "name", JStr table)]) answer.

(** [pending table]: update, export and delete. *)
Definition DataTableActions (s : TableEditor) (pending : bool * bool * bool) (table : jsstring) : node data_action :=
  let '(updating, exporting, deleting) := pending in
  div ([Button [TextNode (common (js "edit"))] false (DTableEdit table)] ++
       (if te_open s then
          [El (js "Dialog")
            [El (js "h2") [TextNode (t (js "editTable"))]; El (js "p") [TextNode table];
             div [Field (js "text") (te_displayName s) false (DTableDisplay table);
                  Choice (match policyMode s with JStr m => m | _ => [] end)
                    [(js "admin_only", js "admin_only"); (js "owner_private", js "owner_private");
                     (js "authenticated_shared_rw", js "authenticated_shared_rw")] (DTablePolicy table);
                  Field (js "textarea") (schemaJson s) false (DTableSchema table)];
             Button [TextNode (common (js "cancel"))] false (DTableOpen table false);
             Button [TextNode (common (js "save"))] (updating || loadingDraft s) (DTableSave table)]]
        else []) ++
       [Button [TextNode (t (js "export"))] exporting (DTableExport table);
        Button [TextNode (common (js "delete"))] deleting (DTableDelete table)]).

(** *** [DataRowActions] *)

Definition rowPath (table rowId : jsstring) : jsstring := rowsPath table (js "/" ++ rowId).

Definition updateRow (table rowId : jsstring) (s : RowEditor) : web jsval :=
  data ← lift (parseJsonInput (rowJson s) (common (js "inputJsonInvalid")));
  apiFetch API_BASE (rowPath table rowId) (json_init (js "PATCH") (JObj [(js "data", data)])).

Definition updateRow_success (table : jsstring) : callback RowEditor := fun s =>
  Ok (mkRowEditor false (rowJson s), [ToastSuccess (t (js "rowUpdated")); rowsInvalidate table]).

Definition deleteRow (table rowId : jsstring) : web jsval :=
  apiFetch API_BASE (rowPath table rowId) (method_init (js "DELETE")).

Definition deleteRow_success (table : jsstring) : callback RowEditor := fun s =>
  Ok (s, [ToastSuccess (t (js "rowDeleted")); rowsInvalidate table]).

Definition delete_row_click (answer : bool) : list effect * bool :=
  confirm_click (t (js "confirmDeleteRow")) answer.

Definition DataRowActions (s : RowEditor) (pending : bool * bool) (rowId : jsstring) : node data_action :=
  div ([Button [TextNode (common (js "edit"))] false (DRowOpen rowId true)] ++
       (if re_open s then
          [El (js "Dialog")
            [El (js "h2") [TextNode (t (js "editRow"))]; El (js "p") [TextNode rowId];
             Field (js "textarea") (rowJson s) false (DRowEdit rowId);
             Button [TextNode (common (js "cancel"))] false (DRowOpen rowId false);
             Button [TextNode (common (js "save"))] pending.1 (DRowSave rowId)]]
        else []) ++
       [Button [TextNode (common (js "delete"))] pending.2 (DRowDelete rowId)]).

(** What happens to a row's component while it is mounted.  The rows are keyed
    by their id, so a reload of the list renders the same component with other
    data; [useState] does not look at its argument again. *)
Inductive row_event : Type :=
| RowData (data : jsval)
| RowOpen (value : bool)
| RowEdit (text : jsstring)
| RowSaved (table : jsstring).

Definition row_step (s : RowEditor) (e : row_event) : RowEditor :=
  match e with
  | RowData _ => s
  | RowOpen value => mkRowEditor value (rowJson s)
  | RowEdit text => mkRowEditor (re_open s) text
  | RowSaved table => match updateRow_success table s with Ok (s', _) => s' | Err _ => s end
  end.


(** *** The view *)

(** [row.data ?? {}] *)
Definition row_data (row : jsval) : jsval := coalesce (get_opt row (js "data")) (JObj []).

(** The states of the rows' components. *)
Variable tableState : jsstring -> TableEditor * (bool * bool * bool).
Variable rowState : jsstring -> RowEditor * (bool * bool).

Definition table_row (table : jsval) : outcome (list (node data_action)) :=
  let! name := get table (js "name") in
  let! display := to_string (coalesce (get_opt table (js "display_name")) name) in
  let! policy := text_or (get_opt table (js "policy_mode")) (js "admin") in
  let! key := to_string name in
  Ok [child_node name; TextNode display; TextNode policy; child_node (get_opt table (js "created_at"));
      DataTableActions (tableState key).1 (tableState key).2 key].

Definition data_row (row : jsval) : outcome (list (node data_action)) :=
  let! vid := get row (js "id") in
  let! id := text_or vid [] in
  let data := row_data row in
  let! created := text_or (get_opt row (js "created_at")) [] in
  let! updated := text_or (get_opt row (js "updated_at")) [] in
  Ok [TextNode id; TextNode (default [] (json_stringify data)); TextNode created; TextNode updated;
      DataRowActions (rowState id).1 (rowState id).2 id].

(** The names offered by the table selector. *)
Definition table_options (tables : list jsval) : list (jsstring * jsstring) :=
  omap (fun x => match get_opt x (js "name") with JStr n => Some (n, n) | _ => None end) tables.

Definition DataView (s : DataState) (tables rows : option (list jsval)) (tablesLoading rowsLoading : bool)
    (createTablePending createRowPending : bool) : outcome (node data_action) :=
  let! active := activeTable s tables in
  let! tableRows := map_outcome table_row (default [] tables) in
  let! dataRows := map_outcome data_row (default [] rows) in
  let has := nonempty active in
  Ok (Section_ (t (js "title")) (t (js "description")) None
    [Panel (t (js "createTable"))
       [div [Field (js "text") (tableName s) false DName;
             Button [TextNode (common (js "create"))] createTablePending DCreateTable]];
     El (js "Tabs")
       [El (js "TabsList") [TextNode (t (js "tables")); TextNode (t (js "rows"))];
        El (js "TabsContent tables")
          [DataTableView tr [t (js "name"); t (js "display"); t (js "policy"); t (js "created"); common (js "actions")]
             tableRows tablesLoading (Some (t (js "emptyTablesTitle"))) (Some (t (js "emptyTablesDescription"))) None];
        El (js "TabsContent rows")
          [Panel (t (js "rowEditor"))
             [div [Choice active (table_options (default [] tables)) DSelect;
                   Field (js "textarea") (newRowJson s) false DRowJson;
                   Button [TextNode (t (js "createRow"))] (negb has || createRowPending) DCreateRow]];
           DataTableView tr [js "ID"; t (js "data"); t (js "created"); t (js "updated"); common (js "actions")]
             dataRows rowsLoading
             (Some (if has then t (js "emptyRowsTitle") else t (js "emptyRowsNoTableTitle")))
             (Some (if has then t (js "emptyRowsDescription") else t (js "emptyRowsNoTableDescription"))) None]]]).

(** *** Properties *)

Lemma pretty_json_parse v msg : json_ok v -> parseJsonInput (pretty_json v) msg = Ok v.
Proof.
  intros H. destruct (parse_stringify (js "  ") v) as (s & Es & Ep); [by vm_compute; repeat constructor|done|].
  unfold pretty_json, parseJsonInput. rewrite Es. change (default [] (Some s)) with s. by rewrite Ep.
Qed.



(** A reload with other data leaves an opened editor at the old data, which
    saving writes back over the newer data. *)
Lemma stale_row_overwrites table rowId row newer : json_ok (row_data row) ->
  updateRow table rowId (foldl row_step (row_editor_mount (row_data row)) [RowData newer; RowOpen true]) =
  apiFetch API_BASE (rowPath table rowId) (json_init (js "PATCH") (JObj [(js "data", row_data row)])).
Proof. intros H. unfold updateRow, row_editor_mount. cbn [foldl row_step rowJson]. by rewrite pretty_json_parse. Qed.

(** Invalid JSON is never sent: with a text that is not JSON in the row or
    schema editor, saving fails with the translated message before any
    request, and the browser is as it was. *)
Lemma invalid_json_not_sent {Σ} server fits (b : browser Σ) table rowId r s e e' :
  json_parse (rowJson r) = Err e -> json_parse (schemaJson s) = Err e' ->
  exec server fits (updateRow table rowId r) b = (b, Err (new_error (common (js "inputJsonInvalid")))) /\
  exec server fits (updateTable table s) b = (b, Err (new_error (common (js "inputJsonInvalid")))).
Proof.
  intros H1 H2. unfold updateRow, updateTable, parseJsonInput. by rewrite H1, H2.
Qed.
End View.

End Data.
