(* ===== verification/StorageView.v ===== *)
(** * Object storage: [views/storage-view.tsx]

    Buckets and their settings, objects and their upload and deletion. *)

From S2P Require Import Prelude JsString JsNumber JsValue Json Uri Prog Http Browser Session ApiClient.
From S2P Require Import Types ConsoleUtils Ui Forms.
From Stdlib Require Import SpecFloat.
Import Web Api Utils Forms.

Module Storage.

Record StorageState : Type := mkStorage {
  selectedBucket : jsstring;
  bucketName : jsstring;
  objectKey : jsstring;
  objectBody : jsstring;
  contentType : jsstring
}.

Definition storage_mount : StorageState :=
  mkStorage [] (js "assets") (js "hello.txt") (js "Hello Peanut") (js "text/plain").

(** The settings form of a bucket. *)
Record BucketForm : Type := mkBucketForm {
  bf_open : bool;
  publicRead : jsstring;
  clientUploads : jsstring;
  maxBytes : jsstring;
  mimeTypes : jsstring
}.

Definition bool_text (b : bool) : jsstring := if b then js "true" else js "false".

(** A limit that is set: not [null], not [undefined], not zero. *)
Definition limit_of (bucket : StorageBucket) : option Z :=
  match sb_max_object_bytes bucket with
  | Some z => if (z =? 0)%Z then None else Some z
  | None => None
  end.

Definition bucket_form_mount (bucket : StorageBucket) : BucketForm :=
  mkBucketForm false (bool_text (sb_public_read bucket))
    (bool_text (default false (sb_allow_client_uploads bucket)))
    (match limit_of bucket with Some z => string_of_Z z | None => [] end)
    (join (js ", ") (storageMimeTypes bucket)).

Inductive storage_action : Type :=
| SName (s : jsstring)
| SCreateBucket
| SSelect (s : jsstring)
| SKey (s : jsstring)
| SContentType (s : jsstring)
| SBody (s : jsstring)
| SUpload
| SBucketOpen (b : jsstring) (o : bool)
| SPublicRead (b s : jsstring)
| SClientUploads (b s : jsstring)
| SMaxBytes (b s : jsstring)
| SMimeTypes (b s : jsstring)
| SBucketSave (b : jsstring)
| SBucketDelete (b : jsstring)
| SObjectDelete (bucket key : jsstring).

Section View.
Variable API_BASE : jsstring.
Variable tr : translator.
Variable app : AppSummary.

Definition t (k : jsstring) : jsstring := tr (js "storageView") k [].
Definition common (k : jsstring) : jsstring := tr (js "common") k [].

Definition bucketsPath (suffix : jsstring) : jsstring := app_path (app_id app) (js "/storage/buckets" ++ suffix).
Definition bucketPath (bucket suffix : jsstring) : jsstring := bucketsPath (js "/" ++ bucket ++ suffix).
Definition objectPath (bucket key : jsstring) : jsstring := bucketPath bucket (js "/objects/" ++ key).

Definition bucketsQuery : web jsval := fetch_field API_BASE (bucketsPath []) (js "buckets").

(** [selectedBucket || buckets.data?.[0]?.name || ""] *)
Definition activeBucket (s : StorageState) (buckets : option (list StorageBucket)) : jsstring :=
  if nonempty (selectedBucket s) then selectedBucket s
  else match buckets with Some (b :: _) => sb_name b | _ => [] end.

Definition objectsQuery (active : jsstring) : web jsval :=
  fetch_field API_BASE (bucketPath active (js "/objects")) (js "objects").

Definition bucketsInvalidate : effect := Invalidate [js "storage"; js "buckets"; app_id app].
Definition objectsInvalidate (bucket : jsstring) : effect :=
  Invalidate [js "storage"; js "objects"; app_id app; bucket].

Definition createBucket (s : StorageState) : web jsval :=
  apiFetch API_BASE (bucketsPath [])
    (json_init (js "POST")
      (JObj [(js "name", JStr (bucketName s)); (js "public_read", JBool false);
             (js "allow_client_uploads", JBool false); (js "max_object_bytes", JNull);
             (js "allowed_mime_types", JArr [])])).

Definition createBucket_success : callback StorageState := fun s =>
  Ok (s, [ToastSuccess (t (js "bucketCreated")); bucketsInvalidate]).

Definition uploadObject (active : jsstring) (s : StorageState) : web jsval :=
  apiFetch API_BASE (objectPath active (objectKey s))
    {| i_method := Some (js "PUT");
       i_headers := [(js "Content-Type", if nonempty (contentType s) then contentType s else js "text/plain")];
       i_body := Some (BText (objectBody s)); i_auth := None |}.

Definition uploadObject_success (active : jsstring) : callback StorageState := fun s =>
  Ok (s, [ToastSuccess (t (js "objectUploaded")); objectsInvalidate active]).

(** *** [BucketActions] *)

(** [maxBytes.trim() ? Number(maxBytes) : null] *)
Definition max_bytes_value (text : jsstring) : jsval :=
  if nonempty (trim text) then JNum (to_number text) else JNull.

(** [mimeTypes.split(",").map(trim).filter(Boolean)] *)
Definition mime_list (text : jsstring) : list jsstring :=
  List.filter nonempty (map trim (split [cu_comma] text)).

(** The settings a form sends. *)
Definition bucket_settings (f : BucketForm) : jsval :=
  JObj [(js "public_read", JBool (jseq (publicRead f) (js "true")));
        (js "allow_client_uploads", JBool (jseq (clientUploads f) (js "true")));
        (js "max_object_bytes", max_bytes_value (maxBytes f));
        (js "allowed_mime_types", JArr (map JStr (mime_list (mimeTypes f))))].

Definition updateBucket (bucket : StorageBucket) (f : BucketForm) : web jsval :=
  apiFetch API_BASE (bucketPath (sb_name bucket) []) (json_init (js "PATCH") (bucket_settings f)).

Definition updateBucket_success : callback BucketForm := fun f =>
  Ok (mkBucketForm false (publicRead f) (clientUploads f) (maxBytes f) (mimeTypes f),
      [ToastSuccess (t (js "bucketUpdated")); bucketsInvalidate]).

Definition deleteBucket (bucket : StorageBucket) : web jsval :=
  apiFetch API_BASE (bucketPath (sb_name bucket) []) (method_init (js "DELETE")).

Definition deleteBucket_success : callback BucketForm := fun f =>
  Ok (f, [ToastSuccess (t (js "bucketDeleted")); bucketsInvalidate]).

Definition delete_bucket_click (bucket : StorageBucket) (answer : bool) : list effect * bool :=
  confirm_click (tr (js "storageView") (js "confirmDeleteBucket") [(js "name", JStr (sb_name bucket))]) answer.

Definition BucketActions (f : BucketForm) (pending : bool * bool) (bucket : StorageBucket) : node storage_action :=
  let b := sb_name bucket in
  let yes_no k := [(js "false", k ++ js ": " ++ common (js "no")); (js "true", k ++ js ": " ++ common (js "yes"))] in
  div ([Button [TextNode (common (js "edit"))] false (SBucketOpen b true)] ++
       (if bf_open f then
          [El (js "Dialog")
            [El (js "h2") [TextNode (t (js "editBucket"))]; El (js "p") [TextNode b];
             div [Choice (publicRead f) (yes_no (t (js "publicRead"))) (SPublicRead b);
                  Choice (clientUploads f) (yes_no (t (js "clientUploads"))) (SClientUploads b);
                  Field (js "text") (maxBytes f) false (SMaxBytes b);
                  Field (js "text") (mimeTypes f) false (SMimeTypes b)];
             Button [TextNode (common (js "cancel"))] false (SBucketOpen b false);
             Button [TextNode (common (js "save"))] pending.1 (SBucketSave b)]]
        else []) ++
       [Button [TextNode (common (js "delete"))] pending.2 (SBucketDelete b)]).

(** *** [ObjectActions] *)

Definition deleteObject (bucket key : jsstring) : web jsval :=
  apiFetch API_BASE (objectPath bucket key) (method_init (js "DELETE")).

Definition deleteObject_success (bucket : jsstring) : callback unit := fun s =>
  Ok (s, [ToastSuccess (t (js "objectDeleted")); objectsInvalidate bucket]).

Definition delete_object_click (key : jsstring) (answer : bool) : list effect * bool :=
  confirm_click (tr (js "storageView") (js "confirmDeleteObject") [(js "key", JStr key)]) answer.

Definition ObjectActions (deleting : bool) (bucket key : jsstring) : node storage_action :=
  Button [TextNode (common (js "delete"))] deleting (SObjectDelete bucket key).

(** *** The view *)

Variable bucketState : jsstring -> BucketForm * (bool * bool).
Variable objectPending : jsstring -> bool.

Definition bucket_row (bucket : StorageBucket) : list (node storage_action) :=
  let yes b := TextNode (if b : bool then common (js "yes") else common (js "no")) in
  [TextNode (sb_name bucket); yes (sb_public_read bucket); yes (default false (sb_allow_client_uploads bucket));
   TextNode (match limit_of bucket with Some z => formatBytes z | None => common (js "no") end);
   TextNode (sb_updated_at bucket);
   BucketActions (bucketState (sb_name bucket)).1 (bucketState (sb_name bucket)).2 bucket].

Definition object_row (active : jsstring) (o : SdkStorageObjectSummary) : list (node storage_action) :=
  [TextNode (so_key o); TextNode (string_of_Z (so_size o)); TextNode (default [] (so_content_type o));
   TextNode (so_updated_at o); ObjectActions (objectPending (so_key o)) active (so_key o)].

Definition StorageView (s : StorageState) (buckets : option (list StorageBucket))
    (objects : option (list SdkStorageObjectSummary)) (bucketsLoading objectsLoading : bool)
    (createPending uploadPending : bool) : node storage_action :=
  let active := activeBucket s buckets in
  let has := nonempty active in
  Section_ (t (js "title")) (t (js "description")) None
    [Panel (t (js "createBucket"))
       [div [Field (js "text") (bucketName s) false SName;
             Button [TextNode (common (js "create"))] createPending SCreateBucket]];
     El (js "Tabs")
       [El (js "TabsList") [TextNode (t (js "buckets")); TextNode (t (js "objects"))];
        El (js "TabsContent buckets")
          [DataTableView tr [t (js "name"); t (js "publicRead"); t (js "clientUploads"); t (js "maxBytes");
                             t (js "updated"); t (js "columnsActions")]
             (map bucket_row (default [] buckets)) bucketsLoading
             (Some (t (js "emptyBucketsTitle"))) (Some (t (js "emptyBucketsDescription"))) None];
        El (js "TabsContent objects")
          [Panel (t (js "overwriteObject"))
             [div [Choice active (map (fun b => (sb_name b, sb_name b)) (default [] buckets)) SSelect;
                   Field (js "text") (objectKey s) false SKey;
                   Field (js "text") (contentType s) false SContentType;
                   Field (js "text") (objectBody s) false SBody;
                   Button [TextNode (common (js "upload"))] (negb has || uploadPending) SUpload]];
           DataTableView tr [t (js "key"); t (js "size"); t (js "contentType"); t (js "updated"); t (js "columnsActions")]
             (map (object_row active) (default [] objects)) objectsLoading
             (Some (if has then t (js "emptyObjectsTitle") else t (js "emptyObjectsNoBucketTitle")))
             (Some (if has then t (js "emptyObjectsDescription") else t (js "emptyObjectsNoBucketDescription"))) None]]].

(** *** Properties *)

(** A type name the form can carry: not empty, trimmed, without comma. *)
Definition mime_ok (m : jsstring) : Prop := nonempty m = true /\ trim m = m /\ (cu_comma ∉ m).

Lemma trim_space m : trim (32%N :: m) = trim m.
Proof. done. Qed.

Lemma split_join_types l : Forall mime_ok l -> l <> [] ->
  map trim (split [cu_comma] (join (js ", ") l)) = l.
Proof.
  intros H Hne. destruct H as [|m l Hm Hl]; [done|]. clear Hne.
  enough (forall p, (cu_comma ∉ p) -> trim p = m ->
    map trim (split [cu_comma] (join (js ", ") (p :: l))) = m :: l) as He.
  { destruct Hm as (_ & Ht & Hc). by apply He. }
  clear Hm. revert m. induction Hl as [|m2 l Hm2 Hl IH]; intros m p Hp Ht.
  - cbn [join]. rewrite split_char_none by done. simpl. by rewrite Ht.
  - rewrite join_cons. change (js ", ") with [cu_comma; 32%N] at 1. cbn [Datatypes.app].
    rewrite split_char_app by done. cbn [map]. rewrite Ht. f_equal.
    destruct Hm2 as (_ & Ht2 & Hc2).
    assert (32%N :: join (js ", ") (m2 :: l) = join (js ", ") ((32%N :: m2) :: l)) as -> by (by destruct l).
    apply IH; [|by rewrite trim_space]. intros [?|?]%elem_of_cons; done.
Qed.

Lemma mime_list_join l : Forall mime_ok l -> mime_list (join (js ", ") l) = l.
Proof.
  intros H. unfold mime_list. destruct (decide (l = [])) as [->|Hne]; [done|].
  rewrite split_join_types by done. clear Hne. induction H as [|m l (Hm & _) _ IH]; [done|].
  simpl. by rewrite Hm, IH.
Qed.

(** The bucket form is faithful: saving a bucket's settings unedited sends
    exactly its current flags, its limit (a positive byte count, or none)
    and its list of content types, provided the types are trimmed, not
    empty and free of commas. *)
Lemma bucket_form_faithful bucket :
  Forall mime_ok (storageMimeTypes bucket) ->
  match sb_max_object_bytes bucket with Some z => (0 <= z)%Z | None => True end ->
  bucket_settings (bucket_form_mount bucket) =
  JObj [(js "public_read", JBool (sb_public_read bucket));
        (js "allow_client_uploads", JBool (default false (sb_allow_client_uploads bucket)));
        (js "max_object_bytes", match limit_of bucket with Some z => JNum (num_of_Z z) | None => JNull end);
        (js "allowed_mime_types", JArr (map JStr (storageMimeTypes bucket)))].
Proof.
  intros Hm Hz. unfold bucket_settings, bucket_form_mount. cbn [publicRead clientUploads maxBytes mimeTypes].
  rewrite mime_list_join by done.
  assert (forall b, jseq (bool_text b) (js "true") = b) as Hb by (by intros []).
  rewrite !Hb. do 4 f_equal. unfold max_bytes_value, limit_of in *.
  destruct (sb_max_object_bytes bucket) as [z|]; [|done]. destruct (Z.eqb_spec z 0); [done|].
  assert (0 < z)%Z as Hpos by lia. rewrite to_number_string by done.
  destruct z as [|p|p]; [lia| |lia]. cbn [string_of_Z].
  destruct (digits_of_spec (N.pos p)) as (Hd & _ & Hne). rewrite trim_digits by done.
  by destruct (digits_of (N.pos p)).
Qed.

(** A mistyped limit removes the limit: when the text of the maximum size
    is not a number (say [10MB]), the request is the very one an empty field
    sends, with [max_object_bytes] null, instead of an error. *)
Lemma mistyped_limit_removed bucket f :
  to_number (maxBytes f) = S754_nan ->
  updateBucket bucket f =
  updateBucket bucket (mkBucketForm (bf_open f) (publicRead f) (clientUploads f) [] (mimeTypes f)).
Proof.
  intros Hn. unfold updateBucket. f_equal. unfold json_init. f_equal. unfold json_body. f_equal.
  unfold json_stringify, json_stringify_gap, bucket_settings. cbn [maxBytes publicRead clientUploads mimeTypes].
  assert (max_bytes_value (maxBytes f) = JNum S754_nan) as ->.
  { unfold max_bytes_value. rewrite Hn. destruct (nonempty (trim (maxBytes f))) eqn:E; [done|].
    unfold to_number in Hn. by destruct (trim (maxBytes f)). }
  done.
Qed.

(** The part of an address before its query or fragment: what the server
    uses as the path. *)
Fixpoint address_path (url : jsstring) : jsstring :=
  match url with
  | [] => []
  | c :: rest => if ((c =? cu_question) || (c =? cu_hash))%N then [] else c :: address_path rest
  end.

Lemma address_path_cut u c rest : (c = cu_question \/ c = cu_hash) ->
  address_path (u ++ c :: rest) = address_path u.
Proof.
  intros Hc. induction u as [|d u IH]; cbn [Datatypes.app address_path].
  - destruct Hc as [->| ->]; done.
  - destruct (_ || _); [done|]. by rewrite IH.
Qed.

(** C17: Deleting an object whose key contains [?] or [#] (keys the SDK can
    create) asks for the deletion of another object: the console does not
    encode keys, so what it sends first is a [DELETE] with the path, the
    headers and the body of the request that deletes the object named by the
    part of the key before that character, whenever that request can be built. *)
Theorem deleteObject_wrong_target {Σ} server fits (b b' : browser Σ) o bucket key c rest q :
  (c = cu_question \/ c = cu_hash) ->
  prepared API_BASE (objectPath bucket key) (method_init (js "DELETE")) b = Ok q ->
  exec server fits (deleteObject bucket (key ++ c :: rest)) b = (b', o) ->
  exists url l, b_sent b' = b_sent b ++ (url, q.2) :: l /\ ri_method q.2 = Some (js "DELETE") /\
    address_path url = address_path q.1 /\ q.1 = API_BASE ++ objectPath bucket key.
Proof.
  intros Hc Hq H. unfold deleteObject in H. pose proof (prepared_url _ _ _ _ _ Hq) as [Hu Hm].
  apply (prepared_other _ _ (objectPath bucket (key ++ c :: rest))) in Hq.
  destruct (apiFetch_first _ _ _ _ _ _ _ _ _ Hq H) as [l Hl].
  eexists _, l. split_and!; [done..| |done]. rewrite Hu.
  assert (forall k, API_BASE ++ objectPath bucket k = (API_BASE ++ objectPath bucket []) ++ k) as Hk.
  { intros k. unfold objectPath, bucketPath, bucketsPath, app_path. by rewrite <- !app_assoc. }
  rewrite (Hk (key ++ c :: rest)), (Hk key), app_assoc. by apply address_path_cut.
Qed.
End View.

End Storage.
