(* ===== verification/FunctionsView.v ===== *)
(** * Serverless functions: [views/functions-view.tsx] and [views/functions/*.tsx]

    The workbench that edits, tests and deploys functions: the draft in the
    editor, the selected function, the mutations with their callbacks, and the
    panels.  Responses have the types the source declares for them.  Drafts
    are loaded asynchronously; [fn_step] is the interleaving of selections and
    of arriving drafts. *)

From S2P Require Import Prelude JsString JsNumber JsValue Json Uri Prog Http Browser Session ApiClient.
From S2P Require Import Types ConsoleUtils Ui Forms.
Import Web Api Utils Forms.

Module Functions.

(** The editor's fields. *)
Record Draft : Type := mkDraft {
  d_name : jsstring;
  d_displayName : jsstring;
  d_endpointSlug : jsstring;
  d_runtime : jsstring;
  d_invokePolicy : jsstring;
  d_enabled : jsstring;
  d_timeoutMs : jsstring;
  d_sourceCode : jsstring
}.

Record FunctionsState : Type := mkFns {
  selectedName : jsstring;
  draft : Draft;
  requestMethod : jsstring;
  queryJson : jsstring;
  inputJson : jsstring;
  output : option jsval
}.

Definition sample_code : jsstring :=
  js "export default function handler(ctx) {" ++ [cu_nl] ++
  js "  return { ok: true, input: ctx.request.input }" ++ [cu_nl] ++ js "}" ++ [cu_nl].

Definition draft0 : Draft :=
  mkDraft (js "hello_console") (js "Hello Console") (js "hello-console") (js "javascript") (js "authenticated")
    (js "true") (js "3000") sample_code.

(** The default test payload, [JSON.stringify]-like text of the sample. *)
Definition sample_input : jsstring :=
  default [] (json_stringify_gap (js "  ")
    (JObj [(js "input", JObj [(js "message", JStr (js "Hello Peanut"))])])).

Definition functions_mount : FunctionsState :=
  mkFns [] draft0 (js "POST") (js "{" ++ [cu_nl] ++ js "}") sample_input None.

Definition with_selected (n : jsstring) (s : FunctionsState) : FunctionsState :=
  mkFns n (draft s) (requestMethod s) (queryJson s) (inputJson s) (output s).
Definition with_draft (d : Draft) (s : FunctionsState) : FunctionsState :=
  mkFns (selectedName s) d (requestMethod s) (queryJson s) (inputJson s) (output s).
Definition with_output (v : jsval) (s : FunctionsState) : FunctionsState :=
  mkFns (selectedName s) (draft s) (requestMethod s) (queryJson s) (inputJson s) (Some v).

Definition bool_text (b : bool) : jsstring := if b then js "true" else js "false".

Definition applyFunctionDraft (fn : FunctionDetail) : Draft :=
  let m := fd_summary fn in
  mkDraft (fs_name m) (fs_display_name m) (fs_endpoint_slug m) (fs_runtime m) (fs_invoke_policy m)
    (bool_text (fs_enabled m)) (string_of_Z (fs_timeout_ms m)) (fd_source_code fn).

(** [metrics.data?.functions.enabled ?? true] *)
Definition runtimeEnabled (metrics : option OpsMetrics) : bool :=
  match metrics with Some m => mf_enabled (om_functions m) | None => true end.

(** [selectedName || functions.data?.[0]?.name || ""] *)
Definition activeName (s : FunctionsState) (functions : option (list FunctionSummary)) : jsstring :=
  if nonempty (selectedName s) then selectedName s
  else match functions with Some (f :: _) => fs_name f | _ => [] end.

Inductive fn_action : Type :=
| FSelect (name : jsstring)
| FApplyCached
| FEdit (d : Draft)
| FCopyEndpoint
| FCreate
| FUpdate
| FLint
| FDryRun
| FInvoke
| FDelete
| FMethod (m : jsstring)
| FQuery (s : jsstring)
| FInput (s : jsstring)
| FRollback (version : Z)
| FRetry (invocation : jsstring).

Section View.
Variable API_BASE : jsstring.
Variable tr : translator.
Variable app : AppSummary.

Definition t (k : jsstring) : jsstring := tr (js "functionsView") k [].
Definition common (k : jsstring) : jsstring := tr (js "common") k [].

Definition functionsPath (suffix : jsstring) : jsstring := app_path (app_id app) (js "/functions" ++ suffix).
Definition functionPath (name suffix : jsstring) : jsstring := functionsPath (js "/" ++ name ++ suffix).
Definition endpointPath (slug query : jsstring) : jsstring :=
  app_path (app_id app) (js "/function-endpoints/" ++ slug ++ (if nonempty query then js "?" ++ query else [])).

(** ** Queries *)

Definition metricsQuery : web jsval := apiFetch API_BASE (js "/api/admin/ops/metrics") init_default.

Definition functionsQuery : web jsval := fetch_field API_BASE (functionsPath []) (js "functions").

Definition detailQuery (active : jsstring) : web jsval :=
  fetch_field API_BASE (functionPath active []) (js "function").

Definition versionsQuery (active : jsstring) : web jsval :=
  fetch_field API_BASE (functionPath active (js "/versions")) (js "versions").

Definition invocationsQuery (active : jsstring) : web jsval :=
  fetch_field API_BASE (functionPath active (js "/invocations")) (js "invocations").

(** [enabled: runtimeEnabled && Boolean(activeName)] *)
Definition detail_enabled (metrics : option OpsMetrics) (active : jsstring) : bool :=
  runtimeEnabled metrics && nonempty active.

(** [loadFunctionDraft]: the request; the draft is applied when it arrives. *)
Definition loadFunctionDraft (name : jsstring) : web jsval :=
  fetch_field API_BASE (functionPath name []) (js "function").

(** The address shown for the endpoint. *)
Definition endpointUrl (browserOrigin : jsstring) (s : FunctionsState) : jsstring :=
  let slug := d_endpointSlug (draft s) in
  let path := endpointPath (if nonempty slug then slug else js "{endpoint-slug}") (safeBuildQueryString (queryJson s)) in
  if nonempty browserOrigin then browserOrigin ++ path else path.

(** ** Mutations *)

(** The fields [updateFunction] sends; [createFunction] sends the name too. *)
Definition update_members (d : Draft) : list (jsstring * jsval) :=
  [(js "display_name", JStr (d_displayName d)); (js "endpoint_slug", JStr (d_endpointSlug d));
   (js "runtime", JStr (d_runtime d)); (js "source_code", JStr (d_sourceCode d));
   (js "invoke_policy", JStr (d_invokePolicy d)); (js "timeout_ms", JNum (to_number (d_timeoutMs d)));
   (js "enabled", JBool (jseq (d_enabled d) (js "true")))].

Definition functionPayload (d : Draft) : jsval := JObj ((js "name", JStr (d_name d)) :: update_members d).

Definition functionsInvalidate : effect := Invalidate [js "functions"; app_id app].
Definition partInvalidate (part active : jsstring) : effect :=
  Invalidate [js "functions"; part; app_id app; active].

Definition createFunction (s : FunctionsState) : web jsval :=
  apiFetch API_BASE (functionsPath []) (json_init (js "POST") (functionPayload (draft s))).

Definition createFunction_success (fn : FunctionDetail) : callback FunctionsState := fun s =>
  Ok (with_draft (applyFunctionDraft fn) (with_selected (fs_name (fd_summary fn)) s),
      [ToastSuccess (t (js "functionCreated")); functionsInvalidate]).

Definition updateFunction (active : jsstring) (s : FunctionsState) : web jsval :=
  apiFetch API_BASE (functionPath active []) (json_init (js "PATCH") (JObj (update_members (draft s)))).

Definition updateFunction_success (active : jsstring) (fn : FunctionDetail) : callback FunctionsState := fun s =>
  Ok (with_draft (applyFunctionDraft fn) (with_selected (fs_name (fd_summary fn)) s),
      [ToastSuccess (t (js "functionSaved")); functionsInvalidate;
       partInvalidate (js "detail") active; partInvalidate (js "versions") active]).

Definition deleteFunction (active : jsstring) : web jsval :=
  apiFetch API_BASE (functionPath active []) (method_init (js "DELETE")).

Definition deleteFunction_success : callback FunctionsState := fun s =>
  Ok (with_selected [] s, [ToastSuccess (t (js "functionDeleted")); functionsInvalidate]).

Definition delete_click (active : jsstring) (answer : bool) : list effect * bool :=
  confirm_click (tr (js "functionsView") (js "confirmDeleteFunction") [(js "name", JStr active)]) answer.

(** [name || activeName || "editor"] *)
Definition editor_name (active : jsstring) (d : Draft) : jsstring :=
  if nonempty (d_name d) then d_name d else if nonempty active then active else js "editor".

Definition lintFunction (active : jsstring) (s : FunctionsState) : web jsval :=
  let d := draft s in
  apiFetch API_BASE (functionsPath (js "/editor/lint"))
    (json_init (js "POST")
      (JObj [(js "runtime", JStr (d_runtime d)); (js "source_code", JStr (d_sourceCode d));
             (js "function_name", JStr (editor_name active d)); (js "timeout_ms", JNum (to_number (d_timeoutMs d)))])).

Definition lintFunction_success (response : jsval) : callback FunctionsState := fun s =>
  Ok (with_output response s, [ToastSuccess (t (js "lintFinished"))]).

Definition dryRunFunction (active : jsstring) (s : FunctionsState) : web jsval :=
  let d := draft s in
  testPayload ← lift (parseFunctionTestPayload (inputJson s) (common (js "inputJsonInvalid")));
  query ← lift (parseJsonInput (queryJson s) (common (js "inputJsonInvalid")));
  apiFetch API_BASE (functionsPath (js "/editor/dry-run"))
    (json_init (js "POST")
      (JObj [(js "runtime", JStr (d_runtime d)); (js "source_code", JStr (d_sourceCode d));
             (js "function_name", JStr (editor_name active d)); (js "method", JStr (requestMethod s));
             (js "input", tp_input testPayload); (js "query", query); (js "body", requestBody testPayload);
             (js "timeout_ms", JNum (to_number (d_timeoutMs d)))])).

Definition dryRunFunction_success (response : jsval) : callback FunctionsState := fun s =>
  Ok (with_output response s, [ToastSuccess (t (js "dryRunFinished"))]).

(** [requestMethod === "GET" || requestMethod === "HEAD" ? undefined : ...] *)
Definition bodyless (method : jsstring) : bool := jseq method (js "GET") || jseq method (js "HEAD").

Definition invokeFunction (s : FunctionsState) : web jsval :=
  testPayload ← lift (parseFunctionTestPayload (inputJson s) (common (js "inputJsonInvalid")));
  query ← lift (buildQueryString (queryJson s) (common (js "inputJsonInvalid")));
  apiFetch API_BASE (endpointPath (d_endpointSlug (draft s)) query)
    {| i_method := Some (requestMethod s); i_headers := [];
       i_body := if bodyless (requestMethod s) then None else json_body (requestBody testPayload);
       i_auth := None |}.

Definition invokeFunction_success (active : jsstring) (response : jsval) : callback FunctionsState := fun s =>
  Ok (with_output response s, [partInvalidate (js "invocations") active; ToastSuccess (t (js "invocationRecorded"))]).

Definition rollbackVersion (active : jsstring) (version : Z) : web jsval :=
  apiFetch API_BASE (functionPath active (js "/versions/" ++ string_of_Z version ++ js "/rollback"))
    (method_init (js "POST")).

Definition rollbackVersion_success (active : jsstring) : callback FunctionsState := fun s =>
  Ok (s, [ToastSuccess (t (js "versionRestored")); functionsInvalidate;
          partInvalidate (js "detail") active; partInvalidate (js "versions") active]).

Definition retryInvocation (active invocation : jsstring) : web jsval :=
  apiFetch API_BASE (functionPath active (js "/invocations/" ++ invocation ++ js "/retry"))
    (method_init (js "POST")).

Definition retryInvocation_success (active : jsstring) (response : jsval) : callback FunctionsState := fun s =>
  Ok (with_output response s, [partInvalidate (js "invocations") active; ToastSuccess (t (js "invocationRetried"))]).

(** ** Panels *)

Definition function_card (fn : FunctionSummary) : node fn_action :=
  Button
    [div [El (js "span") [TextNode (if nonempty (fs_display_name fn) then fs_display_name fn else fs_name fn)];
          El (js "Badge " ++ if fs_enabled fn then js "default" else js "secondary")
            [TextNode (js "v" ++ string_of_Z (fs_active_version_number fn))]];
     text_div (js "/" ++ fs_endpoint_slug fn)]
    false (FSelect (fs_name fn)).

Definition FunctionListPanel (runtimeOn : bool) (functions : option (list FunctionSummary)) (loading : bool)
    (active : jsstring) (detail : option FunctionDetail) : node fn_action :=
  let fns := default [] functions in
  Panel (t (js "functions"))
    [div [Choice active (map (fun f => (fs_name f, fs_name f)) fns) FSelect;
          Button [TextNode (t (js "loadDraft"))]
            (negb runtimeOn || match detail with Some _ => false | None => true end) FApplyCached;
          El (js "p") [TextNode (t (js "leftRailHint"))];
          if negb runtimeOn
          then EmptyState (t (js "runtimeDisabledEmptyTitle")) (t (js "runtimeDisabledEmptyDescription")) None
          else if loading then Skeleton
          else match fns with
               | [] => EmptyState (t (js "emptyFunctionsTitle")) (t (js "emptyFunctionsDescription")) None
               | _ => div (map function_card fns)
               end]].

(** The pending states of the mutations, in the order of the buttons. *)
Record Pending : Type := {
  createPending : bool; updatePending : bool; lintPending : bool; dryRunPending : bool;
  invokePending : bool; deletePending : bool; rollbackPending : bool; retryPending : bool
}.

Definition FunctionWorkspacePanels (runtimeOn : bool) (active url : jsstring) (d : Draft) (p : Pending)
  : node fn_action :=
  let on := jseq (d_enabled d) (js "true") in
  let text f := Field (js "text") f false in
  div
    [Panel (t (js "endpoint"))
       [div [div [div [El (js "Badge " ++ if on then js "default" else js "secondary")
                         [TextNode (if on then t (js "enabled") else t (js "disabled"))];
                       El (js "span") [TextNode (t (js "endpointHelp"))]];
                  text_div url];
             Button [TextNode (t (js "copyEndpoint"))] (negb runtimeOn) FCopyEndpoint]];
     Panel (t (js "editor"))
       [div [div [div
           [FunctionField (t (js "name")) (t (js "nameHelp"))
              [text (d_name d) (fun v => FEdit (mkDraft v (d_displayName d) (d_endpointSlug d) (d_runtime d)
                 (d_invokePolicy d) (d_enabled d) (d_timeoutMs d) (d_sourceCode d)))];
            FunctionField (t (js "displayName")) (t (js "displayNameHelp"))
              [text (d_displayName d) (fun v => FEdit (mkDraft (d_name d) v (d_endpointSlug d) (d_runtime d)
                 (d_invokePolicy d) (d_enabled d) (d_timeoutMs d) (d_sourceCode d)))];
            FunctionField (t (js "endpointSlug")) (t (js "endpointSlugHelp"))
              [text (d_endpointSlug d) (fun v => FEdit (mkDraft (d_name d) (d_displayName d) v (d_runtime d)
                 (d_invokePolicy d) (d_enabled d) (d_timeoutMs d) (d_sourceCode d)))]];
           div [div [div [text_div (t (js "code")); text_div (t (js "codeHelp"))];
                     El (js "Badge outline") [TextNode (d_runtime d)]];
                Field (js "code") (d_sourceCode d) false (fun v => FEdit (mkDraft (d_name d) (d_displayName d)
                  (d_endpointSlug d) (d_runtime d) (d_invokePolicy d) (d_enabled d) (d_timeoutMs d) v))]];
         div [div [div [text_div (t (js "runtimeSettings")); text_div (t (js "runtimeSettingsHelp"))];
           div
           [FunctionField (t (js "runtime")) (t (js "runtimeHelp"))
              [Choice (d_runtime d) [(js "javascript", js "JavaScript"); (js "typescript", js "TypeScript")]
                 (fun v => FEdit (mkDraft (d_name d) (d_displayName d) (d_endpointSlug d) v
                    (d_invokePolicy d) (d_enabled d) (d_timeoutMs d) (d_sourceCode d)))];
            FunctionField (t (js "invokePolicy")) (t (js "invokePolicyHelp"))
              [Choice (d_invokePolicy d) [(js "authenticated", t (js "authenticated")); (js "public", t (js "public"));
                                          (js "api_key", js "API key")]
                 (fun v => FEdit (mkDraft (d_name d) (d_displayName d) (d_endpointSlug d) (d_runtime d)
                    v (d_enabled d) (d_timeoutMs d) (d_sourceCode d)))];
            FunctionField (t (js "timeoutMs")) (t (js "timeoutHelp"))
              [text (d_timeoutMs d) (fun v => FEdit (mkDraft (d_name d) (d_displayName d) (d_endpointSlug d)
                 (d_runtime d) (d_invokePolicy d) (d_enabled d) v (d_sourceCode d)))];
            FunctionField (t (js "state")) (t (js "stateHelp"))
              [Choice (d_enabled d) [(js "true", t (js "enabled")); (js "false", t (js "disabled"))]
                 (fun v => FEdit (mkDraft (d_name d) (d_displayName d) (d_endpointSlug d) (d_runtime d)
                    (d_invokePolicy d) v (d_timeoutMs d) (d_sourceCode d)))]]];
         div [Button [TextNode (t (js "create"))] (negb runtimeOn || createPending p) FCreate;
              Button [TextNode (t (js "save"))] (negb runtimeOn || negb (nonempty active) || updatePending p) FUpdate;
              Button [TextNode (t (js "lint"))] (negb runtimeOn || lintPending p) FLint;
              Button [TextNode (t (js "dryRun"))] (negb runtimeOn || dryRunPending p) FDryRun;
              Button [TextNode (t (js "invoke"))] (negb runtimeOn || negb (nonempty active) || invokePending p) FInvoke;
              Button [TextNode (t (js "delete"))] (negb runtimeOn || negb (nonempty active) || deletePending p) FDelete]]]]].

Definition FunctionTestConsole (s : FunctionsState) : node fn_action :=
  Panel (t (js "testConsole"))
    [div
      [div [div [text_div (t (js "httpMethod"));
                 Choice (requestMethod s)
                   (map (fun m => (js m, js m)) ["GET"; "POST"; "PUT"; "PATCH"; "DELETE"]%string) FMethod;
                 El (js "p") [TextNode (t (js "httpMethodHelp"))]];
            div [text_div (t (js "runtimeRequest"));
                 div (map (fun f => div [TextNode (js "ctx.request."); TextNode (js f)])
                        ["method"; "query"; "body"; "input"]%string)]];
       div [CodeWorkbenchPane (t (js "queryParams")) (t (js "queryParamsHelp"))
              [Field (js "code") (queryJson s) false FQuery];
            CodeWorkbenchPane (t (js "requestBody")) (t (js "requestBodyHelp"))
              [Field (js "code") (inputJson s) false FInput];
            CodeWorkbenchPane (t (js "executionResult")) (t (js "executionResultHelp"))
              [json_block (coalesce (default JNull (output s)) (JObj [(js "status", JStr (js "idle"))]))]]]].

Definition version_row (runtimeOn : bool) (p : Pending) (v : FunctionVersionSummary) : list (node fn_action) :=
  [TextNode (string_of_Z (fv_version_number v)); TextNode (fv_runtime v);
   TextNode (if fv_is_active v then common (js "yes") else common (js "no"));
   if fv_is_active v then TextNode []
   else Button [TextNode (t (js "restore"))] (negb runtimeOn || rollbackPending p) (FRollback (fv_version_number v))].

Definition invocation_row (runtimeOn : bool) (p : Pending) (i : FunctionInvocation) : list (node fn_action) :=
  [TextNode (fi_id i); TextNode (fi_status i); TextNode (fi_invoke_mode i);
   TextNode (match fi_duration_ms i with Some z => string_of_Z z | None => [] end);
   Button [TextNode (t (js "retry"))] (negb runtimeOn || retryPending p) (FRetry (fi_id i))].

Definition FunctionHistoryPanels (runtimeOn : bool) (versions : option (list FunctionVersionSummary))
    (versionsLoading : bool) (invocations : option (list FunctionInvocation)) (invocationsLoading : bool)
    (p : Pending) : list (node fn_action) :=
  let empty on off := Some (if runtimeOn then t on else t off) in
  [Panel (t (js "versions"))
     [DataTableView tr [t (js "columnsVersion"); t (js "columnsRuntime"); t (js "columnsActive"); t (js "columnsAction")]
        (map (version_row runtimeOn p) (default [] versions)) versionsLoading
        (empty (js "emptyVersionsTitle") (js "runtimeDisabledEmptyTitle"))
        (empty (js "emptyVersionsDescription") (js "runtimeDisabledEmptyDescription")) None];
   Panel (t (js "invocations"))
     [DataTableView tr [t (js "columnsId"); t (js "columnsStatus"); t (js "columnsMode"); t (js "columnsDuration");
                        t (js "columnsRetry")]
        (map (invocation_row runtimeOn p) (default [] invocations)) invocationsLoading
        (empty (js "emptyInvocationsTitle") (js "runtimeDisabledEmptyTitle"))
        (empty (js "emptyInvocationsDescription") (js "runtimeDisabledEmptyDescription")) None]].

(** What the queries last reported. *)
Record Data : Type := {
  q_metrics : option OpsMetrics;
  q_functions : option (list FunctionSummary); q_functionsLoading : bool;
  q_detail : option FunctionDetail;
  q_versions : option (list FunctionVersionSummary); q_versionsLoading : bool;
  q_invocations : option (list FunctionInvocation); q_invocationsLoading : bool
}.

Definition FunctionsView (browserOrigin : jsstring) (s : FunctionsState) (q : Data) (p : Pending) : node fn_action :=
  let on := runtimeEnabled (q_metrics q) in
  let active := activeName s (q_functions q) in
  Section_ (t (js "title")) (t (js "description")) None
    ((if on then []
      else [El (js "Alert") [El (js "AlertTitle") [TextNode (t (js "runtimeDisabledTitle"))];
                             El (js "AlertDescription") [TextNode (t (js "runtimeDisabledDescription"))]]]) ++
     [div [FunctionListPanel on (q_functions q) (q_functionsLoading q) active (q_detail q);
           FunctionWorkspacePanels on active (endpointUrl browserOrigin s) (draft s) p];
      FunctionTestConsole s] ++
     FunctionHistoryPanels on (q_versions q) (q_versionsLoading q) (q_invocations q) (q_invocationsLoading q) p).

(** ** Selecting functions while drafts are loading *)

(** [onApplyCachedDraft] *)
Definition applyCached (active : jsstring) (detail : option FunctionDetail) (s : FunctionsState) : FunctionsState :=
  match detail with
  | Some fn => if nonempty active then with_draft (applyFunctionDraft fn) s else s
  | None => s
  end.

(** A draft request is answered: the draft replaces the editor's content, or
    the error is shown. *)
Definition draftLoaded (o : outcome FunctionDetail) (s : FunctionsState) : FunctionsState * list effect :=
  match o with
  | Ok fn => (with_draft (applyFunctionDraft fn) s, [])
  | Err e => (s, toast_error e)
  end.

(** The server's functions. *)
Variable detail_of : jsstring -> outcome FunctionDetail.

(** A state of the view: the component's, and the draft requests not yet
    answered, oldest first.  [ordered] restricts the answers to that order. *)
Inductive fn_step (ordered : bool) : FunctionsState * list jsstring -> FunctionsState * list jsstring -> Prop :=
| StepSelect name s pending : nonempty name = true ->
    fn_step ordered (s, pending) (with_selected name s, pending ++ [name])
| StepLoaded name s before after : (ordered = true -> before = []) ->
    fn_step ordered (s, before ++ name :: after) ((draftLoaded (detail_of name) s).1, before ++ after).

Inductive fn_reachable (ordered : bool) : FunctionsState * list jsstring -> Prop :=
| fn_start : fn_reachable ordered (functions_mount, [])
| fn_next x y : fn_reachable ordered x -> fn_step ordered x y -> fn_reachable ordered y.

(** The newest request is the one for the selected function; when all are
    answered, its draft is in the editor. *)
Definition draft_ok (x : FunctionsState * list jsstring) : Prop :=
  match last x.2 with
  | Some n => n = selectedName x.1
  | None => nonempty (selectedName x.1) = true ->
            match detail_of (selectedName x.1) with
            | Ok fn => draft x.1 = applyFunctionDraft fn
            | Err _ => True
            end
  end.

Lemma draftLoaded_selected o s : selectedName (draftLoaded o s).1 = selectedName s.
Proof. by destruct o. Qed.

Lemma reachable_draft_ok x : fn_reachable true x -> draft_ok x.
Proof.
  induction 1 as [|x y _ IH Hs]; [done|].
  destruct Hs as [name s pending Hn|name s before after Hb]; unfold draft_ok in *; cbn [fst snd] in *.
  - by rewrite last_snoc.
  - rewrite (Hb eq_refl) in *. cbn [Datatypes.app] in *. rewrite draftLoaded_selected.
    destruct (last after) as [m|] eqn:E.
    + destruct after as [|a after]; [done|]. rewrite last_cons_cons in IH. rewrite E in IH. done.
    + destruct after as [|a after]; [|by rewrite last_cons in E; destruct (last after)].
      cbn [last] in IH. subst name. intros _. by destruct (detail_of (selectedName s)).
Qed.

Lemma update_members_loaded fn : (0 < fs_timeout_ms (fd_summary fn))%Z ->
  update_members (applyFunctionDraft fn) =
  let m := fd_summary fn in
  [(js "display_name", JStr (fs_display_name m)); (js "endpoint_slug", JStr (fs_endpoint_slug m));
   (js "runtime", JStr (fs_runtime m)); (js "source_code", JStr (fd_source_code fn));
   (js "invoke_policy", JStr (fs_invoke_policy m)); (js "timeout_ms", JNum (num_of_Z (fs_timeout_ms m)));
   (js "enabled", JBool (fs_enabled m))].
Proof.
  intros Ht. unfold update_members, applyFunctionDraft. cbn [d_displayName d_endpointSlug d_runtime d_sourceCode
    d_invokePolicy d_timeoutMs d_enabled]. rewrite to_number_string by done. by destruct (fs_enabled _).
Qed.

(** C30: Saving the function that was opened: as long as drafts arrive in the
    order they were requested, after any sequence of selections, once every
    draft has arrived, saving the unedited draft addresses the selected
    function and sends exactly the settings and the code the server has for
    it. *)
Theorem selected_draft_faithful s functions fn :
  fn_reachable true (s, []) -> nonempty (selectedName s) = true ->
  detail_of (selectedName s) = Ok fn -> (0 < fs_timeout_ms (fd_summary fn))%Z ->
  activeName s functions = selectedName s /\
  updateFunction (activeName s functions) s =
  apiFetch API_BASE (functionPath (selectedName s) [])
    (json_init (js "PATCH")
      (let m := fd_summary fn in
       JObj [(js "display_name", JStr (fs_display_name m)); (js "endpoint_slug", JStr (fs_endpoint_slug m));
             (js "runtime", JStr (fs_runtime m)); (js "source_code", JStr (fd_source_code fn));
             (js "invoke_policy", JStr (fs_invoke_policy m)); (js "timeout_ms", JNum (num_of_Z (fs_timeout_ms m)));
             (js "enabled", JBool (fs_enabled m))])).
Proof.
  intros Hr%reachable_draft_ok Hn Hd Ht. unfold draft_ok in Hr. cbn [fst snd last] in Hr.
  specialize (Hr Hn). rewrite Hd in Hr. unfold activeName. rewrite Hn. split; [done|].
  unfold updateFunction. by rewrite Hr, update_members_loaded.
Qed.

(** C40: The editor can hold another function's code: when two functions are
    selected one after the other and their drafts arrive in the other order,
    everything has arrived, the second function is selected, and saving
    replaces its code by the first function's. *)
Theorem late_draft_overwrites a b fa fb functions :
  nonempty a = true -> nonempty b = true -> detail_of a = Ok fa -> detail_of b = Ok fb ->
  exists s, fn_reachable false (s, []) /\ activeName s functions = b /\
    draft s = applyFunctionDraft fa /\
    updateFunction b s =
    apiFetch API_BASE (functionPath b []) (json_init (js "PATCH") (JObj (update_members (applyFunctionDraft fa)))).
Proof.
  intros Ha Hb Hfa Hfb.
  exists (draftLoaded (detail_of a) (draftLoaded (detail_of b) (with_selected b (with_selected a functions_mount))).1).1.
  split.
  - eapply fn_next; [|apply (StepLoaded false a _ [] []); done]. cbn [Datatypes.app].
    eapply fn_next; [|apply (StepLoaded false b _ [a] []); done]. cbn [Datatypes.app].
    eapply fn_next; [|apply (StepSelect false b _ [a]); done].
    eapply fn_next; [|apply (StepSelect false a _ []); done]. apply fn_start.
  - rewrite Hfa, Hfb. unfold activeName. cbn. by rewrite Hb.
Qed.
(** ** What the page allows *)

Lemma workspace_enabled on active url d p a : a ∈ enabled (FunctionWorkspacePanels on active url d p) ->
  on = true /\
  match a with
  | FUpdate => nonempty active = true /\ updatePending p = false
  | FInvoke => nonempty active = true /\ invokePending p = false
  | FDelete => nonempty active = true /\ deletePending p = false
  | FCreate | FLint | FDryRun | FCopyEndpoint => True
  | _ => False
  end.
Proof.
  unfold FunctionWorkspacePanels. cbn. destruct on; cbn; [|by intros ?%not_elem_of_nil].
  intros H. split; [done|]. destruct (nonempty active), (createPending p), (updatePending p), (lintPending p),
    (dryRunPending p), (invokePending p), (deletePending p); cbn in H; in_actions H; by subst a.
Qed.

Lemma list_enabled on functions loading active detail a :
  a ∈ enabled (FunctionListPanel on functions loading active detail) ->
  on = true /\
  match a with
  | FApplyCached => is_Some detail
  | FSelect n => exists f, f ∈ default [] functions /\ fs_name f = n
  | _ => False
  end.
Proof.
  unfold FunctionListPanel. set (fns := default [] functions). cbn -[default]. destruct on; cbn [negb orb].
  2:{ by intros ?%not_elem_of_nil. }
  rewrite !app_nil_r. intros H. split; [done|]. apply elem_of_app in H as [H|H].
  - destruct detail; in_actions H. by subst a.
  - destruct loading; [by apply not_elem_of_nil in H|].
    destruct fns as [|f l] eqn:E; [by apply not_elem_of_nil in H|]. rewrite <- E in *.
    cbn [enabled div] in H. apply elem_of_flat_map in H as (n & Hn & H).
    apply list_elem_of_In, in_map_iff in Hn as (g & <- & Hg). cbn in H. in_actions H. subst a.
    exists g. split; [by apply list_elem_of_In|done].
Qed.

Lemma history_enabled on versions vl invocations il p a :
  a ∈ flat_map enabled (FunctionHistoryPanels on versions vl invocations il p) ->
  on = true /\
  match a with
  | FRollback n => exists v, v ∈ default [] versions /\ fv_version_number v = n /\ fv_is_active v = false
  | FRetry n => exists i, i ∈ default [] invocations /\ fi_id i = n
  | _ => False
  end.
Proof.
  unfold FunctionHistoryPanels, Panel. cbn [flat_map enabled Datatypes.app]. rewrite !app_nil_r.
  intros [H|H]%elem_of_app; apply table_enabled in H as [_ H]; apply elem_of_flat_map in H as (row & Hr & H);
    apply list_elem_of_In, in_map_iff in Hr as (x & <- & Hx%list_elem_of_In).
  - unfold version_row in H. cbn in H. destruct (fv_is_active x) eqn:Ea; [by apply not_elem_of_nil in H|].
    cbn in H. destruct on; [|by apply not_elem_of_nil in H]. cbn in H.
    destruct (rollbackPending p); in_actions H. subst a. split; [done|]. by exists x.
  - unfold invocation_row in H. cbn in H. destruct on; [|by apply not_elem_of_nil in H]. cbn in H.
    destruct (retryPending p); in_actions H. subst a. split; [done|]. by exists x.
Qed.

Lemma test_console_enabled s : enabled (FunctionTestConsole s) = [].
Proof. done. Qed.

(** C31: The page only offers what the runtime and the selection allow: every
    enabled button needs the functions runtime; saving, invoking and deleting
    need a function to act on; restoring is offered for listed versions that
    are not the active one; so no button does anything while the runtime is
    disabled (fields and the function selector are not buttons). *)
Theorem functions_actions_guarded origin s q p a : a ∈ enabled (FunctionsView origin s q p) ->
  runtimeEnabled (q_metrics q) = true /\
  match a with
  | FUpdate | FInvoke | FDelete => nonempty (activeName s (q_functions q)) = true
  | FRollback n => exists v, v ∈ default [] (q_versions q) /\ fv_version_number v = n /\ fv_is_active v = false
  | FRetry n => exists i, i ∈ default [] (q_invocations q) /\ fi_id i = n
  | FSelect n => exists f, f ∈ default [] (q_functions q) /\ fs_name f = n
  | FApplyCached => is_Some (q_detail q)
  | _ => True
  end.
Proof.
  unfold FunctionsView. rewrite section_enabled, !flat_map_app. intros H.
  apply elem_of_app in H as [H|H].
  { by destruct (runtimeEnabled (q_metrics q)); apply not_elem_of_nil in H. }
  apply elem_of_app in H as [H|H].
  - cbn [flat_map enabled div] in H. rewrite test_console_enabled, !app_nil_r in H.
    apply elem_of_app in H as [H|H]; [apply list_enabled in H|apply workspace_enabled in H];
      destruct H as [Hon H]; rewrite Hon; (split; [done|]); destruct a; try done; by destruct H.
  - apply history_enabled in H as [Hon H]. rewrite Hon. split; [done|]. by destruct a.
Qed.

(** Saving before opening anything overwrites a function: on a freshly
    opened page with a list of functions the save button is enabled, and
    it replaces the first function's settings and code by the page's sample. *)
Lemma initial_save_overwrites origin q p f fns :
  runtimeEnabled (q_metrics q) = true -> q_functions q = Some (f :: fns) -> nonempty (fs_name f) = true ->
  updatePending p = false ->
  FUpdate ∈ enabled (FunctionsView origin functions_mount q p) /\
  updateFunction (activeName functions_mount (q_functions q)) functions_mount =
  apiFetch API_BASE (functionPath (fs_name f) []) (json_init (js "PATCH") (JObj (update_members draft0))).
Proof.
  intros Hon Hf Hn Hp. unfold FunctionsView, activeName. rewrite Hf. change (nonempty (selectedName functions_mount)) with false.
  cbv iota. split; [|done]. rewrite section_enabled, !flat_map_app.
  apply elem_of_app. right. apply elem_of_app. left. cbn [flat_map enabled div]. apply elem_of_app. left.
  apply elem_of_app. right. apply elem_of_app. left. rewrite Hon. unfold FunctionWorkspacePanels. cbn.
  rewrite Hn, Hp. cbn. destruct (createPending p); repeat first [left | right].
Qed.

(** Restoring a version does not reload the editor: what is saved next is
    the draft from before, which undoes the restoration. *)
Lemma rollback_save_undoes active s s' es : rollbackVersion_success active s = Ok (s', es) ->
  updateFunction active s' = updateFunction active s.
Proof. intros [= <- _]. done. Qed.
End View.

(** The page's state survives a change of project: saving after the change
    sends the draft of the function selected before to the function of that
    name in the other project. *)
Lemma switch_saves_into_other API_BASE app' s functions' : nonempty (selectedName s) = true ->
  updateFunction API_BASE app' (activeName s functions') s =
  apiFetch API_BASE (functionPath app' (selectedName s) [])
    (json_init (js "PATCH") (JObj (update_members (draft s)))).
Proof. intros H. unfold activeName. by rewrite H. Qed.

End Functions.
