(* ===== verification/AuthView.v ===== *)
(** * Application users and their sessions: [views/auth-view.tsx]

    The view that creates, activates, deactivates and deletes the users of a
    project and revokes their sessions.  Users have the declared type;
    sessions are the JSON the server sent. *)

From S2P Require Import Prelude JsString JsNumber JsValue Json Uri Prog Http Browser Session ApiClient.
From S2P Require Import Types ConsoleUtils Ui Forms.
Import Web Api Utils Forms.

Module Users.

Record UsersState : Type := mkUsers {
  selectedUserId : jsstring;
  u_email_field : jsstring;
  u_password_field : jsstring;
  isActive : jsstring;
  isAdmin : jsstring
}.

Definition users_mount : UsersState :=
  mkUsers [] (js "user@example.com") (js "password123") (js "true") (js "false").

Inductive users_action : Type :=
| UEmail (s : jsstring)
| UPassword (s : jsstring)
| UActive (s : jsstring)
| UAdmin (s : jsstring)
| UCreate
| UInspect (userId : jsstring)
| UToggle (user : PeanutUser)
| UDelete (user : PeanutUser)
| URevoke (userId sessionId : jsstring).

(** [onInspect] and the session tab's selector. *)
Definition inspect (userId : jsstring) (s : UsersState) : UsersState :=
  mkUsers userId (u_email_field s) (u_password_field s) (isActive s) (isAdmin s).

(** [selectedUserId || users.data?.[0]?.id]; [None] is [undefined]. *)
Definition firstUserId (s : UsersState) (users : option (list PeanutUser)) : option jsstring :=
  if nonempty (selectedUserId s) then Some (selectedUserId s)
  else match users with Some (u :: _) => Some (u_id u) | _ => None end.

Section View.
Variable API_BASE : jsstring.
Variable tr : translator.
Variable app : AppSummary.

Definition t (k : jsstring) : jsstring := tr (js "authView") k [].
Definition common (k : jsstring) : jsstring := tr (js "common") k [].

Definition usersPath (suffix : jsstring) : jsstring := app_path (app_id app) (js "/auth/users" ++ suffix).
Definition userPath (userId suffix : jsstring) : jsstring := usersPath (js "/" ++ userId ++ suffix).

Definition usersQuery : web jsval := fetch_field API_BASE (usersPath []) (js "users").

Definition providersQuery : web jsval :=
  apiFetch API_BASE (app_path (app_id app) (js "/auth/providers")) init_default.

Definition sessionsQuery (userId : jsstring) : web jsval :=
  fetch_field API_BASE (userPath userId (js "/sessions")) (js "sessions").

(** [enabled: Boolean(firstUserId)] *)
Definition sessions_enabled (userId : option jsstring) : bool :=
  match userId with Some u => nonempty u | None => false end.

Definition usersInvalidate : effect := Invalidate [js "auth"; js "users"; app_id app].
Definition sessionsInvalidate (userId : jsstring) : effect :=
  Invalidate [js "auth"; js "sessions"; app_id app; userId].

Definition createUser (s : UsersState) : web jsval :=
  let admin := jseq (isAdmin s) (js "true") in
  apiFetch API_BASE (usersPath [])
    (json_init (js "POST")
      (JObj [(js "email", JStr (u_email_field s)); (js "password", JStr (u_password_field s));
             (js "is_active", JBool (jseq (isActive s) (js "true"))); (js "is_admin", JBool admin);
             (js "admin_role", JStr (if admin then js "developer" else js "viewer"))])).

Definition createUser_success : callback UsersState := fun s =>
  Ok (s, [ToastSuccess (t (js "createdUser")); usersInvalidate]).

(** ** [AuthUserActions] *)

Definition toggleUser (user : PeanutUser) : web jsval :=
  apiFetch API_BASE (userPath (u_id user) (js "/" ++ if u_is_active user then js "deactivate" else js "activate"))
    (method_init (js "POST")).

Definition toggleUser_success (user : PeanutUser) : callback UsersState := fun s =>
  Ok (s, [ToastSuccess (if u_is_active user then t (js "userDeactivated") else t (js "userActivated"));
          usersInvalidate; sessionsInvalidate (u_id user)]).

Definition toggle_click (user : PeanutUser) (answer : bool) : list effect * bool :=
  confirm_click (tr (js "authView") (if u_is_active user then js "confirmDeactivate" else js "confirmActivate")
                   [(js "email", JStr (u_email user))]) answer.

Definition deleteUser (user : PeanutUser) : web jsval :=
  apiFetch API_BASE (userPath (u_id user) []) (method_init (js "DELETE")).

Definition deleteUser_success (user : PeanutUser) : callback UsersState := fun s =>
  Ok (s, [ToastSuccess (t (js "userDeleted")); usersInvalidate; sessionsInvalidate (u_id user)]).

Definition delete_user_click (user : PeanutUser) (answer : bool) : list effect * bool :=
  confirm_click (tr (js "authView") (js "confirmDeleteUser") [(js "email", JStr (u_email user))]) answer.

(** The pending states of a user's toggle and deletion, and of a session's
    revocation. *)
Variable userPending : jsstring -> bool * bool.
Variable sessionPending : jsstring -> bool.

Definition AuthUserActions (user : PeanutUser) : node users_action :=
  div [Button [TextNode (t (js "sessions"))] false (UInspect (u_id user));
       Button [TextNode (if u_is_active user then common (js "deactivate") else common (js "activate"))]
         (userPending (u_id user)).1 (UToggle user);
       Button [TextNode (common (js "delete"))] (userPending (u_id user)).2 (UDelete user)].

(** ** [SessionActions] *)

Definition revokeSession (userId sessionId : jsstring) : web jsval :=
  apiFetch API_BASE (userPath userId (js "/sessions/" ++ sessionId)) (method_init (js "DELETE")).

Definition revokeSession_success (userId : jsstring) : callback UsersState := fun s =>
  Ok (s, [ToastSuccess (t (js "sessionRevoked")); sessionsInvalidate userId]).

Definition revoke_session_click (answer : bool) : list effect * bool :=
  confirm_click (t (js "confirmSessionRevoke")) answer.

Definition SessionActions (userId sessionId : jsstring) (active : bool) : node users_action :=
  Button [TextNode (common (js "delete"))]
    (negb active || negb (nonempty userId) || negb (nonempty sessionId) || sessionPending sessionId)
    (URevoke userId sessionId).

(** ** The view *)

Definition user_row (user : PeanutUser) : list (node users_action) :=
  let yes b := TextNode (if b : bool then common (js "yes") else common (js "no")) in
  [TextNode (u_email user); TextNode (u_id user); yes (u_is_active user); yes (u_is_admin user); AuthUserActions user].

Definition session_row (userId : option jsstring) (session : jsval) : outcome (list (node users_action)) :=
  let! vid := get session (js "session_id") in
  let! id := text_or vid [] in
  let! active := get session (js "is_active") in
  let! created := text_or (get_opt session (js "created_at")) [] in
  let! seen := text_or (get_opt session (js "last_seen_at")) [] in
  let! expires := text_or (get_opt session (js "expires_at")) [] in
  Ok [TextNode id; TextNode (if truthy active then common (js "yes") else common (js "no"));
      TextNode created; TextNode seen; TextNode expires;
      SessionActions (default [] userId) id (truthy active)].

Definition AuthView (s : UsersState) (users : option (list PeanutUser)) (sessions : option (list jsval))
    (providers : option jsval) (usersLoading sessionsLoading createPending : bool) : outcome (node users_action) :=
  let first := firstUserId s users in
  let yes_no k := [(js "true", k ++ js ": " ++ common (js "yes")); (js "false", k ++ js ": " ++ common (js "no"))] in
  let! rows := map_outcome (session_row first) (default [] sessions) in
  Ok (Section_ (t (js "title")) (t (js "description")) None
    [El (js "Tabs")
      [El (js "TabsList") [TextNode (t (js "users")); TextNode (t (js "sessions")); TextNode (t (js "providers"))];
       El (js "TabsContent users")
         [Panel (t (js "createUser"))
            [div [Field (js "text") (u_email_field s) false UEmail; Field (js "text") (u_password_field s) false UPassword;
                  Choice (isActive s) (yes_no (t (js "active"))) UActive;
                  Choice (isAdmin s) (rev (yes_no (t (js "admin")))) UAdmin;
                  Button [TextNode (common (js "create"))] createPending UCreate]];
          DataTableView tr [t (js "email"); t (js "userId"); t (js "active"); t (js "admin"); t (js "actions")]
            (map user_row (default [] users)) usersLoading None None None];
       El (js "TabsContent sessions")
         [div [Choice (default [] first) (map (fun u => (u_id u, u_email u)) (default [] users)) UInspect];
          DataTableView tr [t (js "session"); t (js "active"); t (js "created"); t (js "lastSeen"); t (js "expires");
                            t (js "actions")]
            rows sessionsLoading None None None];
       El (js "TabsContent providers")
         [json_block (coalesce (default JUndefined providers) (JObj [(js "status", JStr (common (js "loading")))]))]]]).

(** ** Properties *)

Lemma session_rows_enabled first l rows a : map_outcome (session_row first) l = Ok rows ->
  a ∈ flat_map (flat_map enabled) rows ->
  exists u id x, a = URevoke u id /\ first = Some u /\ nonempty u = true /\ nonempty id = true /\ x ∈ l /\
    text_or (get_opt x (js "session_id")) [] = Ok id /\ truthy (get_opt x (js "is_active")) = true.
Proof.
  intros Hm Ha. destruct (map_outcome_enabled _ _ _ _ Hm Ha) as (x & r & Hx & Er & H). clear Hm Ha.
  unfold session_row in Er. destruct (get x (js "session_id")) as [vid|] eqn:E1; [|done]. cbn [res_bind] in Er.
  destruct (text_or vid []) as [id|] eqn:E2; [|done]. cbn [res_bind] in Er.
  destruct (get x (js "is_active")) as [act|] eqn:E3; [|done]. cbn [res_bind] in Er.
  repeat match type of Er with context [text_or ?v ?d] => destruct (text_or v d); [cbn [res_bind] in Er|done] end.
  apply Ok_inj in Er as <-. cbn in H.
  destruct (truthy act) eqn:Ea; cbn in H; [|by apply not_elem_of_nil in H].
  destruct first as [u|]; cbn in H; [|by apply not_elem_of_nil in H].
  destruct (nonempty u) eqn:Eu; cbn in H; [|by apply not_elem_of_nil in H].
  destruct (nonempty id) eqn:Ei; cbn in H; [|by apply not_elem_of_nil in H].
  destruct (sessionPending id); in_actions H. exists u, id, x.
  rewrite (get_get_opt _ _ _ E1), (get_get_opt _ _ _ E3). by split_and!.
Qed.

Lemma users_rows_enabled l a : a ∈ flat_map (flat_map enabled) (map user_row l) ->
  exists u, u ∈ l /\
    match a with
    | UInspect id => id = u_id u
    | UToggle u' => u' = u /\ (userPending (u_id u)).1 = false
    | UDelete u' => u' = u /\ (userPending (u_id u)).2 = false
    | _ => False
    end.
Proof.
  intros H. apply elem_of_flat_map in H as (row & Hr & H).
  apply list_elem_of_In, in_map_iff in Hr as (u & <- & Hu%list_elem_of_In). exists u. split; [done|].
  cbn in H. apply elem_of_cons in H as [->|H]; [done|].
  destruct (userPending (u_id u)) as [p1 p2]. cbn in H |- *.
  destruct p1, p2; cbn in H; in_actions H; by subst a.
Qed.

(** Sessions can be revoked only where they belong: every enabled
    revocation is of a listed session that is active and has an id, and it
    addresses the user whose sessions are shown; every enabled activation,
    deactivation or deletion is of a listed user with no such request
    pending. *)
Lemma auth_actions_guarded s users sessions providers ul sl cp n a :
  AuthView s users sessions providers ul sl cp = Ok n -> a ∈ enabled n ->
  match a with
  | URevoke userId sessionId =>
      firstUserId s users = Some userId /\ nonempty userId = true /\ nonempty sessionId = true /\
      exists x, x ∈ default [] sessions /\ text_or (get_opt x (js "session_id")) [] = Ok sessionId /\
        truthy (get_opt x (js "is_active")) = true
  | UToggle u => u ∈ default [] users /\ (userPending (u_id u)).1 = false
  | UDelete u => u ∈ default [] users /\ (userPending (u_id u)).2 = false
  | UInspect id => exists u, u ∈ default [] users /\ u_id u = id
  | _ => True
  end.
Proof.
  unfold AuthView. destruct (map_outcome _ _) as [rows|] eqn:Er; [|done]. cbn [res_bind].
  intros <-%Ok_inj. rewrite section_enabled. cbn [flat_map enabled Panel div Datatypes.app json_block].
  rewrite !app_nil_r. intros H. apply elem_of_app in H as [H|H].
  - apply elem_of_app in H as [H|H]; [destruct cp; in_actions H; by subst a|].
    apply table_enabled in H as [_ H]. apply users_rows_enabled in H as (u & Hu & H).
    destruct a; try done; [by exists u|by destruct H as [-> ?]..].
  - apply table_enabled in H as [_ H]. destruct (session_rows_enabled _ _ _ _ Er H)
      as (u & id & x & -> & ? & ? & ? & ? & ? & ?). split_and!; try done. by exists x.
Qed.
End View.

End Users.
