(* ===== verification/PushView.v ===== *)
(** * Push messages: [views/push-view.tsx]

    The view of a project's push subscriptions and queue, with the form that
    queues a test message.  Subscriptions and the queue are the JSON the server
    sent; users and statistics have their declared types. *)

From S2P Require Import Prelude JsString JsNumber JsValue Json Uri Prog Http Browser Session ApiClient.
From S2P Require Import Types ConsoleUtils Ui Forms.
Import Web Api Utils Forms.

Module Push.

Record PushState : Type := mkPush { p_title : jsstring; p_body : jsstring; p_userId : jsstring }.

Definition push_mount : PushState := mkPush (js "Console test") (js "Push from Peanut Console") [].

Inductive push_action : Type :=
| PTitle (s : jsstring)
| PBody (s : jsstring)
| PUser (id : jsstring)
| PSend.

(** [userId || users.data?.[0]?.id]; [None] is [undefined]. *)
Definition target (s : PushState) (users : option (list PeanutUser)) : option jsstring :=
  if nonempty (p_userId s) then Some (p_userId s)
  else match users with Some (u :: _) => Some (u_id u) | _ => None end.

Section View.
Variable API_BASE : jsstring.
Variable tr : translator.
Variable app : AppSummary.

Definition t (k : jsstring) : jsstring := tr (js "pushView") k [].
Definition common (k : jsstring) : jsstring := tr (js "common") k [].
Definition pushPath (suffix : jsstring) : jsstring := app_path (app_id app) (js "/push" ++ suffix).

Definition usersQuery : web jsval := fetch_field API_BASE (app_path (app_id app) (js "/auth/users")) (js "users").
Definition subscriptionsQuery : web jsval := fetch_field API_BASE (pushPath (js "/subscriptions")) (js "subscriptions").
Definition diagnosticsQuery : web jsval := apiFetch API_BASE (pushPath (js "/diagnostics")) init_default.
Definition queueQuery : web jsval := apiFetch API_BASE (pushPath (js "/queue")) init_default.
Definition statsQuery : web jsval :=
  apiFetch API_BASE (pushPath (js "/queue/stats?window_hours=24&limit=5")) init_default.

Definition sendTest (s : PushState) (users : option (list PeanutUser)) : web jsval :=
  apiFetch API_BASE (pushPath (js "/test-message"))
    (json_init (js "POST")
      (JObj [(js "title", JStr (p_title s)); (js "body", JStr (p_body s));
             (js "user_id", match target s users with Some id => JStr id | None => JUndefined end)])).

Definition sendTest_success : callback PushState := fun s =>
  Ok (s, [ToastSuccess (t (js "queued")); Invalidate [js "push"; js "queue"; app_id app];
          Invalidate [js "push"; js "queue-stats"; app_id app]]).

(** ** [PushStatsView] *)

Definition reason_row (r : ReasonCount) : list (node push_action) :=
  [TextNode (rc_reason r); TextNode (string_of_Z (rc_count r))].

Definition reasons (title : jsstring) (l : list ReasonCount) : node push_action :=
  Panel title
    [DataTableView tr [t (js "statsReason"); t (js "statsCount")] (map reason_row l) false
       (Some (t (js "statsNoFailures"))) (Some (t (js "statsNoFailuresDescription"))) None].

Definition PushStatsView (stats : option PushQueueStatsResponse) (loading : bool) : node push_action :=
  if loading then Skeleton
  else match stats with
       | None => EmptyState (t (js "emptyStatsTitle")) (t (js "emptyStatsDescription")) None
       | Some st =>
           div [div [Metric (t (js "statsWindowHours")) [TextNode (string_of_Z (pst_window_hours st) ++ js "h")];
                     Metric (t (js "statsRetryScheduled")) [TextNode (string_of_Z (pst_retry_scheduled st))];
                     Metric (t (js "statsRetryOverdue")) [TextNode (string_of_Z (pst_retry_overdue st))];
                     Metric (t (js "statsReasonLimit")) [TextNode (string_of_Z (pst_limit st))]];
                div [reasons (t (js "statsTerminalFailures")) (pst_terminal_failure_reasons st);
                     reasons (t (js "statsDestinationFailures")) (pst_destination_failure_reasons st)]]
       end.

(** ** [PushQueueView] *)

(** [items.length] and [items.map] of a value that should be an array. *)
Definition items_of (v : jsval) : outcome (list jsval) :=
  let not_array := Err (type_error (js "items.map is not a function")) in
  match v with
  | JArr l => Ok l
  | JStr s => if nonempty s then not_array else Ok []
  | JObj l => if truthy (default JUndefined (assoc (js "length") l)) then not_array else Ok []
  | _ => Ok []
  end.

(** The raw queue, folded away. *)
Definition raw_queue (v : jsval) : node push_action :=
  El (js "details") [El (js "summary") [TextNode (t (js "rawQueue"))]; div [json_block v]].

Definition queue_row (item : jsval) : outcome (list (node push_action)) :=
  let! id := get item (js "id") in
  Ok (child_node id ::
      map (fun k => child_node (get_opt item (js k)))
        ["title"; "status"; "retry_count"; "partial_failure_count"; "created_at"]%string).

Definition PushQueueView (queue : option jsval) (loading : bool) : outcome (node push_action) :=
  if loading then Ok Skeleton
  else
    let q := default JUndefined queue in
    let! items := items_of (coalesce (get_opt q (js "items")) (JArr [])) in
    let summary := get_opt q (js "summary") in
    let metric label key d := Metric (t label) [child_node (coalesce (get_opt summary key) (JNum (num_of_Z d)))] in
    match items with
    | [] =>
        Ok (div [EmptyState (t (js "emptyQueueTitle")) (t (js "emptyQueueDescription")) None;
                 raw_queue (coalesce q (JObj [(js "status", JStr (common (js "loading")))]))])
    | _ =>
        let! rows := map_outcome queue_row items in
        Ok (div [div [metric (js "queuedTotal") (js "total") (Z.of_nat (length items));
                      metric (js "queuedPending") (js "pending") 0; metric (js "queuedProcessing") (js "processing") 0;
                      metric (js "queuedFailed") (js "failed") 0; metric (js "queuedSent") (js "sent") 0;
                      metric (js "queuedPartial") (js "partial_success") 0]%Z;
                 DataTableView tr [t (js "columnsId"); t (js "columnsTitle"); t (js "columnsStatus"); t (js "columnsRetry");
                                   t (js "columnsPartialFailures"); t (js "columnsCreated")] rows false None None None;
                 raw_queue q])
    end.

(** ** The view *)

Definition subscription_row (sub : jsval) : outcome (list (node push_action)) :=
  let! vid := get sub (js "id") in
  let! id := text_or vid [] in
  let! kind := text_or (get_opt sub (js "kind")) [] in
  let! topic := text_or (get_opt sub (js "topic")) [] in
  let! endpoint := text_or (get_opt sub (js "endpoint")) [] in
  let! created := text_or (get_opt sub (js "created_at")) [] in
  Ok (map TextNode [id; kind; topic; endpoint; created]).

(** The panel that queues a test message. *)
Definition test_panel (s : PushState) (users : option (list PeanutUser)) (sending : bool) : node push_action :=
  Panel (t (js "queueTestPush"))
    [div [Field (js "text") (p_title s) false PTitle; Field (js "text") (p_body s) false PBody;
          Choice (default [] (target s users)) (map (fun u => (u_id u, u_email u)) (default [] users)) PUser;
          Button [TextNode (common (js "send"))]
            (sending || match users with Some (_ :: _) => false | _ => true end) PSend]].

Definition PushView (s : PushState) (users : option (list PeanutUser)) (subscriptions : option (list jsval))
    (subscriptionsLoading : bool) (diagnostics queue : option jsval) (queueLoading : bool)
    (stats : option PushQueueStatsResponse) (statsLoading sending : bool) : outcome (node push_action) :=
  let! subs := map_outcome subscription_row (default [] subscriptions) in
  let! queueNode := PushQueueView queue queueLoading in
  Ok (Section_ (t (js "title")) (t (js "description")) None
    [El (js "Tabs")
      [El (js "TabsList") [TextNode (t (js "subscriptions")); TextNode (t (js "testMessage")); TextNode (t (js "stats"));
                           TextNode (t (js "diagnostics")); TextNode (t (js "queue"))];
       El (js "TabsContent subscriptions")
         [DataTableView tr [t (js "columnsId"); t (js "columnsKind"); t (js "columnsTopic"); t (js "columnsEndpoint");
                            t (js "columnsCreated")] subs subscriptionsLoading
            (Some (t (js "emptySubscriptionsTitle"))) (Some (t (js "emptySubscriptionsDescription"))) None];
       El (js "TabsContent test") [test_panel s users sending];
       El (js "TabsContent stats") [PushStatsView stats statsLoading];
       El (js "TabsContent diagnostics")
         [Panel (t (js "diagnostics"))
            [json_block (coalesce (default JUndefined diagnostics) (JObj [(js "status", JStr (common (js "loading")))]))]];
       El (js "TabsContent queue") [Panel (t (js "queue")) [queueNode]]]]).

(** ** Properties *)

(** The users the selector of the test panel shows as chosen. *)
Fixpoint choices {A} (n : node A) : list jsstring :=
  match n with
  | El _ l | Form _ l => flat_map choices l
  | Choice v _ _ => [v]
  | _ => []
  end.

(** A test message goes to the user on display: whenever the form can be
    sent there is a target user, the selector shows that user (the one chosen,
    or the project's first user when none was), and the request names the same
    user. *)
Lemma test_target_shown s users sending : PSend ∈ enabled (test_panel s users sending) ->
  sending = false /\
  exists id, target s users = Some id /\ choices (test_panel s users sending) = [id] /\
    sendTest s users =
    apiFetch API_BASE (pushPath (js "/test-message"))
      (json_init (js "POST")
        (JObj [(js "title", JStr (p_title s)); (js "body", JStr (p_body s)); (js "user_id", JStr id)])) /\
    (id = p_userId s \/ (p_userId s = [] /\ exists u rest, users = Some (u :: rest) /\ u_id u = id)).
Proof.
  unfold test_panel, sendTest, target. cbn. intros H.
  destruct sending; [by apply not_elem_of_nil in H|]. split; [done|].
  destruct users as [[|u rest]|]; cbn in H; try (by apply not_elem_of_nil in H).
  destruct (p_userId s) as [|c r] eqn:E; cbn [nonempty].
  - exists (u_id u). split_and!; try done. right. split; [done|]. by exists u, rest.
  - exists (c :: r). split_and!; try done. by left.
Qed.
End View.

End Push.
