(* ===== verification/OpsView.v ===== *)
(** * Operations and overview: [views/ops-view.tsx] and [views/overview-view.tsx]

    The platform's diagnostics, metrics, workspace usage and backups, and the
    project's overview.  Responses with a declared type have it; the payloads
    shown raw are JSON.  [toLocaleString] belongs to the platform and is the
    parameter [localeNumber]. *)

From S2P Require Import Prelude JsString JsNumber JsValue Json Uri Prog Http Browser Session ApiClient.
From S2P Require Import Types ConsoleUtils Ui Nav Activity Forms.
Import Web Api Utils Nav Activity Forms.

Module Ops.

Inductive ops_action : Type :=
| OClearRestore
| OCreateBackup
| ODownload (name : jsstring)
| ORestore (name : jsstring).

(** A diagnostics answer: its checks, if any, and the raw JSON. *)
Record Diagnostics : Type := mkDiagnostics { dg_checks : option (list DiagnosticCheck); dg_raw : jsval }.

(** [platform?.checks ?? []] *)
Definition platformChecks (d : option Diagnostics) : list DiagnosticCheck :=
  default [] (d ≫= dg_checks).

(** [checks.filter((check) => !check.ok)] *)
Definition failedChecks (checks : list DiagnosticCheck) : nat :=
  length (List.filter (fun c => negb (dc_ok c)) checks).

(** [checks.filter((check) => check.ok && check.severity === "warning")] *)
Definition warningChecks (checks : list DiagnosticCheck) : nat :=
  length (List.filter (fun c => dc_ok c && bool_decide (dc_severity c = Some (js "warning"))) checks).

Definition nat_text (n : nat) : jsstring := string_of_Z (Z.of_nat n).

(** [metrics.data?.functions.enabled ?? true] *)
Definition functionsEnabled (metrics : option OpsMetrics) : bool :=
  match metrics with Some m => mf_enabled (om_functions m) | None => true end.

(** [formatBytes(metrics.data?.database.size_bytes ?? 0)] *)
Definition databaseSize (metrics : option OpsMetrics) : jsstring :=
  formatBytes (match metrics with Some m => md_size_bytes (om_database m) | None => 0%Z end).

Section View.
Variable API_BASE : jsstring.
Variable tr : translator.
Variable localeNumber : Z -> jsstring.

Definition common (k : jsstring) : jsstring := tr (js "common") k [].

(** ** Queries *)

Definition readyQuery : web jsval :=
  apiFetch API_BASE (js "/api/ready") {| i_method := None; i_headers := []; i_body := None; i_auth := Some false |}.
Definition diagnosticsQuery : web jsval := apiFetch API_BASE (js "/api/admin/ops/diagnostics") init_default.
Definition metricsQuery : web jsval := apiFetch API_BASE (js "/api/admin/ops/metrics") init_default.
Definition backupsQuery : web jsval := apiFetch API_BASE (js "/api/admin/backups") init_default.

(** The usage of all workspaces: the list of workspaces, one usage request
    for each, and [Promise.all] of their outcomes. *)
Definition workspacesQuery : web jsval := fetch_field API_BASE (js "/api/workspaces") (js "workspaces").
Definition usageQuery (workspaceId : jsstring) : web jsval :=
  apiFetch API_BASE (js "/api/workspaces/" ++ workspaceId ++ js "/resource-usage") init_default.
Definition workspaceUsage (workspaces : list WorkspaceSummary) (usageOf : WorkspaceSummary -> outcome UsageSummary)
  : outcome (list (WorkspaceSummary * UsageSummary)) :=
  map_outcome (fun w => let! u := usageOf w in Ok (w, u)) workspaces.

(** ** Mutations *)

Definition t (k : jsstring) : jsstring := tr (js "opsView") k [].

Definition backupsInvalidate : list effect :=
  [Invalidate [js "ops"; js "backups"]; Invalidate [js "ops"; js "metrics"]].

Definition createBackup : web jsval :=
  apiFetch API_BASE (js "/api/admin/backups") (json_init (js "POST") (JObj [])).
Definition createBackup_success : callback unit := fun s =>
  Ok (s, ToastSuccess (t (js "backupCreated")) :: backupsInvalidate).

Definition scheduleRestore (name : jsstring) : web jsval :=
  apiFetch API_BASE (js "/api/admin/backups/" ++ name ++ js "/restore")
    (json_init (js "POST")
      (JObj [(js "confirmation", JStr name); (js "reason", JStr (js "scheduled from Peanut Console"))])).
Definition scheduleRestore_success : callback unit := fun s =>
  Ok (s, ToastSuccess (t (js "restoreScheduled")) :: backupsInvalidate).
Definition restore_click (name : jsstring) (answer : bool) : list effect * bool :=
  confirm_click (tr (js "opsView") (js "confirmScheduleRestore") [(js "name", JStr name)]) answer.

Definition clearRestore : web jsval :=
  apiFetch API_BASE (js "/api/admin/backups/restore-pending") (method_init (js "DELETE")).
Definition clearRestore_success : callback unit := fun s =>
  Ok (s, ToastSuccess (t (js "restoreCleared")) :: backupsInvalidate).
Definition clear_click (answer : bool) : list effect * bool := confirm_click (t (js "confirmClearRestore")) answer.

Definition download (name : jsstring) : web response := downloadBackup API_BASE name.
Definition download_success (name : jsstring) (content : jsstring) : callback unit := fun s =>
  Ok (s, [Download content name; ToastSuccess (tr (js "opsView") (js "downloaded") [(js "name", JStr name)])]).

(** ** [OpsView] *)

Definition usage_row (w : WorkspaceSummary) (l : ResourceLimitSummary) : list (node ops_action) :=
  map TextNode
    [ws_display_name w; rl_resource_key l; localeNumber (rl_used l) ++ js " / " ++ localeNumber (rl_limit l);
     num_to_string (usagePercent (rl_used l) (rl_limit l)) ++ js "%"; default (rl_period_start l) (rl_reset_at l)].

Definition usageRows (usage : option (list (WorkspaceSummary * UsageSummary))) : list (list (node ops_action)) :=
  flat_map (fun '(w, u) => map (usage_row w) (us_resource_limits u)) (default [] usage).

Definition group_node (g : DiagnosticGroup) : node ops_action :=
  div [div [div (TextNode (dg_label g) ::
                 if bool_decide (dg_severity g = Some (js "warning"))
                 then [El (js "Badge secondary") [TextNode (common (js "warning"))]] else []);
            text_div (dg_description g)];
       El (js "Badge " ++ if dg_ok g then js "default" else js "destructive")
         [TextNode (if dg_ok g then common (js "ok") else common (js "fail"))]].

Definition backup_row (b : BackupSummary) : list (node ops_action) :=
  [TextNode (bk_name b); TextNode (formatBytes (bk_size_bytes b)); TextNode (bk_modified_at b);
   div [Button [TextNode (common (js "download"))] false (ODownload (bk_name b));
        Button [TextNode (common (js "restore"))] false (ORestore (bk_name b))]].

Definition restorePending (backups : option BackupsResponse) : option RestorePendingSummary :=
  backups ≫= br_restore_pending.

Definition runtime_rows (metrics : option OpsMetrics) : list (list (node ops_action)) :=
  let num f := string_of_Z (match metrics with Some m => f m | None => 0%Z end) in
  let text f := match metrics with Some m => f m | None => [] end in
  let count k f := tr (js "opsView") k.1 [(k.2, JNum (num_of_Z (match metrics with Some m => f m | None => 0%Z end)))] in
  map (map TextNode)
    [[t (js "storage"); text (fun m => ms_root (om_storage m));
      match metrics with
      | Some m => if ms_ok (om_storage m) then t (js "writable") else default [] (ms_error (om_storage m))
      | None => []
      end];
     [t (js "backups"); num (fun m => md_backup_count (om_database m));
      match metrics with
      | Some m => if md_restore_pending (om_database m) then t (js "restorePendingState") else t (js "clearState")
      | None => t (js "clearState")
      end];
     [t (js "functions"); text (fun m => mf_work_dir (om_functions m));
      match metrics with
      | Some m => if mf_enabled (om_functions m) then common (js "enabled") else common (js "disabled")
      | None => common (js "disabled")
      end];
     [t (js "pushQueue"); num (fun m => mp_queued (om_push m));
      count (js "failed24h", js "count") (fun m => mp_failed_recent (om_push m))];
     [t (js "version"); text (fun m => my_version (om_system m));
      count (js "uptime", js "seconds") (fun m => my_uptime_seconds (om_system m))]].

(** [data ?? { status }] *)
Definition payload (data : option jsval) (status : jsstring) : jsval :=
  coalesce (default JUndefined data) (JObj [(js "status", JStr status)]).

(** The panel of the backups. *)
Definition backups_panel (backups : option BackupsResponse) (backupsLoading clearing creating : bool)
  : node ops_action :=
  let pending := restorePending backups in
  Panel (t (js "backups"))
    [div [match pending with
          | Some r => El (js "Alert") [El (js "AlertTitle") [TextNode (t (js "restorePending"))];
                                       El (js "AlertDescription") [TextNode (rp_backup_name r)]]
          | None => StatusBadge tr true
          end;
          div [Button [TextNode (common (js "clear"))]
                 (match pending with Some _ => false | None => true end || clearing) OClearRestore;
               Button [TextNode (common (js "create"))] creating OCreateBackup]];
     DataTableView tr [t (js "columnsName"); t (js "columnsSize"); t (js "columnsModified"); t (js "columnsActions")]
       (map backup_row (match backups with Some b => br_backups b | None => [] end)) backupsLoading
       (Some (t (js "emptyBackupsTitle"))) (Some (t (js "emptyBackupsDescription"))) None].

Definition OpsView (ready : option jsval) (diagnostics : option Diagnostics) (metrics : option OpsMetrics)
    (metricsLoading : bool) (usage : option (list (WorkspaceSummary * UsageSummary))) (usageLoading : bool)
    (backups : option BackupsResponse) (backupsLoading clearing creating : bool) : outcome (node ops_action) :=
  let checks := platformChecks diagnostics in
  let! status := text_or (get_opt (default JUndefined ready) (js "status")) (common (js "checking")) in
  Ok (Section_ (t (js "title")) (t (js "description")) None
    [div [Metric (t (js "ready")) [TextNode status];
          Metric (t (js "warnings")) [TextNode (nat_text (warningChecks checks))];
          Metric (t (js "failures")) [TextNode (nat_text (failedChecks checks))];
          Metric (t (js "dbSize")) [TextNode (databaseSize metrics)]];
     div [Panel (t (js "platformChecks"))
            [div (map group_node (groupDiagnosticChecks (tr (js "opsView")) checks) ++
                  match checks with [] => [Skeleton] | _ => [] end)];
          Panel (t (js "runtime"))
            [DataTableView tr [t (js "columnsArea"); t (js "columnsValue"); t (js "columnsState")]
               (runtime_rows metrics) metricsLoading None None None]];
     Panel (t (js "workspaceUsage"))
       [DataTableView tr [t (js "columnsWorkspace"); t (js "columnsResource"); t (js "columnsUsage");
                          t (js "columnsPercent"); t (js "columnsPeriod")] (usageRows usage) usageLoading
          (Some (t (js "emptyUsageTitle"))) (Some (t (js "emptyUsageDescription"))) None];
     backups_panel backups backupsLoading clearing creating;
     El (js "details")
       [El (js "summary") [TextNode (t (js "rawPayloads"))];
        div [Panel (t (js "readyPayload")) [json_block (payload ready (common (js "loading")))];
             Panel (t (js "diagnosticsPayload"))
               [json_block (payload (dg_raw <$> diagnostics) (common (js "loading")))]]]]).

(** ** [OverviewView] *)

(** [navigateTo]: show the view, and its path. *)
Definition navigateTo (v : View) : View * list effect := (v, [ReplaceState (pathForView v)]).

Definition OverviewView (apps : list AppSummary) (app : AppSummary) (ready : option jsval)
    (diagnostics : option Diagnostics) (diagnosticsError : bool) (metrics : option OpsMetrics)
    (activity : option (list ActivityEvent)) (origin : option jsstring) : outcome (node View) :=
  let o k := tr (js "overview") k [] in
  let checks := platformChecks diagnostics in
  let failed := failedChecks checks in
  let warnings := warningChecks checks in
  let on := functionsEnabled metrics in
  let r := default JUndefined ready in
  let card title description action v := ActionCard (o title) description (o action) v in
  let! status := text_or (get_opt r (js "status")) (common (js "checking")) in
  Ok (Section_ (o (js "title")) (o (js "description")) (Some (StatusBadge tr (truthy (get_opt r (js "ready")))))
    [div [Metric (o (js "apps")) [TextNode (nat_text (length apps))];
          Metric (o (js "selectedApp")) [TextNode (displayProjectName app)];
          Metric (o (js "ready")) [TextNode status];
          Metric (o (js "diagnostics"))
            [TextNode (if (0 <? failed) || diagnosticsError then common (js "needsAttention") else common (js "ok"))]];
     div [Panel (o (js "quickstart"))
            [div [card (js "quickstartKeys") (o (js "quickstartKeysDescription")) (js "openKeys") Vkeys;
                  card (js "quickstartData") (o (js "quickstartDataDescription")) (js "openData") Vdata;
                  card (js "quickstartStorage") (o (js "quickstartStorageDescription")) (js "openStorage") Vstorage;
                  card (js "quickstartFunctions")
                    (if on then o (js "quickstartFunctionsDescription") else o (js "functionsDisabledDescription"))
                    (js "openFunctions") Vfunctions]];
          Panel (o (js "projectStatus"))
            [div [HealthRow tr (o (js "database")) [TextNode (databaseSize metrics)] (failed =? 0) false;
                  HealthRow tr (o (js "storage"))
                    [TextNode (match metrics with Some m => ms_root (om_storage m) | None => common (js "checking") end)]
                    (match metrics with Some m => ms_ok (om_storage m) | None => true end) false;
                  HealthRow tr (o (js "functionsRuntime"))
                    [TextNode (if on then common (js "enabled") else common (js "disabled"))] on false;
                  HealthRow tr (o (js "diagnosticWarnings")) [TextNode (nat_text warnings)] (warnings =? 0) true;
                  div [text_div (o (js "projectId")); text_div (app_id app)]]]];
     div [Panel (o (js "recentActivity")) [ActivityList tr (default [] activity) false];
          Panel (o (js "operatorNotes"))
            [div [El (js "p") [TextNode (o (js "operatorNotesDescription"))];
                  div [TextNode (browserSafeOrigin origin); TextNode (js "/api/apps/"); TextNode (app_id app)];
                  El (js "details")
                    [El (js "summary") [TextNode (o (js "viewDiagnostics"))];
                     div [json_block (coalesce (default JUndefined (dg_raw <$> diagnostics))
                            (payload ready (js "loading")))]]]]]]).

(** ** Properties *)

(** A group is shown as failed exactly when the failure count is not zero. *)
Lemma failed_groups checks tg :
  failedChecks checks = 0 <-> Forall (fun g => dg_ok g = true) (groupDiagnosticChecks tg checks).
Proof.
  unfold failedChecks. rewrite <- Nat.eqb_eq, filter_none_length, Forall_forall. split.
  - intros H g Hg. destruct (group_ok_iff tg checks g Hg) as [_ ->]. intros c Hc _. by apply negb_false_iff, H.
  - intros H c Hc. apply negb_false_iff.
    assert (diagnosticBucket (dc_name c) ∈ map dg_id (groupDiagnosticChecks tg checks)) as Hb.
    { rewrite group_ids. apply (proj2 (proj2 (buckets_spec checks))). eauto. }
    apply list_elem_of_In, in_map_iff in Hb as (g & Hid & Hg%list_elem_of_In).
    destruct (group_ok_iff tg checks g Hg) as [_ Hok]. by apply (proj1 Hok (H g Hg)).
Qed.

(** The two pages agree on the platform's health: the overview's
    diagnostics metric says ok exactly when the diagnostics request did not
    fail and no group of the operations page is marked as failed, and then the
    failure count shown is 0. *)
Lemma health_consistent diagnostics err tg :
  let checks := platformChecks diagnostics in
  ((0 <? failedChecks checks) || err) = false <->
  (err = false /\ nat_text (failedChecks checks) = js "0" /\
   Forall (fun g => dg_ok g = true) (groupDiagnosticChecks tg checks)).
Proof.
  cbv zeta. rewrite orb_false_iff, Nat.ltb_ge, Nat.le_0_r, <- failed_groups. split.
  - by intros [-> ->].
  - by intros (-> & _ & ->).
Qed.

Lemma group_nodes_inert gs : flat_map enabled (map group_node gs) = [].
Proof. induction gs as [|g gs IH]; [done|]. cbn. by case_bool_decide. Qed.

Lemma text_table_inert columns (rows : list (list (node ops_action))) loading et ed :
  Forall (fun r => flat_map enabled r = []) rows -> enabled (DataTableView tr columns rows loading et ed None) = [].
Proof.
  intros H. destruct (enabled (DataTableView tr columns rows loading et ed None)) as [|a l] eqn:E; [done|].
  assert (a ∈ enabled (DataTableView tr columns rows loading et ed None)) as Ha by (rewrite E; left).
  apply table_enabled in Ha as [_ Ha]. apply elem_of_flat_map in Ha as (r & Hr & Ha).
  rewrite Forall_forall in H. rewrite H in Ha by done. by apply not_elem_of_nil in Ha.
Qed.

Lemma texts_inert (l : list jsstring) : flat_map enabled (map (@TextNode ops_action) l) = [].
Proof. by induction l. Qed.

Lemma usage_rows_inert usage : Forall (fun r => flat_map enabled r = []) (usageRows usage).
Proof.
  unfold usageRows. apply Forall_forall. intros r Hr. apply elem_of_flat_map in Hr as ([w u] & _ & Hr).
  apply list_elem_of_In, in_map_iff in Hr as (l & <- & _). apply texts_inert.
Qed.

Lemma backups_enabled backups loading clearing creating a :
  a ∈ enabled (backups_panel backups loading clearing creating) ->
  match a with
  | OClearRestore => is_Some (restorePending backups) /\ clearing = false
  | OCreateBackup => creating = false
  | ODownload name | ORestore name =>
      exists b, b ∈ match backups with Some r => br_backups r | None => [] end /\ bk_name b = name
  end.
Proof.
  unfold backups_panel, Panel. cbn [enabled flat_map Datatypes.app div]. rewrite !app_nil_r.
  intros [H|H]%elem_of_app.
  - destruct (restorePending backups), clearing, creating; cbn in H; in_actions H; by subst a.
  - apply table_enabled in H as [_ H]. apply elem_of_flat_map in H as (row & Hr & H).
    apply list_elem_of_In, in_map_iff in Hr as (b & <- & Hb%list_elem_of_In). cbn in H.
    in_actions H; subst a; by exists b.
Qed.

(** Backups are handled one by one and by name: on the operations page a
    pending restore can be cleared exactly when there is one, and every
    download and restore that is offered is of a listed backup; no other part
    of the page changes anything. *)
Lemma ops_actions_guarded ready diagnostics metrics ml usage ul backups bl clearing creating n a :
  OpsView ready diagnostics metrics ml usage ul backups bl clearing creating = Ok n -> a ∈ enabled n ->
  match a with
  | OClearRestore => is_Some (restorePending backups) /\ clearing = false
  | OCreateBackup => creating = false
  | ODownload name | ORestore name =>
      exists b, b ∈ match backups with Some r => br_backups r | None => [] end /\ bk_name b = name
  end.
Proof.
  unfold OpsView. destruct (text_or _ _) as [status|]; [|done]. cbn [res_bind]. intros <-%Ok_inj.
  rewrite section_enabled. intros H. apply (backups_enabled backups bl clearing creating).
  set (bp := backups_panel backups bl clearing creating) in *. clearbody bp.
  cbn [flat_map enabled Panel Metric div Datatypes.app json_block] in H.
  rewrite flat_map_app, group_nodes_inert, !text_table_inert in H.
  - destruct (platformChecks diagnostics); cbn in H; by rewrite ?app_nil_r in H.
  - apply usage_rows_inert.
  - unfold runtime_rows. apply Forall_forall. intros r Hr. apply list_elem_of_In, in_map_iff in Hr as (l & <- & _).
    apply texts_inert.
Qed.
End View.

End Ops.
