(* ===== verification/QueryCache.v ===== *)
(** * The query cache's keys

    Every [useQuery] of the console names its data by a key, and every
    mutation invalidates keys when it succeeds.  The query library is not part
    of the repository: the test by which it selects the queries to invalidate
    is the parameter [matches], of which only the documented rule is used (a
    filter selects the keys that start with it).

    The theorems: uses that share a key share their query function, so the
    cache never serves one use with another's data; every mutation invalidates
    the queries of the resource closest to the one its request writes; and it
    leaves other projects' queries alone.  Which resource a query reads and a
    mutation writes is the path of its request ([use_reads],
    [mutation_requests]). *)

From S2P Require Import Prelude JsString JsNumber JsValue Json Uri Prog Http Browser Session ApiClient ProgEq.
From S2P Require Import Types ConsoleUtils Ui Nav Activity Shell Forms.
From S2P Require Import KeysView DataView StorageView FunctionsView AuthView PushView OpsView.
Import Web Api Shell.

Module Cache.

Create HintDb query_keys.
Create HintDb query_programs.
Create HintDb query_paths.

(** ** The uses of [useQuery] *)

Inductive use : Type :=
| AppMe
| AppApps
| OverviewReady
| OverviewDiagnostics
| OverviewMetrics
| OverviewActivity (app : AppSummary)
| KeysKeys (app : AppSummary)
| AuthUsers (app : AppSummary)
| AuthProviders (app : AppSummary)
| AuthSessions (app : AppSummary) (userId : jsstring)
| DataTables (app : AppSummary)
| DataRows (app : AppSummary) (table : jsstring)
| StorageBuckets (app : AppSummary)
| StorageObjects (app : AppSummary) (bucket : jsstring)
| FunctionsMetrics
| FunctionsList (app : AppSummary)
| FunctionsDetail (app : AppSummary) (active : jsstring)
| FunctionsVersions (app : AppSummary) (active : jsstring)
| FunctionsInvocations (app : AppSummary) (active : jsstring)
| PushUsers (app : AppSummary)
| PushSubscriptions (app : AppSummary)
| PushDiagnostics (app : AppSummary)
| PushQueue (app : AppSummary)
| PushQueueStats (app : AppSummary)
| ActivityEvents (app : AppSummary)
| OpsReady
| OpsDiagnostics
| OpsMetricsUse
| OpsBackups
| OpsWorkspaceUsage.

(** The [queryKey] of each use, file by file. *)
(** [console-app.tsx] *)
Definition me_key : list jsstring := [js "admin"; js "me"].
Definition apps_key : list jsstring := [js "apps"].

(** [views/overview-view.tsx] *)
Definition overview_ready_key : list jsstring := [js "ready"].
Definition overview_diagnostics_key : list jsstring := [js "ops"; js "diagnostics"].
Definition overview_metrics_key : list jsstring := [js "ops"; js "metrics"].
Definition overview_activity_key (app : AppSummary) : list jsstring := [js "activity"; app_id app].

(** [views/keys-view.tsx] *)
Definition keys_key (app : AppSummary) : list jsstring := [js "keys"; app_id app].

(** [views/auth-view.tsx] *)
Definition users_key (app : AppSummary) : list jsstring := [js "auth"; js "users"; app_id app].
Definition providers_key (app : AppSummary) : list jsstring := [js "auth"; js "providers"; app_id app].
Definition sessions_key (app : AppSummary) (firstUserId : jsstring) : list jsstring := [js "auth"; js "sessions"; app_id app; firstUserId].

(** [views/data-view.tsx] *)
Definition tables_key (app : AppSummary) : list jsstring := [js "data"; js "tables"; app_id app].
Definition rows_key (app : AppSummary) (activeTable : jsstring) : list jsstring := [js "data"; js "rows"; app_id app; activeTable].

(** [views/storage-view.tsx] *)
Definition buckets_key (app : AppSummary) : list jsstring := [js "storage"; js "buckets"; app_id app].
Definition objects_key (app : AppSummary) (activeBucket : jsstring) : list jsstring := [js "storage"; js "objects"; app_id app; activeBucket].

(** [views/functions-view.tsx] *)
Definition functions_metrics_key : list jsstring := [js "ops"; js "metrics"].
Definition functions_key (app : AppSummary) : list jsstring := [js "functions"; app_id app].
Definition detail_key (app : AppSummary) (activeName : jsstring) : list jsstring := [js "functions"; js "detail"; app_id app; activeName].
Definition versions_key (app : AppSummary) (activeName : jsstring) : list jsstring := [js "functions"; js "versions"; app_id app; activeName].
Definition invocations_key (app : AppSummary) (activeName : jsstring) : list jsstring := [js "functions"; js "invocations"; app_id app; activeName].

(** [views/push-view.tsx] *)
Definition push_users_key (app : AppSummary) : list jsstring := [js "auth"; js "users"; app_id app].
Definition subscriptions_key (app : AppSummary) : list jsstring := [js "push"; js "subscriptions"; app_id app].
Definition push_diagnostics_key (app : AppSummary) : list jsstring := [js "push"; js "diagnostics"; app_id app].
Definition queue_key (app : AppSummary) : list jsstring := [js "push"; js "queue"; app_id app].
Definition queue_stats_key (app : AppSummary) : list jsstring := [js "push"; js "queue-stats"; app_id app].

(** [views/activity-view.tsx] *)
Definition activity_key (app : AppSummary) : list jsstring := [js "activity"; app_id app].

(** [views/ops-view.tsx] *)
Definition ready_key : list jsstring := [js "ready"].
Definition diagnostics_key : list jsstring := [js "ops"; js "diagnostics"].
Definition metrics_key : list jsstring := [js "ops"; js "metrics"].
Definition backups_key : list jsstring := [js "ops"; js "backups"].
Definition workspace_usage_key : list jsstring := [js "ops"; js "workspace-usage"].

Definition use_key (u : use) : list jsstring :=
  match u with
  | AppMe => me_key
  | AppApps => apps_key
  | OverviewReady => overview_ready_key
  | OverviewDiagnostics => overview_diagnostics_key
  | OverviewMetrics => overview_metrics_key
  | OverviewActivity app => overview_activity_key app
  | KeysKeys app => keys_key app
  | AuthUsers app => users_key app
  | AuthProviders app => providers_key app
  | AuthSessions app firstUserId => sessions_key app firstUserId
  | DataTables app => tables_key app
  | DataRows app activeTable => rows_key app activeTable
  | StorageBuckets app => buckets_key app
  | StorageObjects app activeBucket => objects_key app activeBucket
  | FunctionsMetrics => functions_metrics_key
  | FunctionsList app => functions_key app
  | FunctionsDetail app activeName => detail_key app activeName
  | FunctionsVersions app activeName => versions_key app activeName
  | FunctionsInvocations app activeName => invocations_key app activeName
  | PushUsers app => push_users_key app
  | PushSubscriptions app => subscriptions_key app
  | PushDiagnostics app => push_diagnostics_key app
  | PushQueue app => queue_key app
  | PushQueueStats app => queue_stats_key app
  | ActivityEvents app => activity_key app
  | OpsReady => ready_key
  | OpsDiagnostics => diagnostics_key
  | OpsMetricsUse => metrics_key
  | OpsBackups => backups_key
  | OpsWorkspaceUsage => workspace_usage_key
  end.

#[local] Hint Unfold me_key apps_key overview_ready_key overview_diagnostics_key overview_metrics_key
  overview_activity_key keys_key users_key providers_key sessions_key tables_key rows_key buckets_key
  objects_key functions_metrics_key functions_key detail_key versions_key invocations_key push_users_key
  subscriptions_key push_diagnostics_key queue_key queue_stats_key activity_key ready_key diagnostics_key
  metrics_key backups_key workspace_usage_key : query_keys.

(** The definitions behind the keys. *)
Ltac unfold_keys H := cbn [use_key] in H; autounfold with query_keys in H.

(** A query's function: a program, or the workspace usage, which is several
    requests combined ([Ops.workspaceUsage]). *)
Inductive query_fn : Type :=
| Program (p : web jsval)
| WorkspaceUsage (first : web jsval).

Section Uses.
Variable API_BASE : jsstring.

(** ** The overview's own queries ([views/overview-view.tsx]) *)

Definition overview_ready : web jsval :=
  apiFetch API_BASE (js "/api/ready")
    {| i_method := None; i_headers := []; i_body := None; i_auth := Some false |}.
Definition overview_diagnostics : web jsval := apiFetch API_BASE (js "/api/admin/ops/diagnostics") init_default.
Definition overview_metrics : web jsval := apiFetch API_BASE (js "/api/admin/ops/metrics") init_default.

(** [response.events ?? response.activity ?? []] *)
Definition overview_activity (app : AppSummary) : web jsval :=
  response ← apiFetch API_BASE (js "/api/apps/" ++ app_id app ++ js "/activity") init_default;
  events ← lift (get response (js "events"));
  match events with
  | JUndefined | JNull => activity ← lift (get response (js "activity")); Ret (coalesce activity (JArr []))
  | v => Ret v
  end.

(** The [queryFn] of each use. *)
Definition use_fn (u : use) : query_fn :=
  match u with
  | AppMe => Program (meQuery API_BASE)
  | AppApps => Program (appsQuery API_BASE)
  | OverviewReady => Program overview_ready
  | OverviewDiagnostics => Program overview_diagnostics
  | OverviewMetrics => Program overview_metrics
  | OverviewActivity app => Program (overview_activity app)
  | KeysKeys app => Program (Keys.keysQuery API_BASE app)
  | AuthUsers app => Program (Users.usersQuery API_BASE app)
  | AuthProviders app => Program (Users.providersQuery API_BASE app)
  | AuthSessions app userId => Program (Users.sessionsQuery API_BASE app userId)
  | DataTables app => Program (Data.tablesQuery API_BASE app)
  | DataRows app table => Program (Data.rowsQuery API_BASE app table)
  | StorageBuckets app => Program (Storage.bucketsQuery API_BASE app)
  | StorageObjects app bucket => Program (Storage.objectsQuery API_BASE app bucket)
  | FunctionsMetrics => Program (Functions.metricsQuery API_BASE)
  | FunctionsList app => Program (Functions.functionsQuery API_BASE app)
  | FunctionsDetail app active => Program (Functions.detailQuery API_BASE app active)
  | FunctionsVersions app active => Program (Functions.versionsQuery API_BASE app active)
  | FunctionsInvocations app active => Program (Functions.invocationsQuery API_BASE app active)
  | PushUsers app => Program (Push.usersQuery API_BASE app)
  | PushSubscriptions app => Program (Push.subscriptionsQuery API_BASE app)
  | PushDiagnostics app => Program (Push.diagnosticsQuery API_BASE app)
  | PushQueue app => Program (Push.queueQuery API_BASE app)
  | PushQueueStats app => Program (Push.statsQuery API_BASE app)
  | ActivityEvents app => Program (Activity.activityQuery API_BASE app)
  | OpsReady => Program (Ops.readyQuery API_BASE)
  | OpsDiagnostics => Program (Ops.diagnosticsQuery API_BASE)
  | OpsMetricsUse => Program (Ops.metricsQuery API_BASE)
  | OpsBackups => Program (Ops.backupsQuery API_BASE)
  | OpsWorkspaceUsage => WorkspaceUsage (Ops.workspacesQuery API_BASE)
  end.

(** Query functions that do the same. *)
Definition fn_equiv (f g : query_fn) : Prop :=
  match f, g with
  | Program p, Program q | WorkspaceUsage p, WorkspaceUsage q => p ≡ q
  | _, _ => False
  end.

(** Reading [activity] first or only when needed is the same. *)
Lemma activity_equiv app app' : app_id app = app_id app' ->
  overview_activity app ≡ Activity.activityQuery API_BASE app'.
Proof.
  intros E. unfold overview_activity, Activity.activityQuery. rewrite E. apply bind_equiv. intros response.
  destruct response as [| | | | | |fields]; try done; cbn [get lift mbind prog_bind].
  by destruct (default JUndefined (assoc (js "events") fields)).
Qed.

(** C9: Cache coherence: two uses of [useQuery] with the same key, in the same or
    in different views and for any two projects, have query functions that do
    the same in every environment, so a cached answer is the answer the use
    would have fetched itself. *)
Theorem cache_coherent u u' : use_key u = use_key u' -> fn_equiv (use_fn u) (use_fn u').
Proof.
  intros H.
  destruct u as [| | | | |app|app|app|app|app x|app|app x|app|app x| |app|app x|app x|app x|app|app|app|app|app|app| | | | |],
    u' as [| | | | |app'|app'|app'|app'|app' x'|app'|app' x'|app'|app' x'| |app'|app' x'|app' x'|app' x'|app'|app'|app'|app'|app'|app'| | | | |];
    try (vm_compute in H; discriminate H).
  all: cbn [use_fn fn_equiv]; try reflexivity.
  all: try destruct app, app'; unfold_keys H; simpl in H; simplify_eq.
  all: try reflexivity.
  all: first [by apply activity_equiv | symmetry; by apply activity_equiv].
Qed.
End Uses.

(** ** Mutations and what they invalidate *)

(** The uses of [useMutation] that change the server's data, with what their
    [mutationFn] and [onSuccess] run on: the project, the object acted on, the
    response and the component's state. *)
Inductive mutation : Type :=
| MCreateKey (app : AppSummary) (response : jsval) (s : Keys.KeysState)
| MRevokeKey (app : AppSummary) (keyId : jsstring) (s : Keys.KeysState)
| MRotateKey (app : AppSummary) (keyId rowName : jsstring) (response : jsval) (s : Keys.KeysState)
| MCreateApp (s : Apps.AppsState)
| MUpdateApp (row : AppSummary) (s : Apps.RowState)
| MDeleteApp (row : AppSummary) (s : Apps.RowState)
| MCreateTable (app : AppSummary) (s : Data.DataState)
| MUpdateTable (app : AppSummary) (table : jsstring) (s : Data.TableEditor)
| MDeleteTable (app : AppSummary) (table : jsstring) (s : Data.TableEditor)
| MCreateRow (app : AppSummary) (table : jsstring) (s : Data.DataState)
| MUpdateRow (app : AppSummary) (table rowId : jsstring) (s : Data.RowEditor)
| MDeleteRow (app : AppSummary) (table rowId : jsstring) (s : Data.RowEditor)
| MCreateBucket (app : AppSummary) (s : Storage.StorageState)
| MUpdateBucket (app : AppSummary) (bucket : StorageBucket) (s : Storage.BucketForm)
| MDeleteBucket (app : AppSummary) (bucket : StorageBucket) (s : Storage.BucketForm)
| MUploadObject (app : AppSummary) (bucket : jsstring) (s : Storage.StorageState)
| MDeleteObject (app : AppSummary) (bucket key : jsstring)
| MCreateFunction (app : AppSummary) (fn : FunctionDetail) (s : Functions.FunctionsState)
| MUpdateFunction (app : AppSummary) (active : jsstring) (fn : FunctionDetail) (s : Functions.FunctionsState)
| MDeleteFunction (app : AppSummary) (active : jsstring) (s : Functions.FunctionsState)
| MInvokeFunction (app : AppSummary) (active : jsstring) (response : jsval) (s : Functions.FunctionsState)
| MRollbackVersion (app : AppSummary) (active : jsstring) (version : Z) (s : Functions.FunctionsState)
| MRetryInvocation (app : AppSummary) (active invocation : jsstring) (response : jsval) (s : Functions.FunctionsState)
| MCreateUser (app : AppSummary) (s : Users.UsersState)
| MToggleUser (app : AppSummary) (user : PeanutUser) (s : Users.UsersState)
| MDeleteUser (app : AppSummary) (user : PeanutUser) (s : Users.UsersState)
| MRevokeSession (app : AppSummary) (userId sessionId : jsstring) (s : Users.UsersState)
| MSendTest (app : AppSummary) (users : option (list PeanutUser)) (s : Push.PushState)
| MCreateBackup
| MScheduleRestore (name : jsstring)
| MClearRestore.

Section Mutations.
Variable tr : translator.

Definition effects_of {S} (r : outcome (S * list effect)) : outcome (list effect) := res_map snd r.

(** What the mutation's [onSuccess] does besides setting state. *)
Definition mutation_effects (m : mutation) : outcome (list effect) :=
  match m with
  | MCreateKey app response s => effects_of (Keys.createKey_success tr app response s)
  | MRevokeKey app _ s => effects_of (Keys.revokeKey_success tr app s)
  | MRotateKey app _ rowName response s => effects_of (Keys.rotateKey_success tr app rowName response s)
  | MCreateApp s => effects_of (Apps.createApp_success tr s)
  | MUpdateApp _ s => effects_of (Apps.updateApp_success tr s)
  | MDeleteApp _ s => effects_of (Apps.deleteApp_success tr s)
  | MCreateTable app s => effects_of (Data.createTable_success tr app s)
  | MUpdateTable app _ s => effects_of (Data.updateTable_success tr app s)
  | MDeleteTable app _ s => effects_of (Data.deleteTable_success tr app s)
  | MCreateRow app table s => effects_of (Data.createRow_success tr app table s)
  | MUpdateRow app table _ s => effects_of (Data.updateRow_success tr app table s)
  | MDeleteRow app table _ s => effects_of (Data.deleteRow_success tr app table s)
  | MCreateBucket app s => effects_of (Storage.createBucket_success tr app s)
  | MUpdateBucket app _ s => effects_of (Storage.updateBucket_success tr app s)
  | MDeleteBucket app _ s => effects_of (Storage.deleteBucket_success tr app s)
  | MUploadObject app bucket s => effects_of (Storage.uploadObject_success tr app bucket s)
  | MDeleteObject app bucket _ => effects_of (Storage.deleteObject_success tr app bucket tt)
  | MCreateFunction app fn s => effects_of (Functions.createFunction_success tr app fn s)
  | MUpdateFunction app active fn s => effects_of (Functions.updateFunction_success tr app active fn s)
  | MDeleteFunction app _ s => effects_of (Functions.deleteFunction_success tr app s)
  | MInvokeFunction app active response s => effects_of (Functions.invokeFunction_success tr app active response s)
  | MRollbackVersion app active _ s => effects_of (Functions.rollbackVersion_success tr app active s)
  | MRetryInvocation app active _ response s => effects_of (Functions.retryInvocation_success tr app active response s)
  | MCreateUser app s => effects_of (Users.createUser_success tr app s)
  | MToggleUser app user s => effects_of (Users.toggleUser_success tr app user s)
  | MDeleteUser app user s => effects_of (Users.deleteUser_success tr app user s)
  | MRevokeSession app userId _ s => effects_of (Users.revokeSession_success tr app userId s)
  | MSendTest app _ s => effects_of (Push.sendTest_success tr app s)
  | MCreateBackup => effects_of (Ops.createBackup_success tr tt)
  | MScheduleRestore _ => effects_of (Ops.scheduleRestore_success tr tt)
  | MClearRestore => effects_of (Ops.clearRestore_success tr tt)
  end.

(** The keys given to [invalidateQueries]. *)
Definition invalidated (es : list effect) : list (list jsstring) :=
  omap (fun e => match e with Invalidate k => Some k | _ => None end) es.

Definition mutation_app (m : mutation) : option AppSummary :=
  match m with
  | MCreateKey app _ _ | MRevokeKey app _ _ | MRotateKey app _ _ _ _ | MCreateTable app _ | MUpdateTable app _ _
  | MDeleteTable app _ _ | MCreateRow app _ _ | MUpdateRow app _ _ _ | MDeleteRow app _ _ _ | MCreateBucket app _
  | MUpdateBucket app _ _ | MDeleteBucket app _ _ | MUploadObject app _ _ | MDeleteObject app _ _
  | MCreateFunction app _ _ | MUpdateFunction app _ _ _ | MDeleteFunction app _ _ | MInvokeFunction app _ _ _
  | MRollbackVersion app _ _ _ | MRetryInvocation app _ _ _ _ | MCreateUser app _ | MToggleUser app _ _
  | MDeleteUser app _ _ | MRevokeSession app _ _ _ | MSendTest app _ _ => Some app
  | _ => None
  end.

Definition use_app (u : use) : option AppSummary :=
  match u with
  | OverviewActivity app | KeysKeys app | AuthUsers app | AuthProviders app | AuthSessions app _ | DataTables app
  | DataRows app _ | StorageBuckets app | StorageObjects app _ | FunctionsList app | FunctionsDetail app _
  | FunctionsVersions app _ | FunctionsInvocations app _ | PushUsers app | PushSubscriptions app
  | PushDiagnostics app | PushQueue app | PushQueueStats app | ActivityEvents app => Some app
  | _ => None
  end.

(** ** What a mutation writes to, and what a query reads *)

(** A path, segment by segment. *)
Definition path_text (segments : list jsstring) : jsstring := concat (map (fun s => js "/" ++ s) segments).

Definition project_segments (app : AppSummary) (rest : list jsstring) : list jsstring :=
  js "api" :: js "apps" :: app_id app :: rest.

(** The resource a query reads. *)
Definition use_segments (u : use) : list jsstring :=
  match u with
  | AppMe => [js "api"; js "admin"; js "auth"; js "me"]
  | AppApps => [js "api"; js "apps"]
  | OverviewReady | OpsReady => [js "api"; js "ready"]
  | OverviewDiagnostics | OpsDiagnostics => [js "api"; js "admin"; js "ops"; js "diagnostics"]
  | OverviewMetrics | FunctionsMetrics | OpsMetricsUse => [js "api"; js "admin"; js "ops"; js "metrics"]
  | OverviewActivity app | ActivityEvents app => project_segments app [js "activity"]
  | KeysKeys app => project_segments app [js "keys"]
  | AuthUsers app | PushUsers app => project_segments app [js "auth"; js "users"]
  | AuthProviders app => project_segments app [js "auth"; js "providers"]
  | AuthSessions app userId => project_segments app [js "auth"; js "users"; userId; js "sessions"]
  | DataTables app => project_segments app [js "data"; js "tables"]
  | DataRows app table => project_segments app [js "data"; js "tables"; table; js "rows"]
  | StorageBuckets app => project_segments app [js "storage"; js "buckets"]
  | StorageObjects app bucket => project_segments app [js "storage"; js "buckets"; bucket; js "objects"]
  | FunctionsList app => project_segments app [js "functions"]
  | FunctionsDetail app active => project_segments app [js "functions"; active]
  | FunctionsVersions app active => project_segments app [js "functions"; active; js "versions"]
  | FunctionsInvocations app active => project_segments app [js "functions"; active; js "invocations"]
  | PushSubscriptions app => project_segments app [js "push"; js "subscriptions"]
  | PushDiagnostics app => project_segments app [js "push"; js "diagnostics"]
  | PushQueue app => project_segments app [js "push"; js "queue"]
  | PushQueueStats app => project_segments app [js "push"; js "queue"; js "stats"]
  | OpsBackups => [js "api"; js "admin"; js "backups"]
  | OpsWorkspaceUsage => [js "api"; js "workspaces"]
  end.

(** The method and the resource of a mutation's request. *)
Definition mutation_request (m : mutation) : jsstring * list jsstring :=
  match m with
  | MCreateKey app _ _ => (js "POST", project_segments app [js "keys"])
  | MRevokeKey app keyId _ => (js "DELETE", project_segments app [js "keys"; keyId])
  | MRotateKey app keyId _ _ _ => (js "POST", project_segments app [js "keys"; keyId; js "rotate"])
  | MCreateApp _ => (js "POST", [js "api"; js "apps"])
  | MUpdateApp row _ => (js "PATCH", project_segments row [])
  | MDeleteApp row _ => (js "DELETE", project_segments row [])
  | MCreateTable app _ => (js "POST", project_segments app [js "data"; js "tables"])
  | MUpdateTable app table _ => (js "PATCH", project_segments app [js "data"; js "tables"; table])
  | MDeleteTable app table _ => (js "DELETE", project_segments app [js "data"; js "tables"; table])
  | MCreateRow app table _ => (js "POST", project_segments app [js "data"; js "tables"; table; js "rows"])
  | MUpdateRow app table rowId _ => (js "PATCH", project_segments app [js "data"; js "tables"; table; js "rows"; rowId])
  | MDeleteRow app table rowId _ => (js "DELETE", project_segments app [js "data"; js "tables"; table; js "rows"; rowId])
  | MCreateBucket app _ => (js "POST", project_segments app [js "storage"; js "buckets"])
  | MUpdateBucket app bucket _ => (js "PATCH", project_segments app [js "storage"; js "buckets"; sb_name bucket])
  | MDeleteBucket app bucket _ => (js "DELETE", project_segments app [js "storage"; js "buckets"; sb_name bucket])
  | MUploadObject app bucket s =>
      (js "PUT", project_segments app ([js "storage"; js "buckets"; bucket; js "objects"] ++ split (js "/") (Storage.objectKey s)))
  | MDeleteObject app bucket key =>
      (js "DELETE", project_segments app ([js "storage"; js "buckets"; bucket; js "objects"] ++ split (js "/") key))
  | MCreateFunction app _ _ => (js "POST", project_segments app [js "functions"])
  | MUpdateFunction app active _ _ => (js "PATCH", project_segments app [js "functions"; active])
  | MDeleteFunction app active _ => (js "DELETE", project_segments app [js "functions"; active])
  | MInvokeFunction app _ _ s =>
      (Functions.requestMethod s, project_segments app [js "function-endpoints"; Functions.d_endpointSlug (Functions.draft s)])
  | MRollbackVersion app active version _ =>
      (js "POST", project_segments app [js "functions"; active; js "versions"; string_of_Z version; js "rollback"])
  | MRetryInvocation app active invocation _ _ =>
      (js "POST", project_segments app [js "functions"; active; js "invocations"; invocation; js "retry"])
  | MCreateUser app _ => (js "POST", project_segments app [js "auth"; js "users"])
  | MToggleUser app user _ =>
      (js "POST", project_segments app [js "auth"; js "users"; u_id user; if u_is_active user then js "deactivate" else js "activate"])
  | MDeleteUser app user _ => (js "DELETE", project_segments app [js "auth"; js "users"; u_id user])
  | MRevokeSession app userId sessionId _ =>
      (js "DELETE", project_segments app [js "auth"; js "users"; userId; js "sessions"; sessionId])
  | MSendTest app _ _ => (js "POST", project_segments app [js "push"; js "test-message"])
  | MCreateBackup => (js "POST", [js "api"; js "admin"; js "backups"])
  | MScheduleRestore name => (js "POST", [js "api"; js "admin"; js "backups"; name; js "restore"])
  | MClearRestore => (js "DELETE", [js "api"; js "admin"; js "backups"; js "restore-pending"])
  end.

(** The [mutationFn] of each mutation. *)
Definition mutation_fn (API_BASE : jsstring) (m : mutation) : web jsval :=
  match m with
  | MCreateKey app _ s => Keys.createKey API_BASE app s
  | MRevokeKey app keyId _ => Keys.revokeKey API_BASE app keyId
  | MRotateKey app keyId _ _ _ => Keys.rotateKey API_BASE app keyId
  | MCreateApp s => Apps.createApp API_BASE s
  | MUpdateApp row s => Apps.updateApp API_BASE row s
  | MDeleteApp row _ => Apps.deleteApp API_BASE row
  | MCreateTable app s => Data.createTable API_BASE app s
  | MUpdateTable app table s => Data.updateTable API_BASE tr app table s
  | MDeleteTable app table _ => Data.deleteTable API_BASE app table
  | MCreateRow app table s => Data.createRow API_BASE app table s
  | MUpdateRow app table rowId s => Data.updateRow API_BASE tr app table rowId s
  | MDeleteRow app table rowId _ => Data.deleteRow API_BASE app table rowId
  | MCreateBucket app s => Storage.createBucket API_BASE app s
  | MUpdateBucket app bucket f => Storage.updateBucket API_BASE app bucket f
  | MDeleteBucket app bucket _ => Storage.deleteBucket API_BASE app bucket
  | MUploadObject app bucket s => Storage.uploadObject API_BASE app bucket s
  | MDeleteObject app bucket key => Storage.deleteObject API_BASE app bucket key
  | MCreateFunction app _ s => Functions.createFunction API_BASE app s
  | MUpdateFunction app active _ s => Functions.updateFunction API_BASE app active s
  | MDeleteFunction app active _ => Functions.deleteFunction API_BASE app active
  | MInvokeFunction app _ _ s => Functions.invokeFunction API_BASE tr app s
  | MRollbackVersion app active version _ => Functions.rollbackVersion API_BASE app active version
  | MRetryInvocation app active invocation _ _ => Functions.retryInvocation API_BASE app active invocation
  | MCreateUser app s => Users.createUser API_BASE app s
  | MToggleUser app user _ => Users.toggleUser API_BASE app user
  | MDeleteUser app user _ => Users.deleteUser API_BASE app user
  | MRevokeSession app userId sessionId _ => Users.revokeSession API_BASE app userId sessionId
  | MSendTest app users s => Push.sendTest API_BASE app s users
  | MCreateBackup => Ops.createBackup API_BASE
  | MScheduleRestore name => Ops.scheduleRestore API_BASE name
  | MClearRestore => Ops.clearRestore API_BASE
  end.

(** *** The resources are those of the code *)

(** The text is the path of the segments, with or without a query string. *)
Definition is_path (segments : list jsstring) (text : jsstring) : Prop :=
  exists suffix, text = path_text segments ++ suffix /\ (suffix = [] \/ exists q, suffix = js "?" ++ q).

(** The program is one [apiFetch] for the resource, after steps that send
    nothing, with its answer passed on. *)
Inductive fetches (API_BASE : jsstring) (method : option jsstring) (segments : list jsstring) : web jsval -> Prop :=
| fetches_now path init :
    is_path segments path -> i_method init = method -> fetches API_BASE method segments (apiFetch API_BASE path init)
| fetches_then path init k :
    is_path segments path -> i_method init = method ->
    (forall v, exists o, k v = lift o) -> fetches API_BASE method segments (apiFetch API_BASE path init ≫= k)
| fetches_after {X} (x : outcome X) k :
    (forall a, fetches API_BASE method segments (k a)) -> fetches API_BASE method segments (lift x ≫= k).

Lemma path_text_cons x l : path_text (x :: l) = js "/" ++ x ++ path_text l.
Proof. reflexivity. Qed.

Lemma path_text_join l : l <> [] -> path_text l = js "/" ++ join (js "/") l.
Proof.
  induction l as [|x l IH]; [done|]. intros _. destruct l as [|y l].
  - unfold path_text. simpl. by rewrite app_nil_r.
  - by rewrite join_cons, path_text_cons, IH.
Qed.

(** The segments of an object key. *)
Lemma path_text_split s : path_text (split (js "/") s) = js "/" ++ s.
Proof.
  rewrite path_text_join; [by rewrite join_split|].
  destruct (split_go_cons (js "/") 0 s) as (h & t & H). unfold split. by rewrite H.
Qed.

(** Compare a path of the code with its segments. *)
Ltac same_path :=
  unfold project_segments; cbn [Datatypes.app]; rewrite ?path_text_cons, ?path_text_split; unfold path_text; simpl;
  rewrite <- ?app_assoc; simpl; rewrite ?app_nil_r; reflexivity.

Ltac is_path_of :=
  repeat match goal with |- context [if ?b then _ else _] => destruct b end;
  first [ exists []; split; [rewrite app_nil_r; same_path|by left]
        | eexists (js "?" ++ _); split; [same_path|right; by eexists] ].

(** What a query asks for. *)
Definition program_of (f : query_fn) : web jsval := match f with Program p | WorkspaceUsage p => p end.

(** The definitions of the queries, of the mutations and of their paths. *)
#[local] Hint Unfold overview_ready overview_diagnostics overview_metrics overview_activity meQuery appsQuery
  Keys.keysQuery Users.usersQuery Users.providersQuery Users.sessionsQuery Data.tablesQuery Data.rowsQuery
  Storage.bucketsQuery Storage.objectsQuery Functions.metricsQuery Functions.functionsQuery Functions.detailQuery
  Functions.versionsQuery Functions.invocationsQuery Push.usersQuery Push.subscriptionsQuery Push.diagnosticsQuery
  Push.queueQuery Push.statsQuery Activity.activityQuery Ops.readyQuery Ops.diagnosticsQuery Ops.metricsQuery
  Ops.backupsQuery Ops.workspacesQuery Forms.fetch_field : query_programs.
#[local] Hint Unfold Keys.createKey Keys.revokeKey Keys.rotateKey Apps.createApp Apps.updateApp Apps.deleteApp
  Data.createTable Data.updateTable Data.deleteTable Data.createRow Data.updateRow Data.deleteRow
  Storage.createBucket Storage.updateBucket Storage.deleteBucket Storage.uploadObject Storage.deleteObject
  Functions.createFunction Functions.updateFunction Functions.deleteFunction Functions.invokeFunction
  Functions.rollbackVersion Functions.retryInvocation Users.createUser Users.toggleUser Users.deleteUser
  Users.revokeSession Push.sendTest Ops.createBackup Ops.scheduleRestore Ops.clearRestore : query_programs.
#[local] Hint Unfold Forms.app_path Keys.keysPath Keys.keyPath Users.usersPath Users.userPath Data.tablesPath
  Data.tablePath Data.rowsPath Data.rowPath Storage.bucketsPath Storage.bucketPath Storage.objectPath
  Functions.functionsPath Functions.functionPath Functions.endpointPath Push.pushPath : query_paths.

(** The shape of a query or of a mutation. *)
Ltac fetch_shape :=
  autounfold with query_programs;
  repeat lazymatch goal with
  | |- fetches _ _ _ (lift _ ≫= _) => apply fetches_after; intros ?
  | |- fetches _ _ _ (_ ≫= _) => apply fetches_then
  | |- fetches _ _ _ (apiFetch _ _ _) => apply fetches_now
  end;
  lazymatch goal with
  | |- is_path _ _ => autounfold with query_paths; is_path_of
  | |- i_method _ = _ => reflexivity
  | |- _ => idtac
  end.

(** The request of every query is for its resource. *)
Lemma use_reads API_BASE u : fetches API_BASE None (use_segments u) (program_of (use_fn API_BASE u)).
Proof.
  destruct u; cbn [use_fn program_of use_segments]; fetch_shape.
  all: intros v; try by eexists.
  all: destruct (get v (js "events")) as [events|e]; cbn [lift mbind prog_bind]; [|by exists (Err e)].
  - destruct events, (get v (js "activity")) as [activity|e];
      cbn [lift mbind prog_bind]; first [by exists (Err e) | by eexists (Ok _)].
  - destruct (get v (js "activity")) as [activity|e]; [by eexists (Ok _)|by exists (Err e)].
Qed.

(** The request of every mutation. *)
Lemma mutation_requests API_BASE m :
  fetches API_BASE (Some (mutation_request m).1) (mutation_request m).2 (mutation_fn API_BASE m).
Proof.
  destruct m; cbn [mutation_fn mutation_request fst snd]; fetch_shape.
Qed.

(** *** The query a mutation concerns *)

(** The collection or object a request changes: a deleted object leaves its
    collection. *)
Definition mutation_target (m : mutation) : list jsstring :=
  let '(method, segments) := mutation_request m in
  if jseq method (js "DELETE") then removelast segments else segments.

(** The query belongs to the mutation's project, or both to none, and reads a
    resource that contains the one changed. *)
Definition encloses (u : use) (m : mutation) : Prop :=
  app_id <$> use_app u = app_id <$> mutation_app m /\ use_segments u `prefix_of` mutation_target m.

(** The closest such resource. *)
Definition nearest (u : use) (m : mutation) : Prop :=
  encloses u m /\ forall u', encloses u' m -> use_segments u' `prefix_of` use_segments u.

(** It is found by computation; the requests of a call of a function and of
    a test message are below no resource the console reads. *)
Definition nearest_use (m : mutation) : option use :=
  match m with
  | MCreateKey app _ _ | MRevokeKey app _ _ | MRotateKey app _ _ _ _ => Some (KeysKeys app)
  | MCreateApp _ | MUpdateApp _ _ | MDeleteApp _ _ => Some AppApps
  | MCreateTable app _ | MUpdateTable app _ _ | MDeleteTable app _ _ => Some (DataTables app)
  | MCreateRow app table _ | MUpdateRow app table _ _ | MDeleteRow app table _ _ => Some (DataRows app table)
  | MCreateBucket app _ | MUpdateBucket app _ _ | MDeleteBucket app _ _ => Some (StorageBuckets app)
  | MUploadObject app bucket _ | MDeleteObject app bucket _ => Some (StorageObjects app bucket)
  | MCreateFunction app _ _ | MDeleteFunction app _ _ => Some (FunctionsList app)
  | MUpdateFunction app active _ _ => Some (FunctionsDetail app active)
  | MRollbackVersion app active _ _ => Some (FunctionsVersions app active)
  | MRetryInvocation app active _ _ _ => Some (FunctionsInvocations app active)
  | MCreateUser app _ | MToggleUser app _ _ | MDeleteUser app _ _ => Some (AuthUsers app)
  | MRevokeSession app userId _ _ => Some (AuthSessions app userId)
  | MCreateBackup | MScheduleRestore _ | MClearRestore => Some OpsBackups
  | MInvokeFunction _ _ _ _ | MSendTest _ _ _ => None
  end.

(** Which case of the method. *)
Ltac method_cases H :=
  try match type of H with
  | (if ?b then _ else _) = _ =>
      let c := eval vm_compute in b in
      lazymatch c with true => change b with true in H | false => change b with false in H | _ => destruct b end
  end; cbn match in H;
  try match type of H with context [u_is_active ?user] => destruct (u_is_active user) end.

(** A deleted object leaves the list of the bucket's objects. *)
Lemma delete_object_target app bucket key :
  use_segments (StorageObjects app bucket) `prefix_of` mutation_target (MDeleteObject app bucket key).
Proof.
  destruct (split_go_cons (js "/") 0 key) as (h & t & H).
  exists (removelast (h :: t)). rewrite <- H.
  change (mutation_target (MDeleteObject app bucket key))
    with (removelast (use_segments (StorageObjects app bucket) ++ split (js "/") key)).
  apply removelast_app. unfold split. by rewrite H.
Qed.

Lemma nearest_use_encloses m v : nearest_use m = Some v -> encloses v m.
Proof.
  intros H. destruct m; cbn [nearest_use] in H; try discriminate H; apply Some_inj' in H as <-; (split; [done|]);
    first [apply delete_object_target | by eexists].
Qed.


Lemma enclosing_prefix u m : encloses u m -> exists v, nearest_use m = Some v /\ use_segments u `prefix_of` use_segments v.
Proof.
  intros [Hs Hp]. destruct m as [ | | | | | | | | | | | | | | | |app bucket key| | | | | | | | | | | | | |].
  all: try (destruct (delete_object_target app bucket key) as [r Hr]; rewrite Hr in Hp).
  all: destruct Hp as [l Hp], u; cbn [use_app mutation_app fmap option_fmap option_map] in Hs; try discriminate Hs.
  all: try apply Some_inj' in Hs; unfold mutation_target in Hp; cbn [mutation_request use_segments] in Hp.
  all: method_cases Hp.
  all: unfold project_segments in Hp; cbn [Datatypes.app removelast] in Hp.
  all: try (vm_compute in Hp; discriminate Hp).
  all: injection Hp as Hp; subst.
  all: eexists; (split; [reflexivity|]); cbn [use_segments]; unfold project_segments; rewrite ?Hs; by eexists.
Qed.

(** Queries of one resource have one key. *)
Lemma segments_key u v : use_segments u = use_segments v -> use_key u = use_key v.
Proof.
  intros H.
  destruct u, v; cbn [use_segments] in H; unfold project_segments in H;
    try (vm_compute in H; discriminate H); try injection H as H; cbn [use_key]; autounfold with query_keys; congruence.
Qed.


(** The nearest query has the key of the one computed. *)
Lemma nearest_key u m : nearest u m -> exists v, nearest_use m = Some v /\ use_key u = use_key v.
Proof.
  intros [Hu Hmax]. destruct (enclosing_prefix u m Hu) as (v & Hv & Hp). exists v. split; [done|].
  apply segments_key, (anti_symm prefix); [done|]. by apply Hmax, nearest_use_encloses.
Qed.

Lemma nearest_use_nearest m v : nearest_use m = Some v -> nearest v m.
Proof.
  intros Hv. split; [by apply nearest_use_encloses|]. intros u Hu.
  destruct (enclosing_prefix u m Hu) as (v' & Hv' & Hp). congruence.
Qed.

(** ** The query library *)
Context (matches : list jsstring -> list jsstring -> bool).

(** Its documented rule: a filter selects the keys that start with it. *)
Context (matches_prefix : forall filter key, matches filter key = true <-> filter `prefix_of` key).

(** The query of a use is refetched. *)
Definition refetched (es : list effect) (u : use) : bool :=
  existsb (fun k => matches k (use_key u)) (invalidated es).

Lemma refetched_same es u : use_key u ∈ invalidated es -> refetched es u = true.
Proof.
  intros H. apply existsb_exists. exists (use_key u). split; [by apply list_elem_of_In|].
  by apply matches_prefix.
Qed.

(** The effects of a completed [onSuccess], computed. *)
Ltac compute_effects He :=
  cbn [mutation_effects] in He; unfold Keys.createKey_success, Keys.rotateKey_success in He;
  repeat match type of He with context [let! _ := ?x in _] => destruct x; cbn [res_bind] in He end; try done;
  apply Ok_inj in He; subst.

(** The keys of the nearest query are among those invalidated. *)
Lemma nearest_use_invalidated m es v :
  mutation_effects m = Ok es -> nearest_use m = Some v -> use_key v ∈ invalidated es.
Proof.
  intros He Hv. destruct m; cbn [nearest_use] in Hv; try discriminate Hv; apply Some_inj' in Hv as <-;
    compute_effects He; apply list_elem_of_In; simpl; tauto.
Qed.

(** C8: Fresh after writing: the request of every mutation goes to the path
    [mutation_request] gives; whenever its [onSuccess] completes, the queries
    of every page whose resource is the closest one, of the same project, that
    contains the object written (or, after a [DELETE], the collection it was
    in) are refetched; and there is such a query unless no query of the
    project reads a resource containing the written one.  Queries of resources
    below the written one (the rows of a deleted table) are not claimed to be
    refetched, and a call of a function writes below [function-endpoints],
    which no query reads. *)
Theorem mutation_refreshes API_BASE m es :
  mutation_effects m = Ok es ->
  fetches API_BASE (Some (mutation_request m).1) (mutation_request m).2 (mutation_fn API_BASE m) /\
  (forall u, nearest u m ->
    fetches API_BASE None (use_segments u) (program_of (use_fn API_BASE u)) /\ refetched es u = true) /\
  ((exists u, nearest u m) \/ forall u, ~ encloses u m).
Proof.
  intros He. split; [apply mutation_requests|split].
  - intros u Hu. split; [apply use_reads|]. destruct (nearest_key u m Hu) as (v & Hv & Hk).
    apply refetched_same. rewrite Hk. by eapply nearest_use_invalidated.
  - destruct (nearest_use m) as [v|] eqn:Hv; [left; eauto using nearest_use_nearest|right].
    intros u Hu. destruct (enclosing_prefix u m Hu) as (v & Hv' & _). congruence.
Qed.

(** The keys a mutation of a project invalidates contain the project's id. *)
Lemma invalidated_keys m es app k :
  mutation_effects m = Ok es -> mutation_app m = Some app -> k ∈ invalidated es ->
  k = [js "keys"; app_id app] \/ k = [js "functions"; app_id app] \/ (exists a b, k = [a; b; app_id app]) \/
  (exists a b c, k = [a; b; app_id app; c]).
Proof.
  intros He Hm Hk. destruct m; compute_effects He; cbn [mutation_app] in Hm; simplify_eq; cbn in Hk;
    repeat (apply elem_of_cons in Hk as [->|Hk]); try (by apply not_elem_of_nil in Hk); eauto 10.
Qed.

(** C29: Projects are isolated: an invalidation after a mutation in one project
    never refetches a query of another project (for project ids that are not
    the second word of other keys). *)
Theorem invalidation_local m es u app app' :
  mutation_effects m = Ok es -> mutation_app m = Some app -> use_app u = Some app' ->
  app_id app ∉ [js "detail"; js "versions"; js "invocations"] ->
  refetched es u = true -> app_id app' = app_id app.
Proof.
  intros He Hm Hu Hn Hr. apply existsb_exists in Hr as (k & Hk & Hp). apply list_elem_of_In in Hk.
  apply matches_prefix in Hp as [rest Hp]. rewrite !not_elem_of_cons in Hn. destruct Hn as (N1 & N2 & N3 & _).
  destruct (invalidated_keys m es app k He Hm Hk) as [->|[->|[(a & b & ->)|(a & b & c & ->)]]]; clear He Hm Hk;
    destruct u; cbn [use_app] in Hu; try discriminate Hu; apply Some_inj' in Hu; subst;
    unfold_keys Hp; cbn [Datatypes.app] in Hp; try (vm_compute in Hp; discriminate Hp); injection Hp as Hp; congruence.
Qed.
End Mutations.
End Cache.
