(* ===== verification/Witnesses.v ===== *)
(** * Witnesses

    Concrete runs at which the hypotheses of the theorems hold.  The network
    is a script of answers: each request takes the next one, and a request
    with no answer left fails.  Every lemma here applies one theorem of the
    development at such a run. *)

From S2P Require Import Prelude JsString JsNumber JsValue Json Uri TextDecoder Prog Http.
From S2P Require Import Sdk SdkSpec SdkPaths SdkRealtime SdkDist SdkTypes Browser Tasks Session ApiClient.
From S2P Require Import AuthClientWeb CodeEditor Types ConsoleUtils Clipboard Ui Nav Activity.
From S2P Require Import UiKit Shell Concurrent Forms KeysView DataView StorageView FunctionsView AuthView PushView OpsView.
From S2P Require Import QueryCache.
From Stdlib Require Import SpecFloat.

(** ** A scripted network *)

Definition script : Type := list (outcome response).

Definition network_error : thrown := type_error (js "Failed to fetch").

Definition answer (s : script) (url : jsstring) (init : request_init) : script * outcome response :=
  match s with
  | [] => ([], Err network_error)
  | o :: s' => (s', o)
  end.

Definition json_response (code : Z) (text : jsstring) : response :=
  {| status := code;
     resp_headers := {[js "content-type" := js "application/json"]};
     resp_body := Ok text |}.

Definition text_of (v : jsval) : jsstring := default [] (json_stringify v).

Definition user_value : jsval := JObj [(js "id", JStr (js "u1"))].

Definition session_value (acc ref : string) : jsval :=
  JObj [(js "access_token", JStr (js acc)); (js "refresh_token", JStr (js ref)); (js "user", user_value)].

(** ** The SDK *)

Definition client : Sdk.PeanutClient :=
  Sdk.Build_PeanutClient (js "http://localhost") (js "my app") (js "key") 30000 2 200
    [Sdk.SubAuth; Sdk.SubData; Sdk.SubStorage; Sdk.SubFunctions; Sdk.SubPush; Sdk.SubRealtime].

Definition get_init : request_init := {| ri_method := Some (js "GET"); ri_headers := ∅; ri_body := None |}.

Definition flaky : script := [Ok (json_response 503 []); Err network_error; Ok (json_response 200 (js "[1]"))].

Definition sdk_world (s : script) : SdkSpec.world script := SdkSpec.mkWorld s (JStr (js "acc")) 7 [].

Lemma fetchWithRetry_refines_witness :
  let log := retry_log 3 30000 200 (js "/u") get_init 7 0 in
  SdkSpec.exec answer (Sdk.fetchWithRetry client (js "/u") get_init) (sdk_world flaky) =
  (SdkSpec.mkWorld [] (JStr (js "acc")) 10 log, Ok (json_response 200 (js "[1]"))) /\
  fetched log = [(js "/u", get_init); (js "/u", get_init); (js "/u", get_init)].
Proof.
  split; [|reflexivity]. rewrite (fetchWithRetry_refines answer client (js "/u") get_init (sdk_world flaky));
    [reflexivity|simpl; lia].
Defined.

(** A server that stays down: the whole budget of three requests is used. *)
Lemma fetchWithRetry_budget_witness :
  exists k evs, fetched evs = replicate k (js "/u", get_init) /\ (1 <= Z.of_nat k <= 3)%Z /\
    open_timers evs [] = [] /\
    w_log (SdkSpec.exec answer (Sdk.fetchWithRetry client (js "/u") get_init) (sdk_world [])).1 = evs.
Proof.
  destruct (SdkSpec.exec answer (Sdk.fetchWithRetry client (js "/u") get_init) (sdk_world [])) as [w' o] eqn:E.
  destruct (fetchWithRetry_budget answer client (js "/u") get_init (sdk_world []) w' o
              ltac:(simpl; lia) E) as (k & evs & Hl & Hf & Hk & _ & Ht).
  exists k, evs. cbn [fst] in *. exact (conj Hf (conj Hk (conj Ht Hl))).
Defined.

(** A call whose own headers try to replace the credentials. *)
Definition forging : Sdk.request_options :=
  {| Sdk.opt_body := user_value; Sdk.opt_headers := [(js "authorization", js "Bearer other")];
     Sdk.opt_rawBody := None |}.

Lemma request_sends_witness :
  exists w' o evs,
    SdkSpec.exec answer (Sdk.request client (js "POST") (js "/api/x") forging) (sdk_world flaky) = (w', o) /\
    w_log w' = evs /\ length (fetched evs) = 3 /\
    Forall (sent_ok client (JStr (js "acc")) (js "POST") (js "/api/x") forging) (fetched evs).
Proof.
  destruct (SdkSpec.exec answer (Sdk.request client (js "POST") (js "/api/x") forging) (sdk_world flaky))
    as [w' o] eqn:E. exists w', o.
  destruct (request_sends answer client _ _ _ _ w' o ltac:(simpl; lia) E) as (evs & Hl & _ & Hf).
  exists evs. split; [done|]. cbn [w_log sdk_world app] in Hl. split; [done|]. split; [|exact Hf].
  rewrite <- Hl. apply (f_equal fst) in E. cbn [fst] in E. rewrite <- E. vm_compute. reflexivity.
Defined.

(** A request that ends in a 404 with a JSON error body. *)
Lemma request_outcome_witness :
  let body := JObj [(js "error", JStr (js "no row"))] in
  let r := json_response 404 (text_of body) in
  exists w' rs,
    SdkSpec.exec answer (Sdk.request client (js "GET") (js "/api/x") Sdk.no_options) (sdk_world [Ok r]) = (w', rs) /\
    length (fetched (w_log w')) = 1 /\ means r rs /\ rs = Err (Sdk.PeanutError 404 (js "no row") body).
Proof.
  cbv zeta. set (r := json_response _ _).
  destruct (SdkSpec.exec answer (Sdk.request client (js "GET") (js "/api/x") Sdk.no_options) (sdk_world [Ok r]))
    as [w' rs] eqn:E.
  exists w', rs. split; [done|].
  destruct (request_outcome answer client _ _ _ _ w' rs ltac:(simpl; lia) E) as (init & σ & o & k & _ & Ha & Hw & Ho).
  vm_compute in Ha. injection Ha as <- <- <-.
  split; [by rewrite Hw|]. split; [exact Ho|].
  change rs with ((w', rs).2). rewrite <- E. vm_compute. reflexivity.
Defined.

Lemma rowPath_segments_witness :
  let row := js "a/b?c" in
  exists p full a t r, Sdk.rowPath (js "my table") row = Ok p /\ Sdk.appPath client p = Ok full /\
    segment_of (js "my app") a /\ segment_of (js "my table") t /\ segment_of row r /\
    split [cu_slash] full = [[]; js "api"; js "apps"; a; js "data"; js "tables"; t; js "rows"; r].
Proof.
  cbv zeta. eexists _, _.
  destruct (rowPath_segments client (js "my table") (js "a/b?c") eq_refl eq_refl eq_refl)
    as (_ & a & t & r & Ha & Ht & Hr & Hs & _).
  exists a, t, r. repeat (split; [first [reflexivity | assumption]|]). exact Hs.
Defined.

Lemma objectPath_segments_witness :
  exists p full a b ks, Sdk.objectPath (js "files") (js "2024/a b.txt") = Ok p /\
    Sdk.appPath client p = Ok full /\ segment_of (js "my app") a /\ segment_of (js "files") b /\
    Forall2 segment_of [js "2024"; js "a b.txt"] ks /\
    split [cu_slash] full =
      [[]; js "api"; js "apps"; a; js "storage"; js "buckets"; b; js "objects"] ++ ks.
Proof.
  eexists _, _.
  destruct (objectPath_segments client (js "files") (js "2024/a b.txt") eq_refl eq_refl eq_refl)
    as (_ & a & b & ks & Ha & Hb & Hk & Hs & _).
  exists a, b, ks. repeat (split; [first [reflexivity | assumption]|]). exact Hs.
Defined.

Lemma toQuery_decodes_witness :
  let params := [(js "limit", JNum (num_of_Z 10)); (js "cursor", JUndefined); (js "filter", JStr (js "a=1&b"))] in
  exists q query, Sdk.toQuery params = Ok q /\ q = js "?" ++ query /\
    form_parse query = Some [(js "limit", js "10"); (js "filter", js "a=1&b")].
Proof.
  cbv zeta.
  destruct (toQuery_decodes [(js "limit", JNum (num_of_Z 10)); (js "cursor", JUndefined);
                             (js "filter", JStr (js "a=1&b"))]) as (q & Hq & query & Hs & Hf).
  - apply (bool_decide_unpack _). vm_compute. exact I.
  - repeat constructor.
  - repeat constructor.
  - exists q, query. split; [exact Hq|]. split; [exact Hs|]. exact Hf.
Defined.

(** A handler that collects its events, and closes at the number 2. *)
Definition collect (seen : list jsval) (v : jsval) : list jsval * bool * outcome unit :=
  (seen ++ [v], match v with JNum x => SFeqb x (num_of_Z 2) | _ => false end, Ok tt).
Definition collect_all (seen : list jsval) (v : jsval) : list jsval * bool * outcome unit := (seen ++ [v], false, Ok tt).

(** One event split inside a two-byte character and in its blank line, and
    one handler that closes after the first of two events: read apart, the
    second is not delivered. *)
Lemma chunking_irrelevant_witness :
  let run chunks := Realtime.subscribe_task collect_all true (Ok (json_response 200 [])) true
    (map Realtime.Chunk chunks ++ [Realtime.Done]) [] false in
  let run2 chunks := Realtime.subscribe_task collect true (Ok (json_response 200 [])) true
    (map Realtime.Chunk chunks ++ [Realtime.Done]) [] false in
  let two := js "data: 2" ++ [cu_nl; cu_nl] in
  run [js "data: " ++ [34; 195]; [169; 34; cu_nl]; [cu_nl]]%N = run [js "data: " ++ [34; 195; 169; 34; cu_nl; cu_nl]]%N /\
  (run [js "data: " ++ [34; 195; 169; 34; cu_nl; cu_nl]]%N).1 = [Realtime.OnEvent (JStr [233%N])] /\
  (run2 [two; two]).1 `prefix_of` (run [two ++ two]).1 /\
  length (run2 [two; two]).1 = 1 /\ length (run2 [two ++ two]).1 = 2.
Proof.
  split; [|split; [vm_compute; reflexivity|split; [|split; vm_compute; reflexivity]]].
  - apply (proj1 (Realtime.chunking_irrelevant collect_all true (Ok (json_response 200 [])) true
             [js "data: " ++ [34; 195]; [169; 34; cu_nl]; [cu_nl]]%N [js "data: " ++ [34; 195; 169; 34; cu_nl; cu_nl]]%N
             [Realtime.Done] [] false eq_refl)). reflexivity.
  - exact (proj2 (Realtime.chunking_irrelevant collect true (Ok (json_response 200 [])) true
      [js "data: 2" ++ [cu_nl; cu_nl]; js "data: 2" ++ [cu_nl; cu_nl]]
      [(js "data: 2" ++ [cu_nl; cu_nl]) ++ js "data: 2" ++ [cu_nl; cu_nl]] [Realtime.Done] [] false eq_refl)).
Defined.

(** ** The console's session and API client *)

Definition roomy (a : Web.area) (m : Web.items) : bool := true.

Definition stored_items : Web.items :=
  {[js "peanut.accessToken" := js "acc1"; js "peanut.refreshToken" := js "ref1"]}.

Definition tab (s : script) : Web.browser script := Web.mkBrowser true stored_items ∅ s [].

(** Signing in for this tab only, over a remembered session. *)
Lemma storeSession_one_area_witness :
  let b' := (Web.exec answer roomy (Session.storeSession (session_value "acc2" "ref2") (Some false)) (tab [])).1 in
  Session.no_session (Web.b_items b' Web.LocalStorage) /\ Session.one_area b' /\
  Web.b_items b' Web.SessionStorage !! js "peanut.accessToken" = Some (js "acc2").
Proof.
  cbv zeta.
  destruct (Session.storeSession_one_area answer roomy (session_value "acc2" "ref2") (Some false) (tab []) eq_refl)
    as (Hno & Hone & _).
  split; [exact Hno|]. split; [exact Hone|]. vm_compute. reflexivity.
Defined.

Lemma storeSession_roundtrip_witness :
  exists b', Web.exec answer roomy (Session.storeSession (session_value "acc2" "ref2") None) (tab []) = (b', Ok tt) /\
    Web.exec answer roomy Session.readAccessToken b' = (b', Ok (Some (js "acc2"))) /\
    Web.exec answer roomy Session.readRefreshToken b' = (b', Ok (Some (js "ref2"))) /\
    Web.exec answer roomy Session.storedUser b' = (b', Ok user_value).
Proof.
  apply (Session.storeSession_roundtrip answer roomy (session_value "acc2" "ref2") None (tab []));
    try reflexivity.
  simpl. split; [|done]. vm_compute. reflexivity.
Defined.

Definition api_get : Api.ApiInit :=
  {| Api.i_method := None; Api.i_headers := []; Api.i_body := None; Api.i_auth := None |}.

Definition api_get_public : Api.ApiInit :=
  {| Api.i_method := None; Api.i_headers := []; Api.i_body := None; Api.i_auth := Some false |}.

(** An expired token, a renewed session, and the request again. *)
Definition renewal : script :=
  [Ok (json_response 401 []); Ok (json_response 200 (text_of (session_value "acc2" "ref2")));
   Ok (json_response 200 (js "[1]"))].

Lemma apiFetch_protocol_witness :
  exists b' o q q', Web.exec answer roomy (Api.apiFetch (js "http://h") (js "/api/x") api_get) (tab renewal) = (b', o) /\
    Api.prepared (js "http://h") (js "/api/x") api_get (tab renewal) = Ok q /\
    Api.same_but_token q q' /\
    Web.b_sent b' = [q; Api.refresh_request (js "http://h") (js "ref1"); q'].
Proof.
  destruct (Web.exec answer roomy (Api.apiFetch (js "http://h") (js "/api/x") api_get) (tab renewal))
    as [b' o] eqn:E. exists b', o.
  assert (length (Web.b_sent b') = 3) as Hn.
  { change b' with ((b', o).1). rewrite <- E. vm_compute. reflexivity. }
  destruct (Api.apiFetch_protocol answer roomy (js "http://h") (js "/api/x") api_get (tab renewal) b' o E)
    as [(e & He & _)|(q & Hq & [Hs|(t & _ & Ht & [Hs|(q' & Hsame & Hs)])])].
  - vm_compute in He. discriminate.
  - rewrite Hs in Hn. discriminate.
  - rewrite Hs in Hn. discriminate.
  - exists q, q'. vm_compute in Ht. injection Ht as <-.
    split; [reflexivity|]. split; [exact Hq|]. split; [exact Hsame|]. exact Hs.
Defined.

Lemma apiFetch_renews_witness :
  exists b', Web.exec answer roomy (Api.apiFetch (js "http://h") (js "/api/x") api_get) (tab renewal) =
      (b', Ok (JArr [JNum (num_of_Z 1)])) /\
    length (Web.b_sent b') = 3 /\
    Session.stored b' Session.accessKey = Some (js "acc2") /\ Session.stored b' Session.refreshKey = Some (js "ref2").
Proof.
  destruct (Api.apiFetch_renews answer roomy (js "http://h") (js "/api/x") api_get (tab renewal)
    (js "http://h/api/x",
     {| ri_method := None; ri_headers := {[js "authorization" := js "Bearer acc1"]}; ri_body := None |})
    (js "ref1") ∅ {[js "authorization" := js "Bearer acc2"]} (tail renewal) (json_response 401 [])
    (tail (tail renewal)) (json_response 200 (text_of (session_value "acc2" "ref2")))
    (text_of (session_value "acc2" "ref2")) (js "acc2") (js "ref2") user_value []
    (Ok (json_response 200 (js "[1]")))) as (b' & Hb & Hs & Ha & Hr);
    try (vm_compute; reflexivity); try reflexivity.
  exists b'. split; [exact Hb|]. split; [rewrite Hs; reflexivity|]. split; [exact Ha|exact Hr].
Defined.

(** The session is renewed, and the repeated request fails with a body that
    is not JSON: its text is the message. *)
Lemma apiFetch_error_witness :
  let failing := firstn 2 renewal ++ [Ok (json_response 500 (js "[[]"))] in
  exists b' o, Web.exec answer roomy (Api.apiFetch (js "http://h") (js "/api/x") api_get) (tab failing) = (b', o) /\
    Api.replies (json_response 500 (js "[[]")) o /\
    o = Err (TError {| err_name := js "Error"; err_message := Text (js "[[]");
                       err_status := Some 500%Z; err_payload := Some (Api.parsePayload (js "[[]")) |}).
Proof.
  cbv zeta. set (failing := firstn 2 renewal ++ _).
  destruct (Web.exec answer roomy (Api.apiFetch (js "http://h") (js "/api/x") api_get) (tab failing)) as [b' o] eqn:E.
  exists b', o. split; [reflexivity|].
  destruct (Api.apiFetch_error answer roomy (js "http://h") (js "/api/x") api_get (tab failing) b' o E) as (x & Hx & Ho).
  assert (x = Ok (json_response 500 (js "[[]"))) as ->.
  { change x with ((b', x).2). rewrite <- Hx. vm_compute. reflexivity. }
  split; [exact Ho|]. change o with ((b', o).2). rewrite <- E. vm_compute. reflexivity.
Defined.

(** ** The demo page *)

Definition demo_fields : Demo.Fields :=
  Demo.Build_Fields (js "http://localhost") (js "demo") (js "key-000000000001") (js "web") (js "a@b.c")
    (js "pw") (js "pw") (js "pw2") (js "t").

Definition blank_screen : Demo.Screen := Demo.Build_Screen [] [] [] [] [] [].

Definition demo_page (access apiKey : string) : Demo.page :=
  Demo.mkPage (Demo.Build_AuthState (JStr (js access)) (JStr (js "refresh")) JNull [])
    (Demo.Build_Settings (js "http://localhost") (js "demo") (js apiKey) (js "web")) demo_fields blank_screen.

Definition demo_world (access apiKey : string) : Demo.world script :=
  Demo.mkWorld (demo_page access apiKey) [] [].

Lemma demo_page_ok access apiKey : Demo.page_ok (demo_world access apiKey).
Proof. by split; eexists. Qed.

(** The scripted network that has run out of answers sends no bad token. *)
Definition offline (s : script) (url : jsstring) (init : request_init) : script * outcome response :=
  (s, Err network_error).

Lemma offline_typed : Demo.server_typed offline.
Proof. intros s url init s' o [= <- <-]. done. Qed.

Lemma click_contained_witness :
  exists w', Demo.exec offline (Demo.click (fun _ => js "failed") Demo.Login) (demo_world "a" "k") = (w', Ok tt) /\
    Demo.page_ok w'.
Proof.
  destruct (Demo.click_contained offline offline_typed (fun _ => js "failed") Demo.Login
              (demo_world "a" "k") (demo_page_ok "a" "k")) as (w' & Hw & Hok & _).
  exists w'. split; [exact Hw|exact Hok].
Defined.

(** Tokens that differ after their 24th character. *)
Lemma renderState_private_witness :
  let s1 := Demo.screen (Demo.w_page (Demo.exec answer Demo.renderState
    (demo_world "0123456789abcdef0123456789-secret1" "0123456789ab-key1")).1) in
  let s2 := Demo.screen (Demo.w_page (Demo.exec answer Demo.renderState
    (demo_world "0123456789abcdef0123456789-other" "0123456789ab-key2")).1) in
  Demo.with_output (js "none") s1 = Demo.with_output (js "none") s2 /\ Demo.output s1 = [].
Proof.
  destruct (Demo.renderState_private answer
            (demo_world "0123456789abcdef0123456789-secret1" "0123456789ab-key1")
            (demo_world "0123456789abcdef0123456789-other" "0123456789ab-key2")
            _ _ _ _ eq_refl eq_refl ltac:(split; reflexivity) eq_refl eq_refl ltac:(split; reflexivity)
            eq_refl eq_refl eq_refl eq_refl eq_refl ltac:(split; reflexivity)) as (H & Ho & _).
  split; [exact (H (js "none"))|exact Ho].
Defined.

(** ** Clipboard *)

(** [execCommand] is refused; the clipboard API takes the text. *)
Lemma copy_clean_witness :
  let d := Clipboard.mkDom [] 0 (Clipboard.PageRange 4) [] in
  exists d', Clipboard.exec true (fun _ => Ok false) (Some (fun _ _ => Ok tt))
      (Clipboard.copyTextToClipboard (js "text")) d = (d', Ok tt) /\
    Clipboard.d_areas d' = [] /\ Clipboard.d_clipboard d' = js "text".
Proof.
  cbv zeta. set (d := Clipboard.mkDom _ _ _ _).
  pose proof (Clipboard.copy_clean true (fun _ => Ok false) (Some (fun _ _ => Ok tt)) (js "text") d
                (Forall_nil_2 _) (fun _ => I)) as H.
  destruct (Clipboard.exec true (fun _ => Ok false) (Some (fun _ _ => Ok tt))
              (Clipboard.copyTextToClipboard (js "text")) d) as [d' o] eqn:E.
  exists d'. destruct H as (Ha & _ & Ho).
  assert (o = Ok tt) as ->. { change o with ((d', o).2). rewrite <- E. vm_compute. reflexivity. }
  split; [reflexivity|]. split; [exact Ha|exact Ho].
Defined.

(** ** The code editor *)

Definition writable : Editor.props := {| Editor.hasOnChange := true; Editor.readOnly := false |}.

Definition edits : list Editor.snapshot := [Editor.mkSnap (js "ab") 2 2; Editor.mkSnap (js "abc") 3 3].

Definition ctrl_z : Editor.key_event :=
  {| Editor.metaKey := false; Editor.ctrlKey := true; Editor.shiftKey := false; Editor.key := js "Z" |}.

(** An edit, and its undo by keyboard. *)
Definition undone : Editor.editor :=
  Editor.handleTab writable ctrl_z
    (Editor.onTextChange writable (js "ab") 2 2 (Editor.select 2 2 (Editor.mount (js "a")))).

Lemma history_invariant_witness :
  1 <= length (Editor.history undone) <= 100 /\ Editor.historyIndex undone < length (Editor.history undone) /\
  exists s, Editor.history undone !! Editor.historyIndex undone = Some s /\ Editor.s_value s = Editor.value undone.
Proof.
  apply (Editor.history_invariant writable (js "a")).
  eapply Editor.reach_step; [|exact (Editor.StepKey writable ctrl_z _)].
  eapply Editor.reach_step; [|exact (Editor.StepType writable (js "ab") 2 2 _)].
  apply Editor.reach_mount.
Defined.

Lemma undo_reaches_witness :
  Editor.value (Nat.iter 1 (Editor.undo writable) (Editor.type_all writable edits (Editor.mount (js "a")))) = js "ab" /\
  Editor.value (Nat.iter 2 (Editor.undo writable) (Editor.type_all writable edits (Editor.mount (js "a")))) = js "a".
Proof.
  split.
  - destruct (Editor.undo_reaches writable eq_refl (js "a") edits 1) as (s & Hs & Hv);
      [by split|simpl; lia..|]. injection Hs as <-. exact Hv.
  - destruct (Editor.undo_reaches writable eq_refl (js "a") edits 2) as (s & Hs & Hv);
      [by split|simpl; lia..|]. injection Hs as <-. exact Hv.
Defined.

Definition editing (text : jsstring) (i j : nat) : Editor.editor :=
  Editor.mkEditor text [Editor.mkSnap text 0 0] 0 1 0 0 i j [].

Lemma tab_shift_tab_witness :
  let e := editing (js "ab" ++ [cu_nl] ++ js "  cd") 1 5 in
  let e' := Editor.runFrame (Editor.unindentSelection writable (Editor.runFrame (Editor.indentSelection writable e))) in
  Editor.value e' = Editor.value e /\ Editor.selStart e' = 1 /\ Editor.selEnd e' = 5.
Proof.
  apply (Editor.tab_shift_tab writable eq_refl (editing (js "ab" ++ [cu_nl] ++ js "  cd") 1 5));
    try reflexivity; try (simpl; lia).
  repeat constructor.
Defined.

(** ** Display helpers *)

Lemma formatBytes_scaled_witness :
  Utils.formatBytes 1536 = js "1.5 KB" /\
  exists k f u, Utils.formatBytes 1536 = Utils.decimal u f ++ js " " ++ nth k Utils.units [] /\
    (1024 ^ Z.of_nat (S k) <= 1536)%Z /\ (f = 0 <-> (10 * 1024 ^ Z.of_nat (S k) <= 1536)%Z).
Proof.
  split; [vm_compute; reflexivity|].
  destruct (Utils.formatBytes_scaled 1536 ltac:(lia)) as (k & f & u & _ & _ & He & Hk & _ & Hf & _).
  exists k, f, u. split; [exact He|]. split; [exact Hk|exact Hf].
Defined.

Lemma usagePercent_bounds_witness :
  SFleb (num_of_Z 0) (Utils.usagePercent 30 20) = true /\
  SFleb (Utils.usagePercent 30 20) (num_of_Z 100) = true.
Proof.
  apply Utils.usagePercent_bounds; [lia|]. right. vm_compute. eexists _, _. reflexivity.
Defined.

Lemma buildQueryString_decodes_witness :
  let value := text_of (JObj [(js "q", JStr (js "a&b")); (js "none", JNull);
                              (js "n", JArr [JNum (num_of_Z 2); JNum (num_of_Z 3)])]) in
  exists q pairs, Utils.buildQueryString value (js "bad") = Ok q /\ form_parse q = Some pairs /\
    Utils.get_all (js "q") pairs = [js "a&b"] /\ Utils.get_all (js "n") pairs = [js "2"; js "3"] /\
    Utils.get_all (js "none") pairs = [].
Proof.
  cbv zeta. set (l := [_; _; (js "n", _)]).
  destruct (Utils.buildQueryString_decodes (text_of (JObj l)) (js "bad") l) as (q & pairs & Hq & _ & Hf & Hl & _).
  - vm_compute. reflexivity.
  - apply (bool_decide_unpack _). vm_compute. exact I.
  - repeat constructor.
  - assert (forall v text, to_string v = Ok (js text) -> well_formed (js text) = true ->
      exists s, Utils.has_text v s /\ well_formed s = true) as Ht by eauto.
    constructor; [|constructor; [|constructor; [|constructor]]]; cbn [Utils.query_values fst snd].
    + constructor; [apply (Ht _ "a&b"%string); vm_compute; reflexivity|constructor].
    + constructor.
    + constructor; [apply (Ht _ "2"%string); vm_compute; reflexivity|].
      constructor; [apply (Ht _ "3"%string); vm_compute; reflexivity|constructor].
  - exists q, pairs. split; [exact Hq|]. split; [exact Hf|].
    pose proof (Hl (js "q") _ ltac:(left)) as H1. pose proof (Hl (js "none") _ ltac:(right; left)) as H2.
    pose proof (Hl (js "n") _ ltac:(right; right; left)) as H3. cbn [Utils.query_values] in H1, H2, H3.
    apply Forall2_cons_inv_l in H1 as (t1 & r1 & E1 & H1 & G1). apply Forall2_nil_inv_l in H1, H2.
    apply Forall2_cons_inv_l in H3 as (t2 & r2 & E2 & H3 & G3).
    apply Forall2_cons_inv_l in H3 as (t3 & r3 & E3 & H3 & ->). apply Forall2_nil_inv_l in H3.
    unfold Utils.has_text in E1, E2, E3. vm_compute in E1, E2, E3. apply Ok_inj in E1, E2, E3. subst t1 t2 t3 r1 r3.
    rewrite G1, G3, H2. split; [|split]; reflexivity.
Defined.

(** ** The console's shell and views *)

Definition signed_in : Shell.AppState := Shell.mkApp user_value false Vkeys (js "default").

Lemma onLogout_signs_out_witness :
  exists b', Web.exec answer roomy (Shell.onLogout (js "http://h") signed_in) (tab [Ok (json_response 500 [])]) =
      (b', Ok (Shell.with_user JNull signed_in, [ClearQueries])) /\
    Shell.signed_out b'.
Proof. apply Shell.onLogout_signs_out. reflexivity. Defined.

Lemma meErrorEffect_renews_or_drops_witness :
  exists b' s' es, Web.exec answer roomy (Shell.meErrorEffect (js "http://h") signed_in)
      (tab [Ok (json_response 200 (text_of (session_value "acc2" "ref2")))]) = (b', Ok (s', es)) /\
    ((s' = Shell.with_user JNull signed_in /\ es = [] /\ Shell.signed_out b') \/
     (exists u text, s' = Shell.with_user u signed_in /\ es = [InvalidateAll] /\
        to_string (Session.stringify_val u) = Ok text /\ Session.stored b' Session.userKey = Some text)).
Proof. apply Shell.meErrorEffect_renews_or_drops. reflexivity. Defined.

Definition english : translator := fun ns key _ => ns ++ js "." ++ key.

Definition project (id : string) : AppSummary :=
  Build_AppSummary (js id) (js "w") (js id) (js id) None [] [] None None None.

Definition key_value (id : string) (revoked : jsval) : jsval :=
  JObj [(js "id", JStr (js id)); (js "name", JStr (js id)); (js "key_type", JStr (js "server"));
        (js "prefix", JStr (js "pk_")); (js "created_at", JStr []); (js "revoked_at", revoked)].

Definition key_list : list jsval := [key_value "live" JNull; key_value "old" (JStr (js "2024"))].

(** The live key can be revoked. *)
Lemma revoked_keys_inert_witness :
  exists n, Keys.KeysView english (fun _ => (false, false)) (Keys.keys_mount english) (Some key_list) false false = Ok n /\
    Keys.KRevoke (js "live") (js "live") ∈ enabled n /\
    exists keys key, Some key_list = Some keys /\ key ∈ keys /\
      to_string (get_opt key (js "id")) = Ok (js "live") /\ truthy (get_opt key (js "revoked_at")) = false.
Proof.
  eexists. split; [reflexivity|].
  assert (Keys.KRevoke (js "live") (js "live") ∈
    enabled (default (TextNode []) (match Keys.KeysView english (fun _ => (false, false)) (Keys.keys_mount english)
                                            (Some key_list) false false with Ok n => Some n | Err _ => None end)))
    as Hin. { vm_compute. repeat first [left | right]. }
  split; [exact Hin|].
  exact (Keys.revoked_keys_inert english (fun _ => (false, false)) (Keys.keys_mount english) (Some key_list)
           false false _ (Keys.KRevoke (js "live") (js "live")) eq_refl Hin).
Defined.

Definition closed_row (id : jsstring) : Apps.RowState := Apps.mkRow false [].

Lemma default_app_kept_witness :
  Apps.ADelete (js "blog") ∈ enabled (Apps.AppsView english closed_row (fun _ => (false, false))
      (Apps.mkApps false [] []) [project "default"; project "blog"] false) /\
  (js "blog" <> js "default" /\ (false, false).2 = false /\
   exists app, app ∈ [project "default"; project "blog"] /\ app_id app = js "blog").
Proof.
  assert (Apps.ADelete (js "blog") ∈ enabled (Apps.AppsView english closed_row (fun _ => (false, false))
      (Apps.mkApps false [] []) [project "default"; project "blog"] false)) as Hin.
  { vm_compute. repeat first [left | right]. }
  split; [exact Hin|].
  exact (Apps.default_app_kept english closed_row (fun _ => (false, false)) (Apps.mkApps false [] [])
           [project "default"; project "blog"] false (Apps.ADelete (js "blog")) Hin).
Defined.



Definition bucket : StorageBucket :=
  Build_StorageBucket (js "b1") (js "blog") (js "files") true None (Some 1024%Z)
    (Some [js "image/png"; js "text/plain"]) None [] [].

Lemma bucket_form_faithful_witness :
  Storage.bucket_settings (Storage.bucket_form_mount bucket) =
  JObj [(js "public_read", JBool true); (js "allow_client_uploads", JBool false);
        (js "max_object_bytes", JNum (num_of_Z 1024));
        (js "allowed_mime_types", JArr [JStr (js "image/png"); JStr (js "text/plain")])].
Proof.
  apply (Storage.bucket_form_faithful bucket); [|simpl; lia].
  repeat (apply Forall_cons; split; [|]); [..|apply Forall_nil; done];
    (split; [reflexivity|split; [reflexivity|apply (bool_decide_unpack _); vm_compute; exact I]]).
Defined.

(** Deleting [a?b] while [a] exists. *)
Definition delete_a : jsstring * request_init :=
  (js "http://h" ++ Storage.objectPath (project "blog") (js "files") (js "a"),
   {| ri_method := Some (js "DELETE"); ri_headers := {[js "authorization" := js "Bearer acc1"]}; ri_body := None |}).

Lemma deleteObject_wrong_target_witness :
  exists b' o url init l,
    Web.exec answer roomy (Storage.deleteObject (js "http://h") (project "blog") (js "files") (js "a?b"))
      (tab [Ok (json_response 204 [])]) = (b', o) /\
    Web.b_sent b' = (url, init) :: l /\ ri_method init = Some (js "DELETE") /\
    Storage.address_path url =
      Storage.address_path (js "http://h" ++ Storage.objectPath (project "blog") (js "files") (js "a")).
Proof.
  destruct (Web.exec answer roomy (Storage.deleteObject (js "http://h") (project "blog") (js "files") (js "a?b"))
      (tab [Ok (json_response 204 [])])) as [b' o] eqn:E. exists b', o.
  destruct (Storage.deleteObject_wrong_target (js "http://h") (project "blog") answer roomy
              (tab [Ok (json_response 204 [])]) b' o (js "files") (js "a") cu_question (js "b")
              delete_a (or_introl eq_refl) ltac:(vm_compute; reflexivity) E) as (url & l & Hs & Hm & Ha & _).
  exists url. eexists _, l. split; [reflexivity|]. split; [exact Hs|]. split; [exact Hm|exact Ha].
Defined.

Definition function_summary (name : string) : FunctionSummary :=
  Build_FunctionSummary (js name) (js "blog") (js name) (js name) (js name) (js "javascript") (js "public") 60 false 5000
    true 2 0 [].

Definition function_detail (name code : string) : FunctionDetail :=
  Build_FunctionDetail (function_summary name) (js code) [] [] [] [] [] [].

Definition functions_of (name : jsstring) : outcome FunctionDetail :=
  if jseq name (js "a") then Ok (function_detail "a" "return 1")
  else if jseq name (js "b") then Ok (function_detail "b" "return 2")
  else Err network_error.

(** Selecting [a], then [b], with the drafts arriving in order. *)
Definition opened_b : Functions.FunctionsState :=
  (Functions.draftLoaded (functions_of (js "b"))
     (Functions.draftLoaded (functions_of (js "a"))
        (Functions.with_selected (js "b") (Functions.with_selected (js "a") Functions.functions_mount))).1).1.

Lemma selected_draft_faithful_witness :
  Functions.activeName opened_b None = js "b" /\
  Functions.updateFunction (js "http://h") (project "blog") (Functions.activeName opened_b None) opened_b =
  Api.apiFetch (js "http://h") (Functions.functionPath (project "blog") (js "b") [])
    (Forms.json_init (js "PATCH")
      (JObj [(js "display_name", JStr (js "b")); (js "endpoint_slug", JStr (js "b"));
             (js "runtime", JStr (js "javascript")); (js "source_code", JStr (js "return 2"));
             (js "invoke_policy", JStr (js "public")); (js "timeout_ms", JNum (num_of_Z 5000));
             (js "enabled", JBool true)])).
Proof.
  apply (Functions.selected_draft_faithful (js "http://h") (project "blog") functions_of opened_b None
           (function_detail "b" "return 2")); [|reflexivity..].
  eapply Functions.fn_next; [|apply (Functions.StepLoaded functions_of true (js "b") _ [] []); reflexivity].
  eapply Functions.fn_next; [|apply (Functions.StepLoaded functions_of true (js "a") _ [] [js "b"]); reflexivity].
  eapply Functions.fn_next; [|apply (Functions.StepSelect functions_of true (js "b") _ [js "a"]); reflexivity].
  eapply Functions.fn_next; [|apply (Functions.StepSelect functions_of true (js "a") _ []); reflexivity].
  apply Functions.fn_start.
Defined.

Lemma late_draft_overwrites_witness :
  exists s, Functions.fn_reachable functions_of false (s, []) /\ Functions.activeName s None = js "b" /\
    Functions.draft s = Functions.applyFunctionDraft (function_detail "a" "return 1") /\
    Functions.updateFunction (js "http://h") (project "blog") (js "b") s =
    Api.apiFetch (js "http://h") (Functions.functionPath (project "blog") (js "b") [])
      (Forms.json_init (js "PATCH")
        (JObj (Functions.update_members (Functions.applyFunctionDraft (function_detail "a" "return 1"))))).
Proof.
  apply (Functions.late_draft_overwrites (js "http://h") (project "blog") functions_of (js "a") (js "b")
           (function_detail "a" "return 1") (function_detail "b" "return 2") None); reflexivity.
Defined.

Definition idle : Functions.Pending := Functions.Build_Pending false false false false false false false false.

Definition version (n : Z) (active : bool) : FunctionVersionSummary :=
  Build_FunctionVersionSummary [] [] [] n (js "javascript") (js "public") 5000 [] [] 0 active.

Definition functions_data : Functions.Data :=
  Functions.Build_Data None (Some [function_summary "a"]) false None
    (Some [version 2 true; version 1 false]) false (Some []) false.

Lemma functions_actions_guarded_witness :
  Functions.FRollback 1 ∈
    enabled (Functions.FunctionsView english (project "blog") [] Functions.functions_mount functions_data idle) /\
  exists v, v ∈ [version 2 true; version 1 false] /\ fv_version_number v = 1%Z /\ fv_is_active v = false.
Proof.
  assert (Functions.FRollback 1 ∈
    enabled (Functions.FunctionsView english (project "blog") [] Functions.functions_mount functions_data idle)) as Hin.
  { vm_compute. repeat first [left | right]. }
  split; [exact Hin|].
  exact (proj2 (Functions.functions_actions_guarded english (project "blog") [] Functions.functions_mount
                  functions_data idle (Functions.FRollback 1) Hin)).
Defined.

Lemma initial_save_overwrites_witness :
  Functions.FUpdate ∈
    enabled (Functions.FunctionsView english (project "blog") [] Functions.functions_mount functions_data idle) /\
  Functions.updateFunction (js "http://h") (project "blog") (js "a") Functions.functions_mount =
  Api.apiFetch (js "http://h") (Functions.functionPath (project "blog") (js "a") [])
    (Forms.json_init (js "PATCH") (JObj (Functions.update_members Functions.draft0))).
Proof.
  exact (Functions.initial_save_overwrites (js "http://h") english (project "blog") [] functions_data idle
           (function_summary "a") [] eq_refl eq_refl eq_refl eq_refl).
Defined.

Definition user (id : string) : PeanutUser := Build_PeanutUser (js id) (js "blog") (js id) true false [].

Definition session_json (id : string) (active : bool) : jsval :=
  JObj [(js "session_id", JStr (js id)); (js "is_active", JBool active)].

(** The active session of the first user can be revoked. *)
Lemma auth_actions_guarded_witness :
  exists n, Users.AuthView english (fun _ => (false, false)) (fun _ => false) Users.users_mount
      (Some [user "u1"; user "u2"]) (Some [session_json "s1" true; session_json "s2" false]) None false false false = Ok n /\
    Users.URevoke (js "u1") (js "s1") ∈ enabled n /\
    Users.firstUserId Users.users_mount (Some [user "u1"; user "u2"]) = Some (js "u1") /\
    exists x, x ∈ [session_json "s1" true; session_json "s2" false] /\ truthy (get_opt x (js "is_active")) = true.
Proof.
  eexists. split; [reflexivity|].
  assert (Users.URevoke (js "u1") (js "s1") ∈ enabled (default (TextNode [])
    (match Users.AuthView english (fun _ => (false, false)) (fun _ => false) Users.users_mount
      (Some [user "u1"; user "u2"]) (Some [session_json "s1" true; session_json "s2" false]) None false false false
     with Ok n => Some n | Err _ => None end))) as Hin. { vm_compute. repeat first [left | right]. }
  split; [exact Hin|].
  destruct (Users.auth_actions_guarded english (fun _ => (false, false)) (fun _ => false) Users.users_mount
      (Some [user "u1"; user "u2"]) (Some [session_json "s1" true; session_json "s2" false]) None false false false _
      (Users.URevoke (js "u1") (js "s1")) eq_refl Hin) as (Hf & _ & _ & x & Hx & _ & Ha).
  split; [exact Hf|]. exists x. split; [exact Hx|exact Ha].
Defined.

Definition backups : BackupsResponse :=
  Build_BackupsResponse [Build_BackupSummary (js "b1.db") 2048 []] (Some (Build_RestorePendingSummary (js "b1.db") true None None)).

Lemma ops_actions_guarded_witness :
  exists n, Ops.OpsView english string_of_Z None None None false None false (Some backups) false false false = Ok n /\
    Ops.ORestore (js "b1.db") ∈ enabled n /\
    exists b, b ∈ br_backups backups /\ bk_name b = js "b1.db".
Proof.
  eexists. split; [reflexivity|].
  assert (Ops.ORestore (js "b1.db") ∈ enabled (default (TextNode [])
    (match Ops.OpsView english string_of_Z None None None false None false (Some backups) false false false
     with Ok n => Some n | Err _ => None end))) as Hin. { vm_compute. repeat first [left | right]. }
  split; [exact Hin|].
  exact (Ops.ops_actions_guarded english string_of_Z None None None false None false (Some backups) false false false _
           (Ops.ORestore (js "b1.db")) eq_refl Hin).
Defined.

(** ** Typed logins *)

Definition typed_user : jsval :=
  JObj [(js "id", JStr (js "u1")); (js "email", JStr (js "a@b.c")); (js "is_active", JBool true);
        (js "is_admin", JBool false)].

Definition login_value : jsval :=
  JObj [(js "access_token", JStr (js "acc9")); (js "refresh_token", JStr (js "ref9"));
        (js "token_type", JStr (js "bearer")); (js "expires_at", JStr (js "2026")); (js "user", typed_user)].

(** A login, then a request whose own headers claim another token. *)
Lemma typed_login_authenticates_witness :
  let login := Dist.CLogin (js "a@b.c") (js "pw") in
  let w := sdk_world [Ok (json_response 200 (text_of login_value)); Ok (json_response 200 (js "[1]"))] in
  let w1 := (SdkSpec.exec answer (Dist.src_call client login) w).1 in
  let w2 := (SdkSpec.exec answer (Sdk.request client (js "GET") (js "/api/x") forging) w1).1 in
  exists evs, w_token w2 = JStr (js "acc9") /\ w_log w2 = w_log w1 ++ evs /\ length (fetched evs) = 1 /\
    Forall (fun q => header_is (js "Authorization") (js "Bearer acc9") (ri_headers q.2)) (fetched evs).
Proof.
  cbv zeta. set (w := sdk_world _). set (w1 := (SdkSpec.exec answer (Dist.src_call _ _) w).1).
  set (r := SdkSpec.exec answer (Sdk.request client (js "GET") (js "/api/x") forging) w1).
  destruct (Ts.typed_login_authenticates answer client (Dist.CLogin (js "a@b.c") (js "pw")) w w1 login_value
              (js "GET") (js "/api/x") forging r.1 r.2) as (t & evs & Ht & Hw & Hl & Hf).
  - simpl. lia.
  - left. by eexists _, _.
  - vm_compute. reflexivity.
  - intros T [= <-]. vm_compute. reflexivity.
  - apply surjective_pairing.
  - apply Ok_inj in Ht. injection Ht as <-. exists evs. split; [exact Hw|]. split; [exact Hl|].
    split; [|eapply Forall_impl; [exact Hf|]; intros q Hq; exact (Hq eq_refl)].
    assert (length (fetched (w_log r.1)) = length (fetched (w_log w1)) + 1) as Hn by (vm_compute; reflexivity).
    rewrite Hl in Hn. unfold fetched in *. rewrite omap_app, length_app in Hn. lia.
Defined.

(** ** Interleavings *)

Definition me_request : Concurrent.job := Concurrent.JobFetch (js "/api/admin/auth/me") api_get.
Definition apps_request : Concurrent.job := Concurrent.JobFetch (js "/api/apps") api_get.

Definition start_jobs : list Concurrent.job -> list (Tasks.task Concurrent.job_result) :=
  Concurrent.start (js "http://h") english.

(** A request that renews the session, and a sign-out, taking turns. *)
Lemma jobs_finish_witness :
  let sch := flat_map (fun _ => [0; 1]) (seq 0 7) in
  let s := Tasks.run_schedule answer roomy sch (tab renewal, start_jobs [me_request; Concurrent.JobLogout signed_in]) in
  Forall Tasks.finished s.2 /\ length (Web.b_sent s.1) <= 6.
Proof.
  cbv zeta.
  apply (Concurrent.jobs_finish answer roomy (js "http://h") english [me_request; Concurrent.JobLogout signed_in]
           (flat_map (fun _ => [0; 1]) (seq 0 7)) (tab renewal)).
  intros i Hi. destruct i as [|[|i]]; [vm_compute; lia..|]. simpl in Hi. lia.
Defined.

(** The same activities, stopped in the middle. *)
Lemma interleaving_safe_witness :
  let jobs := [me_request; Concurrent.JobLogout signed_in] in
  let s := Tasks.run_schedule answer roomy [0; 1; 0; 0; 1; 0] (tab renewal, start_jobs jobs) in
  length (Web.b_sent s.1) = 3 /\ Session.one_area s.1 /\
  Web.b_items s.1 Web.LocalStorage !! js "peanut.locale" = None.
Proof.
  cbv zeta. split; [vm_compute; reflexivity|].
  destruct (Concurrent.interleaving_safe answer roomy (js "http://h") english
              [me_request; Concurrent.JobLogout signed_in] (tab renewal)
              (Tasks.run_schedule answer roomy [0; 1; 0; 0; 1; 0]
                 (tab renewal, start_jobs [me_request; Concurrent.JobLogout signed_in]))) as [H1 H2].
  - reflexivity.
  - right. vm_compute. reflexivity.
  - apply Tasks.schedules_reach. eexists. reflexivity.
  - split; [exact H1|]. rewrite H2; [reflexivity|]. apply (bool_decide_unpack _). vm_compute. exact I.
Defined.

(** Both requests expire together; the second renewal is refused. *)
Definition race_answers : script :=
  [Ok (json_response 401 []); Ok (json_response 401 []);
   Ok (json_response 200 (text_of (session_value "acc2" "ref2"))); Ok (json_response 401 [])].

(** The request for [path] with the token of [tab]. *)
Definition asked (path : string) : jsstring * request_init :=
  (js path, {| ri_method := None; ri_headers := {[js "authorization" := js "Bearer acc1"]}; ri_body := None |}).

Lemma login_body_of acc ref : Concurrent.login_body (session_value acc ref) (js acc) (js ref).
Proof. split; [done|]. split; [done|]. eexists _, _. split; [done|]. reflexivity. Qed.

Lemma refresh_race_witness :
  let s := Tasks.run_schedule answer roomy [0; 1; 0; 1; 0; 1; 0; 1; 0; 1]
             (tab race_answers, start_jobs [me_request; apps_request]) in
  s.2 !! 1 = Some (Tasks.Finished (res_map Concurrent.GotValue (Api.conclude (json_response 401 [])))) /\
  Session.stored s.1 Session.accessKey = Some (js "acc2") /\ length (Web.b_sent s.1) = 5.
Proof.
  pose proof (Concurrent.refresh_race answer roomy (js "http://h") english (js "/api/admin/auth/me") api_get
    (js "/api/apps") api_get (tab race_answers) (js "ref1") (asked "http://h/api/admin/auth/me")
    (asked "http://h/api/apps") (tail race_answers) (tail (tail race_answers)) (tail (tail (tail race_answers))) []
    (json_response 401 []) (json_response 401 []) (json_response 200 (text_of (session_value "acc2" "ref2")))
    (json_response 401 []) (session_value "acc2" "ref2") (js "acc2") (js "ref2") (js "Bearer acc2")
    (match Api.conclude (json_response 401 []) with Err e => e | Ok _ => network_error end)) as H.
  cbv zeta. unfold start_jobs, me_request, apps_request.
  specialize (H eq_refl (fun _ _ => eq_refl) eq_refl eq_refl ltac:(vm_compute; reflexivity)
    ltac:(vm_compute; reflexivity) ltac:(vm_compute; reflexivity) eq_refl eq_refl eq_refl eq_refl eq_refl
    ltac:(vm_compute; reflexivity) (login_body_of _ _) ltac:(vm_compute; reflexivity) eq_refl
    ltac:(vm_compute; reflexivity)).
  revert H. generalize (Tasks.run_schedule answer roomy [0; 1; 0; 1; 0; 1; 0; 1; 0; 1]
    (tab race_answers, Concurrent.start (js "http://h") english
       [Concurrent.JobFetch (js "/api/admin/auth/me") api_get; Concurrent.JobFetch (js "/api/apps") api_get])).
  intros [b' ts] (H1 & _ & H2 & _ & q & H3). cbn [fst snd].
  split; [exact H1|]. split; [exact H2|]. rewrite H3. reflexivity.
Defined.

(** The renewal arrives after the sign-out. *)
Lemma logout_race_witness :
  let s := Tasks.run_schedule answer roomy [0; 0; 0; 0; 1; 1; 1; 0]
             (tab renewal, start_jobs [me_request; Concurrent.JobLogout signed_in]) in
  s.2 !! 1 = Some (Tasks.Finished (Ok (Concurrent.GotState (Shell.with_user JNull signed_in) [ClearQueries]))) /\
  Session.stored s.1 Session.accessKey = Some (js "acc2") /\ Session.stored s.1 Session.refreshKey = Some (js "ref2").
Proof.
  pose proof (Concurrent.logout_race answer roomy (js "http://h") english (js "/api/admin/auth/me") api_get
    signed_in (tab renewal) (js "ref1") (asked "http://h/api/admin/auth/me") (tail renewal) (tail (tail renewal))
    (json_response 401 []) (json_response 200 (text_of (session_value "acc2" "ref2"))) (session_value "acc2" "ref2")
    (js "acc2") (js "ref2") (js "Bearer acc2")) as H.
  cbv zeta. unfold start_jobs, me_request.
  specialize (H eq_refl (fun _ _ => eq_refl) eq_refl ltac:(vm_compute; reflexivity)
    ltac:(vm_compute; reflexivity) eq_refl eq_refl eq_refl
    ltac:(vm_compute; reflexivity) (login_body_of _ _) ltac:(vm_compute; reflexivity)).
  revert H. generalize (Tasks.run_schedule answer roomy [0; 0; 0; 0; 1; 1; 1; 0]
    (tab renewal, Concurrent.start (js "http://h") english
       [Concurrent.JobFetch (js "/api/admin/auth/me") api_get; Concurrent.JobLogout signed_in])).
  intros [b' ts] H. exact H.
Defined.

(** ** The query cache *)

(** A prefix test, as the query library documents its own. *)
Definition starts_with (filter key : list jsstring) : bool := bool_decide (filter `prefix_of` key).

Lemma starts_with_prefix filter key : starts_with filter key = true <-> filter `prefix_of` key.
Proof. apply bool_decide_eq_true. Qed.

(** The overview and the activity page of one project. *)
Lemma cache_coherent_witness :
  Cache.fn_equiv (Cache.use_fn (js "http://h") (Cache.OverviewActivity (project "blog")))
    (Cache.use_fn (js "http://h") (Cache.ActivityEvents (project "blog"))).
Proof. apply (Cache.cache_coherent (js "http://h")). reflexivity. Defined.

Definition deleting : Cache.mutation := Cache.MDeleteUser (project "blog") (user "u1") Users.users_mount.

Definition deleting_effects : list effect :=
  match Cache.mutation_effects english deleting with Ok es => es | Err _ => [] end.

(** Deleting a user reloads the users on the push page too. *)
Lemma mutation_refreshes_witness :
  Cache.refetched starts_with deleting_effects (Cache.PushUsers (project "blog")) = true.
Proof.
  destruct (Cache.mutation_refreshes english starts_with starts_with_prefix (js "http://h") deleting deleting_effects
              eq_refl) as (_ & Hu & _).
  apply (Hu (Cache.PushUsers (project "blog"))).
  exact (Cache.nearest_use_nearest deleting (Cache.AuthUsers (project "blog")) eq_refl).
Defined.

(** The same project after it was renamed: its list of users is reloaded. *)
Definition renamed : AppSummary := Build_AppSummary (js "blog") (js "w") (js "journal") (js "journal") None [] [] None None None.

Lemma invalidation_local_witness :
  Cache.refetched starts_with deleting_effects (Cache.AuthUsers renamed) = true /\
  app_id renamed = app_id (project "blog").
Proof.
  assert (Cache.refetched starts_with deleting_effects (Cache.AuthUsers renamed) = true) as Hr
    by (vm_compute; reflexivity).
  split; [exact Hr|].
  refine (Cache.invalidation_local english starts_with starts_with_prefix deleting deleting_effects
           (Cache.AuthUsers renamed) (project "blog") renamed eq_refl eq_refl eq_refl _ Hr).
  apply (bool_decide_unpack _). vm_compute. exact I.
Defined.

(** ** The UI kit *)

Definition class_list (l : list Kit.pval) : Kit.pval := default Kit.PUndef (head l).
Definition no_classes (c : Kit.cva_config) (l : list (string * Kit.pval)) : Kit.pval := Kit.PStr (Kit.base c).

(** A disabled button of the kit is disabled, and its variant stays inside. *)
Lemma kit_transparent_witness :
  exists tag a l,
    Kit.Button id class_list no_classes
      {["disabled" := Kit.PBool true; "variant" := Kit.PStr "outline"]} [] = Kit.Elem tag a l /\
    a !! "disabled" = Some (Kit.PBool true) /\ a !! "variant" = None.
Proof.
  destruct (Kit.kit_transparent id class_list no_classes Kit.PUndef
    (Kit.mkKit "Button" (Kit.Button id class_list no_classes) [] ["className"; "variant"; "size"; "asChild"]
       ["variant"; "size"; "asChild"] (Some "button")))
    with (p := {["disabled" := Kit.PBool true; "variant" := Kit.PStr "outline"]} : gmap string Kit.pval) (ch := @nil Kit.elem)
    as (tag & a & l & He & Hp & Hh & _).
  - left.
  - exists tag, a, l. split; [exact (f_equal (default (Kit.Text EmptyString)) He)|]. split.
    + apply Hp; [|reflexivity]. apply (bool_decide_unpack _). vm_compute. exact I.
    + apply Hh. left.
Defined.
